(* ===== verification/_CoqProject ===== *)
-Q . S2P
Prelude.v
Machine.v
Causal.v
System.v
Pairs.v
CString.v
Laws.v
Iface.v
Syscalls.v
Migration.v
Mapping.v
Litmus.v
Threads.v
Getopt.v
ReleaseTs.v
Double.v
Clocks.v
Uncache.v
Setup.v
RtLaunch.v
BaseTask.v
BaseMtTask.v
Runner.v
ExecTimes.v
Spin.v
Rtspin.v
Measure.v
Types.v
Tests.v
TestLocks.v
TestNesting.v
TestFdso.v
TestCoreApi.v
TestPcp.v
TestSched.v
LockSpec.v
LockTests.v
AdmissionTests.v
RateTests.v
Catalog.v
Suite.v
EndToEnd.v
Causality.v
RunnerSystem.v
SuiteSystem.v
AdmissionSystem.v
ForkTests.v
Scripts.v
