(* ===== verification/Prelude.v ===== *)
(** * liblitmus, verified: overview and shared prelude

    liblitmus is the user-space library of LITMUS^RT, a real-time extension of
    Linux, with its command-line tools and its test suite.  Almost everything
    it does is a conversation with the kernel: system calls, files of
    /proc/litmus, a control page shared with the scheduler.  This development
    translates the C code of the library (src/), the tools (bin/), the test
    runner and the sixty test cases (tests/, include/tests.h), the Python
    generator of the runner's tables (tests/make_catalog.py) and the two shell
    scripts into executable definitions and proves what they guarantee whatever
    the kernel answers, or under laws that are named where they are used.

    ** How C is modelled

    A C function is a computation in the monad [M] of [Machine]: it passes the
    state of the calling thread (the trace of what it did, [errno], the pointer
    to its control page and the [np.flag] of mapped pages) and ends with a
    value, an exit status, a failed assertion, a fault (undefined behaviour) or
    its fuel used up.  The kernel and the C library's services are one
    parameter, [Kernel]: an oracle that answers each request from the history
    of the run.  Constants of the kernel headers that the repository does not
    contain are the parameter [KernelHeader]; the result of a conversion from
    double that does not fit its type is the parameter [CastOverflow]; values of
    uninitialised stack variables are arguments called [stack].  Integers are
    [Z] with the wrap-around of their type written out (LP64: [int] 32, [long]
    and [lt_t] 64 bits), double is binary64 on the Standard Library's [SpecFloat].
    Loops that are not structural take fuel; running out is an outcome of its
    own, and for every loop that ends a theorem gives the fuel that is enough.
    Output events record the format text as it stands in the source, escapes
    unexpanded; arguments of calls are evaluated from left to right; an open
    file does not change; signed arithmetic that overflows wraps.

    ** Files

    - [Prelude] (this file): integers, byte strings, tactics, hint databases.
    - [Machine]: requests, traces, the monad, and the two frameworks the
      proofs share: [keeps] (what a computation leaves unchanged, for any
      observation of the trace) and [total] (it ends with a value).
    - [Causal]: programs whose runs depend on the kernel only through the
      answers they got, their histories and what they do next.  [System]: the
      processes of such a program with [fork], [waitpid], exits and signals, as
      a step relation; what histories say about other processes is true, the
      system never deadlocks on its own, and it ends when every run does.
      [Pairs]: a program that forks one process and waits for it; [Duet] is
      what the program and its kernel have to promise for both processes to
      end with 0.
    - [CString]: strtoul, atoi, sscanf, printf of integers and the CPU-mask
      format, with round trips.  [Double]: binary64, strtod and atof, exact on
      integers below 2^53.
    - [Laws]: the laws of the kernel that theorems may name, as classes
      ([ReadLaw], [Allocates], [Polls], [Online], [Schedules]), and [Sim], a
      concrete kernel that satisfies them, used by the witnesses.  [Threads]
      and [LockSpec] add [MapsFresh], [Semaphores], [Accepts] and
      [Initialises], [Runner] adds [Forks].
    - [Iface] (src/kernel_iface.c): files of /proc, the statistics, the control
      page and non-preemptive sections.
    - [Syscalls] (src/syscalls.c).  [Clocks] (src/clocks.c, cycles.h).
    - [Migration] (src/migration.c): CPU masks, CPU sets, affinities.
      [Mapping]: a reference expression for its parser.
    - [Litmus] (src/litmus.c, src/task.c, include/litmus.h): parameters, locks,
      initialisation, the two task modes.
    - [Threads]: the calls of src/kernel_iface.c in the threads of a process,
      as a step relation on configurations (each thread has its own [errno]
      and control-page pointer; trace, pages and flags are shared).
    - [Getopt]: GNU getopt with its permutation of arguments, and the loop
      around it in every tool.
    - [Setup] (bin/common.c and what rt_launch and rtspin share).
    - [ReleaseTs], [RtLaunch], [Uncache] (the tools of these names),
      [ExecTimes], [Spin], [Rtspin] (the three parts of bin/rtspin.c),
      [BaseTask], [BaseMtTask] (the task skeletons), [Measure]
      (bin/null_call.c, bin/cycles.c).
    - [Types]: [struct rt_task] as a type, and its preservation by everything
      that hands a parameter block to the kernel.
    - [Runner] (tests/runner.c, include/tests.h).  [Tests]: what the test cases
      share.  [TestLocks], [TestNesting], [TestFdso], [TestCoreApi], [TestPcp]
      and [TestSched]: the test cases, one definition [test_NAME] for each
      [TESTCASE(NAME, ...)]; uninitialised variables and fuel are arguments.
    - [LockSpec]: a specification of real-time semaphores as laws over the
      history of a task, triples for the statements of a test case, and a
      kernel that implements the specification.  [LockTests]: the tests of
      semaphores against it.  [AdmissionTests]: the same for the admission of
      tasks and the tests of core_api.c in one process.  [RateTests]: the
      tests of job rates on a clock that shows whole seconds, and the processes
      that release the tasks of a test.
    - [Catalog] (tests/make_catalog.py) and [Suite], the catalogue it makes of
      the repository's own sources.  [EndToEnd]: tables, runner, forked
      children and test cases together.
    - [Causality]: library, test cases and runner are causal.  [RunnerSystem]:
      the runner and its test processes as a [System], on any kernel.
      [SuiteSystem]: the same for the suites of semaphore tests on kernels that
      implement [LockSpec].  [AdmissionSystem]: the two test cases whose
      processes share a pipe and the scheduler's table of real-time tasks, and
      [ForkTests], three that fork and share nothing, as instances of [Duet].
    - [Scripts] (setsched, showsched): the requests a shell makes for them.

    A component's client is proved against a class that says what the client
    relies on: [FileQuiet], [SetsQuiet], [InitQuiet] and [JobQuiet] say of an
    observation that it does not see what reading files, handling CPU sets,
    initialising and executing jobs do; each observation (affinities,
    parameters, policies, program launches, lock operations) is an instance,
    and the lemmas about the functions are proved once for all of them.

    ** What is proved

    - Parsing: CPU masks ([Migration.read_mapping_ok], [masks_ok],
      [domain_to_first_cpu_ok], [release_master_ok]), the statistics
      ([Iface.read_litmus_stats_ok]), the files of execution times
      ([ExecTimes.get_exec_times_spec]) and the declarations of test cases
      ([Catalog.search_file_source]) are read back to what was printed.  On any
      text the parser of masks equals a reference
      ([Mapping.read_mapping_reference]).
    - Threads: in every interleaving each mapped page belongs to one thread
      and holds the nesting depth of that thread ([Threads.threads_invariant]),
      a thread yields exactly at the end of an outermost section for which its
      own page asks for it ([yields_outermost]), and no thread is stopped ([threads_progress]).
    - Types: only well-typed parameter blocks reach the kernel
      ([Types.parameters_well_typed]).
    - Test cases: on a kernel that implements [LockSpec], 36 of them pass
      ([LockTests.lock_tests_pass]), from the fork in the runner on
      ([lock_tests_child]); a kernel that passes a test for forbidden nesting
      has refused it ([no_nesting_sound]); six test cases check nothing
      ([teardown_vacuous]); one passes where there is no FMLP
      ([fmlp_not_active_passes]).  Six of core_api.c pass on a kernel that
      implements [Admission] ([AdmissionTests.admission_tests_pass]) or on any
      ([ctrl_page_test_passes]).  Ten jobs of 100 ms are accepted exactly when
      they took a second ([RateTests.rate_tests_decide]); who releases tasks
      waits until they are ready, releases once and passes exactly when they
      end as they should ([RateTests.release_parents]).
    - The runner on the generated tables forks a process for each test case of
      the suite, which runs the function linked for it and nothing else
      ([Catalog.catalog_suite_runs]); the repository's catalogue
      ([Suite.repository_catalogue]); and for suites of semaphore tests on
      kernels that implement [LockSpec] the runner exits with 0, when the
      statuses of its children are those of their own runs
      ([EndToEnd.semaphore_suite_exit_code]).
    - Processes: in every interleaving [waitpid] reports the truth
      ([System.waitpid_reports]), the runner's exit code is the truth about its
      test processes ([RunnerSystem.runner_verdict]), and the processes do not
      block each other ([System.system_progress]); a suite of semaphore
      tests ends on any kernel ([SuiteSystem.semaphore_suite_terminates]), and
      on one that implements [LockSpec] every process of it ends with 0
      ([SuiteSystem.semaphore_suite_system]); so do the two processes of the
      tests of admission, of which one wakes the other or one polls what the
      other sets ([AdmissionSystem.suspended_admission_system],
      [running_admission_system]), and of three tests that fork
      ([ForkTests.fork_tests_well_behaved]).
    - Termination and bounds on arbitrary input: [Iface.read_file_total],
      [Migration.read_mapping_total], [Spin.loop_for_spec],
      [Spin.loop_for_emergency], [Uncache.do_max_alloc_spec],
      [Uncache.timespec_sub_spec], [Clocks.lt_sleep_spec].
    - Refinement: non-preemptive sections refine a nesting depth
      ([Iface.np_sections_refine]); task modes refine a two-state machine
      ([Litmus.task_modes_refine]).
    - Safety: no CPU set is leaked ([Migration.no_leaks]), mappings are removed
      ([Uncache.do_data_unmaps]), programs are started and jobs executed only
      after the parameters were set and real-time mode entered
      ([RtLaunch.launch_safe], [Rtspin.run_safe]), locks are taken and released
      in pairs by jobs that start before the end of the program
      ([Spin.job_spec]).
    - Functional behaviour of each tool from its command line:
      [ReleaseTs.release_main], [RtLaunch.main_times],
      [Rtspin.spin_main_times], [Rtspin.spin_main_file],
      [Measure.null_call_measures], [Runner.runner_exit_code]; setsched's
      exit status tells whether the plugin is active ([Scripts.setsched_spec]).
    - Errors: what each failure leaves behind, and where the code does not do
      what it means to ([Iface.map_failure_is_sticky],
      [Iface.read_litmus_stats_stale], [Migration.empty_mapping_succeeds],
      [Litmus.task_mode_invalid], [ReleaseTs.unreadable_stats_release],
      [RtLaunch.program_options_rejected], [Uncache.timespec_add_spec],
      [Scripts.cancelled_menu_leaves_file]).

    Fuel and bounds: [read_file] needs one step per byte of its buffer and one
    more; a 32-bit chunk of a mask has at most 64 passes of its inner loop, and
    masks of up to 4096 CPUs are covered; the carry loops of time values need
    two steps; a system of processes whose runs have at most n events at most
    3^n steps; the allocation test 65 rounds, after which its size wraps to 0;
    a busy loop at most one pass per second of its budget on a clock that
    shows whole seconds and advances (exactness of the doubles is what
    restricts the clock); the wait of release_ts one step per poll until
    the tasks are ready; the task of the test of running admission polls as
    often as its fuel allows, and the theorem says so where it gave up.  The
    task skeletons and bin/cycles.c never end, so their fuel counts what they
    did.

    ** What is not modelled

    The kernel itself; interleavings of threads finer than a library call
    (processes interleave between any two requests).  Five of the sixty test
    cases have no theorem about what their processes do together.  Of
    [test_jobs_are_rate_limited_synch] each of the two processes has one, of
    [test_preempt_on_resume] the parent; [test_pcp_inheritance],
    [test_srp_ceiling_blocking] and [test_lock_dpcp_pcp] have none.  They are
    defined and causal, so the theorems of [RunnerSystem] hold with them, but
    preemption, priority inheritance and ceilings need a model of the
    scheduler.  Nor are modelled the
    time between requests; signal handlers and stopped processes, the reuse of
    process ids, [waitpid] for any child, buffers of [stdio] shared over a
    fork; memory other than the control page, the CPU sets, the pages of
    bin/uncache.c and the shared integer of a test case, which is a
    sequence of requests; patterns of file names in the shell scripts; the
    Makefile and the Doxyfile. *)
From Stdlib Require Export ZArith Lia Ascii.
From stdpp Require Export base list strings option numbers.

#[global] Open Scope Z_scope.

(** ** Automation *)

Create HintDb litmus discriminated.
Create HintDb litmus_follows discriminated.
Create HintDb litmus_causal.
Create HintDb litmus_tests.
Create HintDb litmus_short discriminated.
Create Rewrite HintDb litmus_rw.
Create Rewrite HintDb litmus_len.

(** Splits conjunctions and existentials in the context. *)
Ltac deconj :=
  repeat match goal with
  | H : _ /\ _ |- _ => let H1 := fresh H in let H2 := fresh H in destruct H as [H1 H2]
  | H : exists x, _ |- _ => let y := fresh x in destruct H as [y H]
  end.

(** Turns the boolean integer tests of a translated condition into
    propositions [lia] understands. *)
Ltac zbool :=
  repeat match goal with
  | H : (_ <? _) = true |- _ => apply Z.ltb_lt in H
  | H : (_ <? _) = false |- _ => apply Z.ltb_ge in H
  | H : (_ <=? _) = true |- _ => apply Z.leb_le in H
  | H : (_ <=? _) = false |- _ => apply Z.leb_gt in H
  | H : (_ =? _) = true |- _ => apply Z.eqb_eq in H
  | H : (_ =? _) = false |- _ => apply Z.eqb_neq in H
  | H : (_ && _)%bool = true |- _ => apply andb_prop in H; destruct H
  | H : (_ || _)%bool = false |- _ => apply orb_false_elim in H; destruct H
  | H : negb _ = true |- _ => apply negb_true_iff in H
  | H : negb _ = false |- _ => apply negb_false_iff in H
  end.

(** Case analysis on the first boolean integer test of the goal. *)
Ltac zcase_as H :=
  match goal with
  | |- context [?a <? ?b] => destruct (Z.ltb_spec a b) as [H|H]
  | |- context [?a <=? ?b] => destruct (Z.leb_spec a b) as [H|H]
  | |- context [?a =? ?b] => destruct (Z.eqb_spec a b) as [H|H]
  end.
Tactic Notation "zcase" "as" ident(H) := zcase_as H.
Tactic Notation "zcase" := let H := fresh "Hz" in zcase_as H.

(** ** Fixed-width C integers *)

(** [wrap_u w z] is [z] converted to an unsigned type of [w] bits. *)
Definition wrap_u (w z : Z) : Z := z mod 2 ^ w.

(** [wrap_s w z] is [z] converted to a two's complement type of [w] bits. *)
Definition wrap_s (w z : Z) : Z := (z + 2 ^ (w - 1)) mod 2 ^ w - 2 ^ (w - 1).

Abbreviation u32 := (wrap_u 32).
Abbreviation u64 := (wrap_u 64).
Abbreviation s32 := (wrap_s 32).
Abbreviation s64 := (wrap_s 64).

Definition INT_MAX : Z := 2 ^ 31 - 1.
Definition INT_MIN : Z := - 2 ^ 31.
Definition LONG_MAX : Z := 2 ^ 63 - 1.
Definition LONG_MIN : Z := - 2 ^ 63.
Definition ULONG_MAX : Z := 2 ^ 64 - 1.

Lemma wrap_u_range w z : 0 <= w -> 0 <= wrap_u w z < 2 ^ w.
Proof. intros. apply Z.mod_pos_bound. by apply Z.pow_pos_nonneg. Qed.

Lemma wrap_u_small w z : 0 <= z < 2 ^ w -> wrap_u w z = z.
Proof. apply Z.mod_small. Qed.

Lemma wrap_s_range w z : 0 < w -> - 2 ^ (w - 1) <= wrap_s w z < 2 ^ (w - 1).
Proof.
  intros. unfold wrap_s.
  assert (2 ^ w = 2 * 2 ^ (w - 1)) as E by (rewrite <- Z.pow_succ_r by lia; f_equal; lia).
  pose proof (Z.mod_pos_bound (z + 2 ^ (w - 1)) (2 ^ w)).
  pose proof (Z.pow_pos_nonneg 2 (w - 1)). lia.
Qed.

Lemma wrap_s_small w z :
  0 < w -> - 2 ^ (w - 1) <= z < 2 ^ (w - 1) -> wrap_s w z = z.
Proof.
  intros. unfold wrap_s.
  assert (2 ^ w = 2 * 2 ^ (w - 1)) as E by (rewrite <- Z.pow_succ_r by lia; f_equal; lia).
  rewrite Z.mod_small; lia.
Qed.

(** Two's complement arithmetic is arithmetic modulo [2 ^ w]. *)
Lemma wrap_s_plus w z k : 0 <= w -> wrap_s w (z + k * 2 ^ w) = wrap_s w z.
Proof.
  intros Hw. unfold wrap_s. replace (z + k * 2 ^ w + 2 ^ (w - 1)) with (z + 2 ^ (w - 1) + k * 2 ^ w) by lia.
  rewrite Z.mod_add; [done|]. pose proof (Z.pow_pos_nonneg 2 w). lia.
Qed.

Lemma wrap_s_cong w z : 0 <= w -> exists k, wrap_s w z = z + k * 2 ^ w.
Proof.
  intros Hw. exists (- ((z + 2 ^ (w - 1)) / 2 ^ w)). unfold wrap_s.
  pose proof (Z.pow_pos_nonneg 2 w). pose proof (Z.div_mod (z + 2 ^ (w - 1)) (2 ^ w)). lia.
Qed.

Lemma wrap_s_add_l w x y : 0 <= w -> wrap_s w (wrap_s w x + y) = wrap_s w (x + y).
Proof.
  intros Hw. destruct (wrap_s_cong w x Hw) as [k ->].
  replace (x + k * 2 ^ w + y) with (x + y + k * 2 ^ w) by lia. by apply wrap_s_plus.
Qed.

Lemma wrap_s_mul_l w x y : 0 <= w -> wrap_s w (wrap_s w x * y) = wrap_s w (x * y).
Proof.
  intros Hw. destruct (wrap_s_cong w x Hw) as [k ->].
  replace ((x + k * 2 ^ w) * y) with (x * y + k * y * 2 ^ w) by lia. by apply wrap_s_plus.
Qed.

#[export] Hint Resolve wrap_u_range wrap_s_range : litmus.

(** ** Lists *)

Abbreviation bytes := (list ascii).

Definition bytes_of (s : string) : bytes := String.list_ascii_of_string s.

Lemma bytes_of_app s t : bytes_of (s +:+ t) = bytes_of s ++ bytes_of t.
Proof.
  unfold bytes_of. induction s as [|c s IH]; [done|].
  change (String c s +:+ t) with (String c (s +:+ t)). simpl. by rewrite IH.
Qed.

(** [overwrite off d buf] is the array [buf] after [d] was stored at [off]. *)
Definition overwrite (off : nat) (d buf : bytes) : bytes :=
  take off buf ++ d ++ drop (off + length d) buf.

Lemma length_overwrite off d buf :
  (off + length d <= length buf)%nat -> length (overwrite off d buf) = length buf.
Proof. intros. unfold overwrite. rewrite !length_app, length_take, length_drop. lia. Qed.

Lemma overwrite_0 d buf : overwrite 0 d buf = d ++ drop (length d) buf.
Proof. done. Qed.

Lemma overwrite_app d1 d2 buf :
  overwrite (length d1) d2 (overwrite 0 d1 buf) = overwrite 0 (d1 ++ d2) buf.
Proof.
  rewrite !overwrite_0. unfold overwrite.
  by rewrite take_app_length, <- drop_drop, drop_app_length, drop_drop, length_app, <- app_assoc.
Qed.

#[export] Hint Rewrite @length_app @length_take @length_drop @length_replicate : litmus_len.
