(* ===== verification/Machine.v ===== *)
(** * The machine liblitmus runs on

    The kernel and the C library's allocation, clock and process services are
    not part of the repository.  They are one parameter, an oracle that answers
    every request from the whole history of the run ([Kernel]); every theorem
    holds for all of them, or names the law it needs.  The constants and the
    [struct rt_task] of the kernel headers are the parameter [KernelHeader].
    A C function is a computation in the monad [M], which passes the state of
    the calling thread ([world]) and ends with a value, an exit status, a
    failed assertion, a fault (undefined behaviour) or, for a loop that is not
    structural, with its fuel used up. *)
From Stdlib Require Export SpecFloat.
From S2P Require Import Prelude.

(** ** Data of the kernel headers (litmus/rt_param.h) the library uses *)

Class KernelHeader := {
  RT_CLASS_HARD : Z;
  RT_CLASS_SOFT : Z;
  RT_CLASS_BEST_EFFORT : Z;
  NO_ENFORCEMENT : Z;
  PRECISE_ENFORCEMENT : Z;
  TASK_SPORADIC : Z;
  TASK_PERIODIC : Z;
  LITMUS_LOWEST_PRIORITY : Z;
  LITMUS_HIGHEST_PRIORITY : Z;
  LITMUS_MAX_PRIORITY : Z;
  litmus_is_valid_fixed_prio : Z -> bool;
  NP_FLAG_BITS : Z;   (* width of the bit-field [sched.np.flag] *)
}.

(** The fields of [struct rt_task] the library and the tools set. *)
Record rt_task := mk_rt_task {
  exec_cost : Z;          (* lt_t *)
  period : Z;             (* lt_t *)
  relative_deadline : Z;  (* lt_t *)
  phase : Z;              (* lt_t *)
  cpu : Z;                (* unsigned int *)
  priority : Z;           (* unsigned int *)
  cls : Z;
  budget_policy : Z;
  release_policy : Z;
}.

(** ** Requests to the environment *)

(** A request; the [NR_*] constructors are the system calls of syscalls.c. *)
Inductive call :=
  | Open (path : string) (flags mode : Z)
  | Close (fd : Z)
  | Read (fd count : Z)
  | Mmap (size prot flags fd : Z)
  | Munmap (addr size : Z)
  | Sysconf (name : Z)
  | Malloc (size : Z)
  | Free (addr : Z)
  | LoadPreempt (page : Z)          (* a read of the kernel-written np.preempt *)
  | Sched_yield
  | Sched_setaffinity (tid sz mask : Z)
  | Mlockall (flags : Z)
  | Clock_gettime (clock : Z)
  | Gettimeofday
  | Nanosleep (sec nsec : Z)
  | Sleep (sec : Z)
  | Getpid
  | Fork
  | Waitpid (pid : Z)
  | Execvp (file : string) (args : list string)
  | Signal (signum handler : Z)
  | Calloc (n size : Z)
  | Sched_get_priority_max (policy : Z)
  | LoadByte (addr : Z)             (* an access to volatile memory *)
  | StoreByte (addr val : Z)
  | Rdtsc                           (* answered by EAX and EDX *)
  | Rd_asr24
  | Fopen (path mode : string)      (* answered by what the file holds *)
  | Fseek (offset whence : Z)
  | Fclose
  | Getchar
  | Drand48
  | Srand (seed : Z)
  | Pthread_create (thread : Z)
  | Pthread_join (thread : Z)
  | Remove (path : string)
  | Kill (pid signum : Z)
  | Pipe                            (* answered by its two descriptors *)
  | Write (fd : Z) (d : bytes)
  | Sched_getcpu
  | LoadInt (addr : Z)              (* an access to a volatile int *)
  | StoreInt (addr val : Z)
  | Cli
  | Sti
  | Stat (path : string)            (* does a file exist? *)
  | Substitute (words : list string) (err : option string)   (* a command in backquotes, answered by its output *)
  | Command (stages : list (list string)) (err : option string)   (* a pipeline, its standard error in a file *)
  | Redirect (path : string) (d : bytes)   (* text written to a file by the shell *)
  | NR_gettid
  | NR_set_rt_task_param (pid : Z) (param : option rt_task)
  | NR_set_rt_task_param_at (pid addr : Z)   (* an address of no parameter block *)
  | NR_get_rt_task_param (pid : Z)
  | NR_complete_job
  | NR_od_open (fd type obj_id : Z) (config : option Z)
  | NR_od_close (od : Z)
  | NR_litmus_lock (od : Z)
  | NR_litmus_unlock (od : Z)
  | NR_query_job_no
  | NR_wait_for_job_release (job_no : Z)
  | NR_sched_setscheduler (pid policy prio : Z)
  | NR_sched_getscheduler (pid : Z)
  | NR_wait_for_ts_release
  | NR_release_ts (delay : Z)
  | NR_null_call.

(** An answer: a return value, the bytes a [Read] stored (its return value is
    their number), the two fields of a time value with return value 0, or a
    failure that returns -1 and sets [errno]. *)
Inductive reply :=
  | Succ (ret : Z)
  | Data (d : bytes)
  | Pair (sec sub : Z)
  | Fail (err : Z).

Definition ret_of (r : reply) : Z :=
  match r with
  | Succ z => z
  | Data d => Z.of_nat (length d)
  | Pair _ _ => 0
  | Fail _ => -1
  end.

Inductive stream := stdout | stderr.
Inductive arg := AInt (z : Z) | AStr (s : string) | ADbl (d : spec_float).

(** What an observer of the thread sees, newest first in a trace. *)
Inductive event :=
  | Sys (c : call) (r : reply)
  | Out (s : stream) (fmt : string) (args : list arg)
  | Perror (msg : string)
  | Barrier.

Abbreviation trace := (list event).

Class Kernel := kernel : trace -> call -> reply.

(** ** The state of the calling thread *)

Record world := mk_world {
  tr : trace;
  errno : Z;
  ctrl_page : Z;       (* the thread-local pointer of kernel_iface.c *)
  np_flag : Z -> Z;    (* sched.np.flag of the page mapped at an address *)
}.

Definition push (e : event) (w : world) : world :=
  mk_world (e :: tr w) (errno w) (ctrl_page w) (np_flag w).
Definition put_errno (e : Z) (w : world) : world :=
  mk_world (tr w) e (ctrl_page w) (np_flag w).
Definition put_ctrl_page (p : Z) (w : world) : world :=
  mk_world (tr w) (errno w) p (np_flag w).
Definition put_np_flag (p v : Z) (w : world) : world :=
  mk_world (tr w) (errno w) (ctrl_page w) (fun a => if a =? p then v else np_flag w a).

(** ** Computations *)

Inductive outcome (A : Type) :=
  | Val (a : A)
  | Exit (status : Z)
  | Aborted
  | Fault
  | NoFuel.
Arguments Val {A}. Arguments Exit {A}. Arguments Aborted {A}.
Arguments Fault {A}. Arguments NoFuel {A}.

Definition M (A : Type) : Type := world -> outcome A * world.

#[global] Instance M_ret : MRet M := fun A a w => (Val a, w).
#[global] Instance M_bind : MBind M := fun A B f m w =>
  match m w with
  | (Val a, w') => f a w'
  | (Exit s, w') => (Exit s, w')
  | (Aborted, w') => (Aborted, w')
  | (Fault, w') => (Fault, w')
  | (NoFuel, w') => (NoFuel, w')
  end.

Definition get {A} (f : world -> A) : M A := fun w => (Val (f w), w).
Definition modify (f : world -> world) : M unit := fun w => (Val tt, f w).
Definition emit (e : event) : M unit := modify (push e).
Definition exit_ {A} (status : Z) : M A := fun w => (Exit status, w).
Definition abort {A} : M A := fun w => (Aborted, w).
Definition fault {A} : M A := fun w => (Fault, w).
Definition no_fuel {A} : M A := fun w => (NoFuel, w).
Definition when (b : bool) (m : M unit) : M unit := if b then m else mret tt.

Definition after (c : call) (r : reply) (w : world) : world :=
  let w := push (Sys c r) w in
  match r with Fail e => put_errno e w | _ => w end.

Definition printf (fmt : string) (args : list arg) : M unit := emit (Out stdout fmt args).
Definition eprintf (fmt : string) (args : list arg) : M unit := emit (Out stderr fmt args).
Definition perror (msg : string) : M unit := emit (Perror msg).

Section sys.
Context {K : Kernel}.
(** One request, its answer appended to the trace. *)
Definition sys (c : call) : M reply := fun w =>
  let r := kernel (tr w) c in (Val r, after c r w).
(** The same, for its C return value. *)
Definition syscall (c : call) : M Z := fun w =>
  let r := kernel (tr w) c in (Val (ret_of r), after c r w).
End sys.

(** ** Reasoning *)

Lemma bind_ext {A B} (m m' : M A) (f g : A -> M B) w :
  m w = m' w -> (forall a w', f a w' = g a w') -> (m ≫= f) w = (m' ≫= g) w.
Proof. intros Hm Hf. unfold mbind, M_bind. rewrite Hm. destruct (m' w) as [[]]; [apply Hf|done..]. Qed.

Lemma bind_val {A B} (m : M A) (f : A -> M B) w a w' :
  m w = (Val a, w') -> (m ≫= f) w = f a w'.
Proof. intros H. unfold mbind, M_bind. by rewrite H. Qed.

Lemma bind_exit {A B} (m : M A) (f : A -> M B) w s w' :
  m w = (Exit s, w') -> (m ≫= f) w = (Exit s, w').
Proof. intros H. unfold mbind, M_bind. by rewrite H. Qed.

Lemma bind_fault {A B} (m : M A) (f : A -> M B) w w' :
  m w = (Fault, w') -> (m ≫= f) w = (Fault, w').
Proof. intros H. unfold mbind, M_bind. by rewrite H. Qed.

Lemma bind_ret {A B} (a : A) (f : A -> M B) w : (mret a ≫= f) w = f a w.
Proof. done. Qed.

Lemma bind_bind {A B C} (m : M A) (f : A -> M B) (g : B -> M C) w :
  ((m ≫= f) ≫= g) w = (m ≫= (fun a => f a ≫= g)) w.
Proof. unfold mbind, M_bind. by destruct (m w) as [[]]. Qed.

Lemma bind_get {A B} (h : world -> A) (f : A -> M B) w : (get h ≫= f) w = f (h w) w.
Proof. done. Qed.

Lemma bind_emit {B} e (f : unit -> M B) w : (emit e ≫= f) w = f tt (push e w).
Proof. done. Qed.

Lemma bind_modify {B} g (f : unit -> M B) w : (modify g ≫= f) w = f tt (g w).
Proof. done. Qed.

Lemma bind_syscall {K : Kernel} {B} c (f : Z -> M B) w :
  (syscall c ≫= f) w = f (ret_of (kernel (tr w) c)) (after c (kernel (tr w) c) w).
Proof. done. Qed.

Lemma bind_sys {K : Kernel} {B} c (f : reply -> M B) w :
  (sys c ≫= f) w = f (kernel (tr w) c) (after c (kernel (tr w) c) w).
Proof. done. Qed.

Lemma bind_fault_ {A B} (f : A -> M B) w : (fault ≫= f) w = (Fault, w).
Proof. done. Qed.

Lemma bind_exit_ {A B} s (f : A -> M B) w : (exit_ s ≫= f) w = (Exit s, w).
Proof. done. Qed.

#[export] Hint Rewrite @bind_fault_ @bind_exit_ @bind_ret @bind_get @bind_emit @bind_modify @bind_syscall
  @bind_sys @bind_bind : litmus_rw.

Lemma tr_after c r w : tr (after c r w) = Sys c r :: tr w.
Proof. by destruct r. Qed.

Lemma ctrl_page_after c r w : ctrl_page (after c r w) = ctrl_page w.
Proof. by destruct r. Qed.

Lemma np_flag_after c r w : np_flag (after c r w) = np_flag w.
Proof. by destruct r. Qed.

#[export] Hint Rewrite tr_after ctrl_page_after np_flag_after : litmus_rw.

(** Runs the straight-line prefix of a computation. *)
Ltac mrun := repeat (progress (autorewrite with litmus_rw; cbn [mret M_ret])).

(** ** Trace predicates *)

(** The requests of a trace, newest first. *)
Definition calls (t : trace) : list call :=
  omap (fun e => match e with Sys c _ => Some c | _ => None end) t.

(** [w'] is [w] after the events [es] (newest first). *)
Definition extends (w w' : world) (es : trace) : Prop := tr w' = es ++ tr w.

Lemma extends_refl w : extends w w [].
Proof. done. Qed.

Lemma extends_trans w1 w2 w3 es1 es2 :
  extends w1 w2 es1 -> extends w2 w3 es2 -> extends w1 w3 (es2 ++ es1).
Proof. unfold extends. intros H1 H2. by rewrite H2, H1, app_assoc. Qed.

#[export] Hint Resolve extends_refl : litmus.

(** [F] does not see a request. *)
Definition quiet {X} (F : trace -> X) (c : call) : Prop := forall r t, F (Sys c r :: t) = F t.

Lemma quiet_after {X} (F : trace -> X) c r w : quiet F c -> F (tr (after c r w)) = F (tr w).
Proof. intros Hq. rewrite tr_after. apply Hq. Qed.

(** [m] changes nothing [F] sees, on any path. *)
Definition keeps {X A} (F : trace -> X) (m : M A) : Prop := forall w, F (tr (m w).2) = F (tr w).

Section keeps.
Context {X : Type} (F : trace -> X).

Lemma keeps_ret {A} (a : A) : keeps F (mret a : M A).
Proof. done. Qed.

Lemma keeps_bind {A B} (m : M A) (f : A -> M B) :
  keeps F m -> (forall a, keeps F (f a)) -> keeps F (m ≫= f).
Proof.
  intros Hm Hf w. specialize (Hm w). unfold mbind, M_bind.
  destruct (m w) as [[a|s| | |] w']; cbn [snd] in *; rewrite <- Hm; [apply Hf|done..].
Qed.

Lemma keeps_syscall {K : Kernel} c : quiet F c -> keeps F (syscall c).
Proof. intros Hq w. by apply quiet_after. Qed.

Lemma keeps_sys {K : Kernel} c : quiet F c -> keeps F (sys c).
Proof. intros Hq w. by apply quiet_after. Qed.

Lemma keeps_when (b : bool) m : keeps F m -> keeps F (when b m).
Proof. by destruct b. Qed.

Lemma keeps_if {A} (b : bool) (m1 m2 : M A) :
  keeps F m1 -> keeps F m2 -> keeps F (if b then m1 else m2).
Proof. by destruct b. Qed.

Lemma keeps_get {A} (f : world -> A) : keeps F (get f).
Proof. done. Qed.

Lemma keeps_fault {A} : keeps F (fault : M A).
Proof. done. Qed.

Lemma keeps_no_fuel {A} : keeps F (no_fuel : M A).
Proof. done. Qed.

Lemma keeps_exit {A} s : keeps F (exit_ s : M A).
Proof. done. Qed.

Lemma keeps_run {A} (m : M A) w o w' : keeps F m -> m w = (o, w') -> F (tr w') = F (tr w).
Proof. intros Hm Hr. specialize (Hm w). by rewrite Hr in Hm. Qed.
End keeps.

#[export] Hint Resolve @keeps_ret @keeps_bind @keeps_syscall @keeps_sys @keeps_when @keeps_if
  @keeps_get @keeps_fault @keeps_no_fuel @keeps_exit : litmus.

(** Shows [keeps F m] for a translated function and an [F] that computes on
    the events the function may append. *)
Ltac keeps_step :=
  match goal with
  | |- keeps _ (_ ≫= _) => apply keeps_bind; [|intros ?]
  | |- keeps _ (if _ then _ else _) => apply keeps_if
  | |- keeps _ (when _ _) => apply keeps_when
  | |- keeps _ (syscall _) => apply keeps_syscall; intros ??; reflexivity
  | |- keeps _ (sys _) => apply keeps_sys; intros ??; reflexivity
  | |- keeps _ (emit _) => intros ?; reflexivity
  | |- keeps _ (perror _) => intros ?; reflexivity
  | |- keeps _ (printf _ _) => intros ?; reflexivity
  | |- keeps _ (eprintf _ _) => intros ?; reflexivity
  | |- keeps _ (modify _) => intros ?; reflexivity
  | |- keeps _ (let _ := _ in _) => cbv zeta
  | |- keeps _ (match ?x with _ => _ end) => destruct x
  | |- keeps _ _ => solve [auto with litmus nocore]
  end.
Ltac keeps_tac := repeat keeps_step.

(** [m] only adds to the trace. *)
Definition grows {A} (m : M A) : Prop := forall w, tr w `suffix_of` tr (m w).2.

Lemma grows_same {A} (m : M A) : (forall w, tr (m w).2 = tr w) -> grows m.
Proof. intros Hm w. by rewrite Hm. Qed.

Lemma grows_bind {A B} (m : M A) (f : A -> M B) : grows m -> (forall a, grows (f a)) -> grows (m ≫= f).
Proof.
  intros Hm Hf w. specialize (Hm w). unfold mbind, M_bind.
  destruct (m w) as [[a|s| | |] w']; cbn [snd] in *; [|done..]. etrans; [exact Hm|apply Hf].
Qed.

Lemma grows_emit e : grows (emit e).
Proof. intros w. by exists [e]. Qed.

Lemma grows_syscall {K : Kernel} c : grows (syscall c).
Proof. intros w. unfold syscall. cbn [snd]. rewrite tr_after. by eexists [_]. Qed.

Lemma grows_sys {K : Kernel} c : grows (sys c).
Proof. intros w. unfold sys. cbn [snd]. rewrite tr_after. by eexists [_]. Qed.

Lemma grows_when (b : bool) m : grows m -> grows (when b m).
Proof. destruct b; [done|]. intros _. by apply grows_same. Qed.

Lemma grows_run {A} (m : M A) w o w' : grows m -> m w = (o, w') -> tr w `suffix_of` tr w'.
Proof. intros Hm Hr. specialize (Hm w). by rewrite Hr in Hm. Qed.

(** Shows [grows m] for a translated function without loops of its own. *)
Ltac grows_step :=
  match goal with
  | |- grows (_ ≫= _) => apply grows_bind; [|intros ?]
  | |- grows (when _ _) => apply grows_when
  | |- grows (syscall _) => apply grows_syscall
  | |- grows (sys _) => apply grows_sys
  | |- grows (emit _) => apply grows_emit
  | |- grows (perror _) => apply grows_emit
  | |- grows (printf _ _) => apply grows_emit
  | |- grows (eprintf _ _) => apply grows_emit
  | |- grows (let _ := _ in _) => cbv zeta
  | |- grows (match ?x with _ => _ end) => destruct x
  | |- grows _ => solve [auto with litmus nocore | apply grows_same; intros ?; reflexivity]
  end.
Ltac grows_tac := repeat grows_step.

(** An outcome that is no value, at another type. *)
Definition ended {A B} (o : outcome A) : outcome B :=
  match o with Exit s => Exit s | Aborted => Aborted | Fault => Fault | _ => NoFuel end.

(** A computation that ended, taken apart at a bind. *)
Lemma bind_inv {A B} (m : M A) (f : A -> M B) w o w' :
  (m ≫= f) w = (o, w') ->
  (exists a w1, m w = (Val a, w1) /\ f a w1 = (o, w')) \/
  (exists o1, m w = (o1, w') /\ (forall a, o1 <> Val a) /\ o = ended o1).
Proof.
  unfold mbind, M_bind. destruct (m w) as [[a|s| | |] w1]; [by eauto|..];
    intros [= <- <-]; right; eexists; by split_and!.
Qed.

Lemma bind_val_inv {A B} (m : M A) (f : A -> M B) w b w' :
  (m ≫= f) w = (Val b, w') -> exists a w1, m w = (Val a, w1) /\ f a w1 = (Val b, w').
Proof. intros [?|(o1 & _ & _ & Hb)]%bind_inv; [done|by destruct o1]. Qed.

Lemma when_inv (b : bool) m w w' : when b m w = (Val tt, w') -> b = true /\ m w = (Val tt, w') \/ b = false /\ w' = w.
Proof. destruct b; [by left|]. intros [= <-]. by right. Qed.

(** [m] ends with a value from every state. *)
Definition total {A} (m : M A) : Prop := forall w, exists a w', m w = (Val a, w').

Lemma total_ret {A} (a : A) : total (mret a : M A).
Proof. intros w. by eexists _, _. Qed.

Lemma total_bind {A B} (m : M A) (f : A -> M B) : total m -> (forall a, total (f a)) -> total (m ≫= f).
Proof.
  intros Hm Hf w. destruct (Hm w) as (a & w' & E). rewrite (bind_val _ _ _ _ _ E). apply Hf.
Qed.

Lemma total_syscall {K : Kernel} c : total (syscall c).
Proof. intros w. by eexists _, _. Qed.

Lemma total_sys {K : Kernel} c : total (sys c).
Proof. intros w. by eexists _, _. Qed.

Lemma total_modify f : total (modify f).
Proof. intros w. by eexists _, _. Qed.

Lemma total_get {A} (f : world -> A) : total (get f).
Proof. intros w. by eexists _, _. Qed.

Lemma total_when (b : bool) m : total m -> total (when b m).
Proof. destruct b; [done|]. intros _. apply total_ret. Qed.

Lemma total_if {A} (b : bool) (m1 m2 : M A) : total m1 -> total m2 -> total (if b then m1 else m2).
Proof. by destruct b. Qed.

#[export] Hint Resolve @total_ret @total_syscall @total_sys @total_modify @total_get : litmus.

(** Shows [total m] for a translated function without loops of its own. *)
Ltac total_step :=
  match goal with
  | |- total (_ ≫= _) => apply total_bind; [|intros ?]
  | |- total (if _ then _ else _) => apply total_if
  | |- total (when _ _) => apply total_when
  | |- total (emit _) => apply total_modify
  | |- total (perror _) => apply total_modify
  | |- total (printf _ _) => apply total_modify
  | |- total (eprintf _ _) => apply total_modify
  | |- total (let _ := _ in _) => cbv zeta
  | |- total (match ?x with _ => _ end) => destruct x
  | |- total _ => solve [auto with litmus nocore]
  end.
Ltac total_tac := repeat total_step.

(** [r] is an answer of the kernel to [c]. *)
Definition answered {K : Kernel} (c : call) (r : reply) : Prop := exists t, kernel t c = r.

(** *** A unary logic *)

(** [m] maintains the invariant [I] of traces, on any path, and a value it
    ends with satisfies [Q]. *)
Definition maintains {A} (I : trace -> Prop) (m : M A) (Q : A -> Prop) : Prop := forall w,
  I (tr w) -> I (tr (m w).2) /\ (forall a, (m w).1 = Val a -> Q a).

Section maintains.
Context (I : trace -> Prop).

Lemma maintains_ret {A} (a : A) (Q : A -> Prop) : Q a -> maintains I (mret a) Q.
Proof. intros HQ w Hw. split; [done|]. by intros b [= <-]. Qed.

Lemma maintains_bind {A B} (m : M A) (f : A -> M B) (R : A -> Prop) (Q : B -> Prop) :
  maintains I m R -> (forall a, R a -> maintains I (f a) Q) -> maintains I (m ≫= f) Q.
Proof.
  intros Hm Hf w Hw. destruct (Hm w Hw) as [Hi HR]. unfold mbind, M_bind.
  destruct (m w) as [[a|s| | |] w']; cbn [fst snd] in *; [|by split..]. by apply (Hf a (HR a eq_refl)).
Qed.

Lemma maintains_weaken {A} (m : M A) (Q Q' : A -> Prop) :
  maintains I m Q -> (forall a, Q a -> Q' a) -> maintains I m Q'.
Proof. intros Hm HQ w Hw. destruct (Hm w Hw). split; [done|]. eauto. Qed.

(** What is invisible to the observation [I] is about maintains it. *)
Lemma maintains_keeps {X A} (F : trace -> X) (J : X -> Prop) (m : M A) (Q : A -> Prop) :
  (forall t, I t <-> J (F t)) -> keeps F m -> (forall a, Q a) -> maintains I m Q.
Proof. intros HI Hk HQ w Hw. split; [|by eauto]. apply HI. rewrite Hk. by apply HI. Qed.

(** An exit from a branch leaves its condition false. *)
Lemma maintains_when (b : bool) m (Q : unit -> Prop) :
  (b = true -> maintains I m Q) -> (b = false -> Q tt) -> maintains I (when b m) Q.
Proof. destruct b; cbn [when]; intros H1 H2; [by apply H1|by apply maintains_ret, H2]. Qed.

Lemma maintains_if {A} (b : bool) (m1 m2 : M A) (Q : A -> Prop) :
  (b = true -> maintains I m1 Q) -> (b = false -> maintains I m2 Q) ->
  maintains I (if b then m1 else m2) Q.
Proof. destruct b; auto. Qed.

Lemma maintains_run {A} (m : M A) (Q : A -> Prop) w : maintains I m Q -> I (tr w) -> I (tr (m w).2).
Proof. intros Hm Hw. by apply Hm. Qed.
End maintains.

(** The affinities set, newest first: thread, size and bits of the set, and
    the answer. *)
Definition affinities (t : trace) : list (Z * Z * Z * reply) :=
  omap (fun e => match e with
    | Sys (Sched_setaffinity tid sz mask) r => Some (tid, sz, mask, r)
    | _ => None end) t.

Lemma affinities_set tid sz mask r t :
  affinities (Sys (Sched_setaffinity tid sz mask) r :: t) = (tid, sz, mask, r) :: affinities t.
Proof. done. Qed.

Lemma affinities_free a r t : affinities (Sys (Free a) r :: t) = affinities t.
Proof. done. Qed.

(** The task parameters set, newest first: process, parameters and answer. *)
Definition params (t : trace) : list (Z * option rt_task * reply) :=
  omap (fun e => match e with
    | Sys (NR_set_rt_task_param pid p) r => Some (pid, p, r)
    | _ => None end) t.

Lemma params_set pid p r r' t :
  params (Sys (NR_set_rt_task_param pid p) r :: Sys NR_gettid r' :: t) = (pid, p, r) :: params t.
Proof. done. Qed.

(** Everything but the trace and [errno] is as before. *)
Definition same_thread (w w' : world) : Prop :=
  ctrl_page w' = ctrl_page w /\ np_flag w' = np_flag w.

#[export] Instance same_thread_preorder : PreOrder same_thread.
Proof. split; [done|]. intros ??? [] []. split; congruence. Qed.

Lemma same_thread_after c r w : same_thread w (after c r w).
Proof. by destruct r. Qed.

Lemma same_thread_push e w : same_thread w (push e w).
Proof. done. Qed.

Lemma same_thread_refl w : same_thread w w.
Proof. done. Qed.

#[export] Hint Resolve same_thread_after same_thread_push same_thread_refl : litmus.
