(* ===== verification/Causal.v ===== *)
(** * Programs that depend on their environment only through its answers

    A computation takes the kernel as a function of the whole history.
    [follows] says that a run under one kernel is also the run under every
    other kernel that gives the same answers along it; [causal] programs do so
    for all pairs of kernels.  A causal program can be stopped and resumed: its
    history determines what it does next ([history_out], [history_call],
    [history_end]), which is what [System] interleaves. *)
From S2P Require Import Prelude Machine.

(** ** Decidable equality of events *)

#[export] Instance spec_float_eq_dec : EqDecision spec_float.
Proof. solve_decision. Defined.
#[export] Instance rt_task_eq_dec : EqDecision rt_task.
Proof. solve_decision. Defined.
#[export] Instance call_eq_dec : EqDecision call.
Proof. solve_decision. Defined.
#[export] Instance reply_eq_dec : EqDecision reply.
Proof. solve_decision. Defined.
#[export] Instance stream_eq_dec : EqDecision stream.
Proof. solve_decision. Defined.
#[export] Instance arg_eq_dec : EqDecision arg.
Proof. solve_decision. Defined.
#[export] Instance event_eq_dec : EqDecision event.
Proof. solve_decision. Defined.

(** ** Answers *)

Lemma suffix_of_cons {A} (x : A) l k : l `suffix_of` x :: k -> l = x :: k \/ l `suffix_of` k.
Proof. intros [[|y k'] E]; [by left|]. injection E as -> ->. right. by apply suffix_app_r. Qed.

(** The requests of [t] that are not in [t0] were answered as [K] does. *)
Definition answers (K : Kernel) (t0 t : trace) : Prop :=
  forall c r u, Sys c r :: u `suffix_of` t -> t0 `suffix_of` u -> kernel u c = r.

Lemma answers_refl K t : answers K t t.
Proof.
  intros c r u Hs Ht. apply suffix_length in Hs, Ht. cbn in Hs. lia.
Qed.

Lemma answers_trans K t0 t1 t2 :
  t1 `suffix_of` t2 -> answers K t0 t1 -> answers K t1 t2 -> answers K t0 t2.
Proof.
  intros H12 H01 H c r u Hs Ht. destruct (suffix_weak_total (Sys c r :: u) t1 t2 Hs H12) as [Hu|Hu].
  - by apply H01.
  - apply suffix_of_cons in Hu as [->|Hu]; [by apply H01|by apply H].
Qed.

Lemma answers_l K t0 t1 t2 : t1 `suffix_of` t2 -> answers K t0 t2 -> answers K t0 t1.
Proof. intros H12 H c r u Hs. apply H. by etrans. Qed.

Lemma answers_r K t0 t1 t2 : t0 `suffix_of` t1 -> answers K t0 t2 -> answers K t1 t2.
Proof. intros H01 H c r u Hs Ht. apply H; [done|by etrans]. Qed.

Lemma answers_cons_sys K t0 t c r : answers K t0 t -> kernel t c = r -> answers K t0 (Sys c r :: t).
Proof. intros H Hr c' r' u Hs Ht. apply suffix_cons_inv in Hs as [[= -> -> ->]|Hs]; [done|by apply H]. Qed.

Lemma answers_cons_inv K t0 t c r :
  t0 `suffix_of` t -> answers K t0 (Sys c r :: t) -> answers K t0 t /\ kernel t c = r.
Proof. intros H0 H. split; [|by apply H]. eapply answers_l; [|exact H]. by apply suffix_cons_r. Qed.

Lemma answers_cons_out K t0 t e :
  (forall c r, e <> Sys c r) -> answers K t0 t -> answers K t0 (e :: t).
Proof.
  intros He H c r u Hs Ht. apply suffix_cons_inv in Hs as [[= E _]|Hs]; [by destruct (He c r)|by apply H].
Qed.

(** ** Runs under two kernels *)

Definition follows {A} (K K' : Kernel) (m m' : M A) : Prop := forall w,
  tr w `suffix_of` tr (m w).2 /\ answers K (tr w) (tr (m w).2) /\
  (answers K' (tr w) (tr (m w).2) -> m' w = m w).

Section follows.
Context {K K' : Kernel}.

Lemma follows_pure {A} (m : M A) : (forall w, tr (m w).2 = tr w) -> follows K K' m m.
Proof. intros Hm w. rewrite Hm. split; [done|]. split; [apply answers_refl|done]. Qed.

Lemma follows_bind {A B} (m m' : M A) (f f' : A -> M B) :
  follows K K' m m' -> (forall a, follows K K' (f a) (f' a)) -> follows K K' (m ≫= f) (m' ≫= f').
Proof.
  intros Hm Hf w. destruct (Hm w) as (Hs & Ha & He). unfold mbind, M_bind.
  destruct (m w) as [[a|s| | |] w1] eqn:Em; cbn [snd] in *;
    [|split; [done|]; split; [done|]; intros H'; by rewrite He..].
  destruct (Hf a w1) as (Hs1 & Ha1 & He1). split; [by etrans|]. split; [by eapply answers_trans|].
  intros H'. rewrite He by (by eapply answers_l). apply He1. by eapply answers_r.
Qed.

Lemma follows_sys c : follows K K' (@sys K c) (@sys K' c).
Proof.
  intros w. unfold sys. cbn [snd]. rewrite tr_after. split; [by apply suffix_cons_r|].
  split; [by apply answers_cons_sys; [apply answers_refl|]|].
  by intros [_ ->]%answers_cons_inv.
Qed.

Lemma follows_syscall c : follows K K' (@syscall K c) (@syscall K' c).
Proof.
  intros w. unfold syscall. cbn [snd]. rewrite tr_after. split; [by apply suffix_cons_r|].
  split; [by apply answers_cons_sys; [apply answers_refl|]|].
  by intros [_ ->]%answers_cons_inv.
Qed.

Lemma follows_emit e : (forall c r, e <> Sys c r) -> follows K K' (emit e) (emit e).
Proof.
  intros He w. cbn. split; [by apply suffix_cons_r|]. split; [|done].
  apply answers_cons_out; [done|apply answers_refl].
Qed.

Lemma follows_when (b : bool) m m' : follows K K' m m' -> follows K K' (when b m) (when b m').
Proof. destruct b; [done|]. intros _. by apply follows_pure. Qed.
End follows.

(** Shows [follows K K' m m'] for the two instances of a translated function
    without loops of its own. *)
Ltac follows_step :=
  match goal with
  | |- follows _ _ (_ ≫= _) (_ ≫= _) => apply follows_bind; [|intros ?]
  | |- follows _ _ (when _ _) (when _ _) => apply follows_when
  | |- follows _ _ (syscall _) _ => apply follows_syscall
  | |- follows _ _ (sys _) _ => apply follows_sys
  | |- follows _ _ (emit _) _ => apply follows_emit; intros ??; discriminate
  | |- follows _ _ (perror _) _ => apply follows_emit; intros ??; discriminate
  | |- follows _ _ (printf _ _) _ => apply follows_emit; intros ??; discriminate
  | |- follows _ _ (eprintf _ _) _ => apply follows_emit; intros ??; discriminate
  | |- follows _ _ (let _ := _ in _) _ => cbv zeta
  | |- follows _ _ (match ?x with _ => _ end) _ => destruct x
  | |- follows _ _ _ _ => solve [auto with litmus_follows nocore | apply follows_pure; intros ?; reflexivity]
  end.
Ltac follows_tac := repeat follows_step.

(** ** Replaying a history *)

(** What [h] answered to [c] after [u], if it asked it then. *)
Fixpoint recorded (h u : trace) (c : call) : option reply :=
  match h with
  | [] => None
  | Sys c' r :: t => if decide (t = u /\ c' = c) then Some r else recorded t u c
  | _ :: t => recorded t u c
  end.

(** The kernel that answers as [h] did, and as [K] where [h] is silent. *)
Definition replay (h : trace) (K : Kernel) : Kernel := fun u c => default (kernel u c) (recorded h u c).

Lemma recorded_spec h u c r : recorded h u c = Some r <-> Sys c r :: u `suffix_of` h.
Proof.
  induction h as [|e h IH]; cbn [recorded].
  { split; [done|]. by intros [=]%suffix_nil_inv. }
  destruct e as [c' r'| | |]; try (rewrite IH; split; [by apply suffix_cons_r|by intros [[=]|?]%suffix_cons_inv]).
  destruct (decide _) as [[-> ->]|Hne].
  - split; [by intros [= ->]|]. intros [[= ->]|Hs]%suffix_cons_inv; [done|].
    apply suffix_length in Hs. cbn in Hs. lia.
  - rewrite IH. split; [by apply suffix_cons_r|]. intros [[= <- <- <-]|Hs]%suffix_cons_inv; [by destruct Hne|done].
Qed.

Lemma replay_answers h K t0 : answers (replay h K) t0 h.
Proof. intros c r u Hs _. apply recorded_spec in Hs. unfold replay, kernel. by rewrite Hs. Qed.

(** ** Causal programs *)

(** A program is a computation for every kernel. *)
Definition causal {A} (P : Kernel -> M A) : Prop := forall K K', follows K K' (P K) (P K').

Section causal.
Context {A : Type} (P : Kernel -> M A) (Pc : causal P) (w0 : world).

Lemma causal_grows K : tr w0 `suffix_of` tr (P K w0).2.
Proof using Pc. apply (Pc K K). Qed.

Lemma causal_answers K : answers K (tr w0) (tr (P K w0).2).
Proof using Pc. apply (Pc K K). Qed.

(** The run under a kernel is the run under every kernel that gives the same
    answers along it. *)
Lemma causal_run K K' : answers K' (tr w0) (tr (P K w0).2) -> P K' w0 = P K w0.
Proof using Pc. apply (Pc K K'). Qed.

(** The same for a run that has not ended: kernels that answer alike up to a
    point lead to the same point. *)
Lemma causal_prefix K K' t :
  t `suffix_of` tr (P K w0).2 -> answers K' (tr w0) t -> t `suffix_of` tr (P K' w0).2.
Proof using Pc.
  intros Ht Ha. destruct (decide (t `suffix_of` tr (P K' w0).2)) as [?|Hno]; [done|].
  set (T := tr (P K w0).2) in *. set (K2 := replay T K').
  assert (P K2 w0 = P K w0) as E1 by (apply causal_run; apply replay_answers).
  assert (P K2 w0 = P K' w0) as E2.
  { apply causal_run. intros c r u Hs Hu. unfold K2, replay, kernel.
    destruct (recorded T u c) as [r'|] eqn:Er; [|by apply causal_answers].
    apply recorded_spec in Er. cbn. destruct (suffix_weak_total _ _ _ Er Ht) as [Hr|Hr].
    - rewrite <- (Ha _ _ _ Hr Hu). by apply (causal_answers K').
    - destruct Hno. apply suffix_of_cons in Hr as [->|Hr].
      + enough (r' = r) as -> by done. transitivity (@kernel K' u c); [|by apply causal_answers].
        symmetry. by apply Ha.
      + etrans; [exact Hr|]. by eapply suffix_cons_l. }
  destruct Hno. by rewrite <- E2, E1.
Qed.

(** *** Histories *)

(** A history is what every kernel that gave its answers has led to. *)
Definition history (h : trace) : Prop :=
  tr w0 `suffix_of` h /\ forall K, answers K (tr w0) h -> h `suffix_of` tr (P K w0).2.

Inductive action := ACall (c : call) | AOut (e : event) | AEnd (o : outcome A).

Definition silent : Kernel := fun _ _ => Succ 0.

(** What the program does after [h]. *)
Definition next (h : trace) : action :=
  let '(o, w) := P (replay h silent) w0 in
  match rev (tr w) !! length h with
  | Some (Sys c _) => ACall c
  | Some e => AOut e
  | None => AEnd o
  end.

Lemma history_start : history (tr w0).
Proof using Pc. split; [done|]. intros K _. apply causal_grows. Qed.

Lemma next_event (h T : trace) : h `suffix_of` T ->
  rev T !! length h = None /\ T = h \/ exists e, rev T !! length h = Some e /\ e :: h `suffix_of` T.
Proof using.
  intros [es ->]. rewrite rev_app_distr. destruct es as [|e es _] using rev_ind.
  - left. split; [|done]. rewrite app_nil_r. apply lookup_ge_None. by rewrite length_rev.
  - right. exists e. split; [|exists es; by rewrite <- app_assoc].
    rewrite rev_app_distr. cbn [rev app]. rewrite lookup_app_r by (by rewrite length_rev).
    by rewrite length_rev, Nat.sub_diag.
Qed.

(** The run that replays a history and the next event of it. *)
Lemma history_next h : history h ->
  exists o w, P (replay h silent) w0 = (o, w) /\
    (next h = AEnd o /\ tr w = h \/
     (exists c r, next h = ACall c /\ Sys c r :: h `suffix_of` tr w) \/
     exists e, (forall c r, e <> Sys c r) /\ next h = AOut e /\ e :: h `suffix_of` tr w).
Proof using Pc.
  intros [H0 Hh]. specialize (Hh (replay h silent) (replay_answers _ _ _)). unfold next.
  destruct (P (replay h silent) w0) as [o w]. cbn [snd] in Hh. exists o, w. split; [done|].
  destruct (next_event _ _ Hh) as [[-> ->]|(e & -> & He)]; [by left|].
  destruct e as [c r| | |]; [right; left; by eauto|right; right; eexists; split; [|by split]; done..].
Qed.

Lemma next_out h e c r : next h <> AOut (Sys c r) /\ (next h = AOut e -> e <> Sys c r).
Proof using.
  enough (next h <> AOut (Sys c r)) by (split; [done|by intros ? ->]).
  unfold next. destruct (P _ w0) as [o w]. by destruct (rev _ !! _) as [[]|].
Qed.

Lemma history_end h o : history h -> next h = AEnd o ->
  forall K, answers K (tr w0) h -> exists w, P K w0 = (o, w) /\ tr w = h.
Proof using Pc.
  intros Hh Hn K HK. destruct (history_next h Hh) as (o' & w & E & Hw). rewrite Hn in Hw.
  destruct Hw as [[[= ->] Hw]|[(? & ? & [=] & _)|(? & _ & [=] & _)]]. exists w. split; [|done].
  rewrite <- E. apply causal_run. rewrite E. cbn [snd]. by rewrite Hw.
Qed.

Lemma history_out h e : history h -> next h = AOut e -> history (e :: h).
Proof using Pc.
  intros Hh Hn. destruct (history_next h Hh) as (o' & w & E & Hw). rewrite Hn in Hw.
  destruct Hw as [[[=] _]|[(? & ? & [=] & _)|(e' & Hout & [= <-] & Hs)]].
  split; [by apply suffix_cons_r, Hh|]. intros K HK.
  apply (causal_prefix (replay h silent)); [by rewrite E|done].
Qed.

(** Whatever the answer to the next request is, the history goes on with it. *)
Lemma history_call h c r : history h -> next h = ACall c -> history (Sys c r :: h).
Proof using Pc.
  intros Hh Hn. destruct (history_next h Hh) as (o' & w & E & Hw). rewrite Hn in Hw.
  destruct Hw as [[[=] _]|[(c' & r0 & [= <-] & Hs)|(? & _ & [=] & _)]].
  split; [by apply suffix_cons_r, Hh|]. intros K [HK Hr]%answers_cons_inv; [|apply Hh].
  set (K2 := replay (Sys c r0 :: h) K).
  assert (Sys c r0 :: h `suffix_of` tr (P K2 w0).2) as H2.
  { apply (causal_prefix (replay h silent)); [by rewrite E|apply replay_answers]. }
  destruct (decide (Sys c r :: h `suffix_of` tr (P K w0).2)) as [?|Hno]; [done|].
  assert (P K2 w0 = P K w0) as E2.
  { apply causal_run. intros c1 r1 u Hs1 Hu. unfold K2, replay, kernel.
    destruct (recorded _ u c1) as [r2|] eqn:E2; [|by apply causal_answers]. cbn.
    apply recorded_spec in E2. apply suffix_cons_inv in E2 as [[= -> -> ->]|E2].
    - destruct Hno. enough (r1 = r) as -> by done. rewrite <- Hr. symmetry. by apply causal_answers.
    - rewrite <- (HK _ _ _ E2 Hu). by apply (causal_answers K). }
  rewrite E2 in H2. destruct Hno. enough (r0 = r) as -> by done. rewrite <- Hr.
  symmetry. apply (causal_answers K); [done|apply Hh].
Qed.
End causal.

#[export] Hint Resolve history_start history_out history_call : litmus.
