(* ===== verification/System.v ===== *)
(** * Processes

    A program and the processes that descend from its first one by [fork], in
    any interleaving.  A process is its history: [fork] copies it, with the
    answer 0 for the child, [waitpid] waits for a child and reports how it
    ended, the end of a program leaves its status.  These are the guarantees
    of POSIX; all other requests go to the parameter [serve], which sees the
    process, its history and a state all processes share, and may block.  A
    process may be ended by a signal of [deadly], and [fork] may fail with an
    error of [refused].  Process ids are not used twice. *)
From stdpp Require Import gmap relations.
From S2P Require Import Prelude Machine Causal.

Definition ECHILD : Z := 10.

Inductive pstate := Running | Zombie (status : Z) | Reaped (status : Z).

#[export] Instance pstate_eq_dec : EqDecision pstate.
Proof. solve_decision. Defined.

Record process := mk_process {
  parent : Z;
  birth : nat;      (* how many processes there were before *)
  hist : trace;
  state : pstate;
}.

Definition status_of (s : pstate) : option Z :=
  match s with Running => None | Zombie st | Reaped st => Some st end.

(** The status [waitpid] reports of a program that ended; none is determined
    by undefined behaviour, and a program that used up its fuel goes on. *)
Definition exit_status (o : outcome Z) : option Z :=
  match o with
  | Val v | Exit v => Some (Z.shiftl (Z.land v 255) 8)
  | Aborted => Some 6
  | Fault | NoFuel => None
  end.

(** The requests that are about processes. *)
Definition process_call (c : call) : bool :=
  match c with Fork => true | Waitpid p => 0 <? p | _ => false end.

(** The part of a history that is about processes. *)
Definition about_processes (t : trace) : list event :=
  omap (fun e => match e with Sys Fork _ | Sys (Waitpid _) _ => Some e | _ => None end) t.

Lemma about_processes_suffix t t' : t `suffix_of` t' -> about_processes t `suffix_of` about_processes t'.
Proof. intros [es ->]. unfold about_processes. rewrite omap_app. by apply suffix_app_r. Qed.

Section system.
Context (P : Kernel -> M Z) (w0 : world).
Context {Sh : Type} (serve : Sh -> Z -> trace -> call -> option (reply * Sh)).
Context (deadly refused : Z -> Prop).

Record system := mk_system { procs : gmap Z process; shared : Sh }.

Definition grow (q : process) (e : event) : process := mk_process (parent q) (birth q) (e :: hist q) (state q).
Definition ends (q : process) (s : pstate) : process := mk_process (parent q) (birth q) (hist q) s.
Definition put (s : system) (p : Z) (q : process) : system := mk_system (<[p := q]> (procs s)) (shared s).
Definition child_of (s : system) (p : Z) (q : process) : process :=
  mk_process p (size (procs s)) (Sys Fork (Succ 0) :: hist q) Running.

(** Process [p] is alive and its program goes on with [a]. *)
Definition about_to (s : system) (p : Z) (q : process) (a : action) : Prop :=
  procs s !! p = Some q /\ state q = Running /\ next P w0 (hist q) = a.

(** [child] is a child of [p] that was not waited for. *)
Definition waitable (s : system) (p child : Z) : Prop := exists c,
  procs s !! child = Some c /\ parent c = p /\ forall st, state c <> Reaped st.

Inductive step (s : system) : system -> Prop :=
  | step_out p q e : about_to s p q (AOut e) -> step s (put s p (grow q e))
  | step_serve p q c r sh :
      about_to s p q (ACall c) -> process_call c = false -> serve (shared s) p (hist q) c = Some (r, sh) ->
      step s (mk_system (<[p := grow q (Sys c r)]> (procs s)) sh)
  | step_fork p q child :
      about_to s p q (ACall Fork) -> 0 < child -> procs s !! child = None ->
      step s (put (put s p (grow q (Sys Fork (Succ child)))) child (child_of s p q))
  | step_fork_fails p q err :
      about_to s p q (ACall Fork) -> refused err -> step s (put s p (grow q (Sys Fork (Fail err))))
  | step_wait p q child c st :
      about_to s p q (ACall (Waitpid child)) -> 0 < child -> procs s !! child = Some c -> parent c = p ->
      state c = Zombie st ->
      step s (put (put s child (ends c (Reaped st))) p (grow q (Sys (Waitpid child) (Pair child st))))
  | step_wait_fails p q child :
      about_to s p q (ACall (Waitpid child)) -> 0 < child -> ~ waitable s p child ->
      step s (put s p (grow q (Sys (Waitpid child) (Fail ECHILD))))
  | step_exit p q o st :
      about_to s p q (AEnd o) -> exit_status o = Some st -> step s (put s p (ends q (Zombie st)))
  | step_signal p q sig :
      procs s !! p = Some q -> state q = Running -> deadly sig -> 0 < sig < 127 ->
      step s (put s p (ends q (Zombie sig))).

(** One process, just started. *)
Definition boot (root : Z) (sh : Sh) : system :=
  mk_system {[root := mk_process 0 0 (tr w0) Running]} sh.

Definition reachable (root : Z) (s : system) : Prop := exists sh, rtc step (boot root sh) s.

(** ** What stays *)

Definition later (q q' : process) : Prop :=
  parent q' = parent q /\ birth q' = birth q /\ hist q `suffix_of` hist q' /\
  (forall st, status_of (state q) = Some st -> status_of (state q') = Some st /\ hist q' = hist q) /\
  (forall st, state q = Reaped st -> state q' = Reaped st).

#[local] Instance later_refl : Reflexive later.
Proof using. intros q. by split_and!. Qed.

#[local] Instance later_trans : Transitive later.
Proof using.
  intros q1 q2 q3 (Hp & Hb & Hh & Hs & Hr) (Hp' & Hb' & Hh' & Hs' & Hr').
  split_and!; [congruence|congruence|by etrans| |by auto].
  intros st [H1 H2]%Hs. destruct (Hs' _ H1). by rewrite <- H2.
Qed.

Definition system_later (s s' : system) : Prop :=
  forall p q, procs s !! p = Some q -> exists q', procs s' !! p = Some q' /\ later q q'.

#[local] Instance sys_later_refl : Reflexive system_later.
Proof using. intros s p q Hq. by exists q. Qed.

#[local] Instance sys_later_trans : Transitive system_later.
Proof using.
  intros s1 s2 s3 H12 H23 p q (q' & Hq' & L)%H12. destruct (H23 _ _ Hq') as (q'' & Hq'' & L').
  exists q''. split; [done|by etrans].
Qed.

Lemma later_grow q e : state q = Running -> later q (grow q e).
Proof using.
  intros Hr. unfold later, grow. cbn. rewrite Hr. split_and!; [done..|by apply suffix_cons_r| |]; by intros.
Qed.

Lemma later_ends q s' : (forall st, status_of (state q) = Some st -> status_of s' = Some st) ->
  (forall st, state q <> Reaped st) -> later q (ends q s').
Proof using. intros Hs Hr. split_and!; [done..| |]; [by intros st ?%Hs|by intros st ?%Hr]. Qed.

Lemma put_later s p q q' : procs s !! p = Some q -> later q q' -> system_later s (put s p q').
Proof using.
  intros Hq L p1 q1 H1. cbn. destruct (decide (p1 = p)) as [->|Hne].
  - rewrite lookup_insert_eq. exists q'. split; [done|]. by replace q1 with q by congruence.
  - rewrite lookup_insert_ne by done. by exists q1.
Qed.

Lemma put_new s p q' : procs s !! p = None -> system_later s (put s p q').
Proof using.
  intros Hp p1 q1 H1. cbn. rewrite lookup_insert_ne by congruence. by exists q1.
Qed.

Lemma step_later s s' : step s s' -> system_later s s'.
Proof using.
  intros [p q e (Hq & Hr & _)|p q c r sh (Hq & Hr & _) _ _|p q child (Hq & Hr & _) Hpos Hnew
    |p q err (Hq & Hr & _) _|p q child c st (Hq & Hr & _) _ Hc _ Hz|p q child (Hq & Hr & _) _ _
    |p q o st (Hq & Hr & _) _|p q sig Hq Hr _ _].
  - eapply put_later, later_grow; done.
  - exact (put_later _ _ _ _ Hq (later_grow _ _ Hr)).
  - etrans; [by eapply put_later, later_grow|]. apply put_new. cbn. rewrite lookup_insert_ne; congruence.
  - eapply put_later, later_grow; done.
  - etrans; [apply (put_later _ child c (ends c (Reaped st)) Hc), later_ends; by rewrite Hz|].
    apply (put_later _ p q); [|by apply later_grow]. cbn. rewrite lookup_insert_ne; congruence.
  - eapply put_later, later_grow; done.
  - eapply put_later, later_ends; [done|by rewrite Hr..].
  - eapply put_later, later_ends; [done|by rewrite Hr..].
Qed.
(** ** What histories say is true *)

(** What the event [e] says about processes, when it follows [u], is true. *)
Definition told (s : system) (e : event) (u : trace) : Prop :=
  match e with
  | Sys Fork r => r = Succ 0 \/ (exists err, r = Fail err /\ refused err) \/
      exists child c, r = Succ child /\ 0 < child /\ procs s !! child = Some c /\
        Sys Fork (Succ 0) :: u `suffix_of` hist c
  | Sys (Waitpid child) r => 0 < child -> r = Fail ECHILD \/
      exists c st, r = Pair child st /\ procs s !! child = Some c /\ state c = Reaped st
  | _ => True
  end.

Lemma told_later s s' e u : system_later s s' -> told s e u -> told s' e u.
Proof using.
  intros L. destruct e as [[] r| | |]; cbn; try done.
  - intros [?|[?|(child & c & -> & Hpos & Hc & Hs)]]; [by left|by right; left|].
    destruct (L _ _ Hc) as (c' & Hc' & _ & _ & Hh & _).
    right; right. exists child, c'. split_and!; [done..|by etrans].
  - intros H Hpos. destruct (H Hpos) as [?|(c & st & -> & Hc & Hr)]; [by left|].
    destruct (L _ _ Hc) as (c' & Hc' & _ & _ & _ & _ & Hr'). right. exists c', st. eauto.
Qed.

(** How a process that left the status [st] ended. *)
Definition ended_as (q : process) (st : Z) : Prop :=
  (exists o, next P w0 (hist q) = AEnd o /\ exit_status o = Some st) \/ (deadly st /\ 0 < st < 127).

Record sound (s : system) (p : Z) (q : process) : Prop := {
  sound_pid : 0 < p;
  sound_history : history P w0 (hist q);
  sound_status st : status_of (state q) = Some st -> ended_as q st;
  sound_told e u : e :: u `suffix_of` hist q -> tr w0 `suffix_of` u -> told s e u;
  sound_birth : (birth q < size (procs s))%nat;
  sound_child u : Sys Fork (Succ 0) :: u `suffix_of` hist q -> tr w0 `suffix_of` u -> parent q <> 0;
  sound_own u child : Sys Fork (Succ child) :: u `suffix_of` hist q -> tr w0 `suffix_of` u ->
    (forall v, ~ Sys Fork (Succ 0) :: v `suffix_of` hist q) -> exists c, procs s !! child = Some c /\ parent c = p;
  sound_parent : parent q = 0 \/ exists q0, procs s !! parent q = Some q0 /\ (birth q0 < birth q)%nat;
}.

Definition all_sound (s : system) : Prop := forall p q, procs s !! p = Some q -> sound s p q.

Lemma later_size s s' : system_later s s' -> (size (procs s) <= size (procs s'))%nat.
Proof using.
  intros L. rewrite <- !size_dom. apply subseteq_size. intros p. rewrite !elem_of_dom.
  intros [q Hq]. destruct (L _ _ Hq) as (q' & ? & _). by exists q'.
Qed.

Lemma sound_later s s' p q : system_later s s' -> sound s p q -> sound s' p q.
Proof using.
  intros L [Hp Hh Hs Ht Hb Hc Hown Hpar]. split; [done..| | |done| |].
  - intros e u ??. by eapply told_later, Ht.
  - apply later_size in L. lia.
  - intros u child H1 H2 H3. destruct (Hown u child H1 H2 H3) as (c & H4 & <-).
    destruct (L _ _ H4) as (c' & Hc' & Hpc & _). by exists c'.
  - destruct Hpar as [?|(q0 & Hq0 & Hlt)]; [by left|]. right.
    destruct (L _ _ Hq0) as (q1 & Hq1 & _ & Hbirth & _). exists q1. split; [done|lia].
Qed.

Lemma sound_grow s p q e :
  sound s p q -> state q = Running -> history P w0 (e :: hist q) -> told s e (hist q) -> e <> Sys Fork (Succ 0) ->
  (forall child, e = Sys Fork (Succ child) -> exists c, procs s !! child = Some c /\ parent c = p) ->
  sound s p (grow q e).
Proof using.
  intros [Hp Hh Hs Ht Hb Hc Hown Hpar] Hr Hh' He Hne Hf. split; [done|done|cbn; by rewrite Hr| |done| | |done]; cbn.
  - intros e' u [[= -> ->]|Hu]%suffix_cons_inv H0; [done|by apply Ht].
  - intros u [[= <- _]|Hu]%suffix_cons_inv H0; [done|by eapply Hc].
  - intros u child [[= <- _]|Hu]%suffix_cons_inv H0 Hno; [by apply Hf|]. apply (Hown u); [done|done|].
    intros v Hv. apply (Hno v). by apply suffix_cons_r.
Qed.

Lemma sound_ends s p q st s' :
  sound s p q -> status_of s' = Some st -> ended_as q st -> sound s p (ends q s').
Proof using.
  intros [Hp Hh Hs Ht Hb Hc Hown Hpar] Hst He. split; [done|done| |done..].
  cbn. rewrite Hst. by intros ? [= <-].
Qed.

Lemma all_sound_put s s' p q q' :
  all_sound s -> procs s !! p = Some q -> later q q' -> procs s' = <[p := q']> (procs s) ->
  (system_later s s' -> sound s' p q -> sound s' p q') -> all_sound s' /\ system_later s s'.
Proof using.
  intros A Hq L E Hs.
  assert (system_later s s') as SL.
  { intros p1 q1 H1. rewrite E. by apply (put_later s p q q' Hq L). }
  split; [|done]. intros p1 q1. rewrite E. intros [[<- <-]|[_ H1]]%lookup_insert_Some.
  - apply Hs; [done|]. by eapply sound_later, A.
  - by eapply sound_later, A.
Qed.

(** The child of a fork, and its parent, in the state both are in. *)
Lemma fork_sound s p q child :
  causal P -> all_sound s -> about_to s p q (ACall Fork) -> 0 < child -> procs s !! child = None ->
  all_sound (put (put s p (grow q (Sys Fork (Succ child)))) child (child_of s p q)).
Proof using.
  intros Pc A (Hq & Hr & Hn) Hpos Hnew.
  set (q1 := grow q (Sys Fork (Succ child))). set (s1 := put s p q1). set (s2 := put s1 child (child_of s p q)).
  assert (procs s1 !! child = None) as Hnew1 by (unfold s1; cbn; rewrite lookup_insert_ne; congruence).
  assert (system_later s s1) as L1 by by eapply put_later, later_grow.
  assert (system_later s s2) as L by (etrans; [exact L1|by apply put_new]).
  assert (size (procs s2) = Datatypes.S (size (procs s))) as Hsize.
  { unfold s2. cbn. rewrite map_size_insert_None by done. unfold s1. cbn. by rewrite map_size_insert_Some by (by rewrite Hq). }
  assert (forall u, Sys Fork (Succ 0) :: u `suffix_of` hist (child_of s p q) -> told s2 (Sys Fork (Succ child)) u) as Htold.
  { intros u Hu. right; right. exists child, (child_of s p q). split_and!; [done..|apply lookup_insert_eq|done]. }
  intros p1 q2. unfold s2 at 1. cbn. intros [[<- <-]|[Hne H1]]%lookup_insert_Some.
  - split; [done|by eapply history_call, Hn; [|by apply (sound_history s p), A]|done| |rewrite Hsize; cbn; lia| | |].
    + cbn. intros e u [[= -> ->]|Hu]%suffix_cons_inv H0; [by left|]. by eapply told_later, A.
    + pose proof (sound_pid s p q (A _ _ Hq)). cbn. lia.
    + cbn. intros u c _ _ Hno. by destruct (Hno (hist q)).
    + right. exists q1. split; [|by eapply (sound_birth s p q), A]. unfold s2, s1. cbn.
      rewrite lookup_insert_ne by congruence. apply lookup_insert_eq.
  - apply lookup_insert_Some in H1 as [[<- <-]|[_ H1]]; [|by eapply sound_later, A].
    apply sound_grow; [by eapply sound_later, A|done|by eapply history_call, Hn; [|by apply (sound_history s p), A]| | |].
    + by apply Htold.
    + intros [= ->]. lia.
    + intros c [= <-]. exists (child_of s p q). split; [apply lookup_insert_eq|done].
Qed.

(** A child that is waited for, and its parent. *)
Lemma wait_sound s p q child c st :
  causal P -> all_sound s -> about_to s p q (ACall (Waitpid child)) -> procs s !! child = Some c ->
  state c = Zombie st ->
  all_sound (put (put s child (ends c (Reaped st))) p (grow q (Sys (Waitpid child) (Pair child st)))).
Proof using.
  intros Pc A (Hq & Hr & Hn) Hc Hz. set (s1 := put s child (ends c (Reaped st))).
  destruct (all_sound_put s s1 child c (ends c (Reaped st)) A Hc) as [A1 _]; [apply later_ends; by rewrite Hz|done| |].
  { intros L Hs. apply (sound_ends _ _ _ st); [done|done|]. apply (sound_status s child c); [by apply A|by rewrite Hz]. }
  assert (procs s1 !! p = Some q) as Hq1 by (unfold s1; cbn; rewrite lookup_insert_ne; congruence).
  eapply (all_sound_put s1 _ p q); [done..|by apply later_grow|done|]. intros L Hs.
  apply sound_grow; [done..|by eapply history_call, Hn; [|apply Hs]| |done|done]. intros Hpos. right.
  exists (ends c (Reaped st)), st. split_and!; [done| |done]. cbn. rewrite lookup_insert_ne by congruence.
  apply lookup_insert_eq.
Qed.

Lemma step_sound s s' : causal P -> all_sound s -> step s s' -> all_sound s'.
Proof using.
  intros Pc A [p q e (Hq & Hr & Hn)|p q c r sh (Hq & Hr & Hn) Hc Hserve|p q child (Hq & Hr & Hn) Hpos Hnew
    |p q err (Hq & Hr & Hn) Href|p q child c st (Hq & Hr & Hn) Hpos Hc Hpar Hz|p q child (Hq & Hr & Hn) Hpos Hw
    |p q o st (Hq & Hr & Hn) Ho|p q sig Hq Hr Hd Hsig].
  - eapply (all_sound_put s _ p q); [done..|by apply later_grow|done|]. intros L Hs.
    apply sound_grow; [done..|by eapply history_out, Hn; [|apply Hs]| | |].
    all: destruct e as [c r| | |]; [|done..]; by destruct (proj1 (next_out P w0 (hist q) Barrier c r)).
  - eapply (all_sound_put s _ p q); [done..|by apply later_grow|done|]. intros L Hs.
    apply sound_grow; [done..|by eapply history_call, Hn; [|apply Hs]| |by intros [= -> _]|by intros ? [= -> _]]. destruct c; try done.
    cbn in *. by intros ?%Z.ltb_lt; rewrite Hc in *.
  - by apply fork_sound.
  - eapply (all_sound_put s _ p q); [done..|by apply later_grow|done|]. intros L Hs.
    apply sound_grow; [done..|by eapply history_call, Hn; [|apply Hs]| |done|done]. right; left. by exists err.
  - by apply wait_sound.
  - eapply (all_sound_put s _ p q); [done..|by apply later_grow|done|]. intros L Hs.
    apply sound_grow; [done..|by eapply history_call, Hn; [|apply Hs]| |done|done]. by left.
  - apply (all_sound_put s _ p q (ends q (Zombie st))); [done..|apply later_ends; by rewrite Hr|done|]. intros L Hs.
    apply (sound_ends _ _ _ st); [done|done|]. left. by exists o.
  - apply (all_sound_put s _ p q (ends q (Zombie sig))); [done..|apply later_ends; by rewrite Hr|done|]. intros L Hs.
    apply (sound_ends _ _ _ sig); [done|done|]. by right.
Qed.

Lemma boot_sound root sh : causal P -> 0 < root -> all_sound (boot root sh).
Proof using.
  intros Pc Hroot p q. cbn. intros [<- <-]%lookup_singleton_Some.
  split; [done|by apply history_start|done| |unfold boot; cbn [procs birth]; rewrite map_size_singleton; lia| | |by left]; cbn.
  - intros e u H1 H2. apply suffix_length in H1, H2. cbn in H1. lia.
  - intros u H1 H2. apply suffix_length in H1, H2. cbn in H1. lia.
  - intros u child H1 H2. apply suffix_length in H1, H2. cbn in H1. lia.
Qed.

Lemma reachable_sound root s : causal P -> 0 < root -> reachable root s -> all_sound s.
Proof using.
  intros Pc Hroot [sh Hs]. assert (all_sound (boot root sh)) as A by by apply boot_sound.
  induction Hs as [|s1 s2 s3 Hstep _ IH]; [done|]. by eapply IH, step_sound.
Qed.

Lemma reachable_root root s : reachable root s -> exists q, procs s !! root = Some q /\ parent q = 0.
Proof using.
  intros [sh Hs]. assert (system_later (boot root sh) s) as L.
  { induction Hs as [|s1 s2 s3 Hstep _ IH]; [done|]. etrans; [by apply step_later|done]. }
  destruct (L root _ (lookup_singleton_eq _ _)) as (q & Hq & Hp & _). by exists q.
Qed.

(** A process never got the same child from two forks. *)
Lemma fork_once s p q child u u' : sound s p q -> 0 < child -> tr w0 `suffix_of` u -> tr w0 `suffix_of` u' ->
  Sys Fork (Succ child) :: u `suffix_of` hist q -> Sys Fork (Succ child) :: u' `suffix_of` hist q -> u = u'.
Proof using.
  intros A Hpos. assert (forall v v', tr w0 `suffix_of` v -> tr w0 `suffix_of` v' ->
    Sys Fork (Succ child) :: v `suffix_of` hist q -> Sys Fork (Succ child) :: v' `suffix_of` hist q ->
    (length v <= length v')%nat -> v = v') as H.
  { intros v v' H0 H0' Hv Hv' Hlen. destruct (suffix_weak_total _ _ _ Hv Hv') as [Hs|Hs]; [|].
    - apply suffix_cons_inv in Hs as [[= ->]|Hs]; [done|]. exfalso.
      destruct (sound_told _ _ _ A _ _ Hv H0) as [[= ->]|[(? & [=] & _)|(c1 & c & [= <-] & _ & Hc & Hin)]]; [lia|].
      destruct (sound_told _ _ _ A _ _ Hv' H0') as [[= ->]|[(? & [=] & _)|(c1 & c' & [= <-] & _ & Hc' & Hin')]]; [lia|].
      assert (c' = c) as -> by congruence. apply suffix_cons_l in Hin'.
      assert (Sys Fork (Succ child) :: v `suffix_of` hist c) as Hin2 by by etrans.
      destruct Hin as [k1 E1], Hin2 as [k2 E2]. rewrite E1 in E2. apply app_inj_2 in E2 as [_ [= E]]; [lia|done].
    - apply suffix_cons_inv in Hs as [[= ->]|Hs]; [done|]. apply suffix_length in Hs. cbn in Hs. lia. }
  intros H0 H0' Hv Hv'. destruct (le_ge_dec (length u) (length u')) as [?|?]; [by apply H|symmetry; by apply H].
Qed.

(** A child that was waited for: its parent was told. *)
Definition waited_for (s : system) (x : Z) (c : process) (st : Z) : Prop := exists q u,
  procs s !! parent c = Some q /\ Sys (Waitpid x) (Pair x st) :: u `suffix_of` hist q.

Lemma put_reaped s p q' x c st : (forall st, state q' <> Reaped st) ->
  procs (put s p q') !! x = Some c -> state c = Reaped st -> procs s !! x = Some c.
Proof using. intros Hno. cbn. intros [[<- <-]|[_ ?]]%lookup_insert_Some Hst; [by destruct (Hno st)|done]. Qed.

Lemma step_reaped s s' x c st : step s s' -> procs s' !! x = Some c -> state c = Reaped st ->
  procs s !! x = Some c \/ waited_for s' x c st.
Proof using.
  intros [p q e (Hq & Hr & _)|p q c0 r sh (Hq & Hr & _) _ _|p q child (Hq & Hr & _) Hpos Hnew
    |p q err (Hq & Hr & _) _|p q child c0 st0 (Hq & Hr & _) _ Hc Hpar Hz|p q child (Hq & Hr & _) _ _
    |p q o st0 (Hq & Hr & _) _|p q sig Hq Hr _ _] Hx Hst.
  - left. eapply put_reaped; [|done..]. cbn. by rewrite Hr.
  - left. revert Hx. cbn. intros [[<- <-]|[_ ?]]%lookup_insert_Some; [cbn in Hst; congruence|done].
  - left. eapply put_reaped in Hx; [|done..]. eapply put_reaped; [|done..]. cbn. by rewrite Hr.
  - left. eapply put_reaped; [|done..]. cbn. by rewrite Hr.
  - set (q' := grow q _) in *. set (s1 := put s child (ends c0 (Reaped st0))) in *.
    assert (procs s1 !! x = Some c) as Hx1 by (eapply put_reaped; [|done..]; cbn; by rewrite Hr).
    unfold s1 in Hx1. cbn in Hx1. apply lookup_insert_Some in Hx1 as [[<- <-]|[_ ?]]; [|by left].
    right. exists q', (hist q). cbn in Hst. injection Hst as <-. split; [|done].
    cbn [parent ends]. rewrite Hpar. apply lookup_insert_eq.
  - left. eapply put_reaped; [|done..]. cbn. by rewrite Hr.
  - left. eapply put_reaped; [|done..]. by intros.
  - left. eapply put_reaped; [|done..]. by intros.
Qed.

Lemma reaped_waited root s x c st :
  reachable root s -> procs s !! x = Some c -> state c = Reaped st -> waited_for s x c st.
Proof using.
  intros [sh Hs]. remember (boot root sh) as s0 eqn:E0. revert x c st.
  assert (forall x c st, procs s0 !! x = Some c -> state c = Reaped st -> waited_for s0 x c st) as H0.
  { rewrite E0. cbn. intros x c st [<- <-]%lookup_singleton_Some. done. }
  clear E0. induction Hs as [|s1 s2 s3 Hstep _ IH]; [done|]. apply IH. intros x c st Hx Hst.
  destruct (step_reaped _ _ _ _ _ Hstep Hx Hst) as [Hx1|?]; [|done].
  destruct (H0 _ _ _ Hx1 Hst) as (q & u & Hq & Hu). destruct (step_later _ _ Hstep _ _ Hq) as (q' & Hq' & _ & _ & Hh & _).
  exists q', u. split; [done|]. by etrans.
Qed.

(** The run of a process that left a status, under any kernel that gave its
    answers. *)
Lemma ended_run q st : causal P -> history P w0 (hist q) -> ended_as q st ->
  (deadly st /\ 0 < st < 127) \/
  forall K, answers K (tr w0) (hist q) -> exists o w, P K w0 = (o, w) /\ tr w = hist q /\ exit_status o = Some st.
Proof using.
  intros Pc Hh [(o & Hn & Ho)|?]; [right|by left]. intros K HK.
  destruct (history_end P Pc w0 (hist q) o Hh Hn K HK) as (w & Hw & Htr). by exists o, w.
Qed.

(** What [waitpid] reports is true, in every interleaving: the status is
    that of a process which was forked, has ended and was waited for, and whose
    own run, under every kernel that gave it the same answers, ends with this
    status after exactly its history; or the process was killed. *)
Theorem waitpid_reports root s p q child c' st u :
  causal P -> 0 < root -> reachable root s -> procs s !! p = Some q -> 0 < child ->
  Sys (Waitpid child) (Pair c' st) :: u `suffix_of` hist q -> tr w0 `suffix_of` u ->
  c' = child /\ exists c, procs s !! child = Some c /\ state c = Reaped st /\
    ((deadly st /\ 0 < st < 127) \/ forall K, answers K (tr w0) (hist c) ->
       exists o w, P K w0 = (o, w) /\ tr w = hist c /\ exit_status o = Some st).
Proof using.
  intros Pc Hroot Hs Hq Hpos Hu H0. pose proof (reachable_sound root s Pc Hroot Hs) as A.
  destruct (sound_told s p q (A _ _ Hq) _ _ Hu H0 Hpos) as [?|(c & st' & [= -> ->] & Hc & Hz)]; [done|].
  split; [done|]. exists c. split_and!; [done..|]. apply ended_run; [done|by apply (sound_history s child), A|].
  apply (sound_status s child); [by apply A|by rewrite Hz].
Qed.

(** ** Progress *)

(** A live process that cannot go on by itself: a request that is not about
    processes blocks, or the program ended without a status. *)
Definition stuck (s : system) (p : Z) (q : process) : Prop :=
  (exists c, next P w0 (hist q) = ACall c /\ process_call c = false /\ serve (shared s) p (hist q) c = None) \/
  (exists o, next P w0 (hist q) = AEnd o /\ exit_status o = None).

Lemma fresh_pid (m : gmap Z process) : exists child, 0 < child /\ m !! child = None.
Proof using.
  set (b := foldr Z.max 0 (elements (dom m))).
  assert (forall l z, z ∈ l -> z <= foldr Z.max 0 l) as Hmax.
  { induction l as [|y l IH]; intros z; [by intros ?%not_elem_of_nil|].
    intros [->|Hz]%elem_of_cons; cbn [foldr]; [lia|]. specialize (IH z Hz). lia. }
  assert (forall l : list Z, 0 <= foldr Z.max 0 l) as Hnn by (induction l as [|y l IH]; cbn [foldr]; lia).
  pose proof (Hnn (elements (dom m))) as Hb.
  exists (1 + b). split; [lia|]. apply not_elem_of_dom. intros Hin.
  apply elem_of_elements, Hmax in Hin. fold b in Hin. lia.
Qed.

#[local] Instance waitable_dec s p child : Decision (waitable s p child).
Proof using.
  unfold waitable. destruct (procs s !! child) as [c|] eqn:E; [|by right; intros (? & ? & _)].
  destruct (decide (parent c = p)) as [Hp|Hp]; [|by right; intros (? & [= <-] & ? & _)].
  destruct (state c) as [|st|st] eqn:Hst.
  - left. exists c. by rewrite Hst.
  - left. exists c. by rewrite Hst.
  - right. intros (? & [= <-] & _ & H). by destruct (H st).
Defined.

Lemma running_moves s p q : all_sound s -> procs s !! p = Some q -> state q = Running ->
  exists p' q', procs s !! p' = Some q' /\ state q' = Running /\ (stuck s p' q' \/ exists s', step s s').
Proof using.
  intros A. remember (size (procs s) - birth q)%nat as n eqn:En. revert p q En.
  induction n as [n IH] using lt_wf_ind. intros p q -> Hq Hr.
  destruct (next P w0 (hist q)) as [c|e|o] eqn:Hn.
  - destruct (process_call c) eqn:Hc; [|].
    + destruct c; try done.
      * exists p, q. split_and!; [done..|]. right. destruct (fresh_pid (procs s)) as (child & Hpos & Hnew).
        eexists. by eapply step_fork.
      * cbn in Hc. apply Z.ltb_lt in Hc. destruct (decide (waitable s p pid)) as [(c & Hw & Hpar & Hst)|Hw].
        -- destruct (state c) as [|st|st] eqn:Hz; [| |by destruct (Hst st)].
           ++ pose proof (sound_birth s pid c (A _ _ Hw)).
              destruct (sound_parent s pid c (A _ _ Hw)) as [H0|(q0 & Hq0 & Hlt)].
              { pose proof (sound_pid s p q (A _ _ Hq)). lia. }
              assert (q0 = q) as -> by congruence. exact (IH (size (procs s) - birth c)%nat ltac:(lia) pid c eq_refl Hw Hz).
           ++ exists p, q. split_and!; [done..|]. right. eexists. by eapply (step_wait s p q).
        -- exists p, q. split_and!; [done..|]. right. eexists. by eapply step_wait_fails.
    + exists p, q. split_and!; [done..|]. destruct (serve (shared s) p (hist q) c) as [[r sh]|] eqn:E.
      * right. eexists. by eapply step_serve.
      * left. left. by exists c.
  - exists p, q. split_and!; [done..|]. right. eexists. by eapply step_out.
  - exists p, q. split_and!; [done..|]. destruct (exit_status o) as [st|] eqn:E.
    + right. eexists. by eapply step_exit.
    + left. right. by exists o.
Qed.

(** A system of processes never deadlocks on its own: as long as one is
    alive, some process can make a step, or the rest of the kernel keeps one
    waiting, or one has ended in undefined behaviour.  A process that waits for
    a child waits for one that is younger, so the youngest live process never
    waits for another. *)
Theorem system_progress root s :
  causal P -> 0 < root -> reachable root s ->
  (forall p q, procs s !! p = Some q -> state q <> Running) \/
  (exists p q, procs s !! p = Some q /\ state q = Running /\ stuck s p q) \/
  exists s', step s s'.
Proof using.
  intros Pc Hroot Hs. pose proof (reachable_sound root s Pc Hroot Hs) as A.
  destruct (decide (map_Forall (fun _ q => state q <> Running) (procs s))) as [H|H]; [by left|right].
  apply map_not_Forall in H as (p & q & Hq & Hr); [|intros; apply _]. apply dec_stable in Hr.
  destruct (running_moves s p q A Hq Hr) as (p' & q' & ? & ? & [?|?]); [left|by right]. by exists p', q'.
Qed.

(** ** Termination *)

(** [P] is done after at most [n] events. *)
Definition bounded (n : nat) : Prop := forall K, (length (tr (P K w0).2) <= n + length (tr w0))%nat.

Section termination.
Context (n : nat).

Definition weight (q : process) : nat :=
  match state q with Running => Nat.pow 3 (n + length (tr w0) - length (hist q)) | _ => 0%nat end.

Definition total_weight (m : gmap Z process) : nat := map_fold (fun _ q w => (weight q + w)%nat) 0%nat m.

Lemma total_weight_insert m p q : m !! p = None -> total_weight (<[p:=q]> m) = (weight q + total_weight m)%nat.
Proof using. intros Hp. unfold total_weight. rewrite map_fold_insert_L; [done|by intros; lia|done]. Qed.

Lemma total_weight_put m p q q' : m !! p = Some q ->
  (total_weight (<[p:=q']> m) + weight q = weight q' + total_weight m)%nat.
Proof using.
  intros Hq. rewrite <- (insert_delete_id m p q Hq) at 2. rewrite <- (insert_delete_eq m p q').
  rewrite !total_weight_insert by apply lookup_delete_eq. lia.
Qed.

Context (B : bounded n).

Lemma history_length h : history P w0 h -> (length h <= n + length (tr w0))%nat.
Proof using B. intros [_ Hh]. etrans; [apply suffix_length, (Hh _ (replay_answers h silent _))|apply B]. Qed.

(** An event leaves a third of a process's weight. *)
Lemma weight_grow s' p q e : all_sound s' -> procs s' !! p = Some (grow q e) -> state q = Running ->
  weight q = (3 * weight (grow q e))%nat /\ (0 < weight (grow q e))%nat.
Proof using B.
  intros A Hq Hr. pose proof (history_length _ (sound_history s' p _ (A _ _ Hq))) as Hl.
  unfold weight, grow in *. cbn in *. rewrite Hr.
  replace (n + length (tr w0) - length (hist q))%nat with (S (n + length (tr w0) - S (length (hist q))))%nat by lia.
  pose proof (Nat.pow_nonzero 3 (n + length (tr w0) - S (length (hist q))) ltac:(lia)). rewrite Nat.pow_succ_r'. lia.
Qed.

Lemma weight_running q : state q = Running -> (0 < weight q)%nat.
Proof using. intros Hr. unfold weight. rewrite Hr. pose proof (Nat.pow_nonzero 3 (n + length (tr w0) - length (hist q))). lia. Qed.

Lemma step_weight s s' : all_sound s' -> step s s' -> (total_weight (procs s') < total_weight (procs s))%nat.
Proof using B.
  intros A' Hstep. destruct Hstep as [p q e (Hq & Hr & Hn)|p q c r sh (Hq & Hr & Hn) Hc Hserve
    |p q child (Hq & Hr & Hn) Hpos Hnew|p q err (Hq & Hr & Hn) Href|p q child c st (Hq & Hr & Hn) Hpos Hc Hpar Hz
    |p q child (Hq & Hr & Hn) Hpos Hw|p q o st (Hq & Hr & Hn) Ho|p q sig Hq Hr Hd Hsig]; cbn [procs put] in *.
  - pose proof (total_weight_put _ _ _ (grow q e) Hq).
    destruct (weight_grow _ p q e A' ltac:(apply lookup_insert_eq) Hr). lia.
  - pose proof (total_weight_put _ _ _ (grow q (Sys c r)) Hq).
    destruct (weight_grow _ p q (Sys c r) A' ltac:(apply lookup_insert_eq) Hr). lia.
  - pose proof (total_weight_put _ _ _ (grow q (Sys Fork (Succ child))) Hq).
    destruct (weight_grow _ p q (Sys Fork (Succ child)) A') as [E1 E2]; [|done|].
    { cbn. rewrite lookup_insert_ne by congruence. apply lookup_insert_eq. }
    rewrite total_weight_insert by (rewrite lookup_insert_ne; congruence).
    assert (weight (child_of s p q) = weight (grow q (Sys Fork (Succ child)))) as -> by (unfold weight; cbn; by rewrite Hr). lia.
  - pose proof (total_weight_put _ _ _ (grow q (Sys Fork (Fail err))) Hq).
    destruct (weight_grow _ p q (Sys Fork (Fail err)) A' ltac:(apply lookup_insert_eq) Hr). lia.
  - set (e := Sys (Waitpid child) (Pair child st)) in *.
    pose proof (total_weight_put _ _ _ (ends c (Reaped st)) Hc) as E1.
    assert (<[child:=ends c (Reaped st)]> (procs s) !! p = Some q) as Hq1 by (rewrite lookup_insert_ne; congruence).
    pose proof (total_weight_put _ _ _ (grow q e) Hq1) as E2.
    assert (weight c = 0%nat) as E3 by (unfold weight; by rewrite Hz).
    change (weight (ends c (Reaped st))) with 0%nat in E1.
    destruct (weight_grow _ p q e A' ltac:(apply lookup_insert_eq) Hr). lia.
  - pose proof (total_weight_put _ _ _ (grow q (Sys (Waitpid child) (Fail ECHILD))) Hq).
    destruct (weight_grow _ p q (Sys (Waitpid child) (Fail ECHILD)) A' ltac:(apply lookup_insert_eq) Hr). lia.
  - pose proof (total_weight_put _ _ _ (ends q (Zombie st)) Hq) as E. pose proof (weight_running q Hr).
    change (weight (ends q (Zombie st))) with 0%nat in E. lia.
  - pose proof (total_weight_put _ _ _ (ends q (Zombie sig)) Hq) as E. pose proof (weight_running q Hr).
    change (weight (ends q (Zombie sig))) with 0%nat in E. lia.
Qed.
End termination.

(** When every run of the program ends after at most [n] events, so does
    the whole system of processes it forks, in every interleaving: no execution
    has more than 3^n steps. *)
Theorem system_terminates n root sh k s :
  causal P -> 0 < root -> bounded n -> nsteps step k (boot root sh) s -> (k <= 3 ^ n)%nat.
Proof using.
  intros Pc Hroot B Hk.
  assert (all_sound (boot root sh)) as A by by apply boot_sound.
  enough (k + total_weight n (procs s) <= total_weight n (procs (boot root sh)))%nat as Hle.
  { etrans; [|etrans; [exact Hle|]]; [lia|]. unfold boot, total_weight. cbn [procs]. rewrite map_fold_singleton.
    unfold weight. cbn [state hist].
    replace (n + length (tr w0) - length (tr w0))%nat with n by lia. lia. }
  induction Hk as [|k s1 s2 s3 Hstep _ IH]; [lia|].
  assert (all_sound s2) as A2 by by eapply step_sound. pose proof (step_weight n B _ _ A2 Hstep). specialize (IH A2). lia.
Qed.

(** ** Executions *)

(** One step of process [p]; a fork gets the child [child]. *)
Definition advance (s : system) (p child : Z) : option system :=
  q ← procs s !! p;
  match state q with
  | Running =>
      match next P w0 (hist q) with
      | AOut e => Some (put s p (grow q e))
      | AEnd o => st ← exit_status o; Some (put s p (ends q (Zombie st)))
      | ACall c =>
          if negb (process_call c) then
            '(r, sh) ← serve (shared s) p (hist q) c; Some (mk_system (<[p := grow q (Sys c r)]> (procs s)) sh)
          else match c with
          | Fork =>
              if bool_decide (0 < child /\ procs s !! child = None)
              then Some (put (put s p (grow q (Sys Fork (Succ child)))) child (child_of s p q)) else None
          | Waitpid w =>
              if decide (waitable s p w) then
                match procs s !! w with
                | Some c =>
                    match state c with
                    | Zombie st => Some (put (put s w (ends c (Reaped st))) p (grow q (Sys (Waitpid w) (Pair w st))))
                    | _ => None
                    end
                | None => None
                end
              else Some (put s p (grow q (Sys (Waitpid w) (Fail ECHILD))))
          | _ => None
          end
      end
  | _ => None
  end.

Lemma advance_step s p child s' : advance s p child = Some s' -> step s s'.
Proof using.
  unfold advance. destruct (procs s !! p) as [q|] eqn:Hq; [|done]. cbn [mbind option_bind].
  destruct (state q) eqn:Hr; [|done..]. destruct (next P w0 (hist q)) as [c|e|o] eqn:Hn.
  - destruct (process_call c) eqn:Hc; cbn [negb].
    + destruct c; try done.
      * case_bool_decide as Hf; [|done]. intros [= <-]. destruct Hf. by apply step_fork.
      * cbn in Hc. apply Z.ltb_lt in Hc. destruct (decide _) as [Hw|Hw].
        -- destruct Hw as (c & Hl & Hp & _). rewrite Hl. destruct (state c) eqn:Hz; [done| |done].
           intros [= <-]. by eapply (step_wait s p q).
        -- intros [= <-]. by eapply step_wait_fails.
    + destruct (serve _ _ _ _) as [[r sh]|] eqn:E; [|done]. intros [= <-]. by eapply step_serve.
  - intros [= <-]. by apply step_out.
  - destruct (exit_status o) as [st|] eqn:E; [|done]. intros [= <-]. by eapply step_exit.
Qed.

(** The first process of [ps] that can, [n] times; children are numbered from [base] on. *)
Fixpoint execute (n : nat) (base : Z) (ps : list Z) (s : system) : system :=
  match n with
  | O => s
  | S n =>
      match head (omap (fun p => advance s p (base + Z.of_nat (size (procs s)))) ps) with
      | Some s' => execute n base ps s'
      | None => s
      end
  end.

Lemma execute_steps n base ps s : rtc step s (execute n base ps s).
Proof using.
  revert s. induction n as [|n IH]; intros s; cbn [execute]; [done|].
  destruct (head _) as [s'|] eqn:E; [|done]. eapply rtc_l; [|apply IH].
  assert (s' ∈ omap (fun p => advance s p (base + Z.of_nat (size (procs s)))) ps) as Hin.
  { destruct (omap _ ps); [done|]. injection E as ->. by left. }
  apply list_elem_of_omap in Hin as (p & _ & Hp). by eapply advance_step.
Qed.
End system.
