(* ===== verification/Pairs.v ===== *)
(** * A process and its child

    Programs that fork one process and wait for it, as a system ([System]) of
    two processes that run interleaved.  [Duet] is what such a program and its
    kernel have to promise: every process is answered so that it ends with
    status 0, as long as a joint invariant of the shared state and the two
    histories holds, which the answers keep.  Then every process that ends
    leaves status 0 ([duet_statuses]), and the two block each other only where
    the kernel does ([duet_moves]). *)
From stdpp Require Import gmap relations.
From S2P Require Import Prelude Machine Causal System.

(** What the parent of [x] and, when [x] is 0, the child say about processes. *)
Definition process_log (x : Z) : list event :=
  if x =? 0 then [Sys Fork (Succ 0)] else [Sys (Waitpid x) (Pair x 0); Sys Fork (Succ x)].

Lemma process_log_fork x y l : Sys Fork (Succ x) ∈ l -> l `suffix_of` process_log y -> x = y.
Proof.
  intros Hx [k E]. assert (Sys Fork (Succ x) ∈ process_log y) as Hy by (rewrite E; apply elem_of_app; by right).
  unfold process_log in Hy. destruct (Z.eqb_spec y 0) as [->|].
  - by apply list_elem_of_singleton in Hy as [= ->].
  - by apply elem_of_cons in Hy as [[=]|[= ->]%list_elem_of_singleton].
Qed.

Lemma process_log_wait x y r l : Sys (Waitpid x) r :: l `suffix_of` process_log y ->
  x = y /\ y <> 0 /\ l = [Sys Fork (Succ x)].
Proof.
  unfold process_log. destruct (Z.eqb_spec y 0).
  - by intros [[=]|[=]%suffix_nil_inv]%suffix_cons_inv.
  - by intros [[= -> _ ->]|[[=]|[=]%suffix_nil_inv]%suffix_cons_inv]%suffix_cons_inv.
Qed.

(** Does the history go back to a fork as the child? *)
Definition is_child (t : trace) : bool :=
  existsb (fun e => match e with Sys Fork (Succ x) => x =? 0 | _ => false end) t.

Lemma is_child_about t : is_child t = is_child (about_processes t).
Proof.
  induction t as [|e t IH]; [done|]. destruct e as [c r| | |]; [|exact IH..].
  destruct c; try exact IH. change (about_processes (Sys Fork r :: t)) with (Sys Fork r :: about_processes t).
  cbn [is_child existsb]. by f_equal.
Qed.

(** A process that has not yet forked is the first one. *)
Definition owner (root p : Z) (h : trace) : Z := match about_processes h with [] => root | _ => p end.

Lemma owner_root root h : owner root root h = root.
Proof. unfold owner. by destruct (about_processes h). Qed.

(** The requests of [h] were answered as [answer p] allows. *)
Definition lawful (answer : Z -> trace -> call -> reply -> Prop) (p : Z) (h : trace) : Prop :=
  forall c r u, Sys c r :: u `suffix_of` h -> answer p u c r.

Lemma lawful_cons answer p e h :
  lawful answer p h -> (forall c r, e = Sys c r -> answer p h c r) -> lawful answer p (e :: h).
Proof. intros L He c r u [[= <- <-]|Hu]%suffix_cons_inv; [by apply He|by apply L]. Qed.

Lemma lawful_call answer p c r h : lawful answer p h -> answer p h c r -> lawful answer p (Sys c r :: h).
Proof. intros L Ha. apply lawful_cons; [done|]. by intros ?? [= <- <-]. Qed.

Lemma lawful_nil answer p : lawful answer p [].
Proof. by intros c r u [=]%suffix_nil_inv. Qed.

(** The ids of the processes are among [ok]. *)
Definition all_ids {Sh} (ok : Z -> Prop) (s : system (Sh := Sh)) : Prop := forall p q, procs s !! p = Some q -> ok p.

Lemma any_ids {Sh} (s : system (Sh := Sh)) : all_ids (fun _ => True) s.
Proof. by intros p q. Qed.

(** [ok]: the process ids the program can handle.  [joint sh h k]: the shared state, the history of the parent, and the child
    with its history when there is one. *)
Class Duet (P : Kernel -> M Z) (w0 : world) {Sh : Type} (serve : Sh -> Z -> trace -> call -> option (reply * Sh))
    (root : Z) (ok : Z -> Prop) (answer : Z -> trace -> call -> reply -> Prop)
    (joint : Sh -> trace -> option (Z * trace) -> Prop) : Prop := {
  duet_causal : causal P;
  duet_start : tr w0 = [];
  duet_root : 0 < root;
  duet_fork u x : 0 < x -> ok x -> about_processes u = [] -> answer root u Fork (Succ x);
  duet_forked p u : 0 < p -> p <> root -> about_processes u = [] -> answer p u Fork (Succ 0);
  duet_wait p u x : 0 < x -> answer p u (Waitpid x) (Pair x 0);
  duet_inherit p u c r : about_processes (Sys c r :: u) = [] -> answer root u c r -> answer p u c r;
  duet_run p h : lawful answer p h -> exists K o w x,
    answers K (tr w0) h /\ P K w0 = (o, w) /\ (exit_status o = Some 0 \/ o = NoFuel) /\ 0 <= x /\
    about_processes (tr w) = process_log x;
  joint_start sh : joint sh [] None;
  joint_out sh h k e : (forall c r, e <> Sys c r) -> joint sh h k -> joint sh (e :: h) k;
  joint_child_out sh h x hx e : (forall c r, e <> Sys c r) -> joint sh h (Some (x, hx)) -> joint sh h (Some (x, e :: hx));
  joint_fork sh h x : 0 < x -> x <> root -> lawful answer root h -> history P w0 h -> next P w0 h = ACall Fork ->
    about_processes h = [] -> joint sh h None ->
    joint sh (Sys Fork (Succ x) :: h) (Some (x, Sys Fork (Succ 0) :: h));
  joint_wait sh h x hx : lawful answer root h -> history P w0 h -> next P w0 h = ACall (Waitpid x) -> 0 < x ->
    joint sh h (Some (x, hx)) -> joint sh (Sys (Waitpid x) (Pair x 0) :: h) (Some (x, hx));
  joint_parent sh h k c r sh' : lawful answer root h -> history P w0 h -> next P w0 h = ACall c ->
    process_call c = false -> joint sh h k ->
    match k with
    | None => about_processes h = []
    | Some (x, _) => 0 < x /\ Sys Fork (Succ x) ∈ about_processes h
    end ->
    serve sh root h c = Some (r, sh') -> answer root h c r /\ joint sh' (Sys c r :: h) k;
  joint_child sh h x hx c r sh' : lawful answer x hx -> history P w0 hx -> next P w0 hx = ACall c ->
    process_call c = false -> joint sh h (Some (x, hx)) -> 0 < x -> about_processes hx = [Sys Fork (Succ 0)] ->
    serve sh x hx c = Some (r, sh') -> answer x hx c r /\ joint sh' h (Some (x, Sys c r :: hx));
}.

Section duet.
Context {P : Kernel -> M Z} {w0 : world} {Sh : Type} {serve : Sh -> Z -> trace -> call -> option (reply * Sh)}.
Context {root : Z} {ok : Z -> Prop} {answer : Z -> trace -> call -> reply -> Prop} {joint : Sh -> trace -> option (Z * trace) -> Prop}.
Context {D : Duet P w0 serve root ok answer joint}.

Let none (_ : Z) : Prop := False.

Abbreviation moves := (step P w0 serve none none).
Abbreviation reached := (reachable P w0 serve none none root).
Abbreviation lawful := (lawful answer).

(** ** The course of one process *)

(** The process goes on from [h] as in a run that ends well. *)
Lemma lawful_next p h c : lawful p h -> history P w0 h -> next P w0 h = ACall c ->
  exists r x, about_processes (Sys c r :: h) `suffix_of` process_log x /\ 0 <= x.
Proof using D.
  intros L Hh Hn. destruct (duet_run p h L) as (K & o & w & x & HK & Hrun & _ & Hx & Ha).
  set (r := @kernel K h c). assert (history P w0 (Sys c r :: h)) as [_ Hh'] by (apply history_call; [apply duet_causal|done..]).
  specialize (Hh' K (answers_cons_sys K (tr w0) h c r HK eq_refl)). rewrite Hrun in Hh'. cbn [snd] in Hh'.
  exists r, x. split; [|done]. rewrite <- Ha. by apply about_processes_suffix.
Qed.

Lemma next_fork p h : lawful p h -> history P w0 h -> next P w0 h = ACall Fork -> about_processes h = [].
Proof using D.
  intros L Hh Hn. destruct (lawful_next p h Fork L Hh Hn) as (r & x & Hs & _).
  change (about_processes (Sys Fork r :: h)) with (Sys Fork r :: about_processes h) in Hs.
  unfold process_log in Hs. destruct (x =? 0).
  - apply suffix_cons_inv in Hs as [[= _ ->]|[=]%suffix_nil_inv]. done.
  - by apply suffix_cons_inv in Hs as [[=]|[[= _ ->]|[=]%suffix_nil_inv]%suffix_cons_inv].
Qed.

Lemma next_wait p h y : lawful p h -> history P w0 h -> next P w0 h = ACall (Waitpid y) ->
  about_processes h = [Sys Fork (Succ y)] /\ 0 < y.
Proof using D.
  intros L Hh Hn. destruct (lawful_next p h _ L Hh Hn) as (r & x & Hs & Hx).
  apply (process_log_wait y x r (about_processes h)) in Hs as (-> & Hx0 & ->). split; [done|lia].
Qed.

Lemma lawful_end p h o : lawful p h -> history P w0 h -> next P w0 h = AEnd o ->
  (exit_status o = Some 0 \/ o = NoFuel) /\ exists x, about_processes h = process_log x /\ 0 <= x.
Proof using D.
  intros L Hh Hn. destruct (duet_run p h L) as (K & o' & w & x & HK & Hrun & Ho & Hx & Ha).
  destruct (history_end P duet_causal w0 h o Hh Hn K HK) as (w' & Hw' & <-).
  rewrite Hrun in Hw'. injection Hw' as -> ->. split; [done|]. by exists x.
Qed.

Lemma next_other p h c r : lawful p h -> history P w0 h -> next P w0 h = ACall c -> process_call c = false ->
  about_processes (Sys c r :: h) = about_processes h.
Proof using D.
  intros L Hh Hn Hc. destruct c; try done. destruct (next_wait p h _ L Hh Hn) as [_ Hpos].
  cbn in Hc. apply Z.ltb_ge in Hc. lia.
Qed.

(** ** The two processes together *)

Definition alone (s : system (Sh := Sh)) (qr : process) : Prop :=
  procs s !! root = Some qr /\ (forall p q, procs s !! p = Some q -> p = root) /\
  about_processes (hist qr) = [] /\ joint (shared s) (hist qr) None.

Definition pair (s : system (Sh := Sh)) (x : Z) (qr qx : process) : Prop :=
  0 < x /\ x <> root /\ procs s !! root = Some qr /\ procs s !! x = Some qx /\
  (forall p q, procs s !! p = Some q -> p = root \/ p = x) /\
  Sys Fork (Succ x) ∈ about_processes (hist qr) /\ about_processes (hist qx) = [Sys Fork (Succ 0)] /\
  parent qx = root /\ (forall st, state qx = Reaped st -> about_processes (hist qr) = process_log x) /\
  joint (shared s) (hist qr) (Some (x, hist qx)).

Definition each_good (m : gmap Z process) : Prop := forall p q, m !! p = Some q ->
  lawful p (hist q) /\ forall st, status_of (state q) = Some st -> st = 0.

Definition both_good (s : system (Sh := Sh)) : Prop :=
  each_good (procs s) /\ ((exists qr, alone s qr) \/ exists x qr qx, pair s x qr qx).

Lemma each_put m p q' : each_good m ->
  lawful p (hist q') -> (forall st, status_of (state q') = Some st -> st = 0) -> each_good (<[p := q']> m).
Proof using. intros Hs HL Hst p1 q1 [[<- <-]|[_ H1]]%lookup_insert_Some; [done|by apply Hs]. Qed.

Lemma alone_is s qr p q : alone s qr -> procs s !! p = Some q -> p = root /\ q = qr.
Proof using. intros (Hqr & Hall & _) Hq. pose proof (Hall _ _ Hq) as ->. split; [done|congruence]. Qed.

Lemma pair_is s x qr qx p q : pair s x qr qx -> procs s !! p = Some q -> p = root /\ q = qr \/ p = x /\ q = qx.
Proof using.
  intros (_ & _ & Hqr & Hqx & Hall & _) Hq. destruct (Hall _ _ Hq) as [-> | ->]; [left|right]; split; congruence.
Qed.

(** One of them goes on. *)
Lemma alone_grow s qr e sh : alone s qr -> about_processes (e :: hist qr) = [] -> joint sh (e :: hist qr) None ->
  alone (mk_system (<[root := grow qr e]> (procs s)) sh) (grow qr e).
Proof using.
  intros (Hqr & Hall & _) Ha J. split; [apply lookup_insert_eq|]. split_and!; [|done..].
  intros p q. cbn [procs]. intros [[<- _]|[_ H']]%lookup_insert_Some; [done|by eapply Hall].
Qed.

Lemma parent_grow s x qr qx e sh : pair s x qr qx ->
  about_processes (e :: hist qr) = about_processes (hist qr) -> joint sh (e :: hist qr) (Some (x, hist qx)) ->
  pair (mk_system (<[root := grow qr e]> (procs s)) sh) x (grow qr e) qx.
Proof using.
  intros (Hx & Hne & Hqr & Hqx & Hall & Hfr & Hfx & Hpar & Hre & _) Ha J. unfold pair. cbn [procs shared].
  change (hist (grow qr e)) with (e :: hist qr). rewrite Ha. split_and!; try done.
  - apply lookup_insert_eq.
  - by rewrite lookup_insert_ne.
  - intros p' q' [[<- _]|[_ H']]%lookup_insert_Some; [by left|by eapply Hall].
Qed.

Lemma child_grow s x qr qx e sh : pair s x qr qx ->
  about_processes (e :: hist qx) = about_processes (hist qx) -> joint sh (hist qr) (Some (x, e :: hist qx)) ->
  pair (mk_system (<[x := grow qx e]> (procs s)) sh) x qr (grow qx e).
Proof using.
  intros (Hx & Hne & Hqr & Hqx & Hall & Hfr & Hfx & Hpar & Hre & _) Ha J. unfold pair. cbn [procs shared].
  change (hist (grow qx e)) with (e :: hist qx). rewrite Ha. split_and!; try done.
  - by rewrite lookup_insert_ne.
  - apply lookup_insert_eq.
  - intros p' q' [[<- _]|[_ H']]%lookup_insert_Some; [by right|by eapply Hall].
Qed.

Lemma pair_ends s x qr qx p q st : pair s x qr qx -> procs s !! p = Some q -> state q = Running ->
  exists qr' qx', pair (put s p (ends q (Zombie st))) x qr' qx'.
Proof using.
  intros Hp Hq Hr. pose proof Hp as (Hx & Hne & Hqr & Hqx & Hall & Hfr & Hfx & Hpar & Hre & J).
  destruct (pair_is s x qr qx p q Hp Hq) as [[-> ->]|[-> ->]].
  - exists (ends qr (Zombie st)), qx. unfold pair. cbn [procs put shared]. split_and!; try done.
    + apply lookup_insert_eq.
    + by rewrite lookup_insert_ne.
    + intros p' q' [[<- _]|[_ ?%Hall]]%lookup_insert_Some; auto.
  - exists qr, (ends qx (Zombie st)). unfold pair. cbn [procs put shared]. split_and!; try done.
    + by rewrite lookup_insert_ne.
    + apply lookup_insert_eq.
    + intros p' q' [[<- _]|[_ ?%Hall]]%lookup_insert_Some; auto.
Qed.

(** ** The steps *)

Lemma good_out s p q e : all_sound P w0 none none s -> both_good s ->
  about_to P w0 s p q (AOut e) -> both_good (put s p (grow q e)).
Proof using D.
  intros A [Heach Hph] (Hq & Hr & Hn). destruct (Heach _ _ Hq) as [L Hst].
  assert (forall c r, e <> Sys c r) as He.
  { intros c r ->. by destruct (proj1 (next_out P w0 (hist q) Barrier c r)). }
  assert (forall t, about_processes (e :: t) = about_processes t) as Ha
    by (intros t; destruct e as [c r| | |]; [by destruct (He c r)|done..]).
  assert (lawful p (e :: hist q)) as L' by (apply lawful_cons; [done|]; intros c r ->; by destruct (He c r)).
  split; [by apply (each_put _ _ (grow q e) Heach L' Hst)|].
  destruct Hph as [(qr & Hal)|(x & qr & qx & Hp)].
  - left. destruct (alone_is s qr p q Hal Hq) as [-> ->]. exists (grow qr e). pose proof Hal as (_ & _ & Hab & J).
    apply alone_grow; [done|by rewrite Ha|by apply joint_out].
  - right. pose proof Hp as (_ & _ & _ & _ & _ & _ & _ & _ & _ & J).
    destruct (pair_is s x qr qx p q Hp Hq) as [[-> ->]|[-> ->]].
    + exists x, (grow qr e), qx. by apply (parent_grow s); [|by apply Ha|by apply joint_out].
    + exists x, qr, (grow qx e). by apply (child_grow s); [|by apply Ha|by apply joint_child_out].
Qed.

Lemma good_serve s p q c r sh : all_sound P w0 none none s -> both_good s ->
  about_to P w0 s p q (ACall c) -> process_call c = false -> serve (shared s) p (hist q) c = Some (r, sh) ->
  both_good (mk_system (<[p := grow q (Sys c r)]> (procs s)) sh).
Proof using D.
  intros A [Heach Hph] (Hq & Hr & Hn) Hc Hsv. destruct (Heach _ _ Hq) as [L Hst].
  pose proof (sound_history _ _ _ _ _ _ _ (A _ _ Hq)) as Hh.
  pose proof (next_other p (hist q) c r L Hh Hn Hc) as Ha.
  destruct Hph as [(qr & Hal)|(x & qr & qx & Hp)].
  - destruct (alone_is s qr p q Hal Hq) as [-> ->]. pose proof Hal as (_ & _ & Hab & J).
    destruct (joint_parent _ _ None c r sh L Hh Hn Hc J Hab Hsv) as [Hans J'].
    split; [by apply (each_put _ _ (grow qr (Sys c r)) Heach (lawful_call _ _ _ _ _ L Hans) Hst)|left].
    exists (grow qr (Sys c r)). apply alone_grow; [done|by rewrite Ha|done].
  - pose proof Hp as (Hx & _ & _ & _ & _ & Hfr & Hfx & _ & _ & J).
    destruct (pair_is s x qr qx p q Hp Hq) as [[-> ->]|[-> ->]].
    + destruct (joint_parent _ _ (Some (x, hist qx)) c r sh L Hh Hn Hc J (conj Hx Hfr) Hsv) as [Hans J'].
      split; [by apply (each_put _ _ (grow qr (Sys c r)) Heach (lawful_call _ _ _ _ _ L Hans) Hst)|right].
      exists x, (grow qr (Sys c r)), qx. by apply (parent_grow s).
    + destruct (joint_child _ _ _ _ c r sh L Hh Hn Hc J Hx Hfx Hsv) as [Hans J'].
      split; [by apply (each_put _ _ (grow qx (Sys c r)) Heach (lawful_call _ _ _ _ _ L Hans) Hst)|right].
      exists x, qr, (grow qx (Sys c r)). by apply (child_grow s).
Qed.

Lemma good_fork s p q child : all_sound P w0 none none s -> both_good s ->
  about_to P w0 s p q (ACall Fork) -> 0 < child -> ok child -> procs s !! child = None ->
  both_good (put (put s p (grow q (Sys Fork (Succ child)))) child (child_of s p q)).
Proof using D.
  intros A [Heach Hph] (Hq & Hr & Hn) Hpos Hok Hnew. destruct (Heach _ _ Hq) as [L Hst].
  pose proof (sound_history _ _ _ _ _ _ _ (A _ _ Hq)) as Hh. pose proof (next_fork p (hist q) L Hh Hn) as Ha.
  destruct Hph as [(qr & Hal)|(x & qr & qx & Hp)]; cycle 1.
  { pose proof Hp as (_ & _ & _ & _ & _ & Hfr & Hfx & _).
    destruct (pair_is s x qr qx p q Hp Hq) as [[-> ->]|[-> ->]]; [|by rewrite Hfx in Ha].
    rewrite Ha in Hfr. by apply not_elem_of_nil in Hfr. }
  destruct (alone_is s qr p q Hal Hq) as [-> ->]. pose proof Hal as (Hqr & Hall & _ & J).
  assert (child <> root) as Hne by congruence. split.
  - cbn [procs put]. apply each_put; [apply each_put; [done| |exact Hst]| |done]; cbn [hist grow child_of]; apply lawful_call.
    + done.
    + by apply duet_fork.
    + intros c r u Hu. apply duet_inherit; [|by apply L].
      apply about_processes_suffix in Hu. rewrite Ha in Hu. by apply suffix_nil_inv in Hu.
    + by apply duet_forked.
  - right. exists child, (grow qr (Sys Fork (Succ child))), (child_of s root qr). unfold pair. cbn [procs put shared].
    split_and!; try done.
    + rewrite lookup_insert_ne by done. apply lookup_insert_eq.
    + apply lookup_insert_eq.
    + intros p' q' [[<- _]|[_ [[<- _]|[_ ?%Hall]]%lookup_insert_Some]]%lookup_insert_Some; auto.
    + by left.
    + change (Sys Fork (Succ 0) :: about_processes (hist qr) = [Sys Fork (Succ 0)]). by rewrite Ha.
    + by apply joint_fork.
Qed.

(** The parent waits for its child. *)
Lemma good_waits s p q child : all_sound P w0 none none s -> both_good s ->
  about_to P w0 s p q (ACall (Waitpid child)) -> exists qx, pair s child q qx /\ p = root /\
    about_processes (hist q) = [Sys Fork (Succ child)].
Proof using D.
  intros A [Heach Hph] (Hq & Hr & Hn). destruct (Heach _ _ Hq) as [L Hst].
  pose proof (sound_history _ _ _ _ _ _ _ (A _ _ Hq)) as Hh. destruct (next_wait p (hist q) child L Hh Hn) as [Ha Hpos].
  destruct Hph as [(qr & Hal)|(x & qr & qx & Hp)].
  { destruct (alone_is s qr p q Hal Hq) as [-> ->]. destruct Hal as (_ & _ & Hab & _). by rewrite Hab in Ha. }
  pose proof Hp as (Hx & _ & _ & _ & _ & Hfr & Hfx & _).
  destruct (pair_is s x qr qx p q Hp Hq) as [[-> ->]|[-> ->]].
  - rewrite Ha in Hfr. apply list_elem_of_singleton in Hfr as [= ->]. by exists qx.
  - rewrite Hfx in Ha. injection Ha as <-. lia.
Qed.

Lemma good_wait s p q child c st : all_sound P w0 none none s -> both_good s ->
  about_to P w0 s p q (ACall (Waitpid child)) -> procs s !! child = Some c -> state c = Zombie st ->
  both_good (put (put s child (ends c (Reaped st))) p (grow q (Sys (Waitpid child) (Pair child st)))).
Proof using D.
  intros A G Hab Hc Hz. destruct (good_waits s p q child A G Hab) as (qx & Hp & -> & Ha).
  destruct Hab as (Hq & Hr & Hn). destruct G as [Heach _].
  pose proof Hp as (Hx & Hne & _ & Hqx & Hall & Hfr & Hfx & Hpar & _ & J). assert (c = qx) as -> by congruence.
  destruct (Heach _ _ Hqx) as [Lx Hstx]. destruct (Heach _ _ Hq) as [L Hst].
  assert (st = 0) as -> by (apply Hstx; by rewrite Hz). split.
  - cbn [procs put]. apply each_put; [apply each_put; [done|done|by intros ? [= <-]]| |exact Hst].
    apply (lawful_call answer root (Waitpid child) (Pair child 0)); [done|by apply duet_wait].
  - right. exists child, (grow q (Sys (Waitpid child) (Pair child 0))), (ends qx (Reaped 0)). unfold pair. cbn [procs put shared].
    assert (about_processes (hist (grow q (Sys (Waitpid child) (Pair child 0)))) = process_log child) as Ha'.
    { change (Sys (Waitpid child) (Pair child 0) :: about_processes (hist q) = process_log child). rewrite Ha.
      unfold process_log. by rewrite (proj2 (Z.eqb_neq child 0)) by lia. }
    split_and!; try done.
    + apply lookup_insert_eq.
    + rewrite lookup_insert_ne by done. apply lookup_insert_eq.
    + intros p' q' [[<- _]|[_ [[<- _]|[_ ?%Hall]]%lookup_insert_Some]]%lookup_insert_Some; auto.
    + right. exact Hfr.
    + apply joint_wait; [done| |done..]. by apply (sound_history _ _ _ _ _ _ _ (A _ _ Hq)).
Qed.

Lemma good_exit s p q o st : all_sound P w0 none none s -> both_good s ->
  about_to P w0 s p q (AEnd o) -> exit_status o = Some st -> both_good (put s p (ends q (Zombie st))).
Proof using D.
  intros A [Heach Hph] (Hq & Hr & Hn) Ho. destruct (Heach _ _ Hq) as [L Hst].
  pose proof (sound_history _ _ _ _ _ _ _ (A _ _ Hq)) as Hh.
  destruct (lawful_end p _ o L Hh Hn) as ([Ho' | ->] & y & Ha & _); [|done].
  rewrite Ho in Ho'. injection Ho' as ->. split; [apply each_put; [done|done|by intros ? [= <-]]|right].
  destruct Hph as [(qr & Hal)|(x & qr & qx & Hp)].
  - destruct (alone_is s qr p q Hal Hq) as [-> ->]. destruct Hal as (_ & _ & Hab & _). rewrite Hab in Ha.
    unfold process_log in Ha. by destruct (y =? 0).
  - exists x. by apply (pair_ends s x qr qx).
Qed.

Lemma duet_step_good s s' : all_sound P w0 none none s -> both_good s -> moves s s' -> all_ids ok s' -> both_good s'.
Proof using D.
  intros A G [p q e Hab|p q c r sh Hab Hc Hsv|p q child Hab Hpos Hnew|p q err _ []|p q child c st Hab Hpos Hc Hpar Hz
    |p q child Hab Hpos Hw|p q o st Hab Ho|p q sig _ _ [] _] Hids.
  - by apply good_out.
  - by eapply good_serve.
  - apply good_fork; [done..| |done]. apply (Hids child (child_of s p q)). apply lookup_insert_eq.
  - by eapply good_wait.
  - destruct (good_waits s p q child A G Hab) as (qx & Hp & -> & Ha). destruct Hw.
    destruct Hp as (_ & _ & _ & Hqx & _ & _ & _ & Hpar & Hre & _). exists qx. split_and!; [done..|].
    intros st Hst. specialize (Hre _ Hst). rewrite Ha in Hre. unfold process_log in Hre.
    by rewrite (proj2 (Z.eqb_neq child 0)) in Hre by lia.
  - by eapply good_exit.
Qed.

Lemma reached_sound s : reached s -> all_sound P w0 none none s.
Proof using D. intros Hs. eapply reachable_sound; [apply duet_causal|apply duet_root|exact Hs]. Qed.

Lemma duet_good s : reached s -> all_ids ok s -> both_good s.
Proof using D.
  intros [sh Hs]. revert s Hs. apply (rtc_ind_r (R := moves) (fun s => all_ids ok s -> both_good s)).
  - intros _. split; [|left].
    + intros p q. cbn. intros [<- <-]%lookup_singleton_Some. split; [|done]. cbn. rewrite duet_start. apply lawful_nil.
    + exists (mk_process 0 0 (tr w0) Running). unfold alone. cbn [boot procs hist shared]. rewrite duet_start.
      split_and!; [apply lookup_singleton_eq| |done|apply joint_start].
      intros p q. by intros [<- _]%lookup_singleton_Some.
  - intros s1 s2 Hs1 Hstep G Hids. eapply duet_step_good; [|apply G|done|done]; [apply reached_sound; by exists sh|].
    intros p q Hq. destruct (step_later _ _ _ _ _ _ _ Hstep p q Hq) as (q' & Hq' & _). by apply (Hids p q').
Qed.

(** Who has ended left status 0. *)
Lemma duet_statuses s p q st : reached s -> all_ids ok s -> procs s !! p = Some q -> status_of (state q) = Some st -> st = 0.
Proof using D. intros Hs Hids Hq. by apply (proj1 (duet_good s Hs Hids) p q). Qed.

Lemma duet_lawful s p q : reached s -> all_ids ok s -> procs s !! p = Some q -> lawful p (hist q) /\ history P w0 (hist q).
Proof using D.
  intros Hs Hids Hq. split; [by apply (proj1 (duet_good s Hs Hids) p q)|].
  by apply (sound_history _ _ _ _ _ _ _ (reached_sound s Hs p q Hq)).
Qed.

(** Nobody waits for ever but for an answer of the kernel. *)
Lemma duet_moves s p q : reached s -> all_ids ok s -> procs s !! p = Some q -> state q = Running ->
  (exists s', moves s s') \/ exists p' q', procs s !! p' = Some q' /\ state q' = Running /\
    (next P w0 (hist q') = AEnd NoFuel \/
     exists c, next P w0 (hist q') = ACall c /\ process_call c = false /\ serve (shared s) p' (hist q') c = None).
Proof using D.
  intros Hs Hids Hq Hr. destruct (system_progress P w0 serve none none root s duet_causal duet_root Hs) as [Hd|[Hst|?]].
  - by destruct (Hd p q).
  - right. destruct Hst as (p' & q' & Hq' & Hr' & Hst). exists p', q'. split_and!; [done..|].
    destruct Hst as [?|(o & Hn & Ho)]; [by right|left]. destruct (duet_lawful s p' q' Hs Hids Hq') as [L Hh].
    destruct (lawful_end p' _ o L Hh Hn) as [[E | ->] _]; [by rewrite Ho in E|done].
  - by left.
Qed.
End duet.
