(* ===== verification/CString.v ===== *)
(** * The C library's text functions the program uses

    Byte arrays are lists of characters; a C string is read up to its first
    NUL.  Modelled as glibc documents them in the C locale: [strncmp],
    [strnlen], [strtoul] in base 16, [atoi] (= [(int) strtol(s, NULL, 10)]) and
    the directives of [sscanf] the sources use. *)
From S2P Require Import Prelude.

Definition NUL : ascii := "000"%char.

(** The characters of the C string at the start of an array. *)
Fixpoint cstr (l : bytes) : bytes :=
  match l with
  | [] => []
  | c :: l => if Ascii.eqb c NUL then [] else c :: cstr l
  end.

Definition strnlen (l : bytes) (n : Z) : Z := Z.of_nat (length (cstr (take (Z.to_nat n) l))).

(** [strncmp l1 l2 n == 0] *)
Definition strncmp_eq (l1 l2 : bytes) (n : Z) : bool :=
  bool_decide (take (Z.to_nat n) (cstr l1) = take (Z.to_nat n) (cstr l2)).

(** [strcmp s1 s2 == 0] *)
Definition strcmp_eq (s1 s2 : string) : bool := String.eqb s1 s2.

(** ** Number scanning *)

Definition digit_val (c : ascii) : option Z :=
  let n := Z.of_N (N_of_ascii c) in
  if (48 <=? n) && (n <=? 57) then Some (n - 48)
  else if (97 <=? n) && (n <=? 122) then Some (n - 87)
  else if (65 <=? n) && (n <=? 90) then Some (n - 55)
  else None.

Definition digit (base : Z) (c : ascii) : option Z :=
  match digit_val c with
  | Some d => if d <? base then Some d else None
  | None => None
  end.

(** The value of the digits at the start of [l], after [acc], and the rest. *)
Fixpoint scan_digits (base acc : Z) (l : bytes) : Z * bytes :=
  match l with
  | [] => (acc, [])
  | c :: l' =>
      match digit base c with
      | Some d => scan_digits base (acc * base + d) l'
      | None => (acc, l)
      end
  end.

Fixpoint skip_space (l : bytes) : bytes :=
  match l with
  | [] => []
  | c :: l' => if Ascii.is_space c then skip_space l' else l
  end.

Definition strip_sign (l : bytes) : bool * bytes :=
  match l with
  | "-"%char :: l' => (true, l')
  | "+"%char :: l' => (false, l')
  | _ => (false, l)
  end.

(** The optional prefix of a base 16 number: 0x or 0X before a digit. *)
Definition strip_0x (l : bytes) : bytes :=
  match l with
  | "0"%char :: x :: c :: _ =>
      if (Ascii.eqb x "x"%char || Ascii.eqb x "X"%char) && bool_decide (is_Some (digit 16 c))
      then drop 2 l else l
  | _ => l
  end.

(** [strtoul(l, NULL, 16)] *)
Definition strtoul16 (l : bytes) : Z :=
  let '(neg, l) := strip_sign (skip_space l) in
  let v := fst (scan_digits 16 0 (strip_0x l)) in
  if ULONG_MAX <? v then ULONG_MAX else if (neg : bool) then u64 (- v) else v.

(** [strtol(l, NULL, 10)] *)
Definition strtol10 (l : bytes) : Z :=
  let '(neg, l) := strip_sign (skip_space l) in
  let v := fst (scan_digits 10 0 l) in
  Z.min LONG_MAX (Z.max LONG_MIN (if (neg : bool) then - v else v)).

Definition atoi (l : bytes) : Z := s32 (strtol10 l).

(** ** sscanf *)

Inductive directive := Lit (c : ascii) | White | ConvD.

Fixpoint parse_fmt (l : bytes) : list directive :=
  match l with
  | "%"%char :: "d"%char :: l => ConvD :: parse_fmt l
  | c :: l => (if Ascii.is_space c then White else Lit c) :: parse_fmt l
  | [] => []
  end.

(** One %d conversion: white space, a sign, at least one digit. *)
Inductive conv := Converted (v : Z) (rest : bytes) | Mismatch | Eof.

Definition conv_d (l : bytes) : conv :=
  match skip_space l with
  | [] => Eof
  | l =>
      let '(neg, l) := strip_sign l in
      match l with
      | [] => Mismatch
      | c :: _ =>
          match digit 10 c with
          | None => Mismatch
          | Some _ =>
              let '(v, rest) := scan_digits 10 0 l in
              Converted (s32 (Z.min LONG_MAX (Z.max LONG_MIN (if (neg : bool) then - v else v)))) rest
          end
      end
  end.

(** The values assigned, in order, and whether the input ended before the
    first conversion (the return value is then EOF). *)
Fixpoint scanf (fmt : list directive) (l : bytes) : list Z * bool :=
  match fmt with
  | [] => ([], false)
  | White :: fmt => scanf fmt (skip_space l)
  | Lit c :: fmt =>
      match l with
      | [] => ([], true)
      | c' :: l => if Ascii.eqb c c' then scanf fmt l else ([], false)
      end
  | ConvD :: fmt =>
      match conv_d l with
      | Converted v rest => (v :: fst (scanf fmt rest), false)
      | Mismatch => ([], false)
      | Eof => ([], true)
      end
  end.

Definition EOF : Z := -1.

(** The values [sscanf(l, fmt, ...)] assigns and its return value. *)
Definition sscanf (l : bytes) (fmt : string) : list Z * Z :=
  let '(vs, eof) := scanf (parse_fmt (bytes_of fmt)) (cstr l) in
  (vs, if (eof : bool) && (length vs =? 0)%nat then EOF else Z.of_nat (length vs)).

(** ** Number printing *)

Definition digit_char (d : Z) : ascii := ascii_of_N (Z.to_N (if d <? 10 then 48 + d else 87 + d)).

(** The decimal digits of a natural number ([fuel] bounds their count). *)
Fixpoint dec (fuel : nat) (n : Z) : bytes :=
  match fuel with
  | O => []
  | S fuel => (if n <? 10 then [] else dec fuel (n / 10)) ++ [digit_char (n mod 10)]
  end.

(** Enough digits for any [int]. *)
Definition dec_fuel : nat := 10.

(** What printf's %d prints. *)
Definition print_d (z : Z) : bytes :=
  if z <? 0 then "-"%char :: dec dec_fuel (- z) else dec dec_fuel z.

(** What printf's %0nx prints for a value below [16 ^ n]. *)
Fixpoint hex (n : nat) (z : Z) : bytes :=
  match n with
  | O => []
  | S n => hex n (z / 16) ++ [digit_char (z mod 16)]
  end.

(** ** Facts *)

Lemma digit_digit_char base d : 0 <= d < base -> base <= 16 -> digit base (digit_char d) = Some d.
Proof.
  intros Hd Hb.
  assert (digit_val (digit_char d) = Some d) as E.
  { assert (In d (map Z.of_nat (seq 0 16))) as Hin.
    { rewrite in_map_iff. exists (Z.to_nat d). rewrite in_seq. lia. }
    cbn in Hin. repeat (destruct Hin as [<-|Hin]; try done). }
  unfold digit. rewrite E. by rewrite (proj2 (Z.ltb_lt _ _)) by lia.
Qed.

(** [l] does not start with a digit of the base. *)
Definition no_digit (base : Z) (l : bytes) : Prop :=
  match l with [] => True | c :: _ => digit base c = None end.

Lemma scan_digits_stop base acc l : no_digit base l -> scan_digits base acc l = (acc, l).
Proof. destruct l as [|c l]; [done|]. cbn. by intros ->. Qed.

Lemma dec_nonempty fuel n : (0 < fuel)%nat -> dec fuel n <> [].
Proof. destruct fuel; [lia|]. cbn. intros _ Hd%(f_equal length). rewrite length_app in Hd. cbn in Hd. lia. Qed.

Lemma scan_dec fuel n rest :
  0 <= n < 10 ^ Z.of_nat fuel -> (0 < fuel)%nat ->
  scan_digits 10 0 (dec fuel n ++ rest) = scan_digits 10 n rest.
Proof.
  revert n rest. induction fuel as [|fuel IH]; intros n rest Hn Hf; [lia|].
  pose proof (Z.mod_pos_bound n 10 ltac:(lia)) as Hm.
  pose proof (Z.div_mod n 10 ltac:(lia)) as Hdm.
  cbn [dec]. rewrite <- app_assoc. zcase.
  - cbn [app scan_digits]. rewrite digit_digit_char by lia. f_equal. rewrite Z.mod_small; lia.
  - rewrite Nat2Z.inj_succ, Z.pow_succ_r in Hn by lia.
    assert (0 < fuel)%nat by (destruct fuel; [cbn in Hn; lia|lia]).
    assert (0 <= n / 10 < 10 ^ Z.of_nat fuel)
      by (split; [apply Z.div_pos; lia|apply Z.div_lt_upper_bound; lia]).
    rewrite IH by lia.
    cbn [app scan_digits]. rewrite digit_digit_char by lia. f_equal. lia.
Qed.

Lemma length_dec fuel n k :
  0 <= n < 10 ^ Z.of_nat (S k) -> (length (dec fuel n) <= S k)%nat.
Proof.
  revert n k. induction fuel as [|fuel IH]; intros n k Hn; [cbn; lia|].
  cbn [dec]. rewrite length_app. cbn [length]. zcase; [cbn; lia|].
  destruct k as [|k]; [cbn in Hn; lia|].
  rewrite Nat2Z.inj_succ, Z.pow_succ_r in Hn by lia.
  assert (0 <= n / 10 < 10 ^ Z.of_nat (S k))
    by (split; [apply Z.div_pos; lia|apply Z.div_lt_upper_bound; lia]).
  specialize (IH (n / 10) k). lia.
Qed.

(** Every printed digit is a decimal digit character. *)
Lemma dec_chars fuel n c :
  0 <= n -> c ∈ dec fuel n -> exists d, 0 <= d < 10 /\ c = digit_char d.
Proof.
  revert n. induction fuel as [|fuel IH]; intros n Hn; cbn [dec]; [by intros ?%not_elem_of_nil|].
  intros [Hc|Hc]%elem_of_app.
  - revert Hc. zcase; [by intros ?%not_elem_of_nil|]. apply IH. apply Z.div_pos; lia.
  - apply list_elem_of_singleton in Hc as ->. eexists. split; [|done]. apply Z.mod_pos_bound. lia.
Qed.

Lemma digit_char_plain d :
  0 <= d < 16 -> Ascii.is_space (digit_char d) = false /\ digit_char d <> NUL /\
  digit_char d <> "-"%char /\ digit_char d <> "+"%char /\ digit_char d <> "x"%char /\
  digit_char d <> "X"%char /\ digit_char d <> ","%char.
Proof.
  intros Hd.
  assert (In d (map Z.of_nat (seq 0 16))) as Hin.
  { rewrite in_map_iff. exists (Z.to_nat d). rewrite in_seq. lia. }
  cbn in Hin. repeat (destruct Hin as [<-|Hin]; try done).
Qed.

Lemma dec_cons fuel n :
  0 <= n -> (0 < fuel)%nat ->
  exists d l, 0 <= d < 10 /\ dec fuel n = digit_char d :: l.
Proof.
  intros Hn Hf. destruct (dec fuel n) as [|c l] eqn:E; [by apply dec_nonempty in E|].
  destruct (dec_chars fuel n c) as (d & Hd & ->); [done|rewrite E; left|].
  by exists d, l.
Qed.

Lemma skip_space_dec fuel n rest :
  0 <= n -> (0 < fuel)%nat -> skip_space (dec fuel n ++ rest) = dec fuel n ++ rest.
Proof.
  intros Hn Hf. destruct (dec_cons fuel n) as (d & l & Hd & ->); [done..|].
  cbn. by rewrite (proj1 (digit_char_plain d ltac:(lia))).
Qed.

Lemma strip_sign_plain c l : c <> "-"%char -> c <> "+"%char -> strip_sign (c :: l) = (false, c :: l).
Proof.
  intros H1 H2. destruct c as [[] [] [] [] [] [] [] []]; try done.
Qed.

Lemma dec_fuel_pos : (0 < dec_fuel)%nat.
Proof. unfold dec_fuel. lia. Qed.

Lemma dec_fuel_ok n : 0 <= n <= INT_MAX -> 0 <= n < 10 ^ Z.of_nat dec_fuel.
Proof. unfold INT_MAX. change (10 ^ Z.of_nat dec_fuel) with 10000000000. lia. Qed.

(** %d reads back what %d printed. *)
Lemma conv_d_dec n rest :
  0 <= n <= INT_MAX -> no_digit 10 rest ->
  conv_d (dec dec_fuel n ++ rest) = Converted n rest.
Proof.
  intros Hn Hr. unfold conv_d. rewrite skip_space_dec by (lia || apply dec_fuel_pos).
  destruct (dec_cons dec_fuel n) as (d & l & Hd & E); [lia|apply dec_fuel_pos|].
  pose proof (scan_dec dec_fuel n rest) as Hscan. rewrite E in *. cbn [app] in *.
  destruct (digit_char_plain d ltac:(lia)) as (_ & _ & H1 & H2 & _).
  rewrite strip_sign_plain, digit_digit_char by (done || lia).
  rewrite Hscan by (apply dec_fuel_pos || by apply dec_fuel_ok). rewrite scan_digits_stop by done.
  f_equal. rewrite Z.max_r, Z.min_r by (unfold INT_MAX, LONG_MAX, LONG_MIN in *; lia).
  apply wrap_s_small; unfold INT_MAX in *; lia.
Qed.

Lemma cstr_app l1 l2 : NUL ∉ l1 -> cstr (l1 ++ l2) = l1 ++ cstr l2.
Proof.
  induction l1 as [|c l1 IH]; [done|]. rewrite not_elem_of_cons. intros [Hc Hl].
  cbn. rewrite (proj2 (Ascii.eqb_neq c NUL)) by congruence. by rewrite IH.
Qed.

Lemma cstr_no_nul l : NUL ∉ l -> cstr l = l.
Proof. intros Hl. rewrite <- (app_nil_r l) at 1. by rewrite cstr_app, app_nil_r. Qed.

Lemma dec_no_nul fuel n : 0 <= n -> NUL ∉ dec fuel n.
Proof.
  intros Hn Hin. apply dec_chars in Hin as (d & Hd & E); [|done].
  by destruct (digit_char_plain d ltac:(lia)) as (_ & H & _).
Qed.

Lemma scanf_lit c f l : scanf (Lit c :: f) (c :: l) = scanf f l.
Proof. cbn. by rewrite Ascii.eqb_refl. Qed.

Lemma scanf_white_space c f l :
  Ascii.is_space c = true -> scanf (White :: f) (c :: l) = scanf (White :: f) l.
Proof. intros Hc. cbn. by rewrite Hc. Qed.

Lemma scanf_white_other c f l :
  Ascii.is_space c = false -> scanf (White :: f) (c :: l) = scanf f (c :: l).
Proof. intros Hc. cbn. by rewrite Hc. Qed.

Lemma scanf_white_dec fuel n f l :
  0 <= n -> (0 < fuel)%nat -> scanf (White :: f) (dec fuel n ++ l) = scanf f (dec fuel n ++ l).
Proof. intros. cbn. by rewrite skip_space_dec. Qed.

Lemma scanf_conv_d n f l :
  0 <= n <= INT_MAX -> no_digit 10 l ->
  scanf (ConvD :: f) (dec dec_fuel n ++ l) = (n :: fst (scanf f l), false).
Proof. intros. cbn [scanf]. by rewrite conv_d_dec. Qed.

(** Matches the literal text a format and an input start with. *)
Ltac scan_text :=
  repeat first
    [ rewrite scanf_lit
    | rewrite scanf_white_space by reflexivity
    | rewrite scanf_white_other by reflexivity ].

(** Decides a closed proposition by computation. *)
Ltac decide_now := apply (bool_decide_eq_true_1 _); vm_compute; reflexivity.

(** ** Hexadecimal groups *)

(** What follows the digits of a group: nothing, a comma or the terminator. *)
Definition group_end (l : bytes) : Prop :=
  match l with [] => True | c :: _ => c = ","%char \/ c = NUL end.

Lemma group_end_no_digit l : group_end l -> no_digit 16 l.
Proof. destruct l as [|c l]; [done|]. by intros [->| ->]. Qed.

Lemma length_hex n z : length (hex n z) = n.
Proof. revert z. induction n as [|n IH]; intros z; [done|]. cbn. rewrite length_app, IH. cbn. lia. Qed.

Lemma hex_chars n z c : c ∈ hex n z -> exists d, 0 <= d < 16 /\ c = digit_char d.
Proof.
  revert z. induction n as [|n IH]; intros z; cbn [hex]; [by intros ?%not_elem_of_nil|].
  intros [Hc|Hc]%elem_of_app; [by eapply IH|].
  apply list_elem_of_singleton in Hc as ->. eexists. split; [|done]. apply Z.mod_pos_bound. lia.
Qed.

Lemma scan_hex n z acc rest :
  0 <= z < 16 ^ Z.of_nat n ->
  scan_digits 16 acc (hex n z ++ rest) = scan_digits 16 (acc * 16 ^ Z.of_nat n + z) rest.
Proof.
  revert z acc rest. induction n as [|n IH]; intros z acc rest Hz.
  { cbn in *. f_equal. lia. }
  rewrite Nat2Z.inj_succ, Z.pow_succ_r in * by lia.
  pose proof (Z.mod_pos_bound z 16 ltac:(lia)). pose proof (Z.div_mod z 16 ltac:(lia)).
  cbn [hex]. rewrite <- app_assoc, IH.
  - cbn [app scan_digits]. rewrite digit_digit_char by lia. f_equal. lia.
  - split; [apply Z.div_pos; lia|apply Z.div_lt_upper_bound; lia].
Qed.

Lemma strip_0x_id l :
  (forall c1 c2 l', l = c1 :: c2 :: l' -> c2 <> "x"%char /\ c2 <> "X"%char) -> strip_0x l = l.
Proof.
  intros Hl. unfold strip_0x. destruct l as [|c1 [|c2 [|c3 l]]];
    [done|by destruct c1 as [[] [] [] [] [] [] [] []]..|].
  destruct (Hl _ _ _ eq_refl) as [H1 H2].
  rewrite (proj2 (Ascii.eqb_neq _ _) H1), (proj2 (Ascii.eqb_neq _ _) H2).
  by destruct c1 as [[] [] [] [] [] [] [] []].
Qed.

(** strtoul reads a group of hexadecimal digits back. *)
Lemma strtoul16_hex n z rest :
  (0 < n <= 16)%nat -> 0 <= z < 16 ^ Z.of_nat n -> group_end rest ->
  strtoul16 (hex n z ++ rest) = z.
Proof.
  intros Hn Hz Hr.
  destruct (hex n z) as [|c l] eqn:E; [apply (f_equal length) in E; rewrite length_hex in E; cbn in E; lia|].
  assert (forall c', c' ∈ c :: l -> exists d, 0 <= d < 16 /\ c' = digit_char d) as Hc.
  { intros c'. rewrite <- E. apply hex_chars. }
  destruct (Hc c) as (d & Hd & ->); [left|].
  destruct (digit_char_plain d Hd) as (Hsp & _ & H1 & H2 & _).
  unfold strtoul16. cbn [app skip_space]. rewrite Hsp, strip_sign_plain by done.
  rewrite strip_0x_id.
  2: { intros c1 c2 l' [= <- El]. destruct l as [|c' l]; cbn in El.
       - subst rest. by destruct Hr as [->| ->].
       - injection El as <- _. destruct (Hc c') as (d' & Hd' & ->); [right; left|].
         by destruct (digit_char_plain d' Hd') as (_ & _ & _ & _ & ? & ? & _). }
  pose proof (scan_hex n z 0 rest Hz) as Hs. rewrite E in Hs. cbn [app] in Hs. rewrite Hs.
  rewrite scan_digits_stop by by apply group_end_no_digit. cbn [fst]. rewrite Z.mul_0_l, Z.add_0_l.
  assert (16 ^ Z.of_nat n <= 16 ^ 16) by (apply Z.pow_le_mono_r; lia).
  unfold ULONG_MAX. rewrite (proj2 (Z.ltb_ge _ _)); [done|].
  change (16 ^ 16) with (2 ^ 64) in *. lia.
Qed.

(** atoi reads back what %d printed. *)
Lemma atoi_dec n rest :
  0 <= n <= INT_MAX -> no_digit 10 rest -> atoi (dec dec_fuel n ++ rest) = n.
Proof.
  intros Hn Hr. pose proof (conv_d_dec n rest Hn Hr) as E. unfold conv_d, atoi, strtol10 in *.
  rewrite skip_space_dec in * by (lia || apply dec_fuel_pos).
  destruct (dec_cons dec_fuel n) as (d & l & Hd & El); [lia|apply dec_fuel_pos|]. rewrite El in *.
  cbn [app] in *. destruct (strip_sign _) as [neg [|c l']]; [done|].
  destruct (digit 10 c); [|done]. destruct (scan_digits 10 0 (c :: l')). cbn [fst]. by injection E.
Qed.
