(* ===== verification/Laws.v ===== *)
(** * What the program relies on the environment for

    The laws of [Kernel] a theorem may name, each a class: [ReadLaw] (a read
    stores at most the bytes asked for), [Allocates] (memory is available),
    [Serves] (a file of the /proc tree can
    be opened and read to its end, in pieces of any size) and [Online] (the
    number of CPUs [sysconf] reports).  [Sim] is a concrete kernel with
    instances of them. *)
From S2P Require Import Prelude Machine.

(** The file a descriptor refers to and the bytes read from it so far. *)
Fixpoint opened (fd : Z) (t : trace) : option (string * nat) :=
  match t with
  | [] => None
  | Sys (Open p _ _) (Succ fd') :: t => if fd' =? fd then Some (p, O) else opened fd t
  | Sys (Close fd') _ :: t => if fd' =? fd then None else opened fd t
  | Sys (Read fd' _) (Data d) :: t =>
      if fd' =? fd
      then match opened fd t with Some (p, n) => Some (p, n + length d)%nat | None => None end
      else opened fd t
  | _ :: t => opened fd t
  end.

Class ReadLaw (K : Kernel) : Prop :=
  read_bound t fd n d : kernel t (Read fd n) = Data d -> 0 <= n -> Z.of_nat (length d) <= n.

(** How often a file was opened. *)
Fixpoint opens (path : string) (t : trace) : nat :=
  match t with
  | [] => O
  | Sys (Open p _ _) (Succ _) :: t => if String.eqb p path then S (opens path t) else opens path t
  | _ :: t => opens path t
  end.

(** A file of the /proc tree, generated when it is opened: the [n]-th opening
    (from 0) sees [content n].  [read] may return fewer bytes than asked for,
    but none only at the end. *)
Class Polls (K : Kernel) (path : string) (content : nat -> bytes) : Prop := {
  polls_open t flags mode :
    exists fd, 0 <= fd /\ kernel t (Open path flags mode) = Succ fd;
  polls_read t fd pos n :
    opened fd t = Some (path, pos) -> 0 < n ->
    let content := content (pred (opens path t)) in
    exists d, kernel t (Read fd n) = Data d /\ Z.of_nat (length d) <= n /\
      d `prefix_of` drop pos content /\ (d = [] -> drop pos content = []);
}.

(** A file that does not change. *)
Abbreviation Serves K path content := (Polls K path (fun _ => content)).

(** [_SC_NPROCESSORS_ONLN] of <unistd.h> *)
Definition SC_NPROCESSORS_ONLN : Z := 84.

Class Online (K : Kernel) (n : Z) : Prop :=
  online t : kernel t (Sysconf SC_NPROCESSORS_ONLN) = Succ n.

(** Memory is not exhausted. *)
Class Allocates (K : Kernel) : Prop :=
  allocates t n : exists a, kernel t (Malloc n) = Succ a /\ a <> 0.

(** The heap blocks allocated and not yet freed in a trace. *)
Fixpoint remove_first (a : Z) (l : list Z) : list Z :=
  match l with [] => [] | b :: l => if b =? a then l else b :: remove_first a l end.

Fixpoint live (t : trace) : list Z :=
  match t with
  | [] => []
  | Sys (Malloc _) (Succ a) :: t => if a =? 0 then live t else a :: live t
  | Sys (Free a) _ :: t => if a =? 0 then live t else remove_first a (live t)
  | _ :: t => live t
  end.

(** The size of the heap block at an address, 0 where there is none. *)
Fixpoint block_size (a : Z) (t : trace) : Z :=
  match t with
  | [] => 0
  | Sys (Malloc n) (Succ b) :: t => if b =? a then n else block_size a t
  | Sys (Free b) _ :: t => if b =? a then 0 else block_size a t
  | _ :: t => block_size a t
  end.

(** The scheduling policy of a thread: the last one set, 0 (SCHED_NORMAL)
    before. *)
Fixpoint policy_of (pid : Z) (t : trace) : Z :=
  match t with
  | [] => 0
  | Sys (NR_sched_setscheduler p pol _) (Succ _) :: t => if p =? pid then pol else policy_of pid t
  | _ :: t => policy_of pid t
  end.

(** The calling thread is [tid], its policy can be asked for, and setting one
    returns 0 or fails. *)
Class Schedules (K : Kernel) (tid : Z) : Prop := {
  sched_tid t : kernel t NR_gettid = Succ tid;
  sched_get t : kernel t (NR_sched_getscheduler tid) = Succ (policy_of tid t);
  sched_set t pol prio :
    kernel t (NR_sched_setscheduler tid pol prio) = Succ 0 \/
    exists e, kernel t (NR_sched_setscheduler tid pol prio) = Fail e;
  sched_tid_int : INT_MIN <= tid <= INT_MAX;
}.

(** ** A concrete kernel *)

Module Sim.
Definition lookup_file (files : list (string * (nat -> bytes))) (p : string) :
    option (nat -> bytes) :=
  snd <$> find (fun f => String.eqb (fst f) p) files.

(** Serves [files] in pieces of at most [chunk] bytes on a machine with
    [cpus] CPUs; every other request succeeds. *)
Definition sim_polls (files : list (string * (nat -> bytes))) (chunk : nat) (cpus : Z) : Kernel :=
  fun t c =>
  match c with
  | Open p _ _ => match lookup_file files p with Some _ => Succ 3 | None => Fail 2 end
  | Read fd n =>
      match opened fd t with
      | Some (p, pos) =>
          match lookup_file files p with
          | Some content =>
              Data (take (chunk `min` Z.to_nat n) (drop pos (content (pred (opens p t)))))
          | None => Fail 9
          end
      | None => Fail 9
      end
  | Sysconf n => Succ (if n =? 84 then cpus else 4096)
  | Malloc _ | Mmap _ _ _ _ => Succ (65536 + Z.of_nat (length t))
  | NR_gettid | Getpid => Succ 1000
  | _ => Succ 0
  end.

(** The same for files that do not change. *)
Definition sim (files : list (string * bytes)) (chunk : nat) (cpus : Z) : Kernel :=
  sim_polls (map (fun f => (fst f, fun _ => snd f)) files) chunk cpus.

(** A kernel whose devices open but cannot be mapped. *)
Definition sim_nomap : Kernel := fun _ c =>
  match c with
  | Open _ _ _ => Succ 3
  | Mmap _ _ _ _ => Fail 12
  | Sysconf _ => Succ 4096
  | _ => Succ 0
  end.

(** Thread 1000 on a kernel that lets it change its policy [n] requests long. *)
Definition sim_sched (n : nat) : Kernel := fun t c =>
  match c with
  | NR_gettid => Succ 1000
  | NR_sched_getscheduler p => Succ (policy_of p t)
  | NR_sched_setscheduler _ _ _ => if (length t <=? n)%nat then Succ 0 else Fail 1
  | _ => Succ 0
  end.

#[export] Instance sim_schedules n : Schedules (sim_sched n) 1000.
Proof.
  split; try done. intros t pol prio. unfold kernel, sim_sched.
  destruct (_ <=? _)%nat; [by left|right; by eexists].
Qed.

(** Values of the kernel headers. *)
Definition sim_header : KernelHeader := {|
  RT_CLASS_HARD := 0; RT_CLASS_SOFT := 1; RT_CLASS_BEST_EFFORT := 2;
  NO_ENFORCEMENT := 0; PRECISE_ENFORCEMENT := 2;
  TASK_SPORADIC := 0; TASK_PERIODIC := 1;
  LITMUS_LOWEST_PRIORITY := 511; LITMUS_HIGHEST_PRIORITY := 1; LITMUS_MAX_PRIORITY := 512;
  litmus_is_valid_fixed_prio p := (1 <=? p) && (p <=? 511);
  NP_FLAG_BITS := 31;
|}.

(** A thread that has done nothing, and one with a mapped control page. *)
Definition w0 : world := mk_world [] 0 0 (fun _ => 0).
Definition w_mapped : world := mk_world [] 0 65536 (fun _ => 0).

#[export] Instance sim_polls_read files chunk cpus : ReadLaw (sim_polls files chunk cpus).
Proof.
  intros t fd n d Hd ?. unfold kernel, sim_polls in Hd.
  destruct (opened fd t) as [[p pos]|]; [|done].
  destruct (lookup_file files p); [|done].
  injection Hd as <-. rewrite length_take. lia.
Qed.

#[export] Instance sim_read files chunk cpus : ReadLaw (sim files chunk cpus).
Proof. apply sim_polls_read. Qed.

#[export] Instance sim_allocates files chunk cpus : Allocates (sim files chunk cpus).
Proof. intros t n. eexists. split; [done|]. lia. Qed.

#[export] Instance sim_online files chunk cpus : Online (sim files chunk cpus) cpus.
Proof. done. Qed.

Lemma sim_polls_polls files chunk cpus p content :
  (0 < chunk)%nat -> lookup_file files p = Some content ->
  Polls (sim_polls files chunk cpus) p content.
Proof.
  intros Hc Hp. split.
  - intros. exists 3. unfold kernel, sim_polls. by rewrite Hp.
  - intros t fd pos n Ho Hn c. unfold kernel, sim_polls. rewrite Ho, Hp. eexists. split; [done|].
    fold c. rewrite length_take. repeat split; [lia| |].
    + exists (drop (chunk `min` Z.to_nat n) (drop pos c)). by rewrite take_drop.
    + intros Hd%(f_equal length). rewrite length_take in Hd. simpl in Hd.
      apply nil_length_inv. lia.
Qed.

Lemma sim_serves files chunk cpus p content :
  (0 < chunk)%nat ->
  lookup_file (map (fun f => (fst f, fun _ => snd f)) files) p = Some (fun _ => content) ->
  Serves (sim files chunk cpus) p content.
Proof. apply sim_polls_polls. Qed.
End Sim.
