(* ===== verification/Iface.v ===== *)
(** * src/kernel_iface.c: the /proc files and the control page

    [read_file], [map_file], the statistics parser and the thread-local control
    page with its non-preemptive sections.  A [void *buf] that a function
    fills is returned as the bytes stored at its start. *)
From S2P Require Import Prelude Machine CString Laws.

(** ** Constants of the C library *)

Definition O_RDONLY : Z := 0.
Definition O_RDWR : Z := 2.
Definition O_CREAT : Z := 64.
Definition S_IRUSR : Z := 256.
Definition S_IWUSR : Z := 128.
Definition PROT_READ : Z := 1.
Definition PROT_WRITE : Z := 2.
Definition MAP_PRIVATE : Z := 2.
Definition NULL : Z := 0.
Definition MAP_FAILED : Z := -1.
Definition SC_PAGESIZE : Z := 30.

Definition LITMUS_CTRL_DEVICE : string := "/dev/litmus/ctrl".
Definition CTRL_PAGES : Z := 1.
Definition LITMUS_STATS_FILE : string := "/proc/litmus/stats".

(** The format of [read_litmus_stats]; its line breaks are the C escapes. *)
Definition STATS_FORMAT : string :=
  "real-time tasks   = %d
ready for release = %d
".

Section iface.
Context {K : Kernel} {H : KernelHeader}.

(** [read(fd, ...)]: the return value and the bytes stored. *)
Definition read_reply (r : reply) : Z * bytes :=
  match r with Data d => (ret_of r, d) | Fail _ => (-1, []) | _ => (0, []) end.
Definition read (fd count : Z) : M (Z * bytes) :=
  r ← sys (Read fd count); mret (read_reply r).

(** The loop of [read_file]: [got] bytes so far are [buf], [n] is the last
    return value of [read]. *)
Fixpoint read_loop (fuel : nat) (fd maxlen got n : Z) (buf : bytes) : M (Z * Z * bytes) :=
  match fuel with
  | O => no_fuel
  | S fuel =>
      if got <? maxlen then
        '(n, d) ← read fd (maxlen - got);
        if 0 <? n then read_loop fuel fd maxlen (got + n) n (buf ++ d)
        else mret (got, n, buf)
      else mret (got, n, buf)
  end.

(** Returns the C return value and the bytes stored at [buf]. *)
Definition read_file (fname : string) (maxlen : Z) : M (Z * bytes) :=
  fd ← syscall (Open fname O_RDONLY 0);
  if fd =? -1 then mret (-1, [])
  else
    '(got, n, buf) ← read_loop (S (Z.to_nat maxlen)) fd maxlen 0 0 [];
    syscall (Close fd);;
    if n <? 0 then mret (-1, buf) else mret (got, buf).

(** [addr] is the pointer [*addr] holds before the call; returns the error
    code and [*addr] after it. *)
Definition map_file (filename : string) (addr size : Z) : M (Z * Z) :=
  if 0 <? size then
    fd ← syscall (Open filename O_RDWR 0);
    if 0 <=? fd then
      addr ← syscall (Mmap size (Z.lor PROT_READ PROT_WRITE) MAP_PRIVATE fd);
      let error := if addr =? MAP_FAILED then -1 else 0 in
      syscall (Close fd);;
      mret (error, addr)
    else mret (fd, addr)
  else mret (0, NULL).

(** [stack] is the memory from the uninitialised [char buf[100]] on; [ready]
    and [all] are the caller's variables.  Returns the C return value and
    both variables. *)
Definition read_litmus_stats (stack : bytes) (ready all : Z) : M (Z * Z * Z) :=
  '(len, d) ← read_file LITMUS_STATS_FILE (100 - 1);
  if 0 <=? len then
    let '(vs, len) := sscanf (overwrite 0 d stack) STATS_FORMAT in
    mret (Z.b2z (len =? 2), default ready (vs !! 1%nat), default all (vs !! 0%nat))
  else mret (Z.b2z (len =? 2), ready, all).

(** The two local variables are read only when both were assigned. *)
Definition get_nr_ts_release_waiters (stack : bytes) : M Z :=
  '(ok, ready, _) ← read_litmus_stats stack 0 0;
  if negb (ok =? 0) then mret ready else mret (-1).

(** ** The control page *)

Definition init_kernel_iface : M Z :=
  page_size ← syscall (Sysconf SC_PAGESIZE);
  '(err, mapped_at) ← map_file LITMUS_CTRL_DEVICE NULL (u64 (CTRL_PAGES * page_size));
  modify (put_ctrl_page mapped_at);;
  when (negb (err =? 0))
    (eprintf "%s: cannot open LITMUS^RT control page (%m)\n" [AStr "init_kernel_iface"]);;
  mret err.

(** An access through [ctrl_page]: only an address [mmap] returned is valid. *)
Definition deref (p : Z) : M unit :=
  if (p =? NULL) || (p =? MAP_FAILED) then fault else mret tt.
Definition load_flag (p : Z) : M Z := deref p;; get (fun w => np_flag w p).
Definition store_flag (p v : Z) : M unit :=
  deref p;; modify (put_np_flag p (wrap_u NP_FLAG_BITS v)).
Definition load_preempt (p : Z) : M Z := deref p;; syscall (LoadPreempt p).

(** [ctrl_page != NULL || init_kernel_iface() == 0] *)
Definition ensure_ctrl_page : M bool :=
  p ← get ctrl_page;
  if negb (p =? NULL) then mret true
  else err ← init_kernel_iface; mret (err =? 0).

Definition enter_np : M unit :=
  ok ← ensure_ctrl_page;
  if (ok : bool) then
    p ← get ctrl_page;
    v ← load_flag p;
    store_flag p (v + 1)
  else eprintf "enter_np: control page not mapped!\n" [].

Definition exit_np : M unit :=
  p ← get ctrl_page;
  if p =? NULL then mret tt
  else
    v ← load_flag p;
    if v =? 0 then mret tt
    else
      store_flag p (v - 1);;
      v ← load_flag p;
      if negb (v =? 0) then mret tt
      else
        emit Barrier;;
        preempt ← load_preempt p;
        when (negb (preempt =? 0)) (syscall Sched_yield;; mret tt).

Definition requested_to_preempt : M Z :=
  p ← get ctrl_page;
  if p =? NULL then mret 0
  else preempt ← load_preempt p; mret (Z.b2z (negb (preempt =? 0))).

Definition get_ctrl_page : M Z :=
  ok ← ensure_ctrl_page;
  if (ok : bool) then get ctrl_page else mret NULL.
End iface.

(** ** [read_file] *)

Definition is_read (fd : Z) (e : event) : Prop :=
  exists n r, e = Sys (Read fd n) r.

(** The bytes the reads of a trace stored, oldest first. *)
Fixpoint read_data (es : trace) : bytes :=
  match es with
  | [] => []
  | Sys (Read _ _) (Data d) :: es => read_data es ++ d
  | _ :: es => read_data es
  end.

(** Whether the most recent request of a trace failed. *)
Definition last_failed (es : trace) : bool :=
  match es with Sys _ (Fail _) :: _ => true | _ => false end.

Lemma read_data_app es1 es2 : read_data (es1 ++ es2) = read_data es2 ++ read_data es1.
Proof.
  induction es1 as [|e es1 IH]; cbn; [by rewrite app_nil_r|].
  destruct e as [[] []| | |]; cbn; rewrite ?IH, ?app_assoc; done.
Qed.

Section read_file.
Context {K : Kernel}.

Lemma bind_read {B} fd count (f : Z * bytes -> M B) w :
  (read fd count ≫= f) w =
    f (read_reply (kernel (tr w) (Read fd count)))
      (after (Read fd count) (kernel (tr w) (Read fd count)) w).
Proof. done. Qed.

(** The loop stops on every kernel.  What it stored is what its reads
    returned, at most [maxlen] bytes; it stops early only when a read
    returned nothing or failed, and [n] is what the last one returned. *)
Lemma read_loop_shape `{!ReadLaw K} fuel fd maxlen n buf w :
  Z.of_nat (length buf) <= maxlen ->
  (Z.to_nat maxlen - length buf < fuel)%nat ->
  exists n' d es w',
    read_loop fuel fd maxlen (Z.of_nat (length buf)) n buf w =
      (Val (Z.of_nat (length (buf ++ d)), n', buf ++ d), w') /\
    tr w' = es ++ tr w /\ Forall (is_read fd) es /\ read_data es = d /\
    Z.of_nat (length (buf ++ d)) <= maxlen /\
    (Z.of_nat (length (buf ++ d)) < maxlen -> n' <= 0) /\
    (0 <= n -> (n' <? 0) = last_failed es) /\
    same_thread w w'.
Proof.
  revert n buf w. induction fuel as [|fuel IH]; intros n buf w Hlen Hfuel; [lia|].
  cbn [read_loop]. zcase.
  2: { exists n, [], [], w. rewrite app_nil_r.
     split_and!; auto with litmus; cbn; intros; try zcase; done || lia. }
  rewrite bind_read. set (r := kernel _ _). set (c := Read fd _).
  assert (fst (read_reply r) <= 0 \/
    exists d, r = Data d /\ (0 < length d)%nat /\
      Z.of_nat (length (buf ++ d)) <= maxlen) as [Hn|(d & Hr & Hd & Hm)].
  { destruct r as [z|d|a b|e] eqn:E; cbn; try lia.
    apply read_bound in E; [|lia]. destruct d as [|x d]; [by left|right].
    exists (x :: d). rewrite length_app. cbn in *. repeat split; lia. }
  - exists (fst (read_reply r)), [], [Sys c r], (after c r w).
    destruct (read_reply r) as [k d'] eqn:Hrr. cbn in Hn.
    rewrite (proj2 (Z.ltb_ge 0 k)), app_nil_r, tr_after by lia.
    split; [done|]. split; [done|]. split; [repeat constructor; by eexists _, _|].
    split_and!; auto with litmus.
    + destruct r as [z|[|]|a b|e]; try done. cbn in Hrr. injection Hrr as <- <-. cbn in Hn. lia.
    + intros _. destruct r; simplify_eq/=; zcase; done || lia.
  - rewrite Hr. cbn [read_reply ret_of].
    rewrite (proj2 (Z.ltb_lt 0 (Z.of_nat (length d)))), <- Nat2Z.inj_add, <- length_app by lia.
    destruct (IH (Z.of_nat (length d)) (buf ++ d) (after c (Data d) w))
      as (n' & d' & es & w' & Hrun & Htr & Hes & Hrd & Hmax & Hstop & Hneg & Hst);
      [lia|rewrite length_app; lia|].
    exists n', (d ++ d'), (es ++ [Sys c (Data d)]), w'.
    rewrite <- app_assoc in Hrun, Hmax, Hstop. rewrite Hrun, Htr, tr_after, read_data_app, Hrd.
    split; [done|]. split; [by rewrite <- app_assoc|]. split.
    { apply Forall_app. split; [done|]. repeat constructor. by eexists _, _. }
    split_and!; auto.
    intros _. rewrite Hneg by lia. by destruct es.
Qed.
End read_file.

Section read_file_spec.
Context {K : Kernel}.

(** What does not see the requests of [read_file] does not see the call. *)
Lemma read_loop_quiet {X} (F : trace -> X) fuel fd maxlen got n buf w :
  (forall k, quiet F (Read fd k)) ->
  F (tr (read_loop fuel fd maxlen got n buf w).2) = F (tr w).
Proof.
  intros HF. revert got n buf w.
  induction fuel as [|fuel IH]; intros got n buf w; cbn [read_loop]; [done|].
  zcase; [|done]. rewrite bind_read. destruct (read_reply _) as [k d].
  zcase; [rewrite IH|cbn [mret M_ret snd]]; by rewrite quiet_after.
Qed.

Lemma read_file_quiet {X} (F : trace -> X) fname maxlen w :
  (forall p f m, quiet F (Open p f m)) -> (forall fd k, quiet F (Read fd k)) ->
  (forall fd, quiet F (Close fd)) ->
  F (tr (read_file fname maxlen w).2) = F (tr w).
Proof.
  intros HO HR HC. unfold read_file. mrun. set (r := kernel _ _). set (w1 := after _ r w).
  assert (F (tr w1) = F (tr w)) as H1 by by apply quiet_after.
  zcase; [done|].
  pose proof (read_loop_quiet F (S (Z.to_nat maxlen)) (ret_of r) maxlen 0 0 [] w1) as Hl.
  unfold mbind, M_bind. destruct (read_loop _ _ _ _ _ _ w1) as [[[[got k] buf]| | | |] w2];
    cbn [snd] in *; rewrite <- H1, <- Hl by done; try done.
  unfold syscall. zcase; cbn [mret M_ret snd]; by rewrite quiet_after.
Qed.

(** What [read_file] stores and returns when the file cannot be opened. *)
Lemma read_file_no_open fname maxlen w :
  ret_of (kernel (tr w) (Open fname O_RDONLY 0)) = -1 ->
  read_file fname maxlen w =
    (Val (-1, []), after (Open fname O_RDONLY 0) (kernel (tr w) (Open fname O_RDONLY 0)) w).
Proof. intros Hr. unfold read_file. mrun. by rewrite Hr. Qed.

Lemma read_file_shape `{!ReadLaw K} fname maxlen w :
  0 <= maxlen -> ret_of (kernel (tr w) (Open fname O_RDONLY 0)) <> -1 ->
  let fd := ret_of (kernel (tr w) (Open fname O_RDONLY 0)) in
  exists es r w',
    read_file fname maxlen w =
      (Val (if last_failed es then -1 else Z.of_nat (length (read_data es)), read_data es), w') /\
    tr w' = Sys (Close fd) r :: es ++
      Sys (Open fname O_RDONLY 0) (kernel (tr w) (Open fname O_RDONLY 0)) :: tr w /\
    Forall (is_read fd) es /\ Z.of_nat (length (read_data es)) <= maxlen /\ same_thread w w'.
Proof.
  intros Hmax Hfd. cbn zeta. unfold read_file. mrun.
  set (ro := kernel (tr w) _) in *. set (fd := ret_of ro) in *.
  rewrite (proj2 (Z.eqb_neq fd (-1)) Hfd).
  set (w1 := after _ ro w).
  destruct (read_loop_shape (S (Z.to_nat maxlen)) fd maxlen 0 [] w1)
    as (n' & d & es & w' & Hrun & Htr & Hes & Hrd & Hlen & _ & Hneg & Hst); [cbn; lia..|].
  cbn [length app Z.of_nat] in Hrun. rewrite (bind_val _ _ _ _ _ Hrun), bind_syscall, Hneg by lia.
  set (r := kernel (tr w') _). exists es, r, (after (Close fd) r w').
  rewrite tr_after, Htr, Hrd. unfold w1. rewrite tr_after.
  split; [by destruct (last_failed es)|]. split_and!; auto.
  trans w1; [apply same_thread_after|]. trans w'; [done|apply same_thread_after].
Qed.

Lemma read_file_ends `{!ReadLaw K} fname maxlen w :
  0 <= maxlen ->
  exists ret d w', read_file fname maxlen w = (Val (ret, d), w') /\
    Z.of_nat (length d) <= maxlen /\ (ret <> -1 -> ret = Z.of_nat (length d)).
Proof.
  intros Hmax.
  destruct (Z.eqb_spec (ret_of (kernel (tr w) (Open fname O_RDONLY 0))) (-1)) as [E|E].
  - rewrite read_file_no_open by done. by eexists (-1), [], _.
  - destruct (read_file_shape fname maxlen w) as (es & r & w' & Hrun & _ & _ & Hlen & _); [done..|].
    eexists _, _, w'. split; [exact Hrun|]. split; [done|]. by destruct (last_failed es).
Qed.
End read_file_spec.

(** ** Reading a served file *)

Section read_served.
Context {K : Kernel} (path : string) (content : nat -> bytes) {SV : Polls K path content}.

(** What the current opening of the file holds. *)
Definition current (t : trace) : bytes := content (pred (opens path t)).

Lemma read_loop_serves fuel fd maxlen n buf w :
  opened fd (tr w) = Some (path, length buf) ->
  0 <= n -> Z.of_nat (length buf) <= maxlen ->
  (Z.to_nat maxlen - length buf < fuel)%nat ->
  buf = take (length buf) (current (tr w)) ->
  let data := take (Z.to_nat maxlen) (current (tr w)) in
  exists n' w', read_loop fuel fd maxlen (Z.of_nat (length buf)) n buf w =
    (Val (Z.of_nat (length data), n', data), w') /\ 0 <= n' /\
    opens path (tr w') = opens path (tr w) /\ same_thread w w'.
Proof using SV.
  revert n buf w. induction fuel as [|fuel IH]; intros n buf w Ho Hn Hlen Hfuel Hbuf; [lia|].
  cbn [read_loop]. cbn zeta. zcase.
  2: { exists n, w. replace (Z.to_nat maxlen) with (length buf) by lia.
       rewrite <- Hbuf. split_and!; auto with litmus. }
  rewrite bind_read.
  destruct (polls_read (tr w) fd (length buf) (maxlen - Z.of_nat (length buf)))
    as (d & E & Hd & [rest Hpre] & Hend); [done|lia|].
  fold (current (tr w)) in Hpre, Hend.
  rewrite E. cbn [read_reply ret_of]. set (w1 := after _ _ w).
  assert (Hw1 : opens path (tr w1) = opens path (tr w)) by done.
  assert (Hc1 : current (tr w1) = current (tr w)) by (unfold current; by rewrite Hw1).
  zcase.
  - assert (Hbd : buf ++ d = take (length (buf ++ d)) (current (tr w1))).
    { by rewrite Hc1, length_app, <- take_take_drop, <- Hbuf, Hpre, take_app_length. }
    rewrite <- Nat2Z.inj_add, <- length_app.
    destruct (IH (Z.of_nat (length d)) (buf ++ d) w1) as (n' & w' & Hrun & Hn' & Ho' & Hst);
      [|lia|rewrite length_app; lia|rewrite length_app; lia|done|].
    { unfold w1. cbn. by rewrite Z.eqb_refl, Ho, length_app. }
    rewrite Hc1 in Hrun. exists n', w'. split_and!; [done..|congruence|done].
  - assert (d = []) as -> by (destruct d; [done|cbn in *; lia]).
    exists 0, w1. cbn [length Z.of_nat].
    assert (take (Z.to_nat maxlen) (current (tr w)) = buf) as ->.
    { rewrite <- (take_drop (length buf) (current (tr w))), (Hend eq_refl), app_nil_r, <- Hbuf.
      apply take_ge. lia. }
    split_and!; auto. apply same_thread_after.
Qed.

Lemma read_file_polls maxlen w :
  0 <= maxlen ->
  let data := take (Z.to_nat maxlen) (content (opens path (tr w))) in
  exists w', read_file path maxlen w = (Val (Z.of_nat (length data), data), w')
    /\ opens path (tr w') = S (opens path (tr w)) /\ same_thread w w'.
Proof using SV.
  intros Hmax. cbn zeta. unfold read_file. mrun.
  destruct (polls_open (tr w) O_RDONLY 0) as (fd & Hfd & E). rewrite E. cbn [ret_of].
  rewrite (proj2 (Z.eqb_neq fd (-1))) by lia. set (w1 := after _ _ w).
  assert (Ho1 : opens path (tr w1) = S (opens path (tr w))) by (cbn; by rewrite String.eqb_refl).
  destruct (read_loop_serves (S (Z.to_nat maxlen)) fd maxlen 0 [] w1)
    as (n' & w' & Hrun & Hn' & Ho & Hst); [|cbn; lia..|done|].
  { unfold w1. cbn. by rewrite Z.eqb_refl. }
  unfold current in Hrun. rewrite Ho1 in Hrun. cbn [pred] in Hrun.
  cbn [length Z.of_nat] in Hrun. rewrite (bind_val _ _ _ _ _ Hrun), bind_syscall.
  rewrite (proj2 (Z.ltb_ge n' 0)) by lia.
  eexists. split; [done|]. split; [by rewrite tr_after, <- Ho1, <- Ho|].
  trans w1; [apply same_thread_after|]. trans w'; [done|apply same_thread_after].
Qed.
End read_served.

Lemma read_file_serves {K : Kernel} path content `{!Serves K path content} maxlen w :
  0 <= maxlen ->
  exists w', read_file path maxlen w =
    (Val (Z.of_nat (length (take (Z.to_nat maxlen) content)), take (Z.to_nat maxlen) content), w')
    /\ same_thread w w'.
Proof.
  intros Hmax. destruct (read_file_polls path (fun _ => content) maxlen w Hmax) as (w' & Hrun & _ & Hst).
  by exists w'.
Qed.

(** [F] does not see how files are read. *)
Class FileQuiet {X} (F : trace -> X) : Prop := {
  quiet_open p f m : quiet F (Open p f m);
  quiet_read fd n : quiet F (Read fd n);
  quiet_close fd : quiet F (Close fd);
}.

Section file_quiet.
Context {K : Kernel} {X : Type} (F : trace -> X) `{!FileQuiet F}.

Lemma keeps_read_file fname maxlen : keeps F (read_file fname maxlen).
Proof using All.
  intros w. apply read_file_quiet; intros; [apply quiet_open|apply quiet_read|apply quiet_close].
Qed.

Lemma keeps_read_litmus_stats stack ready all : keeps F (read_litmus_stats stack ready all).
Proof using All.
  unfold read_litmus_stats. apply keeps_bind; [apply keeps_read_file|]. intros [len d]. keeps_tac.
Qed.
End file_quiet.

(** ** The statistics file *)

(** The text the format of [read_litmus_stats] describes. *)
Definition stats_text (all ready : Z) : bytes :=
  bytes_of "real-time tasks   = " ++ dec dec_fuel all ++
  bytes_of "
ready for release = " ++ dec dec_fuel ready ++ bytes_of "
".

Lemma sscanf_stats all ready rest :
  0 <= all <= INT_MAX -> 0 <= ready <= INT_MAX ->
  sscanf (stats_text all ready ++ rest) STATS_FORMAT = ([all; ready], 2).
Proof.
  intros Ha Hr. unfold sscanf, stats_text.
  rewrite <- !app_assoc, cstr_app by decide_now.
  rewrite (cstr_app (dec dec_fuel all)) by (apply dec_no_nul; lia).
  rewrite cstr_app by decide_now.
  rewrite (cstr_app (dec dec_fuel ready)) by (apply dec_no_nul; lia).
  rewrite cstr_app by decide_now.
  generalize (cstr rest) as rest'. intros rest'.
  let f := eval vm_compute in (parse_fmt (bytes_of STATS_FORMAT)) in
    change (parse_fmt (bytes_of STATS_FORMAT)) with f.
  let t := eval vm_compute in (bytes_of "real-time tasks   = ") in
    change (bytes_of "real-time tasks   = ") with t.
  let t := eval vm_compute in (bytes_of "
ready for release = ") in change (bytes_of "
ready for release = ") with t.
  cbn [app]. scan_text. rewrite scanf_white_dec, scanf_conv_d by (apply dec_fuel_pos || done || lia).
  scan_text. by rewrite scanf_white_dec, scanf_conv_d by (apply dec_fuel_pos || done || lia).
Qed.

Lemma length_stats_text all ready :
  0 <= all <= INT_MAX -> 0 <= ready <= INT_MAX -> (length (stats_text all ready) <= 99)%nat.
Proof.
  intros Ha Hr. unfold stats_text. autorewrite with litmus_len.
  pose proof (length_dec dec_fuel all 9 (dec_fuel_ok _ Ha)).
  pose proof (length_dec dec_fuel ready 9 (dec_fuel_ok _ Hr)).
  vm_compute (length (bytes_of _)) in *. lia.
Qed.

Section stats.
Context {K : Kernel}.

Lemma read_litmus_stats_run content all ready stack r0 a0 w :
  Polls K LITMUS_STATS_FILE content ->
  content (opens LITMUS_STATS_FILE (tr w)) = stats_text all ready ->
  0 <= all <= INT_MAX -> 0 <= ready <= INT_MAX ->
  exists w', read_litmus_stats stack r0 a0 w = (Val (1, ready, all), w') /\
    opens LITMUS_STATS_FILE (tr w') = S (opens LITMUS_STATS_FILE (tr w)) /\ same_thread w w'.
Proof.
  intros SV Hc Ha Hr.
  destruct (read_file_polls LITMUS_STATS_FILE content (100 - 1) w)
    as (w' & Hrun & Ho & Hst); [lia|].
  rewrite Hc, take_ge in Hrun by (pose proof (length_stats_text all ready Ha Hr); lia).
  exists w'. unfold read_litmus_stats. rewrite (bind_val _ _ _ _ _ Hrun).
  by rewrite (proj2 (Z.leb_le 0 _)), overwrite_0, sscanf_stats by (done || lia).
Qed.

(** [read_file] returns the beginning of a file that can be read, up to
    [maxlen] bytes, however the kernel cuts the file into reads; the return
    value is the number of bytes stored. *)
Theorem read_file_content path content maxlen w :
  Serves K path content -> 0 <= maxlen ->
  exists w', read_file path maxlen w =
    (Val (Z.of_nat (length (take (Z.to_nat maxlen) content)), take (Z.to_nat maxlen) content), w')
    /\ same_thread w w'.
Proof. intros. by apply read_file_serves. Qed.

(** C20: on every kernel whose reads are bounded, [read_file] ends with a
    value, stores at most [maxlen] bytes, returns -1 exactly when the file
    could not be opened or the last read failed, and closes the descriptor
    it opened as its last action, on the error path too. *)
Theorem read_file_total fname maxlen w :
  ReadLaw K -> 0 <= maxlen ->
  let ro := kernel (tr w) (Open fname O_RDONLY 0) in
  exists ret d es w', read_file fname maxlen w = (Val (ret, d), w') /\
    Z.of_nat (length d) <= maxlen /\ Forall (is_read (ret_of ro)) es /\ read_data es = d /\
    (ret = -1 <-> ret_of ro = -1 \/ last_failed es = true) /\
    (ret <> -1 -> ret = Z.of_nat (length d)) /\
    (if ret_of ro =? -1 then es = [] /\ tr w' = Sys (Open fname O_RDONLY 0) ro :: tr w
     else exists r, tr w' =
       Sys (Close (ret_of ro)) r :: es ++ Sys (Open fname O_RDONLY 0) ro :: tr w).
Proof.
  intros RL Hmax. cbn zeta. destruct (Z.eqb_spec (ret_of (kernel (tr w) (Open fname O_RDONLY 0))) (-1)) as [E|E].
  - rewrite read_file_no_open by done. eexists (-1), [], [], _. rewrite tr_after.
    split_and!; try done; tauto.
  - destruct (read_file_shape fname maxlen w) as (es & r & w' & Hrun & Htr & Hes & Hlen & _); [done..|].
    eexists _, _, es, w'. rewrite Hrun. split; [done|]. split_and!; try done.
    + destruct (last_failed es); [tauto|]. split; [lia|intros [?|?]; done].
    + by destruct (last_failed es).
    + by eexists.
Qed.

(** A statistics file of the documented form is parsed to its two
    counts, whatever the uninitialised stack buffer held before. *)
Theorem read_litmus_stats_ok all ready stack r0 a0 w :
  Serves K LITMUS_STATS_FILE (stats_text all ready) ->
  0 <= all <= INT_MAX -> 0 <= ready <= INT_MAX ->
  (exists w', read_litmus_stats stack r0 a0 w = (Val (1, ready, all), w') /\ same_thread w w') /\
  (exists w', get_nr_ts_release_waiters stack w = (Val ready, w') /\ same_thread w w').
Proof.
  intros SV Ha Hr. split.
  - destruct (read_litmus_stats_run _ all ready stack r0 a0 w SV eq_refl Ha Hr) as (w' & E & _ & Hst).
    by exists w'.
  - destruct (read_litmus_stats_run _ all ready stack 0 0 w SV eq_refl Ha Hr) as (w' & E & _ & Hst).
    exists w'. split; [|done]. unfold get_nr_ts_release_waiters. by rewrite (bind_val _ _ _ _ _ E).
Qed.

(** The buffer is neither initialised nor terminated after the read, so
    an empty statistics file yields whatever counts an earlier call left on
    the stack, reported as a success. *)
Theorem read_litmus_stats_stale all ready stale r0 a0 w :
  Serves K LITMUS_STATS_FILE [] ->
  0 <= all <= INT_MAX -> 0 <= ready <= INT_MAX ->
  exists w', read_litmus_stats (stats_text all ready ++ stale) r0 a0 w =
    (Val (1, ready, all), w').
Proof.
  intros SV Ha Hr.
  destruct (read_file_serves LITMUS_STATS_FILE [] (100 - 1) w) as (w' & Hrun & _); [lia|].
  rewrite take_nil in Hrun. exists w'. unfold read_litmus_stats.
  rewrite (bind_val _ _ _ _ _ Hrun), overwrite_0. cbn [length Z.of_nat Z.leb drop app Z.compare].
  by rewrite drop_0, sscanf_stats.
Qed.
End stats.

(** ** The control page *)

(** A pointer the page accessors may follow. *)
Definition valid_page (p : Z) : Prop := p <> NULL /\ p <> MAP_FAILED.

(** The events of the outermost [exit_np]: the barrier, the read of
    [np.preempt] and, if it was set, the system call that lets the scheduler
    preempt (newest first). *)
Definition np_exit_events (p : Z) (r : reply) (es : trace) : Prop :=
  if ret_of r =? 0 then es = [Sys (LoadPreempt p) r; Barrier]
  else exists r', es = [Sys Sched_yield r'; Sys (LoadPreempt p) r; Barrier].

(** [n] outermost exits, nothing else. *)
Inductive np_trace (p : Z) : nat -> trace -> Prop :=
  | np_trace_nil : np_trace p 0 []
  | np_trace_exit n r es1 es2 :
      np_exit_events p r es1 -> np_trace p n es2 -> np_trace p (S n) (es1 ++ es2).

Section np.
Context {K : Kernel} {H : KernelHeader}.

Lemma deref_valid p w : valid_page p -> deref p w = (Val tt, w).
Proof.
  intros [H1 H2]. unfold deref.
  by rewrite (proj2 (Z.eqb_neq _ _) H1), (proj2 (Z.eqb_neq _ _) H2).
Qed.

Lemma deref_bind {B} p (f : unit -> M B) w : valid_page p -> (deref p ≫= f) w = f tt w.
Proof. intros Hp. by rewrite (bind_val _ _ _ _ _ (deref_valid p w Hp)). Qed.

Lemma load_flag_bind {B} p (f : Z -> M B) w :
  valid_page p -> (load_flag p ≫= f) w = f (np_flag w p) w.
Proof. intros Hp. unfold load_flag. rewrite bind_bind, deref_bind by done. by rewrite bind_get. Qed.

Lemma store_flag_run p v w :
  valid_page p ->
  store_flag p v w = (Val tt, put_np_flag p (wrap_u NP_FLAG_BITS v) w).
Proof. intros Hp. unfold store_flag. by rewrite deref_bind by done. Qed.

Lemma store_flag_bind {B} p v (f : unit -> M B) w :
  valid_page p ->
  (store_flag p v ≫= f) w = f tt (put_np_flag p (wrap_u NP_FLAG_BITS v) w).
Proof. intros Hp. by rewrite (bind_val _ _ _ _ _ (store_flag_run p v w Hp)). Qed.

Lemma load_preempt_bind {B} p (f : Z -> M B) w :
  valid_page p ->
  (load_preempt p ≫= f) w =
    f (ret_of (kernel (tr w) (LoadPreempt p))) (after (LoadPreempt p) (kernel (tr w) (LoadPreempt p)) w).
Proof. intros Hp. unfold load_preempt. rewrite bind_bind, deref_bind by done. by rewrite bind_syscall. Qed.

Lemma enter_np_mapped w :
  valid_page (ctrl_page w) ->
  enter_np w = (Val tt, put_np_flag (ctrl_page w)
    (wrap_u NP_FLAG_BITS (np_flag w (ctrl_page w) + 1)) w).
Proof.
  intros Hp. unfold enter_np, ensure_ctrl_page. mrun.
  rewrite (proj2 (Z.eqb_neq _ _) (proj1 Hp)). cbn [negb]. mrun.
  by rewrite load_flag_bind, store_flag_run.
Qed.

(** [exit_np] on a mapped page: nothing outside a section, the counter goes
    down inside one, and the outermost exit yields on request. *)
Lemma exit_np_mapped w :
  valid_page (ctrl_page w) ->
  0 <= np_flag w (ctrl_page w) < 2 ^ NP_FLAG_BITS ->
  let p := ctrl_page w in
  exists w' es, exit_np w = (Val tt, w') /\ tr w' = es ++ tr w /\ ctrl_page w' = p /\
    (forall q, np_flag w' q = if q =? p then Z.max 0 (np_flag w p - 1) else np_flag w q) /\
    (if np_flag w p =? 1
     then exists t, np_exit_events p (kernel t (LoadPreempt p)) es
     else es = []).
Proof.
  intros Hp Hf. cbn zeta. set (p := ctrl_page w) in *. unfold exit_np. mrun. fold p.
  rewrite (proj2 (Z.eqb_neq _ _) (proj1 Hp)), load_flag_bind by done.
  destruct (Z.eqb_spec (np_flag w p) 0) as [E|E].
  { exists w, []. rewrite E. split_and!; try done.
    intros q. destruct (Z.eqb_spec q p) as [->|]; [lia|done]. }
  rewrite store_flag_bind, wrap_u_small, load_flag_bind by (done || lia).
  cbn [put_np_flag np_flag]. rewrite Z.eqb_refl.
  assert (forall q, (if q =? p then np_flag w p - 1 else np_flag w q) =
    if q =? p then Z.max 0 (np_flag w p - 1) else np_flag w q) as Hq.
  { intros q. destruct (q =? p); [lia|done]. }
  destruct (Z.eqb_spec (np_flag w p - 1) 0) as [E1|E1]; cbn [negb].
  2: { eexists _, []. split; [done|]. rewrite (proj2 (Z.eqb_neq _ 1)) by lia. by split_and!. }
  rewrite (proj2 (Z.eqb_eq _ 1)) by lia. mrun. rewrite load_preempt_bind by done. unfold when.
  set (t := Barrier :: tr w). set (r := kernel _ (LoadPreempt p)).
  destruct (Z.eqb_spec (ret_of r) 0) as [Er|Er]; cbn [negb].
  - eexists _, [Sys (LoadPreempt p) r; Barrier]. split; [done|].
    rewrite tr_after, ctrl_page_after, np_flag_after. split_and!; try done.
    exists t. unfold np_exit_events. change (kernel t (LoadPreempt p)) with r. by rewrite (proj2 (Z.eqb_eq _ _) Er).
  - set (w1 := after (LoadPreempt p) r _). set (r' := kernel (tr w1) Sched_yield).
    exists (after Sched_yield r' w1), [Sys Sched_yield r'; Sys (LoadPreempt p) r; Barrier].
    split; [done|]. unfold w1. rewrite !tr_after, !ctrl_page_after, !np_flag_after.
    split_and!; try done.
    exists t. unfold np_exit_events. change (kernel t (LoadPreempt p)) with r. rewrite (proj2 (Z.eqb_neq _ _) Er). by exists r'.
Qed.
End np.

(** *** The specification of non-preemptive sections: a nesting depth *)

Inductive np_op := EnterNp | ExitNp.

(** The depth after an operation and whether it ended the outermost section. *)
Definition np_step (d : nat) (o : np_op) : nat * bool :=
  match o with
  | EnterNp => (S d, false)
  | ExitNp => (pred d, bool_decide (d = 1%nat))
  end.

(** The depth after a sequence and how many outermost sections it ended. *)
Fixpoint np_spec (d : nat) (ops : list np_op) : nat * nat :=
  match ops with
  | [] => (d, O)
  | o :: ops =>
      let '(d, ended) := np_step d o in
      let '(d, n) := np_spec d ops in
      (d, if (ended : bool) then S n else n)
  end.

Section np_refinement.
Context {K : Kernel} {H : KernelHeader}.

Definition np_run (o : np_op) : M unit :=
  match o with EnterNp => enter_np | ExitNp => exit_np end.

Fixpoint np_runs (ops : list np_op) : M unit :=
  match ops with [] => mret tt | o :: ops => np_run o;; np_runs ops end.

Lemma np_trace_app p n m es1 es2 :
  np_trace p n es1 -> np_trace p m es2 -> np_trace p (n + m) (es1 ++ es2).
Proof. induction 1; intros; [done|]. rewrite <- app_assoc. econstructor; eauto. Qed.

(** One operation refines [np_step]. *)
Lemma np_run_refines o d w :
  valid_page (ctrl_page w) -> np_flag w (ctrl_page w) = Z.of_nat d ->
  Z.of_nat d + 1 < 2 ^ NP_FLAG_BITS ->
  exists w' es, np_run o w = (Val tt, w') /\ tr w' = es ++ tr w /\
    ctrl_page w' = ctrl_page w /\
    np_flag w' (ctrl_page w) = Z.of_nat (fst (np_step d o)) /\
    np_trace (ctrl_page w) (if snd (np_step d o) then 1 else 0) es.
Proof.
  intros Hp Hd Hb. destruct o; cbn [np_run np_step fst snd].
  - rewrite enter_np_mapped by done. eexists _, []. split; [done|].
    cbn [tr put_np_flag ctrl_page np_flag]. rewrite Z.eqb_refl, wrap_u_small, Hd by lia.
    split_and!; [done..|lia|constructor].
  - destruct (exit_np_mapped w) as (w' & es & Hrun & Htr & Hc & Hf & Hes); [done|lia|].
    exists w', es. rewrite Hf, Z.eqb_refl, Hd. rewrite Hd in Hes.
    split_and!; [done..|lia|]. case_bool_decide as Hd1.
    + rewrite (proj2 (Z.eqb_eq _ 1)) in Hes by lia. destruct Hes as [t Hes].
      rewrite <- (app_nil_r es). econstructor; [done|constructor].
    + rewrite (proj2 (Z.eqb_neq _ 1)) in Hes by lia. subst. constructor.
Qed.

(** C2: any sequence of [enter_np] and [exit_np] on a mapped control page
    keeps [np.flag] equal to the nesting depth (an unmatched exit is ignored),
    as long as the depth fits the bit-field, and talks to the kernel exactly
    at the ends of outermost sections: a barrier, a read of [np.preempt] and
    [sched_yield] if a preemption was requested. *)
Theorem np_sections_refine ops d w :
  valid_page (ctrl_page w) -> np_flag w (ctrl_page w) = Z.of_nat d ->
  Z.of_nat (d + length ops) < 2 ^ NP_FLAG_BITS ->
  exists w' es, np_runs ops w = (Val tt, w') /\ tr w' = es ++ tr w /\
    ctrl_page w' = ctrl_page w /\
    np_flag w' (ctrl_page w) = Z.of_nat (fst (np_spec d ops)) /\
    np_trace (ctrl_page w) (snd (np_spec d ops)) es.
Proof.
  revert d w. induction ops as [|o ops IH]; intros d w Hp Hd Hb; cbn [np_runs].
  { exists w, []. split_and!; try done. constructor. }
  cbn [length] in Hb.
  destruct (np_run_refines o d w) as (w1 & es1 & Hrun & Htr & Hc & Hf & Hes1); [done..|lia|].
  rewrite (bind_val _ _ _ _ _ Hrun).
  destruct (IH (fst (np_step d o)) w1) as (w2 & es2 & Hrun2 & Htr2 & Hc2 & Hf2 & Hes2).
  { by rewrite Hc. } { by rewrite Hc. } { destruct o; cbn [np_step fst]; lia. }
  exists w2, (es2 ++ es1). rewrite Hrun2, Htr2, Htr, Hc2, Hc, app_assoc. rewrite Hc in *.
  cbn [np_spec]. destruct (np_step d o) as [d1 b]. cbn [fst snd] in *.
  destruct (np_spec d1 ops) as [d2 n]. cbn [fst snd] in *. split_and!; [done..|].
  replace (if b then S n else n) with (n + (if b then 1 else 0))%nat by (destruct b; lia).
  by apply np_trace_app.
Qed.
End np_refinement.

(** ** Mapping the control page *)

Section mapping.
Context {K : Kernel} {H : KernelHeader}.

Definition ctrl_open : call := Open LITMUS_CTRL_DEVICE O_RDWR 0.
Definition ctrl_mmap (size fd : Z) : call :=
  Mmap size (Z.lor PROT_READ PROT_WRITE) MAP_PRIVATE fd.

Lemma init_kernel_iface_run w sz :
  ret_of (kernel (tr w) (Sysconf SC_PAGESIZE)) = sz -> 0 < sz < 2 ^ 64 ->
  let t1 := Sys (Sysconf SC_PAGESIZE) (kernel (tr w) (Sysconf SC_PAGESIZE)) :: tr w in
  let ro := kernel t1 ctrl_open in
  let fd := ret_of ro in
  let t2 := Sys ctrl_open ro :: t1 in
  let rm := kernel t2 (ctrl_mmap sz fd) in
  let t3 := Sys (ctrl_mmap sz fd) rm :: t2 in
  exists err w', init_kernel_iface w = (Val err, w') /\
    if fd <? 0 then err = fd /\ ctrl_page w' = NULL /\ exists es, tr w' = es ++ t2 /\ calls es = []
    else (err = 0 <-> ret_of rm <> MAP_FAILED) /\ ctrl_page w' = ret_of rm /\
      exists es, tr w' = es ++ Sys (Close fd) (kernel t3 (Close fd)) :: t3 /\ calls es = [].
Proof.
  intros Hsz Hb. cbn zeta. unfold init_kernel_iface, map_file. mrun.
  set (r1 := kernel (tr w) (Sysconf SC_PAGESIZE)) in *. rewrite Hsz.
  unfold CTRL_PAGES. rewrite Z.mul_1_l, wrap_u_small, (proj2 (Z.ltb_lt 0 sz)) by lia.
  mrun. fold ctrl_open. set (ro := kernel _ ctrl_open). set (fd := ret_of ro).
  destruct (Z.leb_spec 0 fd) as [Hfd|Hfd].
  - rewrite (proj2 (Z.ltb_ge fd 0)) by done. mrun. fold (ctrl_mmap sz fd).
    set (rm := kernel _ (ctrl_mmap sz fd)). set (rc := kernel _ (Close fd)).
    unfold when. destruct (Z.eqb_spec (ret_of rm) MAP_FAILED) as [Em|Em].
    + cbn [Z.eqb negb]. eexists (-1), _. split; [unfold eprintf; by rewrite bind_emit|].
      split; [lia|]. cbn [ctrl_page push put_ctrl_page]. split; [done|].
      eexists [_]. cbn [tr push put_ctrl_page]. rewrite !tr_after. by split.
    + eexists 0, _. split; [done|]. split; [done|]. split; [done|].
      exists []. cbn [tr put_ctrl_page]. rewrite !tr_after. by split.
  - rewrite (proj2 (Z.ltb_lt fd 0)) by done. mrun. unfold when.
    rewrite (proj2 (Z.eqb_neq fd 0)) by lia. cbn [negb].
    eexists fd, _. split; [unfold eprintf; by rewrite bind_emit|]. split; [done|]. split; [done|].
    eexists [_]. cbn [tr push put_ctrl_page]. rewrite !tr_after. by split.
Qed.

(** With a positive page size, [init_kernel_iface] asks for the page
    size, opens the control device and maps one page of it.  If the device
    cannot be opened it returns that error and leaves [ctrl_page] NULL;
    otherwise it stores what [mmap] returned, closes the descriptor in every
    case, and returns 0 exactly when the mapping succeeded. *)
Theorem init_kernel_iface_spec w sz :
  ret_of (kernel (tr w) (Sysconf SC_PAGESIZE)) = sz -> 0 < sz < 2 ^ 64 ->
  let t1 := Sys (Sysconf SC_PAGESIZE) (kernel (tr w) (Sysconf SC_PAGESIZE)) :: tr w in
  let ro := kernel t1 ctrl_open in
  let fd := ret_of ro in
  let t2 := Sys ctrl_open ro :: t1 in
  let rm := kernel t2 (ctrl_mmap sz fd) in
  let t3 := Sys (ctrl_mmap sz fd) rm :: t2 in
  exists err w', init_kernel_iface w = (Val err, w') /\
    if fd <? 0 then err = fd /\ ctrl_page w' = NULL /\ exists es, tr w' = es ++ t2 /\ calls es = []
    else (err = 0 <-> ret_of rm <> MAP_FAILED) /\ ctrl_page w' = ret_of rm /\
      exists es, tr w' = es ++ Sys (Close fd) (kernel t3 (Close fd)) :: t3 /\ calls es = [].
Proof. apply init_kernel_iface_run. Qed.

(** When the control device opens but cannot be mapped, the failed
    mapping's address stays in [ctrl_page].  The first [get_ctrl_page]
    reports NULL; the second one returns [MAP_FAILED] as if it were a page,
    and [enter_np], [exit_np] and [requested_to_preempt] fault on it. *)
Theorem map_failure_is_sticky w sz fd e :
  ctrl_page w = NULL -> 0 < sz < 2 ^ 64 -> 0 <= fd ->
  (forall t, kernel t (Sysconf SC_PAGESIZE) = Succ sz) ->
  (forall t, kernel t ctrl_open = Succ fd) ->
  (forall t, kernel t (ctrl_mmap sz fd) = Fail e) ->
  exists w', get_ctrl_page w = (Val NULL, w') /\ get_ctrl_page w' = (Val MAP_FAILED, w') /\
    enter_np w' = (Fault, w') /\ exit_np w' = (Fault, w') /\
    requested_to_preempt w' = (Fault, w').
Proof.
  intros Hc Hsz Hfd K1 K2 K3.
  destruct (init_kernel_iface_run w sz) as (err & w' & Hrun & Hrest); [by rewrite K1|done|].
  rewrite K2, K3 in Hrest. cbn [ret_of] in Hrest.
  rewrite (proj2 (Z.ltb_ge fd 0)) in Hrest by done. destruct Hrest as (Herr & Hp & _).
  assert (err <> 0) as Hne by (intros ->; by apply Herr).
  exists w'. unfold get_ctrl_page, enter_np, ensure_ctrl_page. mrun. rewrite Hc, Hp.
  cbn [NULL Z.eqb negb]. mrun. rewrite (bind_val _ _ _ _ _ Hrun). mrun.
  rewrite (proj2 (Z.eqb_neq err 0) Hne). split; [done|].
  split; [by unfold get; rewrite Hp|].
  unfold exit_np, requested_to_preempt, load_flag, load_preempt. mrun. rewrite Hp.
  by split_and!.
Qed.
End mapping.

(** ** Concrete runs *)

Module IfaceWitness.
Import Sim.

Definition stats_kernel : Kernel := sim [(LITMUS_STATS_FILE, stats_text 12 7)] 5 4.
Definition empty_stats : Kernel := sim [(LITMUS_STATS_FILE, [])] 5 4.

Lemma stats_serves : Serves stats_kernel LITMUS_STATS_FILE (stats_text 12 7).
Proof. apply sim_serves; [lia|done]. Qed.
Lemma empty_serves : Serves empty_stats LITMUS_STATS_FILE [].
Proof. apply sim_serves; [lia|done]. Qed.

Lemma read_file_content_witness :
  exists w', @read_file stats_kernel LITMUS_STATS_FILE 6 w0 =
    (Val (6, bytes_of "real-t"), w') /\ same_thread w0 w'.
Proof.
  apply (@read_file_content stats_kernel LITMUS_STATS_FILE (stats_text 12 7) 6 w0
    stats_serves). lia.
Defined.

Lemma read_file_total_witness :
  exists ret d es w', @read_file stats_kernel "/nowhere" 6 w0 = (Val (ret, d), w') /\
    Z.of_nat (length d) <= 6 /\ Forall (is_read (-1)) es /\ read_data es = d /\
    (ret = -1 <-> -1 = -1 \/ last_failed es = true) /\
    (ret <> -1 -> ret = Z.of_nat (length d)) /\
    (es = [] /\ tr w' = [Sys (Open "/nowhere" O_RDONLY 0) (Fail 2)]).
Proof. apply (@read_file_total stats_kernel "/nowhere" 6 w0 (sim_read _ _ _)). lia. Defined.

Lemma read_litmus_stats_ok_witness :
  (exists w', @read_litmus_stats stats_kernel [] 0 0 w0 = (Val (1, 7, 12), w') /\ same_thread w0 w') /\
  (exists w', @get_nr_ts_release_waiters stats_kernel [] w0 = (Val 7, w') /\ same_thread w0 w').
Proof.
  apply (@read_litmus_stats_ok stats_kernel 12 7 [] 0 0 w0 stats_serves); unfold INT_MAX; lia.
Defined.

Lemma read_litmus_stats_stale_witness :
  exists w', @read_litmus_stats empty_stats (stats_text 12 7 ++ []) 0 0 w0 = (Val (1, 7, 12), w').
Proof.
  apply (@read_litmus_stats_stale empty_stats 12 7 [] 0 0 w0 empty_serves); unfold INT_MAX; lia.
Defined.

Lemma np_sections_refine_witness :
  exists w' es, @np_runs empty_stats sim_header [EnterNp; EnterNp; ExitNp; ExitNp; ExitNp] w_mapped =
      (Val tt, w') /\ tr w' = es ++ [] /\ ctrl_page w' = 65536 /\
    np_flag w' 65536 = Z.of_nat 0 /\ np_trace 65536 1 es.
Proof.
  apply (@np_sections_refine empty_stats sim_header [EnterNp; EnterNp; ExitNp; ExitNp; ExitNp] 0
    w_mapped); [by split|done|by vm_compute].
Defined.

Lemma init_kernel_iface_spec_witness :
  exists err w', @init_kernel_iface empty_stats w0 = (Val err, w') /\
    (err = -1 /\ ctrl_page w' = NULL /\
     exists es, tr w' = es ++ [Sys ctrl_open (Fail 2); Sys (Sysconf SC_PAGESIZE) (Succ 4096)] /\
       calls es = []).
Proof. apply (@init_kernel_iface_spec empty_stats w0 4096); [done|lia]. Defined.

Lemma map_failure_is_sticky_witness :
  exists w', @get_ctrl_page sim_nomap w0 = (Val NULL, w') /\
    @get_ctrl_page sim_nomap w' = (Val MAP_FAILED, w') /\
    @enter_np sim_nomap sim_header w' = (Fault, w') /\
    @exit_np sim_nomap sim_header w' = (Fault, w') /\
    @requested_to_preempt sim_nomap w' = (Fault, w').
Proof. by apply (@map_failure_is_sticky sim_nomap sim_header w0 4096 3 12); try lia. Defined.
End IfaceWitness.
