(* ===== verification/Syscalls.v ===== *)
(** * src/syscalls.c: the system call stubs

    Each stub passes its arguments to one system call and converts the [long]
    that [syscall] returns to [int]; a failed call returns -1 with [errno] set.
    Results stored through a pointer are returned next to the return value. *)
From S2P Require Import Prelude Machine.

Section syscalls.
Context {K : Kernel}.

(** [return syscall(...)] in a function returning [int]. *)
Definition syscall_int (c : call) : M Z := r ← syscall c; mret (s32 r).

Definition gettid : M Z := syscall_int NR_gettid.
Definition set_rt_task_param (pid : Z) (param : option rt_task) : M Z :=
  syscall_int (NR_set_rt_task_param pid param).
Definition get_rt_task_param (pid : Z) : M Z := syscall_int (NR_get_rt_task_param pid).
Definition sleep_next_period : M Z := syscall_int NR_complete_job.
Definition od_openx (fd type obj_id : Z) (config : option Z) : M Z :=
  syscall_int (NR_od_open fd type obj_id config).
Definition od_close (od : Z) : M Z := syscall_int (NR_od_close od).
Definition litmus_lock (od : Z) : M Z := syscall_int (NR_litmus_lock od).
Definition litmus_unlock (od : Z) : M Z := syscall_int (NR_litmus_unlock od).

(** The second component is the job number stored, if the call stored one. *)
Definition get_job_no : M (Z * option Z) :=
  r ← sys NR_query_job_no;
  mret (match r with Pair job_no _ => (0, Some job_no) | r => (s32 (ret_of r), None) end).
Definition wait_for_job_release (job_no : Z) : M Z :=
  syscall_int (NR_wait_for_job_release job_no).
Definition sched_setscheduler (pid policy prio : Z) : M Z :=
  syscall_int (NR_sched_setscheduler pid policy prio).
Definition sched_getscheduler (pid : Z) : M Z := syscall_int (NR_sched_getscheduler pid).
Definition wait_for_ts_release : M Z := syscall_int NR_wait_for_ts_release.
Definition release_ts (delay : Z) : M Z := syscall_int (NR_release_ts delay).

(** The second component is the time stamp the kernel stored. *)
Definition null_call : M (Z * option Z) :=
  r ← sys NR_null_call;
  mret (match r with Pair stamp _ => (0, Some stamp) | r => (s32 (ret_of r), None) end).
End syscalls.

Lemma bind_syscall_int {K : Kernel} {B} c (f : Z -> M B) w :
  (syscall_int c ≫= f) w = f (s32 (ret_of (kernel (tr w) c))) (after c (kernel (tr w) c) w).
Proof. done. Qed.

#[export] Hint Rewrite @bind_syscall_int : litmus_rw.
