(* ===== verification/Migration.v ===== *)
(** * src/migration.c: CPU masks and migration

    [read_mapping] parses a mask of /proc/litmus into a [cpu_set_t]; the
    functions above it turn masks into integers, first CPUs and affinities.
    A [cpu_set_t] of [sz] bytes is an address and the integer of its bits. *)
From S2P Require Import Prelude Machine CString Laws Iface Syscalls.

(** ** The macros of <sched.h> and <strings.h> the code uses *)

Record cpu_set := mk_set { cs_addr : Z; cs_bits : Z }.
Definition null_set : cpu_set := mk_set NULL 0.

Definition CPU_ALLOC_SIZE (count : Z) : Z := (count + 63) / 64 * 8.
Definition CPU_SET_S (cpu sz bits : Z) : Z := if cpu / 8 <? sz then Z.setbit bits cpu else bits.
Definition CPU_ISSET_S (cpu sz bits : Z) : bool := (cpu / 8 <? sz) && Z.testbit bits cpu.

Fixpoint ctz (p : positive) : Z :=
  match p with xO p => 1 + ctz p | _ => 0 end.

(** The position, from 1, of the least significant bit set. *)
Definition ffsl (z : Z) : Z := match z with Zpos p => ctz p + 1 | _ => 0 end.

(** [char buf[4096/4 + 4096/(4*8) + 1]] *)
Definition BUF_SIZE : Z := 4096 / 4 + 4096 / (4 * 8) + 1.

(** [snprintf(fname, 80, "/proc/litmus/%s/%d", which, idx)] *)
Definition mapping_file (which : string) (idx : Z) : string :=
  String.string_of_list_ascii
    (take 79 (bytes_of "/proc/litmus/" ++ bytes_of which ++ "/"%char :: print_d idx)).

(** [while (chunk) { ... }] *)
Fixpoint set_loop (fuel : nat) (chunk i sz bits : Z) : option Z :=
  if chunk =? 0 then Some bits
  else match fuel with
  | O => None
  | S fuel =>
      let j := ffsl chunk - 1 in
      let x := i * 32 + j in
      set_loop fuel (Z.land chunk (u64 (Z.lnot (Z.shiftl 1 j)))) i sz (CPU_SET_S x sz bits)
  end.

(** [do { ... } while (chunk_str >= buf - 8)]; [off] is [chunk_str - buf]. *)
Fixpoint chunk_loop (fuel : nat) (buf : bytes) (off i sz bits : Z) : option Z :=
  match fuel with
  | O => None
  | S fuel =>
      let off := if off <? 0 then 0 else off in
      let chunk := strtoul16 (drop (Z.to_nat off) buf) in
      match set_loop 64 chunk i sz bits with
      | None => None
      | Some bits =>
          let off := off - 9 in
          let i := i + 1 in
          if -8 <=? off then chunk_loop fuel buf off i sz bits else Some bits
      end
  end.

Definition cpusettoull (bits : cpu_set) (sz : Z) : Z :=
  foldl (fun mask i => if CPU_ISSET_S i sz (cs_bits bits) then Z.lor mask (Z.shiftl 1 i) else mask)
    0 (seqZ 0 64).

Section migration.
Context {K : Kernel}.

Definition CPU_ALLOC (count : Z) : M Z :=
  r ← sys (Malloc (CPU_ALLOC_SIZE count));
  mret (match r with Succ p => p | _ => NULL end).
(** Stores to [sz] bytes, which have to be in the heap block at [addr].  What
    is set and read afterwards lies in the same [sz] bytes. *)
Definition CPU_ZERO_S (sz addr : Z) : M unit :=
  size ← get (fun w => block_size addr (tr w));
  if (0 <? sz) && ((addr =? NULL) || (size <? sz)) then fault else mret tt.
Definition CPU_FREE (set : cpu_set) : M unit := syscall (Free (cs_addr set));; mret tt.

Definition release_master : M Z :=
  '(ret, d) ← read_file "/proc/litmus/release_master" (7 - 1);
  let buf := overwrite 0 d (replicate 7 NUL) in
  if (0 <? ret) && negb (strncmp_eq buf (bytes_of "NO_CPU") 6)
  then mret (atoi buf) else mret (-1).

Definition num_online_cpus : M Z :=
  n ← syscall (Sysconf SC_NPROCESSORS_ONLN); mret (s32 n).

(** Returns the return value, [*set] and [*sz]. *)
Definition read_mapping (idx : Z) (which : string) : M (Z * cpu_set * Z) :=
  online ← num_online_cpus;
  if 4096 <? online then mret (-1, null_set, 0)
  else
    '(ret, d) ← read_file (mapping_file which idx) (BUF_SIZE - 1);
    if ret <=? 0 then mret (ret, null_set, 0)
    else
      let buf := overwrite 0 d (replicate (Z.to_nat BUF_SIZE) NUL) in
      let len := strnlen buf BUF_SIZE in
      let nbits := 32 * (len / 9) + 4 * (len mod 9) in
      addr ← CPU_ALLOC nbits;
      let sz := CPU_ALLOC_SIZE nbits in
      CPU_ZERO_S sz addr;;
      match chunk_loop (S (Z.to_nat len)) buf (len - 8) 0 sz 0 with
      | Some bits => mret (0, mk_set addr bits, sz)
      | None => no_fuel
      end.

(** Returns the return value and [*mask] if it was stored. *)
Definition domain_to_cpus (domain : Z) : M (Z * option Z) :=
  online ← num_online_cpus;
  if 8 * 8 <? u64 online then mret (-1, None)
  else
    '(ret, bits, sz) ← read_mapping domain "domains";
    if ret =? 0 then
      let mask := cpusettoull bits sz in
      CPU_FREE bits;;
      mret (ret, Some mask)
    else mret (ret, None).

Definition cpu_to_domains (cpu : Z) : M (Z * option Z) :=
  online ← num_online_cpus;
  if 8 * 8 <? u64 online then mret (-1, None)
  else
    '(ret, bits, sz) ← read_mapping cpu "cpus";
    if ret =? 0 then
      let mask := cpusettoull bits sz in
      CPU_FREE bits;;
      mret (ret, Some mask)
    else mret (ret, None).

(** [for (i = 0; i < n_online; ++i) if (CPU_ISSET_S(...)) { first = i; break; }] *)
Definition first_set (n_online sz bits : Z) : Z :=
  default (-1) (find (fun i => CPU_ISSET_S i sz bits) (seqZ 0 n_online)).

Definition domain_to_first_cpu (domain : Z) : M Z :=
  '(ret, bits, sz) ← read_mapping domain "domains";
  if negb (ret =? 0) then mret ret
  else
    n_online ← num_online_cpus;
    let first := first_set n_online sz (cs_bits bits) in
    CPU_FREE bits;;
    mret first.

Definition be_migrate_thread_to_cpu (tid target_cpu : Z) : M Z :=
  if target_cpu <? 0 then mret (-1)
  else
    num_cpus ← num_online_cpus;
    if num_cpus =? -1 then mret (-1)
    else if num_cpus <=? target_cpu then mret (-1)
    else
      addr ← CPU_ALLOC num_cpus;
      let sz := CPU_ALLOC_SIZE num_cpus in
      CPU_ZERO_S sz addr;;
      let set := mk_set addr (CPU_SET_S target_cpu sz 0) in
      tid ← (if tid =? 0 then gettid else mret tid);
      ret ← syscall (Sched_setaffinity tid sz (cs_bits set));
      CPU_FREE set;;
      mret ret.

Definition be_migrate_thread_to_domain (tid domain : Z) : M Z :=
  '(ret, set, sz) ← read_mapping domain "domains";
  if negb (ret =? 0) then mret ret
  else
    tid ← (if tid =? 0 then gettid else mret tid);
    ret ← syscall (Sched_setaffinity tid sz (cs_bits set));
    CPU_FREE set;;
    mret ret.

Definition be_migrate_to_cpu (target_cpu : Z) : M Z := be_migrate_thread_to_cpu 0 target_cpu.
Definition be_migrate_to_domain (domain : Z) : M Z := be_migrate_thread_to_domain 0 domain.

(** Deprecated names; the cluster size is ignored. *)
Definition be_migrate_to_cluster (cluster cluster_size : Z) : M Z := be_migrate_to_domain cluster.
Definition cluster_to_first_cpu (cluster cluster_size : Z) : M Z := domain_to_first_cpu cluster.
Definition partition_to_cpu (partition : Z) : M Z := domain_to_first_cpu partition.
End migration.

(** ** The bits of a chunk *)

Lemma ctz_nonneg p : 0 <= ctz p.
Proof. induction p; cbn [ctz]; lia. Qed.

Lemma ctz_testbit p : Z.testbit (Zpos p) (ctz p) = true.
Proof.
  induction p as [p IH|p IH|]; [done| |done]. cbn [ctz].
  change (Zpos (p~0)) with (2 * Zpos p). rewrite <- IH, Z.add_comm.
  apply Z.double_bits_succ.
Qed.

Lemma ctz_low p k : 0 <= k < ctz p -> Z.testbit (Zpos p) k = false.
Proof.
  revert k. induction p as [p IH|p IH|]; intros k Hk; cbn [ctz] in Hk; [lia| |lia].
  change (Zpos (p~0)) with (2 * Zpos p). rewrite Z.double_bits.
  destruct (Z.eq_dec k 0) as [->|]; [done|]. apply IH. lia.
Qed.

Lemma testbit_high z w k : 0 <= z < 2 ^ w -> 0 <= w <= k -> Z.testbit z k = false.
Proof.
  intros Hz Hk. rewrite <- (Z.mod_small z (2 ^ w)) by done. by apply Z.mod_pow2_bits_high.
Qed.

Lemma land_lnot_bit z j k :
  0 <= z < 2 ^ 64 -> 0 <= j < 64 -> 0 <= k ->
  Z.testbit (Z.land z (u64 (Z.lnot (Z.shiftl 1 j)))) k = Z.testbit z k && negb (k =? j).
Proof.
  intros Hz Hj Hk. rewrite Z.land_spec. destruct (Z.lt_ge_cases k 64).
  - unfold wrap_u. rewrite Z.mod_pow2_bits_low, Z.lnot_spec, Z.shiftl_1_l, Z.pow2_bits_eqb by lia.
    by rewrite Z.eqb_sym.
  - by rewrite (testbit_high z 64 k) by lia.
Qed.

Lemma setbit_bits z j k : 0 <= j -> Z.testbit (Z.setbit z j) k = (j =? k) || Z.testbit z k.
Proof. intros. by apply Z.setbit_eqb. Qed.

(** The inner loop adds the bits of its chunk that fit the set, and stops. *)
Lemma set_loop_bits fuel chunk i sz bits :
  0 <= chunk < 2 ^ 64 -> (fuel <= 64)%nat -> 0 <= i ->
  (forall k, 0 <= k < 64 - Z.of_nat fuel -> Z.testbit chunk k = false) ->
  exists bits', set_loop fuel chunk i sz bits = Some bits' /\
    forall n, 0 <= n -> Z.testbit bits' n =
      Z.testbit bits n || ((n / 8 <? sz) && Z.testbit chunk (n - i * 32)).
Proof.
  revert chunk bits. induction fuel as [|fuel IH]; intros chunk bits Hc Hf Hi Hlow; cbn [set_loop].
  { assert (chunk = 0) as ->.
    { apply Z.bits_inj'. intros k Hk. rewrite Z.bits_0.
      destruct (Z.lt_ge_cases k 64); [apply Hlow; lia|by apply (testbit_high _ 64); lia]. }
    exists bits. split; [done|]. intros n _. by rewrite Z.bits_0, andb_false_r, orb_false_r. }
  destruct (Z.eqb_spec chunk 0) as [->|Hne].
  { exists bits. split; [done|]. intros n _. by rewrite Z.bits_0, andb_false_r, orb_false_r. }
  destruct chunk as [|p|p]; [done| |lia]. unfold ffsl. rewrite Z.add_simpl_r.
  pose proof (ctz_nonneg p) as H0. pose proof (ctz_testbit p) as Hbit. set (j := ctz p) in *.
  assert (j < 64).
  { apply Z.nle_gt. intros ?. by rewrite (testbit_high _ 64) in Hbit by lia. }
  assert (64 - Z.of_nat (S fuel) <= j).
  { apply Z.nlt_ge. intros ?. by rewrite Hlow in Hbit by lia. }
  destruct (IH (Z.land (Zpos p) (u64 (Z.lnot (Z.shiftl 1 j)))) (CPU_SET_S (i * 32 + j) sz bits))
    as (bits' & Hrun & Hbits); [|lia|done| |].
  { assert (0 <= u64 (Z.lnot (Z.shiftl 1 j)) < 2 ^ 64) by (apply wrap_u_range; lia).
    assert (0 <= Z.land (Zpos p) (u64 (Z.lnot (Z.shiftl 1 j)))) by (apply Z.land_nonneg; lia).
    split; [done|]. destruct (Z.eq_dec (Z.land (Zpos p) (u64 (Z.lnot (Z.shiftl 1 j)))) 0) as [->|]; [lia|].
    apply Z.log2_lt_pow2; [lia|]. eapply Z.le_lt_trans; [apply Z.log2_land; lia|].
    rewrite Z.min_lt_iff. left. apply Z.log2_lt_pow2; lia. }
  { intros k Hk. rewrite land_lnot_bit by lia. destruct (Z.eqb_spec k j) as [->|]; [apply andb_false_r|].
    unfold j in *. by rewrite ctz_low by lia. }
  exists bits'. split; [done|]. intros n Hn. rewrite Hbits by done.
  assert (Z.testbit (CPU_SET_S (i * 32 + j) sz bits) n =
    Z.testbit bits n || ((n / 8 <? sz) && (n - i * 32 =? j))) as ->.
  { unfold CPU_SET_S. destruct (Z.eqb_spec (n - i * 32) j) as [Hj|Hj].
    - replace (i * 32 + j) with n by lia. zcase; [|by rewrite orb_false_r].
      by rewrite setbit_bits, Z.eqb_refl, orb_true_r by lia.
    - rewrite andb_false_r, orb_false_r. zcase; [|done].
      by rewrite setbit_bits, (proj2 (Z.eqb_neq _ _)) by lia. }
  rewrite <- orb_assoc, <- andb_orb_distrib_r. f_equal. f_equal.
  destruct (Z.eqb_spec (n - i * 32) j) as [->|Hj]; [by rewrite Hbit|]. cbn [orb].
  destruct (Z.lt_ge_cases (n - i * 32) 0); [by rewrite !Z.testbit_neg_r|].
  by rewrite land_lnot_bit, (proj2 (Z.eqb_neq _ _) Hj), andb_true_r by lia.
Qed.

(** ** The chunks of a buffer *)

Lemma scan_digits_nonneg base acc l : 0 <= base -> 0 <= acc -> 0 <= fst (scan_digits base acc l).
Proof.
  intros Hb. revert acc. induction l as [|c l IH]; intros acc Ha; [done|]. cbn [scan_digits].
  destruct (digit base c) as [d|] eqn:E; [|done]. apply IH.
  assert (0 <= d).
  { unfold digit, digit_val in E. repeat case_match; simplify_eq; zbool; lia. }
  nia.
Qed.

Lemma strtoul16_range l : 0 <= strtoul16 l < 2 ^ 64.
Proof.
  unfold strtoul16. destruct (strip_sign _) as [neg l'].
  pose proof (scan_digits_nonneg 16 0 (strip_0x l') ltac:(lia) ltac:(lia)).
  unfold ULONG_MAX. zcase; [lia|]. destruct neg; [apply wrap_u_range; lia|lia].
Qed.

(** The positions of a set lie in its [sz] bytes. *)
Definition in_set (sz bits : Z) : Prop :=
  0 <= bits /\ forall n, 0 <= n -> Z.testbit bits n = true -> n / 8 < sz.

Lemma nonneg_bits z w : (forall n, w <= n -> Z.testbit z n = false) -> 0 <= z.
Proof.
  intros Hz. apply Z.bits_iff_nonneg_ex. exists w. intros n Hn. apply Hz. lia.
Qed.

Lemma set_loop_in_set chunk i sz bits :
  0 <= chunk < 2 ^ 64 -> 0 <= i -> in_set sz bits ->
  exists bits', set_loop 64 chunk i sz bits = Some bits' /\ in_set sz bits'.
Proof.
  intros Hc Hi [H0 Hin].
  destruct (set_loop_bits 64 chunk i sz bits) as (bits' & Hrun & Hbits); [done|lia|done|intros; lia|].
  exists bits'. split; [done|].
  assert (forall n, 0 <= n -> Z.testbit bits' n = true -> n / 8 < sz) as Hin'.
  { intros n Hn. rewrite Hbits by done. intros [?|[Hz _]%andb_prop]%orb_prop; [by apply Hin|].
    by apply Z.ltb_lt. }
  split; [|done]. apply nonneg_bits with (w := Z.max 0 (8 * sz)). intros n Hn.
  apply not_true_iff_false. intros Ht. apply Hin' in Ht; [|lia].
  assert (sz <= n / 8) by (apply Z.div_le_lower_bound; lia). lia.
Qed.

(** Whatever the buffer holds, the loop ends within its fuel and sets bits of
    the set only. *)
Lemma chunk_loop_total fuel buf off i sz bits :
  0 <= i -> in_set sz bits -> Z.max 0 (off + 8) / 9 < Z.of_nat fuel ->
  exists bits', chunk_loop fuel buf off i sz bits = Some bits' /\ in_set sz bits'.
Proof.
  revert off i bits. induction fuel as [|fuel IH]; intros off i bits Hi Hin Hf.
  { pose proof (Z.div_pos (Z.max 0 (off + 8)) 9). lia. }
  cbn [chunk_loop]. set (off0 := if off <? 0 then 0 else off).
  assert (off0 = Z.max 0 off) as Hoff by (unfold off0; zcase; lia).
  destruct (set_loop_in_set (strtoul16 (drop (Z.to_nat off0) buf)) i sz bits)
    as (bits1 & -> & Hin1); [apply strtoul16_range|done|done|].
  destruct (Z.leb_spec (-8) (off0 - 9)); [|by exists bits1].
  apply IH; [lia|done|].
  replace (Z.max 0 (off + 8)) with (off0 - 9 + 8 + 1 * 9) in Hf by lia.
  rewrite Z.div_add in Hf by lia. rewrite Z.max_r by lia. lia.
Qed.

(** ** Masks and their text *)

(** The text of a mask, its words printed from the most significant one, the
    first with [m] digits and the others with 8. *)
Definition mask_text (m : nat) (w0 : Z) (ws : list Z) : bytes :=
  hex m w0 ++ flat_map (fun w => ","%char :: hex 8 w) ws.

Definition mask_value (w0 : Z) (ws : list Z) : Z := foldl (fun v w => v * 2 ^ 32 + w) w0 ws.

Definition wf_mask (m : nat) (w0 : Z) (ws : list Z) : Prop :=
  (1 <= m <= 8)%nat /\ 0 <= w0 < 16 ^ Z.of_nat m /\ Forall (fun w => 0 <= w < 2 ^ 32) ws.

Lemma mask_text_snoc m w0 ws w :
  mask_text m w0 (ws ++ [w]) = mask_text m w0 ws ++ ","%char :: hex 8 w.
Proof. unfold mask_text. rewrite flat_map_app, app_assoc. cbn [flat_map]. by rewrite app_nil_r. Qed.

Lemma length_mask_text m w0 ws : length (mask_text m w0 ws) = (m + 9 * length ws)%nat.
Proof.
  unfold mask_text. rewrite length_app, length_hex. f_equal.
  induction ws as [|w ws IH]; [done|]. cbn [flat_map]. rewrite length_app, IH. cbn [length].
  rewrite length_hex. lia.
Qed.

Lemma mask_value_snoc w0 ws w : mask_value w0 (ws ++ [w]) = mask_value w0 ws * 2 ^ 32 + w.
Proof. unfold mask_value. by rewrite foldl_app. Qed.

Lemma wf_mask_snoc m w0 ws w : wf_mask m w0 (ws ++ [w]) -> wf_mask m w0 ws /\ 0 <= w < 2 ^ 32.
Proof. intros (H1 & H2 & [H3 H4%Forall_inv]%Forall_app). exact (conj (conj H1 (conj H2 H3)) H4). Qed.

Lemma mask_value_range m w0 ws :
  wf_mask m w0 ws -> 0 <= mask_value w0 ws < 2 ^ (32 * Z.of_nat (length ws) + 4 * Z.of_nat m).
Proof.
  induction ws as [|w ws IH] using rev_ind; intros Hwf.
  - destruct Hwf as (? & ? & _). cbn [length Z.of_nat mask_value foldl].
    rewrite Z.mul_0_r, Z.add_0_l, Z.pow_mul_r by lia. done.
  - apply wf_mask_snoc in Hwf as [Hwf Hw]. specialize (IH Hwf). rewrite mask_value_snoc.
    rewrite length_app. cbn [length].
    replace (32 * Z.of_nat (length ws + 1) + 4 * Z.of_nat m)
      with (32 + (32 * Z.of_nat (length ws) + 4 * Z.of_nat m)) by lia.
    rewrite Z.pow_add_r by lia. nia.
Qed.

Lemma add_shift_bits v w k :
  0 <= w < 2 ^ 32 -> 0 <= k ->
  Z.testbit (v * 2 ^ 32 + w) k = Z.testbit w k || Z.testbit v (k - 32).
Proof.
  intros Hw Hk. destruct (Z.lt_ge_cases k 32) as [Hlt|Hge].
  - rewrite <- (Z.mod_pow2_bits_low _ 32) by lia.
    rewrite Z.add_comm, Z_mod_plus_full, Z.mod_small, (Z.testbit_neg_r v) by lia. by rewrite orb_false_r.
  - rewrite (testbit_high w 32 k) by lia. cbn [orb].
    rewrite <- (Z.sub_add 32 k) at 1. rewrite <- Z.div_pow2_bits by lia.
    by rewrite Z.div_add_l, Z.div_small, Z.add_0_r by lia.
Qed.

(** The loop reads the words of a mask back, least significant word first. *)
Lemma chunk_loop_mask ws : forall m w0 rest fuel i sz bits,
  wf_mask m w0 ws -> group_end rest -> (length ws < fuel)%nat -> 0 <= i ->
  32 * (i + Z.of_nat (length ws)) + 4 * Z.of_nat m <= 8 * sz ->
  exists bits',
    chunk_loop fuel (mask_text m w0 ws ++ rest) (Z.of_nat (length (mask_text m w0 ws)) - 8) i sz bits =
      Some bits' /\
    forall n, 0 <= n ->
      Z.testbit bits' n = Z.testbit bits n || Z.testbit (mask_value w0 ws) (n - i * 32).
Proof.
  induction ws as [|w ws IH] using rev_ind; intros m w0 rest fuel i sz bits Hwf Hr Hf Hi Hsz.
  - destruct Hwf as (Hm & Hw0 & _). rewrite length_mask_text. cbn [length].
    replace (mask_text m w0 []) with (hex m w0) by (unfold mask_text; by rewrite app_nil_r).
    destruct fuel as [|fuel]; [cbn in Hf; lia|]. cbn [chunk_loop].
    replace (if Z.of_nat (m + 9 * 0) - 8 <? 0 then 0 else Z.of_nat (m + 9 * 0) - 8) with 0
      by (zcase; lia).
    cbn [Z.to_nat]. rewrite drop_0, strtoul16_hex by (done || lia).
    assert (16 ^ Z.of_nat m = 2 ^ (4 * Z.of_nat m)) as E16 by (by rewrite Z.pow_mul_r by lia).
    assert (2 ^ (4 * Z.of_nat m) <= 2 ^ 32) by (apply Z.pow_le_mono_r; lia).
    destruct (set_loop_bits 64 w0 i sz bits) as (bits' & -> & Hbits); [lia|lia|done|intros; lia|].
    cbn [Z.leb Z.sub Z.add Z.opp Z.compare]. exists bits'. split; [done|].
    intros n Hn. rewrite Hbits by done. f_equal. cbn [mask_value foldl].
    destruct (Z.ltb_spec (n / 8) sz) as [|Hge]; [done|]. cbn [andb].
    rewrite (testbit_high w0 (4 * Z.of_nat m)); [done|lia|].
    pose proof (Z.mul_div_le n 8 ltac:(lia)). cbn [length] in Hsz. lia.
  - apply wf_mask_snoc in Hwf as [Hwf Hw]. rewrite length_app in *. cbn [length] in *.
    rewrite mask_text_snoc, length_app. cbn [length]. rewrite length_hex, length_mask_text.
    destruct fuel as [|fuel]; [lia|]. cbn [chunk_loop].
    set (L := (m + 9 * length ws)%nat).
    replace (if Z.of_nat (L + 9) - 8 <? 0 then 0 else Z.of_nat (L + 9) - 8) with (Z.of_nat (L + 1))
      by (zcase; lia).
    rewrite Nat2Z.id, <- app_assoc. cbn [app].
    rewrite (drop_app_ge (mask_text m w0 ws)) by (rewrite length_mask_text; lia).
    rewrite length_mask_text. fold L. replace (L + 1 - L)%nat with 1%nat by lia.
    cbn [drop]. rewrite drop_0, strtoul16_hex by (done || lia).
    destruct (set_loop_bits 64 w i sz bits) as (bits1 & -> & Hb1); [lia|lia|done|intros; lia|].
    destruct Hwf as ((Hm1 & Hm2) & Hrest).
    rewrite (proj2 (Z.leb_le _ _)) by lia.
    replace (Z.of_nat (L + 1) - 9) with (Z.of_nat (length (mask_text m w0 ws)) - 8)
      by (rewrite length_mask_text; lia).
    destruct (IH m w0 (","%char :: hex 8 w ++ rest) fuel (i + 1) sz bits1) as (bits' & -> & Hb');
      [done|by left|lia|lia|lia|].
    exists bits'. split; [done|]. intros n Hn. rewrite Hb', Hb1, mask_value_snoc, <- orb_assoc by done.
    f_equal. destruct (Z.lt_ge_cases (n - i * 32) 0) as [Hneg|Hpos].
    { rewrite !Z.testbit_neg_r by lia. by rewrite andb_false_r. }
    rewrite add_shift_bits by lia. replace (n - (i + 1) * 32) with (n - i * 32 - 32) by lia.
    f_equal. destruct (Z.ltb_spec (n / 8) sz) as [|Hge]; [done|]. cbn [andb].
    rewrite (testbit_high w 32); [done|lia|]. pose proof (Z.mul_div_le n 8 ltac:(lia)). lia.
Qed.

Lemma mask_text_no_nul m w0 ws : NUL ∉ mask_text m w0 ws.
Proof.
  assert (forall n z, NUL ∉ hex n z) as Hhex.
  { intros n z (d & Hd & E)%hex_chars. by destruct (digit_char_plain d Hd) as (_ & ? & _). }
  unfold mask_text. rewrite not_elem_of_app. split; [apply Hhex|].
  induction ws as [|w ws IH]; cbn [flat_map]; [apply not_elem_of_nil|].
  rewrite not_elem_of_app, not_elem_of_cons. split_and!; [done|apply Hhex|done].
Qed.

Lemma CPU_ALLOC_SIZE_ge n : n <= 8 * CPU_ALLOC_SIZE n.
Proof. unfold CPU_ALLOC_SIZE. pose proof (Z.div_mod (n + 63) 64). pose proof (Z.mod_pos_bound (n + 63) 64). lia. Qed.

Lemma CPU_ALLOC_SIZE_nonneg n : 0 <= n -> 0 <= CPU_ALLOC_SIZE n.
Proof. intros. unfold CPU_ALLOC_SIZE. pose proof (Z.div_pos (n + 63) 64). lia. Qed.

(** The number of bits [read_mapping] computes from the length of a text. *)
Lemma text_bits m w0 ws :
  (1 <= m <= 8)%nat ->
  let len := Z.of_nat (length (mask_text m w0 ws)) in
  32 * (len / 9) + 4 * (len mod 9) = 32 * Z.of_nat (length ws) + 4 * Z.of_nat m.
Proof.
  intros Hm. cbn zeta. rewrite length_mask_text, Nat2Z.inj_add, Nat2Z.inj_mul.
  change (Z.of_nat 9) with 9. rewrite (Z.mul_comm 9), Z.div_add, Z_mod_plus_full by lia.
  rewrite Z.div_small, Z.mod_small by lia. lia.
Qed.

(** A file of at most 1152 characters, seen through the zeroed buffer. *)
Lemma buffer_text d :
  (length d <= 1152)%nat -> NUL ∉ d ->
  exists rest, group_end rest /\
    overwrite 0 d (replicate (Z.to_nat BUF_SIZE) NUL) = d ++ rest /\
    strnlen (overwrite 0 d (replicate (Z.to_nat BUF_SIZE) NUL)) BUF_SIZE = Z.of_nat (length d).
Proof.
  intros Hlen Hnul. change (Z.to_nat BUF_SIZE) with 1153%nat. rewrite overwrite_0.
  exists (drop (length d) (replicate 1153 NUL)). rewrite drop_replicate.
  replace (1153 - length d)%nat with (S (1152 - length d)) by lia.
  split; [by right|]. split; [done|]. unfold strnlen. change (Z.to_nat BUF_SIZE) with 1153%nat.
  rewrite take_app_ge by lia. rewrite cstr_app by done. rewrite length_app.
  replace (1153 - length d)%nat with (S (1152 - length d)) by lia. cbn [replicate take cstr].
  cbn. lia.
Qed.

(** ** [read_mapping] *)

Section heap.
Context {K : Kernel}.

Lemma read_file_live_val fname maxlen w a w' :
  read_file fname maxlen w = (Val a, w') -> live (tr w') = live (tr w).
Proof.
  intros E. pose proof (read_file_quiet live fname maxlen w) as Hl. rewrite E in Hl.
  by apply Hl; intros; intros [] t.
Qed.

Lemma read_file_affinities fname maxlen w a w' :
  read_file fname maxlen w = (Val a, w') -> affinities (tr w') = affinities (tr w).
Proof.
  intros E. pose proof (read_file_quiet affinities fname maxlen w) as Hl. rewrite E in Hl. by apply Hl.
Qed.

Lemma live_free a r t l :
  a <> NULL -> live t = a :: l -> live (Sys (Free a) r :: t) = l.
Proof.
  intros Ha Ht. cbn [live]. rewrite (proj2 (Z.eqb_neq a 0) Ha), Ht. cbn [remove_first].
  rewrite Z.eqb_refl. by destruct r.
Qed.

Lemma bind_CPU_FREE {B} set (f : unit -> M B) w :
  (CPU_FREE set ≫= f) w =
    f tt (after (Free (cs_addr set)) (kernel (tr w) (Free (cs_addr set))) w).
Proof. done. Qed.

Lemma bind_CPU_ALLOC {B} n a (f : Z -> M B) w :
  kernel (tr w) (Malloc (CPU_ALLOC_SIZE n)) = Succ a ->
  (CPU_ALLOC n ≫= f) w = f a (after (Malloc (CPU_ALLOC_SIZE n)) (Succ a) w).
Proof. intros E. unfold CPU_ALLOC. mrun. by rewrite E. Qed.

Lemma bind_CPU_ZERO_S {B} sz addr (f : unit -> M B) w :
  addr <> NULL -> sz <= block_size addr (tr w) -> (CPU_ZERO_S sz addr ≫= f) w = f tt w.
Proof.
  intros Ha Hsz. unfold CPU_ZERO_S. mrun. rewrite (proj2 (Z.eqb_neq _ _) Ha), (proj2 (Z.ltb_ge _ _) Hsz).
  cbn [orb]. rewrite andb_false_r. by mrun.
Qed.

Lemma block_malloc n a w : block_size a (tr (after (Malloc n) (Succ a) w)) = n.
Proof. rewrite tr_after. cbn [block_size]. by rewrite Z.eqb_refl. Qed.

Lemma bind_online {B} n (f : Z -> M B) w :
  Online K n -> INT_MIN <= n <= INT_MAX ->
  (num_online_cpus ≫= f) w = f n (after (Sysconf SC_NPROCESSORS_ONLN) (Succ n) w).
Proof.
  intros Hon Hn. unfold num_online_cpus. mrun. rewrite Hon. cbn [ret_of].
  rewrite wrap_s_small; [done|lia|]. unfold INT_MIN, INT_MAX in Hn. cbn. lia.
Qed.
End heap.

Section read_mapping_spec.
Context {K : Kernel} {AL : Allocates K} (online : Z) {ON : Online K online}.
Context (Honline : 0 <= online <= 4096).

Lemma read_mapping_run which idx m w0 ws w :
  Serves K (mapping_file which idx) (mask_text m w0 ws) ->
  wf_mask m w0 ws -> (length ws <= 127)%nat ->
  exists addr sz w',
    read_mapping idx which w = (Val (0, mk_set addr (mask_value w0 ws), sz), w') /\
    addr <> NULL /\ block_size addr (tr w') = sz /\ 32 * Z.of_nat (length ws) + 4 * Z.of_nat m <= 8 * sz /\
    live (tr w') = addr :: live (tr w) /\ affinities (tr w') = affinities (tr w).
Proof using AL ON Honline.
  intros SV Hwf Hws. pose proof Hwf as (Hm & _ & _). unfold read_mapping.
  rewrite (bind_online online) by (done || (unfold INT_MIN, INT_MAX; lia)).
  set (w1 := after _ _ w).
  rewrite (proj2 (Z.ltb_ge 4096 online)) by lia.
  set (txt := mask_text m w0 ws) in *. set (len := Z.of_nat (length txt)).
  assert (length txt <= 1152)%nat as Hlen by (unfold txt; rewrite length_mask_text; lia).
  assert (0 < len) as Hpos by (unfold len, txt; rewrite length_mask_text; lia).
  destruct (read_file_serves (mapping_file which idx) txt (BUF_SIZE - 1) w1)
    as (w2 & Hrun & _); [done|].
  pose proof (read_file_live_val _ _ _ _ _ Hrun) as Hl2.
  pose proof (read_file_affinities _ _ _ _ _ Hrun) as Ha2.
  rewrite take_ge in Hrun by (change (Z.to_nat (BUF_SIZE - 1)) with 1152%nat; lia).
  fold len in Hrun. rewrite (bind_val _ _ _ _ _ Hrun), (proj2 (Z.leb_gt _ _) Hpos). cbn zeta.
  destruct (buffer_text txt Hlen (mask_text_no_nul _ _ _)) as (rest & Hr & Hbuf & Hstr).
  rewrite Hstr, Hbuf. fold len.
  pose proof (text_bits m w0 ws Hm) as Hnb. cbn zeta in Hnb. fold txt in Hnb. fold len in Hnb.
  rewrite Hnb. set (nbits := _ + 4 * _).
  destruct (allocates (tr w2) (CPU_ALLOC_SIZE nbits)) as (a & Ea & Ha).
  rewrite (bind_CPU_ALLOC _ _ _ _ Ea), bind_CPU_ZERO_S by (done || by rewrite block_malloc). set (sz := CPU_ALLOC_SIZE nbits).
  pose proof (CPU_ALLOC_SIZE_ge nbits) as Hsz. fold sz in Hsz.
  destruct (chunk_loop_mask ws m w0 rest (S (Z.to_nat len)) 0 sz 0)
    as (bits & Hloop & Hbits); [done|done|unfold len, txt; rewrite length_mask_text; lia|lia|lia|].
  fold txt in Hloop. fold len in Hloop. rewrite Hloop.
  assert (bits = mask_value w0 ws) as ->.
  { apply Z.bits_inj'. intros n Hn. by rewrite Hbits, Z.bits_0, Z.sub_0_r. }
  eexists a, sz, _. split; [done|]. split; [done|]. split; [apply block_malloc|]. split; [done|].
  rewrite tr_after. split; [|trans (affinities (tr w2)); [done|by rewrite Ha2; unfold w1; rewrite tr_after]].
  cbn [live]. rewrite (proj2 (Z.eqb_neq a 0) Ha), Hl2. unfold w1. by rewrite tr_after.
Qed.

(** C1: a mapping file in the documented format, up to 4096 CPUs, is read
    into a set whose bits are the mask, in an allocated block of exactly the
    size returned, which covers every digit of the text. *)
Theorem read_mapping_ok which idx m w0 ws w :
  Serves K (mapping_file which idx) (mask_text m w0 ws) ->
  wf_mask m w0 ws -> (length ws <= 127)%nat ->
  exists addr sz w',
    read_mapping idx which w = (Val (0, mk_set addr (mask_value w0 ws), sz), w') /\
    addr <> NULL /\ block_size addr (tr w') = sz /\ 32 * Z.of_nat (length ws) + 4 * Z.of_nat m <= 8 * sz /\
    live (tr w') = addr :: live (tr w) /\ affinities (tr w') = affinities (tr w).
Proof using AL ON Honline. apply read_mapping_run. Qed.
End read_mapping_spec.

Section any_kernel.
Context {K : Kernel}.

(** A pointer [malloc] returned, null when it failed. *)
Definition malloc_ptr (r : reply) : Z := match r with Succ p => p | _ => NULL end.

Lemma bind_CPU_ALLOC_any {B} n (f : Z -> M B) w :
  let r := kernel (tr w) (Malloc (CPU_ALLOC_SIZE n)) in
  (CPU_ALLOC n ≫= f) w = f (malloc_ptr r) (after (Malloc (CPU_ALLOC_SIZE n)) r w).
Proof. done. Qed.

Definition add_live (a : Z) (l : list Z) : list Z := if a =? 0 then l else a :: l.

Lemma live_malloc n r t : live (Sys (Malloc n) r :: t) = add_live (malloc_ptr r) (live t).
Proof. by destruct r. Qed.

Lemma live_free_added a r t l : live t = add_live a l -> live (Sys (Free a) r :: t) = l.
Proof.
  unfold add_live. intros Ht. destruct (Z.eqb_spec a 0) as [->|Ha].
  - by destruct r.
  - by apply live_free.
Qed.

(** The call returned with a value and [Q] of it, or the process crashed on
    memory that could not be allocated. *)
Definition returns {A} (m : M A) (w : world) (Q : A -> world -> Prop) : Prop :=
  match m w with
  | (Val a, w') => Q a w'
  | (Fault, w') => exists n r t, tr w' = Sys (Malloc n) r :: t /\ malloc_ptr r = NULL
  | _ => False
  end.

Lemma returns_bind {A B} (m : M A) (f : A -> M B) w Q :
  returns m w (fun a w' => returns (f a) w' Q) -> returns (m ≫= f) w Q.
Proof. unfold returns, mbind, M_bind. by destruct (m w) as [[] w']. Qed.

Lemma returns_mono {A} (m : M A) w (Q Q' : A -> world -> Prop) :
  (forall a w', Q a w' -> Q' a w') -> returns m w Q -> returns m w Q'.
Proof. unfold returns. intros HQ. destruct (m w) as [[] w']; auto. Qed.

(** A block that was just allocated is zeroed, or it was not allocated. *)
Lemma CPU_ZERO_S_malloc {A} sz r w (f : unit -> M A) :
  let w' := after (Malloc sz) r w in
  ((CPU_ZERO_S sz (malloc_ptr r) ≫= f) w' = f tt w' /\
   (0 < sz -> malloc_ptr r <> NULL) /\ (0 < sz -> block_size (malloc_ptr r) (tr w') = sz)) \/
  ((CPU_ZERO_S sz (malloc_ptr r) ≫= f) w' = (Fault, w') /\ malloc_ptr r = NULL).
Proof.
  intros w'. unfold CPU_ZERO_S. mrun. destruct (Z.ltb_spec 0 sz) as [Hsz|Hsz]; cbn [andb]; [|left; mrun; split_and!; [done|lia..]].
  destruct (Z.eqb_spec (malloc_ptr r) NULL) as [E|Hne]; cbn [orb]; [by right; mrun|left].
  assert (block_size (malloc_ptr r) (tr w') = sz) as Hb by (unfold w'; destruct r; try (by destruct Hne); by apply block_malloc).
  rewrite Hb, Z.ltb_irrefl. mrun. by split_and!.
Qed.

(** What [read_mapping] leaves behind: a set within its bounds in a live
    block of that size, or an error without one. *)
Definition mapping_result (w : world) (res : Z * cpu_set * Z) (w' : world) : Prop :=
  let '(ret, set, sz) := res in
  in_set sz (cs_bits set) /\ 0 <= sz /\
  (ret = 0 \/ ret = -1 /\ set = null_set /\ sz = 0) /\
  (0 < sz -> cs_addr set <> NULL /\ block_size (cs_addr set) (tr w') = sz) /\
  live (tr w') = add_live (cs_addr set) (live (tr w)).

Lemma in_set_0 sz : in_set sz 0.
Proof. split; [done|]. intros n _. by rewrite Z.bits_0. Qed.

Lemma read_mapping_returns idx which w :
  ReadLaw K -> returns (read_mapping idx which) w (mapping_result w).
Proof.
  intros RL. unfold read_mapping, num_online_cpus, returns. mrun.
  set (w1 := after _ _ w).
  assert (live (tr w1) = live (tr w)) as Hl1 by (unfold w1; by rewrite tr_after).
  zcase. { split; [apply in_set_0|]. split; [lia|]. split; [by right|]. by split; [lia|]. }
  destruct (read_file_ends (mapping_file which idx) (BUF_SIZE - 1) w1)
    as (ret & d & w2 & Hrun & Hd & Hret); [done|].
  pose proof (read_file_live_val _ _ _ _ _ Hrun) as Hl2.
  rewrite (bind_val _ _ _ _ _ Hrun). zcase as Hret0.
  { split; [apply in_set_0|]. split; [lia|]. cbn [cs_addr null_set add_live NULL Z.eqb].
    split; [|split; [lia|congruence]]. destruct (Z.eq_dec ret (-1)) as [->|]; [by right|left; lia]. }
  cbn zeta. set (len := strnlen _ _). set (nbits := _ + 4 * _).
  assert (0 <= len) as Hlen by (unfold len, strnlen; lia).
  assert (0 <= nbits) as Hnb.
  { pose proof (Z.div_pos len 9). pose proof (Z.mod_pos_bound len 9). unfold nbits. lia. }
  rewrite bind_CPU_ALLOC_any. set (rm := kernel _ (Malloc _)). set (sz := CPU_ALLOC_SIZE nbits) in *.
  pose proof (CPU_ALLOC_SIZE_nonneg nbits Hnb) as Hsz. fold sz in Hsz.
  destruct (chunk_loop_total (S (Z.to_nat len)) (overwrite 0 d (replicate (Z.to_nat BUF_SIZE) NUL))
    (len - 8) 0 sz 0) as (bits & -> & Hin); [done|apply in_set_0| |].
  { apply Z.div_lt_upper_bound; lia. }
  destruct (CPU_ZERO_S_malloc sz rm w2 (fun _ => mret (0, mk_set (malloc_ptr rm) bits, sz))) as [(-> & Ha & Hb)|(E & Hn)].
  - cbv beta iota zeta delta [mret M_ret]. split; [done|]. split; [done|]. split; [by left|]. split; [by auto|].
    rewrite tr_after, live_malloc. cbn [cs_addr]. congruence.
  - rewrite E. exists sz, rm, (tr w2). by rewrite tr_after.
Qed.

(** C30: on every kernel whose reads are bounded and whatever the file
    holds, [read_mapping] ends; the heap block it allocated has exactly the
    size it returns, and all it stores, the zeros and the bits, lies inside;
    it fails only with -1 and without a set.  The only crash is an allocation
    that failed, which the code does not check. *)
Theorem read_mapping_total idx which w :
  ReadLaw K -> returns (read_mapping idx which) w (mapping_result w).
Proof. apply read_mapping_returns. Qed.
End any_kernel.

(** ** The users of [read_mapping] *)

Lemma seqZ_snoc (k : nat) : seqZ 0 (Z.of_nat (S k)) = seqZ 0 (Z.of_nat k) ++ [Z.of_nat k].
Proof.
  rewrite Nat2Z.inj_succ, <- Z.add_1_r, seqZ_app by lia. cbn. by rewrite Z.add_0_l.
Qed.

Lemma mask_fold_bits (f : Z -> bool) (k : nat) n :
  0 <= n ->
  Z.testbit (foldl (fun mask i => if f i then Z.lor mask (Z.shiftl 1 i) else mask) 0
    (seqZ 0 (Z.of_nat k))) n = (n <? Z.of_nat k) && f n.
Proof.
  intros Hn. induction k as [|k IH].
  { rewrite (proj2 (Z.ltb_ge n _)) by lia. apply Z.bits_0. }
  rewrite seqZ_snoc, foldl_app. cbn [foldl].
  assert (Z.testbit (Z.shiftl 1 (Z.of_nat k)) n = (n =? Z.of_nat k)) as Hs.
  { rewrite Z.shiftl_1_l, Z.pow2_bits_eqb by lia. apply Z.eqb_sym. }
  destruct (Z.eqb_spec n (Z.of_nat k)) as [->|Hne].
  - rewrite (proj2 (Z.ltb_lt _ (Z.of_nat (S k)))) by lia.
    rewrite (proj2 (Z.ltb_ge _ _)) in IH by lia. cbn [andb] in *.
    destruct (f _); [by rewrite Z.lor_spec, Hs, orb_true_r|done].
  - replace (n <? Z.of_nat (S k)) with (n <? Z.of_nat k)
      by (destruct (Z.ltb_spec n (Z.of_nat k)), (Z.ltb_spec n (Z.of_nat (S k))); lia || done).
    destruct (f (Z.of_nat k)); [|done]. by rewrite Z.lor_spec, Hs, orb_false_r.
Qed.

Lemma cpusettoull_bits set sz n :
  0 <= n ->
  Z.testbit (cpusettoull set sz) n = (n <? 64) && CPU_ISSET_S n sz (cs_bits set).
Proof. apply (mask_fold_bits (fun i => CPU_ISSET_S i sz (cs_bits set)) 64). Qed.

(** A mask that fits its set, packed into 64 bits. *)
Lemma cpusettoull_mask addr mask sz w :
  0 <= mask < 2 ^ w -> 0 <= w <= 8 * sz -> cpusettoull (mk_set addr mask) sz = u64 mask.
Proof.
  intros Hm Hw. apply Z.bits_inj'. intros n Hn. rewrite cpusettoull_bits by done. unfold wrap_u.
  destruct (Z.ltb_spec n 64); [|by rewrite Z.mod_pow2_bits_high by lia].
  rewrite Z.mod_pow2_bits_low by lia. unfold CPU_ISSET_S. cbn [cs_bits andb].
  destruct (Z.testbit mask n) eqn:E; [|apply andb_false_r]. rewrite andb_true_r. apply Z.ltb_lt.
  apply Z.div_lt_upper_bound; [lia|]. apply Z.nle_gt. intros ?.
  by rewrite (testbit_high mask w) in E by lia.
Qed.

(** [find] on an interval finds the least element. *)
Lemma find_seqZ (p : Z -> bool) (k : nat) :
  match find p (seqZ 0 (Z.of_nat k)) with
  | Some i => 0 <= i < Z.of_nat k /\ p i = true /\ forall j, 0 <= j < i -> p j = false
  | None => forall j, 0 <= j < Z.of_nat k -> p j = false
  end.
Proof.
  induction k as [|k IH]; [change (seqZ 0 (Z.of_nat 0)) with (@nil Z); cbn [find]; intros; lia|].
  assert (forall l1 l2 : list Z, find p (l1 ++ l2) =
    match find p l1 with Some x => Some x | None => find p l2 end) as find_app.
  { intros l1 l2. induction l1 as [|x l1 IH1]; [done|]. cbn. by destruct (p x). }
  rewrite seqZ_snoc, find_app. destruct (find p (seqZ 0 (Z.of_nat k))) as [i|].
  { destruct IH as (Hi & Hp & Hl). split; [lia|done]. }
  cbn [find]. destruct (p (Z.of_nat k)) eqn:E; [split; [lia|done]|].
  intros j Hj. destruct (Z.eq_dec j (Z.of_nat k)) as [->|]; [done|]. apply IH. lia.
Qed.

(** [first_set] is the least CPU below [n] in the set, or -1. *)
Lemma first_set_spec n sz bits :
  let i := first_set n sz bits in
  (0 <= i < n /\ CPU_ISSET_S i sz bits = true /\ forall j, 0 <= j < i -> CPU_ISSET_S j sz bits = false)
  \/ (i = -1 /\ forall j, 0 <= j < n -> CPU_ISSET_S j sz bits = false).
Proof.
  cbn zeta. unfold first_set. destruct (Z.le_gt_cases n 0) as [Hn|Hn].
  { rewrite seqZ_nil by done. right. split; [done|intros; lia]. }
  pose proof (find_seqZ (fun i => CPU_ISSET_S i sz bits) (Z.to_nat n)) as Hf.
  rewrite Z2Nat.id in Hf by lia. destruct (find _ _); [by left|by right].
Qed.

(** [first] is the least of the first [online] CPUs in a mask, or -1. *)
Definition first_cpu_of (mask online first : Z) : Prop :=
  (0 <= first < online /\ Z.testbit mask first = true /\
    forall j, 0 <= j < first -> Z.testbit mask j = false)
  \/ (first = -1 /\ forall j, 0 <= j < online -> Z.testbit mask j = false).

Section clients.
Context {K : Kernel}.

(** The body [domain_to_cpus] and [cpu_to_domains] share. *)
Definition mask_query (which : string) (idx : Z) : M (Z * option Z) :=
  online ← num_online_cpus;
  if 8 * 8 <? u64 online then mret (-1, None)
  else
    '(ret, bits, sz) ← read_mapping idx which;
    if ret =? 0 then
      let mask := cpusettoull bits sz in
      CPU_FREE bits;;
      mret (ret, Some mask)
    else mret (ret, None).

Lemma mask_query_ok `{!Allocates K} online `{!Online K online} which idx m w0 ws w :
  0 <= online <= 64 -> Serves K (mapping_file which idx) (mask_text m w0 ws) ->
  wf_mask m w0 ws -> (length ws <= 127)%nat ->
  exists w', mask_query which idx w = (Val (0, Some (u64 (mask_value w0 ws))), w') /\
    live (tr w') = live (tr w).
Proof.
  intros Hon SV Hwf Hws. unfold mask_query.
  rewrite (bind_online online) by (done || (unfold INT_MIN, INT_MAX; lia)).
  rewrite wrap_u_small, (proj2 (Z.ltb_ge (8 * 8) online)) by lia. set (w1 := after _ _ w).
  destruct (read_mapping_run online ltac:(lia) which idx m w0 ws w1 SV Hwf Hws)
    as (addr & sz & w2 & Hrun & Ha & _ & Hsz & Hl & Haff).
  rewrite (bind_val _ _ _ _ _ Hrun). cbn [Z.eqb]. cbn zeta. rewrite bind_CPU_FREE. cbn [cs_addr].
  rewrite (cpusettoull_mask addr _ _ _ (mask_value_range m w0 ws Hwf)) by lia.
  eexists. split; [done|]. rewrite tr_after. erewrite live_free; [|done|done].
  unfold w1. by rewrite tr_after.
Qed.

(** On a machine with at most 64 CPUs, [domain_to_cpus] and
    [cpu_to_domains] return 0 and the low 64 bits of the mask of their file,
    and free the set they parsed. *)
Theorem masks_ok online dom cpu m w0 ws m' w0' ws' w :
  Allocates K -> Online K online -> 0 <= online <= 64 ->
  Serves K (mapping_file "domains" dom) (mask_text m w0 ws) ->
  wf_mask m w0 ws -> (length ws <= 127)%nat ->
  Serves K (mapping_file "cpus" cpu) (mask_text m' w0' ws') ->
  wf_mask m' w0' ws' -> (length ws' <= 127)%nat ->
  (exists w', domain_to_cpus dom w = (Val (0, Some (u64 (mask_value w0 ws))), w') /\
     live (tr w') = live (tr w)) /\
  (exists w', cpu_to_domains cpu w = (Val (0, Some (u64 (mask_value w0' ws'))), w') /\
     live (tr w') = live (tr w)).
Proof.
  intros AL ON Hon SV Hwf Hws SV' Hwf' Hws'.
  split; by eapply (mask_query_ok online).
Qed.

Lemma domain_to_first_cpu_run online dom m w0 ws w :
  Allocates K -> Online K online -> 0 <= online <= 4096 ->
  Serves K (mapping_file "domains" dom) (mask_text m w0 ws) ->
  wf_mask m w0 ws -> (length ws <= 127)%nat ->
  exists first w', domain_to_first_cpu dom w = (Val first, w') /\
    live (tr w') = live (tr w) /\
    first_cpu_of (mask_value w0 ws) online first.
Proof.
  intros AL ON Hon SV Hwf Hws. unfold domain_to_first_cpu.
  destruct (read_mapping_run online Hon "domains" dom m w0 ws w SV Hwf Hws)
    as (addr & sz & w2 & Hrun & Ha & _ & Hsz & Hl & Haff).
  rewrite (bind_val _ _ _ _ _ Hrun). cbn [Z.eqb negb].
  rewrite (bind_online online) by (done || (unfold INT_MIN, INT_MAX; lia)).
  cbn zeta. rewrite bind_CPU_FREE. cbn [cs_addr cs_bits].
  eexists _, _. split; [done|]. split.
  { rewrite tr_after. eapply live_free; [done|]. by rewrite tr_after. }
  assert (forall i, 0 <= i -> CPU_ISSET_S i sz (mask_value w0 ws) = Z.testbit (mask_value w0 ws) i) as Hin.
  { intros i Hi. unfold CPU_ISSET_S. destruct (Z.testbit _ i) eqn:E; [|apply andb_false_r].
    rewrite andb_true_r. apply Z.ltb_lt. apply Z.div_lt_upper_bound; [lia|]. apply Z.nle_gt. intros ?.
    by rewrite (testbit_high _ _ _ (mask_value_range m w0 ws Hwf)) in E by lia. }
  destruct (first_set_spec online sz (mask_value w0 ws)) as [(Hi & Hs & Hl')|[-> Hl']].
  - left. rewrite Hin in Hs by lia. split_and!; [lia..|done|].
    intros j Hj. rewrite <- Hin by lia. by apply Hl'.
  - right. split; [done|]. intros j Hj. rewrite <- Hin by lia. by apply Hl'.
Qed.

(** [domain_to_first_cpu] is the least online CPU of the domain's mask,
    or -1 when none of the online CPUs is in it. *)
Theorem domain_to_first_cpu_ok online dom m w0 ws w :
  Allocates K -> Online K online -> 0 <= online <= 4096 ->
  Serves K (mapping_file "domains" dom) (mask_text m w0 ws) ->
  wf_mask m w0 ws -> (length ws <= 127)%nat ->
  exists first w', domain_to_first_cpu dom w = (Val first, w') /\
    live (tr w') = live (tr w) /\
    first_cpu_of (mask_value w0 ws) online first.
Proof. apply domain_to_first_cpu_run. Qed.

(** The thread a migration applies to: the caller for 0. *)
Definition is_target (tid tid' : Z) : Prop :=
  if tid =? 0 then exists t, tid' = s32 (ret_of (kernel t NR_gettid)) else tid' = tid.

Lemma target_tid_run tid w :
  exists tid' w', (if tid =? 0 then gettid else mret tid) w = (Val tid', w') /\
    is_target tid tid' /\ live (tr w') = live (tr w) /\ affinities (tr w') = affinities (tr w).
Proof.
  unfold is_target. zcase; [|by exists tid, w]. eexists _, _. split; [done|].
  rewrite tr_after. split_and!; [by eexists|done..].
Qed.

Lemma be_migrate_thread_to_domain_run online tid dom m w0 ws w :
  Allocates K -> Online K online -> 0 <= online <= 4096 ->
  Serves K (mapping_file "domains" dom) (mask_text m w0 ws) ->
  wf_mask m w0 ws -> (length ws <= 127)%nat ->
  exists tid' sz r w',
    be_migrate_thread_to_domain tid dom w = (Val (ret_of r), w') /\ is_target tid tid' /\
    affinities (tr w') = (tid', sz, mask_value w0 ws, r) :: affinities (tr w) /\
    mask_value w0 ws < 2 ^ (8 * sz) /\ live (tr w') = live (tr w) /\
    answered (Sched_setaffinity tid' sz (mask_value w0 ws)) r.
Proof.
  intros AL ON Hon SV Hwf Hws. unfold be_migrate_thread_to_domain.
  destruct (read_mapping_run online Hon "domains" dom m w0 ws w SV Hwf Hws)
    as (addr & sz & w2 & Hrun & Ha & _ & Hsz & Hl & Haff).
  rewrite (bind_val _ _ _ _ _ Hrun). cbn [Z.eqb negb].
  destruct (target_tid_run tid w2) as (tid' & w3 & Ht3 & Ht & Hl3 & Haff3).
  rewrite (bind_val _ _ _ _ _ Ht3), bind_syscall, bind_CPU_FREE. cbn [cs_addr cs_bits]. set (r := kernel (tr w3) _).
  eexists tid', sz, r, _. split; [done|]. split; [done|]. rewrite !tr_after. split_and!.
  - by rewrite affinities_free, affinities_set, Haff3, Haff.
  - eapply Z.lt_le_trans; [by apply mask_value_range|]. apply Z.pow_le_mono_r; lia.
  - eapply live_free; [done|]. cbn [live]. by rewrite Hl3, Hl.
  - by exists (tr w3).
Qed.

(** C22: [be_migrate_thread_to_domain] passes the mask of the domain's file
    to one [sched_setaffinity] for the thread (the caller for 0), returns its
    result and frees the set. *)
Theorem be_migrate_thread_to_domain_ok online tid dom m w0 ws w :
  Allocates K -> Online K online -> 0 <= online <= 4096 ->
  Serves K (mapping_file "domains" dom) (mask_text m w0 ws) ->
  wf_mask m w0 ws -> (length ws <= 127)%nat ->
  exists tid' sz r w',
    be_migrate_thread_to_domain tid dom w = (Val (ret_of r), w') /\ is_target tid tid' /\
    affinities (tr w') = (tid', sz, mask_value w0 ws, r) :: affinities (tr w) /\
    mask_value w0 ws < 2 ^ (8 * sz) /\ live (tr w') = live (tr w).
Proof.
  intros. destruct (be_migrate_thread_to_domain_run online tid dom m w0 ws w)
    as (tid' & sz & r & w' & ? & ? & ? & ? & ? & _); [done..|]. by exists tid', sz, r, w'.
Qed.

(** The run of [be_migrate_thread_to_cpu], with the request that was answered. *)
Lemma be_migrate_thread_to_cpu_run online tid target w :
  Allocates K -> Online K online -> -1 <= online <= INT_MAX ->
  exists ret w', be_migrate_thread_to_cpu tid target w = (Val ret, w') /\
    live (tr w') = live (tr w) /\
    if (0 <=? target) && (target <? online) then
      exists tid' sz r, answered (Sched_setaffinity tid' sz (2 ^ target)) r /\ is_target tid tid' /\
        ret = ret_of r /\ online <= 8 * sz /\ affinities (tr w') = (tid', sz, 2 ^ target, r) :: affinities (tr w)
    else ret = -1 /\ affinities (tr w') = affinities (tr w).
Proof.
  intros AL ON Hon. unfold be_migrate_thread_to_cpu.
  destruct (Z.ltb_spec target 0) as [Hneg|Hpos].
  { rewrite (proj2 (Z.leb_gt 0 target)) by done. by exists (-1), w. }
  rewrite (proj2 (Z.leb_le 0 target)) by done. cbn [andb].
  rewrite (bind_online online) by (done || (unfold INT_MIN in *; lia)). set (w1 := after _ _ w).
  destruct (Z.eqb_spec online (-1)) as [->|Hne].
  { rewrite (proj2 (Z.ltb_ge target (-1))) by lia. exists (-1), w1. unfold w1. by rewrite tr_after. }
  destruct (Z.leb_spec online target) as [Hge|Hlt].
  { rewrite (proj2 (Z.ltb_ge target online)) by lia. exists (-1), w1. unfold w1. by rewrite tr_after. }
  rewrite (proj2 (Z.ltb_lt target online)) by lia.
  pose proof (CPU_ALLOC_SIZE_ge online) as Hsz.
  destruct (allocates (tr w1) (CPU_ALLOC_SIZE online)) as (a & Ea & Ha).
  rewrite (bind_CPU_ALLOC _ _ _ _ Ea), bind_CPU_ZERO_S by (done || by rewrite block_malloc). cbn zeta.
  set (sz := CPU_ALLOC_SIZE online) in *. set (w2 := after _ _ w1).
  destruct (target_tid_run tid w2) as (tid' & w3 & Ht3 & Ht & Hl3 & Haff3).
  rewrite (bind_val _ _ _ _ _ Ht3), bind_syscall, bind_CPU_FREE. cbn [cs_addr cs_bits]. set (r := kernel (tr w3) _).
  eexists (ret_of r), _. split; [done|]. rewrite !tr_after. split.
  - eapply live_free; [done|]. cbn [live]. rewrite Hl3. unfold w2, w1. rewrite !tr_after. cbn [live].
    by rewrite (proj2 (Z.eqb_neq _ _) Ha).
  - assert (CPU_SET_S target sz 0 = 2 ^ target) as E.
    { unfold CPU_SET_S, Z.setbit. rewrite Z.lor_0_l, Z.shiftl_1_l.
      rewrite (proj2 (Z.ltb_lt _ _)); [done|]. apply Z.div_lt_upper_bound; lia. }
    exists tid', sz, r. split_and!; [exists (tr w3); unfold r; by rewrite E|done..|].
    rewrite affinities_free, affinities_set, Haff3, E. unfold w2, w1. by rewrite !tr_after.
Qed.

(** C21: [be_migrate_thread_to_cpu] refuses a CPU that is not online (or an
    unknown number of CPUs) with -1 and touches no affinity; otherwise it
    sets the affinity of the thread to exactly that CPU, returns the result
    of the call and frees the set. *)
Theorem be_migrate_thread_to_cpu_ok online tid target w :
  Allocates K -> Online K online -> -1 <= online <= INT_MAX ->
  exists ret w', be_migrate_thread_to_cpu tid target w = (Val ret, w') /\
    live (tr w') = live (tr w) /\
    if (0 <=? target) && (target <? online) then
      exists tid' sz r, is_target tid tid' /\ ret = ret_of r /\ online <= 8 * sz /\
        affinities (tr w') = (tid', sz, 2 ^ target, r) :: affinities (tr w)
    else ret = -1 /\ affinities (tr w') = affinities (tr w).
Proof.
  intros AL ON Hon. destruct (be_migrate_thread_to_cpu_run online tid target w AL ON Hon)
    as (ret & w' & Hrun & Hl & Hcase). exists ret, w'. split; [done|]. split; [done|].
  destruct ((0 <=? target) && (target <? online)); [|done].
  destruct Hcase as (tid' & sz & r & _ & ? & ? & ? & ?). by exists tid', sz, r.
Qed.

(** An empty mapping file is taken for success: [read_mapping] returns 0
    without a set, so the masks are 0, and a migration passes the null set
    of size 0 to [sched_setaffinity]. *)
Theorem empty_mapping_succeeds online dom w :
  Online K online -> 0 <= online <= 64 -> Serves K (mapping_file "domains" dom) [] ->
  (exists w', domain_to_cpus dom w = (Val (0, Some 0), w')) /\
  (exists w', domain_to_first_cpu dom w = (Val (-1), w')) /\
  (exists tid r w', be_migrate_to_domain dom w = (Val (ret_of r), w') /\
     affinities (tr w') = (tid, 0, 0, r) :: affinities (tr w)).
Proof.
  intros ON Hon SV.
  assert (forall w, exists w', read_mapping dom "domains" w = (Val (0, null_set, 0), w') /\
    affinities (tr w') = affinities (tr w)) as Hmap.
  { intros w1. unfold read_mapping.
    rewrite (bind_online online) by (done || (unfold INT_MIN, INT_MAX; lia)).
    rewrite (proj2 (Z.ltb_ge 4096 online)) by lia.
    destruct (read_file_serves (mapping_file "domains" dom) [] (BUF_SIZE - 1)
      (after (Sysconf SC_NPROCESSORS_ONLN) (Succ online) w1)) as (w2 & Hrun & _); [done|].
    pose proof (read_file_affinities _ _ _ _ _ Hrun) as Ha2.
    rewrite take_nil in Hrun. rewrite (bind_val _ _ _ _ _ Hrun). exists w2. by split. }
  unfold domain_to_cpus, domain_to_first_cpu, be_migrate_to_domain, be_migrate_thread_to_domain.
  split; [|split].
  - rewrite (bind_online online) by (done || (unfold INT_MIN, INT_MAX; lia)).
    rewrite wrap_u_small, (proj2 (Z.ltb_ge (8 * 8) online)) by lia.
    destruct (Hmap (after (Sysconf SC_NPROCESSORS_ONLN) (Succ online) w)) as (w' & Hrun & _).
    rewrite (bind_val _ _ _ _ _ Hrun). by eexists.
  - destruct (Hmap w) as (w' & Hrun & _). rewrite (bind_val _ _ _ _ _ Hrun). cbn [Z.eqb negb].
    rewrite (bind_online online) by (done || (unfold INT_MIN, INT_MAX; lia)).
    cbn zeta. rewrite bind_CPU_FREE. eexists.
    destruct (first_set_spec online 0 (cs_bits null_set)) as [(Hi & Hs & _)|[-> _]]; [|done].
    unfold CPU_ISSET_S in Hs. cbn [cs_bits null_set] in Hs. rewrite Z.bits_0, andb_false_r in Hs. done.
  - destruct (Hmap w) as (w' & Hrun & Haff). rewrite (bind_val _ _ _ _ _ Hrun). cbn [Z.eqb negb].
    destruct (target_tid_run 0 w') as (tid' & w3 & Ht3 & _ & _ & Haff3).
    rewrite (bind_val _ _ _ _ _ Ht3), bind_syscall, bind_CPU_FREE. eexists tid', _, _. split; [done|].
    by rewrite !tr_after, affinities_free, affinities_set, Haff3, Haff.
Qed.
End clients.

Section more_clients.
Context {K : Kernel}.

Lemma returns_CPU_FREE {A} set (a : A) l (w' : world) :
  live (tr w') = add_live (cs_addr set) l ->
  returns (CPU_FREE set;; mret a) w' (fun _ w'' => live (tr w'') = l).
Proof. intros Hl. unfold returns. rewrite bind_CPU_FREE. cbn. rewrite tr_after. by apply live_free_added. Qed.

(** The live heap blocks after the call are those before it. *)
Definition kept {A} (w : world) (_ : A) (w' : world) : Prop := live (tr w') = live (tr w).

(** C19: whatever the kernel answers and the files hold (with bounded
    reads), every function of this file that allocates a CPU set ends, and
    frees the set on each path on which it returns. *)
Theorem no_leaks dom cpu tid target w :
  ReadLaw K ->
  returns (domain_to_cpus dom) w (kept w) /\ returns (cpu_to_domains cpu) w (kept w) /\
  returns (domain_to_first_cpu dom) w (kept w) /\
  returns (be_migrate_thread_to_domain tid dom) w (kept w) /\
  returns (be_migrate_thread_to_cpu tid target) w (kept w).
Proof.
  intros RL.
  assert (forall which idx, returns (mask_query which idx) w (kept w)) as Hq.
  { intros which idx. unfold mask_query, num_online_cpus. unfold returns at 1. mrun.
    zcase; [cbv beta iota zeta delta [mret M_ret kept]; by rewrite tr_after|]. apply returns_bind.
    eapply returns_mono; [|by apply read_mapping_returns].
    intros [[ret set] sz] w' (_ & _ & Hret & _ & Hl). rewrite tr_after in Hl. cbn [live] in Hl.
    destruct Hret as [->|(-> & -> & ->)]; cbn [Z.eqb]; [|done].
    by apply returns_CPU_FREE. }
  split; [apply Hq|]. split; [apply Hq|]. split; [|split].
  - apply returns_bind. eapply returns_mono; [|by apply read_mapping_returns].
    intros [[ret set] sz] w' (_ & _ & Hret & _ & Hl).
    destruct Hret as [->|(-> & -> & ->)]; cbn [Z.eqb negb]; [|done].
    unfold num_online_cpus, returns. mrun. cbn zeta. rewrite bind_CPU_FREE. cbv beta iota zeta delta [mret M_ret kept].
    rewrite !tr_after. apply live_free_added. by cbn [live].
  - apply returns_bind. eapply returns_mono; [|by apply read_mapping_returns].
    intros [[ret set] sz] w' (_ & _ & Hret & _ & Hl).
    destruct Hret as [->|(-> & -> & ->)]; cbn [Z.eqb negb]; [|done].
    apply returns_bind. destruct (target_tid_run tid w') as (tid' & w3 & Ht3 & _ & Hl3 & _).
    unfold returns. rewrite Ht3, bind_syscall, bind_CPU_FREE. cbv beta iota zeta delta [mret M_ret kept]. rewrite !tr_after.
    apply live_free_added. cbn [live]. by rewrite Hl3.
  - unfold be_migrate_thread_to_cpu, num_online_cpus, returns. zcase; [done|]. mrun.
    set (n := s32 _). destruct (Z.eqb_spec n (-1)), (Z.leb_spec n target).
    1-3: cbv beta iota zeta delta [mret M_ret kept]; by rewrite tr_after.
    rewrite bind_CPU_ALLOC_any. cbn zeta. set (rm := kernel _ (Malloc _)). set (sz := CPU_ALLOC_SIZE n).
    match goal with |- context [(CPU_ZERO_S _ _ ≫= ?f) (after _ _ ?w1)] =>
      destruct (CPU_ZERO_S_malloc sz rm w1 f) as [(-> & _ & _)|(E & Hn)] end; cycle 1.
    + rewrite E. eexists sz, rm, _. by rewrite tr_after.
    + set (w2 := after _ rm _). destruct (target_tid_run tid w2) as (tid' & w3 & Ht3 & _ & Hl3 & _).
      rewrite (bind_val _ _ _ _ _ Ht3), bind_syscall, bind_CPU_FREE. cbv beta iota zeta delta [mret M_ret kept]. rewrite !tr_after.
      apply live_free_added. cbn [live]. rewrite Hl3. unfold w2. rewrite !tr_after.
      by rewrite live_malloc.
Qed.

(** [release_master] returns the CPU number printed in its file (six
    digits fit its buffer) and -1 for the text NO_CPU. *)
Theorem release_master_ok content w :
  Serves K "/proc/litmus/release_master" content ->
  (forall rest, content = bytes_of "NO_CPU" ++ rest ->
     exists w', release_master w = (Val (-1), w')) /\
  (forall n, 0 <= n < 1000000 -> content = dec dec_fuel n ++ bytes_of "
" -> exists w', release_master w = (Val n, w')).
Proof.
  intros SV. destruct (read_file_serves _ content (7 - 1) w) as (w' & Hrun & _); [done|].
  unfold release_master. rewrite (bind_val _ _ _ _ _ Hrun). change (Z.to_nat (7 - 1)) with 6%nat.
  rewrite overwrite_0. split.
  - intros rest ->. exists w'. done.
  - intros n Hn ->. pose proof (length_dec dec_fuel n 5 ltac:(cbn; lia)) as Hlen.
    destruct (dec_cons dec_fuel n) as (d & l & Hd & El); [lia|apply dec_fuel_pos|].
    exists w'. rewrite take_app_ge by lia. rewrite <- app_assoc.
    rewrite atoi_dec; [|unfold INT_MAX; lia|].
    2: { destruct (6 - length (dec dec_fuel n))%nat as [|k]; [|done]. cbn [take app].
         rewrite drop_replicate. by destruct (7 - _)%nat. }
    assert (strncmp_eq (dec dec_fuel n ++ take (6 - length (dec dec_fuel n)) (bytes_of "
") ++ drop (length (dec dec_fuel n ++ take (6 - length (dec dec_fuel n)) (bytes_of "
"))) (replicate 7 NUL)) (bytes_of "NO_CPU") 6 = false) as ->.
    { unfold strncmp_eq. apply bool_decide_eq_false. rewrite El. cbn [app cstr].
      destruct (digit_char_plain d ltac:(lia)) as (_ & Hnul & _).
      rewrite (proj2 (Ascii.eqb_neq _ _) Hnul). cbn [take Z.to_nat Pos.to_nat].
      intros [= Hc _]. pose proof (digit_digit_char 10 d Hd ltac:(lia)) as E. by rewrite Hc in E. }
    rewrite (proj2 (Z.ltb_lt _ _)); [done|]. rewrite El. cbn [app length]. lia.
Qed.
End more_clients.

(** ** Concrete runs *)

Module MigrationWitness.
Import Sim.

(** Domain 0 has CPUs 0 to 33, CPU 5 is in domain 0, the files are read five
    bytes at a time on a machine of 48 CPUs. *)
Definition k48 : Kernel :=
  sim [("/proc/litmus/domains/0", mask_text 1 3 [4294967295]);
       ("/proc/litmus/cpus/5", mask_text 8 1 []);
       ("/proc/litmus/domains/1", []);
       ("/proc/litmus/release_master", bytes_of "2
")] 5 48.

Lemma k48_domain : Serves k48 (mapping_file "domains" 0) (mask_text 1 3 [4294967295]).
Proof. apply sim_serves; [lia|by vm_compute]. Qed.
Lemma k48_cpus : Serves k48 (mapping_file "cpus" 5) (mask_text 8 1 []).
Proof. apply sim_serves; [lia|by vm_compute]. Qed.
Lemma k48_empty : Serves k48 (mapping_file "domains" 1) [].
Proof. apply sim_serves; [lia|by vm_compute]. Qed.
Lemma k48_master : Serves k48 "/proc/litmus/release_master" (dec dec_fuel 2 ++ bytes_of "
").
Proof. apply sim_serves; [lia|by vm_compute]. Qed.
Lemma wf_domain : wf_mask 1 3 [4294967295].
Proof. split; [lia|]. split; [lia|]. by repeat constructor. Qed.
Lemma wf_cpus : wf_mask 8 1 [].
Proof. split; [lia|]. split; [lia|]. by repeat constructor. Qed.

Lemma read_mapping_ok_witness :
  exists addr sz w', @read_mapping k48 0 "domains" w0 =
      (Val (0, mk_set addr 17179869183, sz), w') /\
    addr <> NULL /\ block_size addr (tr w') = sz /\ 36 <= 8 * sz /\ live (tr w') = [addr] /\ affinities (tr w') = [].
Proof.
  apply (@read_mapping_ok k48 (sim_allocates _ _ _) 48 (sim_online _ _ _) ltac:(lia)
    "domains" 0 1 3 [4294967295] w0 k48_domain wf_domain). cbn. lia.
Defined.

Lemma read_mapping_total_witness :
  returns (@read_mapping k48 7 "domains") w0 (mapping_result w0).
Proof. apply (@read_mapping_total k48 7 "domains" w0 (sim_read _ _ _)). Defined.

Lemma masks_ok_witness :
  (exists w', @domain_to_cpus k48 0 w0 = (Val (0, Some 17179869183), w') /\ live (tr w') = []) /\
  (exists w', @cpu_to_domains k48 5 w0 = (Val (0, Some 1), w') /\ live (tr w') = []).
Proof.
  apply (@masks_ok k48 48 0 5 1 3 [4294967295] 8 1 [] w0 (sim_allocates _ _ _) (sim_online _ _ _)
    ltac:(lia) k48_domain wf_domain ltac:(cbn; lia) k48_cpus wf_cpus). cbn. lia.
Defined.

Lemma domain_to_first_cpu_ok_witness :
  exists first w', @domain_to_first_cpu k48 0 w0 = (Val first, w') /\ live (tr w') = [] /\
    first_cpu_of 17179869183 48 first.
Proof.
  apply (@domain_to_first_cpu_ok k48 48 0 1 3 [4294967295] w0 (sim_allocates _ _ _)
    (sim_online _ _ _) ltac:(lia) k48_domain wf_domain). cbn. lia.
Defined.

Lemma be_migrate_thread_to_domain_ok_witness :
  exists tid' sz r w', @be_migrate_thread_to_domain k48 0 0 w0 = (Val (ret_of r), w') /\
    @is_target k48 0 tid' /\ affinities (tr w') = [(tid', sz, 17179869183, r)] /\
    17179869183 < 2 ^ (8 * sz) /\ live (tr w') = [].
Proof.
  apply (@be_migrate_thread_to_domain_ok k48 48 0 0 1 3 [4294967295] w0 (sim_allocates _ _ _)
    (sim_online _ _ _) ltac:(lia) k48_domain wf_domain). cbn. lia.
Defined.

Lemma be_migrate_thread_to_cpu_ok_witness :
  exists ret w', @be_migrate_thread_to_cpu k48 77 3 w0 = (Val ret, w') /\ live (tr w') = [] /\
    exists tid' sz r, @is_target k48 77 tid' /\ ret = ret_of r /\ 48 <= 8 * sz /\
      affinities (tr w') = [(tid', sz, 8, r)].
Proof.
  apply (@be_migrate_thread_to_cpu_ok k48 48 77 3 w0 (sim_allocates _ _ _) (sim_online _ _ _)).
  unfold INT_MAX. lia.
Defined.

Lemma empty_mapping_succeeds_witness :
  (exists w', @domain_to_cpus k48 1 w0 = (Val (0, Some 0), w')) /\
  (exists w', @domain_to_first_cpu k48 1 w0 = (Val (-1), w')) /\
  (exists tid r w', @be_migrate_to_domain k48 1 w0 = (Val (ret_of r), w') /\
     affinities (tr w') = [(tid, 0, 0, r)]).
Proof.
  apply (@empty_mapping_succeeds k48 48 1 w0 (sim_online _ _ _) ltac:(lia) k48_empty).
Defined.

Lemma no_leaks_witness :
  returns (@domain_to_cpus k48 0) w0 (kept w0) /\ returns (@cpu_to_domains k48 5) w0 (kept w0) /\
  returns (@domain_to_first_cpu k48 0) w0 (kept w0) /\
  returns (@be_migrate_thread_to_domain k48 0 0) w0 (kept w0) /\
  returns (@be_migrate_thread_to_cpu k48 0 3) w0 (kept w0).
Proof. apply (@no_leaks k48 0 5 0 3 w0 (sim_read _ _ _)). Defined.

Lemma release_master_ok_witness : exists w', @release_master k48 w0 = (Val 2, w').
Proof. apply (@release_master_ok k48 _ w0 k48_master) with (n := 2); [lia|done]. Defined.

(** The parser relies on the absence of a final newline: a full first word
    followed by one is shifted by a digit and read twice. *)
Example trailing_newline :
  chunk_loop 99 (bytes_of "ffffffff
" ++ [NUL]) (9 - 8) 0 8 0 = Some (Z.ones 28 + Z.shiftl (Z.ones 32) 32).
Proof. vm_compute. reflexivity. Qed.
End MigrationWitness.
