(* ===== verification/Mapping.v ===== *)
(** * A reference for [read_mapping] of src/migration.c

    The loops of [read_mapping] walk the text of a mask backwards and clear
    the bits of each chunk one by one.  The reference below says in one
    expression which set they compute, for any content of the file, and
    [read_mapping] is shown equivalent to it. *)
From S2P Require Import Prelude Machine CString Laws Iface Migration.

(** ** The reference *)

(** The text the [i]-th chunk from the end is parsed from: the last chunk is
    eight characters long, every other one is preceded by a separator; the
    first may be shorter. *)
Definition window (s : bytes) (i : nat) : bytes := drop (length s - 8 - 9 * i) s.

(** The chunks, put together. *)
Definition chunks (s : bytes) : Z :=
  foldr (fun i v => Z.lor (Z.shiftl (strtoul16 (window s i)) (32 * Z.of_nat i)) v) 0
    (seq 0 (S (length s / 9))).

(** The bytes of a set for the text, and its bits. *)
Definition mapping_size (s : bytes) : Z :=
  CPU_ALLOC_SIZE (32 * (Z.of_nat (length s) / 9) + 4 * (Z.of_nat (length s) mod 9)).
Definition mapping_bits (s : bytes) : Z := Z.land (chunks s) (Z.ones (8 * mapping_size s)).

(** The text [read_mapping] sees of a file. *)
Definition mapping_text (content : bytes) : bytes := cstr (take 1152 content).

(** ** The end of a C string *)

Lemma skip_space_cstr l : skip_space (cstr l) = cstr (skip_space l).
Proof.
  induction l as [|c l IH]; [done|]. cbn [cstr skip_space].
  destruct (Ascii.eqb_spec c NUL) as [->|Hc]; [done|]. cbn [skip_space].
  destruct (Ascii.is_space c); [done|]. cbn [cstr]. by rewrite (proj2 (Ascii.eqb_neq _ _) Hc).
Qed.

Lemma strip_sign_cstr l :
  strip_sign (cstr l) = (fst (strip_sign l), cstr (snd (strip_sign l))).
Proof.
  destruct l as [|c l]; [done|]. cbn [cstr]. destruct (Ascii.eqb_spec c NUL) as [->|Hc]; [done|].
  destruct c as [[] [] [] [] [] [] [] []]; try done; cbn [strip_sign fst snd cstr];
    rewrite ?(proj2 (Ascii.eqb_neq _ _) Hc); done.
Qed.

Lemma scan_digits_cstr base acc l :
  fst (scan_digits base acc (cstr l)) = fst (scan_digits base acc l).
Proof.
  revert acc. induction l as [|c l IH]; intros acc; [done|]. cbn [cstr].
  destruct (Ascii.eqb_spec c NUL) as [->|Hc]; [done|]. cbn [scan_digits]. by destruct (digit base c).
Qed.

Lemma cstr_cons c l : c <> NUL -> cstr (c :: l) = c :: cstr l.
Proof. intros Hc. cbn [cstr]. by rewrite (proj2 (Ascii.eqb_neq _ _) Hc). Qed.

Lemma strip_0x_plain c l : c <> "0"%char -> strip_0x (c :: l) = c :: l.
Proof. intros Hc. destruct c as [[] [] [] [] [] [] [] []]; done. Qed.

Lemma strip_0x_cstr l : strip_0x (cstr l) = cstr (strip_0x l).
Proof.
  destruct l as [|c l]; [done|]. destruct (Ascii.eqb_spec c "0"%char) as [->|Hc].
  2: { rewrite strip_0x_plain by done. cbn [cstr].
       destruct (Ascii.eqb c NUL); [done|by rewrite strip_0x_plain]. }
  destruct l as [|x l]; [done|]. destruct (Ascii.eqb_spec x NUL) as [->|Hx]; [by destruct l|].
  destruct l as [|d l]; [rewrite !cstr_cons by done; cbn [strip_0x]; by rewrite ?cstr_cons by done|].
  destruct (Ascii.eqb_spec d NUL) as [->|Hd].
  - rewrite (cstr_cons "0"%char), (cstr_cons x) by done. cbn [strip_0x]. rewrite andb_false_r.
    by rewrite (cstr_cons "0"%char), (cstr_cons x) by done.
  - rewrite !cstr_cons by done. cbn [strip_0x]. destruct (_ && _); cbn [drop];
      by rewrite !cstr_cons by done.
Qed.

(** [strtoul] stops at the end of the string. *)
Lemma strtoul16_cstr l : strtoul16 (cstr l) = strtoul16 l.
Proof.
  unfold strtoul16. rewrite skip_space_cstr, strip_sign_cstr.
  destruct (strip_sign (skip_space l)) as [neg l']. cbn [fst snd].
  by rewrite strip_0x_cstr, scan_digits_cstr.
Qed.

Lemma cstr_drop n l : (n <= length (cstr l))%nat -> cstr (drop n l) = drop n (cstr l).
Proof.
  revert l. induction n as [|n IH]; intros l Hn; [by rewrite !drop_0|].
  destruct l as [|c l]; [done|]. cbn [cstr] in *. destruct (Ascii.eqb c NUL); cbn [length] in Hn; [lia|].
  cbn [drop]. apply IH. lia.
Qed.

(** The buffer [read_mapping] fills holds the text and nothing else. *)
Lemma cstr_stop d r : cstr (d ++ NUL :: r) = cstr d.
Proof. induction d as [|c d IH]; [done|]. cbn [app cstr]. by rewrite IH. Qed.

Lemma cstr_buffer d :
  (length d <= 1152)%nat -> cstr (overwrite 0 d (replicate 1153 NUL)) = cstr d.
Proof.
  intros Hd. rewrite overwrite_0, drop_replicate.
  replace (1153 - length d)%nat with (S (1152 - length d)) by lia. apply cstr_stop.
Qed.

(** ** The loops *)

(** The chunk the loop reads at a given position. *)
Definition loop_chunk (buf : bytes) (len : Z) (i : nat) : Z :=
  strtoul16 (drop (Z.to_nat (len - 8 - 9 * Z.of_nat i)) buf).

(** From the [i]-th chunk on, the outer loop adds the bits of the remaining
    chunks that fit the set. *)
Lemma chunk_loop_bits buf len sz k : forall fuel i bits,
  0 <= len -> (k = Z.to_nat (len / 9) - i)%nat -> Z.of_nat i <= len / 9 -> (k < fuel)%nat ->
  exists bits', chunk_loop fuel buf (len - 8 - 9 * Z.of_nat i) (Z.of_nat i) sz bits = Some bits' /\
    forall n, 0 <= n -> Z.testbit bits' n = Z.testbit bits n ||
      ((n / 8 <? sz) && existsb (fun j => Z.testbit (loop_chunk buf len j) (n - 32 * Z.of_nat j)) (seq i (S k))).
Proof.
  pose proof (Z.div_mod len 9 ltac:(lia)) as Hdm. pose proof (Z.mod_pos_bound len 9 ltac:(lia)) as Hmod.
  induction k as [|k IH]; intros fuel i bits Hlen Hk Hi Hf; (destruct fuel as [|fuel]; [lia|]); cbn [chunk_loop].
  all: set (off := len - 8 - 9 * Z.of_nat i) in *.
  all: assert (Z.to_nat (if off <? 0 then 0 else off) = Z.to_nat off) as Hoff by (zcase; lia).
  all: rewrite Hoff; change (strtoul16 (drop (Z.to_nat off) buf)) with (loop_chunk buf len i).
  all: destruct (set_loop_bits 64 (loop_chunk buf len i) (Z.of_nat i) sz bits) as (bits1 & -> & Hbits);
    [apply strtoul16_range|lia|lia|intros; lia|].
  - rewrite (proj2 (Z.leb_gt _ _)) by (zcase; lia). exists bits1. split; [done|]. intros n Hn.
    rewrite Hbits by done. cbn [seq existsb]. by rewrite orb_false_r, (Z.mul_comm 32).
  - rewrite (proj2 (Z.leb_le _ _)) by (zcase; lia).
    replace ((if off <? 0 then 0 else off) - 9) with (len - 8 - 9 * Z.of_nat (S i)) by (zcase; lia).
    replace (Z.of_nat i + 1) with (Z.of_nat (S i)) by lia.
    destruct (IH fuel (S i) bits1) as (bits2 & -> & Hbits2); [lia..|].
    exists bits2. split; [done|]. intros n Hn. rewrite Hbits2, Hbits by done.
    change (seq i (S (S k))) with (i :: seq (S i) (S k)). cbn [existsb].
    by rewrite (Z.mul_comm 32 (Z.of_nat i)), andb_orb_distrib_r, orb_assoc.
Qed.

Lemma chunks_bits s n :
  0 <= n -> Z.testbit (chunks s) n =
    existsb (fun j => Z.testbit (strtoul16 (window s j)) (n - 32 * Z.of_nat j)) (seq 0 (S (length s / 9))).
Proof.
  intros Hn. unfold chunks. induction (seq 0 _) as [|j l IH]; cbn [foldr existsb]; [apply Z.bits_0|].
  by rewrite Z.lor_spec, IH, Z.shiftl_spec by done.
Qed.

Lemma ones_bits w n : 0 <= w -> 0 <= n -> Z.testbit (Z.ones w) n = (n <? w).
Proof. intros. rewrite Z.testbit_ones_nonneg by lia. done. Qed.

Lemma loop_chunk_window buf j :
  loop_chunk buf (Z.of_nat (length (cstr buf))) j = strtoul16 (window (cstr buf) j).
Proof.
  unfold loop_chunk, window. replace (Z.to_nat _) with (length (cstr buf) - 8 - 9 * j)%nat by lia.
  rewrite <- cstr_drop by lia. by rewrite strtoul16_cstr.
Qed.

(** The loops compute the reference. *)
Lemma chunk_loop_reference buf :
  let s := cstr buf in
  let len := Z.of_nat (length s) in
  chunk_loop (S (Z.to_nat len)) buf (len - 8) 0 (mapping_size s) 0 = Some (mapping_bits s).
Proof.
  cbn zeta. set (s := cstr buf). set (len := Z.of_nat (length s)).
  pose proof (Z.div_mod len 9 ltac:(lia)) as Hdm. pose proof (Z.mod_pos_bound len 9 ltac:(lia)) as Hmod.
  assert (0 <= mapping_size s) as Hsz by (apply CPU_ALLOC_SIZE_nonneg; fold len; lia).
  assert (Z.to_nat (len / 9) = length s / 9)%nat as Hd.
  { unfold len. rewrite <- (Nat2Z.id (length s / 9)). f_equal. rewrite Nat2Z.inj_div. done. }
  assert (forall j, loop_chunk buf len j = strtoul16 (window s j)) as HW by apply loop_chunk_window.
  destruct (chunk_loop_bits buf len (mapping_size s) (length s / 9) (S (Z.to_nat len)) 0 0)
    as (bits & Hrun & Hbits); [lia..|].
  change (Z.of_nat 0) with 0 in Hrun. rewrite Z.mul_0_r, Z.sub_0_r in Hrun. rewrite Hrun. f_equal.
  apply Z.bits_inj'. intros n Hn. rewrite Hbits, Z.bits_0 by done. cbn [orb].
  unfold mapping_bits. rewrite Z.land_spec, chunks_bits, ones_bits by lia. rewrite andb_comm. f_equal.
  - clear Hbits. induction (seq 0 _) as [|j l IH]; cbn [existsb]; [done|]. by rewrite HW, IH.
  - pose proof (Z.div_mod n 8 ltac:(lia)). pose proof (Z.mod_pos_bound n 8 ltac:(lia)).
    destruct (Z.ltb_spec (n / 8) (mapping_size s)), (Z.ltb_spec n (8 * mapping_size s)); lia.
Qed.

(** ** Equivalence *)

Section equivalence.
Context {K : Kernel} {AL : Allocates K} (online : Z) {ON : Online K online}.
Context (Honline : 0 <= online <= 4096).

(** C8: on any content of the mapping file, well-formed or not, and however
    the kernel cuts it into reads, [read_mapping] returns exactly the set of
    the reference, in a block of the reference's size; only an empty file is
    treated otherwise. *)
Theorem read_mapping_reference which idx content w :
  Serves K (mapping_file which idx) content -> content <> [] ->
  let s := mapping_text content in
  exists addr w', addr <> NULL /\
    read_mapping idx which w = (Val (0, mk_set addr (mapping_bits s), mapping_size s), w').
Proof using AL ON Honline.
  intros SV Hne. cbn zeta. unfold read_mapping.
  rewrite (bind_online online) by (done || (unfold INT_MIN, INT_MAX; lia)).
  set (w1 := after _ _ w). rewrite (proj2 (Z.ltb_ge 4096 online)) by lia.
  destruct (read_file_serves (mapping_file which idx) content (BUF_SIZE - 1) w1) as (w2 & Hrun & _); [done|].
  change (Z.to_nat (BUF_SIZE - 1)) with 1152%nat in Hrun. rewrite (bind_val _ _ _ _ _ Hrun).
  set (d := take 1152 content) in *.
  assert (length d <= 1152)%nat as Hd by (unfold d; rewrite length_take; lia).
  assert (0 < length d)%nat as Hd0.
  { unfold d. rewrite length_take. destruct content; [done|]. cbn [length]. lia. }
  rewrite (proj2 (Z.leb_gt _ _)) by lia. change (Z.to_nat BUF_SIZE) with 1153%nat. cbn zeta.
  set (buf := overwrite 0 d (replicate 1153 NUL)).
  assert (cstr buf = mapping_text content) as Hs by by apply cstr_buffer.
  assert (strnlen buf BUF_SIZE = Z.of_nat (length (mapping_text content))) as ->.
  { unfold strnlen. rewrite take_ge; [by rewrite Hs|]. change (Z.to_nat BUF_SIZE) with 1153%nat.
    unfold buf. rewrite length_overwrite; rewrite length_replicate; cbn; lia. }
  fold (mapping_size (mapping_text content)).
  destruct (allocates (tr w2) (mapping_size (mapping_text content))) as (a & Ea & Ha).
  rewrite (bind_CPU_ALLOC _ a) by exact Ea. rewrite bind_CPU_ZERO_S by (exact Ha || (apply Z.eq_le_incl; symmetry; apply block_malloc)).
  pose proof (chunk_loop_reference buf) as Hloop. cbn zeta in Hloop. rewrite Hs in Hloop. rewrite Hloop.
  by exists a, (after (Malloc (mapping_size (mapping_text content))) (Succ a) w2).
Qed.
End equivalence.

(** ** Concrete runs *)

Module MappingWitness.
Import Sim.

(** A mask with a digit too many in its last chunk. *)
Definition k_odd : Kernel := sim [("/proc/litmus/cpus/0", bytes_of "f,123456789")] 5 8.

Lemma k_odd_serves : Serves k_odd (mapping_file "cpus" 0) (bytes_of "f,123456789").
Proof. apply sim_serves; [lia|by vm_compute]. Qed.

Lemma read_mapping_reference_witness :
  let s := mapping_text (bytes_of "f,123456789") in
  exists addr w', addr <> NULL /\
    @read_mapping k_odd 0 "cpus" w0 = (Val (0, mk_set addr (mapping_bits s), mapping_size s), w').
Proof.
  apply (@read_mapping_reference k_odd (sim_allocates _ _ _) 8 (sim_online _ _ _) ltac:(lia) "cpus" 0
    (bytes_of "f,123456789") w0 k_odd_serves). done.
Defined.

(** The reference on a well-formed text, and on one that ends with a line
    break: every chunk of eight digits then loses its first one. *)
Example mapping_plain : mapping_bits (bytes_of "3,80000001") = 0x380000001.
Proof. vm_compute. reflexivity. Qed.
Example mapping_newline : mapping_bits (bytes_of "3,80000001
") = 0x300000001.
Proof. vm_compute. reflexivity. Qed.
End MappingWitness.
