(* ===== verification/Litmus.v ===== *)
(** * src/litmus.c, src/task.c and the inline functions of include/litmus.h

    Locking protocols, task parameters, the convenience set-up functions,
    initialisation and the task mode state machine. *)
From S2P Require Import Prelude Machine CString Laws Iface Syscalls Migration.

(** ** Locking protocols *)

Inductive obj_type_t :=
  | FMLP_SEM | SRP_SEM | MPCP_SEM | MPCP_VS_SEM | DPCP_SEM | PCP_SEM | DFLP_SEM.

Definition obj_id (t : obj_type_t) : Z :=
  match t with
  | FMLP_SEM => 0 | SRP_SEM => 1 | MPCP_SEM => 2 | MPCP_VS_SEM => 3
  | DPCP_SEM => 4 | PCP_SEM => 5 | DFLP_SEM => 6
  end.

#[export] Instance obj_type_eq_dec : EqDecision obj_type_t.
Proof. solve_decision. Defined.

(** The table [protocol]; LP(name) pairs name_SEM with its spelling. *)
Definition protocol : list (Z * string) :=
  [(obj_id FMLP_SEM, "FMLP"); (obj_id SRP_SEM, "SRP"); (obj_id MPCP_SEM, "MPCP");
   (obj_id MPCP_VS_SEM, "MPCP_VS"); (obj_id MPCP_VS_SEM, "MPCP-VS");
   (obj_id DPCP_SEM, "DPCP"); (obj_id PCP_SEM, "PCP"); (obj_id DFLP_SEM, "DFLP")].

Definition lock_protocol_for_name (name : string) : Z :=
  match find (fun p => strcmp_eq name (snd p)) protocol with
  | Some p => fst p
  | None => -1
  end.

Definition name_for_lock_protocol (id : Z) : string :=
  match find (fun p => fst p =? id) protocol with
  | Some p => snd p
  | None => "<UNKNOWN>"
  end.

(** ** Time units: the macros of litmus.h on [long long] *)

Definition s2ns (s : Z) : Z := s * 1000000000.
Definition s2us (s : Z) : Z := s * 1000000.
Definition s2ms (s : Z) : Z := s * 1000.
Definition ms2ns (ms : Z) : Z := ms * 1000000.
Definition ms2us (ms : Z) : Z := ms * 1000.
Definition us2ns (us : Z) : Z := us * 1000.

(** ** Task modes *)

Definition SCHED_LITMUS : Z := 7.
Definition SCHED_NORMAL : Z := 0.
Definition BACKGROUND_TASK : Z := 0.
Definition LITMUS_RT_TASK : Z := 1.
Definition EINVAL : Z := 22.
Definition MCL_CURRENT : Z := 1.
Definition MCL_FUTURE : Z := 2.

Section params.
Context {H : KernelHeader}.

Definition zero_rt_task : rt_task := mk_rt_task 0 0 0 0 0 0 0 0 0.

(** The contents of [*tp] after the call: memset and four fields. *)
Definition init_rt_task_param : rt_task :=
  let tp := zero_rt_task in
  mk_rt_task (exec_cost tp) (period tp) (relative_deadline tp) (phase tp) (cpu tp)
    LITMUS_LOWEST_PRIORITY RT_CLASS_SOFT NO_ENFORCEMENT TASK_SPORADIC.

Definition with_cost (tp : rt_task) (e_ns p_ns : Z) : rt_task :=
  mk_rt_task e_ns p_ns (relative_deadline tp) (phase tp) (cpu tp) (priority tp) (cls tp)
    (budget_policy tp) (release_policy tp).
(** [tp->cpu] is unsigned. *)
Definition with_cpu (tp : rt_task) (c : Z) : rt_task :=
  mk_rt_task (exec_cost tp) (period tp) (relative_deadline tp) (phase tp) (u32 c) (priority tp)
    (cls tp) (budget_policy tp) (release_policy tp).

(** The -1 of the last branch is converted to the enumeration type and
    compared with -1 by the callers. *)
Definition str2class (str : string) : Z :=
  if strcmp_eq str "hrt" then RT_CLASS_HARD
  else if strcmp_eq str "srt" then RT_CLASS_SOFT
  else if strcmp_eq str "be" then RT_CLASS_BEST_EFFORT
  else -1.
End params.

Section litmus.
Context {K : Kernel} {H : KernelHeader}.

(** The macro [check] of internal.h, on the variable [ret]. *)
Definition check (ret : Z) (str : string) : M unit :=
  when (ret =? -1)
    (perror str;;
     eprintf "Warning: Could not initialize LITMUS^RT, %s failed.\n" [AStr str]).

Definition litmus_open_lock (protocol lock_id : Z) (namespace : string)
    (config_param : option Z) : M Z :=
  fd ← syscall (Open namespace (Z.lor O_RDWR O_CREAT) (Z.lor S_IRUSR S_IWUSR));
  if fd <? 0 then mret (-1)
  else
    od ← od_openx fd protocol lock_id config_param;
    syscall (Close fd);;
    mret od.

Definition od_open (fd type obj_id : Z) : M Z := od_openx fd type obj_id None.
Definition open_fmlp_sem (fd name : Z) : M Z := od_open fd (obj_id FMLP_SEM) name.
Definition open_srp_sem (fd name : Z) : M Z := od_open fd (obj_id SRP_SEM) name.
Definition open_pcp_sem (fd name cpu : Z) : M Z := od_openx fd (obj_id PCP_SEM) name (Some cpu).
Definition open_mpcp_sem (fd name : Z) : M Z := od_open fd (obj_id MPCP_SEM) name.
Definition open_dpcp_sem (fd name cpu : Z) : M Z := od_openx fd (obj_id DPCP_SEM) name (Some cpu).
Definition open_dflp_sem (fd name cpu : Z) : M Z := od_openx fd (obj_id DFLP_SEM) name (Some cpu).

Definition show_rt_param (tp : rt_task) : M unit :=
  printf "rt params:\n\texec_cost:\t%llu\n\tperiod:\t\t%llu\n\tcpu:\t%d\n"
    [AInt (exec_cost tp); AInt (period tp); AInt (cpu tp)].

Definition sporadic_global (e_ns p_ns : Z) : M Z :=
  let param := with_cost init_rt_task_param e_ns p_ns in
  tid ← gettid;
  set_rt_task_param tid (Some param).

Definition sporadic_partitioned (e_ns p_ns partition : Z) : M Z :=
  ret ← be_migrate_to_domain partition;
  check ret "be_migrate_to_domain()";;
  if negb (ret =? 0) then mret ret
  else
    let param := with_cost init_rt_task_param e_ns p_ns in
    first ← domain_to_first_cpu partition;
    let param := with_cpu param first in
    tid ← gettid;
    set_rt_task_param tid (Some param).

Definition sporadic_clustered (e_ns p_ns cluster : Z) : M Z :=
  ret ← be_migrate_to_domain cluster;
  check ret "be_migrate_to_cluster()";;
  if negb (ret =? 0) then mret ret
  else
    let param := with_cost init_rt_task_param e_ns p_ns in
    first ← domain_to_first_cpu cluster;
    let param := with_cpu param first in
    tid ← gettid;
    set_rt_task_param tid (Some param).

Definition init_rt_thread : M Z :=
  ret ← init_kernel_iface;
  check ret "kernel <-> user space interface initialization";;
  mret ret.

Definition init_litmus : M Z :=
  ret ← syscall (Mlockall (Z.lor MCL_CURRENT MCL_FUTURE));
  check ret "mlockall()";;
  ret2 ← init_rt_thread;
  mret (if (ret =? 0) && (ret2 =? 0) then 0 else -1).

Definition exit_litmus : M unit := mret tt.

(** src/task.c; both uses of the parameter block have priority 0. *)
Definition task_mode (mode : Z) : M Z :=
  me ← gettid;
  tid ← gettid;
  policy ← sched_getscheduler tid;
  let old_mode := if policy =? SCHED_LITMUS then LITMUS_RT_TASK else BACKGROUND_TASK in
  if (old_mode =? LITMUS_RT_TASK) && (mode =? BACKGROUND_TASK) then
    sched_setscheduler me SCHED_NORMAL 0
  else if (old_mode =? BACKGROUND_TASK) && (mode =? LITMUS_RT_TASK) then
    sched_setscheduler me SCHED_LITMUS 0
  else
    modify (put_errno (- EINVAL));;
    mret (-1).
End litmus.

(** ** What migration leaves alone *)

(** [F] does not see how CPU sets are read and released. *)
Class SetsQuiet {X} (F : trace -> X) : Prop := {
  sets_file :: FileQuiet F;
  quiet_sysconf n : quiet F (Sysconf n);
  quiet_malloc n : quiet F (Malloc n);
  quiet_free a : quiet F (Free a);
}.

#[export] Instance affinities_quiet : SetsQuiet affinities.
Proof. by repeat split. Qed.

#[export] Instance params_quiet : SetsQuiet params.
Proof. by repeat split. Qed.

Section sets_quiet.
Context {K : Kernel} {X : Type} (F : trace -> X) `{!SetsQuiet F}.

Lemma keeps_read_mapping idx which : keeps F (read_mapping idx which).
Proof using All.
  unfold read_mapping, num_online_cpus, CPU_ALLOC, CPU_ZERO_S. repeat keeps_step.
  all: try (apply keeps_read_file, _); eauto using keeps_syscall, keeps_sys, quiet_sysconf, quiet_malloc.
Qed.

Lemma keeps_domain_to_first_cpu dom : keeps F (domain_to_first_cpu dom).
Proof using All.
  unfold domain_to_first_cpu, num_online_cpus, CPU_FREE. repeat keeps_step.
  all: eauto using keeps_syscall, quiet_sysconf, quiet_free, keeps_read_mapping.
Qed.
End sets_quiet.

Lemma keeps_be_migrate {K : Kernel} tid dom : keeps params (be_migrate_thread_to_domain tid dom).
Proof.
  unfold be_migrate_thread_to_domain, CPU_FREE, gettid, syscall_int.
  keeps_tac; by apply keeps_read_mapping.
Qed.

(** The policies set, newest first. *)
Definition policies (t : trace) : list (Z * Z * reply) :=
  omap (fun e => match e with Sys (NR_sched_setscheduler p pol _) r => Some (p, pol, r) | _ => None end) t.

(** [F] does not see the initialisation either, nor what is printed. *)
Class InitQuiet {X} (F : trace -> X) : Prop := {
  init_sets :: SetsQuiet F;
  quiet_mlockall f : quiet F (Mlockall f);
  quiet_mmap s p f fd : quiet F (Mmap s p f fd);
  quiet_out s m a t : F (Out s m a :: t) = F t;
  quiet_perror m t : F (Perror m :: t) = F t;
}.

#[export] Instance params_init_quiet : InitQuiet params.
Proof. by repeat split. Qed.
#[export] Instance policies_init_quiet : InitQuiet policies.
Proof. by repeat split. Qed.

Section init_quiet.
Context {K : Kernel} {X : Type} (F : trace -> X) `{!InitQuiet F}.

Lemma keeps_out s m a : keeps F (emit (Out s m a)).
Proof using All. intros w. apply quiet_out. Qed.

Lemma keeps_init_litmus : keeps F init_litmus.
Proof using All.
  unfold init_litmus, init_rt_thread, init_kernel_iface, map_file, check. repeat keeps_step.
  all: try (apply keeps_syscall; first [apply quiet_sysconf|apply quiet_open|apply quiet_close
    |apply quiet_mlockall|apply quiet_mmap]).
  all: intros w; unfold perror, eprintf, emit, modify; cbn [snd tr push];
    first [apply quiet_out|apply quiet_perror].
Qed.

Lemma keeps_migrate dom :
  quiet F NR_gettid -> (forall t s m, quiet F (Sched_setaffinity t s m)) ->
  keeps F (be_migrate_to_domain dom).
Proof using All.
  intros Hg Ha. unfold be_migrate_to_domain, be_migrate_thread_to_domain, CPU_FREE, gettid, syscall_int.
  repeat keeps_step; try (apply keeps_read_mapping, _); apply keeps_syscall; first [apply Hg|apply Ha|apply quiet_free].
Qed.

Lemma keeps_task_mode m :
  quiet F NR_gettid -> (forall p, quiet F (NR_sched_getscheduler p)) ->
  (forall p pol prio, quiet F (NR_sched_setscheduler p pol prio)) -> keeps F (task_mode m).
Proof using All.
  intros Hg Hq Hs. unfold task_mode, sched_setscheduler, sched_getscheduler, gettid, syscall_int.
  repeat keeps_step; try (by apply keeps_syscall).
Qed.
End init_quiet.

(** ** Locking protocols *)

(** Every protocol's identifier is found again under its name, and a name
    that is found stands for an identifier that prints back as that name,
    except the alias MPCP-VS, which prints as MPCP_VS.  An unknown name gives
    -1 and an unknown identifier prints as <UNKNOWN>. *)
Theorem protocol_names :
  (forall t, lock_protocol_for_name (name_for_lock_protocol (obj_id t)) = obj_id t) /\
  (forall name, lock_protocol_for_name name <> -1 ->
     (exists t, lock_protocol_for_name name = obj_id t) /\
     (name_for_lock_protocol (lock_protocol_for_name name) = name \/
      name = "MPCP-VS" /\ lock_protocol_for_name name = obj_id MPCP_VS_SEM)) /\
  (forall name, name ∉ map snd protocol -> lock_protocol_for_name name = -1) /\
  (forall id, ~ 0 <= id <= 6 -> name_for_lock_protocol id = "<UNKNOWN>").
Proof.
  split_and!.
  - by intros [].
  - intros name Hn. unfold lock_protocol_for_name in *.
    destruct (find _ protocol) as [[id s]|] eqn:E; [|done]. cbn [fst] in *.
    apply find_some in E as [Hin Heq]. cbn [snd] in Heq. unfold strcmp_eq in Heq.
    apply String.eqb_eq in Heq as ->. cbn in Hin.
    assert (forall t : obj_type_t, obj_id t = id -> exists t, id = obj_id t) as Hex by by eexists.
    repeat (destruct Hin as [[= <- <-]|Hin];
      [split; [by first [apply (Hex FMLP_SEM eq_refl)|apply (Hex SRP_SEM eq_refl)
          |apply (Hex MPCP_SEM eq_refl)|apply (Hex MPCP_VS_SEM eq_refl)|apply (Hex DPCP_SEM eq_refl)
          |apply (Hex PCP_SEM eq_refl)|apply (Hex DFLP_SEM eq_refl)]
        |first [by left|by right]]|]). done.
  - intros name Hn. unfold lock_protocol_for_name.
    destruct (find _ protocol) as [[id s]|] eqn:E; [|done]. exfalso. apply Hn.
    apply find_some in E as [Hin Heq]. cbn [snd] in Heq. unfold strcmp_eq in Heq.
    apply String.eqb_eq in Heq as ->. apply list_elem_of_In, in_map_iff. by exists (id, s).
  - intros id Hid. unfold name_for_lock_protocol.
    destruct (find _ protocol) as [[i s]|] eqn:E; [|done]. exfalso. apply Hid.
    apply find_some in E as [Hin Heq]. cbn [fst] in Heq. apply Z.eqb_eq in Heq as <-. cbn in Hin.
    repeat (destruct Hin as [[= <- <-]|Hin]; [done|]). done.
Qed.

Section locks.
Context {K : Kernel}.

Definition lock_open (namespace : string) : call :=
  Open namespace (Z.lor O_RDWR O_CREAT) (Z.lor S_IRUSR S_IWUSR).

(** [litmus_open_lock] opens (or creates) the file of the name space; if
    that fails it returns -1 and asks for nothing else.  Otherwise it makes
    one [od_open] with its arguments, closes the file last whatever came of
    it, and returns the object descriptor or -1. *)
Theorem litmus_open_lock_spec protocol lock_id ns cfg w :
  let ro := kernel (tr w) (lock_open ns) in
  let fd := ret_of ro in
  let t1 := Sys (lock_open ns) ro :: tr w in
  let rd := kernel t1 (NR_od_open fd protocol lock_id cfg) in
  let t2 := Sys (NR_od_open fd protocol lock_id cfg) rd :: t1 in
  exists ret w', litmus_open_lock protocol lock_id ns cfg w = (Val ret, w') /\
    if fd <? 0 then ret = -1 /\ tr w' = t1
    else ret = s32 (ret_of rd) /\ tr w' = Sys (Close fd) (kernel t2 (Close fd)) :: t2.
Proof.
  cbn zeta. unfold litmus_open_lock, od_openx. mrun. fold (lock_open ns).
  set (ro := kernel (tr w) _). destruct (ret_of ro <? 0).
  - eexists _, _. split; [done|]. by rewrite tr_after.
  - mrun. eexists _, _. split; [done|]. by rewrite !tr_after.
Qed.
End locks.

(** ** Setting up sporadic tasks *)

(** The parameter block the convenience functions pass: the documented
    defaults, a budget, a period and a CPU. *)
Definition sporadic_param {H : KernelHeader} (e_ns p_ns c : Z) : rt_task := {|
  exec_cost := e_ns; period := p_ns; relative_deadline := 0; phase := 0; cpu := c;
  priority := LITMUS_LOWEST_PRIORITY; cls := RT_CLASS_SOFT;
  budget_policy := NO_ENFORCEMENT; release_policy := TASK_SPORADIC
|}.

Section sporadic.
Context {K : Kernel} {H : KernelHeader}.

(** The body [sporadic_partitioned] and [sporadic_clustered] share; they
    differ in the message of a failed migration. *)
Definition sporadic_domain (msg : string) (e_ns p_ns dom : Z) : M Z :=
  ret ← be_migrate_to_domain dom;
  check ret msg;;
  if negb (ret =? 0) then mret ret
  else
    let param := with_cost init_rt_task_param e_ns p_ns in
    first ← domain_to_first_cpu dom;
    let param := with_cpu param first in
    tid ← gettid;
    set_rt_task_param tid (Some param).

Lemma check_run ret msg w :
  exists w', check ret msg w = (Val tt, w') /\ calls (tr w') = calls (tr w) /\
    params (tr w') = params (tr w) /\ affinities (tr w') = affinities (tr w) /\
    exists es, tr w' = es ++ tr w /\ (es = [] <-> ret <> -1).
Proof.
  unfold check, when. destruct (Z.eqb_spec ret (-1)) as [->|Hne].
  - eexists. split; [done|]. split_and!; [done..|]. eexists [_; _]. split; [done|]. by split.
  - exists w. split_and!; [done..|]. by exists [].
Qed.

Lemma sporadic_domain_run msg online e_ns p_ns dom m w0 ws w :
  Allocates K -> Online K online -> 0 <= online <= 4096 ->
  Serves K (mapping_file "domains" dom) (mask_text m w0 ws) ->
  wf_mask m w0 ws -> (length ws <= 127)%nat ->
  exists ret tid sz r w', sporadic_domain msg e_ns p_ns dom w = (Val ret, w') /\
    answered (Sched_setaffinity tid sz (mask_value w0 ws)) r /\
    affinities (tr w') = (tid, sz, mask_value w0 ws, r) :: affinities (tr w) /\
    if ret_of r =? 0 then
      exists first tid' r', first_cpu_of (mask_value w0 ws) online first /\
        ret = s32 (ret_of r') /\
        params (tr w') =
          (tid', Some (sporadic_param e_ns p_ns (u32 first)), r') :: params (tr w) /\
        answered (NR_set_rt_task_param tid' (Some (sporadic_param e_ns p_ns (u32 first)))) r'
    else ret = ret_of r /\ params (tr w') = params (tr w).
Proof.
  intros AL ON Hon SV Hwf Hws. unfold sporadic_domain, be_migrate_to_domain.
  destruct (be_migrate_thread_to_domain_run online 0 dom m w0 ws w AL ON Hon SV Hwf Hws)
    as (tid & sz & r & w1 & Hrun & _ & Haff & _ & _ & Hans).
  rewrite (bind_val _ _ _ _ _ Hrun).
  pose proof (keeps_run _ _ _ _ _ (keeps_be_migrate 0 dom) Hrun) as Hp1.
  destruct (check_run (ret_of r) msg w1) as (w2 & Hc & _ & Hp2 & Ha2 & _).
  rewrite (bind_val _ _ _ _ _ Hc). destruct (Z.eqb_spec (ret_of r) 0) as [E|E]; cbn [negb].
  2: { exists (ret_of r), tid, sz, r, w2. rewrite (proj2 (Z.eqb_neq _ _) E).
       split_and!; [done..|congruence|done|congruence]. }
  destruct (domain_to_first_cpu_run online dom m w0 ws w2 AL ON Hon SV Hwf Hws)
    as (first & w3 & Hf & _ & Hfirst).
  rewrite (bind_val _ _ _ _ _ Hf). cbn zeta.
  pose proof (keeps_run _ _ _ _ _ (keeps_domain_to_first_cpu params dom) Hf) as Hp3.
  pose proof (keeps_run _ _ _ _ _ (keeps_domain_to_first_cpu affinities dom) Hf) as Ha3.
  unfold gettid, set_rt_task_param. rewrite bind_syscall_int. set (tid' := s32 _).
  eexists _, tid, sz, r, _. split; [done|]. split; [done|]. rewrite (proj2 (Z.eqb_eq _ _) E), !tr_after.
  split; [change (affinities (tr w3) = (tid, sz, mask_value w0 ws, r) :: affinities (tr w)); congruence|].
  eexists first, tid', _. split; [done|]. split; [done|]. split; [|by eexists].
  match goal with |- params (Sys (NR_set_rt_task_param ?t ?p) ?r' :: Sys ?c ?r'' :: ?l) = _ =>
    change ((t, p, r') :: params l = (t, p, r') :: params (tr w)) end.
  congruence.
Qed.

(** With a readable domain file, [sporadic_partitioned] and
    [sporadic_clustered] migrate the caller to the CPUs of the domain first.
    If that fails they return the error and set no parameters; otherwise
    they set the default parameters with the given budget and period and the
    least online CPU of the domain, and return what that call returned.
    Without an online CPU in the domain the unsigned field becomes 2^32-1. *)
Theorem sporadic_domain_ok online e_ns p_ns dom m w0 ws w :
  Allocates K -> Online K online -> 0 <= online <= 4096 ->
  Serves K (mapping_file "domains" dom) (mask_text m w0 ws) ->
  wf_mask m w0 ws -> (length ws <= 127)%nat ->
  forall f, f = sporadic_partitioned \/ f = sporadic_clustered ->
  exists ret tid sz r w', f e_ns p_ns dom w = (Val ret, w') /\
    affinities (tr w') = (tid, sz, mask_value w0 ws, r) :: affinities (tr w) /\
    if ret_of r =? 0 then
      exists first tid' r', first_cpu_of (mask_value w0 ws) online first /\
        ret = s32 (ret_of r') /\
        params (tr w') =
          (tid', Some (sporadic_param e_ns p_ns (u32 first)), r') :: params (tr w)
    else ret = ret_of r /\ params (tr w') = params (tr w).
Proof.
  intros ?????? f Hf.
  assert (exists msg, f = sporadic_domain msg) as [msg ->] by (destruct Hf as [-> | ->]; by eexists).
  destruct (sporadic_domain_run msg online e_ns p_ns dom m w0 ws w)
    as (ret & tid & sz & r & w' & ? & _ & ? & Hr); [done..|].
  exists ret, tid, sz, r, w'. split; [done|]. split; [done|]. destruct (ret_of r =? 0); [|done].
  destruct Hr as (first & tid' & r' & ? & ? & ? & _). by exists first, tid', r'.
Qed.
End sporadic.

(** ** Initialisation *)

Section init.
Context {K : Kernel}.

Lemma init_rt_thread_total : total init_rt_thread.
Proof. unfold init_rt_thread, init_kernel_iface, map_file, check. total_tac. Qed.

Lemma init_litmus_total : total init_litmus.
Proof. unfold init_litmus, check. total_tac; apply init_rt_thread_total. Qed.

Lemma init_kernel_iface_ends w : exists err w', init_kernel_iface w = (Val err, w').
Proof.
  unfold init_kernel_iface, map_file. mrun. zcase; mrun; [zcase; mrun|]; unfold when;
    (destruct (negb _); [unfold eprintf|]; mrun; by eexists _, _).
Qed.

(** [init_litmus] always attempts both steps, locking memory and mapping
    the control page, and returns 0 exactly when both succeeded (-1
    otherwise); a step that returned -1 is reported on standard error. *)
Theorem init_litmus_spec w :
  let lock := Mlockall (Z.lor MCL_CURRENT MCL_FUTURE) in
  let r := kernel (tr w) lock in
  exists es1 w1 err w2 ret w3 es2,
    tr w1 = es1 ++ Sys lock r :: tr w /\ (es1 = [] <-> ret_of r <> -1) /\ calls es1 = [] /\
    init_kernel_iface w1 = (Val err, w2) /\
    init_litmus w = (Val ret, w3) /\ (ret = 0 \/ ret = -1) /\
    (ret = 0 <-> ret_of r = 0 /\ err = 0) /\
    tr w3 = es2 ++ tr w2 /\ (es2 = [] <-> err <> -1) /\ ctrl_page w3 = ctrl_page w2.
Proof.
  cbn zeta. unfold init_litmus, init_rt_thread. mrun. set (r := kernel (tr w) _).
  set (wl := after _ r w).
  destruct (check_run (ret_of r) "mlockall()" wl) as (w1 & Hc1 & Hcalls & _ & _ & es1 & Ht1 & He1).
  rewrite (bind_val _ _ _ _ _ Hc1), bind_bind.
  destruct (init_kernel_iface_ends w1) as (err & w2 & Hi).
  rewrite (bind_val _ _ _ _ _ Hi), bind_bind.
  set (msg := "kernel <-> user space interface initialization").
  destruct (check_run err msg w2) as (w3 & Hc2 & _ & _ & _ & es2 & Ht2 & He2).
  rewrite (bind_val _ _ _ _ _ Hc2), bind_ret.
  exists es1, w1, err, w2, (if (ret_of r =? 0) && (err =? 0) then 0 else -1), w3, es2.
  unfold wl in *. rewrite tr_after in Ht1. split_and!; try done.
  - rewrite Ht1, tr_after in Hcalls. unfold calls in Hcalls. rewrite omap_app in Hcalls.
    apply (f_equal length) in Hcalls. rewrite length_app in Hcalls. apply nil_length_inv.
    unfold calls. lia.
  - destruct (_ && _); [by left|by right].
  - destruct (Z.eqb_spec (ret_of r) 0), (Z.eqb_spec err 0); cbn [andb]; split; try done; tauto.
  - clear -Hc2. unfold check, when in Hc2. case_match; by injection Hc2 as <-.
Qed.
End init.

(** ** Task modes *)

(** The mode of a thread as the kernel sees it. *)
Definition mode_of (tid : Z) (w : world) : Z :=
  if policy_of tid (tr w) =? SCHED_LITMUS then LITMUS_RT_TASK else BACKGROUND_TASK.

(** The request is a change to the other mode. *)
Definition is_switch (old mode : Z) : bool :=
  ((old =? LITMUS_RT_TASK) && (mode =? BACKGROUND_TASK)) ||
  ((old =? BACKGROUND_TASK) && (mode =? LITMUS_RT_TASK)).

(** The specification: [mode_step old request ret new]. *)
Inductive mode_step (old mode : Z) : Z -> Z -> Prop :=
  | mode_switched : is_switch old mode = true -> mode_step old mode 0 mode
  | mode_refused : is_switch old mode = true -> mode_step old mode (-1) old
  | mode_invalid : is_switch old mode = false -> mode_step old mode (-1) old.

(** A sequence of requests, each with its result. *)
Inductive mode_steps : Z -> list Z -> list Z -> Z -> Prop :=
  | mode_steps_nil old : mode_steps old [] [] old
  | mode_steps_cons old mode ret mid modes rets new :
      mode_step old mode ret mid -> mode_steps mid modes rets new ->
      mode_steps old (mode :: modes) (ret :: rets) new.

(** The calls that ask the kernel to change a policy. *)
Definition is_setscheduler (c : call) : bool :=
  match c with NR_sched_setscheduler _ _ _ => true | _ => false end.

Section modes.
Context {K : Kernel} (tid : Z) {SC : Schedules K tid}.

Fixpoint task_modes (modes : list Z) : M (list Z) :=
  match modes with
  | [] => mret []
  | mode :: modes => ret ← task_mode mode; rets ← task_modes modes; mret (ret :: rets)
  end.

Lemma small_int z : INT_MIN <= z <= INT_MAX -> s32 z = z.
Proof. unfold INT_MIN, INT_MAX. intros. apply wrap_s_small; lia. Qed.

(** The thread asks for its identity and policy before anything else. *)
Definition asked (w : world) : trace :=
  Sys (NR_sched_getscheduler tid) (Succ (policy_of tid (tr w))) ::
  Sys NR_gettid (Succ tid) :: Sys NR_gettid (Succ tid) :: tr w.

Lemma task_mode_run mode w :
  INT_MIN <= policy_of tid (tr w) <= INT_MAX ->
  exists ret w', task_mode mode w = (Val ret, w') /\
    if is_switch (mode_of tid w) mode then
      let c := NR_sched_setscheduler tid
        (if mode =? LITMUS_RT_TASK then SCHED_LITMUS else SCHED_NORMAL) 0 in
      exists r, kernel (asked w) c = r /\ tr w' = Sys c r :: asked w /\
        (r = Succ 0 /\ ret = 0 \/ exists e, r = Fail e /\ ret = -1 /\ errno w' = e)
    else ret = -1 /\ errno w' = - EINVAL /\ tr w' = asked w.
Proof using SC.
  intros Hpol. pose proof sched_tid_int as Htid.
  unfold task_mode, gettid, sched_getscheduler, sched_setscheduler. mrun.
  rewrite !sched_tid. cbn [ret_of]. rewrite (small_int tid) by done. rewrite sched_get. cbn [ret_of policy_of].
  rewrite (small_int (policy_of tid (tr w))) by done.
  unfold is_switch, mode_of. set (w3 := after (NR_sched_getscheduler tid) _ _).
  assert (tr w3 = asked w) as Ht by done.
  assert (forall pol, let c := NR_sched_setscheduler tid pol 0 in
    exists ret w' r, syscall_int c w3 = (Val ret, w') /\ kernel (asked w) c = r /\ tr w' = Sys c r :: asked w /\
      (r = Succ 0 /\ ret = 0 \/ exists e, r = Fail e /\ ret = -1 /\ errno w' = e)) as Hset.
  { intros pol. cbn zeta. unfold syscall_int. rewrite bind_syscall. set (r := kernel _ _).
    eexists _, _, r. split; [done|]. split; [unfold r; by rewrite Ht|]. rewrite tr_after, Ht. split; [done|].
    destruct (sched_set (tr w3) pol 0) as [E|[e E]]; unfold r; rewrite E; [by left|right; by exists e]. }
  destruct (policy_of tid (tr w) =? SCHED_LITMUS); cbn [Z.eqb andb orb LITMUS_RT_TASK BACKGROUND_TASK Pos.eqb].
  - destruct (Z.eqb_spec mode BACKGROUND_TASK) as [->|Hm]; cbn [orb].
    + destruct (Hset SCHED_NORMAL) as (ret & w' & r & Hrun & Hr). exists ret, w'. split; [done|]. by exists r.
    + rewrite bind_modify. by eexists _, _.
  - destruct (Z.eqb_spec mode LITMUS_RT_TASK) as [->|Hm]; cbn [orb].
    + destruct (Hset SCHED_LITMUS) as (ret & w' & r & Hrun & Hr). exists ret, w'. split; [done|]. by exists r.
    + rewrite bind_modify. by eexists _, _.
Qed.

(** Asking does not change the policy; setting it does when it succeeds. *)
Lemma policy_asked w : policy_of tid (asked w) = policy_of tid (tr w).
Proof using SC. done. Qed.

Lemma task_mode_refines mode w :
  INT_MIN <= policy_of tid (tr w) <= INT_MAX ->
  exists ret w', task_mode mode w = (Val ret, w') /\
    mode_step (mode_of tid w) mode ret (mode_of tid w') /\
    INT_MIN <= policy_of tid (tr w') <= INT_MAX.
Proof using SC.
  intros Hpol. destruct (task_mode_run mode w Hpol) as (ret & w' & Hrun & Hcase).
  exists ret, w'. split; [done|]. destruct (is_switch _ _) eqn:Hsw.
  - destruct Hcase as (r & _ & Ht & Hr). unfold mode_of at 2. rewrite Ht.
    destruct Hr as [[-> ->]|(e & -> & -> & _)]; cbn [policy_of].
    + rewrite Z.eqb_refl. split; [|by destruct (mode =? LITMUS_RT_TASK)].
      assert (mode = LITMUS_RT_TASK \/ mode = BACKGROUND_TASK) as Hm.
      { unfold is_switch in Hsw. apply orb_prop in Hsw as [Hsw|Hsw]; zbool; tauto. }
      destruct Hm as [-> | ->]; by apply mode_switched.
    + rewrite policy_asked. fold (mode_of tid w). split; [by apply mode_refused|done].
  - destruct Hcase as (-> & _ & Ht). unfold mode_of at 2. rewrite Ht, policy_asked.
    fold (mode_of tid w). split; [by apply mode_invalid|done].
Qed.


(** A request that is no change of mode asks the kernel for nothing but
    the identity and policy of the thread, and leaves the negated error code
    -EINVAL in [errno]. *)
Theorem task_mode_invalid mode w :
  INT_MIN <= policy_of tid (tr w) <= INT_MAX -> is_switch (mode_of tid w) mode = false ->
  exists w', task_mode mode w = (Val (-1), w') /\ errno w' = - 22 /\
    calls (tr w') = NR_sched_getscheduler tid :: NR_gettid :: NR_gettid :: calls (tr w).
Proof using SC.
  intros Hpol Hsw. destruct (task_mode_run mode w Hpol) as (ret & w' & Hrun & Hcase).
  rewrite Hsw in Hcase. destruct Hcase as (-> & Herr & Ht).
  exists w'. split; [done|]. split; [done|]. by rewrite Ht.
Qed.
End modes.

(** ** Concrete runs *)

Module LitmusWitness.
Import Sim.

Definition k8 : Kernel :=
  sim [("/proc/litmus/domains/1", mask_text 2 240 [])] 5 8.

Lemma k8_domain : Serves k8 (mapping_file "domains" 1) (mask_text 2 240 []).
Proof. apply sim_serves; [lia|by vm_compute]. Qed.
Lemma wf_k8 : wf_mask 2 240 [].
Proof. split; [lia|]. split; [lia|]. by repeat constructor. Qed.

Lemma sporadic_domain_ok_witness :
  exists ret tid sz r w',
    @sporadic_partitioned k8 sim_header 10 100 1 w0 = (Val ret, w') /\
    affinities (tr w') = [(tid, sz, 240, r)] /\
    if ret_of r =? 0 then
      exists first tid' r', first_cpu_of 240 8 first /\ ret = s32 (ret_of r') /\
        params (tr w') = [(tid', Some (@sporadic_param sim_header 10 100 (u32 first)), r')]
    else ret = ret_of r /\ params (tr w') = [].
Proof.
  apply (@sporadic_domain_ok k8 sim_header 8 10 100 1 2 240 [] w0 (sim_allocates _ _ _)
    (sim_online _ _ _) ltac:(lia) k8_domain wf_k8 ltac:(cbn; lia)). by left.
Defined.


Lemma task_mode_invalid_witness :
  exists w', @task_mode (sim_sched 6) 0 w0 = (Val (-1), w') /\ errno w' = - 22 /\
    calls (tr w') = [NR_sched_getscheduler 1000; NR_gettid; NR_gettid].
Proof.
  apply (@task_mode_invalid (sim_sched 6) 1000 (sim_schedules 6) 0 w0); [|done].
  unfold INT_MIN, INT_MAX. cbn. lia.
Defined.

(** The third switch comes after the kernel stopped granting them. *)
Example modes_run :
  fst (@task_modes (sim_sched 6) [1; 1; 0; 1; 5] w0) = Val [0; -1; -1; -1; -1].
Proof. vm_compute. reflexivity. Qed.
End LitmusWitness.
