(* ===== verification/Threads.v ===== *)
(** * Threads: the thread-local control pages of src/kernel_iface.c

    [ctrl_page] of kernel_iface.c is a thread-local variable, like [errno];
    the memory the pages lie in and the kernel are shared by the threads of a
    process.  A configuration holds the local state of every thread, the trace
    of the process and the shared [np.flag]s; a step runs one library call of
    one thread.  A thread reads and writes only the page it mapped itself
    ([run_op_effect]), so no finer interleaving of these accesses could be
    told apart.  Any other computation of a thread that maps no page, touches
    no [np.flag] and does not yield is a step as well. *)
From stdpp Require Import gmap.
From S2P Require Import Prelude Machine Laws Iface Syscalls Litmus.

(** ** Configurations and steps *)

(** The addresses [mmap] handed out, newest first. *)
Definition mapped (t : trace) : list Z :=
  omap (fun e => match e with Sys (Mmap _ _ _ _) (Succ a) => Some a | _ => None end) t.

(** How often the process yielded. *)
Definition yields (t : trace) : nat :=
  length (omap (fun e => match e with Sys Sched_yield r => Some r | _ => None end) t).

(** The page size is positive, and [mmap] fails or returns an address that is
    in use nowhere in the process. *)
Class MapsFresh (K : Kernel) : Prop := {
  page_size t : exists sz, 0 < sz < 2 ^ 64 /\ kernel t (Sysconf SC_PAGESIZE) = Succ sz;
  maps_fresh t size prot flags fd :
    (exists a, kernel t (Mmap size prot flags fd) = Succ a /\ valid_page a /\ a ∉ mapped t) \/
    (exists e, kernel t (Mmap size prot flags fd) = Fail e);
}.

Record thread := mk_thread { t_errno : Z; t_page : Z }.
Record conf := mk_conf { threads : gmap Z thread; history : trace; flags : Z -> Z }.

(** What a thread works on, and what it leaves behind. *)
Definition thread_world (c : conf) (th : thread) : world :=
  mk_world (history c) (t_errno th) (t_page th) (flags c).
Definition resume (c : conf) (tid : Z) (w : world) : conf :=
  mk_conf (<[tid := mk_thread (errno w) (ctrl_page w)]> (threads c)) (tr w) (np_flag w).

(** The pages, the flags and the yields are as before. *)
Definition leaves_pages {A} (m : M A) : Prop := forall w,
  same_thread w (m w).2 /\ mapped (tr (m w).2) = mapped (tr w) /\ yields (tr (m w).2) = yields (tr w).

Inductive op :=
  | Np (o : np_op)
  | GetCtrlPage
  | RequestedToPreempt
  | InitRtThread
  | Other (m : M unit).

Section threads.
Context {K : Kernel} {H : KernelHeader}.

Definition run_op (o : op) : M unit :=
  match o with
  | Np o => np_run o
  | GetCtrlPage => get_ctrl_page;; mret tt
  | RequestedToPreempt => requested_to_preempt;; mret tt
  | InitRtThread => init_rt_thread;; mret tt
  | Other m => m
  end.

(** [init_rt_thread] is the first call of its thread; everything else may
    come at any time. *)
Definition allowed (o : op) (th : thread) : Prop :=
  match o with
  | InitRtThread => t_page th = NULL
  | Other m => leaves_pages m
  | _ => True
  end.

(** The operation on a non-preemptive section that took place: one on a page
    that could not be mapped does nothing. *)
Definition effect (o : op) (page : Z) : list np_op :=
  match o with
  | Np o => if (page =? NULL) || (page =? MAP_FAILED) then [] else [o]
  | _ => []
  end.

(** A thread starts without a page; a thread runs a call to its end. *)
Inductive step : conf -> Z * list np_op -> conf -> Prop :=
  | step_start c tid e :
      threads c !! tid = None ->
      step c (tid, []) (mk_conf (<[tid := mk_thread e NULL]> (threads c)) (history c) (flags c))
  | step_call c tid th o w' :
      threads c !! tid = Some th -> allowed o th ->
      run_op o (thread_world c th) = (Val tt, w') ->
      step c (tid, effect o (ctrl_page w')) (resume c tid w').

(** Steps of all threads in the order they were taken. *)
Inductive steps (c : conf) : list (Z * list np_op) -> conf -> Prop :=
  | steps_nil : steps c [] c
  | steps_snoc ls c1 l c2 : steps c ls c1 -> step c1 l c2 -> steps c (ls ++ [l]) c2.
End threads.

(** The operations of one thread, and the depth they lead to. *)
Definition ops_of (tid : Z) (ls : list (Z * list np_op)) : list np_op :=
  flat_map (fun l => if fst l =? tid then snd l else []) ls.
Definition depth (ls : list (Z * list np_op)) (tid : Z) : nat := fst (np_spec 0 (ops_of tid ls)).

(** ** Calls that leave the pages alone *)

Section leaves.
Context {K : Kernel}.

Lemma leaves_ret {A} (a : A) : leaves_pages (mret a : M A).
Proof. done. Qed.

Lemma leaves_bind {A B} (m : M A) (f : A -> M B) :
  leaves_pages m -> (forall a, leaves_pages (f a)) -> leaves_pages (m ≫= f).
Proof.
  intros Hm Hf w. specialize (Hm w). unfold mbind, M_bind.
  destruct (m w) as [[a|s| | |] w1]; cbn [snd] in *; [|done..].
  destruct Hm as (Hs & Hm & Hy), (Hf a w1) as (Hs1 & Hm1 & Hy1).
  split; [by trans w1|]. by rewrite Hm1, Hy1.
Qed.

Lemma leaves_syscall c : quiet mapped c -> quiet yields c -> leaves_pages (syscall c).
Proof.
  intros Hm Hy w. unfold syscall. cbn [snd]. split; [apply same_thread_after|].
  by rewrite !quiet_after.
Qed.

Lemma leaves_errno e : leaves_pages (modify (put_errno e)).
Proof. done. Qed.

(** Mode changes, locks, jobs and parameters are such calls. *)
Lemma leaves_task_mode mode : leaves_pages (task_mode mode).
Proof.
  unfold task_mode, gettid, sched_getscheduler, sched_setscheduler, syscall_int.
  repeat first [apply leaves_ret | by apply leaves_syscall | apply leaves_errno
    | apply leaves_bind; [|intros ?] | case_match].
Qed.

Lemma leaves_syscall_int c : quiet mapped c -> quiet yields c -> leaves_pages (syscall_int c).
Proof. intros. apply leaves_bind; [by apply leaves_syscall|]. intros ?. apply leaves_ret. Qed.

Lemma leaves_library od pid p :
  leaves_pages (litmus_lock od) /\ leaves_pages (litmus_unlock od) /\
  leaves_pages sleep_next_period /\ leaves_pages wait_for_ts_release /\
  leaves_pages (set_rt_task_param pid p).
Proof. split_and!; by apply leaves_syscall_int. Qed.
End leaves.

(** ** Depths *)

Lemma np_spec_app d ops1 ops2 :
  fst (np_spec d (ops1 ++ ops2)) = fst (np_spec (fst (np_spec d ops1)) ops2).
Proof.
  revert d. induction ops1 as [|o ops1 IH]; intros d; [done|]. cbn [app np_spec].
  destruct (np_step d o) as [d1 b]. specialize (IH d1).
  destruct (np_spec d1 ops1), (np_spec d1 (ops1 ++ ops2)). exact IH.
Qed.

Lemma np_spec_bound d ops : (fst (np_spec d ops) <= d + length ops)%nat.
Proof.
  revert d. induction ops as [|o ops IH]; intros d; cbn [np_spec length fst]; [lia|].
  destruct (np_step d o) as [d1 b] eqn:E. specialize (IH d1). destruct (np_spec d1 ops). cbn [fst] in *.
  assert (d1 <= S d)%nat by (destruct o; cbn [np_step] in E; injection E as <- _; lia). lia.
Qed.

Lemma depth_snoc ls tid eff t :
  depth (ls ++ [(tid, eff)]) t = if tid =? t then fst (np_spec (depth ls t) eff) else depth ls t.
Proof.
  unfold depth, ops_of. rewrite flat_map_app. cbn [flat_map fst snd]. rewrite app_nil_r, np_spec_app.
  by destruct (tid =? t).
Qed.

(** No more than one operation per step. *)
Lemma effect_length o p : (length (effect o p) <= 1)%nat.
Proof. destruct o; cbn [effect length]; [destruct (_ || _)|..]; cbn [length]; lia. Qed.

Lemma effect_valid o p : valid_page p -> effect (Np o) p = [o].
Proof.
  intros [H1 H2]. cbn [effect].
  by rewrite (proj2 (Z.eqb_neq _ _) H1), (proj2 (Z.eqb_neq _ _) H2).
Qed.

Lemma effect_invalid o p : ~ valid_page p -> effect o p = [].
Proof.
  intros Hp. destruct o; [|done..]. cbn [effect].
  destruct (Z.eqb_spec p NULL), (Z.eqb_spec p MAP_FAILED); [done..|]. by destruct Hp.
Qed.

(** ** What one call does *)

(** The pages of a world before and after a call that mapped at most one. *)
Inductive page_step (w w' : world) : Prop :=
  | page_kept : ctrl_page w' = ctrl_page w -> mapped (tr w') = mapped (tr w) -> page_step w w'
  | page_failed :
      ctrl_page w = NULL -> ~ valid_page (ctrl_page w') -> mapped (tr w') = mapped (tr w) ->
      page_step w w'
  | page_new :
      ctrl_page w = NULL -> valid_page (ctrl_page w') -> ctrl_page w' ∉ mapped (tr w) ->
      mapped (tr w') = ctrl_page w' :: mapped (tr w) -> page_step w w'.

(** The end of an outermost section: after a barrier it reads [np.preempt] of
    the page [p], and yields exactly when it is set. *)
Definition ends_outermost (p : Z) (t t' : trace) : Prop :=
  valid_page p /\ exists r r',
    t' = (if ret_of r =? 0 then [] else [Sys Sched_yield r']) ++ Sys (LoadPreempt p) r :: Barrier :: t.

(** The flags change at the thread's own page only, by the operation that
    took place.  The end of the outermost section reads [np.preempt] of the page
    and yields when it is set; otherwise the process does not yield. *)
Record op_effect (eff : list np_op) (d : nat) (w w' : world) : Prop := {
  eff_page : page_step w w';
  eff_others q : q <> ctrl_page w' -> np_flag w' q = np_flag w q;
  eff_own : valid_page (ctrl_page w') -> np_flag w' (ctrl_page w') = Z.of_nat (fst (np_spec d eff));
  eff_none : ~ valid_page (ctrl_page w') -> np_flag w' (ctrl_page w') = np_flag w (ctrl_page w');
  eff_outermost : eff = [ExitNp] -> d = 1%nat -> ends_outermost (ctrl_page w) (tr w) (tr w');
  eff_yields : eff <> [ExitNp] \/ d <> 1%nat -> yields (tr w') = yields (tr w);
}.

#[export] Instance np_op_eq_dec : EqDecision np_op.
Proof. solve_decision. Defined.

#[export] Instance valid_page_decision p : Decision (valid_page p).
Proof. unfold valid_page. apply _. Defined.

Lemma valid_page_dec p : valid_page p \/ ~ valid_page p.
Proof. destruct (decide (valid_page p)); auto. Qed.

Lemma not_valid_NULL : ~ valid_page NULL.
Proof. by intros []. Qed.

Lemma not_valid_cases p : ~ valid_page p -> p = NULL \/ p = MAP_FAILED.
Proof.
  intros Hp. destruct (Z.eq_dec p NULL) as [|H1]; [by left|].
  destruct (Z.eq_dec p MAP_FAILED) as [|H2]; [by right|]. by destruct Hp.
Qed.

#[local] Hint Resolve not_valid_NULL : core.

Section effect.
Context {K : Kernel} {H : KernelHeader} {MF : MapsFresh K}.

(** [init_kernel_iface] maps one page that nobody uses, or none. *)
Lemma init_kernel_iface_fresh w :
  exists err w', init_kernel_iface w = (Val err, w') /\ np_flag w' = np_flag w /\
    yields (tr w') = yields (tr w) /\
    if err =? 0 then
      valid_page (ctrl_page w') /\ (ctrl_page w' ∉ mapped (tr w)) /\
      mapped (tr w') = ctrl_page w' :: mapped (tr w)
    else ~ valid_page (ctrl_page w') /\ mapped (tr w') = mapped (tr w).
Proof using MF.
  unfold init_kernel_iface, map_file, eprintf. mrun.
  destruct (page_size (tr w)) as (sz & Hsz & ->). cbn [ret_of].
  unfold CTRL_PAGES. rewrite Z.mul_1_l, wrap_u_small, (proj2 (Z.ltb_lt 0 sz)) by lia. mrun.
  set (ro := kernel _ (Open _ _ _)). destruct (Z.leb_spec 0 (ret_of ro)) as [Hfd|Hfd]; mrun.
  2: { unfold when. rewrite (proj2 (Z.eqb_neq (ret_of ro) 0)) by lia. cbn [negb]. mrun.
       eexists (ret_of ro), _. split; [done|]. rewrite (proj2 (Z.eqb_neq (ret_of ro) 0)) by lia.
       cbn [np_flag tr ctrl_page push put_ctrl_page]. rewrite tr_after, !np_flag_after.
       by split_and!. }
  set (c := Mmap _ _ _ _). set (t2 := Sys (Open _ _ _) ro :: _).
  assert (mapped t2 = mapped (tr w)) as Hm2 by by destruct ro.
  destruct (maps_fresh t2 sz (Z.lor PROT_READ PROT_WRITE) MAP_PRIVATE (ret_of ro))
    as [(a & E & Ha & Hf)|[e E]]; fold c in E; rewrite E; cbn [ret_of].
  - rewrite (proj2 (Z.eqb_neq _ _) (proj2 Ha)). cbn [when Z.eqb negb]. mrun.
    eexists 0, _. split; [done|]. cbn [Z.eqb ctrl_page np_flag tr put_ctrl_page].
    rewrite Hm2 in Hf. repeat (rewrite ?tr_after, ?np_flag_after).
    split_and!; [done..|]. change (a :: mapped t2 = a :: mapped (tr w)). by rewrite Hm2.
  - cbn [Z.eqb MAP_FAILED Pos.eqb when negb]. mrun. eexists (-1), _. split; [done|].
    cbn [Z.eqb ctrl_page np_flag tr put_ctrl_page push]. repeat (rewrite ?tr_after, ?np_flag_after).
    split_and!; [done..| |done]. by intros [].
Qed.

(** The same for the on-demand mapping. *)
Lemma ensure_ctrl_page_effect w :
  exists ok w', ensure_ctrl_page w = (Val ok, w') /\ np_flag w' = np_flag w /\
    yields (tr w') = yields (tr w) /\ page_step w w' /\
    (ctrl_page w = NULL -> ok = bool_decide (valid_page (ctrl_page w'))) /\
    (ctrl_page w <> NULL -> ok = true /\ w' = w).
Proof using MF.
  unfold ensure_ctrl_page. mrun. destruct (Z.eqb_spec (ctrl_page w) NULL) as [E|E]; cbn [negb].
  2: { exists true, w. split_and!; try done. by apply page_kept. }
  destruct (init_kernel_iface_fresh w) as (err & w' & Hrun & Hn & Hy & Hp).
  rewrite (bind_val _ _ _ _ _ Hrun). exists (err =? 0), w'. split; [done|].
  destruct (err =? 0).
  - destruct Hp as (Hv & Hf & Hm). split_and!; try done; [by apply page_new|].
    intros _. by rewrite bool_decide_true.
  - destruct Hp as (Hv & Hm). split_and!; try done; [by apply page_failed|].
    intros _. by rewrite bool_decide_false.
Qed.

(** The flag of the thread's page is its depth, which is 0 without a page,
    and memory that was never mapped is 0. *)
Definition flag_ok (d : nat) (w : world) : Prop :=
  (valid_page (ctrl_page w) -> np_flag w (ctrl_page w) = Z.of_nat d) /\
  (~ valid_page (ctrl_page w) -> d = O) /\
  (forall q, q ∉ mapped (tr w) -> np_flag w q = 0).

(** A call that touches no flag. *)
Lemma idle_effect d w w' :
  flag_ok d w -> page_step w w' -> np_flag w' = np_flag w -> yields (tr w') = yields (tr w) ->
  op_effect [] d w w'.
Proof using.
  intros (Hv & Hd & Hf) Hp Hn Hy. split; rewrite ?Hn; [done..| |done|done|done].
  intros Hv'. cbn [np_spec fst]. destruct Hp as [E _|E Hbad _|E _ Hfresh _]; [rewrite E in *; auto|done|].
  rewrite E in Hd. by rewrite (Hd not_valid_NULL), Hf.
Qed.

(** An operation on a mapped page. *)
Lemma np_mapped_effect o d w :
  valid_page (ctrl_page w) -> np_flag w (ctrl_page w) = Z.of_nat d ->
  Z.of_nat d + 1 < 2 ^ NP_FLAG_BITS ->
  exists w', np_run o w = (Val tt, w') /\ ctrl_page w' = ctrl_page w /\ op_effect [o] d w w'.
Proof using.
  intros Hp Hd Hb. destruct o; cbn [np_run].
  - rewrite enter_np_mapped by done. eexists. split; [done|]. split; [done|].
    split; cbn [ctrl_page put_np_flag np_flag tr]; [by apply page_kept| | |done..].
    + intros q Hq. by rewrite (proj2 (Z.eqb_neq _ _) Hq).
    + intros _. cbn [np_spec np_step fst]. rewrite Z.eqb_refl, wrap_u_small, Hd; lia.
  - destruct (exit_np_mapped w) as (w' & es & Hrun & Htr & Hc & Hf & Hes); [done|lia|].
    exists w'. split; [done|]. split; [done|]. rewrite Hd in Hes.
    assert (mapped es = [] /\ (d = 1%nat -> exists r r',
      es = (if ret_of r =? 0 then [] else [Sys Sched_yield r']) ++ [Sys (LoadPreempt (ctrl_page w)) r; Barrier]) /\
      (d <> 1%nat -> es = [])) as (Hm & Hout & Hy).
    { destruct (Z.eqb_spec (Z.of_nat d) 1) as [E|E]; [|subst es; by split_and!; [|lia|]].
      destruct Hes as [t Hes]. set (r := kernel t _) in *. unfold np_exit_events in Hes. destruct (ret_of r =? 0) eqn:Er.
      - subst es. split; [done|]. split; [|lia]. intros _. exists r, r. by rewrite Er.
      - destruct Hes as [r' ->]. split; [done|]. split; [|lia]. intros _. exists r, r'. by rewrite Er. }
    split; rewrite ?Hc.
    + apply page_kept; [done|]. rewrite Htr. unfold mapped in *. by rewrite omap_app, Hm.
    + intros q Hq. by rewrite Hf, (proj2 (Z.eqb_neq _ _) Hq).
    + intros _. cbn [np_spec np_step fst]. rewrite Hf, Z.eqb_refl, Hd. lia.
    + done.
    + intros _ Hd1. split; [done|]. destruct (Hout Hd1) as (r & r' & ->). exists r, r'. by rewrite Htr, <- app_assoc.
    + intros [?|Hd1]; [done|]. by rewrite Htr, Hy.
Qed.

Lemma page_step_trans w w1 w2 :
  page_step w w1 -> ctrl_page w2 = ctrl_page w1 -> mapped (tr w2) = mapped (tr w1) -> page_step w w2.
Proof using.
  intros [E1 E2|E1 E2 E3|E1 E2 E3 E4] Hc Hm; [apply page_kept|apply page_failed|apply page_new]; congruence.
Qed.

(** A call on a page that could not be mapped is fatal. *)
Lemma np_failed o w : ctrl_page w = MAP_FAILED -> np_run o w = (Fault, w).
Proof using.
  intros E. destruct o; cbn [np_run]; unfold enter_np, exit_np, ensure_ctrl_page, load_flag; mrun;
    rewrite E; cbn [Z.eqb NULL MAP_FAILED Pos.eqb negb]; mrun; [rewrite E|]; done.
Qed.

Lemma enter_np_ensured w w1 :
  ensure_ctrl_page w = (Val true, w1) -> ctrl_page w1 <> NULL -> enter_np w = enter_np w1.
Proof using.
  intros Hrun Hp. unfold enter_np at 1. rewrite (bind_val _ _ _ _ _ Hrun).
  unfold enter_np, ensure_ctrl_page. mrun. by rewrite (proj2 (Z.eqb_neq _ _) Hp).
Qed.

(** [enter_np] without a page maps one first. *)
Lemma enter_np_unmapped d w :
  ctrl_page w = NULL -> flag_ok d w -> Z.of_nat d + 1 < 2 ^ NP_FLAG_BITS ->
  exists w', enter_np w = (Val tt, w') /\ op_effect (effect (Np EnterNp) (ctrl_page w')) d w w'.
Proof using MF.
  intros E Hok Hb. destruct (ensure_ctrl_page_effect w) as (ok & w1 & Hrun & Hn & Hy & Hp & Hnew & _).
  specialize (Hnew E). pose proof (idle_effect d w w1 Hok Hp Hn Hy) as He.
  case_bool_decide as Hv; subst ok.
  - rewrite (enter_np_ensured w w1) by (done || apply Hv).
    destruct (np_mapped_effect EnterNp d w1) as (w2 & Hrun2 & Hc2 & [Q1 Q2 Q3 Q4 _ Q5]); [done|by apply (eff_own _ _ _ _ He)|done|].
    exists w2. split; [done|]. rewrite Hc2, effect_valid by done. rewrite Hc2 in *.
    destruct Q1 as [_ Hm|E1|E1]; [|by destruct Hv|by destruct Hv].
    split; rewrite ?Hc2; try done.
    + by apply (page_step_trans w w1).
    + intros q Hq. by rewrite Q2, Hn.
    + intros _. rewrite Q5; [done|by left].
  - exists (push (Out stderr "enter_np: control page not mapped!\n" []) w1). split.
    { unfold enter_np. rewrite (bind_val _ _ _ _ _ Hrun). done. }
    cbn [ctrl_page push]. rewrite effect_invalid by done.
    apply idle_effect; [done| |done..]. by apply (page_step_trans w w1).
Qed.

Lemma np_run_effect o d w w' :
  np_run o w = (Val tt, w') -> flag_ok d w -> Z.of_nat d + 1 < 2 ^ NP_FLAG_BITS ->
  op_effect (effect (Np o) (ctrl_page w')) d w w'.
Proof using MF.
  intros Hrun Hok Hb. destruct (valid_page_dec (ctrl_page w)) as [Hv|Hv].
  - destruct (np_mapped_effect o d w) as (w1 & Hrun1 & Hc & He); [done|by apply Hok|done|].
    rewrite Hrun1 in Hrun. injection Hrun as <-. by rewrite Hc, effect_valid.
  - destruct (not_valid_cases _ Hv) as [E|E]; [|by rewrite np_failed in Hrun].
    destruct o; cbn [np_run] in Hrun.
    + destruct (enter_np_unmapped d w E Hok Hb) as (w1 & Hrun1 & He).
      rewrite Hrun1 in Hrun. by injection Hrun as <-.
    + unfold exit_np in Hrun. rewrite bind_get, E in Hrun. injection Hrun as <-.
      rewrite effect_invalid by done. apply idle_effect; [done| |done..]. by apply page_kept.
Qed.

(** Every call that returns has one of the effects above. *)
Lemma run_op_effect o d w w' :
  run_op o w = (Val tt, w') -> allowed o (mk_thread (errno w) (ctrl_page w)) ->
  flag_ok d w -> Z.of_nat d + 1 < 2 ^ NP_FLAG_BITS ->
  op_effect (effect o (ctrl_page w')) d w w'.
Proof using MF.
  intros Hrun Hal Hok Hb. destruct o as [o| | | |m]; cbn [run_op effect allowed t_page] in *.
  - by apply np_run_effect.
  - unfold get_ctrl_page in Hrun. rewrite bind_bind in Hrun.
    destruct (ensure_ctrl_page_effect w) as (ok & w1 & Hrun1 & Hn & Hy & Hp & _).
    rewrite (bind_val _ _ _ _ _ Hrun1) in Hrun. destruct ok; injection Hrun as <-; by apply idle_effect.
  - unfold requested_to_preempt, load_preempt in Hrun. rewrite bind_bind, bind_get in Hrun.
    destruct (Z.eqb_spec (ctrl_page w) NULL).
    { injection Hrun as <-. apply idle_effect; [done| |done..]. by apply page_kept. }
    unfold deref in Hrun. destruct (_ || _); [done|]. revert Hrun. mrun. intros [= <-].
    apply idle_effect; [done|apply page_kept|apply np_flag_after|by rewrite tr_after];
      [apply ctrl_page_after|by rewrite tr_after].
  - destruct (init_kernel_iface_fresh w) as (err & w1 & Hrun1 & Hn & Hy & Hp).
    unfold init_rt_thread in Hrun. rewrite !bind_bind in Hrun. rewrite (bind_val _ _ _ _ _ Hrun1) in Hrun.
    assert (ctrl_page w' = ctrl_page w1 /\ np_flag w' = np_flag w1 /\ mapped (tr w') = mapped (tr w1) /\
      yields (tr w') = yields (tr w1)) as (Ec & En & Em & Ey).
    { revert Hrun. unfold check, when. destruct (err =? -1); mrun; by intros [= <-]. }
    apply idle_effect; [done| |congruence..]. apply (page_step_trans w w1); [|done..].
    destruct (err =? 0); [apply page_new|apply page_failed]; tauto.
  - destruct (Hal w) as ([Hc Hn] & Hm & Hy). rewrite Hrun in *. cbn [snd] in *.
    apply idle_effect; [done| |done..]. by apply page_kept.
Qed.
End effect.

(** ** The invariant *)

(** Mapped pages are in use by one thread each; the flag of a page is the
    depth of its thread; memory nobody mapped is untouched. *)
Record conf_inv (c : conf) (dep : Z -> nat) : Prop := {
  inv_page tid th :
    threads c !! tid = Some th -> valid_page (t_page th) -> t_page th ∈ mapped (history c);
  inv_distinct t1 t2 th1 th2 :
    t1 <> t2 -> threads c !! t1 = Some th1 -> threads c !! t2 = Some th2 ->
    valid_page (t_page th1) -> t_page th1 <> t_page th2;
  inv_flag tid th :
    threads c !! tid = Some th -> valid_page (t_page th) -> flags c (t_page th) = Z.of_nat (dep tid);
  inv_none tid :
    (forall th, threads c !! tid = Some th -> ~ valid_page (t_page th)) -> dep tid = O;
  inv_fresh q : q ∉ mapped (history c) -> flags c q = 0;
}.

(** A process before its first thread, with no memory used for pages yet. *)
Definition at_start (c : conf) : Prop := threads c = ∅ /\ forall q, flags c q = 0.

Lemma start_inv c : at_start c -> conf_inv c (depth []).
Proof. intros [Ht Hf]. split; rewrite ?Ht; try done. Qed.

Lemma inv_flag_ok c dep tid th :
  conf_inv c dep -> threads c !! tid = Some th -> flag_ok (dep tid) (thread_world c th).
Proof.
  intros I Hth. split_and!; cbn [thread_world ctrl_page np_flag tr].
  - by apply (inv_flag _ _ I).
  - intros Hv. apply (inv_none _ _ I). by intros th' [= <-]%(eq_trans (eq_sym Hth)).
  - apply (inv_fresh _ _ I).
Qed.

Section invariant.
Context {K : Kernel} {H : KernelHeader} {MF : MapsFresh K}.

Lemma inv_start c dep tid e :
  conf_inv c dep -> threads c !! tid = None ->
  conf_inv (mk_conf (<[tid := mk_thread e NULL]> (threads c)) (history c) (flags c)) dep.
Proof using.
  intros I Hnone. split; cbn [threads history flags].
  - intros t th [[<- <-]|[Hne Ht]]%lookup_insert_Some Hv; [by destruct Hv|by eapply inv_page].
  - intros t1 t2 th1 th2 Hne [[<- <-]|[Hne1 Ht1]]%lookup_insert_Some Ht2 Hv; [by destruct Hv|].
    apply lookup_insert_Some in Ht2 as [[<- <-]|[Hne2 Ht2]]; [apply Hv|by apply (inv_distinct _ _ I t1 t2)].
  - intros t th [[<- <-]|[Hne Ht]]%lookup_insert_Some Hv; [by destruct Hv|by eapply inv_flag].
  - intros t Ht. apply (inv_none _ _ I). intros th Hth.
    apply (Ht th), lookup_insert_Some. right. split; [by intros ->; rewrite Hnone in Hth|done].
  - apply (inv_fresh _ _ I).
Qed.

(** Nobody else's page is touched. *)
Lemma effect_private c dep tid th eff w' t th' :
  conf_inv c dep -> threads c !! tid = Some th -> page_step (thread_world c th) w' ->
  op_effect eff (dep tid) (thread_world c th) w' ->
  t <> tid -> threads c !! t = Some th' -> valid_page (t_page th') ->
  t_page th' <> ctrl_page w' /\ np_flag w' (t_page th') = flags c (t_page th').
Proof using.
  intros I Hth Hp He Hne Hth' Hv.
  assert (t_page th' <> ctrl_page w') as Hpage.
  { destruct Hp as [E _|_ Hbad _|_ _ Hfresh _].
    - rewrite E. by apply (inv_distinct _ _ I t tid).
    - by intros E; rewrite E in Hv.
    - intros E. apply Hfresh. rewrite <- E. by apply (inv_page _ _ I t). }
  split; [done|]. by apply (eff_others _ _ _ _ He).
Qed.

Lemma mapped_step w w' : page_step w w' -> forall a, a ∈ mapped (tr w) -> a ∈ mapped (tr w').
Proof using. intros [_ ->|_ _ ->|_ _ _ ->] a Ha; [done..|by right]. Qed.

Lemma inv_call c dep tid th eff w' :
  conf_inv c dep -> threads c !! tid = Some th ->
  op_effect eff (dep tid) (thread_world c th) w' ->
  (~ valid_page (ctrl_page w') -> eff = []) ->
  conf_inv (resume c tid w') (fun t => if tid =? t then fst (np_spec (dep t) eff) else dep t).
Proof using.
  intros I Hth He Hnone. pose proof (eff_page _ _ _ _ He) as Hp.
  assert (valid_page (ctrl_page w') -> ctrl_page w' ∈ mapped (tr w')) as Hown.
  { intros Hv. destruct Hp as [E Em|? ? ?|_ _ _ ->]; [|done|by left].
    rewrite E, Em in *. by apply (inv_page _ _ I tid). }
  split; cbn [resume threads history flags].
  - intros t th' [[<- <-]|[Hne Ht]]%lookup_insert_Some Hv; [by apply Hown|].
    apply (mapped_step _ _ Hp). by apply (inv_page _ _ I t).
  - intros t1 t2 th1 th2 Hne [[<- <-]|[Hne1 Ht1]]%lookup_insert_Some Ht2 Hv;
      apply lookup_insert_Some in Ht2 as [[Heq <-]|[Hne2 Ht2]]; cbn [t_page] in *.
    + done.
    + intros E. assert (valid_page (t_page th2)) as Hv2 by by rewrite <- E.
      by destruct (effect_private c dep tid th eff w' t2 th2).
    + by destruct (effect_private c dep tid th eff w' t1 th1).
    + by apply (inv_distinct _ _ I t1 t2).
  - intros t th' [[<- <-]|[Hne Ht]]%lookup_insert_Some Hv; cbn [t_page] in *.
    + rewrite Z.eqb_refl. by apply (eff_own _ _ _ _ He).
    + rewrite (proj2 (Z.eqb_neq tid t)) by done.
      destruct (effect_private c dep tid th eff w' t th') as [_ ->]; try done. by apply (inv_flag _ _ I).
  - intros t Ht. destruct (Z.eqb_spec tid t) as [<-|Hne].
    + assert (~ valid_page (ctrl_page w')) as Hv by (apply (Ht (mk_thread (errno w') (ctrl_page w'))), lookup_insert_eq).
      rewrite Hnone by done. cbn [np_spec fst]. apply (inv_none _ _ I). intros th' Hth'.
      rewrite Hth in Hth'. injection Hth' as <-.
      destruct Hp as [E _|E _ _|E Hv' _ _]; cbn [thread_world ctrl_page] in E; [by rewrite <- E|by rewrite E|done].
    + apply (inv_none _ _ I). intros th' Hth'. apply (Ht th'). by rewrite lookup_insert_ne.
  - intros q Hq. assert (q ∉ mapped (history c)) as Hq' by (intros ?; by apply Hq, (mapped_step _ _ Hp)).
    rewrite <- (inv_fresh _ _ I q Hq'). destruct (Z.eq_dec q (ctrl_page w')) as [->|Hne].
    + apply (eff_none _ _ _ _ He). intros Hv. by apply Hq, Hown.
    + by apply (eff_others _ _ _ _ He).
Qed.
End invariant.

Section reachable.
Context {K : Kernel} {H : KernelHeader} {MF : MapsFresh K}.

Lemma inv_ext c dep dep' : conf_inv c dep -> (forall t, dep' t = dep t) -> conf_inv c dep'.
Proof using.
  intros [I1 I2 I3 I4 I5] E. split; try done; intros; rewrite E; eauto.
Qed.

Lemma call_effect c dep tid th o w' :
  conf_inv c dep -> threads c !! tid = Some th -> allowed o th -> Z.of_nat (dep tid) + 1 < 2 ^ NP_FLAG_BITS ->
  run_op o (thread_world c th) = (Val tt, w') ->
  op_effect (effect o (ctrl_page w')) (dep tid) (thread_world c th) w'.
Proof using MF.
  intros I Hth Hal Hb Hrun. apply run_op_effect; [done|by destruct th|by apply inv_flag_ok|done].
Qed.

Lemma inv_step c dep tid eff c' :
  conf_inv c dep -> step c (tid, eff) c' -> Z.of_nat (dep tid) + 1 < 2 ^ NP_FLAG_BITS ->
  conf_inv c' (fun t => if tid =? t then fst (np_spec (dep t) eff) else dep t).
Proof using MF.
  intros I Hstep Hb. inversion Hstep as [c1 tid1 e Hnone|c1 tid1 th o w' Hth Hal Hrun]; subst.
  - apply (inv_ext _ dep); [by apply inv_start|]. intros t. cbn [np_spec fst]. by destruct (_ =? _).
  - apply (inv_call _ _ _ th); [done..| |apply effect_invalid]. by apply call_effect.
Qed.

Lemma depth_bound ls tid :
  Forall (fun l => length (snd l) <= 1)%nat ls -> (depth ls tid <= length ls)%nat.
Proof using.
  intros Hls. etrans; [apply np_spec_bound|]. cbn [Nat.add]. unfold ops_of.
  induction Hls as [|[t eff] ls Hl _ IH]; [done|]. cbn [flat_map fst snd length] in *.
  rewrite length_app. destruct (t =? tid); cbn [length]; lia.
Qed.

Lemma step_label c l c' : step c l c' -> (length (snd l) <= 1)%nat.
Proof using. intros []; [cbn; lia|apply effect_length]. Qed.

Lemma steps_labels c ls c' : steps c ls c' -> Forall (fun l => length (snd l) <= 1)%nat ls.
Proof using.
  induction 1 as [|ls c1 l c2 _ IH Hstep]; [done|]. apply Forall_app. split; [done|].
  apply Forall_singleton. by eapply step_label.
Qed.

Lemma steps_inv c0 ls c :
  at_start c0 -> steps c0 ls c -> Z.of_nat (length ls) < 2 ^ NP_FLAG_BITS -> conf_inv c (depth ls).
Proof using MF.
  intros H0. induction 1 as [|ls c1 [tid eff] c2 Hs IH Hstep]; intros Hb; [by apply start_inv|].
  rewrite length_app in Hb. cbn [length] in Hb.
  pose proof (depth_bound ls tid (steps_labels _ _ _ Hs)).
  eapply inv_ext; [eapply inv_step; [apply IH; lia|done|lia]|]. intros t. apply depth_snoc.
Qed.

(** C4: whatever the threads of a process call, in any interleaving, and
    whatever the kernel answers (as long as [mmap] hands out no address
    twice), no two threads ever share a mapped control page, and the
    [np.flag] of every mapped page is the nesting depth of the thread that
    mapped it, as if that thread had run alone; a thread without a page is in
    no section.  The number of calls is bounded only by the width of the
    flag. *)
Theorem threads_invariant c0 ls c :
  at_start c0 -> steps c0 ls c -> Z.of_nat (length ls) < 2 ^ NP_FLAG_BITS ->
  (forall t1 t2 th1 th2, t1 <> t2 -> threads c !! t1 = Some th1 -> threads c !! t2 = Some th2 ->
     valid_page (t_page th1) -> t_page th1 <> t_page th2) /\
  (forall tid th, threads c !! tid = Some th ->
     if decide (valid_page (t_page th)) then flags c (t_page th) = Z.of_nat (depth ls tid)
     else depth ls tid = O).
Proof using MF.
  intros H0 Hs Hb. pose proof (steps_inv _ _ _ H0 Hs Hb) as I. split; [apply (inv_distinct _ _ I)|].
  intros tid th Hth. destruct (decide _) as [Hv|Hv]; [by apply (inv_flag _ _ I)|].
  apply (inv_none _ _ I). by intros th' [= <-]%(eq_trans (eq_sym Hth)).
Qed.

(** C35: the process yields from a non-preemptive section only when a thread
    leaves its outermost one: a step in which it yields is an [exit_np] of a
    thread whose depth was 1, and other threads' sections do not matter.  And
    every such step reads [np.preempt] of this thread's own page, after a memory
    barrier, and yields exactly when the kernel has set it there. *)
Theorem yields_outermost c0 ls c1 tid eff c2 :
  at_start c0 -> steps c0 ls c1 -> Z.of_nat (length ls) + 1 < 2 ^ NP_FLAG_BITS ->
  step c1 (tid, eff) c2 ->
  (yields (history c2) <> yields (history c1) -> eff = [ExitNp] /\ depth ls tid = 1%nat) /\
  (eff = [ExitNp] -> depth ls tid = 1%nat ->
     depth (ls ++ [(tid, eff)]) tid = O /\
     exists th r r', threads c1 !! tid = Some th /\ valid_page (t_page th) /\
       history c2 = (if ret_of r =? 0 then [] else [Sys Sched_yield r']) ++
         Sys (LoadPreempt (t_page th)) r :: Barrier :: history c1).
Proof using MF.
  intros H0 Hs Hb Hstep. pose proof (steps_inv _ _ _ H0 Hs ltac:(lia)) as I.
  pose proof (depth_bound ls tid (steps_labels _ _ _ Hs)).
  inversion Hstep as [c tid1 e Hnone|c tid1 th o w' Hth Hal Hrun]; subst; [done|].
  pose proof (call_effect _ _ _ _ _ _ I Hth Hal ltac:(lia) Hrun) as He. split.
  - intros Hy. destruct (decide (effect o (ctrl_page w') = [ExitNp])) as [E|E];
      [destruct (decide (depth ls tid = 1%nat)) as [Hd|Hd]; [done|]|]; destruct Hy; apply (eff_yields _ _ _ _ He); auto.
  - intros E Hd. split; [by rewrite depth_snoc, Z.eqb_refl, E, Hd|].
    destruct (eff_outermost _ _ _ _ He E Hd) as (Hv & r & r' & Htr). by exists th, r, r'.
Qed.

(** C34: no thread is killed by its control page: as long as the page of a
    thread is not the failed mapping, every call of it returns, so that the
    thread can take its step. *)
Theorem threads_progress c0 ls c tid th o :
  at_start c0 -> steps c0 ls c -> Z.of_nat (length ls) + 1 < 2 ^ NP_FLAG_BITS ->
  threads c !! tid = Some th -> t_page th <> MAP_FAILED ->
  (forall m, o <> Other m) -> allowed o th ->
  exists w', run_op o (thread_world c th) = (Val tt, w') /\
    step c (tid, effect o (ctrl_page w')) (resume c tid w').
Proof using MF.
  intros H0 Hs Hb Hth Hp Ho Hal. pose proof (steps_inv _ _ _ H0 Hs ltac:(lia)) as I.
  pose proof (depth_bound ls tid (steps_labels _ _ _ Hs)).
  assert (Z.of_nat (depth ls tid) + 1 < 2 ^ NP_FLAG_BITS) as Hd by lia.
  pose proof (inv_flag_ok _ _ _ _ I Hth) as Hok. set (w := thread_world c th) in *.
  assert (ctrl_page w <> MAP_FAILED) as Hpw by done.
  enough (exists w', run_op o w = (Val tt, w')) as [w' Hrun].
  { exists w'. split; [done|]. by apply (step_call c tid th). }
  destruct o as [o| | | |m]; cbn [run_op].
  - destruct (valid_page_dec (ctrl_page w)) as [Hv|Hv].
    { destruct (np_mapped_effect o (depth ls tid) w) as (w' & Hrun & _); [done|by apply Hok|lia|by exists w']. }
    destruct (not_valid_cases _ Hv) as [E|E]; [|done]. destruct o; cbn [np_run].
    + destruct (enter_np_unmapped (depth ls tid) w E Hok Hd) as (w' & Hrun & _). by exists w'.
    + unfold exit_np. rewrite bind_get, E. by exists w.
  - unfold get_ctrl_page. rewrite bind_bind.
    destruct (ensure_ctrl_page_effect w) as (ok & w1 & Hrun1 & _). rewrite (bind_val _ _ _ _ _ Hrun1).
    destruct ok; by eexists.
  - unfold requested_to_preempt, load_preempt. rewrite bind_bind, bind_get.
    destruct (Z.eqb_spec (ctrl_page w) NULL); [by eexists|].
    rewrite !bind_bind, deref_bind by done. mrun. by eexists.
  - destruct (init_rt_thread_total w) as (z & w' & Hrun). rewrite (bind_val _ _ _ _ _ Hrun). by exists w'.
  - by destruct (Ho m).
Qed.
End reachable.

(** ** Schedules *)

(** A schedule is executed step by step; None where it cannot go on. *)
Inductive event_of := Start (tid e : Z) | Call (tid : Z) (o : op).

Section schedules.
Context {K : Kernel} {H : KernelHeader}.

Definition exec_step (c : conf) (e : event_of) : option ((Z * list np_op) * conf) :=
  match e with
  | Start tid e =>
      match threads c !! tid with
      | None => Some ((tid, []), mk_conf (<[tid := mk_thread e NULL]> (threads c)) (history c) (flags c))
      | Some _ => None
      end
  | Call tid o =>
      match threads c !! tid with
      | Some th =>
          if match o with InitRtThread => t_page th =? NULL | Other _ => false | _ => true end then
            match run_op o (thread_world c th) with
            | (Val _, w') => Some ((tid, effect o (ctrl_page w')), resume c tid w')
            | _ => None
            end
          else None
      | None => None
      end
  end.

Lemma exec_step_ok c e l c' : exec_step c e = Some (l, c') -> step c l c'.
Proof.
  destruct e as [tid e|tid o]; cbn [exec_step]; destruct (threads c !! tid) as [th|] eqn:Hth; try done.
  - intros [= <- <-]. by apply step_start.
  - destruct (match o with InitRtThread => _ | _ => _ end) eqn:Hal; [|done].
    destruct (run_op o _) as [[[]| | | |] w'] eqn:Hrun; try done. intros [= <- <-].
    apply (step_call c tid th); [done| |done]. destruct o; cbn [allowed]; try done. by apply Z.eqb_eq.
Qed.

Fixpoint exec_steps (c : conf) (ls : list (Z * list np_op)) (es : list event_of) :
    option (list (Z * list np_op) * conf) :=
  match es with
  | [] => Some (ls, c)
  | e :: es =>
      match exec_step c e with
      | Some (l, c') => exec_steps c' (ls ++ [l]) es
      | None => None
      end
  end.

Lemma exec_steps_ok c0 es : forall c ls ls' c',
  steps c0 ls c -> exec_steps c ls es = Some (ls', c') -> steps c0 ls' c'.
Proof.
  induction es as [|e es IH]; intros c ls ls' c' Hs; cbn [exec_steps].
  - by intros [= <- <-].
  - destruct (exec_step c e) as [[l c1]|] eqn:E; [|done]. apply IH.
    apply (steps_snoc _ _ c); [done|]. by apply exec_step_ok in E.
Qed.
End schedules.

(** ** Concrete runs *)

Module ThreadsWitness.
Import Sim.

(** Maps at the next free address and asks for every preemption. *)
Definition k_threads : Kernel := fun t c =>
  match c with
  | Sysconf _ => Succ 4096
  | Open _ _ _ => Succ 3
  | Mmap _ _ _ _ => Succ (foldr Z.max 65535 (mapped t) + 1)
  | LoadPreempt _ => Succ 1
  | _ => Succ 0
  end.

Lemma foldr_max_ge d l : d <= foldr Z.max d l.
Proof. induction l; cbn [foldr]; lia. Qed.

Lemma foldr_max_elem d l x : x ∈ l -> x <= foldr Z.max d l.
Proof. induction 1; cbn [foldr]; lia. Qed.

#[export] Instance k_threads_fresh : MapsFresh k_threads.
Proof.
  split; [intros t; by exists 4096|]. intros t size prot fl fd. left. eexists. split; [done|].
  pose proof (foldr_max_ge 65535 (mapped t)). split; [unfold valid_page, NULL, MAP_FAILED; lia|].
  intros ?%(foldr_max_elem 65535). lia.
Qed.

Definition c_start : conf := mk_conf ∅ [] (fun _ => 0).
Lemma c_start_ok : at_start c_start.
Proof. done. Qed.

(** Thread 1 enters two sections, thread 2 one, which it leaves. *)
Definition schedule : list event_of :=
  [Start 1 0; Start 2 0; Call 1 InitRtThread; Call 1 (Np EnterNp); Call 2 (Np EnterNp);
   Call 1 (Np EnterNp); Call 2 (Np ExitNp); Call 1 (Np ExitNp)].
Definition labels : list (Z * list np_op) :=
  [(1, []); (2, []); (1, []); (1, [EnterNp]); (2, [EnterNp]); (1, [EnterNp]); (2, [ExitNp]); (1, [ExitNp])].
Definition run_of (es : list event_of) : conf :=
  match @exec_steps k_threads sim_header c_start [] es with Some (_, c) => c | None => c_start end.

Lemma run_of_steps es ls :
  option_map fst (@exec_steps k_threads sim_header c_start [] es) = Some ls ->
  @steps k_threads sim_header c_start ls (run_of es).
Proof.
  unfold run_of. destruct (@exec_steps k_threads sim_header c_start [] es) as [[ls' c]|] eqn:E; [|done].
  intros [= <-]. eapply exec_steps_ok; [|exact E]. constructor.
Qed.

Lemma labels_run : @steps k_threads sim_header c_start labels (run_of schedule).
Proof. apply run_of_steps. vm_compute. reflexivity. Qed.

Lemma labels_6 : @steps k_threads sim_header c_start (take 6 labels) (run_of (take 6 schedule)).
Proof. apply run_of_steps. vm_compute. reflexivity. Qed.

Lemma threads_invariant_witness :
  (forall t1 t2 th1 th2, t1 <> t2 -> threads (run_of schedule) !! t1 = Some th1 ->
     threads (run_of schedule) !! t2 = Some th2 -> valid_page (t_page th1) -> t_page th1 <> t_page th2) /\
  (forall tid th, threads (run_of schedule) !! tid = Some th ->
     if decide (valid_page (t_page th)) then flags (run_of schedule) (t_page th) = Z.of_nat (depth labels tid)
     else depth labels tid = O).
Proof.
  apply (@threads_invariant k_threads sim_header k_threads_fresh c_start labels (run_of schedule)
    c_start_ok labels_run). done.
Defined.

Lemma yields_outermost_witness :
  ([ExitNp] = [ExitNp] /\ depth (take 6 labels) 2 = 1%nat) /\
  depth (take 6 labels ++ [(2, [ExitNp])]) 2 = O /\
  exists th r r', threads (run_of (take 6 schedule)) !! 2 = Some th /\ valid_page (t_page th) /\
    history (run_of (take 7 schedule)) = (if ret_of r =? 0 then [] else [Sys Sched_yield r']) ++
      Sys (LoadPreempt (t_page th)) r :: Barrier :: history (run_of (take 6 schedule)).
Proof.
  destruct (@yields_outermost k_threads sim_header k_threads_fresh c_start (take 6 labels)
    (run_of (take 6 schedule)) 2 [ExitNp] (run_of (take 7 schedule)) c_start_ok labels_6) as [Hy Hout]; [done| |].
  - apply (exec_step_ok _ (Call 2 (Np ExitNp))). vm_compute. reflexivity.
  - split; [apply Hy; vm_compute; done|apply Hout; [done|vm_compute; reflexivity]].
Defined.

Lemma threads_progress_witness :
  exists w', @run_op k_threads sim_header (Np EnterNp)
      (thread_world (run_of schedule) (mk_thread 0 65537)) = (Val tt, w') /\
    @step k_threads sim_header (run_of schedule) (2, effect (Np EnterNp) (ctrl_page w'))
      (resume (run_of schedule) 2 w').
Proof.
  apply (@threads_progress k_threads sim_header k_threads_fresh c_start labels (run_of schedule) 2
    (mk_thread 0 65537) (Np EnterNp) c_start_ok labels_run); try done.
Defined.

(** Depth 1 in the page of thread 1, none in that of thread 2. *)
Example flags_run :
  (flags (run_of schedule) 65536, flags (run_of schedule) 65537) = (1, 0).
Proof. vm_compute. reflexivity. Qed.
End ThreadsWitness.
