(* ===== verification/Getopt.v ===== *)
(** * getopt as the tools use it

    The C library's [getopt] as the tools under bin/ use it: short options,
    arguments permuted so that options may follow operands, an option string
    that starts with none of the special characters.  A tool sees the items in
    order; the operands are what its ++left of [argv] from [optind] on.  Also
    [bail_out] of bin/common.c. *)
From S2P Require Import Prelude Machine CString.

(** What one call of [getopt] returns: an option with its argument, or '?' for
    an unknown option or a missing argument. *)
Inductive opt_item :=
  | Opt (c : ascii) (optarg : string)
  | Unknown (c : ascii)
  | Missing (c : ascii).

(** Whether an option string has an option, and whether it takes an argument. *)
Fixpoint opt_lookup (optstring : bytes) (c : ascii) : option bool :=
  match optstring with
  | [] => None
  | o :: optstring =>
      if Ascii.eqb c ":"%char then None
      else if Ascii.eqb o c then
        Some (match optstring with d :: _ => Ascii.eqb d ":"%char | [] => false end)
      else opt_lookup optstring c
  end.

(** The options of one argument, without its dash; the flag tells whether the
    next argument was used up as an option's argument. *)
Fixpoint cluster (optstring cs : bytes) (next : option string) : list opt_item * bool :=
  match cs with
  | [] => ([], false)
  | c :: cs =>
      match opt_lookup optstring c with
      | None => let '(its, used) := cluster optstring cs next in (Unknown c :: its, used)
      | Some false => let '(its, used) := cluster optstring cs next in (Opt c "" :: its, used)
      | Some true =>
          match cs, next with
          | _ :: _, _ => ([Opt c (String.string_of_list_ascii cs)], false)
          | [], Some a => ([Opt c a], true)
          | [], None => ([Missing c], false)
          end
      end
  end.

(** What an argument is: the end of the options, options after one dash, or an
    operand (a lone dash too). *)
Inductive word := EndOfOptions | Options (cs : bytes) | Operand.

Definition classify (a : string) : word :=
  match bytes_of a with
  | c :: d :: l =>
      if Ascii.eqb c "-"%char then
        if Ascii.eqb d "-"%char && (length l =? 0)%nat then EndOfOptions else Options (d :: l)
      else Operand
  | _ => Operand
  end.

(** The items and operands of the arguments after the program's name. *)
Fixpoint getopt_all (optstring : bytes) (args : list string) : list opt_item * list string :=
  match args with
  | [] => ([], [])
  | a :: rest =>
      match classify a with
      | EndOfOptions => ([], rest)
      | Operand => let '(its, ops) := getopt_all optstring rest in (its, a :: ops)
      | Options cs =>
          match cluster optstring cs (head rest), rest with
          | (its, true), _ :: rest =>
              let '(its', ops) := getopt_all optstring rest in (its ++ its', ops)
          | (its, _), _ => let '(its', ops) := getopt_all optstring rest in (its ++ its', ops)
          end
      end
  end.

(** ** Options that were written down *)

(** An option and its argument, if it takes one, as separate arguments. *)
Definition render (o : ascii * option string) : list string :=
  String "-"%char (String (fst o) "") :: match snd o with Some a => [a] | None => [] end.

Definition item (o : ascii * option string) : opt_item := Opt (fst o) (default ""%string (snd o)).

Definition wf_opt (optstring : bytes) (o : ascii * option string) : Prop :=
  opt_lookup optstring (fst o) = Some (bool_decide (is_Some (snd o))) /\ fst o <> "-"%char.

(** An argument [getopt] does not take for an option. *)
Definition operand (a : string) : Prop := classify a = Operand.

Lemma getopt_operand optstring a args :
  operand a ->
  getopt_all optstring (a :: args) =
    (fst (getopt_all optstring args), a :: snd (getopt_all optstring args)).
Proof.
  unfold operand. intros Ha. cbn [getopt_all]. rewrite Ha.
  by destruct (getopt_all optstring args).
Qed.

Lemma getopt_option optstring o args :
  wf_opt optstring o ->
  getopt_all optstring (render o ++ args) =
    (item o :: fst (getopt_all optstring args), snd (getopt_all optstring args)).
Proof.
  destruct o as [c arg]. unfold wf_opt, render, item. cbn [fst snd]. intros [Hl Hc].
  cbn [app getopt_all].
  assert (classify (String "-" (String c "")) = Options [c]) as ->.
  { change (String "-" (String c "")) with (String.string_of_list_ascii ["-"%char; c]).
    unfold classify, bytes_of. rewrite String.list_ascii_of_string_of_list_ascii.
    by rewrite (proj2 (Ascii.eqb_neq c _) Hc). }
  cbn [cluster]. rewrite Hl.
  destruct arg as [a|]; cbn [is_Some default app list.head].
  - rewrite bool_decide_true by done. by destruct (getopt_all optstring _).
  - rewrite bool_decide_false by (by intros [? ?]).
    destruct args; [done|]. by destruct (getopt_all optstring _).
Qed.

Lemma getopt_options optstring opts args :
  Forall (wf_opt optstring) opts ->
  getopt_all optstring (flat_map render opts ++ args) =
    (map item opts ++ fst (getopt_all optstring args), snd (getopt_all optstring args)).
Proof.
  induction 1 as [|o opts Ho _ IH]; cbn [flat_map map app].
  - by destruct (getopt_all optstring args).
  - by rewrite <- app_assoc, getopt_option, IH by done.
Qed.

Lemma getopt_operands optstring ops :
  Forall operand ops -> getopt_all optstring ops = ([], ops).
Proof. induction 1 as [|a ops Ha _ IH]; [done|]. by rewrite getopt_operand, IH by done. Qed.

(** Options are found before and after operands. *)
Lemma getopt_render optstring ops1 opts ops2 :
  Forall (wf_opt optstring) opts -> Forall operand ops1 -> Forall operand ops2 ->
  getopt_all optstring (ops1 ++ flat_map render opts ++ ops2) = (map item opts, ops1 ++ ops2).
Proof.
  intros Ho H1 H2. induction H1 as [|a ops1 Ha _ IH]; cbn [app].
  - by rewrite getopt_options, getopt_operands, app_nil_r by done.
  - by rewrite getopt_operand, IH by done.
Qed.

(** The options an option string lists. *)
Fixpoint opt_table (optstring : bytes) : list (ascii * bool) :=
  match optstring with
  | [] => []
  | o :: optstring =>
      (o, match optstring with d :: _ => Ascii.eqb d ":"%char | [] => false end) :: opt_table optstring
  end.

Lemma opt_lookup_table optstring c b :
  opt_lookup optstring c = Some b -> In (c, b) (opt_table optstring) /\ c <> ":"%char.
Proof.
  induction optstring as [|o l IH]; cbn [opt_lookup opt_table]; [done|].
  destruct (Ascii.eqb_spec c ":") as [->|Hc]; [done|].
  destruct (Ascii.eqb_spec o c) as [->|_]; [intros [= <-]; split; [by left|done]|].
  intros Hl. destruct (IH Hl). split; [by right|done].
Qed.

(** A well-formed option is one of the table, with an argument when it takes
    one. *)
Lemma wf_opt_table optstring c a :
  wf_opt optstring (c, a) ->
  c <> ":"%char /\
  exists b, In (c, b) (opt_table optstring) /\ (if b : bool then exists s, a = Some s else a = None).
Proof.
  intros [Hl _]. cbn [fst snd] in Hl. apply opt_lookup_table in Hl as [Hin Hc]. split; [done|].
  eexists. split; [exact Hin|]. destruct a as [s|].
  - rewrite bool_decide_true by done. by exists s.
  - by rewrite bool_decide_false by (by intros [? ?]).
Qed.

(** Splits a well-formed option of a concrete option string into its cases. *)
Ltac opt_cases H :=
  let Hc := fresh in let b := fresh in let Hin := fresh in let Ha := fresh in
  apply wf_opt_table in H; destruct H as (Hc & b & Hin & Ha); vm_compute in Hin;
  repeat (destruct Hin as [Hin|Hin]; [injection Hin as <- <-; cbn iota in Ha|]);
  try contradiction; try congruence;
  repeat match goal with H : ex _ |- _ => destruct H as [? H] end; subst.

(** What [getopt] prints for '?' items. *)
Definition getopt_message (prog : string) (it : opt_item) : M unit :=
  match it with
  | Opt _ _ => mret tt
  | Unknown c => eprintf "%s: invalid option -- '%c'\n" [AStr prog; AStr (String c "")]
  | Missing c => eprintf "%s: option requires an argument -- '%c'\n" [AStr prog; AStr (String c "")]
  end.

(** [while ((opt = getopt(argc, argv, OPTSTR)) != -1) { ... }] with [body] on
    the variables of the loop; '?' stands for itself. *)
Fixpoint getopt_loop {A} (prog : string) (body : ascii -> string -> A -> M A) (items : list opt_item)
    (vars : A) : M A :=
  match items with
  | [] => mret vars
  | it :: items =>
      getopt_message prog it;;
      vars ← match it with Opt c a => body c a vars | _ => body "?"%char "" vars end;
      getopt_loop prog body items vars
  end.

(** When every option its ++accepted, the loop folds the options' effects. *)
Lemma getopt_loop_fold {A} prog (body : ascii -> string -> A -> M A) (f : A -> opt_item -> A) items vars w :
  (forall it a, it ∈ items -> exists c s, it = Opt c s /\ forall w, body c s a w = (Val (f a it), w)) ->
  getopt_loop prog body items vars w = (Val (foldl f vars items), w).
Proof.
  revert vars. induction items as [|it items IH]; intros vars Hok; [done|]. cbn [getopt_loop foldl].
  destruct (Hok it vars) as (c & s & -> & Hb); [by left|]. cbn [getopt_message]. mrun.
  rewrite (bind_val _ _ _ _ _ (Hb w)). apply IH. intros it' a Hin. apply Hok. by right.
Qed.
