(* ===== verification/ReleaseTs.v ===== *)
(** * bin/release_ts.c: releasing a task system

    The tool that waits until the tasks of a task system are ready, as the
    statistics file tells, and releases them.  The wait is a loop on the
    kernel; its fuel counts the polls. *)
From S2P Require Import Prelude Machine CString Laws Iface Syscalls Migration Litmus Getopt.

Definition OPTSTR : string := "d:wf:".

Section release.
Context {K : Kernel}.

Definition usage {A} (error : string) : M A :=
  eprintf "%s\nUsage: release_ts [OPTIONS]\n\nOptions: -d  <delay in ms>  (default: 1000ms)\n         -w  wait until all tasks are ready for release\n             (as determined by /proc/litmus/stats\n         -f  <#tasks> wait for #tasks (default: 0)\n\n"
    [AStr error];;
  exit_ 1.

(** The condition of the [do ... while]. *)
Definition not_ready (expected ready all : Z) : bool :=
  (ready <? expected) || ((expected =? 0) && (ready <? all)).

(** [stack n] is the uninitialised memory the [n]-th parse of the statistics
    starts from. *)
Fixpoint wait_loop (fuel : nat) (stack : Z -> bytes) (expected ready all loops : Z) : M unit :=
  match fuel with
  | O => no_fuel
  | S fuel =>
      when (0 <? loops) (syscall (Sleep 1);; mret tt);;
      let n := loops in
      let loops := loops + 1 in
      '(ok, ready, all) ← read_litmus_stats (stack n) ready all;
      when (ok =? 0) (perror "read_litmus_stats");;
      if not_ready expected ready all then wait_loop fuel stack expected ready all loops
      else mret tt
  end.

Definition wait_until_ready (fuel : nat) (stack : Z -> bytes) (expected : Z) : M unit :=
  wait_loop fuel stack expected 0 0 0.

Record vars := mk_vars { delay : Z; wait : Z; expected : Z }.

Definition option_switch (opt : ascii) (optarg : string) (v : vars) : M vars :=
  if Ascii.eqb opt "d" then mret (mk_vars (u64 (ms2ns (atoi (bytes_of optarg)))) (wait v) (expected v))
  else if Ascii.eqb opt "w" then mret (mk_vars (delay v) 1 (expected v))
  else if Ascii.eqb opt "f" then mret (mk_vars (delay v) 1 (atoi (bytes_of optarg)))
  else if Ascii.eqb opt ":" then usage "Argument missing."
  else usage "Bad argument.".

(** [args] are the arguments after the program's name [prog]. *)
Definition main (fuel : nat) (stack : Z -> bytes) (prog : string) (args : list string) : M Z :=
  v ← getopt_loop prog option_switch (fst (getopt_all (bytes_of OPTSTR) args))
        (mk_vars (u64 (ms2ns 1000)) 0 0);
  when (negb (wait v =? 0)) (wait_until_ready fuel stack (expected v));;
  released ← release_ts (delay v);
  if released <? 0 then
    perror "release task system";;
    exit_ 1
  else
    printf "Released %d real-time tasks.\n" [AInt released];;
    mret 0.
End release.

(** ** The wait *)

(** How often the thread slept. *)
Fixpoint sleeps (t : trace) : nat :=
  match t with
  | [] => O
  | Sys (Sleep _) _ :: t => S (sleeps t)
  | _ :: t => sleeps t
  end.

#[export] Instance sleeps_quiet : FileQuiet sleeps.
Proof. split; intros; intros [] t; reflexivity. Qed.

Section waiting.
Context {K : Kernel} (content : nat -> bytes) {PO : Polls K LITMUS_STATS_FILE content}.
Context (all ready : nat -> Z).
Hypothesis Hcontent : forall n, content n = stats_text (all n) (ready n) /\
  0 <= all n <= INT_MAX /\ 0 <= ready n <= INT_MAX.

Abbreviation polled w := (opens LITMUS_STATS_FILE (tr w)).

Lemma poll stack r0 a0 w :
  exists w', read_litmus_stats stack r0 a0 w = (Val (1, ready (polled w), all (polled w)), w') /\
    polled w' = S (polled w) /\ sleeps (tr w') = sleeps (tr w).
Proof using PO Hcontent.
  destruct (Hcontent (polled w)) as (Hc & Ha & Hr).
  destruct (read_litmus_stats_run content (all (polled w)) (ready (polled w)) stack r0 a0 w PO Hc Ha Hr)
    as (w' & Hrun & Ho & _).
  exists w'. split_and!; [done..|].
  by apply (keeps_run _ _ _ _ _ (keeps_read_litmus_stats sleeps _ _ _) Hrun).
Qed.

(** The loop polls until the first poll that finds enough tasks ready. *)
Lemma wait_loop_run stack expected k fuel r0 a0 loops w :
  0 <= loops ->
  (forall i, (i < k)%nat -> not_ready expected (ready (polled w + i)%nat) (all (polled w + i)%nat) = true) ->
  not_ready expected (ready (polled w + k)%nat) (all (polled w + k)%nat) = false ->
  exists w', wait_loop fuel stack expected r0 a0 loops w =
      (if (k <? fuel)%nat then Val tt else NoFuel, w') /\
    ((k < fuel)%nat -> polled w' = (polled w + S k)%nat /\
      sleeps (tr w') = (sleeps (tr w) + (if (loops =? 0)%Z then k else S k))%nat).
Proof using PO Hcontent.
  revert k r0 a0 loops w. induction fuel as [|fuel IH]; intros k r0 a0 loops w Hl Hbefore Hat.
  { exists w. split; [done|lia]. }
  cbn [wait_loop].
  assert (exists w1, (when (0 <? loops) (syscall (Sleep 1);; mret tt)) w = (Val tt, w1) /\
    polled w1 = polled w /\ sleeps (tr w1) = (sleeps (tr w) + (if (loops =? 0)%Z then 0 else 1))%nat)
    as (w1 & Hw1 & Ho1 & Hs1).
  { unfold when. destruct (Z.eqb_spec loops 0) as [->|].
    - exists w. split_and!; [done..|lia].
    - rewrite (proj2 (Z.ltb_lt _ _)) by lia. eexists. split; [done|]. rewrite tr_after.
      split; [done|]. cbn [sleeps]. lia. }
  rewrite (bind_val _ _ _ _ _ Hw1). cbn zeta.
  destruct (poll (stack loops) r0 a0 w1) as (w2 & Hw2 & Ho2 & Hs2).
  rewrite (bind_val _ _ _ _ _ Hw2), Ho1. cbn [Z.eqb when]. mrun.
  destruct k as [|k].
  - rewrite Nat.add_0_r in Hat. rewrite Hat. exists w2. split; [done|]. intros _.
    split; [lia|]. rewrite Hs2, Hs1. by destruct (loops =? 0).
  - rewrite <- (Nat.add_0_r (polled w)), Hbefore by lia. rewrite Nat.add_0_r.
    destruct (IH k (ready (polled w)) (all (polled w)) (loops + 1) w2) as (w' & Hrun & Hrest).
    + lia.
    + intros i Hi. rewrite Ho2, Ho1, Nat.add_succ_comm. apply Hbefore. lia.
    + by rewrite Ho2, Ho1, Nat.add_succ_comm.
    + exists w'. rewrite Hrun. change (S k <? S fuel)%nat with (k <? fuel)%nat. split; [done|].
      intros Hk. destruct Hrest as [Ho' Hs']; [lia|]. rewrite Ho', Hs', Hs2, Hs1, Ho2, Ho1.
      rewrite (proj2 (Z.eqb_neq (loops + 1) 0)) by lia. destruct (loops =? 0); lia.
Qed.
End waiting.

(** ** The tool *)

(** The releases asked for, newest first, with their answers. *)
Definition releases (t : trace) : list (Z * reply) :=
  omap (fun e => match e with Sys (NR_release_ts d) r => Some (d, r) | _ => None end) t.

(** What an option on the command line sets; the last one of a kind counts. *)
Definition option_effect (v : vars) (o : ascii * option string) : vars :=
  match o with
  | ("d"%char, Some a) => mk_vars (u64 (atoi (bytes_of a) * 1000000)) (wait v) (expected v)
  | ("w"%char, _) => mk_vars (delay v) 1 (expected v)
  | ("f"%char, Some a) => mk_vars (delay v) 1 (atoi (bytes_of a))
  | _ => v
  end.

Definition default_vars : vars := mk_vars 1000000000 0 0.

#[export] Instance releases_quiet : FileQuiet releases.
Proof. by split. Qed.

Section tool.
Context {K : Kernel}.

Lemma options_run prog ops1 opts ops2 w :
  Forall (wf_opt (bytes_of OPTSTR)) opts -> Forall operand ops1 -> Forall operand ops2 ->
  getopt_loop prog option_switch
    (fst (getopt_all (bytes_of OPTSTR) (ops1 ++ flat_map render opts ++ ops2)))
    (mk_vars (u64 (ms2ns 1000)) 0 0) w = (Val (foldl option_effect default_vars opts), w).
Proof.
  intros Ho H1 H2. rewrite getopt_render by done. cbn [fst].
  change (mk_vars (u64 (ms2ns 1000)) 0 0) with default_vars. generalize default_vars.
  induction Ho as [|o opts Hwf _ IH]; intros v; [done|]. cbn [map getopt_loop foldl].
  destruct o as [c a]. opt_cases Hwf; apply IH.
Qed.

Lemma wait_loop_releases fuel stack expected r0 a0 loops :
  keeps releases (wait_loop fuel stack expected r0 a0 loops).
Proof.
  revert r0 a0 loops. induction fuel as [|fuel IH]; intros; cbn [wait_loop]; keeps_tac.
  by apply keeps_read_litmus_stats.
Qed.

(** The end of [main]: one release, its result reported. *)
Lemma release_run d w :
  let c := NR_release_ts d in
  exists r w', (released ← release_ts d;
    if released <? 0 then perror "release task system";; exit_ 1
    else printf "Released %d real-time tasks.\n" [AInt released];; mret 0) w =
      (if s32 (ret_of r) <? 0 then Exit 1 else Val 0, w') /\
    sleeps (tr w') = sleeps (tr w) /\ releases (tr w') = (d, r) :: releases (tr w).
Proof.
  cbn zeta. unfold release_ts. rewrite bind_syscall_int. set (r := kernel _ _). exists r.
  destruct (s32 (ret_of r) <? 0); mrun; (eexists; split; [done|]); cbn [tr push];
    by rewrite tr_after.
Qed.

(** Are there enough tasks: at least the number [n] asked for, and all of them
    when none was asked for? *)
Definition enough (n ready all : Z) : Prop := n <= ready /\ (n = 0 -> all <= ready).

Lemma not_ready_enough n ready all : not_ready n ready all = false <-> enough n ready all.
Proof.
  unfold not_ready, enough. rewrite orb_false_iff, Z.ltb_ge. destruct (Z.eqb_spec n 0); cbn [andb]; [rewrite Z.ltb_ge|]; tauto.
Qed.

(** C26: [release_ts], on any well-formed options in any order (before or after
    other arguments), polls the statistics once a second until the first time
    at which at least the requested number of tasks is ready, or, when no
    number was given, all of them are; only then it asks for one release with
    the delay in nanoseconds, and it ends with 0 or, if the release failed,
    with 1.  The [k] is the poll that succeeds; without -w and -f there is no
    wait. *)
Theorem release_main content all ready k fuel stack prog ops1 opts ops2 w :
  Polls K LITMUS_STATS_FILE content ->
  (forall n, content n = stats_text (all n) (ready n) /\
    0 <= all n <= INT_MAX /\ 0 <= ready n <= INT_MAX) ->
  Forall (wf_opt (bytes_of OPTSTR)) opts -> Forall operand ops1 -> Forall operand ops2 ->
  let v := foldl option_effect default_vars opts in
  let n0 := opens LITMUS_STATS_FILE (tr w) in
  let ends_wait i := enough (expected v) (ready (n0 + i)%nat) (all (n0 + i)%nat) in
  (forall i, (i < k)%nat -> ~ ends_wait i) -> ends_wait k -> (k < fuel)%nat ->
  exists r w', main fuel stack prog (ops1 ++ flat_map render opts ++ ops2) w =
      (if s32 (ret_of r) <? 0 then Exit 1 else Val 0, w') /\
    sleeps (tr w') = (sleeps (tr w) + (if (wait v =? 0)%Z then 0 else k))%nat /\
    releases (tr w') = (delay v, r) :: releases (tr w).
Proof.
  intros PO Hc Ho H1 H2 v n0 ends_wait Hbefore Hat%not_ready_enough Hfuel.
  assert (forall i, (i < k)%nat -> not_ready (expected v) (ready (n0 + i)%nat) (all (n0 + i)%nat) = true) as Hbefore'.
  { intros i Hi. apply not_false_iff_true. intros E. by apply (Hbefore i Hi), not_ready_enough. }
  unfold main.
  rewrite (bind_val _ _ _ _ _ (options_run prog ops1 opts ops2 w Ho H1 H2)). fold v.
  unfold when. destruct (wait v =? 0); cbn [negb]; mrun.
  - destruct (release_run (delay v) w) as (r & w' & Hrun & Hs & Hr). exists r, w'.
    rewrite Hrun. split_and!; [done|lia|done].
  - destruct (wait_loop_run content all ready Hc stack (expected v) k fuel 0 0 0 w)
      as (w1 & Hw1 & Hw1'); [done..|].
    rewrite (proj2 (Nat.ltb_lt _ _) Hfuel) in Hw1. destruct (Hw1' Hfuel) as [_ Hs1].
    unfold wait_until_ready. rewrite (bind_val _ _ _ _ _ Hw1).
    destruct (release_run (delay v) w1) as (r & w' & Hrun & Hs & Hr). exists r, w'.
    rewrite Hrun. split_and!; [done|rewrite Hs, Hs1; cbn; lia|].
    rewrite Hr. f_equal.
    by apply (keeps_run _ _ _ _ _ (wait_loop_releases _ _ _ _ _ _) Hw1).
Qed.
End tool.

Section unreadable.
Context {K : Kernel}.

(** When the statistics file cannot be opened, the wait of the option -w
    is no wait: the two counts keep their initial zeros, the tool complains
    once and releases at once. *)
Theorem unreadable_stats_release e fuel stack prog w :
  (forall t, kernel t (Open LITMUS_STATS_FILE O_RDONLY 0) = Fail e) -> (0 < fuel)%nat ->
  exists r ro w', main fuel stack prog ["-w"] w =
      (if s32 (ret_of r) <? 0 then Exit 1 else Val 0, w') /\ ro = Fail e /\
    calls (tr w') = NR_release_ts 1000000000 :: Open LITMUS_STATS_FILE O_RDONLY 0 :: calls (tr w).
Proof.
  intros Hopen Hfuel. destruct fuel as [|fuel]; [lia|]. unfold main.
  change (fst (getopt_all (bytes_of OPTSTR) ["-w"])) with [Opt "w" ""].
  cbn [getopt_loop getopt_message]. mrun. change (option_switch "w" "" _) with (mret (mk_vars 1000000000 1 0) : M vars).
  mrun. cbn [when negb Z.eqb wait expected delay wait_until_ready wait_loop].
  unfold wait_until_ready. cbn [wait_loop]. cbn [when Z.ltb Z.compare]. mrun.
  assert (read_litmus_stats (stack 0) 0 0 w =
    (Val (0, 0, 0), after (Open LITMUS_STATS_FILE O_RDONLY 0) (Fail e) w)) as Hs.
  { unfold read_litmus_stats. unfold LITMUS_STATS_FILE in *.
    erewrite (bind_val _ _ _ (-1, [])); [done|].
    rewrite read_file_no_open by (by rewrite Hopen). by rewrite Hopen. }
  rewrite (bind_val _ _ _ _ _ Hs). cbn [Z.eqb when]. unfold perror. mrun.
  change (not_ready 0 0 0) with false. cbn iota. mrun.
  match goal with |- context [release_ts _ ≫= _] => idtac end.
  unfold release_ts. rewrite bind_syscall_int. set (r := kernel _ (NR_release_ts _)).
  exists r, (Fail e). destruct (s32 (ret_of r) <? 0); mrun; (eexists; split; [done|]); (split; [done|]);
    cbn [tr push]; by rewrite !tr_after.
Qed.
End unreadable.

(** ** Concrete runs *)

Module ReleaseTsWitness.
Import Sim.

(** Twelve tasks, of which one more becomes ready with every poll. *)
Definition filling (n : nat) : bytes := stats_text 12 (Z.min 12 (Z.of_nat n)).
Definition k_filling : Kernel := sim_polls [(LITMUS_STATS_FILE, filling)] 7 4.

Lemma filling_polls : Polls k_filling LITMUS_STATS_FILE filling.
Proof. apply sim_polls_polls; [lia|done]. Qed.

(** -f 3 -d 20 after an operand: three polls find too few tasks. *)
Lemma release_main_witness :
  exists r w', @main k_filling 5 (fun _ => []) "release_ts" ["x"; "-f"; "3"; "-d"; "20"] w0 =
      (if s32 (ret_of r) <? 0 then Exit 1 else Val 0, w') /\
    sleeps (tr w') = 3%nat /\ releases (tr w') = [(20000000, r)].
Proof.
  apply (@release_main k_filling filling (fun _ => 12) (fun n => Z.min 12 (Z.of_nat n)) 3 5
    (fun _ => []) "release_ts" ["x"] [("f"%char, Some "3"); ("d"%char, Some "20")] [] w0 filling_polls).
  - intros n. split; [done|]. unfold INT_MAX. lia.
  - by repeat constructor.
  - by repeat constructor.
  - constructor.
  - intros i Hi [He _]. destruct i as [|[|[|i]]]; [by cbn in He..|lia].
  - split; [by vm_compute|]. intros E. by vm_compute in E.
  - lia.
Defined.

Lemma unreadable_stats_release_witness :
  exists r ro w', @main (sim [] 7 4) 1 (fun _ => []) "release_ts" ["-w"] w0 =
      (if s32 (ret_of r) <? 0 then Exit 1 else Val 0, w') /\ ro = Fail 2 /\
    calls (tr w') = [NR_release_ts 1000000000; Open LITMUS_STATS_FILE O_RDONLY 0].
Proof.
  apply (@unreadable_stats_release (sim [] 7 4) 2 1 (fun _ => []) "release_ts" w0); [done|lia].
Defined.
End ReleaseTsWitness.
