(* ===== verification/Double.v ===== *)
(** * The C type double

    IEEE 754 binary64 with rounding to nearest, on the Standard Library's
    executable specification of floating-point numbers; the conversions from
    and to integers, and the text conversions [strtod] and [atof].  On integers
    below 2^53 the operations the tools use are exact. *)
From Stdlib Require Export SpecFloat.
From S2P Require Import Prelude CString.

Abbreviation double := spec_float.
Definition prec : Z := 53.
Definition emax : Z := 1024.

Definition dadd : double -> double -> double := SFadd prec emax.
Definition dsub : double -> double -> double := SFsub prec emax.
Definition dmul : double -> double -> double := SFmul prec emax.
Definition ddiv : double -> double -> double := SFdiv prec emax.
Definition dlt : double -> double -> bool := SFltb.
Definition dle : double -> double -> bool := SFleb.
Definition deq : double -> double -> bool := SFeqb.

(** [(double) z] *)
Definition of_Z (z : Z) : double := binary_normalize prec emax z 0 false.
Definition dzero : double := S754_zero false.

(** A value truncated towards zero, if it is finite. *)
Definition trunc (d : double) : option Z :=
  match d with
  | S754_zero _ => Some 0
  | S754_finite s m e =>
      let a := if 0 <=? e then Zpos m * 2 ^ e else Zpos m / 2 ^ (- e) in
      Some (if s then - a else a)
  | _ => None
  end.

(** The result of converting a double to a 64-bit unsigned type when the
    truncated value does not fit, which C leaves undefined. *)
Class CastOverflow := cast_overflow : double -> Z.

(** [(unsigned long long) d] *)
Definition to_u64 {UB : CastOverflow} (d : double) : Z :=
  match trunc d with
  | Some z => if (0 <=? z) && (z <=? ULONG_MAX) then z else cast_overflow d
  | None => cast_overflow d
  end.

(** [(-1)^s * m * 10^e], rounded once. *)
Definition of_decimal (s : bool) (m e : Z) : double :=
  match m with
  | Zpos p =>
      if 0 <=? e then binary_normalize prec emax (if s then - (m * 10 ^ e) else m * 10 ^ e) 0 s
      else
        let '(mz, ez, lz) := SFdiv_core_binary prec emax m 0 (10 ^ (- e)) 0 in
        binary_round_aux prec emax s mz ez lz
  | _ => S754_zero s
  end.

(** ** strtod *)

(** The digits of a mantissa: value, number of digits after the point, total
    number of digits, rest. *)
Fixpoint digits (base acc : Z) (n : nat) (l : bytes) : Z * nat * bytes :=
  match l with
  | [] => (acc, n, [])
  | c :: l' =>
      match digit base c with
      | Some d => digits base (acc * base + d) (S n) l'
      | None => (acc, n, l)
      end
  end.

Definition mantissa (base : Z) (l : bytes) : option (Z * nat * bytes) :=
  let '(i, ni, l1) := digits base 0 O l in
  match l1 with
  | "."%char :: l2 =>
      let '(v, nf, l3) := digits base i O l2 in
      if (ni + nf =? 0)%nat then None else Some (v, nf, l3)
  | _ => if (ni =? 0)%nat then None else Some (i, O, l1)
  end.

(** The exponent after its letter, and whether the letter was followed by
    something that is none. *)
Definition exponent (lower upper : ascii) (l : bytes) : Z * bytes * bool :=
  match l with
  | c :: l1 =>
      if Ascii.eqb c lower || Ascii.eqb c upper then
        let '(neg, l2) := strip_sign l1 in
        let '(v, n, l3) := digits 10 0 O l2 in
        if (n =? 0)%nat then (0, l, true) else ((if neg : bool then - v else v), l3, false)
      else (0, l, false)
  | [] => (0, l, false)
  end.

Definition to_lower (c : ascii) : ascii :=
  let n := N_of_ascii c in if (65 <=? n)%N && (n <=? 90)%N then ascii_of_N (n + 32) else c.

(** [l] without a word in any case, if it starts with it. *)
Fixpoint strip_word (word l : bytes) : option bytes :=
  match word, l with
  | [], _ => Some l
  | c :: word, d :: l => if Ascii.eqb c (to_lower d) then strip_word word l else None
  | _, [] => None
  end.

(** A floating-point number at the start of [l], after its white space: its
    value, the rest, and whether an exponent letter stood there in vain. *)
Definition scan_double (l : bytes) : option (double * bytes * bool) :=
  let '(neg, l) := strip_sign (skip_space l) in
  match strip_word (bytes_of "inf") l with
  | Some l1 => Some (S754_infinity neg, default l1 (strip_word (bytes_of "inity") l1), false)
  | None =>
  match strip_word (bytes_of "nan") l with
  | Some l1 => Some (S754_nan, l1, false)
  | None =>
      let hex := match strip_word (bytes_of "0x") l with
        | Some l1 => match mantissa 16 l1 with Some r => Some r | None => None end
        | None => None
        end in
      match hex with
      | Some (v, nf, l1) =>
          let '(e, l2, bad) := exponent "p" "P" l1 in
          Some (match v with
            | Z0 => S754_zero neg
            | v => binary_normalize prec emax (if neg : bool then - v else v) (e - 4 * Z.of_nat nf) neg
            end, l2, bad)
      | None =>
          match mantissa 10 l with
          | Some (v, nf, l1) =>
              let '(e, l2, bad) := exponent "e" "E" l1 in
              Some (of_decimal neg v (e - Z.of_nat nf), l2, bad)
          | None => None
          end
      end
  end
  end.

Definition atof (l : bytes) : double :=
  match scan_double l with Some (d, _, _) => d | None => dzero end.

(** ** Exactness *)

Lemma digits2_log2 p : Zpos (digits2_pos p) = Z.log2 (Zpos p) + 1.
Proof.
  induction p as [p IH|p IH|]; cbn [digits2_pos]; [| |done].
  - rewrite Pos2Z.inj_succ, IH. change (Zpos p~1) with (2 * Zpos p + 1).
    rewrite Z.log2_succ_double by lia. lia.
  - rewrite Pos2Z.inj_succ, IH. change (Zpos p~0) with (2 * Zpos p). rewrite Z.log2_double by lia. lia.
Qed.

Lemma iter_pos_nat {A} (f : A -> A) (n : positive) (x : A) :
  SpecFloat.iter_pos f n x = Nat.iter (Pos.to_nat n) f x.
Proof.
  revert x. induction n as [n IH|n IH|]; intros x; cbn [SpecFloat.iter_pos]; [| |done].
  - rewrite !IH, Pos2Nat.inj_xI, <- Nat.iter_add, <- Nat.iter_succ_r. f_equal. lia.
  - rewrite !IH, Pos2Nat.inj_xO, <- Nat.iter_add. f_equal. lia.
Qed.

Lemma shr_exact c e k :
  0 <= k ->
  shr {| shr_m := Zpos c * 2 ^ k; shr_r := false; shr_s := false |} e k =
    ({| shr_m := Zpos c; shr_r := false; shr_s := false |}, e + k).
Proof.
  intros Hk. unfold shr. destruct k as [|p|]; [by rewrite Z.mul_1_r, Z.add_0_r| |lia].
  rewrite iter_pos_nat. f_equal. rewrite <- (positive_nat_Z p). generalize (Pos.to_nat p) as n.
  clear Hk. intros n. revert c. induction n as [|n IH]; intros c.
  { change (Z.of_nat 0) with 0. by rewrite Z.pow_0_r, Z.mul_1_r. }
  rewrite Nat2Z.inj_succ, Z.pow_succ_r, Z.mul_assoc by lia.
  replace (Zpos c * 2) with (Zpos c~0) by lia. by rewrite Nat.iter_succ, IH.
Qed.

(** A number with a 53-bit mantissa [c], given with [k] more bits, is not
    changed by rounding. *)
Lemma round_exact s c m e k :
  2 ^ 52 <= Zpos c < 2 ^ 53 -> 0 <= k -> Zpos m = Zpos c * 2 ^ k -> -1074 <= e + k <= 971 ->
  binary_round_aux prec emax s (Zpos m) e loc_Exact = S754_finite s c (e + k).
Proof.
  intros Hc Hk Hm He. unfold binary_round_aux, shr_fexp, fexp, SpecFloat.emin, prec, emax.
  cbn [Zdigits2 shr_record_of_loc]. rewrite digits2_log2, Hm.
  assert (Z.log2 (Zpos c) = 52) as Hl by (apply Z.log2_unique; lia).
  rewrite Z.log2_mul_pow2, Hl by lia.
  replace (Z.max (k + 52 + 1 + e - 53) (3 - 1024 - 53) - e) with k by lia.
  rewrite shr_exact by done. cbn [shr_m loc_of_shr_record round_nearest_even Zdigits2 shr_record_of_loc].
  rewrite digits2_log2, Hl.
  replace (Z.max (52 + 1 + (e + k) - 53) (3 - 1024 - 53) - (e + k)) with 0 by lia.
  cbn [shr shr_m]. by rewrite (proj2 (Z.leb_le _ _)) by lia.
Qed.

(** The double of an integer [0 < n < 2^53]: its 53-bit mantissa and exponent. *)
Definition norm_exp (n : Z) : Z := Z.log2 n - 52.
Definition norm_mant (n : Z) : Z := n * 2 ^ (52 - Z.log2 n).

Lemma norm_bounds n : 0 < n < 2 ^ 53 -> 2 ^ 52 <= norm_mant n < 2 ^ 53 /\ 0 <= Z.log2 n <= 52.
Proof.
  intros Hn. unfold norm_mant. pose proof (Z.log2_spec n ltac:(lia)) as [Hl Hu].
  pose proof (Z.log2_nonneg n).
  assert (Z.log2 n <= 52) by (enough (Z.log2 n < 53) by lia; apply Z.log2_lt_pow2; lia).
  assert (2 ^ 52 = 2 ^ Z.log2 n * 2 ^ (52 - Z.log2 n)) as E1
    by (rewrite <- Z.pow_add_r by lia; f_equal; lia).
  assert (2 ^ 53 = 2 ^ Z.succ (Z.log2 n) * 2 ^ (52 - Z.log2 n)) as E2
    by (rewrite <- Z.pow_add_r by lia; f_equal; lia).
  pose proof (Z.pow_pos_nonneg 2 (52 - Z.log2 n)). split; [|lia]. rewrite E1, E2. nia.
Qed.

(** The canonical double of [n]. *)
Definition canon (n : Z) : double := S754_finite false (Z.to_pos (norm_mant n)) (norm_exp n).

Lemma iter_xO p k : Zpos (Pos.iter xO p k) = Zpos p * 2 ^ Zpos k.
Proof.
  rewrite Pos2Nat.inj_iter, <- (positive_nat_Z k). generalize (Pos.to_nat k) as n.
  induction n as [|n IH]; [change (Z.of_nat 0) with 0; by rewrite Z.pow_0_r, Z.mul_1_r|].
  rewrite Nat2Z.inj_succ, Z.pow_succ_r by lia. cbn [nat_rect].
  match goal with |- Zpos (xO ?x) = _ => change (Zpos (xO x)) with (2 * Zpos x) end. lia.
Qed.

(** [n] given with [k] more bits is rounded to its canonical double. *)
Lemma round_canon n k m :
  0 < n < 2 ^ 53 -> 0 <= k -> Zpos m = n * 2 ^ k ->
  binary_round prec emax false m (- k) = canon n.
Proof.
  intros Hn Hk Hm. destruct (norm_bounds n Hn) as [Hb Hl]. unfold binary_round, shl_align, fexp, SpecFloat.emin.
  rewrite digits2_log2, Hm, Z.log2_mul_pow2 by lia.
  replace (Z.max (k + Z.log2 n + 1 + - k - prec) (3 - emax - prec)) with (norm_exp n)
    by (unfold norm_exp, prec, emax; lia).
  assert (norm_exp n <= 0 /\ -52 <= norm_exp n) as He by (unfold norm_exp; lia).
  assert (norm_mant n = n * 2 ^ (- norm_exp n)) as Hnm
    by (unfold norm_mant, norm_exp; do 2 f_equal; lia).
  unfold canon. set (e := norm_exp n) in *. destruct (e - - k) as [|d|d] eqn:E.
  - rewrite (round_exact _ (Z.to_pos (norm_mant n)) _ _ 0); rewrite ?Z2Pos.id by lia; try lia.
    + f_equal. lia.
    + rewrite Hm, Hnm. replace (- e) with k by lia. lia.
  - rewrite (round_exact _ (Z.to_pos (norm_mant n)) _ _ (k + e)); rewrite ?Z2Pos.id by lia; try lia.
    + f_equal. lia.
    + rewrite Hm, Hnm, <- Z.mul_assoc, <- Z.pow_add_r by lia. do 2 f_equal. lia.
  - rewrite (round_exact _ (Z.to_pos (norm_mant n)) _ _ 0); rewrite ?Z2Pos.id by lia; try lia.
    + f_equal. lia.
    + rewrite iter_xO, Hm, Hnm, Z.mul_1_r, <- Z.mul_assoc, <- Z.pow_add_r by lia. do 2 f_equal. lia.
Qed.

Lemma of_Z_canon n : 0 < n < 2 ^ 53 -> of_Z n = canon n.
Proof.
  intros Hn. unfold of_Z, binary_normalize. destruct n as [|p|p]; [lia| |lia].
  by apply (round_canon (Zpos p) 0); [..|rewrite Z.mul_1_r].
Qed.

Lemma trunc_canon n : 0 < n < 2 ^ 53 -> trunc (canon n) = Some n.
Proof.
  intros Hn. destruct (norm_bounds n Hn) as [Hm Hl]. unfold trunc, canon, norm_exp.
  rewrite Z2Pos.id by lia. unfold norm_mant. zcase.
  - replace (52 - Z.log2 n) with 0 by lia. replace (Z.log2 n - 52) with 0 by lia. f_equal. lia.
  - replace (- (Z.log2 n - 52)) with (52 - Z.log2 n) by lia.
    rewrite Z.div_mul; [done|]. pose proof (Z.pow_pos_nonneg 2 (52 - Z.log2 n)). lia.
Qed.

Lemma mul_canon a b :
  0 < a -> 0 < b -> a * b < 2 ^ 53 -> dmul (canon a) (canon b) = canon (a * b).
Proof.
  intros Ha Hb Hab. assert (a < 2 ^ 53 /\ b < 2 ^ 53) as [Ha' Hb'] by nia.
  destruct (norm_bounds a ltac:(lia)) as [Hma Hla], (norm_bounds b ltac:(lia)) as [Hmb Hlb].
  destruct (norm_bounds (a * b) ltac:(nia)) as [Hm Hl].
  unfold dmul, SFmul, canon. cbn [xorb].
  pose proof (Z.log2_mul_below a b ltac:(lia) ltac:(lia)) as Hbelow.
  set (k := 52 + Z.log2 (a * b) - Z.log2 a - Z.log2 b).
  rewrite (round_exact _ (Z.to_pos (norm_mant (a * b))) _ _ k).
  - f_equal. unfold norm_exp, k. lia.
  - by rewrite Z2Pos.id by lia.
  - unfold k. lia.
  - rewrite Pos2Z.inj_mul, !Z2Pos.id by lia. unfold norm_mant.
    replace (a * 2 ^ (52 - Z.log2 a) * (b * 2 ^ (52 - Z.log2 b)))
      with (a * b * (2 ^ (52 - Z.log2 a) * 2 ^ (52 - Z.log2 b))) by ring.
    rewrite <- (Z.mul_assoc (a * b) _ (2 ^ k)), <- !Z.pow_add_r by (unfold k; lia).
    do 2 f_equal. unfold k. lia.
  - unfold norm_exp, k. lia.
Qed.

(** Multiplying integers is exact while the product is below 2^53. *)
Lemma dmul_of_Z a b :
  0 <= a -> 0 < b < 2 ^ 53 -> a * b < 2 ^ 53 -> dmul (of_Z a) (of_Z b) = of_Z (a * b).
Proof.
  intros Ha Hb Hab. rewrite (of_Z_canon b) by done. destruct (Z.eq_dec a 0) as [->|Hne]; [done|].
  rewrite !of_Z_canon by nia. apply mul_canon; lia.
Qed.

(** The mantissa of a canonical double, aligned to a smaller exponent. *)
Lemma align_canon n e :
  0 < n < 2 ^ 53 -> e <= norm_exp n ->
  Zpos (fst (shl_align (Z.to_pos (norm_mant n)) (norm_exp n) e)) = n * 2 ^ (- e).
Proof.
  intros Hn He. destruct (norm_bounds n Hn) as [Hb Hl].
  assert (norm_exp n <= 0) as He0 by (unfold norm_exp; lia).
  assert (norm_mant n = n * 2 ^ (- norm_exp n)) as Hnm
    by (unfold norm_mant, norm_exp; do 2 f_equal; lia).
  unfold shl_align. destruct (e - norm_exp n) as [|d|d] eqn:E; cbn [fst]; [|lia|].
  - rewrite Z2Pos.id, Hnm by lia. do 2 f_equal. lia.
  - rewrite iter_xO, Z2Pos.id, Hnm, <- Z.mul_assoc, <- Z.pow_add_r by lia. do 2 f_equal. lia.
Qed.

Lemma normalize_canon z e :
  0 <= z < 2 ^ 53 -> e <= 0 -> binary_normalize prec emax (z * 2 ^ (- e)) e false = of_Z z.
Proof.
  intros Hz He. pose proof (Z.pow_pos_nonneg 2 (- e) ltac:(lia) ltac:(lia)).
  destruct (Z.eq_dec z 0) as [->|Hne]; [done|]. rewrite of_Z_canon by lia. unfold binary_normalize.
  destruct (z * 2 ^ (- e)) as [|p|p] eqn:E; [nia| |nia].
  rewrite <- (Z.opp_involutive e). apply round_canon; [lia|lia|by rewrite E].
Qed.

(** Adding and subtracting integers is exact while the result is at least 0
    and below 2^53. *)
Lemma dadd_of_Z a b : 0 <= a -> 0 <= b -> a + b < 2 ^ 53 -> dadd (of_Z a) (of_Z b) = of_Z (a + b).
Proof.
  intros Ha Hb Hab. destruct (Z.eq_dec a 0) as [->|Hna], (Z.eq_dec b 0) as [->|Hnb].
  - done.
  - by rewrite Z.add_0_l, (of_Z_canon b) by lia.
  - by rewrite Z.add_0_r, (of_Z_canon a) by lia.
  - rewrite (of_Z_canon a), (of_Z_canon b) by lia. unfold dadd, SFadd, canon. cbn [cond_Zopp].
    rewrite !align_canon, <- Z.mul_add_distr_r by lia. apply normalize_canon; [lia|]. unfold norm_exp.
    destruct (norm_bounds a ltac:(lia)). lia.
Qed.

Lemma dsub_of_Z a b : 0 <= b <= a -> a < 2 ^ 53 -> dsub (of_Z a) (of_Z b) = of_Z (a - b).
Proof.
  intros Hb Ha. destruct (Z.eq_dec a 0) as [->|Hna], (Z.eq_dec b 0) as [->|Hnb]; [done|lia|..].
  - by rewrite Z.sub_0_r, (of_Z_canon a) by lia.
  - rewrite (of_Z_canon a), (of_Z_canon b) by lia. unfold dsub, SFsub, canon. cbn [cond_Zopp].
    rewrite !align_canon, <- Z.mul_sub_distr_r by lia. apply normalize_canon; [lia|]. unfold norm_exp.
    destruct (norm_bounds a ltac:(lia)). lia.
Qed.

Lemma trunc_of_Z n : 0 <= n < 2 ^ 53 -> trunc (of_Z n) = Some n.
Proof.
  intros Hn. destruct (Z.eq_dec n 0) as [->|]; [done|].
  rewrite of_Z_canon by lia. apply trunc_canon. lia.
Qed.

Lemma to_u64_of_Z `{!CastOverflow} n : 0 <= n < 2 ^ 53 -> to_u64 (of_Z n) = n.
Proof.
  intros Hn. unfold to_u64. rewrite trunc_of_Z by done. unfold ULONG_MAX.
  by rewrite (proj2 (Z.leb_le 0 n)), (proj2 (Z.leb_le n _)) by lia.
Qed.

(** Comparing integers is exact. *)
Lemma dcompare_canon a b :
  0 < a < 2 ^ 53 -> 0 < b < 2 ^ 53 -> SFcompare (canon a) (canon b) = Some (a ?= b).
Proof.
  intros Ha Hb. destruct (norm_bounds a Ha) as [Hma Hla], (norm_bounds b Hb) as [Hmb Hlb].
  unfold SFcompare, canon. f_equal. unfold norm_exp.
  destruct (Z.compare_spec (Z.log2 a - 52) (Z.log2 b - 52)) as [E|E|E].
  - change (Pos.compare_cont Eq ?p ?q) with (Pos.compare p q).
    rewrite Pos2Z.inj_compare, !Z2Pos.id by lia. unfold norm_mant.
    replace (Z.log2 b) with (Z.log2 a) by lia.
    pose proof (Z.pow_pos_nonneg 2 (52 - Z.log2 a) ltac:(lia) ltac:(lia)).
    symmetry. apply Zmult_compare_compat_r. lia.
  - symmetry. apply Z.compare_lt_iff. apply Z.log2_lt_cancel. lia.
  - symmetry. apply Z.compare_gt_iff. apply Z.log2_lt_cancel. lia.
Qed.

Lemma dcompare_of_Z a b :
  0 <= a < 2 ^ 53 -> 0 <= b < 2 ^ 53 -> SFcompare (of_Z a) (of_Z b) = Some (a ?= b).
Proof.
  intros Ha Hb. destruct (Z.eq_dec a 0) as [->|Hna], (Z.eq_dec b 0) as [->|Hnb].
  - done.
  - rewrite (of_Z_canon b) by lia. destruct b; done || lia.
  - rewrite (of_Z_canon a) by lia. destruct a; done || lia.
  - rewrite !of_Z_canon by lia. apply dcompare_canon; lia.
Qed.

Lemma dlt_of_Z a b : 0 <= a < 2 ^ 53 -> 0 <= b < 2 ^ 53 -> dlt (of_Z a) (of_Z b) = (a <? b).
Proof. intros. unfold dlt, SFltb. rewrite dcompare_of_Z by done. unfold Z.ltb. by destruct (a ?= b). Qed.

Lemma deq_of_Z a b : 0 <= a < 2 ^ 53 -> 0 <= b < 2 ^ 53 -> deq (of_Z a) (of_Z b) = (a =? b).
Proof.
  intros. unfold deq, SFeqb. rewrite dcompare_of_Z, Z.eqb_compare by done. by destruct (a ?= b).
Qed.

(** ** Reading integers *)

Lemma digits_scan base acc n l :
  exists k, digits base acc n l = (fst (scan_digits base acc l), (n + k)%nat, snd (scan_digits base acc l)) /\
    (k = 0%nat <-> no_digit base l).
Proof.
  revert acc n. induction l as [|c l IH]; intros acc n; cbn [digits scan_digits no_digit].
  - exists 0%nat. by rewrite Nat.add_0_r.
  - destruct (digit base c) as [d|]; [|exists 0%nat; by rewrite Nat.add_0_r].
    destruct (IH (acc * base + d) (S n)) as (k & E & _). exists (S k). rewrite E.
    split; [f_equal; f_equal; lia|done].
Qed.

(** What may follow an integer without changing how it is read. *)
Definition number_end (l : bytes) : Prop :=
  match l with
  | [] => True
  | c :: _ => digit 10 c = None /\ c ∉ ["."%char; "e"%char; "E"%char; "x"%char; "X"%char]
  end.

Lemma to_lower_digit d : 0 <= d < 10 -> to_lower (digit_char d) = digit_char d.
Proof.
  intros Hd. assert (In d (map Z.of_nat (seq 0 10))) as Hin.
  { rewrite in_map_iff. exists (Z.to_nat d). rewrite in_seq. lia. }
  cbn in Hin. repeat (destruct Hin as [<-|Hin]; try done).
Qed.

Lemma digit_not d c : 0 <= d < 10 -> digit 10 c = None -> digit_char d <> c.
Proof. intros Hd Hc <-. by rewrite digit_digit_char in Hc by lia. Qed.

(** The words and the hexadecimal prefix do not start a decimal integer. *)
Lemma no_word word fuel n rest :
  word ∈ [bytes_of "inf"; bytes_of "nan"] -> 0 <= n -> (0 < fuel)%nat ->
  strip_word word (dec fuel n ++ rest) = None.
Proof.
  intros Hw Hn Hf. destruct (dec_cons fuel n) as (d & l & Hd & ->); [done..|].
  assert (exists c w, word = c :: w /\ digit 10 c = None) as (c & w & -> & Hc).
  { repeat (apply elem_of_cons in Hw as [->|Hw]; [by eexists _, _|]). by apply not_elem_of_nil in Hw. }
  cbn [app strip_word]. rewrite to_lower_digit by done.
  destruct (Ascii.eqb_spec c (digit_char d)) as [->|_]; [|done].
  by rewrite digit_digit_char in Hc by lia.
Qed.

Lemma no_hex fuel n rest :
  0 <= n -> (0 < fuel)%nat -> number_end rest ->
  strip_word (bytes_of "0x") (dec fuel n ++ rest) = None.
Proof.
  intros Hn Hf Hr. destruct (dec_cons fuel n) as (d & l & Hd & E); [done..|]. rewrite E.
  change (bytes_of "0x") with ["0"%char; "x"%char]. cbn [app strip_word].
  destruct (Ascii.eqb _ _); [|done]. destruct l as [|c l].
  - destruct rest as [|c rest]; [done|]. destruct Hr as [_ Hr]. cbn [app strip_word].
    destruct (Ascii.eqb_spec "x"%char (to_lower c)) as [Ex|_]; [|done]. exfalso. apply Hr. revert Ex.
    clear. destruct c as [[] [] [] [] [] [] [] []]; try done; intros _; repeat first [by left|right].
  - cbn [app strip_word]. assert (exists d', 0 <= d' < 10 /\ c = digit_char d') as (d' & Hd' & ->).
    { apply (dec_chars fuel n); [done|]. rewrite E. by right; left. }
    rewrite to_lower_digit by done.
    destruct (Ascii.eqb_spec "x"%char (digit_char d')) as [Ex|_]; [|done].
    by destruct (digit_char_plain d' ltac:(lia)) as (_ & _ & _ & _ & Hx & _).
Qed.

(** An integer in decimal is read as the double of its value. *)
Lemma scan_double_dec n rest :
  0 <= n <= INT_MAX -> number_end rest ->
  scan_double (dec dec_fuel n ++ rest) = Some (of_Z n, rest, false).
Proof.
  intros Hn Hr. pose proof dec_fuel_pos as Hf. unfold scan_double.
  rewrite skip_space_dec by (lia || done).
  destruct (dec_cons dec_fuel n) as (d & l & Hd & E); [lia|done|].
  destruct (digit_char_plain d ltac:(lia)) as (_ & _ & H1 & H2 & _).
  assert (strip_sign (dec dec_fuel n ++ rest) = (false, dec dec_fuel n ++ rest)) as ->
    by (rewrite E; by apply strip_sign_plain).
  rewrite !no_word, no_hex by (done || lia || by (left + right; left)).
  assert (no_digit 10 rest) as Hnd by (destruct rest; [done|by destruct Hr]).
  unfold mantissa. destruct (digits_scan 10 0 0 (dec dec_fuel n ++ rest)) as (k & -> & Hk).
  rewrite scan_dec, scan_digits_stop by (done || by apply dec_fuel_ok). cbn [fst snd].
  assert (k <> 0%nat) as Hk0.
  { rewrite E in Hk. cbn [app no_digit] in Hk. rewrite digit_digit_char in Hk by lia. intros Hk0.
    by apply Hk in Hk0. }
  assert ((0 + k =? 0)%nat = false) as Hkb by by apply Nat.eqb_neq.
  assert (exponent "e" "E" rest = (0, rest, false)) as Hexp.
  { unfold exponent. destruct rest as [|c rest]; [done|]. destruct Hr as [_ Hr].
    rewrite !not_elem_of_cons in Hr. destruct Hr as (_ & He & HE & _).
    by rewrite (proj2 (Ascii.eqb_neq _ _) He), (proj2 (Ascii.eqb_neq _ _) HE). }
  assert (match rest with
    | "."%char :: l2 =>
        let '(v, nf, l3) := digits 10 n 0 l2 in
        if (0 + k + nf =? 0)%nat then None else Some (v, nf, l3)
    | _ => if (0 + k =? 0)%nat then None else Some (n, 0%nat, rest)
    end = Some (n, 0%nat, rest)) as ->.
  { rewrite Hkb. destruct rest as [|c rest]; [done|]. destruct Hr as [_ Hr].
    destruct (decide (c = "."%char)) as [->|Hne]; [by destruct Hr; left|].
    destruct c as [[] [] [] [] [] [] [] []]; done. }
  rewrite Hexp. repeat f_equal. unfold of_decimal, of_Z. cbn [Z.of_nat Z.sub Z.opp Z.add Z.leb Z.compare].
  destruct n as [|p|p]; [done| |lia]. by rewrite Z.pow_0_r, Z.mul_1_r.
Qed.

Lemma atof_dec n rest :
  0 <= n <= INT_MAX -> number_end rest -> atof (dec dec_fuel n ++ rest) = of_Z n.
Proof. intros. unfold atof. by rewrite scan_double_dec. Qed.
