(* ===== verification/Clocks.v ===== *)
(** * src/clocks.c and the cycle counters of arch/*/include/asm/cycles.h

    Sleeping, CPU and wall-clock time as doubles, and the architectures' cycle
    counters as 64-bit integers. *)
From S2P Require Import Prelude Machine CString Double Laws Syscalls.

Definition CLOCK_THREAD_CPUTIME_ID : Z := 3.

(** 1E-9 and 1E-6 *)
Definition d1em9 : double := of_decimal false 1 (-9).
Definition d1em6 : double := of_decimal false 1 (-6).

Section clocks.
Context {K : Kernel}.

(** [stack] is what the uninitialised [ts] holds, used when the call fails. *)
Definition cputime (stack : Z * Z) : M double :=
  r ← sys (Clock_gettime CLOCK_THREAD_CPUTIME_ID);
  let err := ret_of r in
  when (negb (err =? 0)) (perror "clock_gettime");;
  let '(tv_sec, tv_nsec) := match r with Pair s n => (s, n) | _ => stack end in
  mret (dadd (of_Z tv_sec) (dmul d1em9 (of_Z tv_nsec))).

Definition wctime (stack : Z * Z) : M double :=
  r ← sys Gettimeofday;
  let '(tv_sec, tv_usec) := match r with Pair s u => (s, u) | _ => stack end in
  mret (dadd (of_Z tv_sec) (dmul d1em6 (of_Z tv_usec))).

Definition lt_sleep (timeout : Z) : M Z :=
  let tv_sec := s64 (timeout / 1000000000) in
  let tv_nsec := s64 (timeout mod 1000000000) in
  syscall (Nanosleep tv_sec tv_nsec).

(** The macro [rdtscll] and [native_read_tsc] of arch/x86, between two fences. *)
Definition rdtscll (a d : Z) : Z := Z.lor (u64 a) (u64 (Z.shiftl d 32)).
Definition native_read_tsc : M Z :=
  emit Barrier;;
  r ← sys Rdtsc;
  let val := match r with Pair a d => rdtscll (u32 a) (u32 d) | _ => 0 end in
  emit Barrier;;
  mret val.
Definition get_cycles_x86 : M Z := native_read_tsc.

(** arch/arm; [c0] is what the uninitialised [c] holds. *)
Definition get_cycles_arm (c0 : Z) : M Z :=
  '(_, stamp) ← null_call;
  mret (default c0 stamp).

(** arch/sparc: the NPT bit is masked out. *)
Definition NPT_BIT : Z := 63.
Definition get_cycles_sparc : M Z :=
  cycles ← syscall Rd_asr24;
  mret (Z.land (u64 cycles) (u64 (Z.lnot (Z.shiftl 1 NPT_BIT)))).

(** arch/x86, irq.h: the interrupt flag, cleared and set. *)
Definition cli : M unit := syscall Cli;; mret tt.
Definition sti : M unit := syscall Sti;; mret tt.
End clocks.

(** ** The integers *)

Section spec.
Context {K : Kernel}.

(** [lt_sleep] makes one [nanosleep] with a valid time value (the
    nanoseconds below 10^9, the seconds within time_t) that stands for exactly
    the given number of nanoseconds, for every 64-bit timeout, and returns its
    result. *)
Theorem lt_sleep_spec timeout w :
  0 <= timeout <= ULONG_MAX ->
  exists sec nsec, let c := Nanosleep sec nsec in
    lt_sleep timeout w = (Val (ret_of (kernel (tr w) c)), after c (kernel (tr w) c) w) /\
    sec * 1000000000 + nsec = timeout /\ 0 <= nsec < 1000000000 /\ 0 <= sec <= LONG_MAX.
Proof.
  unfold ULONG_MAX, LONG_MAX. intros Ht.
  pose proof (Z.mod_pos_bound timeout 1000000000 ltac:(lia)).
  pose proof (Z.div_mod timeout 1000000000 ltac:(lia)).
  assert (0 <= timeout / 1000000000 < 2 ^ 63)
    by (split; [apply Z.div_pos; lia|apply Z.div_lt_upper_bound; lia]).
  exists (timeout / 1000000000), (timeout mod 1000000000). cbn zeta.
  unfold lt_sleep. rewrite !wrap_s_small by lia. split; [done|]. lia.
Qed.

Lemma rdtscll_sum a d : 0 <= a < 2 ^ 32 -> 0 <= d < 2 ^ 32 -> rdtscll a d = a + d * 2 ^ 32.
Proof.
  intros Ha Hd. unfold rdtscll. rewrite Z.shiftl_mul_pow2 by lia.
  rewrite !wrap_u_small by lia. rewrite Z.add_nocarry_lxor, Z.lxor_lor; [done| |].
  all: apply Z.bits_inj'; intros k Hk; rewrite Z.land_spec, Z.bits_0;
    destruct (Z.lt_ge_cases k 32);
    [rewrite (Z.mul_pow2_bits_low d) by lia; apply andb_false_r|].
  all: rewrite <- (Z.mod_small a (2 ^ 32)), Z.mod_pow2_bits_high by lia; done.
Qed.

(** The x86 cycle counter is the 64-bit number whose halves are EDX and
    EAX, read between two fences, so no two values of the counter are
    confused; the SPARC counter is the register without its top bit. *)
Theorem cycle_counters a d c w :
  kernel (Barrier :: tr w) Rdtsc = Pair a d -> 0 <= a < 2 ^ 32 -> 0 <= d < 2 ^ 32 ->
  kernel (tr w) Rd_asr24 = Succ c -> 0 <= c < 2 ^ 64 ->
  (exists w', get_cycles_x86 w = (Val (a + d * 2 ^ 32), w') /\
     tr w' = Barrier :: Sys Rdtsc (Pair a d) :: Barrier :: tr w) /\
  (exists w', get_cycles_sparc w = (Val (c mod 2 ^ 63), w') /\ tr w' = Sys Rd_asr24 (Succ c) :: tr w).
Proof.
  intros Hx Ha Hd Hs Hc. split.
  - unfold get_cycles_x86, native_read_tsc. mrun. cbn [tr push]. rewrite Hx.
    rewrite !wrap_u_small, rdtscll_sum by lia. by eexists.
  - unfold get_cycles_sparc. mrun. rewrite Hs. cbn [ret_of]. eexists. split; [|by rewrite tr_after].
    rewrite wrap_u_small by lia. do 2 f_equal.
    change (u64 (Z.lnot (Z.shiftl 1 NPT_BIT))) with (Z.ones 63). by rewrite Z.land_ones by lia.
Qed.

(** A thread's CPU time of whole seconds, and a wall-clock time of whole
    seconds, are exact doubles; a clock that cannot be read is reported, and
    the time is then made of uninitialised memory. *)
Theorem whole_seconds s stack w :
  0 <= s < 2 ^ 53 ->
  (kernel (tr w) (Clock_gettime CLOCK_THREAD_CPUTIME_ID) = Pair s 0 ->
     exists w', cputime stack w = (Val (of_Z s), w') /\ trunc (of_Z s) = Some s) /\
  (kernel (tr w) Gettimeofday = Pair s 0 ->
     exists w', wctime stack w = (Val (of_Z s), w') /\ trunc (of_Z s) = Some s) /\
  (forall e, kernel (tr w) (Clock_gettime CLOCK_THREAD_CPUTIME_ID) = Fail e ->
     exists w', cputime stack w =
       (Val (dadd (of_Z (fst stack)) (dmul d1em9 (of_Z (snd stack)))), w') /\
       tr w' = Perror "clock_gettime" :: Sys (Clock_gettime CLOCK_THREAD_CPUTIME_ID) (Fail e) :: tr w).
Proof.
  intros Hs.
  assert (dadd (of_Z s) (S754_zero false) = of_Z s) as Hadd.
  { destruct (Z.eq_dec s 0) as [->|]; [done|]. by rewrite of_Z_canon by lia. }
  split_and!.
  - intros E. unfold cputime. mrun. rewrite E. cbn [ret_of Z.eqb negb when]. mrun.
    eexists. split; [|by apply trunc_of_Z]. change (dmul d1em9 (of_Z 0)) with (S754_zero false).
    by rewrite Hadd.
  - intros E. unfold wctime. mrun. rewrite E. eexists. split; [|by apply trunc_of_Z].
    change (dmul d1em6 (of_Z 0)) with (S754_zero false). cbn [mret M_ret]. by rewrite Hadd.
  - intros e E. unfold cputime. mrun. rewrite E. cbn [ret_of Z.eqb negb when]. unfold perror. mrun.
    destruct stack as [s0 n0]. eexists. split; [done|]. cbn [tr push]. by rewrite tr_after.
Qed.
End spec.

(** ** Concrete runs *)

Module ClocksWitness.
Import Sim.

Definition k_clock : Kernel := fun _ c =>
  match c with
  | Rdtsc => Pair 5 7
  | Rd_asr24 => Succ (2 ^ 63 + 9)
  | Clock_gettime _ => Pair 12 0
  | Gettimeofday => Pair 12 0
  | _ => Succ 0
  end.

Lemma lt_sleep_spec_witness :
  exists sec nsec, let c := Nanosleep sec nsec in
    @lt_sleep k_clock 2500000001 w0 = (Val (ret_of (k_clock (tr w0) c)), after c (k_clock (tr w0) c) w0) /\
    sec * 1000000000 + nsec = 2500000001 /\ 0 <= nsec < 1000000000 /\ 0 <= sec <= LONG_MAX.
Proof. apply (@lt_sleep_spec k_clock 2500000001 w0). unfold ULONG_MAX. lia. Defined.

Lemma cycle_counters_witness :
  (exists w', @get_cycles_x86 k_clock w0 = (Val (5 + 7 * 2 ^ 32), w') /\
     tr w' = [Barrier; Sys Rdtsc (Pair 5 7); Barrier]) /\
  (exists w', @get_cycles_sparc k_clock w0 = (Val ((2 ^ 63 + 9) mod 2 ^ 63), w') /\
     tr w' = [Sys Rd_asr24 (Succ (2 ^ 63 + 9))]).
Proof. apply (@cycle_counters k_clock 5 7 (2 ^ 63 + 9) w0); done || lia. Defined.

Lemma whole_seconds_witness :
  exists w', @cputime k_clock (0, 0) w0 = (Val (of_Z 12), w') /\ trunc (of_Z 12) = Some 12.
Proof. apply (@whole_seconds k_clock 12 (0, 0) w0); [lia|done]. Defined.
End ClocksWitness.
