(* ===== verification/Uncache.v ===== *)
(** * bin/uncache.c: the uncache device test

    Memory of the mapped device is volatile: every load and store is a request
    to the environment.  The global PAGE_SIZE is an argument of the functions
    that read it; [struct timespec] is a record; an [int64_t *time] that may be
    NULL is an option returned.  The loops over pages take fuel, which the
    theorems show to suffice. *)
From S2P Require Import Prelude Machine CString Double Laws Iface Syscalls Migration Litmus Clocks Getopt.

Definition NR_PAGES : Z := 16.
Definition UNCACHE_DEV : string := "/dev/litmus/uncache".
Definition SCHED_FIFO : Z := 1.
Definition MAP_ANONYMOUS : Z := 32.
Definition MAP_POPULATE : Z := 32768.
Definition HAMMER_TIME : Z := 10000.
Definition VAL : Z := 85.   (* 0x55 *)

(** ** Time values

    [time_t], [long] and [int64_t] have 64 bits. *)

Record timespec := mk_ts { tv_sec : Z; tv_nsec : Z }.

Fixpoint carry_loop (fuel : nat) (sec nsec : Z) : option (Z * Z) :=
  if 1000000000 <? nsec then
    match fuel with
    | O => None
    | S fuel => carry_loop fuel (s64 (sec + 1)) (s64 (nsec - 1000000000))
    end
  else Some (sec, nsec).

Fixpoint borrow_loop (fuel : nat) (sec nsec : Z) : option (Z * Z) :=
  if nsec <? 0 then
    match fuel with
    | O => None
    | S fuel => borrow_loop fuel (s64 (sec - 1)) (s64 (nsec + 1000000000))
    end
  else Some (sec, nsec).

Definition timespec_normalize (fuel : nat) (sec nsec : Z) : option timespec :=
  match carry_loop fuel sec nsec with
  | None => None
  | Some (sec, nsec) =>
      match borrow_loop fuel sec nsec with
      | None => None
      | Some (sec, nsec) => Some (mk_ts sec nsec)
      end
  end.

(** Two iterations are enough for time values whose nanoseconds are below
    10^9. *)
Definition ts_fuel : nat := 2.

Definition timespec_sub (lhs rhs : timespec) : option timespec :=
  timespec_normalize ts_fuel (s64 (tv_sec lhs - tv_sec rhs)) (s64 (tv_nsec lhs - tv_nsec rhs)).
Definition timespec_add (lhs rhs : timespec) : option timespec :=
  timespec_normalize ts_fuel (s64 (tv_sec lhs + tv_sec rhs)) (s64 (tv_nsec lhs + tv_nsec rhs)).

Definition timespec_to_us (ts : timespec) : Z :=
  let t := s64 (tv_sec ts * 1000000) in
  s64 (t + Z.quot (tv_nsec ts) 1000).

(** ** Memory accesses *)

Section uncache.
Context {K : Kernel} {H : KernelHeader}.

(** A plain [char] is signed. *)
Definition load_char (addr : Z) : M Z := v ← syscall (LoadByte addr); mret (wrap_s 8 v).
Definition store_char (addr val : Z) : M unit := syscall (StoreByte addr (wrap_s 8 val));; mret tt.

(** [for (step = addr; step < end; step += PAGE_SIZE) *step = val;] *)
Fixpoint write_pages (fuel : nat) (page_size step end_ val : Z) : M unit :=
  if step <? end_ then
    match fuel with
    | O => no_fuel
    | S fuel => store_char step val;; write_pages fuel page_size (step + page_size) end_ val
    end
  else mret tt.

(** The same for reads; false when a page differs. *)
Fixpoint read_pages (fuel : nat) (page_size step end_ val : Z) : M bool :=
  if step <? end_ then
    match fuel with
    | O => no_fuel
    | S fuel =>
        v ← load_char step;
        if negb (v =? val) then mret false
        else read_pages fuel page_size (step + page_size) end_ val
    end
  else mret true.

(** [for (i = 0; i < n; ++i)] around a body without and with early return. *)
Fixpoint repeat_unit (n : nat) (body : M unit) : M unit :=
  match n with O => mret tt | S n => body;; repeat_unit n body end.
Fixpoint repeat_while (n : nat) (body : M bool) : M bool :=
  match n with
  | O => mret true
  | S n => ok ← body; if (ok : bool) then repeat_while n body else mret false
  end.

Definition linear_write (page_size addr size val : Z) : M Z :=
  let end_ := addr + size in
  let nr_pages := u64 (end_ - addr) / page_size in
  let times := nr_pages * page_size in
  repeat_unit (Z.to_nat times) (write_pages (Z.to_nat size) page_size addr end_ val);;
  mret 0.

Definition linear_read (page_size addr size val : Z) : M Z :=
  let end_ := addr + size in
  let nr_pages := u64 (end_ - addr) / page_size in
  let times := nr_pages * page_size in
  ok ← repeat_while (Z.to_nat times) (read_pages (Z.to_nat size) page_size addr end_ val);
  mret (if (ok : bool) then 0 else -1).

Definition hammer_write (data val nr : Z) : M Z :=
  repeat_unit (Z.to_nat nr) (store_char data val);; mret 0.

Definition hammer_read (data val nr : Z) : M Z :=
  ok ← repeat_while (Z.to_nat nr) (v ← load_char data; mret (v =? val));
  mret (if (ok : bool) then 0 else -1).

(** One trial; the linear accesses are disabled by the preprocessor. *)
Definition trial (data : Z) : M bool :=
  r ← hammer_write data VAL HAMMER_TIME;
  if negb (r =? 0) then printf "failed hammer_write()\n" [];; mret false
  else
    r ← hammer_read data VAL HAMMER_TIME;
    if negb (r =? 0) then printf "failed hammer_read()\n" [];; mret false
    else mret true.

Definition test (data size trials : Z) : M Z :=
  ok ← repeat_while (Z.to_nat trials) (trial data);
  mret (if (ok : bool) then 0 else -1).

(** ** The tests *)

(** [clock_gettime] into a time value that holds [ts0] before. *)
Definition read_clock (ts0 : timespec) : M timespec :=
  r ← sys (Clock_gettime CLOCK_THREAD_CPUTIME_ID);
  mret (match r with Pair s n => mk_ts s n | _ => ts0 end).

(** [stack] is what [start] and [end] hold before they are assigned; the
    elapsed time is returned whether or not [time] is NULL. *)
Definition do_data (page_size : Z) (stack : timespec * timespec) (do_uncache : bool) : M (Z * option Z) :=
  let prot := Z.lor PROT_READ PROT_WRITE in
  let trials := 1000 in
  printf "Running data access test.\n" [];;
  syscall (Mlockall (Z.lor MCL_CURRENT MCL_FUTURE));;
  prio ← syscall (Sched_get_priority_max SCHED_FIFO);
  let size := page_size * NR_PAGES in
  printf "Allocating %d %s pages.\n"
    [AInt NR_PAGES; AStr (if do_uncache then "uncacheable" else "cacheable")];;
  data ← (if do_uncache then
            fd ← syscall (Open UNCACHE_DEV O_RDWR 0);
            data ← syscall (Mmap (u64 size) prot MAP_PRIVATE fd);
            syscall (Close fd);;
            mret data
          else syscall (Mmap (u64 size) prot (Z.lor MAP_PRIVATE MAP_ANONYMOUS) (-1)));
  if data =? MAP_FAILED then
    printf "Failed to alloc data! Are you running Litmus? Is Litmus broken?\n" [];;
    mret (-1, None)
  else
    printf "Data allocated at %p.\n" [AInt data];;
    printf "Beginning tests...\n" [];;
    pid ← syscall Getpid;
    r ← sched_setscheduler pid SCHED_FIFO prio;
    when (negb (r =? 0))
      (printf "(Could not become SCHED_FIFO task.) Are you running as root?\n" []);;
    start ← read_clock (fst stack);
    r ← test data size trials;
    if negb (r =? 0) then
      printf "Test failed!\n" [];;
      syscall (Munmap data (u64 size));;
      mret (-1, None)
    else
      end_ ← read_clock (snd stack);
      match timespec_sub end_ start with
      | None => no_fuel
      | Some delta =>
          let elapsed := timespec_to_us delta in
          printf "%s Time: %lius\n" [AStr (if do_uncache then "Uncache" else "Cache"); AInt elapsed];;
          syscall (Munmap data (u64 size));;
          mret (0, Some elapsed)
      end.

(** 1.3 *)
Definition thresh : double := of_decimal false 13 (-1).

Definition do_data_compare (page_size : Z) (stack : timespec * timespec) : M Z :=
  printf "Timing cached pages...\n" [];;
  '(ret, time) ← do_data page_size stack false;
  let cache_time := default 0 time in
  if negb (ret =? 0) then mret ret
  else
    printf "Timing uncached pages...\n" [];;
    '(ret, time) ← do_data page_size stack true;
    let uncache_time := default 0 time in
    if negb (ret =? 0) then mret ret
    else
      let ratio := ddiv (of_Z uncache_time) (of_Z cache_time) in
      printf "Uncached/Cached Ratio: %f\n" [ADbl ratio];;
      if dlt ratio thresh then
        printf "Ratio is unexpectedly small (< %f)!  Uncache broken? Are you on kvm?\n" [ADbl thresh];;
        mret (-1)
      else mret ret.
End uncache.

(** *** Allocating as much as possible *)

Definition max_mmaps : Z := 32765.

Section max_alloc.
Context {K : Kernel}.

(** [for (i = 0; (i < max_mmaps) && good; ++i) ...]: the addresses stored in
    [maps], in order, and [good] after the loop. *)
Fixpoint alloc_loop (n : nat) (mmap_size fd : Z) : M (list Z * bool) :=
  match n with
  | O => mret ([], true)
  | S n =>
      data ← syscall (Mmap mmap_size (Z.lor PROT_READ PROT_WRITE) (Z.lor MAP_PRIVATE MAP_POPULATE) fd);
      if negb (data =? MAP_FAILED) then
        '(maps, good) ← alloc_loop n mmap_size fd;
        mret (data :: maps, good)
      else
        perror "";;
        mret ([], false)
  end.

(** [for (i = 0; i < count; ++i) if (maps[i]) munmap(...)] *)
Fixpoint unmap_loop (maps : list Z) (mmap_size : Z) : M unit :=
  match maps with
  | [] => mret tt
  | a :: maps =>
      when (negb (a =? NULL)) (syscall (Munmap a mmap_size);; mret tt);;
      unmap_loop maps mmap_size
  end.

(** [do { ... } while (good)]: the values of [count] and [mmap_size] after it. *)
Fixpoint alloc_rounds (fuel : nat) (page_size fd mmap_size : Z) : M (Z * Z) :=
  match fuel with
  | O => no_fuel
  | S fuel =>
      let nr_pages := s32 (mmap_size / page_size) in
      printf "Testing mmaps of %d pages.\n" [AInt nr_pages];;
      '(maps, good) ← alloc_loop (Z.to_nat max_mmaps) mmap_size fd;
      unmap_loop maps mmap_size;;
      let count := Z.of_nat (length maps) in
      let mmap_size := u64 (mmap_size * 2) in
      if (good : bool) then alloc_rounds fuel page_size fd mmap_size else mret (count, mmap_size)
  end.

Definition do_max_alloc (fuel : nat) (page_size : Z) : M Z :=
  r ← sys (Calloc max_mmaps 8);
  let maps := match r with Succ p => p | _ => NULL end in
  if maps =? NULL then
    printf "failed to alloc pointers for pages\n" [];;
    mret (-1)
  else
    printf "Testing max amount of uncache data. System may get wonkie (OOM Killer)!\n" [];;
    fd ← syscall (Open UNCACHE_DEV O_RDWR 0);
    '(count, mmap_size) ← alloc_rounds fuel page_size fd (u64 page_size);
    syscall (Free maps);;
    syscall (Close fd);;
    printf "Maxed out allocs with %d mmaps of %lu pages in size.\n"
      [AInt count; AInt (mmap_size / page_size)];;
    mret 0.
End max_alloc.

(** *** The tool *)

Inductive test_t := UNCACHE | CACHE | COMPARE | MAX_ALLOC.

Definition OPTSTR : string := "ucxa".
Definition SC_PAGE_SIZE : Z := 30.

Section tool.
Context {K : Kernel}.

Definition option_switch (opt : ascii) (optarg : string) (test : test_t) : M test_t :=
  if Ascii.eqb opt "c" then mret CACHE
  else if Ascii.eqb opt "u" then mret UNCACHE
  else if Ascii.eqb opt "x" then mret COMPARE
  else if Ascii.eqb opt "a" then mret MAX_ALLOC
  else if Ascii.eqb opt ":" then printf "missing option\n" [];; exit_ (-1)
  else printf "bad argument\n" [];; exit_ (-1).

Definition main (fuel : nat) (stack : timespec * timespec) (prog : string) (args : list string) : M Z :=
  sz ← syscall (Sysconf SC_PAGE_SIZE);
  let PAGE_SIZE := s32 sz in
  test ← getopt_loop prog option_switch (fst (getopt_all (bytes_of OPTSTR) args)) UNCACHE;
  printf "Page Size: %d\n" [AInt PAGE_SIZE];;
  ret ← match test with
        | CACHE => '(ret, _) ← do_data PAGE_SIZE stack false; mret ret
        | UNCACHE => '(ret, _) ← do_data PAGE_SIZE stack true; mret ret
        | COMPARE => do_data_compare PAGE_SIZE stack
        | MAX_ALLOC => do_max_alloc fuel PAGE_SIZE
        end;
  when (negb (ret =? 0)) (printf "Test failed.\n" []);;
  mret ret.
End tool.

(** ** Time values *)

(** A time value in nanoseconds. *)
Definition total_ns (ts : timespec) : Z := tv_sec ts * 1000000000 + tv_nsec ts.
Definition valid_ts (ts : timespec) : Prop := 0 <= tv_nsec ts < 1000000000.

(** With nanoseconds between -10^9 and 2*10^9, normalisation carries or borrows
    at most once; the seconds wrap.  The result has at most 10^9 nanoseconds,
    and it has them exactly on a full second. *)
Lemma normalize_spec sec nsec :
  - 1000000000 < nsec < 2000000000 ->
  exists k n, timespec_normalize ts_fuel (s64 sec) (s64 nsec) = Some (mk_ts (s64 (sec + k)) n) /\
    nsec = k * 1000000000 + n /\ -1 <= k <= 1 /\ 0 <= n <= 1000000000 /\ (n = 1000000000 <-> nsec = 1000000000).
Proof.
  intros Hn. rewrite (wrap_s_small 64 nsec) by lia. unfold timespec_normalize, ts_fuel. cbn [carry_loop borrow_loop].
  destruct (Z.ltb_spec 1000000000 nsec) as [H1|H1].
  - rewrite (wrap_s_small 64 (nsec - 1000000000)) by lia.
    rewrite (proj2 (Z.ltb_ge 1000000000 (nsec - 1000000000))), (proj2 (Z.ltb_ge (nsec - 1000000000) 0)) by lia.
    exists 1, (nsec - 1000000000). rewrite wrap_s_add_l by lia. split; [done|lia].
  - destruct (Z.ltb_spec nsec 0) as [H2|H2].
    + rewrite (wrap_s_small 64 (nsec + 1000000000)) by lia.
      rewrite (proj2 (Z.ltb_ge (nsec + 1000000000) 0)) by lia. exists (-1), (nsec + 1000000000).
      replace (s64 sec - 1) with (s64 sec + -1) by lia. rewrite wrap_s_add_l by lia. split; [done|lia].
    + exists 0, nsec. rewrite Z.add_0_r. split; [done|lia].
Qed.

(** The seconds wrap, the nanoseconds are those of the exact difference. *)
Lemma timespec_sub_run lhs rhs :
  valid_ts lhs -> valid_ts rhs -> let d := total_ns lhs - total_ns rhs in
  timespec_sub lhs rhs = Some (mk_ts (s64 (d / 1000000000)) (d mod 1000000000)).
Proof.
  intros Hl Hr d. unfold valid_ts in *. unfold timespec_sub.
  destruct (normalize_spec (tv_sec lhs - tv_sec rhs) (tv_nsec lhs - tv_nsec rhs))
    as (k & n & -> & Hk & _ & Hn & Hfull); [lia|].
  assert (d = 1000000000 * (tv_sec lhs - tv_sec rhs + k) + n) as Hd by (unfold d, total_ns; lia).
  f_equal. f_equal; [f_equal; apply Z.div_unique with n; lia|apply Z.mod_unique with (tv_sec lhs - tv_sec rhs + k); lia].
Qed.

Lemma valid_sub s d : valid_ts (mk_ts s (d mod 1000000000)).
Proof. unfold valid_ts. cbn [tv_nsec]. apply Z.mod_pos_bound. lia. Qed.

(** C33: the difference [d] of two valid time values is computed in two loop
    iterations at most, with 64-bit arithmetic.  Its nanoseconds are exact and
    valid, and its seconds exact modulo 2^64; the microseconds that
    [timespec_to_us] makes of it are those of the exact difference, rounded
    down also when it is negative, modulo 2^64.  So both are exact as long as
    the seconds and the microseconds fit into 64 bits, and not beyond. *)
Theorem timespec_sub_spec lhs rhs :
  valid_ts lhs -> valid_ts rhs ->
  let d := total_ns lhs - total_ns rhs in
  exists ts, timespec_sub lhs rhs = Some ts /\ valid_ts ts /\
    tv_sec ts = s64 (d / 1000000000) /\ tv_nsec ts = d mod 1000000000 /\ timespec_to_us ts = s64 (d / 1000) /\
    (total_ns ts = d <-> LONG_MIN <= d / 1000000000 <= LONG_MAX) /\
    (timespec_to_us ts = d / 1000 <-> LONG_MIN <= d / 1000 <= LONG_MAX).
Proof.
  intros Hl Hr d. exists (mk_ts (s64 (d / 1000000000)) (d mod 1000000000)). split; [by apply timespec_sub_run|].
  split; [apply valid_sub|]. split; [done|]. split; [done|].
  assert (timespec_to_us (mk_ts (s64 (d / 1000000000)) (d mod 1000000000)) = s64 (d / 1000)) as Hus.
  { unfold timespec_to_us. cbn [tv_sec tv_nsec]. pose proof (Z.mod_pos_bound d 1000000000 ltac:(lia)).
    rewrite Z.quot_div_nonneg, wrap_s_mul_l, wrap_s_add_l by lia. f_equal.
    rewrite (Z.div_mod d 1000000000) at 3 by lia.
    replace (1000000000 * (d / 1000000000) + d mod 1000000000) with (d mod 1000000000 + d / 1000000000 * 1000000 * 1000) by lia.
    rewrite Z.div_add by lia. lia. }
  split; [done|]. rewrite Hus. unfold total_ns. cbn [tv_sec tv_nsec].
  pose proof (Z.div_mod d 1000000000 ltac:(lia)). unfold LONG_MIN, LONG_MAX.
  pose proof (wrap_s_range 64 (d / 1000000000)). pose proof (wrap_s_range 64 (d / 1000)).
  split; (split; [lia|intros Hfit; rewrite wrap_s_small; lia]).
Qed.

(** The sum of two valid time values is exact in nanoseconds unless its seconds
    overflow, but it is a valid time value only when the nanoseconds do not add
    up to one full second: the carry loop compares with [>], so a sum of exactly
    10^9 is left in [tv_nsec]. *)
Theorem timespec_add_spec lhs rhs :
  valid_ts lhs -> valid_ts rhs -> LONG_MIN <= tv_sec lhs + tv_sec rhs < LONG_MAX ->
  exists ts, timespec_add lhs rhs = Some ts /\
    total_ns ts = total_ns lhs + total_ns rhs /\
    (valid_ts ts <-> tv_nsec lhs + tv_nsec rhs <> 1000000000) /\
    (tv_nsec lhs + tv_nsec rhs = 1000000000 -> tv_nsec ts = 1000000000).
Proof.
  unfold valid_ts, LONG_MIN, LONG_MAX. intros Hl Hr Hs. unfold timespec_add.
  destruct (normalize_spec (tv_sec lhs + tv_sec rhs) (tv_nsec lhs + tv_nsec rhs))
    as (k & n & -> & Hk & Hk1 & Hn & Hfull); [lia|].
  eexists. split; [done|]. unfold total_ns in *. cbn [tv_sec tv_nsec]. rewrite wrap_s_small by lia.
  split_and!; lia.
Qed.

(** ** Hammering *)

(** The characters loaded, newest first. *)
Definition loads (t : trace) : list Z :=
  omap (fun e => match e with Sys (LoadByte _) r => Some (wrap_s 8 (ret_of r)) | _ => None end) t.

(** The stores, newest first: address and character. *)
Definition stores (t : trace) : list (Z * Z) :=
  omap (fun e => match e with Sys (StoreByte a v) _ => Some (a, v) | _ => None end) t.

(** The character an address holds. *)
Definition stored (a : Z) (t : trace) : Z :=
  default 0 (snd <$> find (fun s => fst s =? a) (stores t)).

(** Memory that returns what was stored last. *)
Class Memory (K : Kernel) : Prop :=
  memory t a : kernel t (LoadByte a) = Succ (stored a t).

Section hammer.
Context {K : Kernel}.

Lemma bind_store_char {B} addr val (f : unit -> M B) w :
  (store_char addr val ≫= f) w =
    let c := StoreByte addr (wrap_s 8 val) in f tt (after c (kernel (tr w) c) w).
Proof. done. Qed.

Lemma bind_load_char {B} addr (f : Z -> M B) w :
  (load_char addr ≫= f) w =
    let r := kernel (tr w) (LoadByte addr) in f (wrap_s 8 (ret_of r)) (after (LoadByte addr) r w).
Proof. done. Qed.

(** Loading and comparing until a character differs. *)
Lemma compare_loop n data val w :
  exists vs w', repeat_while n (v ← load_char data; mret (v =? val)) w =
      (Val (forallb (Z.eqb val) vs), w') /\
    loads (tr w') = rev vs ++ loads (tr w) /\ stores (tr w') = stores (tr w) /\
    (length vs <= n)%nat /\
    (forallb (Z.eqb val) vs = true -> length vs = n) /\
    (forallb (Z.eqb val) vs = false ->
       exists vs' v, vs = vs' ++ [v] /\ v <> val /\ Forall (eq val) vs').
Proof.
  revert w. induction n as [|n IH]; intros w; cbn [repeat_while].
  { exists [], w. by split_and!. }
  rewrite bind_bind, bind_load_char. cbn zeta. set (r := kernel _ _). set (v := wrap_s 8 (ret_of r)).
  mrun. destruct (Z.eqb_spec v val) as [E|E].
  - destruct (IH (after (LoadByte data) r w)) as (vs & w' & Hrun & Hl & Hs & Hlen & Ht & Hf).
    exists (v :: vs), w'. rewrite Hrun, E. cbn [forallb rev length]. rewrite Z.eqb_refl. cbn [andb].
    split; [done|]. split; [|split; [|split; [lia|split]]].
    + rewrite Hl, tr_after. cbn. fold v. by rewrite E, <- app_assoc.
    + by rewrite Hs, tr_after.
    + intros Hall. by rewrite Ht.
    + intros Hany. destruct (Hf Hany) as (vs' & v' & -> & Hv & Hvs). exists (val :: vs'), v'.
      split_and!; [done..|by constructor].
  - exists [v], (after (LoadByte data) r w). cbn [forallb rev length app].
    rewrite (proj2 (Z.eqb_neq val v)) by congruence. cbn [andb]. rewrite tr_after.
    split_and!; [done|done|done|lia|done|]. intros _. by exists [], v.
Qed.

(** [hammer_read] loads until a character differs or the count is
    reached; it returns 0 exactly when all [nr] loads returned the value, and -1
    right after the first that did not; it stores nothing. *)
Theorem hammer_read_spec data val nr w :
  exists vs w', hammer_read data val nr w = (Val (if forallb (Z.eqb val) vs then 0 else -1), w') /\
    loads (tr w') = rev vs ++ loads (tr w) /\ stores (tr w') = stores (tr w) /\
    (forallb (Z.eqb val) vs = true -> length vs = Z.to_nat nr) /\
    (forallb (Z.eqb val) vs = false ->
       (length vs <= Z.to_nat nr)%nat /\
       exists vs' v, vs = vs' ++ [v] /\ v <> val /\ Forall (eq val) vs').
Proof.
  destruct (compare_loop (Z.to_nat nr) data val w) as (vs & w' & Hrun & Hl & Hs & Hlen & Ht & Hf).
  exists vs, w'. unfold hammer_read. rewrite (bind_val _ _ _ _ _ Hrun). split_and!; auto.
Qed.

Lemma store_loop n data val w :
  exists w', repeat_unit n (store_char data val) w = (Val tt, w') /\
    stores (tr w') = replicate n (data, wrap_s 8 val) ++ stores (tr w) /\ loads (tr w') = loads (tr w).
Proof.
  revert w. induction n as [|n IH]; intros w; cbn [repeat_unit]; [by exists w|].
  rewrite bind_store_char. cbn zeta.
  destruct (IH (after (StoreByte data (wrap_s 8 val)) (kernel (tr w) (StoreByte data (wrap_s 8 val))) w))
    as (w' & Hrun & Hs & Hl).
  exists w'. rewrite Hrun, Hs, Hl, tr_after. split_and!; [done| |done].
  cbn [replicate]. change (stores (Sys (StoreByte ?a ?v) ?r :: ?t)) with ((a, v) :: stores t).
  by rewrite replicate_cons_app, <- app_assoc.
Qed.

Lemma compare_loop_memory `{!Memory K} n data val w :
  stored data (tr w) = val -> wrap_s 8 val = val ->
  exists w', repeat_while n (v ← load_char data; mret (v =? val)) w = (Val true, w') /\
    stores (tr w') = stores (tr w) /\ loads (tr w') = replicate n val ++ loads (tr w).
Proof.
  intros Hst Hval. revert w Hst. induction n as [|n IH]; intros w Hst; cbn [repeat_while]; [by exists w|].
  rewrite bind_bind, bind_load_char. cbn zeta. rewrite memory, Hst. cbn [ret_of]. rewrite Hval. mrun.
  rewrite Z.eqb_refl.
  destruct (IH (after (LoadByte data) (Succ val) w)) as (w' & Hrun & Hs & Hl); [done|].
  exists w'. rewrite Hrun, Hs, Hl, tr_after. split_and!; [done..|]. cbn. rewrite Hval.
  by rewrite app_comm_cons, replicate_cons_app, <- app_assoc.
Qed.

(** On memory that returns what was stored, [test] succeeds, after
    exactly 10000 stores and 10000 loads of the first byte per trial. *)
Theorem test_faithful data size trials w :
  Memory K -> 0 <= trials ->
  exists w', test data size trials w = (Val 0, w') /\
    Z.of_nat (length (stores (tr w'))) = trials * 10000 + Z.of_nat (length (stores (tr w))) /\
    Z.of_nat (length (loads (tr w'))) = trials * 10000 + Z.of_nat (length (loads (tr w))).
Proof.
  intros MEM Htr. unfold test.
  assert (forall n w, exists w', repeat_while n (trial data) w = (Val true, w') /\
    length (stores (tr w')) = (n * Z.to_nat HAMMER_TIME + length (stores (tr w)))%nat /\
    length (loads (tr w')) = (n * Z.to_nat HAMMER_TIME + length (loads (tr w)))%nat) as Hn.
  { clear w. induction n as [|n IH]; intros w; cbn [repeat_while]; [by exists w|].
    destruct (store_loop (Z.to_nat HAMMER_TIME) data VAL w) as (w1 & H1 & Hs1 & Hl1).
    destruct (compare_loop_memory (Z.to_nat HAMMER_TIME) data VAL w1) as (w2 & H2 & Hs2 & Hl2).
    { unfold stored. rewrite Hs1. destruct (Z.to_nat HAMMER_TIME) as [|n'] eqn:E; [by vm_compute in E|].
      cbn [replicate app find fst]. by rewrite Z.eqb_refl. }
    { done. }
    destruct (IH w2) as (w' & H3 & Hs3 & Hl3). exists w'.
    assert (trial data w = (Val true, w2)) as Ht.
    { unfold trial, hammer_write. rewrite bind_bind, (bind_val _ _ _ _ _ H1). mrun. cbn [Z.eqb negb].
      unfold hammer_read. rewrite bind_bind, (bind_val _ _ _ _ _ H2). done. }
    rewrite (bind_val _ _ _ _ _ Ht), H3, Hs3, Hl3, Hs2, Hl2, Hs1, Hl1.
    rewrite !length_app, !length_replicate. rewrite !Nat.mul_succ_l. split_and!; [done|lia..]. }
  destruct (Hn (Z.to_nat trials) w) as (w' & Hrun & Hs & Hl). exists w'.
  rewrite (bind_val _ _ _ _ _ Hrun). unfold HAMMER_TIME in *. split_and!; [done|lia..].
Qed.
End hammer.

(** ** Mappings *)

#[export] Instance mapping_eq_dec : EqDecision (Z * Z).
Proof. solve_decision. Defined.

(** [l] without its first [x]. *)
Fixpoint remove_one (x : Z * Z) (l : list (Z * Z)) : list (Z * Z) :=
  match l with [] => [] | y :: l => if decide (x = y) then l else y :: remove_one x l end.

(** The mappings made and not yet removed, newest first: address and size. *)
Fixpoint mapped (t : trace) : list (Z * Z) :=
  match t with
  | [] => []
  | Sys (Mmap size _ _ _) (Succ a) :: t => (a, size) :: mapped t
  | Sys (Munmap a size) _ :: t => remove_one (a, size) (mapped t)
  | _ :: t => mapped t
  end.

(** [mmap] without MAP_FIXED returns an address other than NULL or fails. *)
Class MmapLaw (K : Kernel) : Prop :=
  mmap_law t size prot flags fd :
    (exists a, kernel t (Mmap size prot flags fd) = Succ a /\ 0 < a) \/
    exists e, kernel t (Mmap size prot flags fd) = Fail e.

(** Clocks can be read and are normalised. *)
Class ClockLaw (K : Kernel) : Prop :=
  clock_law t clk : exists s n, kernel t (Clock_gettime clk) = Pair s n /\ 0 <= n < 1000000000.

Section mappings.
Context {K : Kernel}.

Lemma total_repeat_unit n body : total body -> total (repeat_unit n body).
Proof. intros Hb. induction n; cbn [repeat_unit]; total_tac. Qed.

Lemma total_repeat_while n body : total body -> total (repeat_while n body).
Proof. intros Hb. induction n; cbn [repeat_while]; total_tac. Qed.

Lemma keeps_repeat_unit {X} (F : trace -> X) n body : keeps F body -> keeps F (repeat_unit n body).
Proof. intros Hb. induction n; cbn [repeat_unit]; keeps_tac. Qed.

Lemma keeps_repeat_while {X} (F : trace -> X) n body : keeps F body -> keeps F (repeat_while n body).
Proof. intros Hb. induction n; cbn [repeat_while]; keeps_tac. Qed.

Lemma test_total data size trials : total (test data size trials).
Proof.
  unfold test, trial, hammer_write, hammer_read, store_char, load_char.
  total_tac; apply total_repeat_while; total_tac;
    (apply total_repeat_unit || apply total_repeat_while); total_tac.
Qed.

Lemma test_mapped data size trials : keeps mapped (test data size trials).
Proof.
  unfold test, trial, hammer_write, hammer_read, store_char, load_char.
  keeps_tac; apply keeps_repeat_while; keeps_tac;
    (apply keeps_repeat_unit || apply keeps_repeat_while); keeps_tac.
Qed.

Lemma mapped_unmap a size r t l : mapped t = (a, size) :: l -> mapped (Sys (Munmap a size) r :: t) = l.
Proof. intros Ht. cbn [mapped]. rewrite Ht. cbn [remove_one]. rewrite decide_True by done. by destruct r. Qed.
End mappings.

Section do_data.
Context {K : Kernel} {ML : MmapLaw K} {CL : ClockLaw K}.

(** The anonymous or device mapping [do_data] works on. *)
Definition map_data (do_uncache : bool) (size : Z) : M Z :=
  if do_uncache then
    fd ← syscall (Open UNCACHE_DEV O_RDWR 0);
    data ← syscall (Mmap (u64 size) (Z.lor PROT_READ PROT_WRITE) MAP_PRIVATE fd);
    syscall (Close fd);;
    mret data
  else syscall (Mmap (u64 size) (Z.lor PROT_READ PROT_WRITE) (Z.lor MAP_PRIVATE MAP_ANONYMOUS) (-1)).

Lemma map_data_run do_uncache size w :
  exists data w', map_data do_uncache size w = (Val data, w') /\
    (data = MAP_FAILED /\ mapped (tr w') = mapped (tr w) \/
     data <> MAP_FAILED /\ mapped (tr w') = (data, u64 size) :: mapped (tr w)).
Proof using ML.
  unfold map_data, syscall at 4. destruct do_uncache; mrun.
  - set (t := Sys (Open UNCACHE_DEV O_RDWR 0) _ :: tr w).
    destruct (mmap_law t (u64 size) (Z.lor PROT_READ PROT_WRITE) MAP_PRIVATE
      (ret_of (kernel (tr w) (Open UNCACHE_DEV O_RDWR 0)))) as [(a & E & Ha)|(e & E)];
      unfold t in *; rewrite E; (eexists _, _; split; [done|]); rewrite !tr_after.
    + right. split; [unfold MAP_FAILED; cbn; lia|done].
    + by left.
  - destruct (mmap_law (tr w) (u64 size) (Z.lor PROT_READ PROT_WRITE)
      (Z.lor MAP_PRIVATE MAP_ANONYMOUS) (-1)) as [(a & E & Ha)|(e & E)];
      rewrite E; (eexists _, _; split; [done|]); rewrite !tr_after.
    + right. split; [unfold MAP_FAILED; cbn; lia|done].
    + by left.
Qed.

Lemma read_clock_run ts0 w :
  exists ts w', read_clock ts0 w = (Val ts, w') /\ valid_ts ts /\ mapped (tr w') = mapped (tr w).
Proof using CL.
  unfold read_clock. rewrite bind_sys.
  destruct (clock_law (tr w) CLOCK_THREAD_CPUTIME_ID) as (s & n & -> & Hn).
  eexists _, _. split; [done|]. split; [done|]. by rewrite tr_after.
Qed.

Lemma do_data_run page_size stack do_uncache w :
  exists ret time w', do_data page_size stack do_uncache w = (Val (ret, time), w') /\
    mapped (tr w') = mapped (tr w) /\ (ret = 0 /\ is_Some time \/ ret = -1 /\ time = None).
Proof using ML CL.
  unfold do_data. unfold printf. mrun. cbn zeta.
  match goal with |- context [(if do_uncache then ?m1 else ?m2) ≫= ?f] =>
    change (if do_uncache then m1 else m2) with (map_data do_uncache (page_size * NR_PAGES)) end.
  match goal with |- context [(map_data _ _ ≫= _) ?x] => set (w1 := x) end.
  assert (mapped (tr w1) = mapped (tr w)) as Hw1 by (unfold w1; cbn [tr push]; by rewrite !tr_after).
  destruct (map_data_run do_uncache (page_size * NR_PAGES) w1) as (data & w2 & Hrun & Hcase).
  rewrite (bind_val _ _ _ _ _ Hrun).
  destruct Hcase as [[-> Hm]|[Hne Hm]].
  { rewrite Z.eqb_refl. mrun. eexists (-1), None, _. split; [done|]. split; [|by right].
    trans (mapped (tr w2)); [done|congruence]. }
  rewrite (proj2 (Z.eqb_neq _ _) Hne). mrun. unfold sched_setscheduler. rewrite bind_syscall_int.
  set (size := page_size * NR_PAGES) in *.
  match goal with |- context [when ?b _ ≫= ?f] => set (failed := b); set (k := f) end.
  match goal with |- context [(when failed _ ≫= k) ?x] => set (w3 := x) end.
  assert (mapped (tr w3) = (data, u64 size) :: mapped (tr w)) as Hw3.
  { unfold w3. rewrite !tr_after. cbn [tr push mapped]. by rewrite Hm, Hw1. }
  assert (exists w4, when failed (emit (Out stdout "(Could not become SCHED_FIFO task.) Are you running as root?\n" [])) w3 =
    (Val tt, w4) /\ mapped (tr w4) = mapped (tr w3)) as (w4 & H4 & Hm4).
  { destruct failed; by eexists. }
  rewrite (bind_val _ _ _ _ _ H4). unfold k.
  destruct (read_clock_run (fst stack) w4) as (start & w5 & H5 & Hv5 & Hm5).
  rewrite (bind_val _ _ _ _ _ H5).
  destruct (test_total data size 1000 w5) as (r & w6 & H6).
  pose proof (keeps_run _ _ _ _ _ (test_mapped data size 1000) H6) as Hm6.
  rewrite (bind_val _ _ _ _ _ H6).
  assert (mapped (tr w6) = (data, u64 size) :: mapped (tr w)) as Hw6 by congruence.
  clear H6.
  destruct (negb (r =? 0)).
  { mrun. eexists (-1), None, _. split; [done|]. split; [|right; by split].
    rewrite tr_after. by apply mapped_unmap. }
  destruct (read_clock_run (snd stack) w6) as (end_ & w7 & H7 & Hv7 & Hm7).
  rewrite (bind_val _ _ _ _ _ H7).
  rewrite (timespec_sub_run end_ start Hv7 Hv5). mrun.
  eexists 0, (Some _), _. split; [done|]. split; [|left; by split].
  rewrite tr_after. apply mapped_unmap. trans (mapped (tr w7)); [done|congruence].
Qed.

(** C31: with an environment whose clocks can be read and whose [mmap] behaves,
    a data access test always ends, with an elapsed time exactly when it
    returns 0 and with -1 otherwise, and it has removed the mapping it made on
    every path; the comparison of both tests keeps the mappings too. *)
Theorem do_data_unmaps page_size stack do_uncache w :
  (exists ret time w', do_data page_size stack do_uncache w = (Val (ret, time), w') /\
    mapped (tr w') = mapped (tr w) /\ (ret = 0 /\ is_Some time \/ ret = -1 /\ time = None)) /\
  (exists ret w', do_data_compare page_size stack w = (Val ret, w') /\
    mapped (tr w') = mapped (tr w) /\ (ret = 0 \/ ret = -1)).
Proof using ML CL.
  split; [apply do_data_run|]. unfold do_data_compare. unfold printf. mrun.
  match goal with |- context [(do_data _ _ false ≫= _) ?x] => set (w1 := x) end.
  destruct (do_data_run page_size stack false w1) as (r1 & t1 & w2 & H1 & Hm1 & Hr1).
  rewrite (bind_val _ _ _ _ _ H1). destruct Hr1 as [[-> _]|[-> _]]; cbn [Z.eqb negb].
  2: { eexists _, _. split; [done|]. split; [done|]. by right. }
  mrun. match goal with |- context [(do_data _ _ true ≫= _) ?x] => set (w3 := x) end.
  destruct (do_data_run page_size stack true w3) as (r2 & t2 & w4 & H2 & Hm2 & Hr2).
  rewrite (bind_val _ _ _ _ _ H2).
  assert (mapped (tr w4) = mapped (tr w)) as Hm by (rewrite Hm2; exact Hm1).
  destruct Hr2 as [[-> _]|[-> _]]; cbn [Z.eqb negb].
  2: { eexists _, _. split; [done|]. split; [done|]. by right. }
  cbn zeta. mrun. destruct (dlt _ _); mrun; (eexists _, _; split; [done|]); split; auto.
Qed.
End do_data.

(** ** The largest allocation *)

Lemma remove_one_elem x l : x ∈ l -> l ≡ₚ x :: remove_one x l.
Proof.
  induction l as [|y l IH]; [by intros ?%not_elem_of_nil|]. cbn [remove_one].
  destruct (decide (x = y)) as [->|Hne]; [done|]. intros [?|Hin]%elem_of_cons; [done|].
  rewrite Permutation_swap. by rewrite <- IH.
Qed.

Lemma remove_one_perm x l l' : l ≡ₚ x :: l' -> remove_one x l ≡ₚ l'.
Proof.
  intros Hl. apply (Permutation_cons_inv (a := x)). rewrite <- Hl. symmetry.
  apply remove_one_elem. rewrite Hl. by left.
Qed.

(** The size and answer of the last [mmap]. *)
Fixpoint last_mmap (t : trace) : option (Z * reply) :=
  match t with
  | [] => None
  | Sys (Mmap size _ _ _) r :: _ => Some (size, r)
  | _ :: t => last_mmap t
  end.

Section max_alloc_spec.
Context {K : Kernel} {ML : MmapLaw K}.

Lemma alloc_loop_run n size fd w :
  exists maps good w', alloc_loop n size fd w = (Val (maps, good), w') /\
    mapped (tr w') = map (fun a => (a, size)) (rev maps) ++ mapped (tr w) /\
    Forall (fun a => a <> NULL) maps /\
    (good = false -> exists e, last_mmap (tr w') = Some (size, Fail e)) /\
    (size = 0 -> (0 < n)%nat -> (forall t prot flags, exists e, kernel t (Mmap 0 prot flags fd) = Fail e) ->
       good = false).
Proof using ML.
  revert w. induction n as [|n IH]; intros w; cbn [alloc_loop].
  { exists [], true, w. split_and!; try done. lia. }
  rewrite bind_syscall.
  set (c := Mmap size _ _ fd).
  destruct (mmap_law (tr w) size (Z.lor PROT_READ PROT_WRITE) (Z.lor MAP_PRIVATE MAP_POPULATE) fd)
    as [(a & E & Ha)|(e & E)]; fold c in E; rewrite E; cbn [ret_of].
  - rewrite (proj2 (Z.eqb_neq a MAP_FAILED)) by (unfold MAP_FAILED; lia). cbn [negb].
    destruct (IH (after c (Succ a) w)) as (maps & good & w' & Hrun & Hm & Hmaps & Hlast & Hzero).
    rewrite (bind_val _ _ _ _ _ Hrun). exists (a :: maps), good, w'. split; [done|].
    split; [|split; [constructor; [unfold NULL; lia|done]|split; [done|]]].
    + rewrite Hm, tr_after. cbn [rev map mapped c]. by rewrite map_app, <- app_assoc.
    + intros -> _ Hfail. destruct (Hfail (tr w) (Z.lor PROT_READ PROT_WRITE)
        (Z.lor MAP_PRIVATE MAP_POPULATE)) as [e' E']. fold c in E'. congruence.
  - cbn [Z.eqb MAP_FAILED negb Pos.eqb]. unfold perror. mrun. eexists [], false, _. split; [done|].
    cbn [rev map app tr push mapped last_mmap]. rewrite tr_after. unfold c. cbn [mapped last_mmap].
    split_and!; try done. intros _. by exists e.
Qed.

Lemma unmap_loop_run maps size w l :
  Forall (fun a => a <> NULL) maps ->
  mapped (tr w) ≡ₚ map (fun a => (a, size)) maps ++ l ->
  exists w', unmap_loop maps size w = (Val tt, w') /\ mapped (tr w') ≡ₚ l /\
    last_mmap (tr w') = last_mmap (tr w).
Proof using.
  intros Hmaps. revert w. induction Hmaps as [|a maps Ha _ IH]; intros w Hm; cbn [unmap_loop].
  { by exists w. }
  rewrite (proj2 (Z.eqb_neq _ _) Ha). cbn [negb when]. mrun.
  set (r := kernel _ _). destruct (IH (after (Munmap a size) r w)) as (w' & Hrun & Hm' & Hl).
  { rewrite tr_after. cbn [mapped]. apply remove_one_perm. exact Hm. }
  exists w'. by rewrite Hrun, Hm', Hl, tr_after.
Qed.

Lemma alloc_rounds_run fuel page_size fd n w :
  (forall t prot flags, exists e, kernel t (Mmap 0 prot flags fd) = Fail e) ->
  (n <= 64)%nat -> (64 - n < fuel)%nat ->
  exists count size w', alloc_rounds fuel page_size fd (u64 (2 ^ Z.of_nat n)) w = (Val (count, size), w') /\
    mapped (tr w') ≡ₚ mapped (tr w) /\
    exists s e, last_mmap (tr w') = Some (s, Fail e) /\ size = u64 (s * 2).
Proof using ML.
  intros Hzero. revert n w. induction fuel as [|fuel IH]; intros n w Hn Hf; [lia|].
  cbn [alloc_rounds]. unfold printf. mrun. set (w1 := push _ w). set (size := u64 (2 ^ Z.of_nat n)).
  destruct (alloc_loop_run (Z.to_nat max_mmaps) size fd w1)
    as (maps & good & w2 & H2 & Hm2 & Hmaps & Hlast & Hgood).
  rewrite (bind_val _ _ _ _ _ H2).
  destruct (unmap_loop_run maps size w2 (mapped (tr w)) Hmaps) as (w3 & H3 & Hm3 & Hl3).
  { by rewrite Hm2, map_rev, <- Permutation_rev. }
  rewrite (bind_val _ _ _ _ _ H3). cbn zeta.
  assert (Hdouble : u64 (size * 2) = u64 (2 ^ Z.of_nat (S n))).
  { unfold size, wrap_u. rewrite Zmult_mod_idemp_l. f_equal. rewrite Nat2Z.inj_succ, Z.pow_succ_r by lia. lia. }
  destruct good.
  - assert (n <> 64%nat) as Hne.
    { intros ->. enough (true = false) by done. apply Hgood; [done| |done]. apply Nat2Z.inj_lt.
      by rewrite Z2Nat.id. }
    rewrite Hdouble. destruct (IH (S n) w3) as (count & size' & w' & Hrun & Hm' & Hrest); [lia..|].
    exists count, size', w'. rewrite Hrun, Hm', Hm3. by split_and!.
  - eexists _, _, w3. split; [done|]. rewrite Hl3. split; [exact Hm3|].
    destruct (Hlast eq_refl) as [e He]. by exists size, e.
Qed.

(** On a kernel that refuses empty mappings, with a page size that is a
    power of two, the allocation test ends after at most 65 rounds (the sizes
    double until they wrap to 0) and removes every mapping it made.  The size
    it reports is the double of the one that failed: the size is doubled before
    the condition of the loop is tested. *)
Theorem do_max_alloc_spec k w :
  (forall t prot flags fd, exists e, kernel t (Mmap 0 prot flags fd) = Fail e) -> (k <= 30)%nat ->
  let page_size := 2 ^ Z.of_nat k in
  exists ret w', do_max_alloc 65 page_size w = (Val ret, w') /\ mapped (tr w') ≡ₚ mapped (tr w) /\
    (ret = 0 \/ ret = -1) /\
    (ret = 0 -> exists count s e fmt t, last_mmap t = Some (s, Fail e) /\
       tr w' = Out stdout fmt [AInt count; AInt (u64 (s * 2) / page_size)] :: t).
Proof using ML.
  intros Hzero Hk. cbn zeta. unfold do_max_alloc. unfold printf. mrun.
  set (r := kernel (tr w) _). set (maps := match r with Succ p => p | _ => NULL end). cbn zeta.
  destruct (maps =? NULL).
  { mrun. eexists (-1), _. split; [done|]. split; [|split; [by right|done]].
    cbn [tr push mapped]. by rewrite tr_after. }
  mrun. match goal with |- context [(alloc_rounds _ _ ?fd _ ≫= _) ?x] => set (w1 := x); set (f := fd) end.
  destruct (alloc_rounds_run 65 (2 ^ Z.of_nat k) f k w1)
    as (count & size & w2 & H2 & Hm2 & s & e & Hl & ->); [by intros; apply Hzero|lia..|].
  rewrite (bind_val _ _ _ _ _ H2). mrun. eexists 0, _. split; [done|].
  split; [|split; [by left|]].
  - cbn [tr push mapped]. rewrite !tr_after. cbn [mapped]. rewrite Hm2. unfold w1.
    rewrite tr_after. cbn [mapped tr push]. by rewrite tr_after.
  - intros _. cbn [tr push]. eexists count, s, e, _, _. split; [|done]. rewrite !tr_after. exact Hl.
Qed.
End max_alloc_spec.

(** ** Concrete runs *)

Module UncacheWitness.
Import Sim.

(** Faithful memory, a clock, and mappings of up to four pages. *)
Definition k_device : Kernel := fun t c =>
  match c with
  | LoadByte a => Succ (stored a t)
  | Clock_gettime _ => Pair (Z.of_nat (length t)) 5
  | Mmap size _ _ _ =>
      if (0 <? size) && (size <=? 16384) then Succ (65536 + Z.of_nat (length t)) else Fail 12
  | _ => Succ 1
  end.

Lemma device_memory : Memory k_device.
Proof. done. Qed.
Lemma device_mmap : MmapLaw k_device.
Proof.
  intros t size prot flags fd. unfold kernel, k_device. destruct (_ && _); [left|right]; eexists; [|done].
  split; [done|lia].
Qed.
Lemma device_clock : ClockLaw k_device.
Proof. intros t clk. eexists _, _. split; [done|lia]. Qed.

Lemma timespec_sub_spec_witness :
  (exists ts, timespec_sub (mk_ts 7 100) (mk_ts 3 999999999) = Some ts /\ valid_ts ts /\
    total_ns ts = 7000000100 - 3999999999 /\ timespec_to_us ts = 3000000) /\
  exists ts, timespec_sub (mk_ts (2 ^ 44) 0) (mk_ts 0 0) = Some ts /\ total_ns ts = 2 ^ 44 * 1000000000 /\
    timespec_to_us ts = 2 ^ 44 * 1000000 - 2 ^ 64.
Proof.
  split.
  - destruct (timespec_sub_spec (mk_ts 7 100) (mk_ts 3 999999999)) as (ts & E & Hv & _ & _ & _ & Hs & Hu);
      [by unfold valid_ts; cbn; lia..|]. exists ts. split_and!; [done|done|by apply Hs|by apply Hu].
  - destruct (timespec_sub_spec (mk_ts (2 ^ 44) 0) (mk_ts 0 0)) as (ts & E & _ & _ & _ & Hu & Hs & _);
      [by unfold valid_ts; cbn; lia..|]. exists ts. split_and!; [done|by apply Hs|by rewrite Hu].
Defined.

Lemma timespec_add_spec_witness :
  exists ts, timespec_add (mk_ts 1 500000000) (mk_ts 2 500000000) = Some ts /\
    total_ns ts = 1500000000 + 2500000000 /\
    (valid_ts ts <-> 500000000 + 500000000 <> 1000000000) /\
    (500000000 + 500000000 = 1000000000 -> tv_nsec ts = 1000000000).
Proof.
  apply (timespec_add_spec (mk_ts 1 500000000) (mk_ts 2 500000000)); unfold valid_ts, LONG_MIN, LONG_MAX; cbn; lia.
Defined.

Lemma test_faithful_witness :
  exists w', @test k_device 4096 65536 1000 w0 = (Val 0, w') /\
    Z.of_nat (length (stores (tr w'))) = 10000000 /\ Z.of_nat (length (loads (tr w'))) = 10000000.
Proof. apply (@test_faithful k_device 4096 65536 1000 w0 device_memory). lia. Defined.

Lemma do_data_unmaps_witness :
  (exists ret time w', @do_data k_device 4096 (mk_ts 0 0, mk_ts 0 0) true w0 = (Val (ret, time), w') /\
    mapped (tr w') = [] /\ (ret = 0 /\ is_Some time \/ ret = -1 /\ time = None)) /\
  (exists ret w', @do_data_compare k_device 4096 (mk_ts 0 0, mk_ts 0 0) w0 = (Val ret, w') /\
    mapped (tr w') = [] /\ (ret = 0 \/ ret = -1)).
Proof.
  apply (@do_data_unmaps k_device device_mmap device_clock 4096 (mk_ts 0 0, mk_ts 0 0) true w0).
Defined.

Lemma do_max_alloc_spec_witness :
  exists ret w', @do_max_alloc k_device 65 4096 w0 = (Val ret, w') /\ mapped (tr w') ≡ₚ [] /\
    (ret = 0 \/ ret = -1) /\
    (ret = 0 -> exists count s e fmt t, last_mmap t = Some (s, Fail e) /\
       tr w' = Out stdout fmt [AInt count; AInt (u64 (s * 2) / 4096)] :: t).
Proof. apply (@do_max_alloc_spec k_device device_mmap 12 w0); [intros; by eexists|lia]. Defined.
End UncacheWitness.
