(* ===== verification/Setup.v ===== *)
(** * What the launching tools share

    [bail_out] of bin/common.c and the set-up that bin/rt_launch.c and
    bin/rtspin.c both spell out: migration to the chosen domain, then the
    parameters of the calling thread; and the times both take from the command
    line.  The lemmas below serve both tools. *)
From S2P Require Import Prelude Machine CString Double Laws Iface Syscalls Migration Litmus Getopt.

(** Ends the process with the negated error code as its status. *)
Definition bail_out {A} (msg : string) : M A :=
  perror msg;;
  e ← get errno;
  exit_ (-1 * e).

(** [param] for the CPU [c]. *)
Definition set_cpu (param : rt_task) (c : Z) : rt_task :=
  mk_rt_task (exec_cost param) (period param) (relative_deadline param) (phase param) c
    (priority param) (cls param) (budget_policy param) (release_policy param).

(** [ms2ns] of include/litmus.h on a double. *)
Definition ms2ns_d (ms : double) : double := dmul ms (of_Z 1000000).

Section setup.
Context {K : Kernel} {H : KernelHeader}.

Definition setup_task (migrate cluster reservation : Z) (param : rt_task) : M unit :=
  when (negb (migrate =? 0))
    (ret ← be_migrate_to_domain cluster;
     when (ret <? 0) (bail_out "could not migrate to target partition or cluster."));;
  param ← (if negb (migrate =? 0) then
             if 0 <=? reservation then mret (with_cpu param reservation)
             else first ← domain_to_first_cpu cluster; mret (with_cpu param first)
           else mret param);
  tid ← gettid;
  ret ← set_rt_task_param tid (Some param);
  when (ret <? 0) (bail_out "could not setup rt task params").

(** A set-up that returned has set the parameters once, for some CPU. *)
Lemma setup_task_val mig clu res param w w' :
  setup_task mig clu res param w = (Val tt, w') ->
  policies (tr w') = policies (tr w) /\
  exists tid c r, 0 <= s32 (ret_of r) /\
    params (tr w') = (tid, Some (set_cpu param c), r) :: params (tr w).
Proof.
  unfold setup_task. intros Hrun.
  apply bind_val_inv in Hrun as ([] & w1 & H1 & Hrun).
  assert (policies (tr w1) = policies (tr w) /\ params (tr w1) = params (tr w)) as [Hp1 Hq1].
  { apply when_inv in H1 as [[_ H1]|[_ ->]]; [|done].
    split; (eapply keeps_run; [|exact H1]); unfold bail_out; keeps_tac; by apply (keeps_migrate _). }
  apply bind_val_inv in Hrun as (param' & w2 & H2 & Hrun).
  assert (policies (tr w2) = policies (tr w) /\ params (tr w2) = params (tr w) /\
    exists c, param' = set_cpu param c) as (Hp2 & Hq2 & c & ->).
  { rewrite <- Hp1, <- Hq1. destruct (negb (mig =? 0)); [destruct (0 <=? res)|].
    - injection H2 as <- <-. split_and!; [done..|]. by eexists.
    - apply bind_val_inv in H2 as (first & w2' & H2 & H2').
      pose proof (keeps_run _ _ _ _ _ (keeps_domain_to_first_cpu policies _) H2).
      pose proof (keeps_run _ _ _ _ _ (keeps_domain_to_first_cpu params _) H2).
      injection H2' as <- <-. split_and!; [congruence..|]. by eexists.
    - injection H2 as <- <-. split_and!; [done..|]. exists (cpu param). by destruct param. }
  unfold gettid, set_rt_task_param in Hrun. rewrite !bind_syscall_int in Hrun.
  set (r := kernel _ (NR_set_rt_task_param _ _)) in Hrun.
  destruct (Z.ltb_spec (s32 (ret_of r)) 0); [done|]. injection Hrun as <-. rewrite !tr_after.
  split; [exact Hp2|]. eexists _, c, r. split; [done|]. by rewrite params_set, Hq2.
Qed.

(** What does not see migrations and parameters does not see the set-up. *)
Lemma keeps_setup_task {X} (F : trace -> X) `{!InitQuiet F} mig clu res param :
  quiet F NR_gettid -> (forall t s m, quiet F (Sched_setaffinity t s m)) ->
  (forall p q, quiet F (NR_set_rt_task_param p q)) ->
  keeps F (setup_task mig clu res param).
Proof.
  intros Hg Ha Hs. unfold setup_task, set_rt_task_param, gettid, syscall_int, bail_out.
  repeat keeps_step.
  all: try by apply (keeps_migrate F).
  all: try by apply (keeps_domain_to_first_cpu F).
  all: try (apply keeps_syscall; first [apply Hg|apply Hs]).
  all: intros w; unfold perror, emit, modify; cbn [snd tr push]; apply quiet_perror.
Qed.

(** A transition to real-time mode that returned 0 has set the policy. *)
Lemma task_mode_litmus_val w w' :
  task_mode LITMUS_RT_TASK w = (Val 0, w') ->
  exists pid r, policies (tr w') = (pid, SCHED_LITMUS, r) :: policies (tr w) /\ s32 (ret_of r) = 0.
Proof.
  unfold task_mode, gettid, sched_getscheduler, sched_setscheduler. mrun.
  set (w3 := after (NR_sched_getscheduler _) _ _).
  destruct (s32 _ =? SCHED_LITMUS); cbn [Z.eqb andb LITMUS_RT_TASK BACKGROUND_TASK Pos.eqb]; [done|].
  unfold syscall_int. rewrite bind_syscall. set (r := kernel _ _). intros [= Hr <-].
  unfold w3. rewrite !tr_after. by eexists _, r.
Qed.

(** And one back to background mode. *)
Lemma task_mode_background_val w w' :
  task_mode BACKGROUND_TASK w = (Val 0, w') ->
  exists pid r, policies (tr w') = (pid, SCHED_NORMAL, r) :: policies (tr w) /\ s32 (ret_of r) = 0.
Proof.
  unfold task_mode, gettid, sched_getscheduler, sched_setscheduler. mrun.
  set (w3 := after (NR_sched_getscheduler _) _ _).
  destruct (s32 _ =? SCHED_LITMUS); cbn [Z.eqb andb LITMUS_RT_TASK BACKGROUND_TASK Pos.eqb]; [|done].
  unfold syscall_int. rewrite bind_syscall. set (r := kernel _ _). intros [= Hr <-].
  unfold w3. rewrite !tr_after. by eexists _, r.
Qed.
End setup.

(** What [F] sees for the first time after a step was not there before the
    step ended with a value. *)
Lemma step_changed {X A B} (F : trace -> X) (m : M A) (f : A -> M B) w o w' :
  keeps F m -> F (tr w') <> F (tr w) -> (m ≫= f) w = (o, w') ->
  exists a w1, m w = (Val a, w1) /\ f a w1 = (o, w') /\ F (tr w1) = F (tr w).
Proof.
  intros Hk Hex [(a & w1 & H1 & H2)|(o1 & H1 & _)]%bind_inv.
  - exists a, w1. split_and!; [done..|]. by apply (keeps_run _ _ _ _ _ Hk H1).
  - destruct Hex. by apply (keeps_run _ _ _ _ _ Hk H1).
Qed.

(** ** Times *)

Section times.
Context {UB : CastOverflow}.

Lemma ms2ns_d_int n : 0 <= n <= INT_MAX -> to_u64 (ms2ns_d (of_Z n)) = n * 1000000.
Proof.
  unfold INT_MAX. intros Hn. unfold ms2ns_d. rewrite dmul_of_Z by lia. apply to_u64_of_Z. lia.
Qed.

(** The decimal text of an integer. *)
Definition int_text (n : Z) : string := String.string_of_list_ascii (dec dec_fuel n).

Lemma bytes_int_text n : bytes_of (int_text n) = dec dec_fuel n ++ [].
Proof. unfold bytes_of, int_text. by rewrite String.list_ascii_of_string_of_list_ascii, app_nil_r. Qed.

Lemma atof_int_text n : 0 <= n <= INT_MAX -> atof (bytes_of (int_text n)) = of_Z n.
Proof. intros. rewrite bytes_int_text. by apply atof_dec. Qed.

Lemma int_text_operand n : 0 <= n -> operand (int_text n).
Proof.
  intros Hn. unfold operand, classify. rewrite bytes_int_text, app_nil_r.
  destruct (dec_cons dec_fuel n) as (d & l & Hd & ->); [done|apply dec_fuel_pos|].
  destruct (digit_char_plain d ltac:(lia)) as (_ & _ & Hm & _).
  rewrite (proj2 (Ascii.eqb_neq _ _) Hm). by destruct l.
Qed.
End times.
