(* ===== verification/RtLaunch.v ===== *)
(** * bin/rt_launch.c: launching a program as a real-time task

    Option parsing, the conversion of milliseconds given as text to
    nanoseconds, the task parameters and the transition to real-time mode
    before the program image is replaced. *)
From S2P Require Import Prelude Machine CString Double Laws Iface Syscalls Migration Litmus Setup Getopt.

Definition usage_msg : string := "Usage: rt_launch OPTIONS wcet period program [arg1 arg2 ...]\n    -w                wait for synchronous release\n    -v                verbose (prints PID)\n    -p CPU            physical partition or cluster to assign to\n    -r VCPU           virtual CPU to attach to (irrelevant to most plugins)\n    -d DEADLINE       relative deadline, implicit by default (in ms)\n    -o OFFSET         offset (also known as phase), zero by default (in ms)\n    -q PRIORITY       priority to use (ignored by EDF plugins, highest=1, lowest=511)\n    -c be|srt|hrt     task class (best-effort, soft real-time, hard real-time)\n    -e                turn off budget enforcement (DANGEROUS: can result in lockup)\n    wcet, period      reservation parameters (in ms)\n    program           path to the binary to be launched\n\n".

Definition OPTSTR : string := "wp:q:c:er:b:o:d:vh".
Definition SIGUSR1 : Z := 10.
Definition SIG_IGN : Z := 1.

(** The variables the options set. *)
Record vars := mk_vars {
  verbose : Z; offset_ms : double; deadline_ms : double; prio : Z; want_enforcement : Z;
  wait : Z; class : Z; migrate : Z; cluster : Z; reservation : Z;
}.

Section launch.
Context {K : Kernel} {H : KernelHeader} {UB : CastOverflow}.

Definition usage {A} (error : string) : M A :=
  eprintf "%s\n%s" [AStr error; AStr usage_msg];; exit_ 1.

Definition init_vars : vars :=
  mk_vars 0 dzero dzero LITMUS_LOWEST_PRIORITY 1 0 RT_CLASS_SOFT 0 (-1) (-1).

Definition option_switch (opt : ascii) (optarg : string) (v : vars) : M vars :=
  let '(mk_vars vb off dl pr enf wt cl mig clu res) := v in
  if Ascii.eqb opt "w" then mret (mk_vars vb off dl pr enf 1 cl mig clu res)
  else if Ascii.eqb opt "p" then
    mret (mk_vars vb off dl pr enf wt cl 1 (atoi (bytes_of optarg)) res)
  else if Ascii.eqb opt "q" then
    let pr := u32 (atoi (bytes_of optarg)) in
    when (negb (litmus_is_valid_fixed_prio pr)) (usage "Invalid priority.");;
    mret (mk_vars vb off dl pr enf wt cl mig clu res)
  else if Ascii.eqb opt "c" then
    let cl := str2class optarg in
    when (cl =? -1) (usage "Unknown task class.");;
    mret (mk_vars vb off dl pr enf wt cl mig clu res)
  else if Ascii.eqb opt "e" then mret (mk_vars vb off dl pr 0 wt cl mig clu res)
  else if Ascii.eqb opt "r" then
    mret (mk_vars vb off dl pr enf wt cl mig clu (atoi (bytes_of optarg)))
  else if Ascii.eqb opt "o" then
    mret (mk_vars vb (atof (bytes_of optarg)) dl pr enf wt cl mig clu res)
  else if Ascii.eqb opt "d" then
    let dl := atof (bytes_of optarg) in
    when (deq dl dzero || dlt dl dzero)
      (usage "The relative deadline must be a positive number.");;
    mret (mk_vars vb off dl pr enf wt cl mig clu res)
  else if Ascii.eqb opt "v" then mret (mk_vars 1 off dl pr enf wt cl mig clu res)
  else if Ascii.eqb opt "h" then usage ""
  else if Ascii.eqb opt ":" then usage "Argument missing."
  else usage "Bad argument.".

(** The times the operands give; the checks compare unsigned integers. *)
Definition check_times (wcet period : Z) : M unit :=
  when (wcet <=? 0) (usage "The worst-case execution time must be a positive number.");;
  when (period <=? 0) (usage "The period must be a positive number.");;
  when (period <? wcet) (usage "The worst-case execution time must not exceed the period.").

(** The parameters before [cpu] is set. *)
Definition launch_param (v : vars) (wcet period offset deadline : Z) : rt_task :=
  let p := init_rt_task_param in
  mk_rt_task wcet period deadline offset (cpu p) (prio v) (class v)
    (if negb (want_enforcement v =? 0) then PRECISE_ENFORCEMENT else NO_ENFORCEMENT)
    (release_policy p).

(** Sets the parameters of the calling thread. *)
Definition setup (v : vars) (wcet period offset deadline : Z) : M unit :=
  setup_task (migrate v) (cluster v) (reservation v) (launch_param v wcet period offset deadline).

(** From the parsed options on; None when the program image was replaced. *)
Definition launch (v : vars) (wcet period offset deadline : Z) (argv : list string) : M (option Z) :=
  check_times wcet period;;
  setup v wcet period offset deadline;;
  init_litmus;;
  ret ← task_mode LITMUS_RT_TASK;
  when (negb (ret =? 0)) (bail_out "could not become RT task");;
  when (negb (verbose v =? 0)) (tid ← gettid; printf "%d\n" [AInt tid]);;
  when (negb (wait v =? 0))
    (ret ← wait_for_ts_release;
     when (negb (ret =? 0)) (bail_out "wait_for_ts_release()"));;
  r ← sys (Execvp (default ""%string (head argv)) argv);
  match r with
  | Fail _ => perror "execv failed";; mret (Some 1)
  | _ => mret None
  end.

Definition main (prog : string) (args : list string) : M (option Z) :=
  let '(items, operands) := getopt_all (bytes_of OPTSTR) args in
  v ← getopt_loop prog option_switch items init_vars;
  syscall (Signal SIGUSR1 SIG_IGN);;
  match operands with
  | wcet :: period :: argv =>
      if (length argv <? 1)%nat then usage "Arguments missing."
      else
        let wcet_ms := atof (bytes_of wcet) in
        let period_ms := atof (bytes_of period) in
        launch v (to_u64 (ms2ns_d wcet_ms)) (to_u64 (ms2ns_d period_ms))
          (to_u64 (ms2ns_d (offset_ms v))) (to_u64 (ms2ns_d (deadline_ms v))) argv
  | _ => usage "Arguments missing."
  end.
End launch.

(** ** What the tool leaves alone *)

(** The programs the thread was replaced by, or tried to be. *)
Definition execs (t : trace) : list (string * list string) :=
  omap (fun e => match e with Sys (Execvp p a) _ => Some (p, a) | _ => None end) t.

#[export] Instance execs_quiet : InitQuiet execs.
Proof. by repeat split. Qed.

(** ** Safety of the launch *)

Section safety.
Context {K : Kernel} {H : KernelHeader} {UB : CastOverflow}.

(** The parameters of a launch, for the CPU [c]. *)
Definition launched (v : vars) (wcet period offset deadline c : Z) : rt_task := {|
  exec_cost := wcet; period := period; relative_deadline := deadline; phase := offset; cpu := c;
  priority := prio v; cls := class v;
  budget_policy := if want_enforcement v =? 0 then NO_ENFORCEMENT else PRECISE_ENFORCEMENT;
  release_policy := TASK_SPORADIC
|}.

Lemma check_times_val wcet period w w' :
  check_times wcet period w = (Val tt, w') -> 0 < wcet <= period /\ w' = w.
Proof.
  unfold check_times. destruct (Z.leb_spec wcet 0); [done|]. destruct (Z.leb_spec period 0); [done|].
  destruct (Z.ltb_spec period wcet); [done|]. intros [= <-]. split; [lia|done].
Qed.

Lemma setup_val v wcet period offset deadline w w' :
  setup v wcet period offset deadline w = (Val tt, w') ->
  policies (tr w') = policies (tr w) /\
  exists tid c r, 0 <= s32 (ret_of r) /\
    params (tr w') = (tid, Some (launched v wcet period offset deadline c), r) :: params (tr w).
Proof.
  intros (Hp & tid & c & r & Hr & Hq)%setup_task_val. split; [done|]. exists tid, c, r.
  split; [done|]. rewrite Hq. unfold launched, launch_param, set_cpu. cbn.
  by destruct (want_enforcement v =? 0).
Qed.

Lemma keeps_check_times wcet period : keeps execs (check_times wcet period).
Proof. unfold check_times, usage. keeps_tac. Qed.

(** The reports and the wait between the transition and the launch. *)
Definition announce (v : vars) : M unit :=
  when (negb (verbose v =? 0)) (tid ← gettid; printf "%d\n" [AInt tid]);;
  when (negb (wait v =? 0))
    (ret ← wait_for_ts_release;
     when (negb (ret =? 0)) (bail_out "wait_for_ts_release()")).

Lemma keeps_announce v :
  keeps execs (announce v) /\ keeps params (announce v) /\ keeps policies (announce v).
Proof.
  unfold announce, gettid, wait_for_ts_release, syscall_int, bail_out. split_and!; keeps_tac.
Qed.

(** C18: whatever the kernel answers, [rt_launch] replaces the program image
    only after all of this happened: the budget is positive and at most the
    period, one call set the parameters of the launch (the options and times
    given) and succeeded, and one call switched the scheduling policy to
    SCHED_LITMUS and succeeded.  It then starts the given program, once; on
    every other path no program is started. *)
Theorem launch_safe v wcet period offset deadline argv w o w' :
  launch v wcet period offset deadline argv w = (o, w') -> execs (tr w') <> execs (tr w) ->
  0 < wcet <= period /\
  exists t after_ r, tr w' = after_ ++ Sys (Execvp (default ""%string (head argv)) argv) r :: t /\
    execs after_ = [] /\ execs t = execs (tr w) /\
    (exists tid c r, 0 <= s32 (ret_of r) /\
       params t = (tid, Some (launched v wcet period offset deadline c), r) :: params (tr w)) /\
    (exists pid r, s32 (ret_of r) = 0 /\ policies t = (pid, SCHED_LITMUS, r) :: policies (tr w)).
Proof.
  unfold launch. intros Hrun Hex.
  apply (step_changed execs) in Hrun as ([] & w1 & H1 & Hrun & _); [|apply keeps_check_times|done].
  apply check_times_val in H1 as [Hw ->]. split; [done|].
  apply (step_changed execs) in Hrun as ([] & w1 & H1 & Hrun & Hx1); [|by apply (keeps_setup_task execs)|done].
  apply setup_val in H1 as (Hp1 & tid & c & r & Hr & Hq1). rewrite <- Hx1 in Hex |- *.
  apply (step_changed execs) in Hrun as (z & w2 & H2 & Hrun & Hx2); [|apply (keeps_init_litmus execs)|done].
  pose proof (keeps_run _ _ _ _ _ (keeps_init_litmus params) H2) as Hq2.
  pose proof (keeps_run _ _ _ _ _ (keeps_init_litmus policies) H2) as Hp2.
  rewrite <- Hx2 in Hex |- *.
  apply (step_changed execs) in Hrun as (ret & w3 & H3 & Hrun & Hx3); [|by apply (keeps_task_mode execs)|done].
  pose proof (keeps_run _ _ _ _ _ (keeps_task_mode params _ ltac:(done) ltac:(done) ltac:(done)) H3) as Hq3.
  rewrite <- Hx3 in Hex |- *.
  apply (step_changed execs) in Hrun as ([] & w4 & H4 & Hrun & Hx4);
    [|unfold bail_out; keeps_tac|done].
  apply when_inv in H4 as [[_ H4]|[Hret ->]]; [done|].
  apply negb_false_iff, Z.eqb_eq in Hret as ->.
  apply task_mode_litmus_val in H3 as (pid & r' & Hp3 & Hr').
  destruct (keeps_announce v) as (Kx & Kq & Kp).
  assert (exists w5, announce v w3 = (Val tt, w5) /\
    (r ← sys (Execvp (default ""%string (head argv)) argv);
     match r with Fail _ => perror "execv failed";; mret (Some 1) | _ => mret None end) w5 = (o, w'))
    as (w5 & H5 & Hexec).
  { apply (step_changed execs) in Hrun as ([] & w5 & H5 & Hrun & Hx5);
      [|unfold gettid, syscall_int; keeps_tac|done]. rewrite <- Hx5 in Hex.
    apply (step_changed execs) in Hrun as ([] & w6 & H6 & Hrun & Hx6);
      [|unfold wait_for_ts_release, syscall_int, bail_out; keeps_tac|done].
    exists w6. split; [|done]. unfold announce. by rewrite (bind_val _ _ _ _ _ H5). }
  pose proof (keeps_run _ _ _ _ _ Kx H5) as Hx5. pose proof (keeps_run _ _ _ _ _ Kq H5) as Hq5.
  pose proof (keeps_run _ _ _ _ _ Kp H5) as Hp5.
  rewrite bind_sys in Hexec. set (c' := Execvp _ _) in *.
  exists (tr w5). assert (exists after_ r, tr w' = after_ ++ Sys c' r :: tr w5 /\ execs after_ = [])
    as (after_ & re & Ht & Ha).
  { destruct (kernel (tr w5) c'); injection Hexec as <- <-;
      first [by exists []; eexists|by eexists [_], _]. }
  exists after_, re. split_and!; [done|done|congruence|..].
  - exists tid, c, r. split; [done|]. congruence.
  - exists pid, r'. split; [done|]. congruence.
Qed.
End safety.

(** ** The command line *)

Section cmdline.
Context {K : Kernel} {H : KernelHeader} {UB : CastOverflow}.

(** The options the tool accepts: a valid priority, a known class, a positive
    deadline; -h asks for the usage and -b is listed but not handled. *)
Definition accepted (o : ascii * option string) : Prop :=
  match o with
  | ("q"%char, Some a) => litmus_is_valid_fixed_prio (u32 (atoi (bytes_of a))) = true
  | ("c"%char, Some a) => str2class a <> -1
  | ("d"%char, Some a) => deq (atof (bytes_of a)) dzero || dlt (atof (bytes_of a)) dzero = false
  | ("h"%char, _) | ("b"%char, _) => False
  | _ => True
  end.

(** What an option sets. *)
Definition option_effect (v : vars) (o : ascii * option string) : vars :=
  let '(mk_vars vb off dl pr enf wt cl mig clu res) := v in
  match o with
  | ("w"%char, _) => mk_vars vb off dl pr enf 1 cl mig clu res
  | ("p"%char, Some a) => mk_vars vb off dl pr enf wt cl 1 (atoi (bytes_of a)) res
  | ("q"%char, Some a) => mk_vars vb off dl (u32 (atoi (bytes_of a))) enf wt cl mig clu res
  | ("c"%char, Some a) => mk_vars vb off dl pr enf wt (str2class a) mig clu res
  | ("e"%char, _) => mk_vars vb off dl pr 0 wt cl mig clu res
  | ("r"%char, Some a) => mk_vars vb off dl pr enf wt cl mig clu (atoi (bytes_of a))
  | ("o"%char, Some a) => mk_vars vb (atof (bytes_of a)) dl pr enf wt cl mig clu res
  | ("d"%char, Some a) => mk_vars vb off (atof (bytes_of a)) pr enf wt cl mig clu res
  | ("v"%char, _) => mk_vars 1 off dl pr enf wt cl mig clu res
  | _ => v
  end.

Lemma launch_options_run prog opts v w :
  Forall (fun o => wf_opt (bytes_of OPTSTR) o /\ accepted o) opts ->
  getopt_loop prog option_switch (map item opts) v w = (Val (foldl option_effect v opts), w).
Proof.
  intros Ho. revert v. induction Ho as [|[c a] opts [Hwf Hacc] _ IH]; intros v; [done|].
  cbn [map foldl]. rewrite <- IH. clear IH. destruct v. opt_cases Hwf; cbn [accepted] in Hacc; try done.
  - unfold item. cbn [getopt_loop fst snd from_option getopt_message]. unfold id. mrun.
    unfold option_switch. cbn [Ascii.eqb Bool.eqb]. cbv zeta. rewrite Hacc. done.
  - unfold item. cbn [getopt_loop fst snd from_option getopt_message]. unfold id. mrun.
    unfold option_switch. cbn [Ascii.eqb Bool.eqb]. cbv zeta. by rewrite (proj2 (Z.eqb_neq _ _) Hacc).
  - unfold item. cbn [getopt_loop fst snd from_option getopt_message]. unfold id. mrun.
    unfold option_switch. cbn [Ascii.eqb Bool.eqb]. cbv zeta. by rewrite Hacc.
Qed.

(** C27: with any accepted options before the operands and times that are whole
    milliseconds, [rt_launch] first ignores SIGUSR1 and then launches the
    program with the options' parameters and exactly the times in nanoseconds;
    a budget or period of 0, or a budget above the period, ends it with status
    1 before it sets parameters or starts anything. *)
Theorem main_times prog opts n m program argv w :
  Forall (fun o => wf_opt (bytes_of OPTSTR) o /\ accepted o) opts ->
  0 <= n <= INT_MAX -> 0 <= m <= INT_MAX -> Forall operand (program :: argv) ->
  let v := foldl option_effect init_vars opts in
  let c := Signal SIGUSR1 SIG_IGN in
  let args := flat_map render opts ++ int_text n :: int_text m :: program :: argv in
  main prog args w =
    launch v (n * 1000000) (m * 1000000) (to_u64 (ms2ns_d (offset_ms v)))
      (to_u64 (ms2ns_d (deadline_ms v))) (program :: argv) (after c (kernel (tr w) c) w) /\
  (~ 0 < n <= m -> exists w', main prog args w = (Exit 1, w') /\ calls (tr w') = c :: calls (tr w)).
Proof.
  intros Ho Hn Hm Hargs. cbn zeta.
  set (args := _ ++ _). set (v := foldl _ _ _). set (c := Signal _ _). set (w1 := after c _ w).
  assert (main prog args w = launch v (n * 1000000) (m * 1000000) (to_u64 (ms2ns_d (offset_ms v)))
      (to_u64 (ms2ns_d (deadline_ms v))) (program :: argv) w1) as E.
  { unfold main, args.
    pose proof (getopt_render (bytes_of OPTSTR) [] opts (int_text n :: int_text m :: program :: argv)) as G.
    cbn [app] in G. rewrite G; [| |done|].
    - rewrite (bind_val _ _ _ _ _ (launch_options_run prog opts init_vars w Ho)). fold v. mrun. fold c. fold w1.
      cbn [length Nat.ltb Nat.leb]. by rewrite !atof_int_text, !ms2ns_d_int by done.
    - eapply Forall_impl; [|exact Ho]. by intros o [? _].
    - constructor; [apply int_text_operand; lia|]. constructor; [apply int_text_operand; lia|done]. }
  split; [done|]. intros Hbad. rewrite E. unfold launch, check_times, usage, eprintf, when.
  assert (Hcalls : calls (tr w1) = c :: calls (tr w)) by (unfold w1; by rewrite tr_after).
  destruct (Z.leb_spec (n * 1000000) 0); [mrun; by eexists|]. mrun.
  destruct (Z.leb_spec (m * 1000000) 0); [mrun; by eexists|]. mrun.
  rewrite (proj2 (Z.ltb_lt _ _)) by lia. mrun. by eexists.
Qed.

(** Arguments of the launched program that start with a dash are taken for
    options of [rt_launch] itself, because [getopt] permutes the arguments:
    [rt_launch 10 100 ls -l] ends with the usage message and status 1. *)
Theorem program_options_rejected prog w :
  exists w', main prog ["10"; "100"; "ls"; "-l"] w = (Exit 1, w') /\ calls (tr w') = calls (tr w).
Proof. eexists. split; [reflexivity|done]. Qed.
End cmdline.

(** ** Concrete runs *)

Module RtLaunchWitness.
Import Sim.

(** What x86 does with values that do not fit: they wrap around. *)
#[local] Instance wrap_cast : CastOverflow := fun d =>
  match trunc d with Some z => u64 z | None => 2 ^ 63 end.

(** A kernel on which every call succeeds. *)
Definition k_ok : Kernel := sim_sched 100.

Definition w_args : list string := ["-w"; "-q"; "5"; "10"; "100"; "ls"; "x"].

Lemma main_times_witness :
  @main k_ok sim_header wrap_cast "rt_launch" w_args w0 =
    @launch k_ok sim_header (mk_vars 0 dzero dzero 5 1 1 1 0 (-1) (-1)) 10000000 100000000 0 0 ["ls"; "x"]
      (after (Signal 10 1) (Succ 0) w0).
Proof.
  apply (@main_times k_ok sim_header wrap_cast "rt_launch" [("w"%char, None); ("q"%char, Some "5")] 10 100
    "ls" ["x"] w0); [by repeat constructor|unfold INT_MAX; lia..|by repeat constructor].
Defined.

Lemma launch_safe_witness :
  exists w', @launch k_ok sim_header (mk_vars 0 dzero dzero 5 1 1 1 0 (-1) (-1)) 10000000 100000000 0 0
      ["ls"; "x"] w0 = (Val None, w') /\
    0 < 10000000 <= 100000000 /\
    exists t after_ r, tr w' = after_ ++ Sys (Execvp "ls" ["ls"; "x"]) r :: t /\
      execs after_ = [] /\ execs t = [] /\
      (exists tid c r, 0 <= s32 (ret_of r) /\
         params t = [(tid, Some (@launched sim_header (mk_vars 0 dzero dzero 5 1 1 1 0 (-1) (-1))
           10000000 100000000 0 0 c), r)]) /\
      (exists pid r, s32 (ret_of r) = 0 /\ policies t = [(pid, SCHED_LITMUS, r)]).
Proof.
  eexists. split; [vm_compute; reflexivity|].
  eapply (@launch_safe k_ok sim_header (mk_vars 0 dzero dzero 5 1 1 1 0 (-1) (-1)) 10000000 100000000
    0 0 ["ls"; "x"] w0); [vm_compute; reflexivity|by vm_compute].
Defined.

(** Negative times pass the checks of unsigned integers where the conversion
    wraps. *)
Example negative_times :
  @to_u64 wrap_cast (ms2ns_d (atof (bytes_of "-5"))) = 2 ^ 64 - 5000000 /\
  fst (check_times (to_u64 (ms2ns_d (atof (bytes_of "-5")))) (to_u64 (ms2ns_d (atof (bytes_of "-1")))) w0)
    = Val tt.
Proof. vm_compute. done. Qed.
End RtLaunchWitness.
