(* ===== verification/BaseTask.v ===== *)
(** * bin/base_task.c: the single-threaded task skeleton

    A real-time task whose job never asks to stop; the fuel of its job loop
    counts jobs. *)
From S2P Require Import Prelude Machine CString Laws Iface Syscalls Migration Litmus.

(** The jobs completed in a trace. *)
Fixpoint jobs (t : trace) : nat :=
  match t with
  | [] => O
  | Sys NR_complete_job _ :: t => S (jobs t)
  | _ :: t => jobs t
  end.

Definition PERIOD : Z := 100.
Definition RELATIVE_DEADLINE : Z := 100.
Definition EXEC_COST : Z := 10.

Section skeleton.
Context {K : Kernel} {H : KernelHeader}.

(** The macro CALL on the text of an expression. *)
Definition CALL (exp : string) (m : M Z) : M unit :=
  ret ← m;
  if negb (ret =? 0) then eprintf "%s failed: %m\n" [AStr exp] else eprintf "%s ok.\n" [AStr exp].

(** Returns 1 to exit, 0 to continue. *)
Definition job : M Z := mret 0.

(** [do { sleep_next_period(); do_exit = job(); } while (!do_exit);] *)
Fixpoint job_loop (fuel : nat) : M unit :=
  match fuel with
  | O => no_fuel
  | S fuel =>
      sleep_next_period;;
      do_exit ← job;
      if negb (do_exit =? 0) then mret tt else job_loop fuel
  end.

(** The parameters both skeletons set up. *)
Definition task_param : rt_task :=
  let p := init_rt_task_param in
  mk_rt_task (ms2ns EXEC_COST) (ms2ns PERIOD) (ms2ns RELATIVE_DEADLINE) (phase p) (cpu p)
    LITMUS_LOWEST_PRIORITY RT_CLASS_SOFT NO_ENFORCEMENT (release_policy p).

Definition main (fuel : nat) : M Z :=
  let param := task_param in
  CALL "init_litmus()" init_litmus;;
  CALL "set_rt_task_param(gettid(), &param)" (tid ← gettid; set_rt_task_param tid (Some param));;
  CALL "task_mode(LITMUS_RT_TASK)" (task_mode LITMUS_RT_TASK);;
  job_loop fuel;;
  CALL "task_mode(BACKGROUND_TASK)" (task_mode BACKGROUND_TASK);;
  mret 0.
End skeleton.

(** ** The job loop *)

Section loop.
Context {K : Kernel} {H : KernelHeader}.

Lemma job_loop_run fuel w :
  exists w', job_loop fuel w = (NoFuel, w') /\ jobs (tr w') = (fuel + jobs (tr w))%nat /\
    params (tr w') = params (tr w).
Proof.
  revert w. induction fuel as [|fuel IH]; intros w; cbn [job_loop]; [by exists w|].
  unfold sleep_next_period. rewrite bind_syscall_int. unfold job. mrun. cbn [Z.eqb negb].
  set (r := kernel _ _). destruct (IH (after NR_complete_job r w)) as (w' & -> & Hj & Hp).
  exists w'. rewrite Hj, Hp, tr_after. split_and!; [done| |done]. cbn [jobs]. lia.
Qed.

Lemma call_total exp m : total m -> total (CALL exp m).
Proof. intros Hm. unfold CALL. total_tac. Qed.

Lemma call_keeps {X} (F : trace -> X) exp m :
  keeps F m -> (forall s m a t, F (Out s m a :: t) = F t) -> keeps F (CALL exp m).
Proof.
  intros Hm Ho. unfold CALL. apply keeps_bind; [done|]. intros ret.
  apply keeps_if; intros w; apply Ho.
Qed.

Lemma task_mode_total m : total (task_mode m).
Proof. unfold task_mode, sched_setscheduler, sched_getscheduler, gettid, syscall_int. total_tac. Qed.

Lemma set_param_run param w :
  exists tid r w', (tid ← gettid; set_rt_task_param tid (Some param)) w = (Val (s32 (ret_of r)), w') /\
    params (tr w') = (tid, Some param, r) :: params (tr w) /\ jobs (tr w') = jobs (tr w).
Proof.
  unfold gettid, set_rt_task_param. rewrite bind_syscall_int. eexists _, _, _. split; [done|].
  rewrite !tr_after, params_set. by split.
Qed.
End loop.

#[export] Instance jobs_quiet : InitQuiet jobs.
Proof. split; [split; [split|..]|..]; intros; try (intros [] t); reflexivity. Qed.

Section skeletons.
Context {K : Kernel} {H : KernelHeader}.

(** The set-up both skeletons end with: real-time mode, the job loop. *)
Lemma set_up_run {A} name init (fin : M A) fuel w :
  total init -> keeps params init -> keeps jobs init ->
  exists tid r w', (CALL name init;;
      CALL "set_rt_task_param(gettid(), &param)" (tid ← gettid; set_rt_task_param tid (Some task_param));;
      CALL "task_mode(LITMUS_RT_TASK)" (task_mode LITMUS_RT_TASK);;
      job_loop fuel;; fin) w = (NoFuel, w') /\
    jobs (tr w') = (fuel + jobs (tr w))%nat /\
    params (tr w') = (tid, Some task_param, r) :: params (tr w).
Proof.
  intros Ht Hkp Hkj.
  destruct (call_total name init Ht w) as ([] & w1 & H1). rewrite (bind_val _ _ _ _ _ H1).
  pose proof (keeps_run _ _ _ _ _ (call_keeps params name init Hkp ltac:(done)) H1) as Hp1.
  pose proof (keeps_run _ _ _ _ _ (call_keeps jobs name init Hkj ltac:(done)) H1) as Hj1.
  destruct (set_param_run task_param w1) as (tid & r & w2 & H2 & Hp2 & Hj2).
  set (exp := "set_rt_task_param(gettid(), &param)").
  assert (exists w3, CALL exp (tid ← gettid; set_rt_task_param tid (Some task_param)) w1 = (Val tt, w3) /\
    params (tr w3) = params (tr w2) /\ jobs (tr w3) = jobs (tr w2)) as (w3 & H3 & Hp3 & Hj3).
  { unfold CALL. rewrite (bind_val _ _ _ _ _ H2). by destruct (negb _); eexists. }
  rewrite (bind_val _ _ _ _ _ H3).
  destruct (call_total "task_mode(LITMUS_RT_TASK)" (task_mode LITMUS_RT_TASK) (task_mode_total _) w3)
    as ([] & w4 & H4). rewrite (bind_val _ _ _ _ _ H4).
  assert (params (tr w4) = params (tr w3)) as Hp4.
  { eapply keeps_run; [|exact H4]. apply call_keeps; [by apply keeps_task_mode|done]. }
  assert (jobs (tr w4) = jobs (tr w3)) as Hj4.
  { eapply keeps_run; [|exact H4]. apply call_keeps; [|done].
    apply keeps_task_mode; [apply _|..]; intros; intros [] t; reflexivity. }
  destruct (job_loop_run fuel w4) as (w5 & H5 & Hj5 & Hp5).
  exists tid, r, w5. split; [|split; [congruence|congruence]].
  unfold mbind, M_bind. by rewrite H5.
Qed.

(** Whatever the kernel answers, the single-threaded skeleton initialises,
    sets the parameters of a sporadic task with a budget of 10 ms, a period and
    relative deadline of 100 ms, asks for real-time mode and then completes jobs
    for ever: with fuel for [n] jobs it has completed [n] jobs and is still in
    the loop.  Its transition back to background mode is never reached, and a
    failed set-up call is only reported. *)
Theorem base_task_forever fuel w :
  exists tid r w', main fuel w = (NoFuel, w') /\ jobs (tr w') = (fuel + jobs (tr w))%nat /\
    params (tr w') = (tid, Some {|
      exec_cost := 10000000; period := 100000000; relative_deadline := 100000000; phase := 0; cpu := 0;
      priority := LITMUS_LOWEST_PRIORITY; cls := RT_CLASS_SOFT; budget_policy := NO_ENFORCEMENT;
      release_policy := TASK_SPORADIC |}, r) :: params (tr w).
Proof.
  apply set_up_run; [apply init_litmus_total|by apply keeps_init_litmus|by apply keeps_init_litmus].
Qed.
End skeletons.
