(* ===== verification/BaseMtTask.v ===== *)
(** * bin/base_mt_task.c: the multi-threaded task skeleton

    The main thread sees its real-time threads only as requests to create and
    join them; the thread function is a computation of its own thread.  The
    macro CALL, the job, its loop and the parameters are those of
    bin/base_task.c. *)
From S2P Require Import Prelude Machine CString Laws Iface Syscalls Migration Litmus BaseTask.

Definition NUM_THREADS : Z := 10.

Section multi.
Context {K : Kernel} {H : KernelHeader}.

(** [id] is what the thread's context holds. *)
Definition rt_thread (fuel : nat) (id : Z) : M unit :=
  let param := task_param in
  printf "RT Thread %d active.\n" [AInt id];;
  CALL "init_rt_thread()" init_rt_thread;;
  CALL "set_rt_task_param(gettid(), &param)" (tid ← gettid; set_rt_task_param tid (Some param));;
  CALL "task_mode(LITMUS_RT_TASK)" (task_mode LITMUS_RT_TASK);;
  job_loop fuel;;
  CALL "task_mode(BACKGROUND_TASK)" (task_mode BACKGROUND_TASK).

(** [for (i = 0; i < NUM_THREADS; i++) ...] on the remaining indices. *)
Fixpoint create_loop (is_ : list Z) : M unit :=
  match is_ with [] => mret tt | i :: is_ => syscall (Pthread_create i);; create_loop is_ end.
Fixpoint join_loop (is_ : list Z) : M unit :=
  match is_ with [] => mret tt | i :: is_ => syscall (Pthread_join i);; join_loop is_ end.

Definition main : M Z :=
  init_litmus;;
  create_loop (seqZ 0 NUM_THREADS);;
  join_loop (seqZ 0 NUM_THREADS);;
  mret 0.
End multi.

(** The threads created and joined, newest first. *)
Definition threads (t : trace) : list (bool * Z) :=
  omap (fun e => match e with
    | Sys (Pthread_create i) _ => Some (true, i)
    | Sys (Pthread_join i) _ => Some (false, i)
    | _ => None end) t.

#[export] Instance threads_quiet : InitQuiet threads.
Proof. by repeat split. Qed.

Section skeletons.
Context {K : Kernel} {H : KernelHeader}.

Lemma create_loop_run l w :
  exists w', create_loop l w = (Val tt, w') /\ threads (tr w') = rev (map (pair true) l) ++ threads (tr w).
Proof.
  revert w. induction l as [|i l IH]; intros w; cbn [create_loop]; [by exists w|]. mrun.
  destruct (IH (after (Pthread_create i) (kernel (tr w) (Pthread_create i)) w)) as (w' & -> & Ht).
  exists w'. rewrite Ht, tr_after. split; [done|]. cbn [map rev]. by rewrite <- app_assoc.
Qed.

Lemma join_loop_run l w :
  exists w', join_loop l w = (Val tt, w') /\ threads (tr w') = rev (map (pair false) l) ++ threads (tr w).
Proof.
  revert w. induction l as [|i l IH]; intros w; cbn [join_loop]; [by exists w|]. mrun.
  destruct (IH (after (Pthread_join i) (kernel (tr w) (Pthread_join i)) w)) as (w' & -> & Ht).
  exists w'. rewrite Ht, tr_after. split; [done|]. cbn [map rev]. by rewrite <- app_assoc.
Qed.

(** The multi-threaded skeleton creates its ten threads in order and only
    then joins each of them, and returns 0 whatever came of it; each thread
    sets the same parameters as the single-threaded one and completes jobs for
    ever. *)
Theorem base_mt_task w :
  (exists w', main w = (Val 0, w') /\
     threads (tr w') = rev (map (pair true) (seqZ 0 10) ++ map (pair false) (seqZ 0 10)) ++ threads (tr w)) /\
  (forall fuel id, exists tid r w', rt_thread fuel id w = (NoFuel, w') /\
     jobs (tr w') = (fuel + jobs (tr w))%nat /\
     params (tr w') = (tid, Some task_param, r) :: params (tr w)).
Proof.
  split.
  - unfold main. destruct (init_litmus_total w) as (z & w1 & H1). rewrite (bind_val _ _ _ _ _ H1).
    destruct (create_loop_run (seqZ 0 NUM_THREADS) w1) as (w2 & H2 & Ht2).
    rewrite (bind_val _ _ _ _ _ H2).
    destruct (join_loop_run (seqZ 0 NUM_THREADS) w2) as (w3 & H3 & Ht3).
    rewrite (bind_val _ _ _ _ _ H3). exists w3. split; [done|].
    rewrite Ht3, Ht2, rev_app_distr, <- app_assoc.
    by rewrite (keeps_run _ _ _ _ _ (keeps_init_litmus threads) H1).
  - intros fuel id. unfold rt_thread, printf. mrun. set (w1 := push _ w).
    destruct (set_up_run "init_rt_thread()" init_rt_thread
      (CALL "task_mode(BACKGROUND_TASK)" (task_mode BACKGROUND_TASK)) fuel w1) as (tid & r & w' & Hrun & Hj & Hp).
    + apply init_rt_thread_total.
    + unfold init_rt_thread, init_kernel_iface, map_file, check. keeps_tac.
    + unfold init_rt_thread, init_kernel_iface, map_file, check. keeps_tac; intros [] t; reflexivity.
    + exists tid, r, w'. by split_and!.
Qed.
End skeletons.
