(* ===== verification/Runner.v ===== *)
(** * tests/runner.c and the macros of include/tests.h: the test runner

    The catalogue of test cases and the suites per plugin are generated when
    the program is built; they are parameters.  A test case runs in a forked
    child: the answer of [fork] tells which side of it a run is. *)
From S2P Require Import Prelude Machine CString Laws Iface Syscalls Migration Litmus Getopt.

(** ** The macros of tests.h *)

Section macros.
Context {K : Kernel}.

(** [fail(fmt, args...)], with the file, line and function it is expanded in. *)
Definition fail {A} (fmt : string) (args : list arg) (file : string) (line : Z) (func : string) : M A :=
  pid ← syscall Getpid;
  eprintf ("\n!! TEST FAILURE " +:+ fmt +:+ "\n   at %s:%d (%s)\n   in task PID=%d\n")
    (args ++ [AStr file; AInt line; AStr func; AInt pid]);;
  exit_ 200.

Definition ASSERT (predicate : bool) (text file : string) (line : Z) (func : string) : M unit :=
  if negb predicate then fail "%s" [AStr text] file line func else mret tt.

(** Returns the value of the call for the code after the macro. *)
Definition SYSCALL (call : M Z) (text file : string) (line : Z) (func : string) : M Z :=
  ret ← call;
  if ret <? 0 then fail "%s -> %d, %m" [AStr text; AInt ret] file line func else mret ret.

Definition SYSCALL_FAILS (expected : Z) (name : string) (call : M Z) (text file : string) (line : Z)
    (func : string) : M Z :=
  ret ← call;
  e ← get errno;
  if (ret =? 0) || negb (e =? expected)
  then fail "%s -> %d, %m (expected: %s)" [AStr text; AInt ret; AStr name] file line func
  else mret ret.
End macros.

(** ** The macros of <sys/wait.h> *)

Definition WTERMSIG (status : Z) : Z := Z.land status 127.
Definition WIFEXITED (status : Z) : bool := WTERMSIG status =? 0.
Definition WEXITSTATUS (status : Z) : Z := Z.shiftr (Z.land status 65280) 8.
Definition WIFSIGNALED (status : Z) : bool := 0 <? Z.shiftr (wrap_s 8 (Z.land status 127 + 1)) 1.

Record testcase := mk_testcase { function : M unit; description : string }.
Record testsuite := mk_testsuite { plugin : string; testcases : list Z }.

Definition PROC_ACTIVE_PLUGIN : string := "/proc/litmus/active_plugin".
Definition OPTSTR : string := "v".
Definition usage_msg : string := "Usage: runtests OPTIONS [plugin name]\n    -v                verbose (prints PIDs)\n\n".

Section runner.
Context {K : Kernel} (strsignal : Z -> string) (test_catalog : list testcase) (suites : list testsuite).

(** The parent's return value of [waitpid] and the status it stored. *)
Definition waitpid (pid : Z) : M (Z * option Z) :=
  r ← sys (Waitpid pid);
  mret (match r with Pair p st => (p, Some st) | r => (ret_of r, None) end).

Definition run_test (verbose : Z) (tc : testcase) : M Z :=
  printf "** Testing: %s... " [AStr (description tc)];;
  pid ← SYSCALL (syscall Fork) "pid = fork()" "tests/runner.c" 24 "run_test";
  if pid =? 0 then
    SYSCALL init_litmus "init_litmus()" "tests/runner.c" 27 "run_test";;
    function tc;;
    exit_ 0
  else
    when (negb (verbose =? 0)) (printf "[PID=%d] " [AInt pid]);;
    '(ret, st) ← waitpid pid;
    SYSCALL (mret ret) "waitpid(pid, &status, 0)" "tests/runner.c" 36 "run_test";;
    let status := default 0 st in
    (if WIFEXITED status && (WEXITSTATUS status =? 0) then printf "ok.\n" []
     else when (WIFSIGNALED status) (printf "failed (%s)!\n" [AStr (strsignal (WTERMSIG status))]));;
    mret (Z.b2z (WIFEXITED status && (WEXITSTATUS status =? 0))).

(** The loop of [run_tests] from the remaining indices on. *)
Fixpoint run_loop (verbose : Z) (testidx : list Z) (ok : Z) : M Z :=
  match testidx with
  | [] => mret ok
  | idx :: testidx =>
      match (if 0 <=? idx then test_catalog !! Z.to_nat idx else None) with
      | None => fault
      | Some tc => r ← run_test verbose tc; run_loop verbose testidx (ok + r)
      end
  end.

Definition run_tests (verbose : Z) (testidx : list Z) (plugin : string) : M Z :=
  printf "** Running tests for %s.\n" [AStr plugin];;
  run_loop verbose testidx 0.

(** The C string left in [buf] when the function returns 1. *)
Definition get_active_plugin (buf_size : Z) : M (option string) :=
  r ← sys (Fopen PROC_ACTIVE_PLUGIN "r");
  match r with
  | Data content =>
      let buf := take (Z.to_nat (buf_size - 1)) content in
      syscall Fclose;;
      let nread := length buf in
      let nread :=
        match buf !! (nread - 1)%nat with
        | Some c => if Ascii.eqb c "010"%char then (nread - 1)%nat else nread
        | None => nread
        end in
      mret (if (0 <? nread)%nat then Some (String.string_of_list_ascii (cstr (take nread buf)))
            else None)
  | _ => mret None
  end.

Definition usage {A} (error : string) : M A :=
  eprintf "%s\n%s" [AStr error; AStr usage_msg];;
  eprintf "Supported plugins: " [];;
  (fix loop (l : list testsuite) : M unit :=
     match l with [] => mret tt | s :: l => eprintf "%s " [AStr (plugin s)];; loop l end) suites;;
  eprintf "\n" [];;
  exit_ 1.

Definition option_switch (opt : ascii) (optarg : string) (verbose : Z) : M Z :=
  if Ascii.eqb opt "v" then mret 1
  else if Ascii.eqb opt ":" then usage "Argument missing."
  else usage "Bad argument.".

Definition main (prog : string) (args : list string) : M Z :=
  let '(items, argv) := getopt_all (bytes_of OPTSTR) args in
  verbose ← getopt_loop prog option_switch items 0;
  printf "** LITMUS^RT test suite.\n" [];;
  plugin_name ← (match argv with [a] => mret (Some a) | _ => get_active_plugin 256 end : M (option string));
  match plugin_name with
  | Some plugin_name =>
      match find (fun s => strcmp_eq (plugin s) plugin_name) suites with
      | Some s =>
          let num_cases := Z.of_nat (length (testcases s)) in
          ok ← run_tests verbose (testcases s) (plugin s);
          printf "** Result: %d ok, %d failed.\n" [AInt ok; AInt (num_cases - ok)];;
          mret (if ok =? num_cases then 0 else 3)
      | None =>
          eprintf "** Unknown plugin: '%s'\n" [AStr plugin_name];;
          usage ""
      end
  | None => usage "** Active plugin unknown"
  end.
End runner.

(** ** What the parent sees *)

(** How many processes were forked. *)
Fixpoint forked (t : trace) : nat :=
  match t with [] => O | Sys Fork _ :: t => S (forked t) | _ :: t => forked t end.

(** A fork succeeds, in the parent, and its child can be waited for. *)
Class Forks (K : Kernel) : Prop := {
  forks t : exists pid, kernel t Fork = Succ pid /\ 0 < pid;
  waits t pid : exists st, kernel t (Waitpid pid) = Pair pid st;
}.

(** The same for the first [n] forks. *)
Class ForksFor (K : Kernel) (n : nat) : Prop := {
  forks_for t : (forked t < n)%nat -> exists pid, kernel t Fork = Succ pid /\ 0 < pid;
  waits_for t pid : (forked t <= n)%nat -> exists st, kernel t (Waitpid pid) = Pair pid st;
}.

(** The process is born at the fork after the first [n]: it sees the forks and
    waits of its parent up to there, and its own fork answers 0. *)
Class Born (K : Kernel) (n : nat) : Prop := {
  born_forks : ForksFor K n;
  born_child t : forked t = n -> kernel t Fork = Succ 0;
}.

Lemma forks_forks_for K n : Forks K -> ForksFor K n.
Proof. intros [Hf Hw]. split; auto. Qed.

(** The status of a child that exited with status 0. *)
Definition passed (status : Z) : bool := WIFEXITED status && (WEXITSTATUS status =? 0).

(** The statuses waited for, newest first. *)
Definition statuses (t : trace) : list Z :=
  omap (fun e => match e with Sys (Waitpid _) (Pair _ st) => Some st | _ => None end) t.

(** The descriptions of the test cases announced, newest first. *)
Definition titles (t : trace) : list string :=
  omap (fun e => match e with
    | Out stdout fmt [AStr d] => if String.eqb fmt "** Testing: %s... " then Some d else None
    | _ => None end) t.

Definition count_passed (sts : list Z) : Z := Z.of_nat (length (List.filter passed sts)).

Section loop.
Context {K : Kernel} {n : nat} {FF : ForksFor K n}.
Context (strsignal : Z -> string) (test_catalog : list testcase) (suites : list testsuite).

Lemma run_test_run verbose tc w :
  (forked (tr w) < n)%nat ->
  exists st w', run_test strsignal verbose tc w = (Val (Z.b2z (passed st)), w') /\
    statuses (tr w') = st :: statuses (tr w) /\ forked (tr w') = S (forked (tr w)) /\
    titles (tr w') = description tc :: titles (tr w).
Proof using FF.
  intros Hn. unfold run_test, SYSCALL, printf. mrun.
  destruct (forks_for (tr (push (Out stdout "** Testing: %s... " [AStr (description tc)]) w)) Hn) as (pid & -> & Hpid).
  cbn [ret_of]. rewrite (proj2 (Z.ltb_ge pid 0)) by lia. mrun.
  rewrite (proj2 (Z.eqb_neq pid 0)) by lia. unfold when. set (w1 := after Fork _ _).
  assert (exists w2, (if negb (verbose =? 0) then emit (Out stdout "[PID=%d] " [AInt pid]) else mret tt) w1
    = (Val tt, w2) /\ statuses (tr w2) = statuses (tr w) /\ forked (tr w2) = S (forked (tr w)) /\
    titles (tr w2) = description tc :: titles (tr w)) as (w2 & H2 & Hs2 & Hf2 & Ht2).
  { by destruct (negb _); eexists. }
  rewrite (bind_val _ _ _ _ _ H2). unfold waitpid. mrun.
  destruct (waits_for (tr w2) pid ltac:(lia)) as (st & ->). mrun. rewrite (proj2 (Z.ltb_ge pid 0)) by lia. mrun.
  cbn [default from_option id]. fold (passed st). set (w3 := after _ _ w2).
  assert (statuses (tr w3) = st :: statuses (tr w) /\ forked (tr w3) = S (forked (tr w)) /\
    titles (tr w3) = description tc :: titles (tr w)) as (Hs3 & Hf3 & Ht3).
  { unfold w3. rewrite tr_after. split; [by rewrite <- Hs2|]. split; [by rewrite <- Hf2|by rewrite <- Ht2]. }
  exists st. destruct (passed st); [|destruct (WIFSIGNALED st)]; mrun; (eexists; split; [done|]);
    by rewrite <- Hs3, <- Hf3, <- Ht3.
Qed.

Lemma run_loop_run verbose testidx ok w :
  Forall (fun i => 0 <= i < Z.of_nat (length test_catalog)) testidx -> (length testidx + forked (tr w) <= n)%nat ->
  exists sts w', run_loop strsignal test_catalog verbose testidx ok w = (Val (ok + count_passed sts), w') /\
    statuses (tr w') = rev sts ++ statuses (tr w) /\ length sts = length testidx /\
    forked (tr w') = (length testidx + forked (tr w))%nat /\
    titles (tr w') = rev (omap (fun i => description <$> test_catalog !! Z.to_nat i) testidx) ++ titles (tr w).
Proof using FF.
  intros Hidx. revert ok w. induction Hidx as [|i testidx Hi _ IH]; intros ok w Hn; cbn [run_loop length] in *.
  { exists [], w. unfold count_passed. cbn. by rewrite Z.add_0_r. }
  rewrite (proj2 (Z.leb_le 0 i)) by lia.
  destruct (test_catalog !! Z.to_nat i) as [tc|] eqn:E;
    [|apply lookup_ge_None in E; lia].
  destruct (run_test_run verbose tc w ltac:(lia)) as (st & w1 & H1 & Hs1 & Hf1 & Ht1).
  rewrite (bind_val _ _ _ _ _ H1).
  destruct (IH (ok + Z.b2z (passed st)) w1 ltac:(lia)) as (sts & w' & Hrun & Hs & Hl & Hf & Ht).
  exists (st :: sts), w'. rewrite Hrun. split_and!.
  - f_equal. f_equal. unfold count_passed. cbn [List.filter]. destruct (passed st); cbn [length Z.b2z]; lia.
  - rewrite Hs, Hs1. cbn [rev]. by rewrite <- app_assoc.
  - cbn [length]. lia.
  - rewrite Hf, Hf1. cbn [length]. lia.
  - rewrite Ht, Ht1. cbn [omap list_omap]. rewrite E. cbn. by rewrite <- app_assoc.
Qed.
End loop.

Section parent.
Context {K : Kernel} {FK : Forks K}.
Context (strsignal : Z -> string) (test_catalog : list testcase) (suites : list testsuite).

(** On a kernel that can fork and wait, [run_tests] forks exactly one
    process per listed test case, in order, waits for each, and returns the
    number of those that exited with status 0. *)
Theorem run_tests_counts verbose testidx plugin w :
  Forall (fun i => 0 <= i < Z.of_nat (length test_catalog)) testidx ->
  exists sts w', run_tests strsignal test_catalog verbose testidx plugin w = (Val (count_passed sts), w') /\
    statuses (tr w') = rev sts ++ statuses (tr w) /\ length sts = length testidx /\
    forked (tr w') = (length testidx + forked (tr w))%nat.
Proof using FK.
  intros Hidx. unfold run_tests, printf. mrun.
  destruct (run_loop_run (FF := forks_forks_for K _ FK) strsignal test_catalog verbose testidx 0 (push (Out stdout "** Running tests for %s.\n" [AStr plugin]) w) Hidx (Nat.le_refl _))
    as (sts & w' & Hrun & Hs & Hl & Hf & _).
  exists sts, w'. rewrite Hrun. by split_and!.
Qed.

Lemma count_passed_all sts : count_passed sts = Z.of_nat (length sts) <-> forallb passed sts = true.
Proof using.
  clear. unfold count_passed. rewrite Nat2Z.inj_iff. induction sts as [|st sts IH]; [done|].
  cbn [List.filter forallb length]. pose proof (filter_length_le passed sts).
  destruct (passed st); cbn [length andb]; [rewrite <- IH; lia|]. split; [lia|done].
Qed.

(** The run for the plugin of a suite, up to its loop. *)
Lemma main_found prog name s w :
  operand name -> find (fun s => strcmp_eq (plugin s) name) suites = Some s ->
  main strsignal test_catalog suites prog [name] w =
    (let num_cases := Z.of_nat (length (testcases s)) in
     ok ← run_loop strsignal test_catalog 0 (testcases s) 0;
     printf "** Result: %d ok, %d failed.\n" [AInt ok; AInt (num_cases - ok)];;
     mret (if ok =? num_cases then 0 else 3))
    (push (Out stdout "** Running tests for %s.\n" [AStr (plugin s)])
      (push (Out stdout "** LITMUS^RT test suite.\n" []) w)).
Proof using.
  intros Hname Hfind. unfold main.
  rewrite (getopt_operand _ _ _ Hname). cbn [getopt_all fst snd getopt_loop]. mrun.
  unfold printf. mrun. rewrite Hfind. unfold run_tests, printf. by rewrite bind_bind.
Qed.

Lemma runner_run prog name s w :
  operand name ->
  find (fun s => strcmp_eq (plugin s) name) suites = Some s ->
  Forall (fun i => 0 <= i < Z.of_nat (length test_catalog)) (testcases s) ->
  exists sts w', main strsignal test_catalog suites prog [name] w = (Val (if forallb passed sts then 0 else 3), w') /\
    length sts = length (testcases s) /\ statuses (tr w') = rev sts ++ statuses (tr w) /\
    titles (tr w') = rev (omap (fun i => description <$> test_catalog !! Z.to_nat i) (testcases s)) ++ titles (tr w) /\
    forked (tr w') = (length (testcases s) + forked (tr w))%nat.
Proof using FK.
  intros Hname Hfind Hidx. rewrite (main_found _ _ _ _ Hname Hfind). cbv zeta.
  match goal with |- context [(run_loop _ _ _ _ _ ≫= _) ?x] => set (w1 := x) end.
  destruct (run_loop_run (FF := forks_forks_for K _ FK) strsignal test_catalog 0 (testcases s) 0 w1 Hidx (Nat.le_refl _)) as (sts & w' & Hrun & Hs & Hl & Hf & Ht).
  rewrite (bind_val _ _ _ _ _ Hrun), Z.add_0_l. unfold printf. mrun.
  exists sts. rewrite <- Hl.
  assert ((if count_passed sts =? Z.of_nat (length sts) then 0 else 3) =
    if forallb passed sts then 0 else 3) as ->.
  { destruct (Z.eqb_spec (count_passed sts) (Z.of_nat (length sts))) as [E|E].
    - by apply count_passed_all in E as ->.
    - destruct (forallb passed sts) eqn:F; [|done]. by apply count_passed_all in F. }
  eexists. split; [done|]. split_and!; [done|exact Hs|exact Ht|by rewrite Hl].
Qed.

(** Run for one plugin of the generated suites, the runner exits with 0
    exactly when every test case of the suite passed, and with 3 otherwise. *)
Theorem runner_exit_code prog name s w :
  operand name ->
  find (fun s => strcmp_eq (plugin s) name) suites = Some s ->
  Forall (fun i => 0 <= i < Z.of_nat (length test_catalog)) (testcases s) ->
  exists sts w', main strsignal test_catalog suites prog [name] w = (Val (if forallb passed sts then 0 else 3), w') /\
    length sts = length (testcases s) /\ statuses (tr w') = rev sts ++ statuses (tr w).
Proof using FK.
  intros Hname Hfind Hidx. destruct (runner_run prog name s w Hname Hfind Hidx) as (sts & w' & ? & ? & ? & _).
  by exists sts, w'.
Qed.
End parent.

(** ** What the child sees *)

Section child.
Context {K : Kernel} (strsignal : Z -> string).

(** What the child of [run_test] does. *)
Definition child_body (function : M unit) : M Z :=
  SYSCALL init_litmus "init_litmus()" "tests/runner.c" 27 "run_test";; function;; exit_ 0.

Lemma child_body_ends function w : forall z w', child_body function w <> (Val z, w').
Proof.
  intros z w'. unfold child_body. intros [(z1 & w1 & _ & [([] & w2 & _ & [=])|(o & _ & _ & Ho)]%bind_inv)|(o & _ & _ & Ho)]%bind_inv;
    by destruct o.
Qed.

Lemma bind_ends {A} (m : M A) (f : A -> M A) w : (forall z w', m w <> (Val z, w')) -> (m ≫= f) w = m w.
Proof.
  intros Hm. unfold mbind, M_bind. destruct (m w) as [o w'] eqn:E. destruct o as [z| | | |]; try done. by destruct (Hm z w').
Qed.

Lemma run_test_child verbose tc w :
  let w1 := push (Out stdout "** Testing: %s... " [AStr (description tc)]) w in
  kernel (tr w1) Fork = Succ 0 -> run_test strsignal verbose tc w = child_body (function tc) (after Fork (Succ 0) w1).
Proof.
  intros w1 HF. unfold w1 in *. unfold run_test, SYSCALL, printf. mrun. rewrite HF. cbn [ret_of Z.ltb Z.compare]. mrun. done.
Qed.

(** In the child, the runner's own code after the test case is never
    reached: the process ends with 0 when the test function returns, with 200
    when liblitmus cannot be initialised, and otherwise as the test function
    ended it. *)
Theorem child_never_returns verbose tc w o w' :
  kernel (Out stdout "** Testing: %s... " [AStr (description tc)] :: tr w) Fork = Succ 0 ->
  run_test strsignal verbose tc w = (o, w') ->
  (forall z, o <> Val z) /\
  (o = Exit 0 \/ o = Exit 200 \/ exists o1 w1, function tc w1 = (o1, w') /\ o = ended o1).
Proof.
  intros Hfork. unfold run_test, SYSCALL, printf. mrun. cbn [tr push]. rewrite Hfork.
  cbn [ret_of Z.ltb Z.compare]. mrun. cbn [Z.eqb]. set (w1 := after Fork _ _).
  destruct (init_litmus_total w1) as (z & w2 & H2). rewrite bind_bind, (bind_val _ _ _ _ _ H2).
  destruct (z <? 0).
  - unfold fail, eprintf. mrun. intros [= <- <-]. split; [done|]. by right; left.
  - mrun. intros [([] & w3 & H3 & Hrun)|(o1 & H3 & Hv & ->)]%bind_inv.
    + injection Hrun as <- <-. split; [done|]. by left.
    + split; [by destruct o1|]. right; right. by exists o1, w2.
Qed.

(** The run of the process that is born at a fork of the loop. *)
Lemma run_loop_app (test_catalog : list testcase) verbose l1 l2 ok w :
  run_loop strsignal test_catalog verbose (l1 ++ l2) ok w =
  (r ← run_loop strsignal test_catalog verbose l1 ok; run_loop strsignal test_catalog verbose l2 r) w.
Proof.
  revert ok w. induction l1 as [|i l1 IH]; intros ok w; cbn [app run_loop]; [done|].
  destruct (if 0 <=? i then _ else _) as [tc|]; [|done]. rewrite bind_bind. unfold mbind, M_bind.
  destruct (run_test strsignal verbose tc w) as [[r| | | |] w1]; [apply IH|done..].
Qed.

Lemma runner_child (test_catalog : list testcase) suites prog name s w k i tc :
  operand name -> find (fun s => strcmp_eq (plugin s) name) suites = Some s ->
  Forall (fun i => 0 <= i < Z.of_nat (length test_catalog)) (testcases s) ->
  testcases s !! k = Some i -> test_catalog !! Z.to_nat i = Some tc -> Born K (k + forked (tr w)) ->
  exists w1, main strsignal test_catalog suites prog [name] w = child_body (function tc) w1 /\
    forked (tr w1) = S (k + forked (tr w)) /\
    titles (tr w1) = description tc ::
      rev (omap (fun i => description <$> test_catalog !! Z.to_nat i) (take k (testcases s))) ++ titles (tr w).
Proof.
  intros Hname Hfind Hidx Hk Hi [FF HB]. rewrite (main_found _ _ _ _ _ _ _ Hname Hfind). cbv zeta.
  match goal with |- context [(run_loop _ _ _ _ _ ≫= _) ?x] => set (w1 := x) end.
  assert (length (take k (testcases s)) = k) as Hlen by (apply length_take_le, Nat.lt_le_incl, lookup_lt_is_Some; by exists i).
  pose proof Hidx as Hidx1. rewrite <- (take_drop k (testcases s)) in Hidx1. apply Forall_app in Hidx1 as [Hidx1 _].
  destruct (run_loop_run strsignal test_catalog 0 (take k (testcases s)) 0 w1 Hidx1) as (sts & w2 & H2 & _ & _ & Hf & Ht);
    [by rewrite Hlen|]. rewrite Hlen in Hf. change (forked (tr w1)) with (forked (tr w)) in Hf. change (titles (tr w1)) with (titles (tr w)) in Ht.
  assert (run_loop strsignal test_catalog 0 (testcases s) 0 w1 =
    (run_test strsignal 0 tc ≫= fun r => run_loop strsignal test_catalog 0 (drop (S k) (testcases s)) (0 + count_passed sts + r)) w2) as E.
  { rewrite <- (take_drop_middle _ _ _ Hk) at 1. rewrite run_loop_app, (bind_val _ _ _ _ _ H2). cbn [run_loop].
    rewrite Forall_lookup in Hidx. pose proof (Hidx _ _ Hk) as Hr. by rewrite (proj2 (Z.leb_le 0 i)), Hi by lia. }
  pose proof (run_test_child 0 tc w2 (HB (tr (push (Out stdout "** Testing: %s... " [AStr (description tc)]) w2)) Hf)) as Hc. set (w3 := after Fork _ _) in Hc. exists w3.
  assert (forall z w', run_test strsignal 0 tc w2 <> (Val z, w')) as Hends by (rewrite Hc; apply child_body_ends).
  assert (run_loop strsignal test_catalog 0 (testcases s) 0 w1 = child_body (function tc) w3) as E'
    by (by rewrite E, bind_ends).
  split; [rewrite bind_ends; [exact E'|rewrite E'; apply child_body_ends]|]. unfold w3. rewrite tr_after.
  change (S (forked (tr w2)) = S (k + forked (tr w)) /\ description tc :: titles (tr w2) = description tc ::
      rev (omap (fun i => description <$> test_catalog !! Z.to_nat i) (take k (testcases s))) ++ titles (tr w)).
  by rewrite Hf, Ht.
Qed.
End child.

(** ** Concrete runs *)

Module RunnerWitness.
Import Sim.

(** A parent whose first child is killed by signal 11 and whose others exit
    with status 0. *)
Definition k_parent : Kernel := fun t c =>
  match c with
  | Fork => Succ 2000
  | Waitpid p => Pair p (if (forked t <=? 1)%nat then 11 else 0)
  | _ => Succ 0
  end.
(** A child. *)
Definition k_child : Kernel := fun _ c => match c with Sysconf _ => Succ 4096 | _ => Succ 0 end.

Definition signal_name (_ : Z) : string := "signal".
Definition catalog : list testcase :=
  [mk_testcase (mret tt) "nothing"; mk_testcase (exit_ 200) "failing"].
Definition suites : list testsuite := [mk_testsuite "GSN-EDF" [0; 1; 0]].

Lemma parent_forks : Forks k_parent.
Proof. split; [intros; by exists 2000|intros; by eexists]. Qed.

(** The child of the second fork. *)
Definition k_born : Kernel := fun t c =>
  match c with Fork => Succ (if (forked t =? 1)%nat then 0 else 2000) | c => k_parent t c end.

Lemma second_born : Born k_born 1.
Proof.
  split; [split|]; intros t; unfold kernel, k_born.
  - intros Ht. exists 2000. by rewrite (proj2 (Nat.eqb_neq _ _)) by lia.
  - intros pid _. by eexists.
  - by intros ->.
Qed.

Lemma run_tests_counts_witness :
  exists sts w', @run_tests k_parent signal_name catalog 0 [0; 1; 0] "GSN-EDF" w0 =
      (Val (count_passed sts), w') /\
    statuses (tr w') = rev sts ++ [] /\ length sts = 3%nat /\ forked (tr w') = 3%nat.
Proof.
  apply (@run_tests_counts k_parent parent_forks signal_name catalog 0 [0; 1; 0] "GSN-EDF" w0).
  repeat constructor; cbn; lia.
Defined.

Lemma runner_exit_code_witness :
  exists sts w', @main k_parent signal_name catalog suites "runtests" ["GSN-EDF"] w0 =
      (Val (if forallb passed sts then 0 else 3), w') /\
    length sts = 3%nat /\ statuses (tr w') = rev sts ++ [].
Proof.
  apply (@runner_exit_code k_parent parent_forks signal_name catalog suites "runtests" "GSN-EDF"
    (mk_testsuite "GSN-EDF" [0; 1; 0]) w0); [done..|]. repeat constructor; cbn; lia.
Defined.

Lemma child_never_returns_witness :
  (forall z, @Exit Z 200 <> Val z) /\
  (@Exit Z 200 = Exit 0 \/ @Exit Z 200 = Exit 200 \/ exists o1 w1, function (mk_testcase (exit_ 200) "failing") w1 =
     (o1, snd (@run_test k_child signal_name 0 (mk_testcase (exit_ 200) "failing") w0)) /\
     @Exit Z 200 = ended o1).
Proof.
  apply (@child_never_returns k_child signal_name 0 (mk_testcase (exit_ 200) "failing") w0); [done|].
  vm_compute. reflexivity.
Defined.

(** One of three test cases fails: exit status 3. *)
Example one_failure :
  fst (@main k_parent signal_name catalog suites "runtests" ["GSN-EDF"] w0) = Val 3.
Proof. vm_compute. reflexivity. Qed.
End RunnerWitness.
