(* ===== verification/ExecTimes.v ===== *)
(** * The execution-time file of bin/rtspin.c

    The stdio stream is what is left of its content and the end-of-file flag. *)
From S2P Require Import Prelude Machine CString Double Laws Iface Setup.

Definition EXIT_FAILURE : Z := 1.

(** A stream: what is left to read and whether a read met the end. *)
Record file := mk_file { left_ : bytes; eof : bool }.

Definition newline : ascii := "010"%char.

(** None is EOF. *)
Definition fgetc (f : file) : option ascii * file :=
  match left_ f with
  | [] => (None, mk_file [] true)
  | c :: l => (Some c, mk_file l (eof f))
  end.
Definition ungetc (ch : option ascii) (f : file) : file :=
  match ch with Some c => mk_file (c :: left_ f) false | None => f end.

(** [for (ch = fgetc(f); ch != EOF && ch != '\n'; ch = fgetc(f));] on the
    characters left. *)
Fixpoint skip_line (l : bytes) (eof : bool) : option ascii * file :=
  match l with
  | [] => (None, mk_file [] true)
  | c :: l => if Ascii.eqb c newline then (Some c, mk_file l eof) else skip_line l eof
  end.
Definition skip_to_next_line (f : file) : option ascii * file := skip_line (left_ f) (eof f).

Fixpoint comment_loop (fuel : nat) (f : file) : option file :=
  let '(ch, f) := fgetc f in
  if match ch with Some c => Ascii.eqb c "#"%char | None => false end then
    match fuel with
    | O => None
    | S fuel => comment_loop fuel (snd (skip_to_next_line f))
    end
  else Some (ungetc ch f).

(** A comment is a character at least. *)
Definition skip_comments (f : file) : option file := comment_loop (length (left_ f)) f.

(** [do { ... } while (ch != EOF)]: the number of jobs. *)
Fixpoint count_loop (fuel : nat) (f : file) (num_jobs : Z) : option Z :=
  match fuel with
  | O => None
  | S fuel =>
      match skip_comments f with
      | None => None
      | Some f =>
          let '(ch, f) := skip_to_next_line f in
          match ch with
          | Some _ => count_loop fuel f (num_jobs + 1)
          | None => Some num_jobs
          end
      end
  end.

(** The word at the start of [l] is dropped. *)
Fixpoint drop_word (l : bytes) : bytes :=
  match l with
  | [] => []
  | c :: l' => if Ascii.is_space c then l else drop_word l'
  end.

(** [fscanf(f, "%*s,")]: white space and a word; the comma of the format
    cannot follow a word that ends before white space. *)
Definition scan_skip_word (f : file) : file :=
  let l := drop_word (skip_space (left_ f)) in
  mk_file l (eof f || (length l =? 0)%nat).

(** [fscanf(f, "%lf", ...)]: the value converted, if any.  Where a number is
    followed by the start of a longer one, an exponent letter fails the
    conversion; for the other cases that of [strtod] is taken. *)
Definition scan_lf (f : file) : option double * file :=
  match scan_double (left_ f) with
  | Some (d, l, false) => (Some d, mk_file l (eof f || (length l =? 0)%nat))
  | _ => (None, f)
  end.

Fixpoint skip_columns (n : nat) (f : file) : file :=
  match n with O => f | S n => skip_columns n (scan_skip_word f) end.

Section times.
Context {K : Kernel}.

(** [for (cur_job = 0; cur_job < *num_jobs && !feof(fstream); ++cur_job)] with
    [n] jobs to go: the times read. *)
Fixpoint read_times (n : nat) (cur_job column : Z) (f : file) : M (list double) :=
  match n with
  | O => mret []
  | S n =>
      if eof f then mret []
      else
        match skip_comments f with
        | None => no_fuel
        | Some f =>
            let f := skip_columns (Z.to_nat (column - 1)) f in
            let '(time, f) := scan_lf f in
            match time with
            | None =>
                eprintf "invalid execution time near line %d\n" [AInt cur_job];;
                exit_ EXIT_FAILURE
            | Some d =>
                let f := snd (skip_to_next_line f) in
                ds ← read_times n (cur_job + 1) column f;
                mret (d :: ds)
            end
        end
  end.

Definition SEEK_SET : Z := 0.

(** Returns [*num_jobs], the times and the address of the array. *)
Definition get_exec_times (file_name : string) (column : Z) : M (Z * list double * Z) :=
  r ← sys (Fopen file_name "r");
  match r with
  | Data content =>
      let f := mk_file content false in
      match count_loop (S (length content)) f 0 with
      | None => no_fuel
      | Some num_jobs =>
          r ← syscall (Fseek 0 SEEK_SET);
          when (r =? -1) (bail_out "rewinding file failed");;
          let f := mk_file content false in
          r ← sys (Calloc num_jobs 8);
          let addr := match r with Succ p => p | _ => NULL end in
          when (addr =? NULL) (bail_out "couldn't allocate memory");;
          ds ← read_times (Z.to_nat num_jobs) 0 column f;
          if negb (Z.of_nat (length ds) =? num_jobs) then abort
          else
            syscall Fclose;;
            mret (num_jobs, ds, addr)
      end
  | _ => bail_out "could not open execution time file"
  end.
End times.


(** ** Well-formed files *)

(** A row: comment lines before it, the words of the columns before the one
    read, each with the blanks after it, the time and the rest of the line. *)
Record row := mk_row {
  comments : list bytes;
  columns : list (bytes * bytes);
  time : Z;
  rest : bytes;
}.

Definition comment_line (c : bytes) : bytes := "#"%char :: c ++ [newline].
Definition comment_lines (cs : list bytes) : bytes := concat (map comment_line cs).
Definition column_text (c : bytes * bytes) : bytes := fst c ++ snd c.
Definition row_text (r : row) : bytes :=
  concat (map column_text (columns r)) ++ dec dec_fuel (time r) ++ rest r.
Definition render_row (r : row) : bytes := comment_lines (comments r) ++ row_text r ++ [newline].

(** Rows, comments after the last one, and what follows the last newline. *)
Definition render_file (rows : list row) (cs : list bytes) (tail : bytes) : bytes :=
  concat (map render_row rows) ++ comment_lines cs ++ tail.

Definition one_line (l : bytes) : Prop := newline ∉ l.
Definition blank (c : ascii) : Prop := Ascii.is_space c = true /\ c <> newline.

(** A word has no white space, starts no comment and is followed by blanks:
    a comma separates columns only with a blank after it. *)
Definition wf_column (c : bytes * bytes) : Prop :=
  Forall (fun a => Ascii.is_space a = false) (fst c) /\ fst c <> [] /\
  head (fst c) <> Some "#"%char /\ Forall blank (snd c) /\ snd c <> [].

Definition wf_row (n : nat) (r : row) : Prop :=
  Forall one_line (comments r) /\ Forall wf_column (columns r) /\ length (columns r) = n /\
  0 <= time r <= INT_MAX /\ one_line (rest r) /\ number_end (rest r).

(** ** Lines *)

Lemma skip_line_newline l l' e :
  one_line l -> skip_line (l ++ newline :: l') e = (Some newline, mk_file l' e).
Proof.
  induction l as [|c l IH]; intros Hl; cbn [app skip_line]; [by rewrite (proj2 (Ascii.eqb_eq _ _))|].
  apply not_elem_of_cons in Hl as [Hc Hl]. rewrite (proj2 (Ascii.eqb_neq _ _)) by done. by apply IH.
Qed.

Lemma skip_line_end l e : one_line l -> skip_line l e = (None, mk_file [] true).
Proof.
  induction l as [|c l IH]; intros Hl; cbn [skip_line]; [done|].
  apply not_elem_of_cons in Hl as [Hc Hl]. rewrite (proj2 (Ascii.eqb_neq _ _)) by done. by apply IH.
Qed.

(** What [skip_comments] leaves of a text that starts no comment. *)
Definition peeked (l : bytes) : file := match l with [] => mk_file [] true | _ => mk_file l false end.

Lemma skip_comments_lines cs l :
  Forall one_line cs -> head l <> Some "#"%char ->
  skip_comments (mk_file (comment_lines cs ++ l) false) = Some (peeked l).
Proof.
  intros Hcs Hl. unfold skip_comments. cbn [left_].
  assert (length cs <= length (comment_lines cs ++ l))%nat as Hf.
  { rewrite length_app. clear. unfold comment_lines. induction cs as [|c cs IH]; [cbn; lia|].
    cbn [map concat]. unfold comment_line at 1. cbn [app length]. rewrite !length_app in *. lia. }
  revert Hf. generalize (length (comment_lines cs ++ l)) as fuel.
  induction Hcs as [|c cs Hc _ IH]; intros fuel Hf.
  - change (comment_lines [] ++ l) with l. destruct l as [|a l]; destruct fuel; try done.
    all: cbn [comment_loop fgetc left_]; rewrite (proj2 (Ascii.eqb_neq _ _)) by (by intros ->); done.
  - destruct fuel as [|fuel]; [cbn in Hf; lia|]. unfold comment_lines. cbn [map concat].
    fold (comment_lines cs). unfold comment_line. cbn [app comment_loop fgetc left_ Ascii.eqb Bool.eqb].
    unfold skip_to_next_line. cbn [left_ eof]. rewrite <- !app_assoc. cbn [app].
    rewrite skip_line_newline by done. apply IH. cbn in Hf. lia.
Qed.

Lemma space_not_newline a : Ascii.is_space a = false -> a <> newline.
Proof. by intros Ha ->. Qed.

Lemma one_line_forall l : Forall (fun a => a <> newline) l -> one_line l.
Proof. intros Hl Hin. rewrite Forall_forall in Hl. apply list_elem_of_In in Hin. by apply (Hl newline). Qed.

Lemma one_line_app l1 l2 : one_line l1 -> one_line l2 -> one_line (l1 ++ l2).
Proof. intros H1 H2 [?|?]%elem_of_app; [by apply H1|by apply H2]. Qed.

Lemma row_one_line n r : wf_row n r -> one_line (row_text r).
Proof.
  intros (_ & Hcols & _ & Ht & Hr & _). unfold row_text. apply one_line_app; [|apply one_line_app; [|done]].
  - induction Hcols as [|[word bl] cols (Hw & _ & _ & Hb & _) _ IH]; [apply not_elem_of_nil|].
    cbn [map concat column_text fst snd] in *. repeat apply one_line_app; [..|done]; apply one_line_forall.
    + eapply Forall_impl; [|exact Hw]. apply space_not_newline.
    + eapply Forall_impl; [|exact Hb]. by intros a [].
  - intros Hin. destruct (dec_chars dec_fuel (time r) newline ltac:(lia) Hin) as (d & Hd & E).
    by apply (space_not_newline (digit_char d)); [apply (digit_char_plain d); lia|].
Qed.

Lemma row_head n r l : wf_row n r -> head (row_text r ++ l) <> Some "#"%char /\ row_text r <> [].
Proof.
  intros (_ & Hcols & _ & Ht & _). unfold row_text.
  destruct Hcols as [|[word bl] cols (_ & Hne & Hh & _) _]; cbn [map concat].
  - destruct (dec_cons dec_fuel (time r)) as (d & l' & Hd & ->); [lia|apply dec_fuel_pos|]. split; [|done].
    cbn [app head]. intros [= E]. assert (digit 10 (digit_char d) = Some d) as Hdd by (apply digit_digit_char; lia).
    by rewrite E in Hdd.
  - unfold column_text. cbn [fst snd] in *. by destruct word.
Qed.

(** ** Columns *)

Lemma skip_space_spaces b l : Forall (fun a => Ascii.is_space a = true) b -> skip_space (b ++ l) = skip_space l.
Proof. induction 1 as [|a b Ha _ IH]; [done|]. cbn [app skip_space]. by rewrite Ha. Qed.

Lemma drop_word_word word l :
  Forall (fun a => Ascii.is_space a = false) word ->
  match l with c :: _ => Ascii.is_space c = true | [] => True end -> drop_word (word ++ l) = l.
Proof.
  intros Hw Hl. induction Hw as [|a word Ha _ IH]; cbn [app drop_word].
  - destruct l; [done|]. cbn [drop_word]. by rewrite Hl.
  - by rewrite Ha.
Qed.

Lemma blanks_spaces b : Forall blank b -> Forall (fun a => Ascii.is_space a = true) b.
Proof. apply Forall_impl. by intros a []. Qed.

Lemma skip_columns_words cols b l :
  Forall wf_column cols -> Forall (fun a => Ascii.is_space a = true) b -> l <> [] ->
  exists b', Forall (fun a => Ascii.is_space a = true) b' /\
    skip_columns (length cols) (mk_file (b ++ concat (map column_text cols) ++ l) false) =
      mk_file (b' ++ l) false.
Proof.
  intros Hcols Hb Hl. revert b Hb. induction Hcols as [|[word bl] cols (Hw & Hne & _ & Hbl & Hbne) _ IH]; intros b Hb.
  - by exists b.
  - cbn [fst snd] in *. set (l' := concat (map column_text cols) ++ l).
    assert (drop_word (skip_space (b ++ concat (map column_text ((word, bl) :: cols)) ++ l)) = bl ++ l') as E.
    { rewrite skip_space_spaces by done. cbn [map concat]. unfold column_text at 1. cbn [fst snd].
      rewrite <- !app_assoc. fold l'. destruct Hw as [|a word Ha Hw]; [done|]. cbn [app skip_space].
      rewrite Ha. cbn [drop_word]. rewrite Ha. apply drop_word_word; [done|].
      by destruct Hbl as [|? ? []]. }
    cbn [length skip_columns]. unfold scan_skip_word. cbn [left_ eof orb]. rewrite E.
    rewrite (proj2 (Nat.eqb_neq _ _)).
    2: { unfold l'. rewrite !length_app. destruct l; [done|]. cbn [length]. lia. }
    apply IH. by apply blanks_spaces.
Qed.

Lemma scan_lf_spaces b n l :
  Forall (fun a => Ascii.is_space a = true) b -> 0 <= n <= INT_MAX -> number_end l -> l <> [] ->
  scan_lf (mk_file (b ++ dec dec_fuel n ++ l) false) = (Some (of_Z n), mk_file l false).
Proof.
  intros Hb Hn Hl Hne. unfold scan_lf. cbn [left_ eof].
  assert (scan_double (b ++ dec dec_fuel n ++ l) = scan_double (dec dec_fuel n ++ l)) as ->
    by (unfold scan_double; by rewrite skip_space_spaces).
  rewrite scan_double_dec by done. by destruct l.
Qed.

(** ** The two passes *)

Definition after_rows (cs : list bytes) (tail : bytes) : bytes := comment_lines cs ++ tail.

(** A file whose last comments are complete and whose unfinished last line,
    if any, is no comment. *)
Definition wf_file (n : nat) (rows : list row) (cs : list bytes) (tail : bytes) : Prop :=
  Forall (wf_row n) rows /\ Forall one_line cs /\ one_line tail /\ head tail <> Some "#"%char.

Lemma render_cons r rows cs tail :
  render_file (r :: rows) cs tail =
    comment_lines (comments r) ++ row_text r ++ newline :: render_file rows cs tail.
Proof. unfold render_file, render_row. cbn [map concat]. by rewrite <- !app_assoc. Qed.

Lemma skip_comments_row n r l :
  wf_row n r ->
  skip_comments (mk_file (comment_lines (comments r) ++ row_text r ++ l) false) =
    Some (mk_file (row_text r ++ l) false).
Proof.
  intros Hr. destruct (row_head n r l Hr) as [Hh Hne].
  rewrite skip_comments_lines; [|apply Hr|done]. by destruct (row_text r).
Qed.

Lemma count_loop_rows n rows cs tail k fuel :
  wf_file n rows cs tail -> (length rows < fuel)%nat ->
  count_loop fuel (mk_file (render_file rows cs tail) false) k = Some (k + Z.of_nat (length rows)).
Proof.
  intros (Hrows & Hcs & Ht & Hh). revert k fuel. induction Hrows as [|r rows Hr _ IH]; intros k fuel Hf;
    (destruct fuel as [|fuel]; [lia|]); cbn [count_loop].
  - change (render_file [] cs tail) with (comment_lines cs ++ tail).
    rewrite skip_comments_lines by done. unfold peeked, skip_to_next_line.
    destruct tail; cbn [left_ eof]; [cbn [skip_line]|rewrite skip_line_end by done]; f_equal; cbn; lia.
  - rewrite render_cons, (skip_comments_row n) by done. unfold skip_to_next_line. cbn [left_ eof].
    rewrite skip_line_newline by (by eapply row_one_line). cbn [length] in *.
    rewrite IH by lia. f_equal. lia.
Qed.

Lemma read_times_rows {K : Kernel} n rows cs tail cur w :
  wf_file n rows cs tail ->
  read_times (length rows) cur (1 + Z.of_nat n) (mk_file (render_file rows cs tail) false) w =
    (Val (map (fun r => of_Z (time r)) rows), w).
Proof.
  intros (Hrows & Hcs & Ht & Hh). revert cur. induction Hrows as [|r rows Hr Hrows IH]; intros cur; [done|].
  pose proof Hr as (_ & Hcols & Hn & Htime & Hrest & Hend).
  cbn [length read_times eof]. rewrite render_cons, (skip_comments_row n) by done.
  replace (Z.to_nat (1 + Z.of_nat n - 1)) with (length (columns r)) by lia.
  unfold row_text. rewrite <- !app_assoc.
  destruct (skip_columns_words (columns r) [] (dec dec_fuel (time r) ++ rest r ++
    newline :: render_file rows cs tail)) as (b & Hb & E); [done|constructor| |].
  { destruct (dec_cons dec_fuel (time r)) as (d & l & _ & ->); [lia|apply dec_fuel_pos|done]. }
  cbn [app] in E. rewrite E, scan_lf_spaces; [|done..| |by destruct (rest r)].
  - unfold skip_to_next_line. cbn [left_ eof]. rewrite skip_line_newline by done. cbn [snd].
    rewrite (bind_val _ _ _ _ _ (IH (cur + 1))). done.
  - destruct (rest r); [split; [done|]|done]. rewrite !not_elem_of_cons. by split_and!; try apply not_elem_of_nil.
Qed.

Section spec.
Context {K : Kernel}.

(** What [get_exec_times] relies on the C library for: rewinding works, and
    there is memory for the array. *)
Class Stdio : Prop := {
  stdio_rewind t : ret_of (kernel t (Fseek 0 SEEK_SET)) <> -1;
  stdio_calloc t n : exists a, kernel t (Calloc n 8) = Succ a /\ a <> NULL;
}.

Lemma get_exec_times_run `{!Stdio} name n rows cs tail w :
  wf_file n rows cs tail ->
  kernel (tr w) (Fopen name "r") = Data (render_file rows cs tail) ->
  exists addr w',
    get_exec_times name (1 + Z.of_nat n) w =
      (Val (Z.of_nat (length rows), map (fun r => of_Z (time r)) rows, addr), w') /\
    calls (tr w') = Fclose :: Calloc (Z.of_nat (length rows)) 8 :: Fseek 0 SEEK_SET ::
      Fopen name "r" :: calls (tr w).
Proof.
  intros Hwf Hopen. unfold get_exec_times. rewrite bind_sys, Hopen.
  set (content := render_file rows cs tail).
  assert (length rows < S (length content))%nat as Hf.
  { unfold content. clear. induction rows as [|r rows IH]; [cbn; lia|].
    rewrite render_cons, !length_app. cbn [length]. lia. }
  unfold content at 2. rewrite (count_loop_rows n), Z.add_0_l by done.
  rewrite bind_syscall. rewrite (proj2 (Z.eqb_neq _ _)) by apply stdio_rewind. cbn [when].
  rewrite bind_ret, bind_sys. set (w1 := after (Fseek _ _) _ _).
  destruct (stdio_calloc (tr w1) (Z.of_nat (length rows))) as (a & -> & Ha).
  rewrite (proj2 (Z.eqb_neq _ _)) by done. cbn [when]. rewrite bind_ret, Nat2Z.id.
  rewrite (bind_val _ _ _ _ _ (read_times_rows n rows cs tail 0 _ Hwf)).
  rewrite length_map, Z.eqb_refl. cbn [negb]. rewrite bind_syscall. cbn [mret M_ret].
  eexists a, _. split; [done|]. unfold w1. rewrite !tr_after. done.
Qed.

(** C25: from a file whose rows are each one line (after comment lines), with
    the same number of blank-separated columns before a decimal integer,
    [get_exec_times] returns as many jobs as rows and exactly their times, and
    closes the file; an unfinished last line is no job.  A file that cannot be
    opened ends the process with the negated error code, after a report. *)
Theorem get_exec_times_spec `{!Stdio} name n rows cs tail w :
  (wf_file n rows cs tail ->
   kernel (tr w) (Fopen name "r") = Data (render_file rows cs tail) ->
   exists addr w',
     get_exec_times name (1 + Z.of_nat n) w =
       (Val (Z.of_nat (length rows), map (fun r => of_Z (time r)) rows, addr), w') /\
     calls (tr w') = Fclose :: Calloc (Z.of_nat (length rows)) 8 :: Fseek 0 SEEK_SET ::
       Fopen name "r" :: calls (tr w)) /\
  (forall e column, kernel (tr w) (Fopen name "r") = Fail e ->
     exists w', get_exec_times name column w = (Exit (-1 * e), w') /\
       tr w' = Perror "could not open execution time file" :: Sys (Fopen name "r") (Fail e) :: tr w).
Proof.
  split; [apply get_exec_times_run|]. intros e column E. unfold get_exec_times. rewrite bind_sys, E.
  by eexists.
Qed.
End spec.

(** ** Concrete files *)

Module ExecTimesWitness.
Import Sim.

(** Opens one file; every other request succeeds. *)
Definition k_file (content : bytes) : Kernel := fun _ c =>
  match c with
  | Fopen _ _ => Data content
  | Calloc _ _ => Succ 4096
  | _ => Succ 0
  end.

#[local] Instance k_file_stdio content : @Stdio (k_file content).
Proof. split; [done|]. intros t n. by exists 4096. Qed.

Definition w_rows : list row :=
  [mk_row [bytes_of " ms"] [(bytes_of "a,", bytes_of " ")] 12 (bytes_of ",x");
   mk_row [] [(bytes_of "b", bytes_of "  ")] 7 []].

Lemma get_exec_times_spec_witness :
  exists addr w',
    @get_exec_times (k_file (render_file w_rows [] (bytes_of "c 3"))) "times" 2 w0 =
      (Val (2, [of_Z 12; of_Z 7], addr), w') /\
    calls (tr w') = [Fclose; Calloc 2 8; Fseek 0 SEEK_SET; Fopen "times" "r"].
Proof.
  apply (proj1 (@get_exec_times_spec (k_file (render_file w_rows [] (bytes_of "c 3"))) _ "times" 1 w_rows []
    (bytes_of "c 3") w0)); [|done].
  split_and!; [|by constructor| |done].
  - repeat constructor; try done; try (intros Hin; apply list_elem_of_In in Hin; cbn in Hin; intuition done);
      try (cbn; lia).
  - intros Hin. apply list_elem_of_In in Hin. cbn in Hin. intuition done.
Defined.

Definition read_text (text : string) (column : Z) :=
  fst (@get_exec_times (k_file (bytes_of text)) "times" column w0).

(** Columns separated by commas alone are one word: the second column of "1,2"
    is not found, and of "1,2 3" the time 3 is read. *)
Example comma_columns :
  read_text (String.append "1,2" (String newline "")) 2 = Exit 1 /\
  read_text (String.append "1,2 3" (String newline "")) 2 = Val (1, [of_Z 3], 4096).
Proof. vm_compute. done. Qed.

(** A last line without a newline is no job. *)
Example last_line_dropped :
  read_text (String.append "1" (String newline "2")) 1 = Val (1, [of_Z 1], 4096).
Proof. vm_compute. done. Qed.
End ExecTimesWitness.
