(* ===== verification/Spin.v ===== *)
(** * The busy loops and jobs of bin/rtspin.c

    The loops read the clocks of the machine and take fuel; [int] arithmetic
    that overflows wraps. *)
From S2P Require Import Prelude Machine CString Double Laws Syscalls Litmus Clocks.

Definition NUMS : nat := 4096.

(** [j += num[i]++] over the array. *)
Fixpoint sum_loop (num : list Z) (j : Z) : Z * list Z :=
  match num with
  | [] => (j, [])
  | n :: num => let '(j, num) := sum_loop num (s32 (j + n)) in (j, s32 (n + 1) :: num)
  end.
Definition loop_once (num : list Z) : Z * list Z := sum_loop num 0.

Definition dconst (m e : Z) : double := of_decimal false m e.

Section spin.
Context {K : Kernel}.
(** What uninitialised time values hold. *)
Context (stack : Z * Z).

(** The [while] loop of [loop_for]; returns [tmp] and the array. *)
Fixpoint spin_loop (fuel : nat) (start exec_time emergency_exit now last_loop : double) (tmp : Z)
    (num : list Z) : M (Z * list Z) :=
  if dlt (dadd now last_loop) (dadd start exec_time) then
    match fuel with
    | O => no_fuel
    | S fuel =>
        let loop_start := now in
        let '(j, num) := loop_once num in
        let tmp := s32 (tmp + j) in
        now ← cputime stack;
        let last_loop := dsub now loop_start in
        emergency ← (if negb (deq emergency_exit dzero)
                     then wc ← wctime stack; mret (dlt emergency_exit wc) else mret false);
        if (emergency : bool) then
          pid ← syscall Getpid;
          eprintf "!!! rtspin/%d emergency exit!\n" [AInt pid];;
          eprintf "Something is seriously wrong! Do not ignore this.\n" [];;
          mret (tmp, num)
        else spin_loop fuel start exec_time emergency_exit now last_loop tmp num
    end
  else mret (tmp, num).

Definition loop_for (fuel : nat) (exec_time emergency_exit : double) (num : list Z) : M (Z * list Z) :=
  start ← cputime stack;
  now ← cputime stack;
  spin_loop fuel start exec_time emergency_exit now dzero 0 num.

(** [while (1) for (delay = 0.5; delay > 0.01; delay -= 0.01)], one [S] of fuel
    for a body or a restart. *)
Fixpoint delay_loop (fuel inner : nat) (delay : double) (num : list Z) : M unit :=
  match fuel with
  | O => no_fuel
  | S fuel =>
      if dlt (dconst 1 (-2)) delay then
        start ← wctime stack;
        '(_, num) ← loop_for inner delay dzero num;
        end_ ← wctime stack;
        let e := dsub (dsub end_ start) delay in
        printf "%6.4fs: looped for %10.8fs, delta=%11.8fs, error=%7.4f%%\n"
          [ADbl delay; ADbl (dsub end_ start); ADbl e; ADbl (ddiv (dmul (of_Z 100) e) delay)];;
        delay_loop fuel inner (dsub delay (dconst 1 (-2))) num
      else delay_loop fuel inner (dconst 5 (-1)) num
  end.
Definition debug_delay_loop (fuel inner : nat) (num : list Z) : M unit :=
  delay_loop fuel inner (dconst 5 (-1)) num.

(** [drand48] scales a 48-bit integer. *)
Definition drand48 : M double :=
  r ← syscall Drand48;
  mret (binary_normalize prec emax (wrap_u 48 r) (-48) false).

(** Returns 0 when the program is over, 1 after a job. *)
Definition job (fuel : nat) (exec_time program_end : double) (lock_od : Z) (cs_length : double)
    (num : list Z) : M (Z * list Z) :=
  wc ← wctime stack;
  if dlt program_end wc then mret (0, num)
  else
    num ← (if 0 <=? lock_od then
             r ← drand48;
             let chunk1 := dmul r (dsub exec_time cs_length) in
             let chunk2 := dsub (dsub exec_time cs_length) chunk1 in
             '(_, num) ← loop_for fuel chunk1 (dadd program_end (of_Z 1)) num;
             litmus_lock lock_od;;
             '(_, num) ← loop_for fuel cs_length (dadd program_end (of_Z 1)) num;
             litmus_unlock lock_od;;
             '(_, num) ← loop_for fuel chunk2 (dadd program_end (of_Z 2)) num;
             mret num
           else
             '(_, num) ← loop_for fuel exec_time (dadd program_end (of_Z 1)) num;
             mret num);
    sleep_next_period;;
    mret (1, num).
End spin.


(** ** One pass over the array *)

Definition passes (k : nat) (num : list Z) : list Z := Nat.iter k (fun num => snd (loop_once num)) num.

(** While all elements are equal. *)
Lemma sum_loop_replicate n c j :
  INT_MIN <= j <= INT_MAX ->
  sum_loop (replicate n c) j = (s32 (j + Z.of_nat n * c), replicate n (s32 (c + 1))).
Proof.
  unfold INT_MIN, INT_MAX. revert j. induction n as [|n IH]; intros j Hj; cbn [replicate sum_loop].
  - by rewrite Z.add_0_r, wrap_s_small by lia.
  - rewrite IH by (pose proof (wrap_s_range 32 (j + c)); lia). rewrite wrap_s_add_l by lia.
    do 2 f_equal. lia.
Qed.

(** The sum of [k] passes that start with all elements [c]. *)
Definition pass_sum (c k : Z) : Z := Z.of_nat NUMS * (c * k) + 2048 * (k * (k - 1)).

Lemma pass_sum_succ c k : pass_sum c (k + 1) = pass_sum c k + Z.of_nat NUMS * (c + k).
Proof. unfold pass_sum. change (Z.of_nat NUMS) with 4096. lia. Qed.

Lemma loop_once_replicate c :
  0 <= c < INT_MAX -> loop_once (replicate NUMS c) = (s32 (Z.of_nat NUMS * c), replicate NUMS (c + 1)).
Proof.
  unfold INT_MAX. intros Hc. unfold loop_once. rewrite sum_loop_replicate by done.
  by rewrite Z.add_0_l, (wrap_s_small 32 (c + 1)) by lia.
Qed.

(** ** The loop on a clock of whole seconds *)

(** How often the CPU time was read. *)
Fixpoint readings (t : trace) : nat :=
  match t with
  | [] => O
  | Sys (Clock_gettime _) _ :: t => S (readings t)
  | _ :: t => readings t
  end.

(** The [i]-th reading of the thread's CPU time gives [T i] seconds, and time
    passes between readings. *)
Class Ticks (K : Kernel) (T : nat -> Z) : Prop := {
  ticks_read t : kernel t (Clock_gettime CLOCK_THREAD_CPUTIME_ID) = Pair (T (readings t)) 0;
  ticks_nonneg i : 0 <= T i;
  ticks_advance i : T i < T (S i);
}.

Section ticks.
Context {K : Kernel} (T : nat -> Z) `{!Ticks K T} (stack : Z * Z).

Lemma ticks_add i n : T i + Z.of_nat n <= T (i + n)%nat.
Proof.
  induction n as [|n IH]; [rewrite Nat.add_0_r; lia|]. rewrite Nat.add_succ_r.
  pose proof (ticks_advance (i + n)). lia.
Qed.

Lemma dadd_tiny s : 0 <= s < 2 ^ 53 -> dadd (of_Z s) (dmul d1em9 (of_Z 0)) = of_Z s.
Proof. intros Hs. change (dmul d1em9 (of_Z 0)) with (of_Z 0). rewrite dadd_of_Z by lia. f_equal. lia. Qed.

Lemma cputime_ticks {B} (f : double -> M B) w :
  T (readings (tr w)) < 2 ^ 53 ->
  exists w', (cputime stack ≫= f) w = f (of_Z (T (readings (tr w)))) w' /\
    tr w' = Sys (Clock_gettime CLOCK_THREAD_CPUTIME_ID) (Pair (T (readings (tr w))) 0) :: tr w.
Proof.
  intros Hs. pose proof (ticks_nonneg (readings (tr w))). unfold cputime. mrun.
  rewrite ticks_read. cbn [ret_of Z.eqb negb when]. mrun. rewrite dadd_tiny by done. by eexists.
Qed.

(** Whether another pass, as long as the last, fits the budget of [n] seconds
    after [i] passes of a loop that started at reading [r]. *)
Definition last_pass (r i : nat) : Z := match i with O => 0 | S j => T (r + 1 + i)%nat - T (r + 1 + j)%nat end.
Definition fits (r : nat) (n : Z) (i : nat) : bool := T (r + 1 + i)%nat + last_pass r i <? T r + n.

Lemma last_pass_nonneg r i : 0 <= last_pass r i.
Proof.
  destruct i as [|i]; [done|]. unfold last_pass. rewrite Nat.add_succ_r. pose proof (ticks_advance (r + 1 + i)). lia.
Qed.

Lemma fits_bound r n i : fits r n i = true -> Z.of_nat i < n.
Proof.
  unfold fits. intros H%Z.ltb_lt. pose proof (last_pass_nonneg r i). pose proof (ticks_add r (1 + i)).
  replace (r + (1 + i))%nat with (r + 1 + i)%nat in * by lia. lia.
Qed.

(** The check for the emergency exit, and the exit. *)
Definition overdue (emergency_exit : double) : M bool :=
  if negb (deq emergency_exit dzero) then wc ← wctime stack; mret (dlt emergency_exit wc)
  else mret false.

(** The loop was left because it was overdue. *)
Definition reported (t : trace) : Prop :=
  exists pid t', t = Out stderr "Something is seriously wrong! Do not ignore this.\n" [] ::
    Out stderr "!!! rtspin/%d emergency exit!\n" [AInt pid] :: t'.

Lemma overdue_run e w :
  exists b w', overdue e w = (Val b, w') /\ readings (tr w') = readings (tr w) /\
    (b = true -> deq e dzero = false).
Proof.
  unfold overdue. destruct (deq e dzero); cbn [negb]; [by eexists _, _|].
  unfold wctime. mrun. destruct (match kernel _ _ with Pair s n => _ | _ => _ end) as [s n].
  eexists _, _. split; [done|]. by rewrite tr_after.
Qed.

Lemma spin_ticks e r n c fuel i w :
  0 <= n <= INT_MAX -> T (r + 1 + Z.to_nat n)%nat < 2 ^ 52 -> 0 <= c -> c + n <= INT_MAX ->
  readings (tr w) = (r + 2 + i)%nat -> n - Z.of_nat i <= Z.of_nat fuel -> Z.of_nat i <= n ->
  exists k w',
    spin_loop stack fuel (of_Z (T r)) (of_Z n) e (of_Z (T (r + 1 + i)%nat)) (of_Z (last_pass r i))
      (s32 (pass_sum c (Z.of_nat i))) (replicate NUMS (c + Z.of_nat i)) w =
      (Val (s32 (pass_sum c (Z.of_nat (i + k))), replicate NUMS (c + Z.of_nat (i + k))), w') /\
    readings (tr w') = (readings (tr w) + k)%nat /\
    (forall j, (i <= j < i + k)%nat -> fits r n j = true) /\
    (fits r n (i + k) = false \/ deq e dzero = false /\ reported (tr w')).
Proof.
  unfold INT_MAX. intros Hn HT Hc Hcn. revert i w. induction fuel as [|fuel IH]; intros i w Hr Hf Hi.
  all: assert (forall j, Z.of_nat j <= n -> 0 <= T (r + 1 + j)%nat < 2 ^ 52) as Hb
    by (intros j Hj; split; [apply ticks_nonneg|];
        pose proof (ticks_add (r + 1 + j) (Z.to_nat n - j)) as Hadd;
        replace (r + 1 + j + (Z.to_nat n - j))%nat with (r + 1 + Z.to_nat n)%nat in Hadd by lia; lia).
  all: pose proof (Hb i Hi) as Hbi; pose proof (last_pass_nonneg r i).
  all: assert (last_pass r i < 2 ^ 52) as Hlast
    by (destruct i as [|j]; [done|]; unfold last_pass; pose proof (ticks_nonneg (r + 1 + j)); lia).
  all: assert (0 <= T r < 2 ^ 52) as Hr0
    by (split; [apply ticks_nonneg|]; pose proof (Hb 0%nat ltac:(lia)); pose proof (ticks_add r 1);
        rewrite Nat.add_0_r in *; lia).
  all: cbn [spin_loop]; rewrite !dadd_of_Z, dlt_of_Z by lia; fold (fits r n i);
    destruct (fits r n i) eqn:Ef.
  - apply fits_bound in Ef. lia.
  - exists 0%nat, w. rewrite !Nat.add_0_r. split_and!; [done..|lia|by left].
  - pose proof (fits_bound _ _ _ Ef) as Hin. pose proof (Hb (S i) ltac:(lia)) as Hbs.
    rewrite loop_once_replicate by (unfold INT_MAX; lia). cbv zeta. fold (overdue e).
    rewrite wrap_s_add_l, (Z.add_comm (pass_sum _ _)), wrap_s_add_l, Z.add_comm, <- pass_sum_succ by lia.
    replace (Z.of_nat i + 1) with (Z.of_nat (S i)) by lia.
    replace (c + Z.of_nat i + 1) with (c + Z.of_nat (S i)) by lia.
    match goal with |- context [mbind ?f (cputime stack) w] =>
      destruct (cputime_ticks f w) as (w1 & -> & Hw1) end.
    { rewrite Hr. replace (r + 2 + i)%nat with (r + 1 + S i)%nat by lia. lia. }
    rewrite Hr in *. replace (r + 2 + i)%nat with (r + 1 + S i)%nat in * by lia. cbn beta.
    pose proof (ticks_advance (r + 1 + i)) as Hadv. rewrite <- Nat.add_succ_r in Hadv.
    rewrite dsub_of_Z by lia.
    change (T (r + 1 + S i)%nat - T (r + 1 + i)%nat) with (last_pass r (S i)).
    destruct (overdue_run e w1) as (b & w2 & E2 & Hr2 & Hb2). rewrite (bind_val _ _ _ _ _ E2).
    rewrite Hw1 in Hr2. cbn [readings] in Hr2. rewrite Hr in Hr2. destruct b.
    { mrun. eexists 1%nat, _. replace (i + 1)%nat with (S i) by lia. split; [done|].
      cbn [tr push readings]. rewrite tr_after. cbn [readings]. split_and!; [lia|..].
      - intros j Hj. by replace j with i by lia.
      - right. split; [by apply Hb2|]. by eexists _, _. }
    destruct (IH (S i) w2) as (k & w' & E' & Hread & Hfit & Hend); [lia..|].
    exists (S k), w'. replace (i + S k)%nat with (S i + k)%nat by lia. split_and!; [done|lia|..|done].
    intros j Hj. destruct (decide (j = i)) as [->|]; [done|]. apply Hfit. lia.
  - exists 0%nat, w. rewrite !Nat.add_0_r. split_and!; [done..|lia|by left].
Qed.

(** [loop_for] on such a clock, whatever the wall clock says. *)
Lemma loop_for_run e n c fuel w :
  let r := readings (tr w) in
  0 <= n <= INT_MAX -> T (r + 1 + Z.to_nat n)%nat < 2 ^ 52 -> 0 <= c -> c + n <= INT_MAX ->
  n <= Z.of_nat fuel ->
  exists k w',
    loop_for stack fuel (of_Z n) e (replicate NUMS c) w =
      (Val (s32 (pass_sum c (Z.of_nat k)), replicate NUMS (c + Z.of_nat k)), w') /\
    readings (tr w') = (r + 2 + k)%nat /\
    (forall j, (j < k)%nat -> fits r n j = true) /\
    (fits r n k = false \/ deq e dzero = false /\ reported (tr w')).
Proof.
  intros r Hn HT Hc Hcn Hf.
  assert (T r < T (r + 1)%nat /\ T (r + 1)%nat < 2 ^ 52) as [Hr0 Hr1].
  { split; [rewrite Nat.add_1_r; apply ticks_advance|]. pose proof (ticks_add (r + 1) (Z.to_nat n)). lia. }
  unfold loop_for.
  match goal with |- context [mbind ?f (cputime stack) w] =>
    destruct (cputime_ticks f w) as (w1 & -> & Hw1); [fold r; lia|] end. fold r in Hw1 |- *.
  assert (readings (tr w1) = (r + 1)%nat) as Hr1' by (rewrite Hw1; cbn [readings]; fold r; lia).
  match goal with |- context [mbind ?f (cputime stack) w1] =>
    destruct (cputime_ticks f w1) as (w2 & -> & Hw2); [rewrite Hr1'; lia|] end. rewrite Hr1' in *.
  assert (readings (tr w2) = (r + 2 + 0)%nat) as Hr2 by (rewrite Hw2; cbn [readings]; lia).
  destruct (spin_ticks e r n c fuel 0 w2) as (k & w' & E & Hread & Hfit & Hend); [done..|lia|lia|].
  rewrite Nat.add_0_r, Z.add_0_r in E. unfold pass_sum in E at 1.
  rewrite !Z.mul_0_r, !Nat.add_0_l in E. exists k, w'. split_and!; [exact E|lia| |done].
  intros j Hj. apply Hfit. lia.
Qed.

(** C23: on a machine whose CPU clock shows whole seconds and advances with every
    reading, [loop_for] with no emergency exit ends (after at most as many
    passes as the budget has seconds), and stops exactly at the first pass
    which, if it took as long as the one before, would exceed the budget; so
    the time spent exceeds the budget by no more than the last pass was longer
    than the pass before.  The array and the returned sum count the passes. *)
Theorem loop_for_spec n c fuel w :
  let r := readings (tr w) in
  0 <= n <= INT_MAX -> T (r + 1 + Z.to_nat n)%nat < 2 ^ 52 -> 0 <= c -> c + n <= INT_MAX ->
  n <= Z.of_nat fuel ->
  exists k w',
    loop_for stack fuel (of_Z n) dzero (replicate NUMS c) w =
      (Val (s32 (pass_sum c (Z.of_nat k)), replicate NUMS (c + Z.of_nat k)), w') /\
    readings (tr w') = (r + 2 + k)%nat /\ Z.of_nat k <= n /\
    (forall j, (j < k)%nat -> T (r + 1 + j)%nat + last_pass r j < T r + n) /\
    T r + n <= T (r + 1 + k)%nat + last_pass r k /\
    ((0 < k)%nat -> T (r + 1 + k)%nat - T r < n + last_pass r k - last_pass r (pred k)).
Proof.
  intros r Hn HT Hc Hcn Hf.
  destruct (loop_for_run dzero n c fuel w) as (k & w' & E & Hread & Hfit & [Hend|[? _]]); [done..| |done].
  fold r in Hread, Hfit, Hend. exists k, w'. split_and!; [done|done|..].
  - destruct k as [|k]; [lia|]. pose proof (fits_bound r n k (Hfit k ltac:(lia))). lia.
  - intros j Hj. apply Hfit in Hj. unfold fits in Hj. by zbool.
  - unfold fits in Hend. by zbool.
  - intros Hk. destruct k as [|k]; [lia|]. cbn [pred]. specialize (Hfit k ltac:(lia)).
    unfold fits in Hfit. zbool. unfold last_pass at 1. lia.
Qed.

(** The sum of the passes of one loop does not fit an int from the 1025th
    pass on. *)
Lemma pass_sum_overflows k : 1025 <= k -> INT_MAX < pass_sum 0 k.
Proof. unfold pass_sum, INT_MAX. nia. Qed.
End ticks.

Section emergency.
Context {K : Kernel} (stack : Z * Z).

(** Whatever the CPU clock shows, once the wall clock is past the emergency
    exit, [loop_for] makes at most one more pass and reports the emergency. *)
Theorem loop_for_emergency exec_time e fuel num w :
  deq e dzero = false -> (0 < fuel)%nat ->
  (forall t, exists s u, kernel t Gettimeofday = Pair s u /\
     dlt e (dadd (of_Z s) (dmul d1em6 (of_Z u))) = true) ->
  exists j num' w', loop_for stack fuel exec_time e num w = (Val (j, num'), w') /\
    (num' = num \/ num' = snd (loop_once num) /\ reported (tr w')).
Proof.
  intros He Hf Hwall. destruct fuel as [|fuel]; [lia|]. clear Hf. unfold loop_for.
  assert (forall w, exists d w', cputime stack w = (Val d, w')) as Hcpu.
  { intros w1. unfold cputime. mrun. destruct (match kernel _ _ with Pair s n => _ | _ => _ end).
    destruct (negb _); unfold when, perror; mrun; by eexists _, _. }
  destruct (Hcpu w) as (start & w1 & E1). rewrite (bind_val _ _ _ _ _ E1).
  destruct (Hcpu w1) as (now & w2 & E2). rewrite (bind_val _ _ _ _ _ E2).
  cbn [spin_loop]. destruct (dlt _ _); [|eexists _, _, _; split; [done|by left]].
  destruct (loop_once num) as [j num'] eqn:El. cbv zeta.
  destruct (Hcpu w2) as (now' & w3 & E3). rewrite (bind_val _ _ _ _ _ E3), He. cbn [negb].
  unfold wctime. mrun. destruct (Hwall (tr w3)) as (s & u & -> & Hd). cbn [after put_errno]. rewrite bind_ret, bind_ret. rewrite Hd. mrun.
  eexists _, _, _. split; [done|]. right. split; [done|]. by eexists _, _.
Qed.
End emergency.

(** ** Jobs *)

(** The requests that synchronise a job: locks taken and released, jobs
    completed; newest first. *)
Definition syncs (t : trace) : list call :=
  omap (fun e => match e with
    | Sys (NR_litmus_lock od) _ => Some (NR_litmus_lock od)
    | Sys (NR_litmus_unlock od) _ => Some (NR_litmus_unlock od)
    | Sys NR_complete_job _ => Some NR_complete_job
    | _ => None end) t.

#[export] Instance syncs_quiet : InitQuiet syncs.
Proof. by repeat split. Qed.

(** What one job does. *)
Definition job_syncs (lock_od : Z) : list call :=
  if 0 <=? lock_od then [NR_complete_job; NR_litmus_unlock lock_od; NR_litmus_lock lock_od]
  else [NR_complete_job].

Section job.
Context {K : Kernel} (stack : Z * Z).

(** [m] ends with a value after exactly the synchronisation [l], or runs out
    of fuel after a beginning of it. *)
Definition syncs_as (l : list call) {A} (m : M A) : Prop :=
  forall w, exists o w', m w = (o, w') /\
    ((exists a, o = Val a) /\ syncs (tr w') = l ++ syncs (tr w) \/
     o = NoFuel /\ exists l', l' `suffix_of` l /\ syncs (tr w') = l' ++ syncs (tr w)).

Abbreviation spins := (syncs_as []).

Lemma syncs_bind l1 l2 {A B} (m : M A) (f : A -> M B) :
  syncs_as l1 m -> (forall a, syncs_as l2 (f a)) -> syncs_as (l2 ++ l1) (m ≫= f).
Proof.
  intros Hm Hf w. destruct (Hm w) as (o & w1 & E & [[[a ->] Hs]|[-> (l & Hl & Hs)]]).
  - rewrite (bind_val _ _ _ _ _ E). destruct (Hf a w1) as (o & w' & E' & Ho). exists o, w'. split; [done|].
    destruct Ho as [[Ho Hs']|[-> (l & Hl & Hs')]].
    + left. split; [done|]. by rewrite Hs', Hs, app_assoc.
    + right. split; [done|]. exists (l ++ l1). split; [by apply suffix_app|]. by rewrite Hs', Hs, app_assoc.
  - exists NoFuel, w1. split; [unfold mbind, M_bind; by rewrite E|]. right. split; [done|]. exists l.
    split; [by apply suffix_app_r|done].
Qed.

Lemma spins_bind l {A B} (m : M A) (f : A -> M B) :
  spins m -> (forall a, syncs_as l (f a)) -> syncs_as l (m ≫= f).
Proof. intros Hm Hf. rewrite <- (app_nil_r l). by apply syncs_bind. Qed.

Lemma syncs_syscall c : (forall r t, syncs (Sys c r :: t) = c :: syncs t) -> syncs_as [c] (syscall_int c).
Proof.
  intros Hc w. unfold syscall_int. rewrite bind_syscall. eexists _, _. split; [done|]. left.
  split; [by eexists|]. rewrite tr_after. apply Hc.
Qed.

Lemma spins_total {A} (m : M A) : total m -> keeps syncs m -> spins m.
Proof.
  intros Ht Hk w. destruct (Ht w) as (a & w' & E). exists (Val a), w'. split; [done|]. left.
  split; [by eexists|]. by apply (keeps_run _ _ _ _ _ Hk E).
Qed.

Lemma cputime_spins : spins (cputime stack).
Proof. apply spins_total; unfold cputime; [total_tac|keeps_tac]. Qed.

Lemma wctime_spins : spins (wctime stack).
Proof. apply spins_total; unfold wctime; [total_tac|keeps_tac]. Qed.

Lemma drand48_spins : spins drand48.
Proof. apply spins_total; unfold drand48; [total_tac|keeps_tac]. Qed.

Lemma no_fuel_spins l {A} : syncs_as l (no_fuel : M A).
Proof. intros w. exists NoFuel, w. split; [done|]. right. split; [done|]. exists []. by split; [apply suffix_nil|]. Qed.

Lemma ret_spins {A} (a : A) : spins (mret a).
Proof. by apply spins_total; [apply total_ret|]. Qed.

Lemma loop_for_spins fuel exec_time e num : spins (loop_for stack fuel exec_time e num).
Proof.
  unfold loop_for. apply spins_bind; [apply cputime_spins|]. intros start.
  apply spins_bind; [apply cputime_spins|]. intros now. generalize dzero at 1. generalize 0.
  revert now num. induction fuel as [|fuel IH]; intros now num tmp last; cbn [spin_loop];
    (destruct (dlt _ _); [|apply ret_spins]); [apply no_fuel_spins|].
  destruct (loop_once num) as [j num']. apply spins_bind; [apply cputime_spins|]. intros now'.
  apply spins_bind.
  - destruct (negb _); [|apply ret_spins]. apply spins_bind; [apply wctime_spins|]. intros ?. apply ret_spins.
  - intros []; [|apply IH]. apply spins_total; [total_tac|keeps_tac].
Qed.

(** The part of a job after the check of the time. *)
Lemma job_body_syncs fuel exec_time program_end lock_od cs_length num :
  syncs_as (job_syncs lock_od)
    (num ← (if 0 <=? lock_od then
             r ← drand48;
             let chunk1 := dmul r (dsub exec_time cs_length) in
             let chunk2 := dsub (dsub exec_time cs_length) chunk1 in
             '(_, num) ← loop_for stack fuel chunk1 (dadd program_end (of_Z 1)) num;
             litmus_lock lock_od;;
             '(_, num) ← loop_for stack fuel cs_length (dadd program_end (of_Z 1)) num;
             litmus_unlock lock_od;;
             '(_, num) ← loop_for stack fuel chunk2 (dadd program_end (of_Z 2)) num;
             mret num
           else
             '(_, num) ← loop_for stack fuel exec_time (dadd program_end (of_Z 1)) num;
             mret num);
     sleep_next_period;;
     mret (1, num)).
Proof.
  assert (forall n : list Z, syncs_as [NR_complete_job] (sleep_next_period;; mret (1, n))) as Hend.
  { intros n. apply (syncs_bind [NR_complete_job] []); [by apply syncs_syscall|]. intros _. apply ret_spins. }
  unfold job_syncs. destruct (0 <=? lock_od).
  - apply (syncs_bind [NR_litmus_unlock lock_od; NR_litmus_lock lock_od] [NR_complete_job]); [|done].
    apply spins_bind; [apply drand48_spins|]. intros r. cbv zeta.
    apply spins_bind; [apply loop_for_spins|]. intros [_ n1].
    apply (syncs_bind [NR_litmus_lock lock_od] [NR_litmus_unlock lock_od]); [by apply syncs_syscall|]. intros _.
    apply spins_bind; [apply loop_for_spins|]. intros [_ n2].
    apply (syncs_bind [NR_litmus_unlock lock_od] []); [by apply syncs_syscall|]. intros _.
    apply spins_bind; [apply loop_for_spins|]. intros [_ n3]. apply ret_spins.
  - apply spins_bind; [|done]. apply spins_bind; [apply loop_for_spins|]. intros [_ n]. apply ret_spins.
Qed.


(** A job without a lock ends on a clock of whole seconds. *)
Lemma job_ends T `{!Ticks K T} n c fuel program_end lock_od cs_length w :
  lock_od < 0 -> 0 <= n <= INT_MAX -> T (readings (tr w) + 1 + Z.to_nat n)%nat < 2 ^ 52 ->
  0 <= c -> c + n <= INT_MAX -> n <= Z.of_nat fuel ->
  exists more num' w',
    job stack fuel (of_Z n) program_end lock_od cs_length (replicate NUMS c) w = (Val (more, num'), w').
Proof.
  intros Hod Hn HT Hc Hcn Hf. unfold job.
  assert (exists wc w1, wctime stack w = (Val wc, w1) /\ readings (tr w1) = readings (tr w))
    as (wc & w1 & E & Hr).
  { unfold wctime. mrun. destruct (match kernel _ _ with Pair s u => _ | _ => _ end).
    eexists _, _. split; [done|]. by rewrite tr_after. }
  rewrite (bind_val _ _ _ _ _ E). destruct (dlt program_end wc); [by eexists _, _, _|].
  rewrite (proj2 (Z.leb_gt _ _)) by lia. rewrite bind_bind.
  destruct (loop_for_run T stack (dadd program_end (of_Z 1)) n c fuel w1) as (k & w2 & E2 & _);
    [done|by rewrite Hr|done..|].
  rewrite (bind_val _ _ _ _ _ E2). mrun. by eexists _, _, _.
Qed.
End job.

(** ** What jobs leave alone *)

(** [F] does not see what jobs do. *)
Class JobQuiet {X} (F : trace -> X) : Prop := {
  job_init :: InitQuiet F;
  quiet_clock c : quiet F (Clock_gettime c);
  quiet_wall : quiet F Gettimeofday;
  quiet_getpid : quiet F Getpid;
  quiet_gettid : quiet F NR_gettid;
  quiet_drand48 : quiet F Drand48;
  quiet_job_no : quiet F NR_query_job_no;
  quiet_lock od : quiet F (NR_litmus_lock od);
  quiet_unlock od : quiet F (NR_litmus_unlock od);
  quiet_complete : quiet F NR_complete_job;
}.

#[export] Instance params_job_quiet : JobQuiet params.
Proof. by repeat split. Qed.
#[export] Instance policies_job_quiet : JobQuiet policies.
Proof. by repeat split. Qed.

Section job_quiet.
Context {K : Kernel} {X : Type} (F : trace -> X) `{!JobQuiet F} (stack : Z * Z).

Ltac quiet_step :=
  repeat keeps_step;
  try (apply keeps_out; apply _);
  try (apply keeps_syscall || apply keeps_sys;
    first [apply quiet_clock|apply quiet_wall|apply quiet_getpid|apply quiet_gettid|apply quiet_drand48
      |apply quiet_job_no|apply quiet_lock|apply quiet_unlock|apply quiet_complete]);
  try (intros w; unfold perror, eprintf, printf, emit, modify; cbn [snd tr push];
    first [apply quiet_out|apply quiet_perror]).

Lemma keeps_cputime : keeps F (cputime stack).
Proof using All. unfold cputime. quiet_step. Qed.

Lemma keeps_wctime : keeps F (wctime stack).
Proof using All. unfold wctime. quiet_step. Qed.

Lemma keeps_loop_for fuel exec_time e num : keeps F (loop_for stack fuel exec_time e num).
Proof using All.
  unfold loop_for. apply keeps_bind; [apply keeps_cputime|]. intros start.
  apply keeps_bind; [apply keeps_cputime|]. intros now. generalize dzero at 1. generalize 0.
  revert now num. induction fuel as [|fuel IH]; intros now num tmp last; cbn [spin_loop];
    (destruct (dlt _ _); [|done]); [done|].
  destruct (loop_once num) as [j num']. apply keeps_bind; [apply keeps_cputime|]. intros now'.
  apply keeps_bind; [|intros []; [quiet_step|apply IH]].
  destruct (negb _); [|done]. apply keeps_bind; [apply keeps_wctime|done].
Qed.

Lemma keeps_job fuel exec_time program_end lock_od cs_length num :
  keeps F (job stack fuel exec_time program_end lock_od cs_length num).
Proof using All.
  unfold job, drand48, litmus_lock, litmus_unlock, sleep_next_period, syscall_int.
  quiet_step; first [apply keeps_wctime|apply keeps_loop_for].
Qed.
End job_quiet.

(** ** Jobs only add to the trace *)

Section job_grows.
Context {K : Kernel} (stack : Z * Z).

Lemma grows_loop_for fuel exec_time e num : grows (loop_for stack fuel exec_time e num).
Proof.
  assert (grows (cputime stack) /\ grows (wctime stack)) as [Hc Hw] by (unfold cputime, wctime; split; grows_tac).
  unfold loop_for. do 2 (apply grows_bind; [done|intros ?]). generalize dzero at 1. generalize 0.
  revert a0 num. induction fuel as [|fuel IH]; intros now num tmp last; cbn [spin_loop]; grows_tac.
Qed.

Lemma grows_job fuel exec_time program_end lock_od cs_length num :
  grows (job stack fuel exec_time program_end lock_od cs_length num).
Proof.
  unfold job, drand48, litmus_lock, litmus_unlock, sleep_next_period, syscall_int, wctime.
  repeat (apply grows_loop_for || grows_step).
Qed.
End job_grows.

(** ** Concrete runs *)

Module SpinWitness.
Import Sim.

(** The CPU clock advances by 2 seconds with every reading; the wall clock
    shows [now]. *)
Definition k_ticks (now : Z) : Kernel := fun t c =>
  match c with
  | Clock_gettime _ => Pair (2 * Z.of_nat (readings t)) 0
  | Gettimeofday => Pair now 0
  | _ => Succ 0
  end.

#[local] Instance k_ticks_ticks now : Ticks (k_ticks now) (fun i => 2 * Z.of_nat i).
Proof. split; [done|lia..]. Qed.

Lemma loop_for_spec_witness :
  exists k w',
    @loop_for (k_ticks 0) (0, 0) 9 (of_Z 9) dzero (replicate NUMS 0) w0 =
      (Val (s32 (pass_sum 0 (Z.of_nat k)), replicate NUMS (0 + Z.of_nat k)), w') /\
    readings (tr w') = (2 + k)%nat /\ Z.of_nat k <= 9.
Proof.
  destruct (@loop_for_spec (k_ticks 0) (fun i => 2 * Z.of_nat i) _ (0, 0) 9 0 9 w0)
    as (k & w' & E & Hr & Hk & _); [unfold INT_MAX; cbn [tr w0 readings]; lia..|].
  exists k, w'. split; [exact E|]. split; [exact Hr|exact Hk].
Defined.

Lemma loop_for_emergency_witness :
  exists j num' w', @loop_for (k_ticks 100) (0, 0) 1 (of_Z 9) (of_Z 50) [7; 8] w0 = (Val (j, num'), w') /\
    (num' = [7; 8] \/ num' = snd (loop_once [7; 8]) /\ reported (tr w')).
Proof.
  apply (@loop_for_emergency (k_ticks 100) (0, 0) (of_Z 9) (of_Z 50) 1 [7; 8] w0); [done|lia|].
  intros t. exists 100, 0. by vm_compute.
Defined.

(** A job in time, and one whose time is over. *)
Definition job_run (program_end : Z) := @job (k_ticks 100) (0, 0) 20 (of_Z 9) (of_Z program_end) 3 (of_Z 1) [7] w0.

End SpinWitness.
