(* ===== verification/Rtspin.v ===== *)
(** * bin/rtspin.c: a task that spins

    The options, the set-up shared with rt_launch, real-time mode with an
    optional lock and synchronous release, and the loops over the jobs. *)
From S2P Require Import Prelude Machine CString Double Laws Iface Syscalls Migration Litmus.
From S2P Require Import Setup Clocks Getopt ExecTimes Spin.

Definition usage_text : string := "Usage:\n	rt_spin [COMMON-OPTS] WCET PERIOD DURATION\n	rt_spin [COMMON-OPTS] -f FILE [-o COLUMN] WCET PERIOD\n	rt_spin -l\n\nCOMMON-OPTS = [-w] [-s SCALE]\n              [-p PARTITION/CLUSTER [-z CLUSTER SIZE]] [-c CLASS]\n              [-X LOCKING-PROTOCOL] [-L CRITICAL SECTION LENGTH] [-Q RESOURCE-ID]\nWCET and PERIOD are milliseconds, DURATION is seconds.\nCRITICAL SECTION LENGTH is in milliseconds.\n".

Definition usage {A} (error : string) : M A :=
  eprintf "Error: %s\n" [AStr error];;
  eprintf usage_text [];;
  exit_ EXIT_FAILURE.

(** ** The tool *)

Definition OPTSTR : string := "p:c:wlveo:f:s:q:r:X:L:Q:v".
Definition lock_namespace : string := "./rtspin-locks".

(** The variables the options set. *)
Record vars := mk_vars {
  prio : Z; migrate : Z; cluster : Z; reservation : Z; wait : Z; test_loop : Z; column : Z;
  file_name : option string; want_enforcement : Z; scale : double; class : Z; verbose : Z;
  resource_id : Z; protocol_id : Z; cs_len : double;
}.

(** 0.001 *)
Definition milli : double := dconst 1 (-3).

Section tool.
Context {K : Kernel} {H : KernelHeader} {UB : CastOverflow}.
Context (stack : Z * Z).

Definition init_vars : vars :=
  mk_vars LITMUS_LOWEST_PRIORITY 0 0 (-1) 0 0 1 None 0 (of_Z 1) RT_CLASS_HARD 0 0 (-1) (of_Z 1).

Definition option_switch (opt : ascii) (optarg : string) (v : vars) : M vars :=
  let '(mk_vars pr mig clu res wt tl col fl enf sc cl vb rid prot cs) := v in
  let a := bytes_of optarg in
  if Ascii.eqb opt "w" then mret (mk_vars pr mig clu res 1 tl col fl enf sc cl vb rid prot cs)
  else if Ascii.eqb opt "p" then mret (mk_vars pr 1 (atoi a) res wt tl col fl enf sc cl vb rid prot cs)
  else if Ascii.eqb opt "r" then mret (mk_vars pr mig clu (atoi a) wt tl col fl enf sc cl vb rid prot cs)
  else if Ascii.eqb opt "q" then
    let pr := u32 (atoi a) in
    when (negb (litmus_is_valid_fixed_prio pr)) (usage "Invalid priority.");;
    mret (mk_vars pr mig clu res wt tl col fl enf sc cl vb rid prot cs)
  else if Ascii.eqb opt "c" then
    let cl := str2class optarg in
    when (cl =? -1) (usage "Unknown task class.");;
    mret (mk_vars pr mig clu res wt tl col fl enf sc cl vb rid prot cs)
  else if Ascii.eqb opt "e" then mret (mk_vars pr mig clu res wt tl col fl 1 sc cl vb rid prot cs)
  else if Ascii.eqb opt "l" then mret (mk_vars pr mig clu res wt 1 col fl enf sc cl vb rid prot cs)
  else if Ascii.eqb opt "o" then mret (mk_vars pr mig clu res wt tl (atoi a) fl enf sc cl vb rid prot cs)
  else if Ascii.eqb opt "f" then mret (mk_vars pr mig clu res wt tl col (Some optarg) enf sc cl vb rid prot cs)
  else if Ascii.eqb opt "s" then mret (mk_vars pr mig clu res wt tl col fl enf (atof a) cl vb rid prot cs)
  else if Ascii.eqb opt "X" then
    let prot := lock_protocol_for_name optarg in
    when (prot <? 0) (usage "Unknown locking protocol specified.");;
    mret (mk_vars pr mig clu res wt tl col fl enf sc cl vb rid prot cs)
  else if Ascii.eqb opt "L" then
    let cs := atof a in
    when (dle cs dzero) (usage "Invalid critical section length.");;
    mret (mk_vars pr mig clu res wt tl col fl enf sc cl vb rid prot cs)
  else if Ascii.eqb opt "Q" then
    let rid := atoi a in
    when ((rid <=? 0) && negb (strcmp_eq optarg "0")) (usage "Invalid resource ID.");;
    mret (mk_vars pr mig clu res wt tl col fl enf sc cl vb rid prot cs)
  else if Ascii.eqb opt "v" then mret (mk_vars pr mig clu res wt tl col fl enf sc cl 1 rid prot cs)
  else if Ascii.eqb opt ":" then usage "Argument missing."
  else usage "Bad argument.".

(** The checks of the times. *)
Definition check_times (has_file : bool) (wcet period : Z) : M unit :=
  when (wcet <=? 0) (usage "The worst-case execution time must be a positive number.");;
  when (period <=? 0) (usage "The period must be a positive number.");;
  when (negb has_file && (period <? wcet))
    (usage "The worst-case execution time must not exceed the period.").

(** The parameters before [cpu] is set. *)
Definition spin_param (v : vars) (wcet period : Z) : rt_task :=
  let p := init_rt_task_param in
  mk_rt_task wcet period (relative_deadline p) (phase p) (cpu p) (prio v) (class v)
    (if negb (want_enforcement v =? 0) then PRECISE_ENFORCEMENT else NO_ENFORCEMENT)
    (release_policy p).

(** Migration and the parameters of the calling thread. *)
Definition setup (v : vars) (wcet period : Z) : M unit :=
  setup_task (migrate v) (cluster v) (reservation v) (spin_param v wcet period).

(** Real-time mode, the lock and the synchronous release: the descriptor of
    the lock and the start of the run. *)
Definition begin_rt (v : vars) : M (Z * double) :=
  init_litmus;;
  start ← wctime stack;
  ret ← task_mode LITMUS_RT_TASK;
  when (negb (ret =? 0)) (bail_out "could not become RT task");;
  lock_od ← (if 0 <=? protocol_id v then
               lock_od ← litmus_open_lock (protocol_id v) (resource_id v) lock_namespace (Some (cluster v));
               when (lock_od <? 0) (perror "litmus_open_lock";; usage "Could not open lock.");;
               mret lock_od
             else mret (-1));
  start ← (if negb (wait v =? 0) then
             ret ← wait_for_ts_release;
             when (negb (ret =? 0)) (bail_out "wait_for_ts_release()");;
             wctime stack
           else mret start);
  mret (lock_od, start).

(** The jobs of the file; their results are not looked at. *)
Fixpoint file_jobs (inner : nat) (v : vars) (times : list double) (program_end : double) (lock_od : Z)
    (num : list Z) : M unit :=
  match times with
  | [] => mret tt
  | t :: times =>
      '(_, num) ← job stack inner (dmul (dmul t milli) (scale v)) program_end lock_od
                    (dmul (cs_len v) milli) num;
      file_jobs inner v times program_end lock_od num
  end.

(** [do { ... } while (job(...))]; [job_no] is what the variable holds. *)
Fixpoint job_loop (fuel inner : nat) (v : vars) (wcet_ms start program_end : double) (lock_od job_no : Z)
    (num : list Z) : M unit :=
  match fuel with
  | O => no_fuel
  | S fuel =>
      job_no ← (if negb (verbose v =? 0) then
                  '(_, n) ← get_job_no;
                  let job_no := default job_no n in
                  tid ← gettid;
                  wc ← wctime stack;
                  printf "rtspin/%d:%u @ %.4fms\n"
                    [AInt tid; AInt job_no; ADbl (dmul (dsub wc start) (of_Z 1000))];;
                  mret job_no
                else mret job_no);
      '(more, num) ← job stack inner (dmul (dmul wcet_ms milli) (scale v)) program_end lock_od
                       (dmul (cs_len v) milli) num;
      if negb (more =? 0) then job_loop fuel inner v wcet_ms start program_end lock_od job_no num
      else mret tt
  end.

(** The run proper: the parameters are set, the jobs executed, and the thread
    becomes a background task again. *)
Definition run (fuel inner : nat) (v : vars) (wcet period : Z) (wcet_ms duration : double)
    (times : option (list double * Z)) (job_no : Z) : M Z :=
  setup v wcet period;;
  '(lock_od, start) ← begin_rt v;
  let program_end := dadd start duration in
  let num := replicate NUMS 0 in
  match times with
  | Some (times, _) => file_jobs inner v times program_end lock_od num
  | None => job_loop fuel inner v wcet_ms start program_end lock_od job_no num
  end;;
  ret ← task_mode BACKGROUND_TASK;
  when (negb (ret =? 0)) (bail_out "could not become regular task (huh?)");;
  match times with Some (_, addr) => syscall (Free addr);; mret tt | None => mret tt end;;
  mret 0.

(** [duration] of a run from a file. *)
Definition file_duration (times : list double) (period_ms : double) : double :=
  let duration := foldl (fun d t => dadd d (dmul t milli)) dzero times in
  let num_jobs := Z.of_nat (length times) in
  if 1 <? num_jobs then dadd duration (dmul (dmul period_ms milli) (of_Z (num_jobs - 1))) else duration.

(** [main] once the file was read: the operands, their checks and the run. *)
Definition with_times (fuel inner : nat) (v : vars) (argv : list string)
    (times : option (list double * Z)) (job_no : Z) : M Z :=
  let wcet_ms := atof (bytes_of (default ""%string (argv !! 0%nat))) in
  let period_ms := atof (bytes_of (default ""%string (argv !! 1%nat))) in
  let wcet := to_u64 (ms2ns_d wcet_ms) in
  let period := to_u64 (ms2ns_d period_ms) in
  check_times (bool_decide (is_Some (file_name v))) wcet period;;
  let duration := match times with
    | None => atof (bytes_of (default ""%string (argv !! 2%nat)))
    | Some (times, _) => file_duration times period_ms
    end in
  run fuel inner v wcet period wcet_ms duration times job_no.

Definition main (fuel inner : nat) (job_no : Z) (prog : string) (args : list string) : M Z :=
  let '(items, argv) := getopt_all (bytes_of OPTSTR) args in
  v ← getopt_loop prog option_switch items init_vars;
  if negb (test_loop v =? 0) then
    debug_delay_loop stack fuel inner (replicate NUMS 0);; mret 0
  else
    pid ← syscall Getpid;
    syscall (Srand pid);;
    times ← match file_name v with
            | Some name =>
                '(num_jobs, times, addr) ← get_exec_times name (column v);
                when (length argv <? 2)%nat (usage "Arguments missing.");;
                mret (Some (times, addr))
            | None => when (length argv <? 3)%nat (usage "Arguments missing.");; mret None
            end;
    with_times fuel inner v argv times job_no.
End tool.

(** ** Safety of a run *)

Section safety.
Context {K : Kernel} {H : KernelHeader} {UB : CastOverflow} (stack : Z * Z).

Lemma keeps_begin_rt v : keeps syncs (begin_rt stack v).
Proof.
  unfold begin_rt, litmus_open_lock, od_openx, wait_for_ts_release, syscall_int, bail_out, usage.
  repeat keeps_step; first [apply (keeps_init_litmus syncs)|by apply (keeps_task_mode syncs)
    |unfold wctime; keeps_tac].
Qed.

(** A start that returned has switched to SCHED_LITMUS, once. *)
Lemma begin_rt_val v x w w' :
  begin_rt stack v w = (Val x, w') ->
  params (tr w') = params (tr w) /\
  exists pid r, s32 (ret_of r) = 0 /\ policies (tr w') = (pid, SCHED_LITMUS, r) :: policies (tr w).
Proof.
  unfold begin_rt. intros Hrun.
  apply bind_val_inv in Hrun as (z & w1 & H1 & Hrun).
  pose proof (keeps_run _ _ _ _ _ (keeps_init_litmus params) H1) as Hq1.
  pose proof (keeps_run _ _ _ _ _ (keeps_init_litmus policies) H1) as Hp1.
  apply bind_val_inv in Hrun as (start & w2 & H2 & Hrun).
  pose proof (keeps_run _ _ _ _ _ (keeps_wctime params stack) H2) as Hq2.
  pose proof (keeps_run _ _ _ _ _ (keeps_wctime policies stack) H2) as Hp2.
  apply bind_val_inv in Hrun as (ret & w3 & H3 & Hrun).
  pose proof (keeps_run _ _ _ _ _ (keeps_task_mode params _ ltac:(done) ltac:(done) ltac:(done)) H3) as Hq3.
  apply bind_val_inv in Hrun as ([] & w4 & H4 & Hrun).
  apply when_inv in H4 as [[_ H4]|[Hret ->]]; [done|]. apply negb_false_iff, Z.eqb_eq in Hret as ->.
  apply task_mode_litmus_val in H3 as (pid & r & Hp3 & Hr).
  match type of Hrun with ?m w3 = _ => assert (keeps params m /\ keeps policies m) as [Kq Kp] end.
  { unfold litmus_open_lock, od_openx, wait_for_ts_release, syscall_int, bail_out, usage.
    split; repeat keeps_step; apply keeps_wctime, _. }
  apply (keeps_run _ _ _ _ _ Kq) in Hrun as Hq4. apply (keeps_run _ _ _ _ _ Kp) in Hrun as Hp4.
  split; [congruence|]. exists pid, r. split; [done|congruence].
Qed.

(** The jobs of a run, from its file or until its time is over. *)
Definition jobs_of (fuel inner : nat) (v : vars) (wcet_ms start program_end : double)
    (times : option (list double * Z)) (lock_od job_no : Z) : M unit :=
  match times with
  | Some (times, _) => file_jobs stack inner v times program_end lock_od (replicate NUMS 0)
  | None => job_loop stack fuel inner v wcet_ms start program_end lock_od job_no (replicate NUMS 0)
  end.

Section kept.
Context {X : Type} (F : trace -> X) {HF : JobQuiet F}.

Lemma keeps_file_jobs inner v times program_end lock_od num :
  keeps F (file_jobs stack inner v times program_end lock_od num).
Proof using HF.
  revert num. induction times as [|t times IH]; intros num; cbn [file_jobs]; [done|].
  apply keeps_bind; [apply keeps_job, _|]. intros [? num']. apply IH.
Qed.

Lemma keeps_job_loop fuel inner v wcet_ms start program_end lock_od job_no num :
  keeps F (job_loop stack fuel inner v wcet_ms start program_end lock_od job_no num).
Proof using HF.
  revert job_no num. induction fuel as [|fuel IH]; intros job_no num; cbn [job_loop]; [done|].
  apply keeps_bind.
  - destruct (negb _); [|done]. unfold get_job_no, gettid, syscall_int, printf. repeat keeps_step.
    all: first [apply keeps_wctime, _|apply keeps_sys, quiet_job_no|apply keeps_syscall, quiet_gettid|apply keeps_out, _].
  - intros n. apply keeps_bind; [apply keeps_job, _|]. intros [more num']. destruct (negb _); [apply IH|done].
Qed.

Lemma keeps_jobs_of fuel inner v wcet_ms start program_end times lock_od job_no :
  keeps F (jobs_of fuel inner v wcet_ms start program_end times lock_od job_no).
Proof using HF. destruct times as [[]|]; [apply keeps_file_jobs|apply keeps_job_loop]. Qed.
End kept.

Lemma grows_jobs_of fuel inner v wcet_ms start program_end times lock_od job_no :
  grows (jobs_of fuel inner v wcet_ms start program_end times lock_od job_no).
Proof.
  unfold jobs_of. destruct times as [[times addr]|]; generalize (replicate NUMS 0).
  - induction times as [|t times IH]; intros num; cbn [file_jobs]; [grows_tac|].
    apply grows_bind; [apply grows_job|]. intros [? num']. apply IH.
  - revert job_no. induction fuel as [|fuel IH]; intros job_no num; cbn [job_loop]; [grows_tac|].
    unfold get_job_no, gettid, syscall_int, wctime. repeat (apply grows_job || grows_step).
Qed.

(** The set-up and the start, each once and in this order. *)
Definition started (v : vars) (wcet period : Z) (t t' : trace) : Prop :=
  (exists tid c r, 0 <= s32 (ret_of r) /\
     params t' = (tid, Some (set_cpu (spin_param v wcet period) c), r) :: params t) /\
  exists pid r, s32 (ret_of r) = 0 /\ policies t' = (pid, SCHED_LITMUS, r) :: policies t.

Lemma grows_task_mode m : grows (task_mode m).
Proof. unfold task_mode, gettid, sched_getscheduler, sched_setscheduler, syscall_int. grows_tac. Qed.

Lemma task_mode_grows m w o w' :
  task_mode m w = (o, w') ->
  params (tr w') = params (tr w) /\ tr w `suffix_of` tr w'.
Proof.
  intros Hrun. split; [|by apply (grows_run _ _ _ _ (grows_task_mode m) Hrun)].
  by apply (keeps_run _ _ _ _ _ (keeps_task_mode params m ltac:(done) ltac:(done) ltac:(done)) Hrun).
Qed.

(** A run, split where the jobs begin. *)
Lemma run_split fuel inner v wcet period wcet_ms duration times job_no w :
  run stack fuel inner v wcet period wcet_ms duration times job_no w =
    (setup v wcet period;;
     '(lock_od, start) ← begin_rt stack v;
     jobs_of fuel inner v wcet_ms start (dadd start duration) times lock_od job_no;;
     ret ← task_mode BACKGROUND_TASK;
     when (negb (ret =? 0)) (bail_out "could not become regular task (huh?)");;
     match times with Some (_, addr) => syscall (Free addr);; mret tt | None => mret tt end;;
     mret 0) w.
Proof. done. Qed.

Lemma setup_inv v wcet period w w' :
  setup v wcet period w = (Val tt, w') ->
  policies (tr w') = policies (tr w) /\
  exists tid c r, 0 <= s32 (ret_of r) /\
    params (tr w') = (tid, Some (set_cpu (spin_param v wcet period) c), r) :: params (tr w).
Proof. apply setup_task_val. Qed.

(** The two steps before the jobs. *)
Lemma started_val v wcet period x w w1 w2 :
  setup v wcet period w = (Val tt, w1) -> begin_rt stack v w1 = (Val x, w2) ->
  started v wcet period (tr w) (tr w2).
Proof.
  intros (Hp1 & tid & c & r & Hr & Hq1)%setup_inv (Hq2 & pid & r2 & Hr2 & Hp2)%begin_rt_val.
  split; [exists tid, c, r; split; [done|congruence]|exists pid, r2; split; [done|congruence]].
Qed.

(** C17: whatever the kernel answers, jobs are executed and locks taken only in
    a state that was reached after one call set the parameters of the run and
    one switched the policy to SCHED_LITMUS, both with success, and before any
    of them; and a run that ends with status 0 has switched the thread back to
    SCHED_NORMAL, with success and after that. *)
Theorem run_safe fuel inner v wcet period wcet_ms duration times job_no w o w' :
  run stack fuel inner v wcet period wcet_ms duration times job_no w = (o, w') ->
  (syncs (tr w') <> syncs (tr w) ->
     exists t, t `suffix_of` tr w' /\ started v wcet period (tr w) t /\ syncs t = syncs (tr w) /\
       params (tr w') = params t) /\
  (forall z, o = Val z ->
     z = 0 /\ exists t pid r, t `suffix_of` tr w' /\ started v wcet period (tr w) t /\
       params (tr w') = params t /\
       s32 (ret_of r) = 0 /\ policies (tr w') = (pid, SCHED_NORMAL, r) :: policies t).
Proof.
  rewrite run_split. intros Hrun. split.
  - intros Hs.
    apply (step_changed syncs) in Hrun as ([] & w1 & H1 & Hrun & Hs1); [|by apply (keeps_setup_task syncs)|done].
    rewrite <- Hs1 in Hs.
    apply (step_changed syncs) in Hrun as ([lock_od start] & w2 & H2 & Hrun & Hs2);
      [|apply keeps_begin_rt|done].
    exists (tr w2). split; [|split_and!; [by eapply started_val|congruence|]].
    + revert Hrun. apply grows_run. unfold bail_out.
      repeat (apply grows_jobs_of || apply grows_task_mode || grows_step).
    + revert Hrun. apply keeps_run. apply keeps_bind; [apply keeps_jobs_of, _|]. intros [].
      unfold bail_out. repeat ((by apply (keeps_task_mode params)) || keeps_step).
  - intros z ->. apply bind_val_inv in Hrun as ([] & w1 & H1 & Hrun).
    apply bind_val_inv in Hrun as ([lock_od start] & w2 & H2 & Hrun).
    apply bind_val_inv in Hrun as ([] & w3 & H3 & Hrun).
    pose proof (grows_run _ _ _ _ (grows_jobs_of _ _ _ _ _ _ _ _ _) H3) as Hg3.
    pose proof (keeps_run _ _ _ _ _ (keeps_jobs_of params _ _ _ _ _ _ _ _ _) H3) as Hq3.
    pose proof (keeps_run _ _ _ _ _ (keeps_jobs_of policies _ _ _ _ _ _ _ _ _) H3) as Hp3.
    apply bind_val_inv in Hrun as (ret & w4 & H4 & Hrun).
    apply bind_val_inv in Hrun as ([] & w5 & H5 & Hrun).
    apply when_inv in H5 as [[_ H5]|[Hret ->]]; [done|]. apply negb_false_iff, Z.eqb_eq in Hret as ->.
    destruct (task_mode_grows _ _ _ _ H4) as [Hq4 Hg4]. apply task_mode_background_val in H4 as (pid' & r4 & Hp4 & Hr4).
    assert (z = 0 /\ tr w4 `suffix_of` tr w' /\ params (tr w') = params (tr w4) /\
      policies (tr w') = policies (tr w4)) as (-> & Hg & Hq & Hp)
      by (destruct times as [[]|]; revert Hrun; mrun; intros [= <- <-]; rewrite ?tr_after;
          split_and!; first [done|by eexists [_]|by exists []]).
    split; [done|]. exists (tr w2), pid', r4. split_and!; [|by eapply started_val|congruence|done|congruence].
    by rewrite Hg3, Hg4.
Qed.
End safety.

(** ** The command line *)

Section cmdline.
Context {K : Kernel} {H : KernelHeader} {UB : CastOverflow} (stack : Z * Z).

(** The options the tool accepts for a run. *)
Definition accepted (o : ascii * option string) : Prop :=
  match o with
  | ("q"%char, Some a) => litmus_is_valid_fixed_prio (u32 (atoi (bytes_of a))) = true
  | ("c"%char, Some a) => str2class a <> -1
  | ("X"%char, Some a) => 0 <= lock_protocol_for_name a
  | ("L"%char, Some a) => dle (atof (bytes_of a)) dzero = false
  | ("Q"%char, Some a) => (atoi (bytes_of a) <=? 0) && negb (strcmp_eq a "0") = false
  | ("l"%char, _) => False
  | _ => True
  end.

(** What an option sets. *)
Definition option_effect (v : vars) (o : ascii * option string) : vars :=
  let '(mk_vars pr mig clu res wt tl col fl enf sc cl vb rid prot cs) := v in
  match o with
  | ("w"%char, _) => mk_vars pr mig clu res 1 tl col fl enf sc cl vb rid prot cs
  | ("p"%char, Some a) => mk_vars pr 1 (atoi (bytes_of a)) res wt tl col fl enf sc cl vb rid prot cs
  | ("r"%char, Some a) => mk_vars pr mig clu (atoi (bytes_of a)) wt tl col fl enf sc cl vb rid prot cs
  | ("q"%char, Some a) => mk_vars (u32 (atoi (bytes_of a))) mig clu res wt tl col fl enf sc cl vb rid prot cs
  | ("c"%char, Some a) => mk_vars pr mig clu res wt tl col fl enf sc (str2class a) vb rid prot cs
  | ("e"%char, _) => mk_vars pr mig clu res wt tl col fl 1 sc cl vb rid prot cs
  | ("o"%char, Some a) => mk_vars pr mig clu res wt tl (atoi (bytes_of a)) fl enf sc cl vb rid prot cs
  | ("f"%char, Some a) => mk_vars pr mig clu res wt tl col (Some a) enf sc cl vb rid prot cs
  | ("s"%char, Some a) => mk_vars pr mig clu res wt tl col fl enf (atof (bytes_of a)) cl vb rid prot cs
  | ("X"%char, Some a) => mk_vars pr mig clu res wt tl col fl enf sc cl vb rid (lock_protocol_for_name a) cs
  | ("L"%char, Some a) => mk_vars pr mig clu res wt tl col fl enf sc cl vb rid prot (atof (bytes_of a))
  | ("Q"%char, Some a) => mk_vars pr mig clu res wt tl col fl enf sc cl vb (atoi (bytes_of a)) prot cs
  | ("v"%char, _) => mk_vars pr mig clu res wt tl col fl enf sc cl 1 rid prot cs
  | _ => v
  end.

Lemma spin_options_run prog opts v w :
  Forall (fun o => wf_opt (bytes_of OPTSTR) o /\ accepted o) opts ->
  getopt_loop prog option_switch (map item opts) v w = (Val (foldl option_effect v opts), w).
Proof.
  intros Ho. revert v. induction Ho as [|[c a] opts [Hwf Hacc] _ IH]; intros v; [done|].
  cbn [map foldl]. rewrite <- IH. clear IH. destruct v. opt_cases Hwf; cbn [accepted] in Hacc; try done.
  all: unfold item; cbn [getopt_loop fst snd from_option getopt_message]; unfold id; mrun;
    unfold option_switch; cbn [Ascii.eqb Bool.eqb]; cbv zeta.
  all: first [by rewrite Hacc|by rewrite (proj2 (Z.eqb_neq _ _) Hacc)|by rewrite (proj2 (Z.ltb_ge _ _) Hacc)].
Qed.

(** Only -l asks for the test loop. *)
Lemma options_no_loop opts v : test_loop (foldl option_effect v opts) = test_loop v.
Proof.
  revert v. induction opts as [|[c a] opts IH]; intros v; [done|]. cbn [foldl]. rewrite IH.
  clear IH. destruct v, c as [[] [] [] [] [] [] [] []], a; reflexivity.
Qed.

(** The state in which the operands are looked at; [srand] does not seed the
    numbers [drand48] returns. *)
Definition seeded (w : world) : world :=
  let w1 := after Getpid (kernel (tr w) Getpid) w in
  let c := Srand (ret_of (kernel (tr w) Getpid)) in
  after c (kernel (tr w1) c) w1.

Lemma calls_seeded w :
  calls (tr (seeded w)) = Srand (ret_of (kernel (tr w) Getpid)) :: Getpid :: calls (tr w).
Proof. unfold seeded. by rewrite !tr_after. Qed.

(** The options read and [srand] called. *)
Lemma main_seeded fuel inner job_no prog opts operands w :
  Forall (fun o => wf_opt (bytes_of OPTSTR) o /\ accepted o) opts -> Forall operand operands ->
  let v := foldl option_effect init_vars opts in
  main stack fuel inner job_no prog (flat_map render opts ++ operands) w =
    (times ← match file_name v with
             | Some name =>
                 '(num_jobs, times, addr) ← get_exec_times name (column v);
                 when (length operands <? 2)%nat (usage "Arguments missing.");;
                 mret (Some (times, addr))
             | None => when (length operands <? 3)%nat (usage "Arguments missing.");; mret None
             end;
     with_times stack fuel inner v operands times job_no) (seeded w).
Proof.
  intros Ho Hops v. unfold main.
  pose proof (getopt_render (bytes_of OPTSTR) [] opts operands) as G. cbn [app] in G. rewrite G; [|..|done].
  - rewrite (bind_val _ _ _ _ _ (spin_options_run prog opts init_vars w Ho)). fold v.
    unfold v at 1. rewrite options_no_loop. cbn [test_loop init_vars Z.eqb negb].
    rewrite !bind_syscall. done.
  - eapply Forall_impl; [|exact Ho]. by intros o [? _].
  - done.
Qed.

Lemma check_times_ok has_file n m w :
  0 < n -> 0 < m -> (has_file = false -> n <= m) -> check_times has_file n m w = (Val tt, w).
Proof.
  intros Hn Hm Hnm. unfold check_times. rewrite !(proj2 (Z.leb_gt _ _)) by lia.
  destruct has_file; [done|]. cbn [negb andb]. by rewrite (proj2 (Z.ltb_ge _ _)) by auto.
Qed.

Lemma check_times_fail n m w :
  ~ 0 < n <= m -> exists w', check_times false n m w = (Exit 1, w') /\ calls (tr w') = calls (tr w).
Proof.
  intros Hbad. unfold check_times, usage, eprintf, when.
  destruct (Z.leb_spec n 0); [mrun; by eexists|]. mrun.
  destruct (Z.leb_spec m 0); [mrun; by eexists|]. mrun. cbn [negb andb].
  rewrite (proj2 (Z.ltb_lt _ _)) by lia. mrun. by eexists.
Qed.

(** C28: with accepted options and no file before a budget of [n] and a period of
    [m] milliseconds and a duration, [rtspin] runs with the options' parameters,
    exactly these times in nanoseconds and the duration, after it called
    [srand] with its process number; a budget or period of 0, or a budget above the period, ends
    it with status 1 and no further request. *)
Theorem spin_main_times fuel inner job_no prog opts n m duration extra w :
  Forall (fun o => wf_opt (bytes_of OPTSTR) o /\ accepted o) opts ->
  0 <= n <= INT_MAX -> 0 <= m <= INT_MAX -> Forall operand (duration :: extra) ->
  let v := foldl option_effect init_vars opts in
  let args := flat_map render opts ++ int_text n :: int_text m :: duration :: extra in
  file_name v = None ->
  (0 < n <= m ->
     main stack fuel inner job_no prog args w =
       run stack fuel inner v (n * 1000000) (m * 1000000) (of_Z n) (atof (bytes_of duration)) None job_no
         (seeded w)) /\
  (~ 0 < n <= m -> exists w', main stack fuel inner job_no prog args w = (Exit 1, w') /\
     calls (tr w') = calls (tr (seeded w))).
Proof.
  intros Ho Hn Hm Hops v args Hfile. unfold args.
  rewrite main_seeded;
    [|done|constructor; [apply int_text_operand; lia|constructor; [apply int_text_operand; lia|done]]].
  fold v. rewrite Hfile. cbn [length Nat.ltb Nat.leb when]. rewrite bind_bind, !bind_ret. unfold with_times.
  cbn [default from_option lookup list_lookup]. unfold id. rewrite Hfile, !atof_int_text, !ms2ns_d_int by done.
  change (bool_decide (is_Some (@None string))) with false. split.
  - intros Hnm. rewrite (bind_val _ _ _ _ _ (check_times_ok false (n * 1000000) (m * 1000000) _
      ltac:(lia) ltac:(lia) ltac:(lia))). done.
  - intros Hnm.
    destruct (check_times_fail (n * 1000000) (m * 1000000) (seeded w)) as (w' & E & Hc); [lia|].
    exists w'. by rewrite (bind_exit _ _ _ _ _ E).
Qed.

(** The jobs of a file and their duration, in terms of its rows. *)
Lemma file_duration_rows rows p : file_duration (map (fun r => of_Z (time r)) rows) p =
  let all_rows := foldl (fun d r => dadd d (dmul (of_Z (time r)) milli)) dzero rows in
  let jobs := Z.of_nat (length rows) in
  if 1 <? jobs then dadd all_rows (dmul (dmul p milli) (of_Z (jobs - 1))) else all_rows.
Proof.
  unfold file_duration. rewrite length_map. cbv zeta. generalize dzero.
  assert (forall d, foldl (fun d t => dadd d (dmul t milli)) d (map (fun r => of_Z (time r)) rows) =
    foldl (fun d r => dadd d (dmul (of_Z (time r)) milli)) d rows) as E.
  { induction rows as [|r rows IH]; intros d; [done|]. cbn [map foldl]. apply IH. }
  intros d. by rewrite E.
Qed.

Lemma file_jobs_rows inner v rows program_end lock_od num w :
  file_jobs stack inner v (map (fun r => of_Z (time r)) rows) program_end lock_od num w =
  foldr (fun r rest num =>
      '(_, num) ← job stack inner (dmul (dmul (of_Z (time r)) milli) (scale v)) program_end lock_od
                    (dmul (cs_len v) milli) num;
      rest num)
    (fun _ => mret tt) rows num w.
Proof.
  revert num w. induction rows as [|r rows IH]; intros num w; [done|]. cbn [map file_jobs foldr].
  apply bind_ext; [done|]. intros [_ num'] w'. apply IH.
Qed.

(** C29: with -f, [rtspin] ignores the budget but for its check, and executes
    one job for each row of the file, in order: of its time in seconds, scaled.
    The jobs may start until [duration] seconds after the start, which are the
    times of all rows and a period for every row but the first.  Then the thread
    becomes a background task, and the times are freed. *)
Theorem spin_main_file `{!Stdio} fuel inner job_no prog opts n m extra name cols rows cs tail w :
  Forall (fun o => wf_opt (bytes_of OPTSTR) o /\ accepted o) opts ->
  0 < n <= INT_MAX -> 0 < m <= INT_MAX -> Forall operand extra ->
  let v := foldl option_effect init_vars opts in
  let args := flat_map render opts ++ int_text n :: int_text m :: extra in
  file_name v = Some name -> column v = 1 + Z.of_nat cols ->
  wf_file cols rows cs tail ->
  (forall t, kernel t (Fopen name "r") = Data (render_file rows cs tail)) ->
  let seconds ms := dmul (of_Z ms) milli in
  let all_rows := foldl (fun d r => dadd d (seconds (time r))) dzero rows in
  let jobs := Z.of_nat (length rows) in
  let duration := if 1 <? jobs then dadd all_rows (dmul (seconds m) (of_Z (jobs - 1))) else all_rows in
  exists addr w',
    main stack fuel inner job_no prog args w =
      (setup v (n * 1000000) (m * 1000000);;
       '(lock_od, start) ← begin_rt stack v;
       foldr (fun r rest num =>
           '(_, num) ← job stack inner (dmul (seconds (time r)) (scale v)) (dadd start duration) lock_od
                         (dmul (cs_len v) milli) num;
           rest num)
         (fun _ => mret tt) rows (replicate NUMS 0);;
       ret ← task_mode BACKGROUND_TASK;
       when (negb (ret =? 0)) (bail_out "could not become regular task (huh?)");;
       (syscall (Free addr);; mret tt);;
       mret 0) w' /\
    calls (tr w') = Fclose :: Calloc (Z.of_nat (length rows)) 8 :: Fseek 0 SEEK_SET ::
      Fopen name "r" :: calls (tr (seeded w)).
Proof.
  intros Ho Hn Hm Hops v args Hfile Hcol Hwf Hopen seconds all_rows jobs duration. unfold args.
  rewrite main_seeded;
    [|done|constructor; [apply int_text_operand; lia|constructor; [apply int_text_operand; lia|done]]].
  fold v. rewrite Hfile, Hcol.
  destruct (get_exec_times_run name cols rows cs tail (seeded w) Hwf (Hopen _)) as (addr & w' & E & Hc).
  exists addr, w'. split; [|done]. rewrite bind_bind, (bind_val _ _ _ _ _ E).
  cbn [length Nat.ltb Nat.leb when]. rewrite bind_bind, !bind_ret. unfold with_times.
  cbn [default from_option lookup list_lookup]. unfold id. rewrite Hfile, !atof_int_text, !ms2ns_d_int by lia.
  change (bool_decide (is_Some (Some name))) with true.
  rewrite (bind_val _ _ _ _ _ (check_times_ok true (n * 1000000) (m * 1000000) _
    ltac:(lia) ltac:(lia) ltac:(done))).
  rewrite file_duration_rows. unfold run. apply bind_ext; [done|]. intros _ w1. apply bind_ext; [done|].
  intros [lock_od start] w2. apply bind_ext; [|done]. apply file_jobs_rows.
Qed.
End cmdline.

(** ** Concrete runs *)

Module RtspinWitness.
Import Sim.

#[local] Instance wrap_cast : CastOverflow := fun d =>
  match trunc d with Some z => u64 z | None => 2 ^ 63 end.

(** The wall clock and the CPU clock advance with every reading, the thread
    may change its policy, and one file can be opened. *)
Definition k_spin (content : bytes) : Kernel := fun t c =>
  match c with
  | Clock_gettime _ | Gettimeofday => Pair (Z.of_nat (length t)) 0
  | NR_gettid => Succ 1000
  | NR_sched_getscheduler p => Succ (policy_of p t)
  | Fopen _ _ => Data content
  | Calloc _ _ => Succ 4096
  | _ => Succ 0
  end.

#[local] Instance k_spin_stdio content : @Stdio (k_spin content).
Proof. split; [done|]. intros t n. by exists 4096. Qed.

Definition w_vars : vars := mk_vars 511 1 0 7 0 0 1 None 1 (of_Z 1) 0 0 0 (-1) (of_Z 1).

Lemma run_safe_witness :
  exists w', @run (k_spin []) sim_header (0, 0) 9 9 w_vars 5 10 (of_Z 1) (of_Z 20) None 0 w0 = (Val 0, w') /\
    (syncs (tr w') <> [] -> exists t, t `suffix_of` tr w' /\ @started sim_header w_vars 5 10 [] t /\
       syncs t = [] /\ params (tr w') = params t).
Proof.
  eexists. split; [vm_compute; reflexivity|].
  eapply (@run_safe (k_spin []) sim_header (0, 0) 9 9 w_vars 5 10 (of_Z 1) (of_Z 20) None 0 w0 (Val 0)).
  vm_compute. reflexivity.
Defined.

Lemma spin_main_times_witness :
  @main (k_spin []) sim_header wrap_cast (0, 0) 9 9 0 "rtspin" ["-e"; "-p"; "2"; "10"; "100"; "5"] w0 =
    @run (k_spin []) sim_header (0, 0) 9 9 (mk_vars 511 1 2 (-1) 0 0 1 None 1 (of_Z 1) 0 0 0 (-1) (of_Z 1))
      10000000 100000000 (of_Z 10) (of_Z 5) None 0 (@seeded (k_spin []) w0).
Proof.
  apply (@spin_main_times (k_spin []) sim_header wrap_cast (0, 0) 9 9 0 "rtspin"
    [("e"%char, None); ("p"%char, Some "2")] 10 100 "5" [] w0);
    [by repeat constructor|unfold INT_MAX; lia..|by repeat constructor|done|lia].
Defined.

Definition w_file : list row := [mk_row [] [] 3000 []; mk_row [bytes_of "x"] [] 4000 []].

Definition k_file : Kernel := k_spin (render_file w_file [] []).
Definition file_vars : vars := mk_vars 511 0 0 (-1) 0 0 1 (Some "t") 0 (of_Z 1) 0 0 0 (-1) (of_Z 1).
#[local] Existing Instances k_file sim_header wrap_cast.

(** Two jobs, of 3 s and 4 s, and a period of 5 s between them: 12 s. *)
Lemma spin_main_file_witness :
  exists addr w',
    main (0, 0) 9 9 0 "rtspin" ["-f"; "t"; "10"; "5000"] w0 =
      (setup file_vars 10000000 5000000000;;
       '(lock_od, start) ← begin_rt (0, 0) file_vars;
       ('(_, num) ← job (0, 0) 9 (of_Z 3) (dadd start (of_Z 12)) lock_od milli (replicate NUMS 0);
        '(_, num) ← job (0, 0) 9 (of_Z 4) (dadd start (of_Z 12)) lock_od milli num;
        mret tt);;
       ret ← task_mode BACKGROUND_TASK;
       when (negb (ret =? 0)) (bail_out "could not become regular task (huh?)");;
       (syscall (Free addr);; mret tt);;
       mret 0) w' /\
    calls (tr w') = [Fclose; Calloc 2 8; Fseek 0 0; Fopen "t" "r"; Srand 0; Getpid].
Proof.
  apply (@spin_main_file (k_spin (render_file w_file [] [])) sim_header wrap_cast (0, 0) _ 9 9 0 "rtspin"
    [("f"%char, Some "t")] 10 5000 [] "t" 0 w_file [] [] w0);
    [by repeat constructor|unfold INT_MAX; lia..|by constructor|done|done| |done].
  split_and!; [|by constructor|apply not_elem_of_nil|done].
  repeat constructor; try done; try (intros Hin; apply list_elem_of_In in Hin; cbn in Hin; intuition done).
Defined.
End RtspinWitness.
