(* ===== verification/Measure.v ===== *)
(** * bin/null_call.c and bin/cycles.c: measuring with the cycle counter

    Both are modelled on x86, where the counter has 64 bits.  The loop of
    cycles.c never ends and takes fuel, as does the sleeping loop of
    null_call.c; its keyboard loop ends with the input. *)
From S2P Require Import Prelude Machine CString Double Laws Syscalls Clocks.

(** ** bin/null_call.c *)

(** [floor] on a double. *)
Definition dfloor (d : double) : double :=
  match d with
  | S754_finite s m e =>
      if 0 <=? e then d
      else
        let q := (if s then Zneg m else Zpos m) / 2 ^ (- e) in
        binary_normalize prec emax q 0 s
  | _ => d
  end.

(** [(long) d] *)
Definition to_s64 {UB : CastOverflow} (d : double) : Z :=
  match trunc d with
  | Some z => if (LONG_MIN <=? z) && (z <=? LONG_MAX) then z else cast_overflow d
  | None => cast_overflow d
  end.

Section null_call.
Context {K : Kernel} {UB : CastOverflow}.
(** What the uninitialised [t1] holds. *)
Context (stack_t1 : Z).

Definition time_null_call : M unit :=
  t0 ← get_cycles_x86;
  '(ret, stamp) ← null_call;
  let t1 := default stack_t1 stamp in
  t2 ← get_cycles_x86;
  when (negb (ret =? 0)) (perror "null_call");;
  printf "%10llu, %10llu, %10llu, %10llu, %10llu, %10llu\n"
    [AInt t0; AInt t1; AInt t2; AInt (u64 (t1 - t0)); AInt (u64 (t2 - t1)); AInt (u64 (t2 - t0))].

(** The seconds and the nanoseconds. *)
Definition sec2timespec (seconds : double) : Z * Z :=
  let full_secs := dfloor seconds in
  (to_s64 full_secs, to_s64 (dmul (dsub seconds full_secs) (of_Z 1000000000))).

(** [do { ... } while (nanosleep(...) == 0);] *)
Fixpoint sleep_loop (fuel : nat) (sec nsec : Z) : M unit :=
  match fuel with
  | O => no_fuel
  | S fuel =>
      time_null_call;;
      r ← syscall (Nanosleep sec nsec);
      if r =? 0 then sleep_loop fuel sec nsec else mret tt
  end.

(** [while (getchar() != EOF)] *)
Fixpoint key_loop (fuel : nat) : M unit :=
  match fuel with
  | O => no_fuel
  | S fuel =>
      c ← syscall Getchar;
      if c =? -1 then mret tt else time_null_call;; key_loop fuel
  end.

Definition main (fuel : nat) (args : list string) : M Z :=
  match args with
  | [arg] =>
      let delay := atof (bytes_of arg) in
      let '(sec, nsec) := sec2timespec delay in
      when (dle delay dzero) (eprintf "Invalid time spec: %s\n" [AStr arg]);;
      eprintf "Measuring syscall overhead every %lus and %luns.\n" [AInt (u64 sec); AInt (u64 nsec)];;
      eprintf "%10s, %10s, %10s, %10s, %10s, %10s\n"
        [AStr "pre"; AStr "in kernel"; AStr "post"; AStr "entry"; AStr "exit"; AStr "total"];;
      sleep_loop fuel sec nsec;;
      mret 0
  | _ =>
      eprintf "Press enter key to measure...\n" [];;
      key_loop fuel;;
      mret 0
  end.
End null_call.

(** ** bin/cycles.c *)

Section cycles.
Context {K : Kernel}.

Fixpoint cycles_loop (fuel : nat) (secs : Z) : M Z :=
  match fuel with
  | O => no_fuel
  | S fuel =>
      t1 ← get_cycles_x86;
      syscall (Sleep secs);;
      t2 ← get_cycles_x86;
      let t2 := u64 (t2 - t1) in
      printf "%.2f/sec  %.2f/msec  %.2f/usec\n"
        [ADbl (ddiv (of_Z t2) (of_Z secs));
         ADbl (ddiv (of_Z t2) (dmul (of_Z secs) (of_Z 1000)));
         ADbl (ddiv (of_Z t2) (dmul (of_Z secs) (of_Z 1000000)))];;
      cycles_loop fuel secs
  end.

Definition cycles_secs (args : list string) : Z :=
  match args with
  | arg :: _ => let secs := atoi (bytes_of arg) in if secs <=? 0 then 1 else secs
  | [] => 1
  end.

Definition cycles_main (fuel : nat) (args : list string) : M Z := cycles_loop fuel (cycles_secs args).
End cycles.

(** ** How often is measured *)

(** The characters asked for and the null calls made. *)
Definition gets (t : trace) : nat :=
  length (omap (fun e => match e with Sys Getchar _ => Some tt | _ => None end) t).
Definition null_calls (t : trace) : nat :=
  length (omap (fun e => match e with Sys NR_null_call _ => Some tt | _ => None end) t).
Definition naps (t : trace) : nat :=
  length (omap (fun e => match e with Sys (Nanosleep _ _) _ => Some tt | _ => None end) t).

(** The input has [n] characters. *)
Class Keyboard (K : Kernel) (n : nat) : Prop :=
  keyboard t : if (gets t <? n)%nat then 0 <= ret_of (kernel t Getchar) else ret_of (kernel t Getchar) = -1.

(** The first [n] times the process sleeps it is not interrupted, then it is. *)
Class Naps (K : Kernel) (n : nat) : Prop :=
  nap t sec nsec : ret_of (kernel t (Nanosleep sec nsec)) = if (naps t <? n)%nat then 0 else -1.

Section measure.
Context {K : Kernel} {UB : CastOverflow} (stack_t1 : Z).

Lemma get_cycles_run w :
  exists c r w', get_cycles_x86 w = (Val c, w') /\ tr w' = Barrier :: Sys Rdtsc r :: Barrier :: tr w.
Proof.
  unfold get_cycles_x86, native_read_tsc. mrun. eexists _, _, _. split; [done|]. cbn [tr push].
  by rewrite tr_after.
Qed.

Lemma time_null_call_run w :
  exists w', time_null_call stack_t1 w = (Val tt, w') /\ gets (tr w') = gets (tr w) /\
    null_calls (tr w') = S (null_calls (tr w)) /\ naps (tr w') = naps (tr w).
Proof.
  unfold time_null_call. destruct (get_cycles_run w) as (t0 & r0 & w1 & E1 & H1).
  rewrite (bind_val _ _ _ _ _ E1). unfold null_call. rewrite bind_bind, bind_sys.
  set (r := kernel _ _). set (w2 := after _ _ w1).
  assert (exists ret stamp, (match r with Pair stamp _ => (0, Some stamp) | r => (s32 (ret_of r), None) end)
    = (ret, stamp)) as (ret & stamp & E) by (destruct r; by eexists _, _).
  rewrite bind_ret, E. destruct (get_cycles_run w2) as (t2 & r2 & w3 & E3 & H3).
  rewrite (bind_val _ _ _ _ _ E3). assert (tr w2 = Sys NR_null_call r :: tr w1) as H2 by apply tr_after.
  unfold perror, printf. destruct (negb (ret =? 0)); cbn [when]; mrun; eexists; (split; [done|]);
    cbn [tr push]; rewrite H3, H2, H1; unfold gets, null_calls, naps; by cbn.
Qed.

Lemma key_loop_run n k w :
  Keyboard K n -> (gets (tr w) + k = n)%nat ->
  exists w', key_loop stack_t1 (S k) w = (Val tt, w') /\ null_calls (tr w') = (k + null_calls (tr w))%nat.
Proof.
  intros HK. revert w. induction k as [|k IH]; intros w1 Hw1; cbn [key_loop]; rewrite bind_syscall;
    pose proof (keyboard (tr w1)) as Hk; set (r := kernel _ _) in *.
  - rewrite (proj2 (Nat.ltb_ge _ _)) in Hk by lia. rewrite Hk, Z.eqb_refl. eexists. split; [done|].
    by rewrite tr_after.
  - rewrite (proj2 (Nat.ltb_lt _ _)) in Hk by lia. rewrite (proj2 (Z.eqb_neq _ _)) by lia.
    destruct (time_null_call_run (after Getchar r w1)) as (w2 & E2 & Hg2 & Hn2 & _).
    rewrite (bind_val _ _ _ _ _ E2). rewrite tr_after in Hg2, Hn2. unfold gets in Hg2 at 2.
    cbn [omap list_omap length] in Hg2. fold (gets (tr w1)) in Hg2.
    destruct (IH w2) as (w' & E' & Hn'); [lia|]. exists w'. split; [exact E'|].
    rewrite Hn', Hn2. unfold null_calls at 1. cbn [omap list_omap]. fold (null_calls (tr w1)). lia.
Qed.

Lemma sleep_loop_run n k w sec nsec :
  Naps K n -> (naps (tr w) + k = n)%nat ->
  exists w', sleep_loop stack_t1 (S k) sec nsec w = (Val tt, w') /\
    null_calls (tr w') = (S k + null_calls (tr w))%nat.
Proof.
  intros HN. revert w. induction k as [|k IH]; intros w1 Hw1; cbn [sleep_loop];
    destruct (time_null_call_run w1) as (w2 & E2 & _ & Hn2 & Hs2);
    rewrite (bind_val _ _ _ _ _ E2), bind_syscall, nap; set (r := kernel _ _) in *.
  - rewrite (proj2 (Nat.ltb_ge _ _)) by lia. eexists. split; [done|]. rewrite tr_after. exact Hn2.
  - rewrite (proj2 (Nat.ltb_lt _ _)) by lia. change (0 =? 0) with true. cbn match.
    destruct (IH (after (Nanosleep sec nsec) r w2)) as (w' & E' & Hn').
    { rewrite tr_after. unfold naps. cbn [omap list_omap length]. fold (naps (tr w2)). lia. }
    exists w'. split; [exact E'|]. rewrite Hn', tr_after. unfold null_calls at 1. cbn [omap list_omap].
    fold (null_calls (tr w2)). lia.
Qed.

(** [null_call] without an argument measures once for every character of its
    input and then returns 0; with a delay, it measures once more than it slept
    without an interruption. *)
Theorem null_call_measures n m arg args w :
  Keyboard K n -> Naps K m -> length args <> 1%nat -> gets (tr w) = O -> naps (tr w) = O ->
  (exists w', main stack_t1 (S n) args w = (Val 0, w') /\ null_calls (tr w') = (n + null_calls (tr w))%nat) /\
  (exists w', main stack_t1 (S m) [arg] w = (Val 0, w') /\
     null_calls (tr w') = (S m + null_calls (tr w))%nat).
Proof.
  intros HK HN Hargs Hg Hs. unfold main. split.
  - destruct args as [|a [|b args]]; [|done|].
    all: unfold eprintf; rewrite bind_emit; set (w1 := push _ w);
      destruct (key_loop_run n n w1 _ (f_equal (fun x => x + n)%nat Hg)) as (w' & E & Hn);
      rewrite (bind_val _ _ _ _ _ E); eexists; by split.
  - destruct (sec2timespec _) as [sec nsec]. unfold eprintf, when.
    destruct (dle _ _); mrun.
    all: match goal with |- context [mbind _ (sleep_loop _ _ _ _) ?w1] =>
      destruct (sleep_loop_run m m w1 sec nsec _ (f_equal (fun x => x + m)%nat Hs)) as (w' & E & Hn) end.
    all: rewrite (bind_val _ _ _ _ _ E); eexists; by split.
Qed.
End measure.

(** ** Concrete runs *)

Module MeasureWitness.
Import Sim.
#[local] Instance wrap_cast : CastOverflow := fun _ => 0.

(** Two characters of input; the third sleep is interrupted. *)
Definition k_keys : Kernel := fun t c =>
  match c with
  | Getchar => Succ (if (gets t <? 2)%nat then 10 else -1)
  | Nanosleep _ _ => if (naps t <? 2)%nat then Succ 0 else Fail 4
  | Rdtsc => Pair (Z.of_nat (length t)) 0
  | _ => Succ 0
  end.

Lemma null_call_measures_witness :
  (exists w', @main k_keys _ 0 3 [] w0 = (Val 0, w') /\ null_calls (tr w') = 2%nat) /\
  (exists w', @main k_keys _ 0 3 ["0"] w0 = (Val 0, w') /\ null_calls (tr w') = 3%nat).
Proof.
  apply (@null_call_measures k_keys _ 0 2 2 "0" [] w0); [..|done|done|done].
  - intros t. unfold kernel, k_keys. by destruct (gets t <? 2)%nat.
  - intros t sec nsec. unfold kernel, k_keys. by destruct (naps t <? 2)%nat.
Defined.
End MeasureWitness.
