(* ===== verification/Types.v ===== *)
(** * The task parameters the program hands to the kernel are well typed

    [struct rt_task] crosses the boundary to the kernel by address, so that no
    compiler checks what the fields hold.  A block is well typed when every
    field is in the range of its C type and the enumerations hold enumerators.
    Whatever the command line and whatever the kernel answers, the library's
    set-up functions and every tool hand over well-typed blocks only. *)
From S2P Require Import Prelude Machine CString Double Laws Iface Syscalls Migration Litmus.
From S2P Require Import Getopt Setup RtLaunch BaseTask BaseMtTask ExecTimes Spin Rtspin.

(** ** The type *)

Section typing.
Context {H : KernelHeader}.

Definition is_lt_t (z : Z) : Prop := 0 <= z < 2 ^ 64.
Definition is_uint (z : Z) : Prop := 0 <= z < 2 ^ 32.

Record wf_rt_task (p : rt_task) : Prop := {
  wf_exec_cost : is_lt_t (exec_cost p);
  wf_period : is_lt_t (period p);
  wf_deadline : is_lt_t (relative_deadline p);
  wf_phase : is_lt_t (phase p);
  wf_cpu : is_uint (cpu p);
  wf_priority : is_uint (priority p);
  wf_cls : cls p ∈ [RT_CLASS_HARD; RT_CLASS_SOFT; RT_CLASS_BEST_EFFORT];
  wf_budget : budget_policy p ∈ [NO_ENFORCEMENT; PRECISE_ENFORCEMENT];
  wf_release : release_policy p ∈ [TASK_SPORADIC; TASK_PERIODIC];
}.

(** A request that hands over no ill-typed block. *)
Definition typed_request (q : Z * option rt_task * reply) : Prop :=
  match snd (fst q) with Some p => wf_rt_task p | None => True end.
Definition well_typed (t : trace) : Prop := Forall typed_request (params t).
End typing.

(** The priorities of the kernel header fit the field. *)
Class HeaderOk (H : KernelHeader) : Prop :=
  lowest_priority : is_uint LITMUS_LOWEST_PRIORITY.

(** A conversion from double yields a value of its type, whatever it is. *)
Class CastInRange (UB : CastOverflow) : Prop := cast_in_range d : is_lt_t (cast_overflow d).

#[export] Hint Resolve wf_exec_cost wf_period wf_deadline wf_phase wf_cpu wf_priority wf_cls wf_budget
  wf_release : litmus.

(** ** The logic *)

Section rules.
Context {K : Kernel} {H : KernelHeader}.

Abbreviation typed m Q := (maintains well_typed m Q).

(** What sets no parameters. *)
Lemma typed_keeps {A} (m : M A) (Q : A -> Prop) : keeps params m -> (forall a, Q a) -> typed m Q.
Proof. by apply (maintains_keeps _ params (Forall typed_request)). Qed.

Lemma typed_unseen {A} (m : M A) : keeps params m -> typed m (fun _ => True).
Proof. intros Hk. by apply typed_keeps. Qed.

Lemma typed_set_param tid p : wf_rt_task p -> typed (set_rt_task_param tid (Some p)) (fun _ => True).
Proof.
  intros Hp w Hw. split; [|done]. unfold set_rt_task_param, syscall_int. rewrite bind_syscall.
  cbn [mret M_ret snd]. unfold well_typed. rewrite tr_after. by constructor.
Qed.

Lemma wf_init `{!HeaderOk H} : wf_rt_task init_rt_task_param.
Proof.
  pose proof lowest_priority as Hl.
  split; cbn; unfold is_lt_t, is_uint in *; try lia; try done; [by right; left|by left..].
Qed.

Lemma wf_with_cost p e q : wf_rt_task p -> is_lt_t e -> is_lt_t q -> wf_rt_task (with_cost p e q).
Proof. intros []. by split. Qed.

Lemma wf_with_cpu p c : wf_rt_task p -> wf_rt_task (with_cpu p c).
Proof. intros []. split; try done. cbn. unfold is_uint. apply wrap_u_range. lia. Qed.

(** ** The library *)

Lemma typed_gettid_set p : wf_rt_task p -> typed (tid ← gettid; set_rt_task_param tid (Some p)) (fun _ => True).
Proof.
  intros Hp. eapply maintains_bind; [|intros tid _; by apply typed_set_param].
  apply typed_unseen. unfold gettid, syscall_int. keeps_tac.
Qed.

Lemma typed_sporadic_domain `{!HeaderOk H} msg e p dom :
  is_lt_t e -> is_lt_t p -> typed (sporadic_domain msg e p dom) (fun _ => True).
Proof.
  intros He Hp. unfold sporadic_domain.
  eapply maintains_bind; [by apply typed_unseen, keeps_be_migrate|]. intros ret _.
  eapply maintains_bind; [apply typed_unseen; unfold check; keeps_tac|]. intros _ _.
  apply maintains_if; intros _; [by apply maintains_ret|].
  eapply maintains_bind; [by apply typed_unseen, keeps_domain_to_first_cpu, _|]. intros first _.
  by apply typed_gettid_set, wf_with_cpu, wf_with_cost, Hp; [apply wf_init|].
Qed.

Lemma typed_setup_task mig clu res p : wf_rt_task p -> typed (setup_task mig clu res p) (fun _ => True).
Proof.
  intros Hp. unfold setup_task.
  eapply maintains_bind.
  { apply typed_unseen. unfold bail_out. keeps_tac. by apply (keeps_migrate params). }
  intros _ _. apply (maintains_bind _ _ _ wf_rt_task).
  { destruct (negb (mig =? 0)); [destruct (0 <=? res)|].
    - by apply maintains_ret, wf_with_cpu.
    - eapply maintains_bind; [by apply typed_unseen, (keeps_domain_to_first_cpu params)|].
      intros first _. by apply maintains_ret, wf_with_cpu.
    - by apply maintains_ret. }
  intros p' Hp'. eapply maintains_bind; [apply typed_unseen; unfold gettid, syscall_int; keeps_tac|].
  intros tid _. eapply maintains_bind; [by apply typed_set_param|]. intros ret _.
  apply typed_unseen. unfold bail_out. keeps_tac.
Qed.

(** The options of a tool: the body keeps a property of its variables. *)
Lemma typed_getopt_loop {A} prog (body : ascii -> string -> A -> M A) items vars (Q : A -> Prop) :
  (forall c s a, Q a -> typed (body c s a) Q) -> Q vars -> typed (getopt_loop prog body items vars) Q.
Proof.
  intros Hb. revert vars. induction items as [|it items IH]; intros vars HQ; cbn [getopt_loop];
    [by apply maintains_ret|].
  eapply maintains_bind; [apply typed_unseen; destruct it; cbn [getopt_message]; keeps_tac|].
  intros _ _. apply (maintains_bind _ _ _ Q); [|done]. destruct it; by apply Hb.
Qed.

(** A usage message ends the process. *)
Lemma typed_exit {A} (m : M unit) s (Q : A -> Prop) : keeps params m -> typed (m;; exit_ s) Q.
Proof.
  intros Hm. eapply maintains_bind; [by apply typed_unseen|]. intros _ _. by intros w Hw.
Qed.
End rules.

(** ** The tools *)

Section tools.
Context {K : Kernel} {H : KernelHeader} {HO : HeaderOk H} {UB : CastOverflow} {CR : CastInRange UB}.

Abbreviation typed m Q := (maintains well_typed m Q).

Lemma to_u64_range d : is_lt_t (to_u64 d).
Proof using CR.
  unfold to_u64. destruct (trunc d) as [z|]; [|apply cast_in_range].
  destruct (_ && _) eqn:E; [|apply cast_in_range]. zbool. unfold is_lt_t, ULONG_MAX in *. lia.
Qed.

Definition is_class (c : Z) : Prop := c ∈ [RT_CLASS_HARD; RT_CLASS_SOFT; RT_CLASS_BEST_EFFORT].

(** A name is translated to an enumerator or to -1. *)
Lemma str2class_ok s : str2class s = -1 \/ is_class (str2class s).
Proof using.
  unfold str2class, is_class. destruct (strcmp_eq s "hrt"); [right; by left|].
  destruct (strcmp_eq s "srt"); [right; by right; left|].
  destruct (strcmp_eq s "be"); [right; by right; right; left|by left].
Qed.

Lemma keeps_launch_usage {A} s : keeps params (@RtLaunch.usage A s).
Proof using. unfold RtLaunch.usage. keeps_tac. Qed.
Lemma keeps_spin_usage {A} s : keeps params (@Rtspin.usage A s).
Proof using. unfold Rtspin.usage. keeps_tac. Qed.

(** A check of an option: going on means that it held. *)
Lemma typed_check {B} (b : bool) (m : M unit) (a : B) (Q : B -> Prop) :
  keeps params m -> (forall w, exists s w', m w = (Exit s, w')) -> (b = false -> Q a) ->
  typed (when b m;; mret a) Q.
Proof using.
  intros Hk He HQ. apply (maintains_bind _ _ _ (fun _ => b = false)); [|intros _ Hb; by apply maintains_ret, HQ].
  apply maintains_when; [|done]. intros _ w Hw. destruct (He w) as (s & w' & E). split.
  - unfold well_typed. by rewrite Hk.
  - by rewrite E.
Qed.

Lemma launch_usage_exits s w : exists st w', @RtLaunch.usage unit s w = (Exit st, w').
Proof using. by eexists _, _. Qed.
Lemma spin_usage_exits s w : exists st w', @Rtspin.usage unit s w = (Exit st, w').
Proof using. by eexists _, _. Qed.

Definition wf_launch_vars (v : RtLaunch.vars) : Prop := is_uint (RtLaunch.prio v) /\ is_class (RtLaunch.class v).
Definition wf_spin_vars (v : Rtspin.vars) : Prop := is_uint (Rtspin.prio v) /\ is_class (Rtspin.class v).

Lemma wf_priority_arg a : is_uint (u32 (atoi a)).
Proof using. apply wrap_u_range. lia. Qed.

Lemma typed_launch_option opt optarg v :
  wf_launch_vars v -> typed (RtLaunch.option_switch opt optarg v) wf_launch_vars.
Proof using.
  destruct v as [vb off dl pr enf wt cl mig clu res]. intros [Hp Hc]. unfold RtLaunch.option_switch.
  repeat (apply maintains_if; intros _).
  all: try (by apply maintains_ret).
  - apply typed_check; [apply keeps_launch_usage|apply launch_usage_exits|]. intros _.
    split; [apply wf_priority_arg|done].
  - apply typed_check; [apply keeps_launch_usage|apply launch_usage_exits|]. intros Hne%Z.eqb_neq.
    split; [done|]. by destruct (str2class_ok optarg).
  - by apply typed_check; [apply keeps_launch_usage|apply launch_usage_exits|].
  - by apply typed_exit.
  - by apply typed_exit.
  - by apply typed_exit.
Qed.

Lemma wf_launch_param v wcet period offset deadline :
  wf_launch_vars v -> is_lt_t wcet -> is_lt_t period -> is_lt_t offset -> is_lt_t deadline ->
  wf_rt_task (launch_param v wcet period offset deadline).
Proof using HO.
  intros [Hp Hc] ????. destruct wf_init. split; try done. cbn.
  destruct (negb _); [by right; left|by left].
Qed.

Lemma typed_launch v wcet period offset deadline argv :
  wf_launch_vars v -> is_lt_t wcet -> is_lt_t period -> is_lt_t offset -> is_lt_t deadline ->
  typed (launch v wcet period offset deadline argv) (fun _ => True).
Proof using HO.
  intros. unfold launch. eapply maintains_bind.
  { apply typed_unseen. unfold RtLaunch.check_times, RtLaunch.usage. keeps_tac. }
  intros _ _. eapply maintains_bind; [by apply typed_setup_task, wf_launch_param|]. intros _ _.
  apply typed_unseen. unfold gettid, wait_for_ts_release, syscall_int, bail_out.
  repeat (apply (keeps_init_litmus params) || (by apply (keeps_task_mode params)) || keeps_step).
Qed.

(** rt_launch, for any command line. *)
Lemma typed_launch_main prog args : typed (RtLaunch.main prog args) (fun _ => True).
Proof using HO CR.
  unfold RtLaunch.main. destruct (getopt_all _ args) as [items ops].
  eapply (maintains_bind _ _ _ wf_launch_vars).
  { apply typed_getopt_loop; [apply typed_launch_option|]. split; [exact lowest_priority|by right; left]. }
  intros v Hv. eapply maintains_bind; [apply typed_unseen; keeps_tac|]. intros _ _.
  destruct ops as [|wcet [|period argv]]; [by apply typed_exit..|].
  apply maintains_if; intros _; [by apply typed_exit|]. by apply typed_launch; try apply to_u64_range.
Qed.

Lemma typed_spin_option opt optarg v :
  wf_spin_vars v -> typed (Rtspin.option_switch opt optarg v) wf_spin_vars.
Proof using.
  destruct v as [pr mig clu res wt tl col fl enf sc cl vb rid prot cs]. intros [Hp Hc].
  unfold Rtspin.option_switch. repeat (apply maintains_if; intros _).
  all: try (by apply maintains_ret).
  all: try (by apply typed_exit).
  all: apply typed_check; [apply keeps_spin_usage|apply spin_usage_exits|]; try done.
  - intros _. split; [apply wf_priority_arg|done].
  - intros Hne%Z.eqb_neq. split; [done|]. by destruct (str2class_ok optarg).
Qed.

Lemma wf_spin_param v wcet period :
  wf_spin_vars v -> is_lt_t wcet -> is_lt_t period -> wf_rt_task (spin_param v wcet period).
Proof using HO.
  intros [Hp Hc] ??. destruct wf_init. split; try done. cbn.
  destruct (negb _); [by right; left|by left].
Qed.

Lemma typed_run stack fuel inner v wcet period wcet_ms duration times job_no :
  wf_spin_vars v -> is_lt_t wcet -> is_lt_t period ->
  typed (run stack fuel inner v wcet period wcet_ms duration times job_no) (fun _ => True).
Proof using HO.
  intros Hv Hw Hp. unfold run.
  eapply maintains_bind; [by apply typed_setup_task, wf_spin_param|]. intros _ _.
  eapply maintains_bind.
  { apply typed_unseen. unfold begin_rt, litmus_open_lock, od_openx, wait_for_ts_release, syscall_int, bail_out.
    repeat (apply (keeps_init_litmus params) || (by apply (keeps_task_mode params))
      || apply (keeps_wctime params) || apply keeps_spin_usage || keeps_step). }
  intros [od start] _. apply typed_unseen. apply keeps_bind; [apply (keeps_jobs_of stack params)|]. intros [].
  unfold bail_out. repeat ((by apply (keeps_task_mode params)) || keeps_step).
Qed.

Lemma keeps_delay_loop stack fuel inner delay num : keeps params (delay_loop stack fuel inner delay num).
Proof using.
  revert delay num. induction fuel as [|fuel IH]; intros delay num; cbn [delay_loop]; [done|].
  repeat (apply IH || apply (keeps_wctime params) || apply (keeps_loop_for params) || keeps_step).
Qed.

Lemma keeps_get_exec_times name column : keeps params (get_exec_times name column).
Proof using.
  assert (forall n cur f, keeps params (read_times n cur column f)) as Hr.
  { intros n. induction n as [|n IH]; intros cur f; cbn [read_times]; [done|]. repeat (apply IH || keeps_step). }
  unfold get_exec_times, bail_out. repeat (apply Hr || keeps_step). done.
Qed.

(** rtspin, for any command line. *)
Lemma typed_spin_main stack fuel inner job_no prog args :
  typed (Rtspin.main stack fuel inner job_no prog args) (fun _ => True).
Proof using HO CR.
  unfold Rtspin.main. destruct (getopt_all _ args) as [items argv].
  eapply (maintains_bind _ _ _ wf_spin_vars).
  { apply typed_getopt_loop; [apply typed_spin_option|]. split; [exact lowest_priority|by left]. }
  intros v Hv. apply maintains_if; intros _.
  { eapply maintains_bind; [by apply typed_unseen, keeps_delay_loop|]. intros _ _. by apply maintains_ret. }
  eapply maintains_bind; [apply typed_unseen; keeps_tac|]. intros pid _.
  eapply maintains_bind; [apply typed_unseen; keeps_tac|]. intros _ _.
  eapply maintains_bind.
  { apply typed_unseen. repeat (apply keeps_get_exec_times || apply keeps_spin_usage || keeps_step). }
  intros times _. unfold with_times. eapply maintains_bind.
  { apply typed_unseen. unfold Rtspin.check_times. repeat (apply keeps_spin_usage || keeps_step). }
  intros _ _. by apply typed_run; try apply to_u64_range.
Qed.

Lemma wf_task_param : wf_rt_task task_param.
Proof using HO.
  destruct wf_init. split; try done; cbn; unfold is_lt_t; try lia; by left.
Qed.

Lemma typed_CALL exp m : typed m (fun _ => True) -> typed (CALL exp m) (fun _ => True).
Proof using.
  intros Hm. unfold CALL. eapply maintains_bind; [exact Hm|]. intros ret _. apply typed_unseen. keeps_tac.
Qed.

Lemma keeps_task_loop fuel : keeps params (BaseTask.job_loop fuel).
Proof using.
  induction fuel as [|fuel IH]; cbn [BaseTask.job_loop]; [done|].
  unfold sleep_next_period, syscall_int, BaseTask.job. repeat (apply IH || keeps_step).
Qed.

(** What both skeletons do after their initialisation. *)
Lemma typed_skeleton {A} (m : M Z) (rest : M A) fuel name :
  keeps params m -> keeps params rest ->
  typed (CALL name m;;
    CALL "set_rt_task_param(gettid(), &param)" (tid ← gettid; set_rt_task_param tid (Some task_param));;
    CALL "task_mode(LITMUS_RT_TASK)" (task_mode LITMUS_RT_TASK);;
    BaseTask.job_loop fuel;; rest) (fun _ => True).
Proof using HO.
  intros Hm Hr. eapply maintains_bind; [by apply typed_CALL, typed_unseen|]. intros _ _.
  eapply maintains_bind; [apply typed_CALL, typed_gettid_set, wf_task_param|]. intros _ _.
  eapply maintains_bind; [by apply typed_CALL, typed_unseen, (keeps_task_mode params)|]. intros _ _.
  eapply maintains_bind; [by apply typed_unseen, keeps_task_loop|]. intros _ _. by apply typed_unseen.
Qed.

Lemma keeps_background {A} (m : M A) :
  keeps params m -> keeps params (CALL "task_mode(BACKGROUND_TASK)" (task_mode BACKGROUND_TASK);; m).
Proof using.
  intros Hm. apply keeps_bind; [|done]. apply call_keeps; [by apply (keeps_task_mode params)|done].
Qed.

Lemma keeps_init_thread : keeps params init_rt_thread.
Proof using. unfold init_rt_thread, init_kernel_iface, map_file, check. keeps_tac. Qed.

(** C13: every parameter block that the set-up functions of the library (given
    times of type [lt_t]), rt_launch and rtspin (on any command line) and the
    task skeletons hand to the kernel is well typed: times and unsigned fields
    are in range, the class and the policies are enumerators.  No kernel can
    make them hand over another, on no path. *)
Theorem parameters_well_typed w :
  well_typed (tr w) ->
  (forall prog args, well_typed (tr (RtLaunch.main prog args w).2)) /\
  (forall stack fuel inner job_no prog args,
     well_typed (tr (Rtspin.main stack fuel inner job_no prog args w).2)) /\
  (forall fuel, well_typed (tr (BaseTask.main fuel w).2)) /\
  (forall fuel id, well_typed (tr (rt_thread fuel id w).2)) /\
  (forall e p dom, is_lt_t e -> is_lt_t p ->
     well_typed (tr (sporadic_global e p w).2) /\ well_typed (tr (sporadic_partitioned e p dom w).2) /\
     well_typed (tr (sporadic_clustered e p dom w).2)).
Proof using HO CR.
  intros Hw. split_and!.
  - intros. by apply (maintains_run _ _ _ _ (typed_launch_main _ _)).
  - intros. by apply (maintains_run _ _ _ _ (typed_spin_main _ _ _ _ _ _)).
  - intros. apply (maintains_run _ _ (fun _ => True)); [|done].
    apply typed_skeleton; [apply (keeps_init_litmus params)|by apply keeps_background].
  - intros. apply (maintains_run _ _ (fun _ => True)); [|done]. unfold rt_thread.
    eapply maintains_bind; [apply typed_unseen; keeps_tac|]. intros _ _.
    apply typed_skeleton; [apply keeps_init_thread|]. apply call_keeps; [by apply (keeps_task_mode params)|done].
  - intros e p dom He Hp. split_and!; apply (maintains_run _ _ (fun _ => True)); try done.
    + by apply typed_gettid_set, wf_with_cost, Hp; [apply wf_init|].
    + by apply typed_sporadic_domain.
    + by apply typed_sporadic_domain.
Qed.
End tools.

(** ** Concrete runs *)

Module TypesWitness.
Import Sim.

(** x86 converts what does not fit to 2^63. *)
Definition cast_x86 : CastOverflow := fun _ => 2 ^ 63.

#[export] Instance cast_x86_range : CastInRange cast_x86.
Proof. intros d. unfold is_lt_t, cast_overflow, cast_x86. lia. Qed.
#[export] Instance sim_header_ok : HeaderOk sim_header.
Proof. unfold HeaderOk, is_uint. cbn. lia. Qed.

Definition k_any : Kernel := sim [] 1 1.

Lemma parameters_well_typed_witness :
  (forall prog args, @well_typed sim_header (tr (@RtLaunch.main k_any sim_header cast_x86 prog args w0).2)) /\
  (forall stack fuel inner job_no prog args,
     @well_typed sim_header (tr (@Rtspin.main k_any sim_header cast_x86 stack fuel inner job_no prog args w0).2)) /\
  (forall fuel, @well_typed sim_header (tr (@BaseTask.main k_any sim_header fuel w0).2)) /\
  (forall fuel id, @well_typed sim_header (tr (@rt_thread k_any sim_header fuel id w0).2)) /\
  (forall e p dom, is_lt_t e -> is_lt_t p ->
     @well_typed sim_header (tr (@sporadic_global k_any sim_header e p w0).2) /\
     @well_typed sim_header (tr (@sporadic_partitioned k_any sim_header e p dom w0).2) /\
     @well_typed sim_header (tr (@sporadic_clustered k_any sim_header e p dom w0).2)).
Proof.
  apply (@parameters_well_typed k_any sim_header sim_header_ok cast_x86 cast_x86_range w0).
  by constructor.
Defined.

(** A run that hands one block over. *)
Example launch_hands_over :
  map (fun q => fst (fst q))
    (params (tr (@RtLaunch.main k_any sim_header cast_x86 "rt_launch" ["10"; "100"; "ls"] w0).2)) = [1000].
Proof. vm_compute. reflexivity. Qed.
End TypesWitness.
