(* ===== verification/Tests.v ===== *)
(** * What the test cases of tests/ share

    The rest of the macros of include/tests.h, the services of the C library
    only the test cases call, assignments to the fields of a parameter block
    and the loops that several test cases spell out.  A test case is a
    computation that the runner executes in a forked child; a process it forks
    itself is the branch in which [fork] answers 0.  Messages name the line of
    the statement they come from. *)
From S2P Require Import Prelude Machine CString Double Laws Iface Syscalls Migration Litmus Clocks Runner.

(** ** Constants *)

Definition EPERM : Z := 1.
Definition ENXIO : Z := 6.
Definition EFAULT : Z := 14.
Definition EBUSY : Z := 16.
Definition SIGUSR2 : Z := 12.
Definition MAP_SHARED : Z := 1.
Definition MAP_ANONYMOUS : Z := 32.

(** ** Text of expressions *)

(** A string literal as [#] spells it. *)
Definition quoted (s : string) : string := String "034"%char (s +:+ String "034"%char "").
Definition open_text (name : string) : string :=
  "fd = open(" +:+ quoted name +:+ ", O_RDONLY | O_CREAT, S_IRUSR)".
Definition remove_text (name : string) : string := "remove(" +:+ quoted name +:+ ")".

(** ** Parameter blocks *)

Definition set_exec_cost (p : rt_task) (v : Z) : rt_task :=
  mk_rt_task (u64 v) (period p) (relative_deadline p) (phase p) (cpu p) (priority p) (cls p)
    (budget_policy p) (release_policy p).
Definition set_period (p : rt_task) (v : Z) : rt_task :=
  mk_rt_task (exec_cost p) (u64 v) (relative_deadline p) (phase p) (cpu p) (priority p) (cls p)
    (budget_policy p) (release_policy p).
Definition set_relative_deadline (p : rt_task) (v : Z) : rt_task :=
  mk_rt_task (exec_cost p) (period p) (u64 v) (phase p) (cpu p) (priority p) (cls p)
    (budget_policy p) (release_policy p).
Definition set_phase (p : rt_task) (v : Z) : rt_task :=
  mk_rt_task (exec_cost p) (period p) (relative_deadline p) (u64 v) (cpu p) (priority p) (cls p)
    (budget_policy p) (release_policy p).
Definition set_priority (p : rt_task) (v : Z) : rt_task :=
  mk_rt_task (exec_cost p) (period p) (relative_deadline p) (phase p) (cpu p) (u32 v) (cls p)
    (budget_policy p) (release_policy p).
Definition set_cls (p : rt_task) (v : Z) : rt_task :=
  mk_rt_task (exec_cost p) (period p) (relative_deadline p) (phase p) (cpu p) (priority p) v
    (budget_policy p) (release_policy p).
Definition set_budget_policy (p : rt_task) (v : Z) : rt_task :=
  mk_rt_task (exec_cost p) (period p) (relative_deadline p) (phase p) (cpu p) (priority p) (cls p)
    v (release_policy p).
Definition set_release_policy (p : rt_task) (v : Z) : rt_task :=
  mk_rt_task (exec_cost p) (period p) (relative_deadline p) (phase p) (cpu p) (priority p) (cls p)
    (budget_policy p) v.

(** ** Integers in memory *)

(** The bytes of an [int], least significant first, and back. *)
Definition int_bytes (z : Z) : bytes :=
  map (fun i => ascii_of_N (Z.to_N (Z.land (Z.shiftr z (8 * i)) 255))) [0; 1; 2; 3].
Definition int_of (l : bytes) : Z :=
  s32 (foldr (fun c v => Z.of_N (N_of_ascii c) + 256 * v) 0 (take 4 l)).

Section services.
Context {K : Kernel} {H : KernelHeader}.

Definition open_file (name : string) : M Z :=
  syscall (Open name (Z.lor O_RDONLY O_CREAT) S_IRUSR).
Definition close (fd : Z) : M Z := syscall (Close fd).
Definition remove (name : string) : M Z := syscall (Remove name).
Definition kill (pid signum : Z) : M Z := syscall (Kill pid signum).
Definition write_int (fd z : Z) : M Z := syscall (Write fd (int_bytes z)).

(** The two descriptors, if the call stored them. *)
Definition pipe : M (Z * option (Z * Z)) :=
  r ← sys Pipe;
  mret (match r with Pair a b => (0, Some (a, b)) | r => (ret_of r, None) end).

(** [read(fd, &z, sizeof(z))] of an [int]: the return value and [z]. *)
Definition read_int (fd z : Z) : M (Z * Z) :=
  '(n, d) ← read fd 4; mret (n, int_of (overwrite 0 d (int_bytes z))).

(** [set_rt_task_param(gettid(), p)], and with an address of no block. *)
Definition set_own_param (p : option rt_task) : M Z := tid ← gettid; set_rt_task_param tid p.
Definition set_own_param_at (addr : Z) : M Z :=
  tid ← gettid; syscall_int (NR_set_rt_task_param_at tid addr).

Definition FORK_TASK (code : M unit) : M Z :=
  pid ← syscall Fork;
  if pid =? 0 then code;; exit_ 0 else mret pid.

(** [SYSCALL( waitpid(child, &status, 0) )]: the status, or what the variable
    held. *)
Definition wait_for (child status : Z) (text file : string) (line : Z) (func : string) : M Z :=
  '(ret, st) ← waitpid child;
  SYSCALL (mret ret) text file line func;;
  mret (default status st).

(** [while (cputime() - start < limit) ;] *)
Fixpoint busy_loop (fuel : nat) (stack : Z * Z) (start limit : double) : M unit :=
  match fuel with
  | O => no_fuel
  | S fuel =>
      now ← cputime stack;
      if dlt (dsub now start) limit then busy_loop fuel stack start limit else mret tt
  end.

(** [do { waiters = get_nr_ts_release_waiters(); ASSERT( waiters >= 0 ); }
    while (waiters != n);] *)
Fixpoint wait_waiters (fuel : nat) (buf : bytes) (n : Z) (file : string) (line : Z) (func : string) : M unit :=
  match fuel with
  | O => no_fuel
  | S fuel =>
      waiters ← get_nr_ts_release_waiters buf;
      ASSERT (0 <=? waiters) "waiters >= 0" file line func;;
      if negb (waiters =? n) then wait_waiters fuel buf n file line func else mret tt
  end.

(** [SYSCALL( pipe(pipefd) )]: the descriptors, or what the array held. *)
Definition make_pipe (pipefd : Z * Z) (file : string) (line : Z) (func : string) : M (Z * Z) :=
  '(ret, fds) ← pipe;
  SYSCALL (mret ret) "pipe(pipefd)" file line func;;
  mret (default pipefd fds).

(** [get_job_no(&job_no)] for its return value. *)
Definition job_no_ret : M Z := '(ret, _) ← get_job_no; mret ret.

(** Accesses to an [int] through a pointer. *)
Definition load_int (p : Z) : M Z := deref p;; syscall (LoadInt p).
Definition store_int (p v : Z) : M unit := deref p;; syscall (StoreInt p v);; mret tt.

(** [while (scheduler != SCHED_LITMUS) { ... }] *)
Fixpoint sched_loop (fuel : nat) (child scheduler : Z) (file : string) (line : Z) (func : string) : M unit :=
  if scheduler =? SCHED_LITMUS then mret tt
  else match fuel with
  | O => no_fuel
  | S fuel =>
      scheduler ← SYSCALL (sched_getscheduler child) "scheduler = sched_getscheduler(child_rt)" file line func;
      sched_loop fuel child scheduler file line func
  end.

(** [for (i = 0; i < n; i++) SYSCALL( sleep_next_period() );] *)
Fixpoint sleep_periods (n : nat) (file : string) (line : Z) (func : string) : M unit :=
  match n with
  | O => mret tt
  | S n => SYSCALL sleep_next_period "sleep_next_period()" file line func;; sleep_periods n file line func
  end.

(** *** Statements that follow each other in many test cases *)

(** A set-up call and the next line, the transition to real-time mode. *)
Definition become_rt (setup : M Z) (text file : string) (line : Z) (func : string) : M unit :=
  SYSCALL setup text file line func;;
  SYSCALL (task_mode LITMUS_RT_TASK) "task_mode(LITMUS_RT_TASK)" file (line + 1) func;;
  mret tt.

(** Parameters, migration and transition on three lines. *)
Definition start_rt (params : rt_task) (file : string) (line : Z) (func : string) : M unit :=
  SYSCALL (set_own_param (Some params)) "set_rt_task_param(gettid(), &params)" file line func;;
  SYSCALL (be_migrate_to_cpu (s32 (cpu params))) "be_migrate_to_cpu(params.cpu)" file (line + 1) func;;
  SYSCALL (task_mode LITMUS_RT_TASK) "task_mode(LITMUS_RT_TASK)" file (line + 2) func;;
  mret tt.

(** The semaphore [od] of the variable [name], taken and released. *)
Definition lock_unlock (od : Z) (name file : string) (line : Z) (func : string) : M unit :=
  SYSCALL (litmus_lock od) ("litmus_lock(" +:+ name +:+ ")") file line func;;
  SYSCALL (litmus_unlock od) ("litmus_unlock(" +:+ name +:+ ")") file (line + 1) func;;
  mret tt.

(** A second semaphore is refused while the first is held. *)
Definition nested_busy (od : Z) (name : string) (od2 : Z) (name2 : string) (file : string) (line : Z)
    (func : string) : M unit :=
  SYSCALL (litmus_lock od) ("litmus_lock(" +:+ name +:+ ")") file line func;;
  SYSCALL_FAILS EBUSY "EBUSY" (litmus_lock od2) ("litmus_lock(" +:+ name2 +:+ ")") file (line + 1) func;;
  SYSCALL (litmus_unlock od) ("litmus_unlock(" +:+ name +:+ ")") file (line + 2) func;;
  mret tt.

(** Two semaphores are held at once. *)
Definition nested_ok (od : Z) (name : string) (od2 : Z) (name2 : string) (file : string) (line : Z)
    (func : string) : M unit :=
  SYSCALL (litmus_lock od) ("litmus_lock(" +:+ name +:+ ")") file line func;;
  SYSCALL (litmus_lock od2) ("litmus_lock(" +:+ name2 +:+ ")") file (line + 1) func;;
  SYSCALL (litmus_unlock od2) ("litmus_unlock(" +:+ name2 +:+ ")") file (line + 2) func;;
  SYSCALL (litmus_unlock od) ("litmus_unlock(" +:+ name +:+ ")") file (line + 3) func;;
  mret tt.

(** The end of a test case with a lock file. *)
Definition close_remove (fd : Z) (name file : string) (line : Z) (func : string) : M unit :=
  SYSCALL (close fd) "close(fd)" file line func;;
  SYSCALL (remove name) (remove_text name) file (line + 2) func;;
  mret tt.
End services.
