(* ===== verification/TestLocks.v ===== *)
(** * tests/locks.c: semaphores of one kind, and what becomes of
    one whose holder changes its mode or exits.  [status] is what the variable holds before the first [waitpid]. *)
From S2P Require Import Prelude Machine CString Laws Iface Syscalls Migration Litmus Runner Tests.

Definition FILE : string := "tests/locks.c".

Section tests.
Context {K : Kernel} {H : KernelHeader} (status : Z).

(** Don't let best-effort tasks lock FMLP semaphores. *)
Definition test_not_lock_fmlp_be : M unit :=
  let T := "test_not_lock_fmlp_be" in
  fd ← SYSCALL (open_file ".fmlp_locks") (open_text ".fmlp_locks") FILE 15 T;
  od ← SYSCALL (open_fmlp_sem fd 0) "od = open_fmlp_sem(fd, 0)" FILE 17 T;
  SYSCALL_FAILS EPERM "EPERM" (litmus_lock od) "litmus_lock(od)" FILE 20 T;;
  SYSCALL_FAILS EINVAL "EINVAL" (litmus_unlock od) "litmus_unlock(od)" FILE 23 T;;
  SYSCALL (od_close od) "od_close(od)" FILE 25 T;;
  close_remove fd ".fmlp_locks" FILE 27 T.

(** Don't let best-effort tasks open SRP semaphores. *)
Definition test_not_lock_srp_be : M unit :=
  let T := "test_not_lock_srp_be" in
  fd ← SYSCALL (open_file ".srp_locks") (open_text ".srp_locks") FILE 38 T;
  SYSCALL_FAILS EPERM "EPERM" (open_srp_sem fd 0) "od = open_srp_sem(fd, 0)" FILE 42 T;;
  close_remove fd ".srp_locks" FILE 44 T.

(** SRP acquisition and release. *)
Definition test_lock_srp : M unit :=
  let T := "test_lock_srp" in
  fd ← SYSCALL (open_file ".srp_locks") (open_text ".srp_locks") FILE 55 T;
  become_rt (sporadic_partitioned (ms2ns 10) (ms2ns 100) 0)
    "sporadic_partitioned(ms2ns(10), ms2ns(100), 0)" FILE 57 T;;
  od ← SYSCALL (open_srp_sem fd 0) "od = open_srp_sem(fd, 0)" FILE 60 T;
  lock_unlock od "od" FILE 62 T;;
  lock_unlock od "od" FILE 65 T;;
  lock_unlock od "od" FILE 68 T;;
  SYSCALL_FAILS EINVAL "EINVAL" (litmus_unlock od) "litmus_unlock(od)" FILE 72 T;;
  SYSCALL (od_close od) "od_close(od)" FILE 74 T;;
  close_remove fd ".srp_locks" FILE 76 T.

(** FMLP acquisition and release. *)
Definition test_lock_fmlp : M unit :=
  let T := "test_lock_fmlp" in
  fd ← SYSCALL (open_file ".fmlp_locks") (open_text ".fmlp_locks") FILE 87 T;
  become_rt (sporadic_partitioned (ms2ns 10) (ms2ns 100) 0)
    "sporadic_partitioned(ms2ns(10), ms2ns(100), 0)" FILE 89 T;;
  od ← SYSCALL (open_fmlp_sem fd 0) "od = open_fmlp_sem(fd, 0)" FILE 92 T;
  lock_unlock od "od" FILE 94 T;;
  lock_unlock od "od" FILE 97 T;;
  lock_unlock od "od" FILE 100 T;;
  SYSCALL_FAILS EINVAL "EINVAL" (litmus_unlock od) "litmus_unlock(od)" FILE 104 T;;
  SYSCALL (od_close od) "od_close(od)" FILE 106 T;;
  close_remove fd ".fmlp_locks" FILE 108 T.

(** DFLP acquisition and release. *)
Definition test_lock_dflp : M unit :=
  let T := "test_lock_dflp" in
  let cpu := 1 in
  fd ← SYSCALL (open_file ".dflp_locks") (open_text ".dflp_locks") FILE 118 T;
  become_rt (sporadic_partitioned (ms2ns 10) (ms2ns 100) 0)
    "sporadic_partitioned(ms2ns(10), ms2ns(100), 0)" FILE 120 T;;
  od ← SYSCALL (open_dflp_sem fd 0 cpu) "od = open_dflp_sem(fd, 0, cpu)" FILE 123 T;
  lock_unlock od "od" FILE 125 T;;
  lock_unlock od "od" FILE 128 T;;
  lock_unlock od "od" FILE 131 T;;
  SYSCALL_FAILS EINVAL "EINVAL" (litmus_unlock od) "litmus_unlock(od)" FILE 135 T;;
  SYSCALL (od_close od) "od_close(od)" FILE 137 T;;
  close_remove fd ".dflp_locks" FILE 139 T.

(** DFLP reject bad CPU parameter. *)
Definition test_dflp_bad_cpu : M unit :=
  let T := "test_dflp_bad_cpu" in
  let cpu := 0xbadca5e in
  fd ← SYSCALL (open_file ".dflp_locks") (open_text ".dflp_locks") FILE 149 T;
  become_rt (sporadic_partitioned (ms2ns 10) (ms2ns 100) 0)
    "sporadic_partitioned(ms2ns(10), ms2ns(100), 0)" FILE 151 T;;
  SYSCALL_FAILS EINVAL "EINVAL" (open_dflp_sem fd 0 cpu) "open_dflp_sem(fd, 0, cpu)" FILE 154 T;;
  close_remove fd ".dflp_locks" FILE 156 T.

(** SRP task becomes non-RT task while holding lock. *)
Definition test_srp_lock_mode_change : M unit :=
  let T := "test_srp_lock_mode_change" in
  let params := init_rt_task_param in
  let params := with_cpu params 0 in
  let params := set_exec_cost params (ms2ns 10000) in
  let params := set_period params (ms2ns 100000) in
  let params := set_relative_deadline params (period params) in
  fd ← SYSCALL (open_file ".locks") (open_text ".locks") FILE 173 T;
  let params := set_priority params LITMUS_LOWEST_PRIORITY in
  start_rt params FILE 176 T;;
  od ← SYSCALL (open_srp_sem fd 0) "od = open_srp_sem(fd, 0)" FILE 180 T;
  SYSCALL (litmus_lock od) "litmus_lock(od)" FILE 182 T;;
  SYSCALL (task_mode BACKGROUND_TASK) "task_mode(BACKGROUND_TASK)" FILE 184 T;;
  be_migrate_to_cpu 1;;
  SYSCALL (litmus_unlock od) "litmus_unlock(od)" FILE 188 T;;
  SYSCALL (od_close od) "od_close(od)" FILE 190 T;;
  close_remove fd ".locks" FILE 192 T.

(** DFLP task becomes non-RT task while holding lock. *)
Definition test_dflp_lock_mode_change : M unit :=
  let T := "test_dflp_lock_mode_change" in
  let cpu := 0 in
  let params := init_rt_task_param in
  let params := with_cpu params 1 in
  let params := set_exec_cost params (ms2ns 10000) in
  let params := set_period params (ms2ns 100000) in
  let params := set_relative_deadline params (period params) in
  fd ← SYSCALL (open_file ".locks") (open_text ".locks") FILE 209 T;
  let params := set_priority params LITMUS_LOWEST_PRIORITY in
  start_rt params FILE 212 T;;
  od ← SYSCALL (open_dflp_sem fd 0 cpu) "od = open_dflp_sem(fd, 0, cpu)" FILE 216 T;
  SYSCALL (litmus_lock od) "litmus_lock(od)" FILE 218 T;;
  SYSCALL (task_mode BACKGROUND_TASK) "task_mode(BACKGROUND_TASK)" FILE 220 T;;
  be_migrate_to_cpu 2;;
  SYSCALL (litmus_unlock od) "litmus_unlock(od)" FILE 224 T;;
  SYSCALL (od_close od) "od_close(od)" FILE 226 T;;
  close_remove fd ".locks" FILE 228 T.

(** FMLP task becomes non-RT task while holding lock. *)
Definition test_fmlp_lock_mode_change : M unit :=
  let T := "test_fmlp_lock_mode_change" in
  let params := init_rt_task_param in
  let params := with_cpu params 0 in
  let params := set_exec_cost params (ms2ns 10000) in
  let params := set_period params (ms2ns 100000) in
  let params := set_relative_deadline params (period params) in
  fd ← SYSCALL (open_file ".locks") (open_text ".locks") FILE 247 T;
  child ← FORK_TASK (
    let params := set_priority params LITMUS_LOWEST_PRIORITY in
    start_rt params FILE 252 T;;
    od ← SYSCALL (open_fmlp_sem fd 0) "od = open_fmlp_sem(fd, 0)" FILE 256 T;
    SYSCALL (litmus_lock od) "litmus_lock(od)" FILE 258 T;;
    SYSCALL (task_mode BACKGROUND_TASK) "task_mode(BACKGROUND_TASK)" FILE 260 T;;
    SYSCALL (litmus_unlock od) "litmus_unlock(od)" FILE 262 T;;
    SYSCALL (od_close od) "od_close(od)" FILE 264 T;;
    exit_ 0);
  status ← wait_for child status "waitpid(child, &status, 0)" FILE 269 T;
  ASSERT (WIFEXITED status) "WIFEXITED(status)" FILE 270 T;;
  ASSERT (WEXITSTATUS status =? 0) "WEXITSTATUS(status) == 0" FILE 271 T;;
  close_remove fd ".locks" FILE 273 T.

(** SRP task exits while holding lock. *)
Definition test_srp_lock_teardown : M unit :=
  let T := "test_srp_lock_teardown" in
  let params := init_rt_task_param in
  let params := with_cpu params 0 in
  let params := set_exec_cost params (ms2ns 10000) in
  let params := set_period params (ms2ns 100000) in
  let params := set_relative_deadline params (period params) in
  fd ← SYSCALL (open_file ".locks") (open_text ".locks") FILE 292 T;
  (exit_ 0 : M unit);;
  child ← FORK_TASK (
    let params := set_priority params LITMUS_LOWEST_PRIORITY in
    start_rt params FILE 298 T;;
    od ← SYSCALL (open_srp_sem fd 0) "od = open_srp_sem(fd, 0)" FILE 302 T;
    SYSCALL (litmus_lock od) "litmus_lock(od)" FILE 304 T;;
    exit_ 123);
  status ← wait_for child status "waitpid(child, &status, 0)" FILE 308 T;
  ASSERT (WIFEXITED status) "WIFEXITED(status)" FILE 309 T;;
  ASSERT (WEXITSTATUS status =? 123) "WEXITSTATUS(status) == 123" FILE 310 T;;
  close_remove fd ".locks" FILE 312 T.

(** FMLP task exits while holding lock. *)
Definition test_fmlp_lock_teardown : M unit :=
  let T := "test_fmlp_lock_teardown" in
  let params := init_rt_task_param in
  let params := with_cpu params 0 in
  let params := set_exec_cost params (ms2ns 10000) in
  let params := set_period params (ms2ns 100000) in
  let params := set_relative_deadline params (period params) in
  fd ← SYSCALL (open_file ".locks") (open_text ".locks") FILE 331 T;
  (exit_ 0 : M unit);;
  child ← FORK_TASK (
    let params := set_priority params LITMUS_LOWEST_PRIORITY in
    start_rt params FILE 337 T;;
    od ← SYSCALL (open_fmlp_sem fd 0) "od = open_fmlp_sem(fd, 0)" FILE 341 T;
    SYSCALL (litmus_lock od) "litmus_lock(od)" FILE 343 T;;
    exit_ 123);
  status ← wait_for child status "waitpid(child, &status, 0)" FILE 347 T;
  ASSERT (WIFEXITED status) "WIFEXITED(status)" FILE 348 T;;
  ASSERT (WEXITSTATUS status =? 123) "WEXITSTATUS(status) == 123" FILE 349 T;;
  close_remove fd ".locks" FILE 351 T.

(** DFLP task exits while holding lock. *)
Definition test_dflp_lock_teardown : M unit :=
  let T := "test_dflp_lock_teardown" in
  let cpu := 0 in
  let params := init_rt_task_param in
  let params := with_cpu params 1 in
  let params := set_exec_cost params (ms2ns 10000) in
  let params := set_period params (ms2ns 100000) in
  let params := set_relative_deadline params (period params) in
  fd ← SYSCALL (open_file ".locks") (open_text ".locks") FILE 370 T;
  (exit_ 0 : M unit);;
  child ← FORK_TASK (
    let params := set_priority params LITMUS_LOWEST_PRIORITY in
    start_rt params FILE 376 T;;
    od ← SYSCALL (open_dflp_sem fd 0 cpu) "od = open_dflp_sem(fd, 0, cpu)" FILE 380 T;
    SYSCALL (litmus_lock od) "litmus_lock(od)" FILE 382 T;;
    exit_ 123);
  status ← wait_for child status "waitpid(child, &status, 0)" FILE 386 T;
  ASSERT (WIFEXITED status) "WIFEXITED(status)" FILE 387 T;;
  ASSERT (WEXITSTATUS status =? 123) "WEXITSTATUS(status) == 123" FILE 388 T;;
  close_remove fd ".locks" FILE 390 T.
End tests.
