(* ===== verification/TestNesting.v ===== *)
(** * tests/nesting.c: which semaphores a task may hold together. *)
From S2P Require Import Prelude Machine CString Laws Iface Syscalls Migration Litmus Runner Tests.

Definition FILE : string := "tests/nesting.c".

Section tests.
Context {K : Kernel} {H : KernelHeader}.

(** FMLP no nesting allowed. *)
Definition test_lock_fmlp_nesting : M unit :=
  let T := "test_lock_fmlp_nesting" in
  fd ← SYSCALL (open_file ".fmlp_locks") (open_text ".fmlp_locks") FILE 13 T;
  become_rt (sporadic_partitioned 10 100 0) "sporadic_partitioned(10, 100, 0)" FILE 15 T;;
  od ← SYSCALL (open_fmlp_sem fd 0) "od = open_fmlp_sem(fd, 0)" FILE 18 T;
  od2 ← SYSCALL (open_fmlp_sem fd 1) "od2 = open_fmlp_sem(fd, 1)" FILE 19 T;
  lock_unlock od "od" FILE 21 T;;
  lock_unlock od2 "od2" FILE 24 T;;
  nested_busy od "od" od2 "od2" FILE 27 T;;
  nested_busy od2 "od2" od "od" FILE 31 T;;
  SYSCALL (od_close od) "od_close(od)" FILE 35 T;;
  SYSCALL (od_close od2) "od_close(od2)" FILE 36 T;;
  close_remove fd ".fmlp_locks" FILE 38 T.

(** FMLP no nesting with SRP resources allowed. *)
Definition test_lock_fmlp_srp_nesting : M unit :=
  let T := "test_lock_fmlp_srp_nesting" in
  fd ← SYSCALL (open_file ".fmlp_locks") (open_text ".fmlp_locks") FILE 48 T;
  become_rt (sporadic_partitioned 10 100 0) "sporadic_partitioned(10, 100, 0)" FILE 50 T;;
  od ← SYSCALL (open_fmlp_sem fd 0) "od = open_fmlp_sem(fd, 0)" FILE 53 T;
  od2 ← SYSCALL (open_srp_sem fd 1) "od2 = open_srp_sem(fd, 1)" FILE 54 T;
  lock_unlock od "od" FILE 56 T;;
  lock_unlock od2 "od2" FILE 59 T;;
  nested_busy od "od" od2 "od2" FILE 62 T;;
  nested_busy od2 "od2" od "od" FILE 66 T;;
  SYSCALL (od_close od) "od_close(od)" FILE 70 T;;
  SYSCALL (od_close od2) "od_close(od2)" FILE 71 T;;
  close_remove fd ".fmlp_locks" FILE 73 T.

(** SRP nesting allowed. *)
Definition test_lock_srp_nesting : M unit :=
  let T := "test_lock_srp_nesting" in
  fd ← SYSCALL (open_file ".fmlp_locks") (open_text ".fmlp_locks") FILE 83 T;
  become_rt (sporadic_partitioned 10 100 0) "sporadic_partitioned(10, 100, 0)" FILE 85 T;;
  od ← SYSCALL (open_srp_sem fd 0) "od = open_srp_sem(fd, 0)" FILE 88 T;
  od2 ← SYSCALL (open_srp_sem fd 1) "od2 = open_srp_sem(fd, 1)" FILE 89 T;
  lock_unlock od "od" FILE 91 T;;
  lock_unlock od2 "od2" FILE 94 T;;
  nested_ok od "od" od2 "od2" FILE 97 T;;
  nested_ok od2 "od2" od "od" FILE 102 T;;
  SYSCALL (od_close od) "od_close(od)" FILE 107 T;;
  SYSCALL (od_close od2) "od_close(od2)" FILE 108 T;;
  close_remove fd ".fmlp_locks" FILE 110 T.

(** PCP nesting allowed. *)
Definition test_lock_pcp_nesting : M unit :=
  let T := "test_lock_pcp_nesting" in
  let namespace := ".pcp_locks" in
  become_rt (sporadic_partitioned 10 100 0) "sporadic_partitioned(10, 100, 0)" FILE 121 T;;
  od ← SYSCALL (litmus_open_lock (obj_id PCP_SEM) 0 namespace None)
    "od = litmus_open_lock(PCP_SEM, 0, namespace, NULL)" FILE 124 T;
  od2 ← SYSCALL (litmus_open_lock (obj_id PCP_SEM) 1 namespace None)
    "od2 = litmus_open_lock(PCP_SEM, 1, namespace, NULL)" FILE 125 T;
  lock_unlock od "od" FILE 127 T;;
  lock_unlock od2 "od2" FILE 130 T;;
  nested_ok od "od" od2 "od2" FILE 133 T;;
  nested_ok od2 "od2" od "od" FILE 138 T;;
  SYSCALL (od_close od) "od_close(od)" FILE 143 T;;
  SYSCALL (od_close od2) "od_close(od2)" FILE 144 T;;
  SYSCALL (remove namespace) "remove(namespace)" FILE 146 T;;
  mret tt.

(** PCP and MPCP nesting not allowed. *)
Definition test_lock_mpcp_pcp_no_nesting : M unit :=
  let T := "test_lock_mpcp_pcp_no_nesting" in
  let namespace := ".pcp_locks" in
  become_rt (sporadic_partitioned 10 100 0) "sporadic_partitioned(10, 100, 0)" FILE 155 T;;
  od ← SYSCALL (litmus_open_lock (obj_id PCP_SEM) 0 namespace None)
    "od = litmus_open_lock(PCP_SEM, 0, namespace, NULL)" FILE 158 T;
  od2 ← SYSCALL (litmus_open_lock (obj_id MPCP_SEM) 1 namespace None)
    "od2 = litmus_open_lock(MPCP_SEM, 1, namespace, NULL)" FILE 159 T;
  lock_unlock od "od" FILE 161 T;;
  lock_unlock od2 "od2" FILE 164 T;;
  nested_busy od "od" od2 "od2" FILE 167 T;;
  nested_busy od2 "od2" od "od" FILE 171 T;;
  SYSCALL (od_close od) "od_close(od)" FILE 175 T;;
  SYSCALL (od_close od2) "od_close(od2)" FILE 176 T;;
  SYSCALL (remove namespace) "remove(namespace)" FILE 178 T;;
  mret tt.

(** PCP and FMLP nesting not allowed. *)
Definition test_lock_fmlp_pcp_no_nesting : M unit :=
  let T := "test_lock_fmlp_pcp_no_nesting" in
  let namespace := ".pcp_locks" in
  become_rt (sporadic_partitioned 10 100 0) "sporadic_partitioned(10, 100, 0)" FILE 187 T;;
  od ← SYSCALL (litmus_open_lock (obj_id PCP_SEM) 0 namespace None)
    "od = litmus_open_lock(PCP_SEM, 0, namespace, NULL)" FILE 190 T;
  od2 ← SYSCALL (litmus_open_lock (obj_id FMLP_SEM) 1 namespace None)
    "od2 = litmus_open_lock(FMLP_SEM, 1, namespace, NULL)" FILE 191 T;
  lock_unlock od "od" FILE 193 T;;
  lock_unlock od2 "od2" FILE 196 T;;
  nested_busy od "od" od2 "od2" FILE 199 T;;
  nested_busy od2 "od2" od "od" FILE 203 T;;
  SYSCALL (od_close od) "od_close(od)" FILE 207 T;;
  SYSCALL (od_close od2) "od_close(od2)" FILE 208 T;;
  SYSCALL (remove namespace) "remove(namespace)" FILE 210 T;;
  mret tt.

(** PCP and DPCP nesting not allowed. *)
Definition test_lock_dpcp_pcp_no_nesting : M unit :=
  let T := "test_lock_dpcp_pcp_no_nesting" in
  let cpu := 0 in
  let namespace := ".pcp_locks" in
  become_rt (sporadic_partitioned 10 100 0) "sporadic_partitioned(10, 100, 0)" FILE 220 T;;
  od ← SYSCALL (litmus_open_lock (obj_id PCP_SEM) 0 namespace None)
    "od = litmus_open_lock(PCP_SEM, 0, namespace, NULL)" FILE 223 T;
  od2 ← SYSCALL (litmus_open_lock (obj_id DPCP_SEM) 1 namespace (Some cpu))
    "od2 = litmus_open_lock(DPCP_SEM, 1, namespace, &cpu)" FILE 224 T;
  lock_unlock od "od" FILE 226 T;;
  lock_unlock od2 "od2" FILE 229 T;;
  nested_busy od "od" od2 "od2" FILE 232 T;;
  nested_busy od2 "od2" od "od" FILE 236 T;;
  SYSCALL (od_close od) "od_close(od)" FILE 240 T;;
  SYSCALL (od_close od2) "od_close(od2)" FILE 241 T;;
  SYSCALL (remove namespace) "remove(namespace)" FILE 243 T;;
  mret tt.

(** SRP and MPCP nesting not allowed. *)
Definition test_lock_mpcp_srp_no_nesting : M unit :=
  let T := "test_lock_mpcp_srp_no_nesting" in
  let namespace := ".pcp_locks" in
  become_rt (sporadic_partitioned 10 100 0) "sporadic_partitioned(10, 100, 0)" FILE 252 T;;
  od ← SYSCALL (litmus_open_lock (obj_id SRP_SEM) 0 namespace None)
    "od = litmus_open_lock(SRP_SEM, 0, namespace, NULL)" FILE 255 T;
  od2 ← SYSCALL (litmus_open_lock (obj_id MPCP_SEM) 1 namespace None)
    "od2 = litmus_open_lock(MPCP_SEM, 1, namespace, NULL)" FILE 256 T;
  lock_unlock od "od" FILE 258 T;;
  lock_unlock od2 "od2" FILE 261 T;;
  nested_busy od "od" od2 "od2" FILE 264 T;;
  nested_busy od2 "od2" od "od" FILE 268 T;;
  SYSCALL (od_close od) "od_close(od)" FILE 272 T;;
  SYSCALL (od_close od2) "od_close(od2)" FILE 273 T;;
  SYSCALL (remove namespace) "remove(namespace)" FILE 275 T;;
  mret tt.

(** SRP and DPCP nesting not allowed. *)
Definition test_lock_dpcp_srp_no_nesting : M unit :=
  let T := "test_lock_dpcp_srp_no_nesting" in
  let cpu := 0 in
  let namespace := ".pcp_locks" in
  become_rt (sporadic_partitioned 10 100 0) "sporadic_partitioned(10, 100, 0)" FILE 285 T;;
  od ← SYSCALL (litmus_open_lock (obj_id SRP_SEM) 0 namespace None)
    "od = litmus_open_lock(SRP_SEM, 0, namespace, NULL)" FILE 288 T;
  od2 ← SYSCALL (litmus_open_lock (obj_id DPCP_SEM) 1 namespace (Some cpu))
    "od2 = litmus_open_lock(DPCP_SEM, 1, namespace, &cpu)" FILE 289 T;
  lock_unlock od "od" FILE 291 T;;
  lock_unlock od2 "od2" FILE 294 T;;
  nested_busy od "od" od2 "od2" FILE 297 T;;
  nested_busy od2 "od2" od "od" FILE 301 T;;
  SYSCALL (od_close od) "od_close(od)" FILE 305 T;;
  SYSCALL (od_close od2) "od_close(od2)" FILE 306 T;;
  SYSCALL (remove namespace) "remove(namespace)" FILE 308 T;;
  mret tt.

(** MPCP and FMLP nesting not allowed. *)
Definition test_lock_fmlp_mpcp_no_nesting : M unit :=
  let T := "test_lock_fmlp_mpcp_no_nesting" in
  let namespace := ".pcp_locks" in
  become_rt (sporadic_partitioned 10 100 0) "sporadic_partitioned(10, 100, 0)" FILE 317 T;;
  od ← SYSCALL (litmus_open_lock (obj_id MPCP_SEM) 0 namespace None)
    "od = litmus_open_lock(MPCP_SEM, 0, namespace, NULL)" FILE 320 T;
  od2 ← SYSCALL (litmus_open_lock (obj_id FMLP_SEM) 1 namespace None)
    "od2 = litmus_open_lock(FMLP_SEM, 1, namespace, NULL)" FILE 321 T;
  lock_unlock od "od" FILE 323 T;;
  lock_unlock od2 "od2" FILE 326 T;;
  nested_busy od "od" od2 "od2" FILE 329 T;;
  nested_busy od2 "od2" od "od" FILE 333 T;;
  SYSCALL (od_close od) "od_close(od)" FILE 337 T;;
  SYSCALL (od_close od2) "od_close(od2)" FILE 338 T;;
  SYSCALL (remove namespace) "remove(namespace)" FILE 340 T;;
  mret tt.

(** DPCP and FMLP nesting not allowed. *)
Definition test_lock_fmlp_dpcp_no_nesting : M unit :=
  let T := "test_lock_fmlp_dpcp_no_nesting" in
  let namespace := ".pcp_locks" in
  let cpu := 0 in
  become_rt (sporadic_partitioned 10 100 0) "sporadic_partitioned(10, 100, 0)" FILE 350 T;;
  od ← SYSCALL (litmus_open_lock (obj_id DPCP_SEM) 0 namespace (Some cpu))
    "od = litmus_open_lock(DPCP_SEM, 0, namespace, &cpu)" FILE 353 T;
  od2 ← SYSCALL (litmus_open_lock (obj_id FMLP_SEM) 1 namespace None)
    "od2 = litmus_open_lock(FMLP_SEM, 1, namespace, NULL)" FILE 354 T;
  lock_unlock od "od" FILE 356 T;;
  lock_unlock od2 "od2" FILE 359 T;;
  nested_busy od "od" od2 "od2" FILE 362 T;;
  nested_busy od2 "od2" od "od" FILE 366 T;;
  SYSCALL (od_close od) "od_close(od)" FILE 370 T;;
  SYSCALL (od_close od2) "od_close(od2)" FILE 371 T;;
  SYSCALL (remove namespace) "remove(namespace)" FILE 373 T;;
  mret tt.

(** MPCP no nesting allowed. *)
Definition test_mpcp_nesting : M unit :=
  let T := "test_mpcp_nesting" in
  become_rt (sporadic_partitioned 10 100 0) "sporadic_partitioned(10, 100, 0)" FILE 381 T;;
  od ← SYSCALL (litmus_open_lock (obj_id MPCP_SEM) 0 ".mpcp_locks" None)
    ("od = litmus_open_lock(MPCP_SEM, 0, " +:+ quoted ".mpcp_locks" +:+ ", NULL)") FILE 384 T;
  od2 ← SYSCALL (litmus_open_lock (obj_id MPCP_SEM) 1 ".mpcp_locks" None)
    ("od2 = litmus_open_lock(MPCP_SEM, 1, " +:+ quoted ".mpcp_locks" +:+ ", NULL)") FILE 385 T;
  lock_unlock od "od" FILE 387 T;;
  lock_unlock od2 "od2" FILE 390 T;;
  nested_busy od "od" od2 "od2" FILE 393 T;;
  nested_busy od2 "od2" od "od" FILE 397 T;;
  SYSCALL (od_close od) "od_close(od)" FILE 401 T;;
  SYSCALL (od_close od2) "od_close(od2)" FILE 402 T;;
  SYSCALL (remove ".mpcp_locks") (remove_text ".mpcp_locks") FILE 404 T;;
  mret tt.

(** MPCP-VS no nesting allowed. *)
Definition test_mpcpvs_nesting : M unit :=
  let T := "test_mpcpvs_nesting" in
  become_rt (sporadic_partitioned 10 100 0) "sporadic_partitioned(10, 100, 0)" FILE 412 T;;
  od ← SYSCALL (litmus_open_lock (obj_id MPCP_VS_SEM) 0 ".mpcp_locks" None)
    ("od = litmus_open_lock(MPCP_VS_SEM, 0, " +:+ quoted ".mpcp_locks" +:+ ", NULL)") FILE 415 T;
  od2 ← SYSCALL (litmus_open_lock (obj_id MPCP_VS_SEM) 1 ".mpcp_locks" None)
    ("od2 = litmus_open_lock(MPCP_VS_SEM, 1, " +:+ quoted ".mpcp_locks" +:+ ", NULL)") FILE 416 T;
  lock_unlock od "od" FILE 418 T;;
  lock_unlock od2 "od2" FILE 421 T;;
  nested_busy od "od" od2 "od2" FILE 424 T;;
  nested_busy od2 "od2" od "od" FILE 428 T;;
  SYSCALL (od_close od) "od_close(od)" FILE 432 T;;
  SYSCALL (od_close od2) "od_close(od2)" FILE 433 T;;
  SYSCALL (remove ".mpcp_locks") (remove_text ".mpcp_locks") FILE 435 T;;
  mret tt.

(** DPCP no nesting allowed. *)
Definition test_dpcp_nesting : M unit :=
  let T := "test_dpcp_nesting" in
  let cpu := 0 in
  become_rt (sporadic_partitioned 10 100 0) "sporadic_partitioned(10, 100, 0)" FILE 444 T;;
  od ← SYSCALL (litmus_open_lock (obj_id DPCP_SEM) 0 ".dpcp_locks" (Some cpu))
    ("od = litmus_open_lock(DPCP_SEM, 0, " +:+ quoted ".dpcp_locks" +:+ ", &cpu)") FILE 447 T;
  od2 ← SYSCALL (litmus_open_lock (obj_id DPCP_SEM) 1 ".dpcp_locks" (Some cpu))
    ("od2 = litmus_open_lock(DPCP_SEM, 1, " +:+ quoted ".dpcp_locks" +:+ ", &cpu)") FILE 448 T;
  lock_unlock od "od" FILE 450 T;;
  lock_unlock od2 "od2" FILE 453 T;;
  nested_busy od "od" od2 "od2" FILE 456 T;;
  nested_busy od2 "od2" od "od" FILE 460 T;;
  SYSCALL (od_close od) "od_close(od)" FILE 464 T;;
  SYSCALL (od_close od2) "od_close(od2)" FILE 465 T;;
  SYSCALL (remove ".dpcp_locks") (remove_text ".dpcp_locks") FILE 467 T;;
  mret tt.

(** DFLP no nesting allowed. *)
Definition test_dflp_nesting : M unit :=
  let T := "test_dflp_nesting" in
  let cpu := 0 in
  become_rt (sporadic_partitioned 10 100 0) "sporadic_partitioned(10, 100, 0)" FILE 476 T;;
  od ← SYSCALL (litmus_open_lock (obj_id DFLP_SEM) 0 ".dflp_locks" (Some cpu))
    ("od = litmus_open_lock(DFLP_SEM, 0, " +:+ quoted ".dflp_locks" +:+ ", &cpu)") FILE 479 T;
  od2 ← SYSCALL (litmus_open_lock (obj_id DFLP_SEM) 1 ".dflp_locks" (Some cpu))
    ("od2 = litmus_open_lock(DFLP_SEM, 1, " +:+ quoted ".dflp_locks" +:+ ", &cpu)") FILE 480 T;
  lock_unlock od "od" FILE 482 T;;
  lock_unlock od2 "od2" FILE 485 T;;
  nested_busy od "od" od2 "od2" FILE 488 T;;
  nested_busy od2 "od2" od "od" FILE 492 T;;
  SYSCALL (od_close od) "od_close(od)" FILE 496 T;;
  SYSCALL (od_close od2) "od_close(od2)" FILE 497 T;;
  SYSCALL (remove ".dflp_locks") (remove_text ".dflp_locks") FILE 499 T;;
  mret tt.

(** DFLP and FMLP nesting not allowed. *)
Definition test_lock_fmlp_dflp_no_nesting : M unit :=
  let T := "test_lock_fmlp_dflp_no_nesting" in
  let namespace := ".locks" in
  let cpu := 0 in
  become_rt (sporadic_partitioned 10 100 0) "sporadic_partitioned(10, 100, 0)" FILE 509 T;;
  od ← SYSCALL (litmus_open_lock (obj_id DFLP_SEM) 0 namespace (Some cpu))
    "od = litmus_open_lock(DFLP_SEM, 0, namespace, &cpu)" FILE 512 T;
  od2 ← SYSCALL (litmus_open_lock (obj_id FMLP_SEM) 1 namespace None)
    "od2 = litmus_open_lock(FMLP_SEM, 1, namespace, NULL)" FILE 513 T;
  lock_unlock od "od" FILE 515 T;;
  lock_unlock od2 "od2" FILE 518 T;;
  nested_busy od "od" od2 "od2" FILE 521 T;;
  nested_busy od2 "od2" od "od" FILE 525 T;;
  SYSCALL (od_close od) "od_close(od)" FILE 529 T;;
  SYSCALL (od_close od2) "od_close(od2)" FILE 530 T;;
  SYSCALL (remove namespace) "remove(namespace)" FILE 532 T;;
  mret tt.

(** PCP and DFLP nesting not allowed. *)
Definition test_lock_dflp_pcp_no_nesting : M unit :=
  let T := "test_lock_dflp_pcp_no_nesting" in
  let cpu := 0 in
  let namespace := ".locks" in
  become_rt (sporadic_partitioned 10 100 0) "sporadic_partitioned(10, 100, 0)" FILE 542 T;;
  od ← SYSCALL (litmus_open_lock (obj_id PCP_SEM) 0 namespace None)
    "od = litmus_open_lock(PCP_SEM, 0, namespace, NULL)" FILE 545 T;
  od2 ← SYSCALL (litmus_open_lock (obj_id DFLP_SEM) 1 namespace (Some cpu))
    "od2 = litmus_open_lock(DFLP_SEM, 1, namespace, &cpu)" FILE 546 T;
  lock_unlock od "od" FILE 548 T;;
  lock_unlock od2 "od2" FILE 551 T;;
  nested_busy od "od" od2 "od2" FILE 554 T;;
  nested_busy od2 "od2" od "od" FILE 558 T;;
  SYSCALL (od_close od) "od_close(od)" FILE 562 T;;
  SYSCALL (od_close od2) "od_close(od2)" FILE 563 T;;
  SYSCALL (remove namespace) "remove(namespace)" FILE 565 T;;
  mret tt.
End tests.
