(* ===== verification/TestFdso.v ===== *)
(** * tests/fdso.c: object descriptors.  [status] is what the variable holds before the first [waitpid]. *)
From S2P Require Import Prelude Machine CString Laws Iface Syscalls Migration Litmus Runner Tests.

Definition FILE : string := "tests/fdso.c".

Section tests.
Context {K : Kernel} {H : KernelHeader} (status : Z).

(** Don't open FMLP semaphores if FMLP is not supported. *)
Definition test_fmlp_not_active : M unit :=
  let T := "test_fmlp_not_active" in
  fd ← SYSCALL (open_file ".fmlp_locks") (open_text ".fmlp_locks") FILE 19 T;
  ASSERT (negb (fd =? -1)) "fd != -1" FILE 21 T;;
  SYSCALL_FAILS ENXIO "ENXIO" (open_fmlp_sem fd 0) "open_fmlp_sem(fd, 0)" FILE 23 T;;
  close_remove fd ".fmlp_locks" FILE 25 T.

(** Reject invalid object descriptors. *)
Definition test_invalid_od : M unit :=
  let T := "test_invalid_od" in
  SYSCALL_FAILS EINVAL "EINVAL" (litmus_lock 3) "litmus_lock(3)" FILE 34 T;;
  SYSCALL_FAILS EINVAL "EINVAL" (litmus_unlock 3) "litmus_unlock(3)" FILE 36 T;;
  SYSCALL_FAILS EINVAL "EINVAL" (od_close 3) "od_close(3)" FILE 38 T;;
  SYSCALL_FAILS EINVAL "EINVAL" (litmus_lock (-1)) "litmus_lock(-1)" FILE 41 T;;
  SYSCALL_FAILS EINVAL "EINVAL" (litmus_unlock (-1)) "litmus_unlock(-1)" FILE 43 T;;
  SYSCALL_FAILS EINVAL "EINVAL" (od_close (-1)) "od_close(-1)" FILE 45 T;;
  mret tt.

(** Reject invalid object types. *)
Definition test_invalid_obj_type : M unit :=
  let T := "test_invalid_obj_type" in
  SYSCALL_FAILS EINVAL "EINVAL" (od_open 0 (-1) 0) "od_open(0, -1, 0)" FILE 51 T;;
  SYSCALL_FAILS EINVAL "EINVAL" (od_open 0 10 0) "od_open(0, 10, 0)" FILE 52 T;;
  mret tt.

(** Don't inherit FDSO handles across fork. *)
Definition test_not_inherit_od : M unit :=
  let T := "test_not_inherit_od" in
  fd ← SYSCALL (open_file ".fmlp_locks") (open_text ".fmlp_locks") FILE 60 T;
  od ← SYSCALL (open_fmlp_sem fd 0) "od = open_fmlp_sem(fd, 0)" FILE 62 T;
  pid ← syscall Fork;
  ASSERT (negb (pid =? -1)) "pid != -1" FILE 66 T;;
  become_rt (sporadic_partitioned (ms2ns 10) (ms2ns 100) 0)
    "sporadic_partitioned(ms2ns(10), ms2ns(100), 0)" FILE 69 T;;
  (if pid =? 0 then
     SYSCALL_FAILS EINVAL "EINVAL" (litmus_lock od) "litmus_lock(od)" FILE 74 T;;
     SYSCALL_FAILS EINVAL "EINVAL" (litmus_unlock od) "litmus_unlock(od)" FILE 75 T;;
     SYSCALL (task_mode BACKGROUND_TASK) "task_mode(BACKGROUND_TASK)" FILE 77 T;;
     exit_ 0
   else
     lock_unlock od "od" FILE 82 T;;
     lock_unlock od "od" FILE 85 T;;
     SYSCALL (task_mode BACKGROUND_TASK) "task_mode(BACKGROUND_TASK)" FILE 88 T;;
     status ← wait_for pid status "waitpid(pid, &status, 0)" FILE 90 T;
     ASSERT (WEXITSTATUS status =? 0) "WEXITSTATUS(status) == 0" FILE 92 T);;
  SYSCALL (od_close od) "od_close(od)" FILE 95 T;;
  close_remove fd ".fmlp_locks" FILE 97 T.
End tests.
