(* ===== verification/TestCoreApi.v ===== *)
(** * tests/core_api.c: parameters, job control, the control page and admission.  [pipefd] and
    [status] are what the variables hold before they are assigned. *)
From S2P Require Import Prelude Machine CString Laws Iface Syscalls Migration Litmus Clocks Runner Tests.

Definition FILE : string := "tests/core_api.c".

Section tests.
Context {K : Kernel} {H : KernelHeader} (fuel : nat) (pipefd : Z * Z) (status : Z).

(** Reject invalid rt_task pointers. *)
Definition test_set_rt_task_param_invalid_pointer : M unit :=
  let T := "test_set_rt_task_param_invalid_pointer" in
  SYSCALL_FAILS EINVAL "EINVAL" (set_own_param None) "set_rt_task_param(gettid(), NULL)" FILE 14 T;;
  SYSCALL_FAILS EFAULT "EFAULT" (set_own_param_at 0x123) "set_rt_task_param(gettid(), (void*) 0x123 )"
    FILE 16 T;;
  mret tt.

(** Reject invalid rt_task values. *)
Definition test_set_rt_task_param_invalid_params : M unit :=
  let T := "test_set_rt_task_param_invalid_params" in
  let params := init_rt_task_param in
  let params := with_cpu params 0 in
  let params := set_period params 100 in
  let params := set_relative_deadline params (period params) in
  let params := set_phase params 0 in
  let params := set_priority params LITMUS_LOWEST_PRIORITY in
  let params := set_cls params RT_CLASS_HARD in
  let params := set_budget_policy params NO_ENFORCEMENT in
  let params := set_exec_cost params 110 in
  SYSCALL_FAILS EINVAL "EINVAL" (set_own_param (Some params)) "set_rt_task_param(gettid(), &params)" FILE 34 T;;
  let params := set_exec_cost params 90 in
  let params := with_cpu params 0 in
  let params := set_relative_deadline params 30 in
  SYSCALL_FAILS EINVAL "EINVAL" (set_own_param (Some params)) "set_rt_task_param(gettid(), &params)" FILE 40 T;;
  let params := set_relative_deadline params (period params) in
  SYSCALL_FAILS EINVAL "EINVAL" (set_rt_task_param (-1) (Some params)) "set_rt_task_param(-1, &params)"
    FILE 44 T;;
  SYSCALL (set_own_param (Some params)) "set_rt_task_param(gettid(), &params)" FILE 48 T;;
  mret tt.

(** Reject invalid priorities. *)
Definition test_reject_bad_priorities : M unit :=
  let T := "test_reject_bad_priorities" in
  let params := init_rt_task_param in
  let params := with_cpu params 0 in
  let params := set_exec_cost params 10 in
  let params := set_period params 100 in
  let params := set_relative_deadline params (period params) in
  let params := set_phase params 0 in
  let params := set_cls params RT_CLASS_HARD in
  let params := set_budget_policy params NO_ENFORCEMENT in
  SYSCALL (be_migrate_to_cpu (s32 (cpu params))) "be_migrate_to_cpu(params.cpu)" FILE 64 T;;
  let params := set_priority params 0 in
  SYSCALL (set_own_param (Some params)) "set_rt_task_param(gettid(), &params)" FILE 68 T;;
  SYSCALL_FAILS EINVAL "EINVAL" (task_mode LITMUS_RT_TASK) "task_mode(LITMUS_RT_TASK)" FILE 69 T;;
  let params := set_priority params LITMUS_MAX_PRIORITY in
  SYSCALL (set_own_param (Some params)) "set_rt_task_param(gettid(), &params)" FILE 73 T;;
  SYSCALL_FAILS EINVAL "EINVAL" (task_mode LITMUS_RT_TASK) "task_mode(LITMUS_RT_TASK)" FILE 74 T;;
  mret tt.

(** Accept lowest and highest valid priorities. *)
Definition test_accept_valid_priorities : M unit :=
  let T := "test_accept_valid_priorities" in
  let params := init_rt_task_param in
  let params := with_cpu params 0 in
  let params := set_exec_cost params 10 in
  let params := set_period params 100 in
  let params := set_relative_deadline params (period params) in
  let params := set_phase params 0 in
  let params := set_cls params RT_CLASS_HARD in
  let params := set_budget_policy params NO_ENFORCEMENT in
  SYSCALL (be_migrate_to_cpu (s32 (cpu params))) "be_migrate_to_cpu(params.cpu)" FILE 91 T;;
  let params := set_priority params LITMUS_LOWEST_PRIORITY in
  SYSCALL (set_own_param (Some params)) "set_rt_task_param(gettid(), &params)" FILE 95 T;;
  SYSCALL (task_mode LITMUS_RT_TASK) "task_mode(LITMUS_RT_TASK)" FILE 96 T;;
  SYSCALL (task_mode BACKGROUND_TASK) "task_mode(BACKGROUND_TASK)" FILE 97 T;;
  let params := set_priority params LITMUS_HIGHEST_PRIORITY in
  SYSCALL (set_own_param (Some params)) "set_rt_task_param(gettid(), &params)" FILE 100 T;;
  SYSCALL (task_mode LITMUS_RT_TASK) "task_mode(LITMUS_RT_TASK)" FILE 101 T;;
  SYSCALL (task_mode BACKGROUND_TASK) "task_mode(BACKGROUND_TASK)" FILE 102 T;;
  mret tt.

(** Reject job control for non-rt tasks. *)
Definition test_job_control_non_rt : M unit :=
  let T := "test_job_control_non_rt" in
  SYSCALL_FAILS EINVAL "EINVAL" sleep_next_period "sleep_next_period()" FILE 110 T;;
  SYSCALL_FAILS EINVAL "EINVAL" (wait_for_job_release 0) "wait_for_job_release(0)" FILE 112 T;;
  SYSCALL_FAILS EPERM "EPERM" job_no_ret "get_job_no(&job_no)" FILE 114 T;;
  mret tt.

(** Children of RT tasks are not automatically RT tasks. *)
Definition test_rt_fork_non_rt : M unit :=
  let T := "test_rt_fork_non_rt" in
  become_rt (sporadic_partitioned (ms2ns 10) (ms2ns 100) 0)
    "sporadic_partitioned(ms2ns(10), ms2ns(100), 0)" FILE 124 T;;
  pid ← syscall Fork;
  let pid := u32 pid in
  ASSERT (negb (pid =? u32 (-1))) "pid != -1" FILE 129 T;;
  if pid =? 0 then
    SYSCALL_FAILS EINVAL "EINVAL" sleep_next_period "sleep_next_period()" FILE 134 T;;
    SYSCALL_FAILS EINVAL "EINVAL" (wait_for_job_release 0) "wait_for_job_release(0)" FILE 135 T;;
    SYSCALL_FAILS EPERM "EPERM" job_no_ret "get_job_no(&job_no)" FILE 136 T;;
    exit_ 0
  else
    SYSCALL sleep_next_period "sleep_next_period()" FILE 142 T;;
    SYSCALL (wait_for_job_release 3) "wait_for_job_release(3)" FILE 143 T;;
    SYSCALL job_no_ret "get_job_no(&job_no)" FILE 144 T;;
    SYSCALL (task_mode BACKGROUND_TASK) "task_mode(BACKGROUND_TASK)" FILE 146 T;;
    status ← wait_for (s32 pid) status "waitpid(pid, &status, 0)" FILE 148 T;
    ASSERT (WEXITSTATUS status =? 0) "WEXITSTATUS(status) == 0" FILE 150 T.

(** Tasks have write access to /dev/litmus/ctrl mappings. *)
Definition test_ctrl_page_writable : M unit :=
  let T := "test_ctrl_page_writable" in
  ctrl_page ← get_ctrl_page;
  ASSERT (negb (ctrl_page =? NULL)) "ctrl_page != NULL" FILE 160 T;;
  enter_np;;
  exit_np;;
  deref ctrl_page;;
  syscall (StoreInt (ctrl_page + 4 * 32) 0x12345678);;
  mret tt.

(** Admission control handles suspended tasks correctly. *)
Definition test_suspended_admission : M unit :=
  let T := "test_suspended_admission" in
  let token := 0 in
  '(pipefd0, pipefd1) ← make_pipe pipefd FILE 181 T;
  child_rt ← FORK_TASK (
    child_rt ← gettid;
    be_migrate_to_cpu 0;;
    '(err, token) ← read_int pipefd0 token;
    let err := 4 in
    ASSERT (negb (err =? 0)) "err = sizeof(token)" FILE 190 T;;
    ASSERT (token =? 1234) "token == 1234" FILE 191 T;;
    policy ← sched_getscheduler child_rt;
    ASSERT (policy =? SCHED_LITMUS) "sched_getscheduler(child_rt) == SCHED_LITMUS" FILE 194 T;;
    SYSCALL sleep_next_period "sleep_next_period()" FILE 196 T;;
    SYSCALL sleep_next_period "sleep_next_period()" FILE 197 T;;
    exit_ 0);
  SYSCALL (lt_sleep (ms2ns 100)) "lt_sleep(ms2ns(100))" FILE 203 T;;
  let params := init_rt_task_param in
  let params := with_cpu params 0 in
  let params := set_exec_cost params (ms2ns 10) in
  let params := set_period params (ms2ns 100) in
  SYSCALL (set_rt_task_param child_rt (Some params)) "set_rt_task_param(child_rt, &params)" FILE 211 T;;
  let sched_priority := 0 in
  SYSCALL (sched_setscheduler child_rt SCHED_LITMUS sched_priority)
    "sched_setscheduler(child_rt, SCHED_LITMUS, &param)" FILE 215 T;;
  policy ← sched_getscheduler child_rt;
  ASSERT (policy =? SCHED_LITMUS) "sched_getscheduler(child_rt) == SCHED_LITMUS" FILE 218 T;;
  let token := 1234 in
  n ← write_int pipefd1 token;
  ASSERT (n =? 4) "write(pipefd[1], &token, sizeof(token)) == sizeof(token)" FILE 222 T;;
  status ← wait_for child_rt status "waitpid(child_rt, &status, 0)" FILE 225 T;
  ASSERT (status =? 0) "status == 0" FILE 226 T.

(** Admission control handles running tasks correctly. *)
Definition test_running_admission : M unit :=
  let T := "test_running_admission" in
  let token := 0 in
  '(pipefd0, pipefd1) ← make_pipe pipefd FILE 238 T;
  child_rt ← FORK_TASK (
    child_rt ← gettid;
    be_migrate_to_cpu 0;;
    let token := 1234 in
    n ← write_int pipefd1 token;
    ASSERT (n =? 4) "write(pipefd[1], &token, sizeof(token)) == sizeof(token)" FILE 247 T;;
    let scheduler := -1 in
    sched_loop fuel child_rt scheduler FILE 252 T;;
    SYSCALL sleep_next_period "sleep_next_period()" FILE 255 T;;
    SYSCALL sleep_next_period "sleep_next_period()" FILE 256 T;;
    exit_ 0);
  '(err, token) ← read_int pipefd0 token;
  let err := 4 in
  ASSERT (negb (err =? 0)) "err = sizeof(token)" FILE 263 T;;
  ASSERT (token =? 1234) "token == 1234" FILE 264 T;;
  SYSCALL (lt_sleep (ms2ns 10)) "lt_sleep(ms2ns(10))" FILE 267 T;;
  let params := init_rt_task_param in
  let params := with_cpu params 0 in
  let params := set_exec_cost params (ms2ns 10) in
  let params := set_period params (ms2ns 100) in
  SYSCALL (set_rt_task_param child_rt (Some params)) "set_rt_task_param(child_rt, &params)" FILE 275 T;;
  let sched_priority := 0 in
  SYSCALL (sched_setscheduler child_rt SCHED_LITMUS sched_priority)
    "sched_setscheduler(child_rt, SCHED_LITMUS, &param)" FILE 279 T;;
  policy ← sched_getscheduler child_rt;
  ASSERT (policy =? SCHED_LITMUS) "sched_getscheduler(child_rt) == SCHED_LITMUS" FILE 282 T;;
  status ← wait_for child_rt status "waitpid(child_rt, &status, 0)" FILE 285 T;
  ASSERT (status =? 0) "status == 0" FILE 286 T.
End tests.
