(* ===== verification/TestPcp.v ===== *)
(** * tests/pcp.c: the priority ceiling protocols.  [stack], [buf] and
    [status] are what uninitialised variables hold; [fuel] bounds the busy
    loops. *)
From S2P Require Import Prelude Machine CString Double Laws Iface Syscalls Migration Litmus Clocks Spin.
From S2P Require Import Runner Tests.

Definition FILE : string := "tests/pcp.c".

Section tests.
Context {K : Kernel} {H : KernelHeader} (fuel : nat) (stack : Z * Z) (buf : bytes) (status : Z).

(** PCP acquisition and release. *)
Definition test_lock_pcp : M unit :=
  let T := "test_lock_pcp" in
  let cpu := 0 in
  fd ← SYSCALL (open_file ".pcp_locks") (open_text ".pcp_locks") FILE 17 T;
  become_rt (sporadic_partitioned (ms2ns 10) (ms2ns 100) cpu)
    "sporadic_partitioned(ms2ns(10), ms2ns(100), cpu)" FILE 19 T;;
  od ← SYSCALL (open_pcp_sem fd 0 cpu) "od = open_pcp_sem(fd, 0, cpu)" FILE 22 T;
  lock_unlock od "od" FILE 24 T;;
  lock_unlock od "od" FILE 27 T;;
  lock_unlock od "od" FILE 30 T;;
  SYSCALL_FAILS EINVAL "EINVAL" (litmus_unlock od) "litmus_unlock(od)" FILE 34 T;;
  SYSCALL (od_close od) "od_close(od)" FILE 36 T;;
  close_remove fd ".pcp_locks" FILE 38 T.

(** PCP reject bad CPU parameter. *)
Definition test_pcp_bad_cpu : M unit :=
  let T := "test_pcp_bad_cpu" in
  let cpu := 0xbadca5e in
  fd ← SYSCALL (open_file ".pcp_locks") (open_text ".pcp_locks") FILE 48 T;
  become_rt (sporadic_partitioned (ms2ns 10) (ms2ns 100) 0)
    "sporadic_partitioned(ms2ns(10), ms2ns(100), 0)" FILE 50 T;;
  SYSCALL_FAILS EINVAL "EINVAL" (open_pcp_sem fd 0 cpu) "open_pcp_sem(fd, 0, cpu)" FILE 53 T;;
  close_remove fd ".pcp_locks" FILE 55 T.

(** PCP priority inheritance. *)
Definition test_pcp_inheritance : M unit :=
  let T := "test_pcp_inheritance" in
  let cpu := 0 in
  let delay := ms2ns 100 in
  let params := init_rt_task_param in
  let params := with_cpu params 0 in
  let params := set_exec_cost params (ms2ns 10000) in
  let params := set_period params (ms2ns 100000) in
  let params := set_relative_deadline params (period params) in
  let params := set_phase params 0 in
  let params := set_cls params RT_CLASS_HARD in
  let params := set_budget_policy params NO_ENFORCEMENT in
  fd ← SYSCALL (open_file ".pcp_locks") (open_text ".pcp_locks") FILE 79 T;
  child_lo ← FORK_TASK (
    let params := set_priority params LITMUS_LOWEST_PRIORITY in
    let params := set_phase params 0 in
    start_rt params FILE 85 T;;
    od ← SYSCALL (open_pcp_sem fd 0 cpu) "od = open_pcp_sem(fd, 0, cpu)" FILE 89 T;
    SYSCALL wait_for_ts_release "wait_for_ts_release()" FILE 91 T;;
    SYSCALL (litmus_lock od) "litmus_lock(od)" FILE 93 T;;
    start ← cputime stack;
    busy_loop fuel stack start (dconst 25 (-2));;
    SYSCALL (litmus_unlock od) "litmus_unlock(od)" FILE 97 T;;
    SYSCALL sleep_next_period "sleep_next_period()" FILE 99 T;;
    mret tt);
  child_middle ← FORK_TASK (
    let params := set_priority params (LITMUS_HIGHEST_PRIORITY + 1) in
    let params := set_phase params (ms2ns 100) in
    start_rt params FILE 106 T;;
    SYSCALL wait_for_ts_release "wait_for_ts_release()" FILE 111 T;;
    start ← cputime stack;
    busy_loop fuel stack start (of_Z 5);;
    SYSCALL sleep_next_period "sleep_next_period()" FILE 116 T;;
    mret tt);
  child_hi ← FORK_TASK (
    let params := set_priority params LITMUS_HIGHEST_PRIORITY in
    let params := set_phase params (ms2ns 50) in
    start_rt params FILE 123 T;;
    od ← SYSCALL (open_pcp_sem fd 0 cpu) "od = open_pcp_sem(fd, 0, cpu)" FILE 127 T;
    SYSCALL wait_for_ts_release "wait_for_ts_release()" FILE 129 T;;
    start ← wctime stack;
    lock_unlock od "od" FILE 133 T;;
    stop ← wctime stack;
    ASSERT (dlt (dconst 1 (-1)) (dsub stop start)) "stop - start > 0.1" FILE 138 T;;
    ASSERT (dlt (dsub stop start) (of_Z 1)) "stop - start < 1" FILE 141 T;;
    SYSCALL (kill child_middle SIGUSR2) "kill(child_middle, SIGUSR2)" FILE 143 T;;
    SYSCALL (kill child_lo SIGUSR2) "kill(child_lo, SIGUSR2)" FILE 144 T;;
    mret tt);
  wait_waiters fuel buf 3 FILE 149 T;;
  SYSCALL (be_migrate_to_cpu 1) "be_migrate_to_cpu(1)" FILE 152 T;;
  waiters ← release_ts delay;
  status ← wait_for child_hi status "waitpid(child_hi, &status, 0)" FILE 156 T;
  ASSERT (status =? 0) "status == 0" FILE 157 T;;
  status ← wait_for child_lo status "waitpid(child_lo, &status, 0)" FILE 159 T;
  ASSERT (status =? SIGUSR2) "status == SIGUSR2" FILE 160 T;;
  status ← wait_for child_middle status "waitpid(child_middle, &status, 0)" FILE 162 T;
  ASSERT (status =? SIGUSR2) "status == SIGUSR2" FILE 163 T.

(** SRP ceiling blocking. *)
Definition test_srp_ceiling_blocking : M unit :=
  let T := "test_srp_ceiling_blocking" in
  let delay := ms2ns 100 in
  let params := init_rt_task_param in
  let params := with_cpu params 0 in
  let params := set_exec_cost params (ms2ns 10000) in
  let params := set_period params (ms2ns 100000) in
  fd ← SYSCALL (open_file ".srp_locks") (open_text ".srp_locks") FILE 181 T;
  child_lo ← FORK_TASK (
    let params := set_priority params LITMUS_LOWEST_PRIORITY in
    let params := set_phase params 0 in
    start_rt params FILE 187 T;;
    od ← SYSCALL (open_srp_sem fd 0) "od = open_srp_sem(fd, 0)" FILE 191 T;
    SYSCALL wait_for_ts_release "wait_for_ts_release()" FILE 193 T;;
    SYSCALL (litmus_lock od) "litmus_lock(od)" FILE 195 T;;
    start ← cputime stack;
    busy_loop fuel stack start (dconst 25 (-2));;
    SYSCALL (litmus_unlock od) "litmus_unlock(od)" FILE 199 T;;
    mret tt);
  child_middle ← FORK_TASK (
    let params := set_priority params (LITMUS_HIGHEST_PRIORITY + 1) in
    let params := set_phase params (ms2ns 100) in
    let params := set_relative_deadline params (relative_deadline params - (ms2ns 110)) in
    start_rt params FILE 207 T;;
    SYSCALL wait_for_ts_release "wait_for_ts_release()" FILE 212 T;;
    start ← cputime stack;
    busy_loop fuel stack start (of_Z 5));
  child_hi ← FORK_TASK (
    let params := set_priority params LITMUS_HIGHEST_PRIORITY in
    let params := set_phase params (ms2ns 50) in
    let params := set_relative_deadline params (relative_deadline params - (ms2ns 200)) in
    start_rt params FILE 224 T;;
    od ← SYSCALL (open_srp_sem fd 0) "od = open_srp_sem(fd, 0)" FILE 228 T;
    SYSCALL wait_for_ts_release "wait_for_ts_release()" FILE 230 T;;
    start ← wctime stack;
    lock_unlock od "od" FILE 234 T;;
    stop ← wctime stack;
    ASSERT (dlt (dsub stop start) (dconst 1 (-2))) "stop - start < 0.01" FILE 239 T;;
    SYSCALL (kill child_middle SIGUSR2) "kill(child_middle, SIGUSR2)" FILE 241 T;;
    SYSCALL (kill child_lo SIGUSR2) "kill(child_lo, SIGUSR2)" FILE 242 T;;
    mret tt);
  wait_waiters fuel buf 3 FILE 247 T;;
  SYSCALL (be_migrate_to_cpu 1) "be_migrate_to_cpu(1)" FILE 250 T;;
  waiters ← release_ts delay;
  status ← wait_for child_hi status "waitpid(child_hi, &status, 0)" FILE 254 T;
  ASSERT (status =? 0) "status == 0" FILE 255 T;;
  status ← wait_for child_lo status "waitpid(child_lo, &status, 0)" FILE 257 T;
  ASSERT (status =? SIGUSR2) "status == SIGUSR2" FILE 258 T;;
  status ← wait_for child_middle status "waitpid(child_middle, &status, 0)" FILE 260 T;
  ASSERT (status =? SIGUSR2) "status == SIGUSR2" FILE 261 T.

(** DPCP acquisition and release. *)
Definition test_lock_dpcp : M unit :=
  let T := "test_lock_dpcp" in
  let cpu := 1 in
  fd ← SYSCALL (open_file ".pcp_locks") (open_text ".pcp_locks") FILE 269 T;
  become_rt (sporadic_partitioned (ms2ns 10) (ms2ns 100) 0)
    "sporadic_partitioned(ms2ns(10), ms2ns(100), 0)" FILE 271 T;;
  od ← SYSCALL (open_dpcp_sem fd 0 cpu) "od = open_dpcp_sem(fd, 0, cpu)" FILE 274 T;
  lock_unlock od "od" FILE 276 T;;
  lock_unlock od "od" FILE 279 T;;
  lock_unlock od "od" FILE 282 T;;
  SYSCALL_FAILS EINVAL "EINVAL" (litmus_unlock od) "litmus_unlock(od)" FILE 286 T;;
  SYSCALL (od_close od) "od_close(od)" FILE 288 T;;
  close_remove fd ".pcp_locks" FILE 290 T.

(** DPCP reject bad CPU parameter. *)
Definition test_dpcp_bad_cpu : M unit :=
  let T := "test_dpcp_bad_cpu" in
  let cpu := 0xbadca5e in
  fd ← SYSCALL (open_file ".pcp_locks") (open_text ".pcp_locks") FILE 300 T;
  become_rt (sporadic_partitioned (ms2ns 10) (ms2ns 100) 0)
    "sporadic_partitioned(ms2ns(10), ms2ns(100), 0)" FILE 302 T;;
  SYSCALL_FAILS EINVAL "EINVAL" (open_dpcp_sem fd 0 cpu) "open_dpcp_sem(fd, 0, cpu)" FILE 305 T;;
  close_remove fd ".pcp_locks" FILE 307 T.

(** DPCP-PCP interleaved priority. *)
Definition test_lock_dpcp_pcp : M unit :=
  let T := "test_lock_dpcp_pcp" in
  let delay := ms2ns 100 in
  SYSCALL (be_migrate_to_cpu 2) "be_migrate_to_cpu(2)" FILE 321 T;;
  let params := init_rt_task_param in
  let params := with_cpu params 0 in
  let params := set_exec_cost params (ms2ns 300) in
  let params := set_period params (ms2ns 300) in
  let params := set_relative_deadline params (period params) in
  let params := set_phase params 0 in
  let params := set_cls params RT_CLASS_HARD in
  let params := set_budget_policy params NO_ENFORCEMENT in
  mutex ← syscall (Mmap 4 (Z.lor PROT_READ PROT_WRITE) (Z.lor MAP_SHARED MAP_ANONYMOUS) (-1));
  store_int mutex 0;;
  fd ← SYSCALL (open_file ".pcp_locks") (open_text ".pcp_locks") FILE 336 T;
  child_lo ← FORK_TASK (
    let params := set_priority params LITMUS_LOWEST_PRIORITY in
    let params := set_phase params (ms2ns 50) in
    part ← partition_to_cpu 1;
    let params := with_cpu params part in
    SYSCALL (be_migrate_to_cpu (s32 (cpu params))) "be_migrate_to_cpu(params.cpu)" FILE 343 T;;
    SYSCALL init_rt_thread "init_rt_thread()" FILE 344 T;;
    SYSCALL (set_own_param (Some params)) "set_rt_task_param(gettid(), &params)" FILE 345 T;;
    SYSCALL (task_mode LITMUS_RT_TASK) "task_mode(LITMUS_RT_TASK)" FILE 346 T;;
    od_dpcp ← SYSCALL (part ← partition_to_cpu 0; open_dpcp_sem fd 0 part)
      "od_dpcp = open_dpcp_sem(fd, 0, partition_to_cpu(0))" FILE 348 T;
    SYSCALL wait_for_ts_release "wait_for_ts_release()" FILE 350 T;;
    SYSCALL (litmus_lock od_dpcp) "litmus_lock(od_dpcp)" FILE 352 T;;
    cpu ← syscall Sched_getcpu;
    store_int mutex 1;;
    SYSCALL (litmus_unlock od_dpcp) "litmus_unlock(od_dpcp)" FILE 355 T;;
    part ← partition_to_cpu 0;
    ASSERT (cpu =? part) "cpu == partition_to_cpu(0)" FILE 358 T;;
    SYSCALL sleep_next_period "sleep_next_period()" FILE 360 T;;
    mret tt);
  child_hi ← FORK_TASK (
    let params := set_priority params LITMUS_HIGHEST_PRIORITY in
    let params := set_phase params 0 in
    part ← partition_to_cpu 0;
    let params := with_cpu params part in
    SYSCALL (be_migrate_to_cpu (s32 (cpu params))) "be_migrate_to_cpu(params.cpu)" FILE 369 T;;
    SYSCALL init_rt_thread "init_rt_thread()" FILE 370 T;;
    SYSCALL (set_own_param (Some params)) "set_rt_task_param(gettid(), &params)" FILE 371 T;;
    SYSCALL (task_mode LITMUS_RT_TASK) "task_mode(LITMUS_RT_TASK)" FILE 372 T;;
    od_pcp ← SYSCALL (open_pcp_sem fd 1 (s32 (cpu params))) "od_pcp = open_pcp_sem(fd, 1, params.cpu)" FILE 374 T;
    SYSCALL wait_for_ts_release "wait_for_ts_release()" FILE 376 T;;
    SYSCALL (litmus_lock od_pcp) "litmus_lock(od_pcp)" FILE 379 T;;
    start ← cputime stack;
    busy_loop fuel stack start (dconst 25 (-2));;
    preempted ← load_int mutex;
    SYSCALL (litmus_unlock od_pcp) "litmus_unlock(od_pcp)" FILE 385 T;;
    SYSCALL (od_close od_pcp) "od_close(od_pcp)" FILE 387 T;;
    ASSERT (preempted =? 1) "preempted == 1" FILE 388 T;;
    SYSCALL (kill child_lo SIGUSR2) "kill(child_lo, SIGUSR2)" FILE 390 T;;
    mret tt);
  wait_waiters fuel buf 2 FILE 395 T;;
  waiters ← release_ts delay;
  status ← wait_for child_hi status "waitpid(child_hi, &status, 0)" FILE 400 T;
  ASSERT (status =? 0) "status == 0" FILE 401 T;;
  status ← wait_for child_lo status "waitpid(child_lo, &status, 0)" FILE 403 T;
  ASSERT (status =? SIGUSR2) "status == SIGUSR2" FILE 404 T;;
  close_remove fd ".pcp_locks" FILE 406 T;;
  syscall (Munmap mutex 4);;
  mret tt.

(** Don't let best-effort tasks lock (D|M-)PCP semaphores. *)
Definition test_not_lock_pcp_be : M unit :=
  let T := "test_not_lock_pcp_be" in
  fd ← SYSCALL (open_file ".pcp_locks") (open_text ".pcp_locks") FILE 418 T;
  SYSCALL_FAILS EPERM "EPERM" (open_pcp_sem fd 0 1) "od = open_pcp_sem(fd, 0, 1)" FILE 421 T;;
  SYSCALL_FAILS EPERM "EPERM" (open_dpcp_sem fd 0 1) "od = open_dpcp_sem(fd, 0, 1)" FILE 424 T;;
  SYSCALL_FAILS EPERM "EPERM" (open_mpcp_sem fd 0) "od = open_mpcp_sem(fd, 0)" FILE 427 T;;
  close_remove fd ".pcp_locks" FILE 429 T.

(** MPCP acquisition and release. *)
Definition test_lock_mpcp : M unit :=
  let T := "test_lock_mpcp" in
  fd ← SYSCALL (open_file ".pcp_locks") (open_text ".pcp_locks") FILE 440 T;
  become_rt (sporadic_partitioned (ms2ns 10) (ms2ns 100) 0)
    "sporadic_partitioned(ms2ns(10), ms2ns(100), 0)" FILE 442 T;;
  od ← SYSCALL (open_mpcp_sem fd 0) "od = open_mpcp_sem(fd, 0)" FILE 445 T;
  lock_unlock od "od" FILE 447 T;;
  lock_unlock od "od" FILE 450 T;;
  lock_unlock od "od" FILE 453 T;;
  SYSCALL_FAILS EINVAL "EINVAL" (litmus_unlock od) "litmus_unlock(od)" FILE 457 T;;
  SYSCALL (od_close od) "od_close(od)" FILE 459 T;;
  close_remove fd ".pcp_locks" FILE 461 T.

(** PCP task becomes non-RT task while holding lock. *)
Definition test_pcp_lock_mode_change : M unit :=
  let T := "test_pcp_lock_mode_change" in
  let cpu := 0 in
  let params := init_rt_task_param in
  let params := with_cpu params 0 in
  let params := set_exec_cost params (ms2ns 10000) in
  let params := set_period params (ms2ns 100000) in
  let params := set_relative_deadline params (period params) in
  fd ← SYSCALL (open_file ".pcp_locks") (open_text ".pcp_locks") FILE 478 T;
  let params := set_priority params LITMUS_LOWEST_PRIORITY in
  start_rt params FILE 481 T;;
  od ← SYSCALL (open_pcp_sem fd 0 cpu) "od = open_pcp_sem(fd, 0, cpu)" FILE 485 T;
  SYSCALL (litmus_lock od) "litmus_lock(od)" FILE 487 T;;
  SYSCALL (task_mode BACKGROUND_TASK) "task_mode(BACKGROUND_TASK)" FILE 489 T;;
  be_migrate_to_cpu 1;;
  SYSCALL (litmus_unlock od) "litmus_unlock(od)" FILE 493 T;;
  SYSCALL (od_close od) "od_close(od)" FILE 495 T;;
  close_remove fd ".pcp_locks" FILE 497 T.

(** MPCP task becomes non-RT task while holding lock. *)
Definition test_mpcp_lock_mode_change : M unit :=
  let T := "test_mpcp_lock_mode_change" in
  let params := init_rt_task_param in
  let params := with_cpu params 0 in
  let params := set_exec_cost params (ms2ns 10000) in
  let params := set_period params (ms2ns 100000) in
  let params := set_relative_deadline params (period params) in
  fd ← SYSCALL (open_file ".pcp_locks") (open_text ".pcp_locks") FILE 514 T;
  let params := set_priority params LITMUS_LOWEST_PRIORITY in
  start_rt params FILE 517 T;;
  od ← SYSCALL (open_mpcp_sem fd 0) "od = open_mpcp_sem(fd, 0)" FILE 521 T;
  SYSCALL (litmus_lock od) "litmus_lock(od)" FILE 523 T;;
  SYSCALL (task_mode BACKGROUND_TASK) "task_mode(BACKGROUND_TASK)" FILE 525 T;;
  be_migrate_to_cpu 1;;
  SYSCALL (litmus_unlock od) "litmus_unlock(od)" FILE 529 T;;
  SYSCALL (od_close od) "od_close(od)" FILE 531 T;;
  close_remove fd ".pcp_locks" FILE 533 T.

(** DPCP task becomes non-RT task while holding lock. *)
Definition test_dpcp_lock_mode_change : M unit :=
  let T := "test_dpcp_lock_mode_change" in
  let cpu := 0 in
  let params := init_rt_task_param in
  let params := with_cpu params 1 in
  let params := set_exec_cost params (ms2ns 10000) in
  let params := set_period params (ms2ns 100000) in
  let params := set_relative_deadline params (period params) in
  fd ← SYSCALL (open_file ".pcp_locks") (open_text ".pcp_locks") FILE 550 T;
  let params := set_priority params LITMUS_LOWEST_PRIORITY in
  start_rt params FILE 554 T;;
  od ← SYSCALL (open_dpcp_sem fd 0 cpu) "od = open_dpcp_sem(fd, 0, cpu)" FILE 558 T;
  SYSCALL (litmus_lock od) "litmus_lock(od)" FILE 560 T;;
  SYSCALL (task_mode BACKGROUND_TASK) "task_mode(BACKGROUND_TASK)" FILE 562 T;;
  be_migrate_to_cpu 2;;
  SYSCALL (litmus_unlock od) "litmus_unlock(od)" FILE 566 T;;
  SYSCALL (od_close od) "od_close(od)" FILE 568 T;;
  close_remove fd ".pcp_locks" FILE 570 T.

(** PCP task exits while holding lock. *)
Definition test_pcp_lock_teardown : M unit :=
  let T := "test_pcp_lock_teardown" in
  let cpu := 0 in
  let params := init_rt_task_param in
  let params := with_cpu params 0 in
  let params := set_exec_cost params (ms2ns 10000) in
  let params := set_period params (ms2ns 100000) in
  let params := set_relative_deadline params (period params) in
  fd ← SYSCALL (open_file ".pcp_locks") (open_text ".pcp_locks") FILE 589 T;
  (exit_ 0 : M unit);;
  child ← FORK_TASK (
    let params := set_priority params LITMUS_LOWEST_PRIORITY in
    start_rt params FILE 595 T;;
    od ← SYSCALL (open_pcp_sem fd 0 cpu) "od = open_pcp_sem(fd, 0, cpu)" FILE 599 T;
    SYSCALL (litmus_lock od) "litmus_lock(od)" FILE 601 T;;
    exit_ 123);
  status ← wait_for child status "waitpid(child, &status, 0)" FILE 605 T;
  ASSERT (WIFEXITED status) "WIFEXITED(status)" FILE 606 T;;
  ASSERT (WEXITSTATUS status =? 123) "WEXITSTATUS(status) == 123" FILE 607 T;;
  close_remove fd ".pcp_locks" FILE 609 T.

(** DPCP task exits while holding lock. *)
Definition test_dpcp_lock_teardown : M unit :=
  let T := "test_dpcp_lock_teardown" in
  let cpu := 0 in
  let params := init_rt_task_param in
  let params := with_cpu params 1 in
  let params := set_exec_cost params (ms2ns 10000) in
  let params := set_period params (ms2ns 100000) in
  let params := set_relative_deadline params (period params) in
  fd ← SYSCALL (open_file ".pcp_locks") (open_text ".pcp_locks") FILE 628 T;
  (exit_ 0 : M unit);;
  child ← FORK_TASK (
    let params := set_priority params LITMUS_LOWEST_PRIORITY in
    start_rt params FILE 634 T;;
    od ← SYSCALL (open_dpcp_sem fd 0 cpu) "od = open_dpcp_sem(fd, 0, cpu)" FILE 638 T;
    SYSCALL (litmus_lock od) "litmus_lock(od)" FILE 640 T;;
    exit_ 123);
  status ← wait_for child status "waitpid(child, &status, 0)" FILE 644 T;
  ASSERT (WIFEXITED status) "WIFEXITED(status)" FILE 645 T;;
  ASSERT (WEXITSTATUS status =? 123) "WEXITSTATUS(status) == 123" FILE 646 T;;
  close_remove fd ".pcp_locks" FILE 648 T.

(** MPCP task exits while holding lock. *)
Definition test_mpcp_lock_teardown : M unit :=
  let T := "test_mpcp_lock_teardown" in
  let params := init_rt_task_param in
  let params := with_cpu params 0 in
  let params := set_exec_cost params (ms2ns 10000) in
  let params := set_period params (ms2ns 100000) in
  let params := set_relative_deadline params (period params) in
  fd ← SYSCALL (open_file ".pcp_locks") (open_text ".pcp_locks") FILE 667 T;
  (exit_ 0 : M unit);;
  child ← FORK_TASK (
    let params := set_priority params LITMUS_LOWEST_PRIORITY in
    start_rt params FILE 673 T;;
    od ← SYSCALL (open_mpcp_sem fd 0) "od = open_mpcp_sem(fd, 0)" FILE 677 T;
    SYSCALL (litmus_lock od) "litmus_lock(od)" FILE 679 T;;
    exit_ 123);
  status ← wait_for child status "waitpid(child, &status, 0)" FILE 683 T;
  ASSERT (WIFEXITED status) "WIFEXITED(status)" FILE 684 T;;
  ASSERT (WEXITSTATUS status =? 123) "WEXITSTATUS(status) == 123" FILE 685 T;;
  close_remove fd ".pcp_locks" FILE 687 T.
End tests.
