(* ===== verification/TestSched.v ===== *)
(** * tests/sched.c: preemption and the rate of jobs.  [stack], [buf] and [status]
    are what uninitialised variables hold; [fuel] bounds the busy loops. *)
From S2P Require Import Prelude Machine CString Double Laws Iface Syscalls Migration Litmus Clocks Spin.
From S2P Require Import Runner Tests.

Definition FILE : string := "tests/sched.c".
Definition PERIOD : Z := 100.
Definition JOBS : nat := 10.
Definition ACCEPTABLE_MARGIN : Z := 5.

(** [fabs(JOBS * PERIOD - actual_delta_ms)] *)
Definition margin (actual_delta_ms : double) : double :=
  SFabs (dsub (of_Z (Z.of_nat JOBS * PERIOD)) actual_delta_ms).

(** [ms2ns(100) / (float)s2ns(1)], a float: 13421773 * 2^-27. *)
Definition tenth_float : double := binary_normalize prec emax 13421773 (-27) false.

Section tests.
Context {K : Kernel} {H : KernelHeader} (fuel : nat) (stack : Z * Z) (buf : bytes) (status : Z).

(** Preempt lower-priority task when a higher-priority task resumes. *)
Definition test_preempt_on_resume : M unit :=
  let T := "test_preempt_on_resume" in
  let delay := ms2ns 100 in
  let params := init_rt_task_param in
  let params := with_cpu params 0 in
  let params := set_exec_cost params (ms2ns 10000) in
  let params := set_period params (ms2ns 100000) in
  child_lo ← FORK_TASK (
    let params := set_priority params LITMUS_LOWEST_PRIORITY in
    start_rt params FILE 24 T;;
    SYSCALL wait_for_ts_release "wait_for_ts_release()" FILE 28 T;;
    start ← cputime stack;
    busy_loop fuel stack start (of_Z 10));
  child_hi ← FORK_TASK (
    let params := set_priority params LITMUS_HIGHEST_PRIORITY in
    let params := set_relative_deadline params (relative_deadline params - 1000000) in
    start_rt params FILE 40 T;;
    SYSCALL wait_for_ts_release "wait_for_ts_release()" FILE 44 T;;
    start ← cputime stack;
    busy_loop fuel stack start (dconst 1 (-1));;
    start ← wctime stack;
    SYSCALL (lt_sleep (ms2ns 100)) "lt_sleep(ms2ns(100))" FILE 52 T;;
    stop ← wctime stack;
    SYSCALL (kill child_lo SIGUSR2) "kill(child_lo, SIGUSR2)" FILE 55 T;;
    when (dle (dconst 2 (-1)) (dsub stop start))
      (eprintf "\nHi-prio delay = %fsec\n" [ADbl (dsub (dsub stop start) tenth_float)]);;
    ASSERT (dlt (dsub stop start) (dconst 2 (-1))) "stop - start < 0.2" FILE 62 T);
  wait_waiters fuel buf 2 FILE 68 T;;
  waiters ← release_ts delay;
  status ← wait_for child_hi status "waitpid(child_hi, &status, 0)" FILE 73 T;
  ASSERT (status =? 0) "status == 0" FILE 74 T;;
  status ← wait_for child_lo status "waitpid(child_lo, &status, 0)" FILE 76 T;
  ASSERT (status =? SIGUSR2) "status == SIGUSR2" FILE 77 T.

(** Periodic jobs are rate-limited (w/o synchronous release). *)
Definition test_jobs_are_rate_limited : M unit :=
  let T := "test_jobs_are_rate_limited" in
  let params := init_rt_task_param in
  let params := with_cpu params 0 in
  let params := set_exec_cost params (ms2ns 40) in
  let params := set_period params (ms2ns PERIOD) in
  let params := set_release_policy params TASK_PERIODIC in
  start_rt params FILE 97 T;;
  start ← wctime stack;
  sleep_periods JOBS FILE 103 T;;
  end_ ← wctime stack;
  SYSCALL (task_mode BACKGROUND_TASK) "task_mode(BACKGROUND_TASK)" FILE 106 T;;
  let actual_delta_ms := dmul (dsub end_ start) (of_Z 1000) in
  when (dlt (of_Z ACCEPTABLE_MARGIN) (margin actual_delta_ms))
    (eprintf "actual_delta_ms:%.4f  expected:%.4f\n" [ADbl actual_delta_ms; ADbl (of_Z (Z.of_nat JOBS * PERIOD))]);;
  ASSERT (dle (margin actual_delta_ms) (of_Z ACCEPTABLE_MARGIN))
    "fabs(JOBS * PERIOD - actual_delta_ms) <= ACCEPTABLE_MARGIN" FILE 112 T;;
  mret tt.

(** Periodic jobs are rate-limited (w/ synchronous release). *)
Definition test_jobs_are_rate_limited_synch : M unit :=
  let T := "test_jobs_are_rate_limited_synch" in
  let delay := ms2ns 100 in
  child ← FORK_TASK (
    let params := init_rt_task_param in
    let params := with_cpu params 0 in
    let params := set_exec_cost params (ms2ns 5) in
    let params := set_period params (ms2ns PERIOD) in
    let params := set_release_policy params TASK_PERIODIC in
    start_rt params FILE 131 T;;
    SYSCALL wait_for_ts_release "wait_for_ts_release()" FILE 135 T;;
    start ← wctime stack;
    sleep_periods JOBS FILE 139 T;;
    end_ ← wctime stack;
    SYSCALL (task_mode BACKGROUND_TASK) "task_mode(BACKGROUND_TASK)" FILE 142 T;;
    let actual_delta_ms := dmul (dsub end_ start) (of_Z 1000) in
    when (dlt (of_Z ACCEPTABLE_MARGIN) (margin actual_delta_ms))
      (eprintf "actual_delta_ms:%.4f  expected:%.4f\n" [ADbl actual_delta_ms; ADbl (of_Z (Z.of_nat JOBS * PERIOD))]);;
    ASSERT (dle (margin actual_delta_ms) (of_Z ACCEPTABLE_MARGIN))
      "fabs(JOBS * PERIOD - actual_delta_ms) <= ACCEPTABLE_MARGIN" FILE 148 T;;
    mret tt);
  wait_waiters fuel buf 1 FILE 153 T;;
  waiters ← release_ts delay;
  status ← wait_for child status "waitpid(child, &status, 0)" FILE 160 T;
  ASSERT (status =? 0) "status == 0" FILE 161 T.
End tests.
