(* ===== verification/LockSpec.v ===== *)
(** * A specification of real-time semaphores, and a logic of test cases

    What the test cases of tests/ expect of the locking protocols, as laws of
    the kernel over the history of the calling process ([Semaphores]), and
    rules for the statements of a test case: [runs P m Q] says that from a
    state with [P] the computation [m] ends with a value, in a state with
    [Q]. *)
From S2P Require Import Prelude Machine CString Laws Iface Syscalls Migration Litmus Runner Tests.

(** ** The history of semaphores *)

(** The requests about semaphores and their answers, newest first. *)
Definition lock_log (t : trace) : list (call * reply) :=
  omap (fun e => match e with
    | Sys (NR_od_open f ty i c) r => Some (NR_od_open f ty i c, r)
    | Sys (NR_od_close od) r => Some (NR_od_close od, r)
    | Sys (NR_litmus_lock od) r => Some (NR_litmus_lock od, r)
    | Sys (NR_litmus_unlock od) r => Some (NR_litmus_unlock od, r)
    | _ => None end) t.

#[export] Instance lock_log_quiet : InitQuiet lock_log.
Proof. by repeat split. Qed.

(** The type of the semaphore a descriptor stands for. *)
Fixpoint od_type (od : Z) (l : list (call * reply)) : option Z :=
  match l with
  | [] => None
  | (NR_od_open _ ty _ _, Succ od') :: l => if od' =? od then Some ty else od_type od l
  | (NR_od_close od', Succ _) :: l => if od' =? od then None else od_type od l
  | _ :: l => od_type od l
  end.

(** The semaphores held, last taken first. *)
Fixpoint held (l : list (call * reply)) : list Z :=
  match l with
  | [] => []
  | (NR_litmus_lock od, Succ _) :: l => od :: held l
  | (NR_litmus_unlock od, Succ _) :: l => remove_first od (held l)
  | _ :: l => held l
  end.

(** A task may hold several SRP or several PCP semaphores, nothing else. *)
Definition nestable (ty ty' : Z) : bool :=
  (ty =? ty') && ((ty =? obj_id SRP_SEM) || (ty =? obj_id PCP_SEM)).

(** The CPU a protocol is configured for, when there is one. *)
Definition cpu_ok (cpus : Z) (cfg : option Z) : bool :=
  match cfg with Some c => (0 <=? c) && (c <? cpus) | None => true end.

(** A task that is not real-time may open FMLP semaphores only. *)
Definition may_open (pol ty : Z) : bool := (pol =? SCHED_LITMUS) || (ty =? obj_id FMLP_SEM).

(** Fewer than eight descriptors are in use. *)
Definition room (l : list (call * reply)) : Prop :=
  exists ods, (forall od, is_Some (od_type od l) -> od ∈ ods) /\ (length ods < 8)%nat.

(** The laws for the task [tid] on [cpus] CPUs: a descriptor that is returned
    is not in use; a real-time task is granted a semaphore unless it holds one
    that it does not nest with, any other task never; only what is held can be
    released, in either mode; what is not open is refused. *)
Class Semaphores (K : Kernel) (tid cpus : Z) : Prop := {
  sem_open t fd ty id cfg :
    may_open (policy_of tid t) ty = true -> 0 <= ty <= 6 -> cpu_ok cpus cfg = true ->
    room (lock_log t) ->
    exists od, kernel t (NR_od_open fd ty id cfg) = Succ od /\ 0 <= od <= INT_MAX /\
      od_type od (lock_log t) = None;
  sem_open_cpu t fd ty id cfg :
    may_open (policy_of tid t) ty = true -> 0 <= ty <= 6 -> cpu_ok cpus cfg = false ->
    kernel t (NR_od_open fd ty id cfg) = Fail EINVAL;
  sem_open_be t fd ty id cfg :
    may_open (policy_of tid t) ty = false -> 0 <= ty <= 6 ->
    kernel t (NR_od_open fd ty id cfg) = Fail EPERM;
  sem_open_type t fd ty id cfg : ~ 0 <= ty <= 6 -> kernel t (NR_od_open fd ty id cfg) = Fail EINVAL;
  sem_close t od ty :
    od_type od (lock_log t) = Some ty -> od ∉ held (lock_log t) -> kernel t (NR_od_close od) = Succ 0;
  sem_lock t od ty :
    policy_of tid t = SCHED_LITMUS -> od_type od (lock_log t) = Some ty -> od ∉ held (lock_log t) ->
    Forall (fun h => exists ty', od_type h (lock_log t) = Some ty' /\ nestable ty' ty = true)
      (held (lock_log t)) ->
    kernel t (NR_litmus_lock od) = Succ 0;
  sem_busy t od ty h ty' :
    policy_of tid t = SCHED_LITMUS -> od_type od (lock_log t) = Some ty -> h ∈ held (lock_log t) ->
    od_type h (lock_log t) = Some ty' -> nestable ty' ty = false ->
    kernel t (NR_litmus_lock od) = Fail EBUSY;
  sem_lock_be t od ty :
    policy_of tid t <> SCHED_LITMUS -> od_type od (lock_log t) = Some ty ->
    kernel t (NR_litmus_lock od) = Fail EPERM;
  sem_unlock t od : od ∈ held (lock_log t) -> kernel t (NR_litmus_unlock od) = Succ 0;
  sem_not_held t od ty :
    od_type od (lock_log t) = Some ty -> od ∉ held (lock_log t) ->
    kernel t (NR_litmus_unlock od) = Fail EINVAL;
  sem_unknown t od c :
    od_type od (lock_log t) = None -> od ∉ held (lock_log t) ->
    c ∈ [NR_litmus_lock od; NR_litmus_unlock od; NR_od_close od] -> kernel t c = Fail EINVAL;
}.

(** Files can be created, closed and removed; affinities, parameters and
    policies are accepted. *)
Class Accepts (K : Kernel) (tid : Z) : Prop := {
  acc_open t p f m : exists fd, kernel t (Open p f m) = Succ fd /\ 0 <= fd;
  acc_close t fd : kernel t (Close fd) = Succ 0;
  acc_remove t p : kernel t (Remove p) = Succ 0;
  acc_affinity t i s m : kernel t (Sched_setaffinity i s m) = Succ 0;
  acc_param t i p : kernel t (NR_set_rt_task_param i (Some p)) = Succ 0;
  acc_policy t pol prio : kernel t (NR_sched_setscheduler tid pol prio) = Succ 0;
}.

(** Memory can be locked and the control page mapped. *)
Class Initialises (K : Kernel) : Prop := {
  ini_lock t flags : kernel t (Mlockall flags) = Succ 0;
  ini_page t : exists sz, kernel t (Sysconf SC_PAGESIZE) = Succ sz /\ 0 < sz < 2 ^ 64;
  ini_map t size prot flags fd : exists a, kernel t (Mmap size prot flags fd) = Succ a /\ a <> MAP_FAILED;
}.

(** ** Triples *)

Definition runs {A} (P : world -> Prop) (m : M A) (Q : A -> world -> Prop) : Prop :=
  forall w, P w -> exists a w', m w = (Val a, w') /\ Q a w'.

Lemma runs_ret {A} (P : world -> Prop) (a : A) : runs P (mret a) (fun b w => b = a /\ P w).
Proof. intros w Hw. by exists a, w. Qed.

Lemma runs_bind {A B} (P : world -> Prop) (m : M A) (f : A -> M B) (R : A -> world -> Prop)
    (Q : B -> world -> Prop) :
  runs P m R -> (forall a, runs (R a) (f a) Q) -> runs P (m ≫= f) Q.
Proof.
  intros Hm Hf w Hw. destruct (Hm w Hw) as (a & w1 & E & HR).
  rewrite (bind_val _ _ _ _ _ E). by apply Hf.
Qed.

Lemma runs_weaken {A} (P P' : world -> Prop) (m : M A) (Q Q' : A -> world -> Prop) :
  runs P m Q -> (forall w, P' w -> P w) -> (forall a w, Q a w -> Q' a w) -> runs P' m Q'.
Proof. intros Hm HP HQ w Hw. destruct (Hm w (HP w Hw)) as (a & w' & E & H). exists a, w'. auto. Qed.

(** A precondition that does not depend on the state. *)
Lemma runs_pure {A} (P : world -> Prop) (F : Prop) (m : M A) Q :
  (F -> runs P m Q) -> runs (fun w => F /\ P w) m Q.
Proof. intros Hm w [HF Hw]. by apply Hm. Qed.

(** The macros. *)
Lemma runs_SYSCALL {K : Kernel} (P : world -> Prop) m (Q : Z -> world -> Prop) text file line func :
  runs P m (fun z w => 0 <= z /\ Q z w) -> runs P (SYSCALL m text file line func) Q.
Proof.
  intros Hm w Hw. destruct (Hm w Hw) as (z & w' & E & Hz & HQ). unfold SYSCALL.
  rewrite (bind_val _ _ _ _ _ E), (proj2 (Z.ltb_ge z 0)) by lia. by exists z, w'.
Qed.

Lemma runs_SYSCALL_FAILS {K : Kernel} (P : world -> Prop) m (Q : world -> Prop) e name text file line func :
  runs P m (fun z w => z <> 0 /\ errno w = e /\ Q w) ->
  runs P (SYSCALL_FAILS e name m text file line func) (fun _ => Q).
Proof.
  intros Hm w Hw. destruct (Hm w Hw) as (z & w' & E & Hz & He & HQ). unfold SYSCALL_FAILS.
  rewrite (bind_val _ _ _ _ _ E), bind_get, (proj2 (Z.eqb_neq z 0)), He, Z.eqb_refl by done.
  by exists z, w'.
Qed.

(** What a computation leaves alone, it leaves alone. *)
Lemma runs_frame {X A} (F : trace -> X) (R : X -> Prop) P (m : M A) Q : keeps F m -> runs P m Q ->
  runs (fun w => P w /\ R (F (tr w))) m (fun a w => Q a w /\ R (F (tr w))).
Proof.
  intros Hk Hm w [HP HR]. destruct (Hm w HP) as (a & w' & Hrun & HQ). exists a, w'. split; [done|]. split; [done|].
  by rewrite (keeps_run _ _ _ _ _ Hk Hrun).
Qed.

(** Runs that end the process. *)
Definition exits {A} (P : world -> Prop) (m : M A) (n : Z) : Prop := forall w, P w -> exists w', m w = (Exit n, w').

Lemma exits_bind {A B} (P : world -> Prop) (m : M A) (f : A -> M B) (R : A -> world -> Prop) n :
  runs P m R -> (forall a, exits (R a) (f a) n) -> exits P (m ≫= f) n.
Proof. intros Hm Hf w Hw. destruct (Hm w Hw) as (a & w1 & E & HR). rewrite (bind_val _ _ _ _ _ E). by apply Hf. Qed.

Lemma exits_first {A B} (P : world -> Prop) (m : M A) (f : A -> M B) n : exits P m n -> exits P (m ≫= f) n.
Proof. intros Hm w Hw. destruct (Hm w Hw) as (w1 & E). exists w1. by apply bind_exit. Qed.

Lemma exits_exit {A} (P : world -> Prop) n : exits P (exit_ n : M A) n.
Proof. intros w _. by exists w. Qed.

(** ** States of a test case *)

(** The process [tid] has a policy, holds the semaphores [h] and has exactly
    the descriptors of [tys] open, with their types. *)
Definition st (tid pol : Z) (h : list Z) (tys : list (Z * Z)) (w : world) : Prop :=
  policy_of tid (tr w) = pol /\ held (lock_log (tr w)) = h /\ NoDup (map fst tys) /\
  forall od ty, od_type od (lock_log (tr w)) = Some ty <-> (od, ty) ∈ tys.

#[export] Instance policy_quiet tid : InitQuiet (policy_of tid).
Proof. by repeat split. Qed.

Lemma st_same tid pol h tys w w' :
  st tid pol h tys w -> policy_of tid (tr w') = policy_of tid (tr w) -> lock_log (tr w') = lock_log (tr w) ->
  st tid pol h tys w'.
Proof. unfold st. by intros Hw -> ->. Qed.

Lemma st_type tid pol h tys w od ty :
  st tid pol h tys w -> (od, ty) ∈ tys -> od_type od (lock_log (tr w)) = Some ty.
Proof. intros (_ & _ & _ & Ht) Hin. by apply Ht. Qed.

Lemma st_room tid pol h tys w :
  st tid pol h tys w -> (length tys < 8)%nat -> room (lock_log (tr w)).
Proof.
  intros (_ & _ & _ & Ht) Hl. exists (map fst tys). split; [|by rewrite length_map].
  intros od [ty Hty%Ht]. apply list_elem_of_fmap. by exists (od, ty).
Qed.

Lemma st_fresh tid pol h tys w od :
  st tid pol h tys w -> od ∉ map fst tys -> od_type od (lock_log (tr w)) = None.
Proof.
  intros (_ & _ & _ & Ht) Hn. destruct (od_type _ _) as [ty|] eqn:E; [|done].
  destruct Hn. apply Ht in E. apply list_elem_of_fmap. by exists (od, ty).
Qed.

Section keeps_sporadic.
Context {K : Kernel} {H : KernelHeader} {X : Type} (F : trace -> X) `{!InitQuiet F}.

Lemma keeps_sporadic e p dom :
  quiet F NR_gettid -> (forall t s m, quiet F (Sched_setaffinity t s m)) ->
  (forall i q, quiet F (NR_set_rt_task_param i q)) -> keeps F (sporadic_partitioned e p dom).
Proof using All.
  intros Hg Ha Hp. unfold sporadic_partitioned, check, gettid, set_rt_task_param, syscall_int.
  repeat ((by apply (keeps_migrate F)) || apply (keeps_domain_to_first_cpu F) || keeps_step).
  all: try (apply keeps_syscall; first [apply Hg|apply Hp]).
  all: intros w; unfold perror, eprintf, emit, modify; cbn [snd tr push];
    first [apply quiet_out|apply quiet_perror].
Qed.
End keeps_sporadic.

Lemma remove_first_head a l : remove_first a (a :: l) = l.
Proof. cbn [remove_first]. by rewrite Z.eqb_refl. Qed.

(** Where a type is expected the enumerator's number is small. *)
Lemma obj_id_range t : 0 <= obj_id t <= 6.
Proof. destruct t; cbn; lia. Qed.

(** ** Rules *)

Section rules.
Context {K : Kernel} {H : KernelHeader} (tid cpus : Z) {SC : Schedules K tid} {SM : Semaphores K tid cpus}
  {AC : Accepts K tid}.

Abbreviation rt := (st tid SCHED_LITMUS).

(** A request the state does not see. *)
Lemma runs_quiet pol h tys c (P : Z -> Prop) :
  quiet (policy_of tid) c -> quiet lock_log c -> (forall t, P (ret_of (kernel t c))) ->
  runs (st tid pol h tys) (syscall c) (fun z w => P z /\ st tid pol h tys w).
Proof using.
  intros Hq Hl HP w Hw. eexists _, _. split; [done|]. split; [apply HP|].
  apply (st_same _ _ _ _ w); [done|by apply quiet_after..].
Qed.

Lemma runs_open pol h tys name :
  runs (st tid pol h tys) (open_file name) (fun z w => 0 <= z /\ st tid pol h tys w).
Proof using AC.
  apply runs_quiet; [by intros [] t..|]. intros t. destruct (acc_open t name (Z.lor O_RDONLY O_CREAT) S_IRUSR) as (fd & -> & ?). done.
Qed.

Lemma runs_remove pol h tys name :
  runs (st tid pol h tys) (remove name) (fun z w => 0 <= z /\ st tid pol h tys w).
Proof using AC. apply runs_quiet; [by intros [] t..|]. intros t. by rewrite acc_remove. Qed.

Lemma runs_close_remove pol h tys fd name file line func :
  runs (st tid pol h tys) (close_remove fd name file line func) (fun _ => st tid pol h tys).
Proof using AC.
  unfold close_remove. eapply runs_bind.
  { apply runs_SYSCALL, runs_quiet; [by intros [] t..|]. intros t. by rewrite acc_close. }
  intros z. eapply runs_bind; [apply runs_SYSCALL, runs_remove|]. intros z' w Hw. by exists tt, w.
Qed.

(** What every test case starts with. *)
Lemma runs_init {IN : Initialises K} pol h tys :
  runs (st tid pol h tys) init_litmus (fun z w => 0 <= z /\ st tid pol h tys w).
Proof using AC.
  intros w Hw. unfold init_litmus, init_rt_thread, init_kernel_iface, map_file, check.
  rewrite bind_syscall, ini_lock. cbn [ret_of]. set (w1 := after _ _ w). cbn [Z.eqb when]. rewrite bind_ret, !bind_bind.
  rewrite bind_syscall. destruct (ini_page (tr w1)) as (sz & E & Hsz). rewrite E. cbn [ret_of].
  set (w2 := after _ _ w1). unfold CTRL_PAGES. rewrite Z.mul_1_l, wrap_u_small, (proj2 (Z.ltb_lt 0 sz)) by lia.
  rewrite !bind_bind, bind_syscall. destruct (acc_open (tr w2) LITMUS_CTRL_DEVICE O_RDWR 0) as (fd & E2 & Hfd).
  rewrite E2. cbn [ret_of]. set (w3 := after _ _ w2). rewrite (proj2 (Z.leb_le 0 fd)) by done.
  rewrite !bind_bind, bind_syscall.
  destruct (ini_map (tr w3) sz (Z.lor PROT_READ PROT_WRITE) MAP_PRIVATE fd) as (a & E3 & Ha).
  rewrite E3. cbn [ret_of]. set (w4 := after _ _ w3). rewrite (proj2 (Z.eqb_neq _ _) Ha). mrun. cbn [Z.eqb negb when andb].
  mrun. cbn [Z.eqb andb]. eexists 0, _. split; [done|]. split; [done|]. apply (st_same _ _ _ _ w); [done|..]; cbn [tr put_ctrl_page];
    rewrite !tr_after; unfold w4, w3, w2, w1; rewrite !tr_after; done.
Qed.

(** Semaphores. *)
Lemma runs_od_open pol fd t id cfg h tys :
  may_open pol (obj_id t) = true -> cpu_ok cpus cfg = true -> (length tys < 8)%nat ->
  runs (st tid pol h tys) (od_openx fd (obj_id t) id cfg)
    (fun od w => 0 <= od /\ st tid pol h ((od, obj_id t) :: tys) w).
Proof using SM.
  intros Hmay Hcpu Hlen w Hw. pose proof Hw as (Hp & Hh & Hn & Ht). unfold od_openx, syscall_int.
  rewrite bind_syscall. rewrite <- Hp in Hmay.
  destruct (sem_open (tr w) fd (obj_id t) id cfg Hmay (obj_id_range t) Hcpu (st_room _ _ _ _ _ Hw Hlen))
    as (od & E & Hod & Hfresh).
  rewrite E. cbn [ret_of]. rewrite small_int by (unfold INT_MIN; lia).
  eexists od, _. split; [done|]. split; [lia|]. unfold st. rewrite tr_after. cbn [policy_of].
  change (lock_log (Sys (NR_od_open fd (obj_id t) id cfg) (Succ od) :: tr w)) with
    ((NR_od_open fd (obj_id t) id cfg, Succ od) :: lock_log (tr w)).
  cbn [held od_type map fst snd]. split; [done|]. split; [done|].
  assert (forall ty, (od, ty) ∉ tys) as Hne by (intros ty Hin%Ht; by rewrite Hfresh in Hin).
  split.
  - constructor; [|done]. rewrite list_elem_of_fmap. intros ([od' ty'] & -> & Hin). by apply Hne in Hin.
  - intros od' ty. rewrite elem_of_cons. destruct (Z.eqb_spec od od') as [<-|Hd].
    + split; [intros [= <-]; by left|]. intros [[= ->]|Hin]; [done|]. by apply Hne in Hin.
    + rewrite Ht. split; [by right|]. intros [[= -> ->]|Hin]; done.
Qed.

Lemma runs_open_lock pol t id ns cfg h tys :
  may_open pol (obj_id t) = true -> cpu_ok cpus cfg = true -> (length tys < 8)%nat ->
  runs (st tid pol h tys) (litmus_open_lock (obj_id t) id ns cfg)
    (fun od w => 0 <= od /\ st tid pol h ((od, obj_id t) :: tys) w).
Proof using SM AC.
  intros Hmay Hcpu Hlen. unfold litmus_open_lock. eapply runs_bind.
  { apply (runs_quiet _ _ _ _ (fun z => 0 <= z)); [by intros [] t'..|].
    intros t'. by destruct (acc_open t' ns (Z.lor O_RDWR O_CREAT) (Z.lor S_IRUSR S_IWUSR)) as (fd & -> & ?). }
  intros fd. apply runs_pure. intros Hfd. rewrite (proj2 (Z.ltb_ge fd 0)) by done.
  eapply runs_bind; [by apply runs_od_open|]. intros od. apply runs_pure. intros Hod.
  eapply runs_bind; [apply (runs_quiet _ _ _ _ (fun _ => True)); [by intros [] t'..|done]|].
  intros z w [_ Hw]. by exists od, w.
Qed.

(** Requests that are refused leave the state alone. *)
Lemma runs_refused pol h tys c e :
  quiet (policy_of tid) c -> (forall t, lock_log (Sys c (Fail e) :: t) = (c, Fail e) :: lock_log t) ->
  (forall l, held ((c, Fail e) :: l) = held l) -> (forall od l, od_type od ((c, Fail e) :: l) = od_type od l) ->
  (forall w, st tid pol h tys w -> kernel (tr w) c = Fail e) ->
  runs (st tid pol h tys) (syscall_int c) (fun z w => z <> 0 /\ errno w = e /\ st tid pol h tys w).
Proof using.
  intros Hq Hl Hh Ho Hk w Hw. unfold syscall_int. rewrite bind_syscall, (Hk w Hw).
  eexists _, _. split; [done|]. split; [done|]. split; [done|]. unfold st. rewrite tr_after, Hl, Hq.
  destruct Hw as (Hp & Hhd & Hn & Ht). rewrite Hh. split_and!; [done..|]. intros od ty. by rewrite Ho.
Qed.

Lemma runs_od_open_fails pol fd ty id cfg h tys e :
  (if (0 <=? ty) && (ty <=? 6)
   then if may_open pol ty then cpu_ok cpus cfg = false /\ e = EINVAL else e = EPERM
   else e = EINVAL) ->
  runs (st tid pol h tys) (od_openx fd ty id cfg)
    (fun z w => z <> 0 /\ errno w = e /\ st tid pol h tys w).
Proof using SM.
  intros He. apply runs_refused; [done..|]. intros w (Hp & _).
  destruct (_ && _) eqn:Hr; zbool; cycle 1.
  { subst e. apply (sem_open_type (cpus := cpus)). intros [H1%Z.leb_le H2%Z.leb_le]. by rewrite H1, H2 in Hr. }
  destruct (may_open pol ty) eqn:Hm; rewrite <- Hp in Hm.
  - destruct He as [Hc ->]. by apply (sem_open_cpu (cpus := cpus)).
  - subst e. by apply (sem_open_be (cpus := cpus)).
Qed.

Lemma runs_unknown pol h tys od c :
  od ∉ map fst tys -> od ∉ h -> c ∈ [NR_litmus_lock od; NR_litmus_unlock od; NR_od_close od] ->
  runs (st tid pol h tys) (syscall_int c) (fun z w => z <> 0 /\ errno w = EINVAL /\ st tid pol h tys w).
Proof using SM.
  intros Hn Hh Hc. assert (forall w, st tid pol h tys w -> kernel (tr w) c = Fail EINVAL) as Hk.
  { intros w Hw. eapply (sem_unknown _ od); [by eapply st_fresh| |done]. destruct Hw as (_ & -> & _). done. }
  rewrite !elem_of_cons in Hc. destruct Hc as [->|[->|[->|[]%not_elem_of_nil]]]; by apply runs_refused.
Qed.

Lemma runs_lock_be pol od ty h tys :
  pol <> SCHED_LITMUS -> (od, ty) ∈ tys ->
  runs (st tid pol h tys) (litmus_lock od) (fun z w => z <> 0 /\ errno w = EPERM /\ st tid pol h tys w).
Proof using SM.
  intros Hpol Hin. apply runs_refused; [done..|]. intros w Hw. eapply sem_lock_be; [|by eapply st_type].
  by destruct Hw as (-> & _).
Qed.

Lemma runs_lock od ty h tys :
  (od, ty) ∈ tys -> od ∉ h -> Forall (fun x => exists ty', (x, ty') ∈ tys /\ nestable ty' ty = true) h ->
  runs (rt h tys) (litmus_lock od) (fun z w => 0 <= z /\ rt (od :: h) tys w).
Proof using SM.
  intros Hin Hout Hnest w Hw. pose proof Hw as (Hp & Hh & Hn & Ht). unfold litmus_lock, syscall_int.
  rewrite bind_syscall. rewrite (sem_lock (tr w) od ty); [|done|by eapply st_type|by rewrite Hh|].
  2: { rewrite Hh. eapply Forall_impl; [|exact Hnest]. intros x (ty' & Hx & Hb). exists ty'.
       split; [by eapply st_type|done]. }
  eexists _, _. split; [done|]. split; [done|]. unfold st. rewrite tr_after.
  split; [done|]. split; [|done]. change (od :: held (lock_log (tr w)) = od :: h). by rewrite Hh.
Qed.

Lemma runs_busy od ty x ty' h tys :
  (od, ty) ∈ tys -> x ∈ h -> (x, ty') ∈ tys -> nestable ty' ty = false ->
  runs (rt h tys) (litmus_lock od) (fun z w => z <> 0 /\ errno w = EBUSY /\ rt h tys w).
Proof using SM.
  intros Hin Hx Htx Hb. apply runs_refused; [done..|]. intros w Hw. pose proof Hw as (Hp & Hh & _).
  eapply (sem_busy _ od ty x ty'); [done|by eapply st_type|by rewrite Hh|by eapply st_type|done].
Qed.

Lemma runs_unlock pol od h tys :
  runs (st tid pol (od :: h) tys) (litmus_unlock od) (fun z w => 0 <= z /\ st tid pol h tys w).
Proof using SM.
  intros w Hw. pose proof Hw as (Hp & Hh & Hn & Ht). unfold litmus_unlock, syscall_int. rewrite bind_syscall.
  rewrite sem_unlock by (rewrite Hh; by left). eexists _, _. split; [done|]. split; [done|].
  unfold st. rewrite tr_after. split; [done|]. split; [|done].
  change (remove_first od (held (lock_log (tr w))) = h). by rewrite Hh, remove_first_head.
Qed.

Lemma runs_not_held pol od ty h tys :
  (od, ty) ∈ tys -> od ∉ h ->
  runs (st tid pol h tys) (litmus_unlock od) (fun z w => z <> 0 /\ errno w = EINVAL /\ st tid pol h tys w).
Proof using SM.
  intros Hin Hout. apply runs_refused; [done..|]. intros w Hw. eapply sem_not_held; [by eapply st_type|].
  by destruct Hw as (_ & -> & _).
Qed.

Lemma runs_od_close pol od ty h l1 l2 :
  od ∉ h ->
  runs (st tid pol h (l1 ++ (od, ty) :: l2)) (od_close od) (fun z w => 0 <= z /\ st tid pol h (l1 ++ l2) w).
Proof using SM.
  intros Hout w Hw. pose proof Hw as (Hp & Hh & Hn & Ht). unfold od_close, syscall_int. rewrite bind_syscall.
  rewrite (sem_close (tr w) od ty); [|eapply st_type; [done|apply elem_of_app; right; by left]|by rewrite Hh].
  eexists _, _. split; [done|]. split; [done|]. unfold st. rewrite tr_after. split; [done|]. split; [done|].
  change (lock_log (Sys (NR_od_close od) (Succ 0) :: tr w)) with ((NR_od_close od, Succ 0) :: lock_log (tr w)).
  rewrite map_app in Hn |- *. cbn [map fst] in Hn. cbn [od_type].
  assert ((od ∉ map fst (l1 ++ l2)) /\ NoDup (map fst l1 ++ map fst l2)) as [Hne Hn'].
  { rewrite map_app. change (od :: map fst l2) with ([od] ++ map fst l2) in Hn.
    rewrite (Permutation_app_swap_app (map fst l1) [od]) in Hn. by inversion_clear Hn. }
  split; [done|]. intros od' ty'. specialize (Ht od' ty'). rewrite elem_of_app in Ht |- *.
  rewrite elem_of_cons in Ht. destruct (Z.eqb_spec od od') as [<-|Hd].
  - split; [done|]. intros Hin. destruct Hne. apply list_elem_of_fmap. exists (od, ty'). by rewrite elem_of_app.
  - rewrite Ht. split; [intros [Hin|[[= -> ->]|Hin]]; [by left|done|by right]|].
    intros [Hin|Hin]; [by left|by right; right].
Qed.

Lemma runs_od_close_last pol od ty h :
  od ∉ h -> runs (st tid pol h [(od, ty)]) (od_close od) (fun z w => 0 <= z /\ st tid pol h [] w).
Proof using SM. apply (runs_od_close pol od ty h [] []). Qed.

Lemma runs_od_close_first pol p od ty h :
  od ∉ h -> runs (st tid pol h [p; (od, ty)]) (od_close od) (fun z w => 0 <= z /\ st tid pol h [p] w).
Proof using SM. apply (runs_od_close pol od ty h [p] []). Qed.

(** Descriptors that are open together differ. *)
Lemma runs_distinct {A} pol h od1 ty1 od2 ty2 tys (m : M A) Q :
  (od1 <> od2 -> runs (st tid pol h ((od2, ty2) :: (od1, ty1) :: tys)) m Q) ->
  runs (st tid pol h ((od2, ty2) :: (od1, ty1) :: tys)) m Q.
Proof using.
  intros Hm w Hw. pose proof Hw as (_ & _ & Hn & _). apply Hm; [|done]. intros ->.
  inversion_clear Hn as [|? ? Hout _]. apply Hout. by left.
Qed.

(** The statements that test cases share. *)

Lemma runs_unit {A} P (m : M A) (Q : world -> Prop) : runs P m (fun _ => Q) -> runs P (m;; mret tt) (fun _ => Q).
Proof using. intros Hm w Hw. destruct (Hm w Hw) as (a & w' & E & HQ). rewrite (bind_val _ _ _ _ _ E). by exists tt, w'. Qed.

Lemma runs_lock_unlock od ty tys name file line func :
  (od, ty) ∈ tys -> runs (rt [] tys) (lock_unlock od name file line func) (fun _ => rt [] tys).
Proof using SM.
  intros Hin. unfold lock_unlock.
  eapply runs_bind; [by eapply runs_SYSCALL, runs_lock; [|apply not_elem_of_nil|constructor]|]. intros z.
  apply runs_unit, runs_SYSCALL, runs_unlock.
Qed.

Lemma runs_nested_busy od ty od2 ty2 tys name name2 file line func :
  (od, ty) ∈ tys -> (od2, ty2) ∈ tys -> nestable ty ty2 = false ->
  runs (rt [] tys) (nested_busy od name od2 name2 file line func) (fun _ => rt [] tys).
Proof using SM.
  intros Hin Hin2 Hb. unfold nested_busy.
  eapply runs_bind; [by eapply runs_SYSCALL, runs_lock; [|apply not_elem_of_nil|constructor]|]. intros z.
  eapply runs_bind; [eapply runs_SYSCALL_FAILS, (runs_busy od2 ty2 od ty); try done; by left|]. intros z2.
  apply runs_unit, runs_SYSCALL, runs_unlock.
Qed.

Lemma runs_nested_ok od ty od2 ty2 tys name name2 file line func :
  od <> od2 -> (od, ty) ∈ tys -> (od2, ty2) ∈ tys -> nestable ty ty2 = true ->
  runs (rt [] tys) (nested_ok od name od2 name2 file line func) (fun _ => rt [] tys).
Proof using SM.
  intros Hne Hin Hin2 Hb. unfold nested_ok.
  eapply runs_bind; [by eapply runs_SYSCALL, runs_lock; [|apply not_elem_of_nil|constructor]|]. intros z.
  eapply runs_bind.
  { eapply runs_SYSCALL, (runs_lock od2 ty2); [done|by apply not_elem_of_cons; split; [|apply not_elem_of_nil]|].
    repeat constructor. by exists ty. }
  intros z2. eapply runs_bind; [apply runs_SYSCALL, runs_unlock|]. intros z3.
  apply runs_unit, runs_SYSCALL, runs_unlock.
Qed.
End rules.

(** ** Becoming a real-time task *)

Section become.
Context {K : Kernel} {H : KernelHeader} (tid : Z) {SC : Schedules K tid} {AC : Accepts K tid}.
Context {AL : Allocates K} (online : Z) {ON : Online K online} (Honline : 0 <= online <= 4096).
Lemma runs_task_mode pol mode h tys :
  pol = (if mode =? LITMUS_RT_TASK then SCHED_NORMAL else SCHED_LITMUS) ->
  mode ∈ [LITMUS_RT_TASK; BACKGROUND_TASK] ->
  runs (st tid pol h tys) (task_mode mode)
    (fun z w => 0 <= z /\ st tid (if mode =? LITMUS_RT_TASK then SCHED_LITMUS else SCHED_NORMAL) h tys w).
Proof using SC AC.
  intros Hpol Hmode w Hw. pose proof Hw as (Hp & _).
  destruct (task_mode_run tid mode w) as (ret & w' & Hrun & Hcase).
  { rewrite Hp, Hpol. by destruct (_ =? _). }
  assert (is_switch (mode_of tid w) mode = true) as Hs.
  { unfold mode_of. rewrite Hp, Hpol. rewrite !elem_of_cons in Hmode.
    by destruct Hmode as [->|[->|[]%not_elem_of_nil]]. }
  rewrite Hs in Hcase. cbn zeta in Hcase. destruct Hcase as (r & Hr & Ht & Hok).
  rewrite acc_policy in Hr. subst r. exists ret, w'. split; [done|].
  destruct Hok as [[_ ->]|(e & He & _)]; [|done]. split; [done|].
  pose proof (keeps_run lock_log _ _ _ _
    (keeps_task_mode lock_log _ ltac:(done) ltac:(done) ltac:(done)) Hrun) as Hl.
  destruct Hw as (_ & Hw). unfold st. rewrite Hl. split; [|done]. rewrite Ht. cbn [policy_of]. by rewrite Z.eqb_refl.
Qed.

(** Migration to a CPU, which may be refused, and its success. *)
Lemma runs_migrate_cpu pol c h tys :
  runs (st tid pol h tys) (be_migrate_to_cpu c)
    (fun z w => (0 <= c < online -> 0 <= z) /\ st tid pol h tys w).
Proof using AC AL ON Honline.
  intros w Hw. destruct (be_migrate_thread_to_cpu_run online 0 c w AL ON) as (ret & w' & Hrun & _ & Hcase).
  { unfold INT_MAX. lia. }
  exists ret, w'. split; [exact Hrun|]. split.
  - intros [Hc Hn]. rewrite (proj2 (Z.leb_le _ _) Hc), (proj2 (Z.ltb_lt _ _) Hn) in Hcase.
    destruct Hcase as (tid' & sz & r & [t Hr] & _ & -> & _). rewrite acc_affinity in Hr. by subst r.
  - apply (st_same _ _ _ _ w); [done|..]; eapply keeps_run; try exact Hrun;
      unfold be_migrate_thread_to_cpu, num_online_cpus, CPU_ALLOC, CPU_ZERO_S, CPU_FREE, gettid, syscall_int; keeps_tac.
Qed.

Lemma runs_start_rt params h tys file line func :
  0 <= s32 (cpu params) < online ->
  runs (st tid SCHED_NORMAL h tys) (start_rt params file line func) (fun _ => st tid SCHED_LITMUS h tys).
Proof using SC AC AL ON Honline.
  intros Hc. unfold start_rt. eapply runs_bind.
  { apply (runs_SYSCALL _ _ (fun _ => st tid SCHED_NORMAL h tys)). unfold set_own_param, gettid, set_rt_task_param, syscall_int. intros w Hw. mrun.
    rewrite acc_param. eexists _, _. split; [done|]. split; [done|].
    apply (st_same _ _ _ _ w); [done|..]; rewrite !tr_after; done. }
  intros z. eapply runs_bind.
  { apply runs_SYSCALL. eapply runs_weaken; [apply runs_migrate_cpu|done|]. intros a w [Hz Hw]. split; [by apply Hz|exact Hw]. }
  intros z2. apply runs_unit, runs_SYSCALL, (runs_task_mode SCHED_NORMAL LITMUS_RT_TASK); [done|by left].
Qed.

Lemma runs_background h tys :
  runs (st tid SCHED_LITMUS h tys) (task_mode BACKGROUND_TASK) (fun z w => 0 <= z /\ st tid SCHED_NORMAL h tys w).
Proof using SC AC. apply (runs_task_mode SCHED_LITMUS BACKGROUND_TASK); [done|by right; left]. Qed.

Context (m : nat) (w0 : Z) (ws : list Z) {SV : Serves K (mapping_file "domains" 0) (mask_text m w0 ws)}.
Context (Hmask : wf_mask m w0 ws) (Hws : (length ws <= 127)%nat).

Lemma runs_sporadic e p h tys :
  runs (st tid SCHED_NORMAL h tys) (sporadic_partitioned e p 0)
    (fun z w => 0 <= z /\ st tid SCHED_NORMAL h tys w).
Proof using AC AL ON SV Honline Hmask Hws.
  intros w Hw.
  destruct (sporadic_domain_run "be_migrate_to_domain()" online e p 0 m w0 ws w AL ON Honline SV Hmask Hws)
    as (ret & tid1 & sz & r & w' & Hrun & [t1 Hr] & _ & Hret).
  rewrite acc_affinity in Hr. subst r. cbn [ret_of Z.eqb] in Hret.
  destruct Hret as (first & tid2 & r' & _ & -> & _ & [t2 Hr']). rewrite acc_param in Hr'. subst r'.
  exists (s32 (ret_of (Succ 0))), w'. split; [exact Hrun|]. split; [done|].
  apply (st_same _ _ _ _ w); [done|..]; eapply keeps_run; try exact Hrun; by apply (keeps_sporadic _).
Qed.

Lemma runs_become_rt e p h tys text file line func :
  runs (st tid SCHED_NORMAL h tys) (become_rt (sporadic_partitioned e p 0) text file line func)
    (fun _ => st tid SCHED_LITMUS h tys).
Proof using SC AC AL ON SV Honline Hmask Hws.
  unfold become_rt. eapply runs_bind; [apply runs_SYSCALL, runs_sporadic|]. intros z.
  apply runs_unit, runs_SYSCALL, (runs_task_mode SCHED_NORMAL LITMUS_RT_TASK); [done|by left].
Qed.
End become.

(** ** A kernel that implements the specification *)

Module LockKernel.
Import Sim.

(** The least descriptor of the first nine that is not in use. *)
Definition free_od (l : list (call * reply)) : option Z :=
  find (fun od => bool_decide (od_type od l = None)) (seqZ 0 9).

Definition nests (l : list (call * reply)) (ty h : Z) : bool :=
  match od_type h l with Some ty' => nestable ty' ty | None => false end.

Section kernel.
Context (files : list (string * bytes)) (chunk : nat) (cpus : Z).

(** Task 1000; files that are not served are empty. *)
Definition lock_kernel : Kernel := fun t c =>
  let l := lock_log t in
  match c with
  | Open p f m => if ret_of (sim files chunk cpus t c) =? -1 then Succ 4 else Succ 3
  | NR_sched_getscheduler p => Succ (policy_of p t)
  | NR_od_open _ ty _ cfg =>
      if negb ((0 <=? ty) && (ty <=? 6)) then Fail EINVAL
      else if negb (may_open (policy_of 1000 t) ty) then Fail EPERM
      else if negb (cpu_ok cpus cfg) then Fail EINVAL
      else match free_od l with Some od => Succ od | None => Fail 12 end
  | NR_od_close od =>
      match od_type od l with
      | Some _ => if bool_decide (od ∈ held l) then Fail EBUSY else Succ 0
      | None => Fail EINVAL
      end
  | NR_litmus_lock od =>
      match od_type od l with
      | Some ty =>
          if negb (policy_of 1000 t =? SCHED_LITMUS) then Fail EPERM
          else if forallb (nests l ty) (held l) then Succ 0 else Fail EBUSY
      | None => Fail EINVAL
      end
  | NR_litmus_unlock od => if bool_decide (od ∈ held l) then Succ 0 else Fail EINVAL
  | c => sim files chunk cpus t c
  end.

Lemma free_od_room l : room l -> exists od, free_od l = Some od.
Proof.
  intros (ods & Hods & Hlen). destruct (free_od l) as [od|] eqn:E; [by exists od|]. exfalso.
  assert (seqZ 0 9 ⊆ ods) as Hsub.
  { intros od Hin. apply Hods. pose proof (find_none _ _ E od) as Hn. apply list_elem_of_In in Hin.
    specialize (Hn Hin). apply bool_decide_eq_false in Hn. by destruct (od_type od l). }
  pose proof (submseteq_length _ _ (NoDup_submseteq _ _ (NoDup_seqZ 0 9) Hsub)) as Hl.
  rewrite length_seqZ in Hl. lia.
Qed.

Lemma free_od_fresh l od : free_od l = Some od -> 0 <= od < 9 /\ od_type od l = None.
Proof.
  intros [Hin Hn]%find_some. apply list_elem_of_In, elem_of_seqZ in Hin. apply bool_decide_eq_true in Hn.
  split; [lia|done].
Qed.

#[export] Instance lock_kernel_semaphores : Semaphores lock_kernel 1000 cpus.
Proof.
  split; unfold kernel, lock_kernel.
  - intros t fd ty id cfg Hmay Hty Hcfg Hroom. rewrite Hmay, Hcfg.
    rewrite (proj2 (Z.leb_le 0 ty)), (proj2 (Z.leb_le ty 6)) by lia. cbn [andb negb].
    destruct (free_od_room _ Hroom) as [od E]. rewrite E. exists od. split; [done|].
    apply free_od_fresh in E as [Hod ?]. split; [|done]. unfold INT_MAX. lia.
  - intros t fd ty id cfg Hmay Hty Hcfg. rewrite Hmay, Hcfg.
    by rewrite (proj2 (Z.leb_le 0 ty)), (proj2 (Z.leb_le ty 6)) by lia.
  - intros t fd ty id cfg Hmay Hty. rewrite Hmay.
    by rewrite (proj2 (Z.leb_le 0 ty)), (proj2 (Z.leb_le ty 6)) by lia.
  - intros t fd ty id cfg Hty. destruct (Z.leb_spec 0 ty), (Z.leb_spec ty 6); try done. lia.
  - intros t od ty -> Hh. by rewrite bool_decide_eq_false_2.
  - intros t od ty -> -> Hh Hall. rewrite Z.eqb_refl. cbn [negb].
    replace (forallb _ _) with true; [done|]. symmetry. apply forallb_forall. intros h Hin.
    rewrite Forall_forall in Hall. destruct (Hall h Hin) as (ty' & Ht & Hn). unfold nests. by rewrite Ht.
  - intros t od ty h ty' -> -> Hin Ht Hn. rewrite Z.eqb_refl. cbn [negb].
    replace (forallb _ _) with false; [done|]. symmetry. apply not_true_iff_false. intros Hall.
    rewrite forallb_forall in Hall. apply list_elem_of_In in Hin. specialize (Hall h Hin).
    unfold nests in Hall. by rewrite Ht, Hn in Hall.
  - intros t od ty Hp ->. by rewrite (proj2 (Z.eqb_neq _ _)).
  - intros t od Hin. by rewrite bool_decide_eq_true_2.
  - intros t od ty _ Hh. by rewrite bool_decide_eq_false_2.
  - intros t od c Ht Hh Hc. rewrite !elem_of_cons in Hc.
    destruct Hc as [->|[->|[->|[]%not_elem_of_nil]]]; rewrite ?Ht; [done| |done]. by rewrite bool_decide_eq_false_2.
Qed.

#[export] Instance lock_kernel_schedules : Schedules lock_kernel 1000.
Proof. split; try done. intros t pol prio. by left. Qed.

#[export] Instance lock_kernel_accepts : Accepts lock_kernel 1000.
Proof.
  split; try done. intros t p f m. unfold kernel, lock_kernel. destruct (_ =? _); by eexists.
Qed.

#[export] Instance lock_kernel_allocates : Allocates lock_kernel.
Proof. exact (sim_allocates files chunk cpus). Qed.

#[export] Instance lock_kernel_initialises : Initialises lock_kernel.
Proof.
  split; unfold kernel, lock_kernel, sim, sim_polls; [done|..].
  - intros t. by exists 4096.
  - intros t ? ? ? ?. eexists. split; [done|]. unfold MAP_FAILED. lia.
Qed.

#[export] Instance lock_kernel_online : Online lock_kernel cpus.
Proof. done. Qed.

Lemma lock_kernel_serves p content : Serves (sim files chunk cpus) p content -> Serves lock_kernel p content.
Proof.
  intros SV. split; [|apply SV]. intros t flags mode. unfold kernel, lock_kernel.
  destruct (_ =? _); [by exists 4|by exists 3].
Qed.
End kernel.
End LockKernel.
