(* ===== verification/LockTests.v ===== *)
(** * The semaphore tests against the specification

    On a kernel that implements the specification of [LockSpec], every test
    case of tests/ that handles semaphores in one process passes, and leaves
    no semaphore held and no descriptor open; a kernel on which one of the
    tests for forbidden nesting passes has refused it, in both orders; the
    tests of a holder that exits check nothing. *)
From S2P Require Import Prelude Machine CString Laws Iface Syscalls Migration Litmus Runner Tests.
From S2P Require Import TestLocks TestNesting TestFdso TestPcp LockSpec.

Section suites.
Context {K : Kernel} {H : KernelHeader}.

(** Acquisition and release, of tests/locks.c and tests/pcp.c. *)
Definition acquisition_tests : list (M unit) :=
  [test_lock_srp; test_lock_fmlp; test_lock_dflp; test_lock_pcp; test_lock_dpcp; test_lock_mpcp].

(** Nesting that is allowed, and nesting that is not, of tests/nesting.c. *)
Definition nesting_tests : list (M unit) := [test_lock_srp_nesting; test_lock_pcp_nesting].
Definition no_nesting_tests : list (M unit) :=
  [test_lock_fmlp_nesting; test_lock_fmlp_srp_nesting; test_lock_mpcp_pcp_no_nesting;
   test_lock_fmlp_pcp_no_nesting; test_lock_dpcp_pcp_no_nesting; test_lock_mpcp_srp_no_nesting;
   test_lock_dpcp_srp_no_nesting; test_lock_fmlp_mpcp_no_nesting; test_lock_fmlp_dpcp_no_nesting;
   test_mpcp_nesting; test_mpcpvs_nesting; test_dpcp_nesting; test_dflp_nesting;
   test_lock_fmlp_dflp_no_nesting; test_lock_dflp_pcp_no_nesting].

(** Tasks that are not real-time, CPUs that do not exist, descriptors and
    types that do not. *)
Definition refusal_tests : list (M unit) :=
  [test_not_lock_fmlp_be; test_not_lock_srp_be; test_not_lock_pcp_be; test_dflp_bad_cpu;
   test_pcp_bad_cpu; test_dpcp_bad_cpu; test_invalid_od; test_invalid_obj_type].

(** A holder that leaves real-time mode. *)
Definition mode_change_tests : list (M unit) :=
  [test_srp_lock_mode_change; test_dflp_lock_mode_change; test_pcp_lock_mode_change;
   test_mpcp_lock_mode_change; test_dpcp_lock_mode_change].

(** A holder that exits. *)
Definition teardown_tests (status : Z) : list (M unit) :=
  [test_srp_lock_teardown status; test_fmlp_lock_teardown status; test_dflp_lock_teardown status;
   test_pcp_lock_teardown status; test_dpcp_lock_teardown status; test_mpcp_lock_teardown status].
End suites.

(** ** The tests pass *)

Section pass.
Context {K : Kernel} {H : KernelHeader} (tid cpus : Z) {SC : Schedules K tid} {SM : Semaphores K tid cpus}
  {AC : Accepts K tid} {AL : Allocates K} {ON : Online K cpus} (Hcpus : 2 <= cpus <= 4096).
(** From a fresh process to one that holds nothing and has nothing open. *)
Definition passes (test : M unit) : Prop :=
  runs (st tid SCHED_NORMAL [] []) test (fun _ w => exists pol, st tid pol [] [] w).

Lemma cpu_ok_small c : 0 <= c < 2 -> cpu_ok cpus (Some c) = true.
Proof using Hcpus. intros Hc. unfold cpu_ok. rewrite (proj2 (Z.leb_le _ _)), (proj2 (Z.ltb_lt _ _)) by lia. done. Qed.

Lemma cpu_bad : cpu_ok cpus (Some 0xbadca5e) = false.
Proof using Hcpus. unfold cpu_ok. apply andb_false_iff. right. apply Z.ltb_ge. lia. Qed.

Lemma passes_end pol : runs (st tid pol [] []) (mret tt) (fun _ w => exists pol, st tid pol [] [] w).
Proof using. intros w Hw. exists tt, w. split; [done|]. by exists pol. Qed.

Lemma passes_last {A} pol (m' : M A) :
  runs (st tid pol [] []) m' (fun _ => st tid pol [] []) ->
  runs (st tid pol [] []) m' (fun _ w => exists pol, st tid pol [] [] w).
Proof using. intros Hm w Hw. destruct (Hm w Hw) as (a & w' & E & Hw'). exists a, w'. split; [done|]. by exists pol. Qed.

Context (m : nat) (w0 : Z) (ws : list Z) {SV : Serves K (mapping_file "domains" 0) (mask_text m w0 ws)}.
Context (Hmask : wf_mask m w0 ws) (Hws : (length ws <= 127)%nat).

(** One statement of a test case. *)
Ltac in_tac := by repeat (apply elem_of_cons; first [by left|right]).
Ltac cfg_tac := first [done | apply cpu_ok_small; lia].
Ltac open_tac t := eapply (runs_od_open tid cpus _ _ t); [done|cfg_tac|cbn; lia].
Ltac fails_tac :=
  first
  [ eapply (runs_od_open_fails tid cpus); first [done|split; [apply cpu_bad|done]]
  | eapply (runs_unknown tid cpus); [apply not_elem_of_nil|apply not_elem_of_nil|in_tac]
  | eapply (runs_not_held tid cpus); [in_tac|apply not_elem_of_nil]
  | eapply (runs_lock_be tid cpus); [done|in_tac] ].
Ltac stmt :=
  lazymatch goal with
  | |- runs _ (SYSCALL _ _ _ _ _) _ => apply runs_SYSCALL; stmt
  | |- runs _ (SYSCALL_FAILS _ _ _ _ _ _ _) _ => eapply runs_SYSCALL_FAILS; fails_tac
  | |- runs _ (open_file _) _ => apply (runs_open tid)
  | |- runs _ (open_fmlp_sem _ _) _ => open_tac FMLP_SEM
  | |- runs _ (open_srp_sem _ _) _ => open_tac SRP_SEM
  | |- runs _ (open_mpcp_sem _ _) _ => open_tac MPCP_SEM
  | |- runs _ (open_pcp_sem _ _ _) _ => open_tac PCP_SEM
  | |- runs _ (open_dpcp_sem _ _ _) _ => open_tac DPCP_SEM
  | |- runs _ (open_dflp_sem _ _ _) _ => open_tac DFLP_SEM
  | |- runs _ (litmus_open_lock _ _ _ _) _ => eapply (runs_open_lock tid cpus); [done|cfg_tac|cbn; lia]
  | |- runs _ (litmus_lock _) _ => eapply (runs_lock tid cpus); [in_tac|apply not_elem_of_nil|constructor]
  | |- runs _ (litmus_unlock _) _ => eapply (runs_unlock tid cpus)
  | |- runs (st _ _ _ [(?od, _)]) (od_close ?od) _ =>
      eapply (runs_od_close_last tid cpus); apply not_elem_of_nil
  | |- runs (st _ _ _ [?p; (?od, _)]) (od_close ?od) _ =>
      eapply (runs_od_close_first tid cpus); apply not_elem_of_nil
  | |- runs _ (remove _) _ => apply (runs_remove tid)
  | |- runs _ (task_mode BACKGROUND_TASK) _ => apply (runs_background tid)
  | |- runs _ (become_rt _ _ _ _ _) _ => eapply (runs_become_rt tid cpus ltac:(lia) m w0 ws); done
  | |- runs _ (start_rt _ _ _ _) _ => eapply (runs_start_rt tid cpus); [lia|];
      lazymatch goal with |- _ <= ?c < _ => let v := eval vm_compute in c in change c with v; lia end
  | |- runs _ (be_migrate_to_cpu _) _ =>
      eapply runs_weaken; [apply (runs_migrate_cpu tid cpus); lia|done|by intros ?? [_ Hst]; exact Hst]
  | |- runs _ (lock_unlock _ _ _ _ _) _ => eapply (runs_lock_unlock tid cpus); in_tac
  | |- runs _ (nested_busy _ _ _ _ _ _ _) _ => eapply (runs_nested_busy tid cpus); [in_tac|in_tac|done]
  | |- runs _ (nested_ok _ _ _ _ _ _ _) _ => eapply (runs_nested_ok tid cpus); [done|in_tac|in_tac|done]
  | |- runs _ (close_remove _ _ _ _ _) _ => apply (runs_close_remove tid)
  end.
Ltac bind_tac :=
  eapply runs_bind; [stmt|intros ?; cbv beta;
    try lazymatch goal with |- runs (fun w => ?P w) ?test ?Q => change (runs P test Q) end].
Ltac test_step :=
  lazymatch goal with
  | |- runs _ (mret tt) _ => apply passes_end
  | Hd : ?a <> ?b |- runs (st _ _ _ [(?b, _); (?a, _)]) _ _ => bind_tac
  | |- runs (st _ _ _ [(?b, _); (?a, _)]) _ _ => apply runs_distinct; intros ?
  | |- runs _ (_ ≫= _) _ => bind_tac
  | |- runs _ _ _ => apply passes_last; stmt
  end.
Ltac suite_pass suite :=
  unfold suite; repeat (apply Forall_cons_iff; split); [..|apply Forall_nil];
  lazymatch goal with |- passes ?test => let body := eval red in test in change (passes body) end;
  unfold passes; cbv zeta; repeat test_step.

Lemma acquisition_pass : Forall passes acquisition_tests.
Proof. suite_pass @acquisition_tests. Qed.
Lemma nesting_pass : Forall passes nesting_tests.
Proof. suite_pass @nesting_tests. Qed.
Lemma no_nesting_pass : Forall passes no_nesting_tests.
Proof. suite_pass @no_nesting_tests. Qed.
Lemma refusal_pass : Forall passes refusal_tests.
Proof. suite_pass @refusal_tests. Qed.
Lemma mode_change_pass : Forall passes mode_change_tests.
Proof. suite_pass @mode_change_tests. Qed.

Lemma suites_pass : Forall passes
  (acquisition_tests ++ nesting_tests ++ no_nesting_tests ++ refusal_tests ++ mode_change_tests).
Proof.
  rewrite !Forall_app. auto using acquisition_pass, nesting_pass, no_nesting_pass, refusal_pass, mode_change_pass.
Qed.

(** On a kernel that implements the specification of semaphores, from a
    process that is not real-time, holds no semaphore and has no descriptor
    open, every test of acquisition, of allowed and of forbidden nesting, of
    refusals and of mode changes returns without a failed assertion, and holds
    nothing and has nothing open in the end. *)
Theorem lock_tests_pass test w :
  test ∈ acquisition_tests ++ nesting_tests ++ no_nesting_tests ++ refusal_tests ++ mode_change_tests ->
  st tid SCHED_NORMAL [] [] w ->
  exists pol w', test w = (Val tt, w') /\ st tid pol [] [] w'.
Proof using SC SM AC AL ON Hcpus SV Hmask Hws.
  intros Hin Hw. pose proof suites_pass as Hall. rewrite Forall_forall in Hall. apply list_elem_of_In in Hin.
  destruct (Hall _ Hin w Hw) as ([] & w' & Hrun & pol & Hst). by exists pol, w'.
Qed.

(** The forked child, from the fork on. *)
Lemma child_exits {IN : Initialises K} strsignal verbose test name w :
  test ∈ acquisition_tests ++ nesting_tests ++ no_nesting_tests ++ refusal_tests ++ mode_change_tests ->
  st tid SCHED_NORMAL [] [] w ->
  kernel (Out stdout "** Testing: %s... " [AStr name] :: tr w) Fork = Succ 0 ->
  exists pol w', run_test strsignal verbose (mk_testcase test name) w = (Exit 0, w') /\ st tid pol [] [] w' /\
    passed 0 = true.
Proof using SC SM AC AL ON Hcpus SV Hmask Hws.
  intros Hin Hw Hfork. pose proof suites_pass as Hall. rewrite Forall_forall in Hall. apply list_elem_of_In in Hin.
  unfold run_test, printf. mrun. set (w0' := push _ w). set (w1 := after Fork (Succ 0) w0').
  assert (SYSCALL (syscall Fork) "pid = fork()" "tests/runner.c" 24 "run_test" w0' = (Val 0, w1)) as E.
  { unfold SYSCALL. rewrite bind_syscall. change (kernel (tr w0') Fork) with
      (kernel (Out stdout "** Testing: %s... " [AStr name] :: tr w) Fork). by rewrite Hfork. }
  rewrite (bind_val _ _ _ _ _ E). cbn [Z.eqb].
  assert (st tid SCHED_NORMAL [] [] w1) as Hw1 by by apply (st_same _ _ _ _ w).
  destruct (runs_SYSCALL _ _ _ "init_litmus()" "tests/runner.c" 27 "run_test" (runs_init tid SCHED_NORMAL [] []) w1 Hw1)
    as (z & w2 & Hinit & Hw2).
  rewrite (bind_val _ _ _ _ _ Hinit). destruct (Hall _ Hin w2 Hw2) as ([] & w' & Hrun & pol & Hst).
  cbn [function]. exists pol, w'. rewrite (bind_val _ _ _ _ _ Hrun). by split.
Qed.

End pass.

(** ** What a passed test shows of the kernel *)

(** With [od] granted, the next request was for [od2], and it was refused:
    an error is EBUSY. *)
Definition refused (od od2 : Z) (l : list (call * reply)) : Prop :=
  exists l1 l2 r r2, l = l1 ++ (NR_litmus_lock od2, r2) :: (NR_litmus_lock od, r) :: l2 /\
    0 <= s32 (ret_of r) /\ s32 (ret_of r2) <> 0 /\ (forall e, r2 = Fail e -> e = EBUSY).

Lemma refused_later od od2 t t' : t `suffix_of` t' -> refused od od2 (lock_log t) -> refused od od2 (lock_log t').
Proof.
  intros [t1 ->] (l1 & l2 & r & r2 & Hl & ?). unfold lock_log. rewrite omap_app. fold (lock_log t) (lock_log t1).
  exists (lock_log t1 ++ l1), l2, r, r2. by rewrite Hl, app_assoc.
Qed.

(** When the computation ends with a value, its trace is as said. *)
Definition shows {A} (m : M A) (P : trace -> Prop) : Prop := forall w a w', m w = (Val a, w') -> P (tr w').

Lemma shows_skip {A B} (m : M A) (f : A -> M B) P : (forall a, shows (f a) P) -> shows (m ≫= f) P.
Proof. intros Hf w b w' (a & w1 & _ & H)%bind_val_inv. by eapply Hf. Qed.

Section sound.
Context {K : Kernel} {H : KernelHeader}.

Lemma SYSCALL_inv m text file line func w z w' :
  SYSCALL m text file line func w = (Val z, w') -> m w = (Val z, w') /\ 0 <= z.
Proof.
  unfold SYSCALL. intros (a & w1 & Hm & Hr)%bind_val_inv.
  destruct (Z.ltb_spec a 0); [done|]. by injection Hr as <- <-.
Qed.

Lemma SYSCALL_FAILS_inv e name m text file line func w z w' :
  SYSCALL_FAILS e name m text file line func w = (Val z, w') -> m w = (Val z, w') /\ z <> 0 /\ errno w' = e.
Proof.
  unfold SYSCALL_FAILS. intros (a & w1 & Hm & Hr)%bind_val_inv. rewrite bind_get in Hr.
  destruct (Z.eqb_spec a 0); [done|]. cbn [orb] in Hr. destruct (Z.eqb_spec (errno w1) e); [|done].
  by injection Hr as <- <-.
Qed.

Lemma grows_fail {A} fmt args file line func : grows (fail fmt args file line func : M A).
Proof. unfold fail. grows_tac. Qed.

Lemma grows_SYSCALL m text file line func : grows m -> grows (SYSCALL m text file line func).
Proof. intros Hm. unfold SYSCALL. apply grows_bind; [done|]. intros z. destruct (_ <? _); [apply grows_fail|by apply grows_same]. Qed.

Lemma grows_SYSCALL_FAILS e name m text file line func : grows m -> grows (SYSCALL_FAILS e name m text file line func).
Proof.
  intros Hm. unfold SYSCALL_FAILS. apply grows_bind; [done|]. intros z. apply grows_bind; [by apply grows_same|].
  intros e'. destruct (_ || _); [apply grows_fail|by apply grows_same].
Qed.

Lemma grows_syscall_int c : grows (syscall_int c).
Proof. unfold syscall_int. grows_tac. Qed.

Lemma grows_nested_busy od name od2 name2 file line func : grows (nested_busy od name od2 name2 file line func).
Proof.
  unfold nested_busy. grows_tac; first [apply grows_SYSCALL|apply grows_SYSCALL_FAILS]; apply grows_syscall_int.
Qed.

Lemma nested_busy_shows od name od2 name2 file line func :
  shows (nested_busy od name od2 name2 file line func) (fun t => refused od od2 (lock_log t)).
Proof.
  unfold nested_busy. intros w a w' (z & w1 & [H1 Hz]%SYSCALL_inv & (z2 & w2 & H2 & H3)%bind_val_inv)%bind_val_inv.
  apply SYSCALL_FAILS_inv in H2 as (H2 & Hz2 & He). unfold litmus_lock, syscall_int in H1, H2.
  rewrite bind_syscall in H1, H2. injection H1 as <- <-. injection H2 as <- <-.
  eapply refused_later.
  { eapply grows_run, H3. grows_tac. apply grows_SYSCALL, grows_syscall_int. }
  rewrite !tr_after in *. set (r := kernel _ (NR_litmus_lock od)) in *. set (r2 := kernel _ (NR_litmus_lock od2)) in *.
  exists [], (lock_log (tr w)), r, r2. split; [done|]. split; [done|]. split; [done|].
  intros e Hr2. by rewrite Hr2 in He.
Qed.

(** Both orders, one after the other. *)
Lemma both_orders_show {A} od name od2 name2 file line line2 func (rest : M A) :
  grows rest ->
  shows (nested_busy od name od2 name2 file line func;; nested_busy od2 name2 od name file line2 func;; rest)
    (fun t => exists od od2, refused od od2 (lock_log t) /\ refused od2 od (lock_log t)).
Proof.
  intros Hg w a w' (u & w1 & H1 & (u2 & w2 & H2 & H3)%bind_val_inv)%bind_val_inv. exists od, od2.
  pose proof (grows_run _ _ _ _ (grows_nested_busy _ _ _ _ _ _ _) H2) as Hg2.
  pose proof (grows_run _ _ _ _ Hg H3) as Hg3.
  split; [|by eapply refused_later, nested_busy_shows]. eapply refused_later, nested_busy_shows; [|done]. by etrans.
Qed.

Ltac no_nesting_shows :=
  lazymatch goal with |- shows ?test ?P => let body := eval red in test in change (shows body P) end;
  cbv zeta;
  repeat lazymatch goal with
  | |- shows (nested_busy _ _ _ _ _ _ _ ≫= _) _ => apply both_orders_show; unfold close_remove; grows_tac
  | |- shows (_ ≫= _) _ => apply shows_skip; intros ?
  end;
  apply grows_SYSCALL; first [apply grows_syscall_int|apply grows_syscall].

(** C16: On every kernel: when one of the tests for forbidden nesting returns,
    the kernel has refused the second of two semaphores directly after it
    granted the first, and the first directly after it granted the second;
    when a refusal was an error, it was EBUSY. *)
Theorem no_nesting_sound test w w' :
  test ∈ no_nesting_tests -> test w = (Val tt, w') ->
  exists od od2, refused od od2 (lock_log (tr w')) /\ refused od2 od (lock_log (tr w')).
Proof.
  intros Hin. assert (Forall (fun test => shows test
    (fun t => exists od od2, refused od od2 (lock_log t) /\ refused od2 od (lock_log t))) no_nesting_tests) as Hall.
  { unfold no_nesting_tests. repeat (apply Forall_cons_iff; split); [..|apply Forall_nil]; no_nesting_shows. }
  rewrite Forall_forall in Hall. apply list_elem_of_In in Hin. by apply (Hall _ Hin).
Qed.

(** What a test that exits after its first statement does. *)
Definition only_opens (test : M unit) : Prop := forall w, exists name s w',
  name ∈ [".locks"; ".pcp_locks"] /\ test w = (Exit s, w') /\
  let c := Open name (Z.lor O_RDONLY O_CREAT) S_IRUSR in
  if ret_of (kernel (tr w) c) <? 0
  then s = 200 /\ calls (tr w') = Getpid :: c :: calls (tr w)
  else s = 0 /\ calls (tr w') = c :: calls (tr w).

Lemma open_exit_only name text file line func (rest : Z -> unit -> M unit) :
  name ∈ [".locks"; ".pcp_locks"] ->
  only_opens (fd ← SYSCALL (open_file name) text file line func; u ← (exit_ 0 : M unit); rest fd u).
Proof.
  intros Hn w. exists name. unfold SYSCALL, fail, open_file. mrun. destruct (_ <? 0).
  - eexists _, _. split; [done|]. split; [done|]. split; [done|]. cbn [tr push]. by rewrite !tr_after.
  - eexists _, _. split; [done|]. split; [done|]. split; [done|]. by rewrite tr_after.
Qed.

(** C38: The six tests of a holder that exits check nothing: on every kernel,
    after creating their lock file they exit with status 0, which the runner
    counts as passed, or with 200 when the file could not be created; they
    make no other request (but [getpid] for the message), so no semaphore is
    opened or taken and no child is forked. *)
Theorem teardown_vacuous status test w :
  test ∈ teardown_tests status ->
  exists name s w', name ∈ [".locks"; ".pcp_locks"] /\ test w = (Exit s, w') /\
    let c := Open name (Z.lor O_RDONLY O_CREAT) S_IRUSR in
    if ret_of (kernel (tr w) c) <? 0
    then s = 200 /\ calls (tr w') = Getpid :: c :: calls (tr w)
    else s = 0 /\ calls (tr w') = c :: calls (tr w).
Proof.
  intros Hin. assert (Forall only_opens (teardown_tests status)) as Hall.
  { unfold teardown_tests. repeat (apply Forall_cons_iff; split); [..|apply Forall_nil].
    all: apply open_exit_only; rewrite !elem_of_cons; auto. }
  rewrite Forall_forall in Hall. apply list_elem_of_In in Hin. by apply (Hall _ Hin).
Qed.
End sound.

(** ** A plugin without the FMLP *)

(** The test that no FMLP semaphore can be opened passes on a kernel that has
    none, and opens nothing. *)
Theorem fmlp_not_active_passes {K : Kernel} tid pol w :
  Accepts K tid -> (forall t fd id cfg, kernel t (NR_od_open fd (obj_id FMLP_SEM) id cfg) = Fail ENXIO) ->
  st tid pol [] [] w -> exists w', test_fmlp_not_active w = (Val tt, w') /\ st tid pol [] [] w'.
Proof.
  intros AC Hno. enough (runs (st tid pol [] []) test_fmlp_not_active (fun _ => st tid pol [] [])) as Hr.
  { intros Hw. destruct (Hr w Hw) as ([] & w' & ? & ?). by exists w'. }
  unfold test_fmlp_not_active, ASSERT. cbv zeta.
  eapply (runs_bind _ _ _ (fun z w => 0 <= z /\ st tid pol [] [] w)).
  { apply runs_SYSCALL. eapply runs_weaken; [apply (runs_open tid)|done|]. by intros z w1 [Hz Hw1]. }
  intros fd. apply runs_pure. intros Hfd. rewrite (proj2 (Z.eqb_neq fd (-1))) by lia. cbn [negb].
  eapply runs_bind; [apply runs_ret|]. intros []. apply runs_pure. intros _.
  eapply runs_bind; [eapply runs_SYSCALL_FAILS, runs_refused; done|]. intros z. apply (runs_close_remove tid).
Qed.

(** ** Concrete runs *)

Module LockTestsWitness.
Import Sim LockKernel.

Definition k4 : Kernel := lock_kernel [("/proc/litmus/domains/0", mask_text 1 15 [])] 5 4.

Lemma k4_domain : Serves k4 (mapping_file "domains" 0) (mask_text 1 15 []).
Proof. apply lock_kernel_serves, sim_serves; [lia|by vm_compute]. Qed.
Lemma wf_k4 : wf_mask 1 15 [].
Proof. split; [lia|]. split; [lia|]. constructor. Qed.

Lemma fresh_process : st 1000 SCHED_NORMAL [] [] w0.
Proof. split; [done|]. split; [done|]. split; [constructor|]. intros od ty. split; [done|]. by intros []%not_elem_of_nil. Qed.

Lemma lock_tests_pass_witness :
  exists pol w', @test_lock_dflp_pcp_no_nesting k4 sim_header w0 = (Val tt, w') /\ st 1000 pol [] [] w'.
Proof.
  apply (@lock_tests_pass k4 sim_header 1000 4 _ _ _ _ _ ltac:(lia) 1 15 [] k4_domain wf_k4 ltac:(cbn; lia)
    (@test_lock_dflp_pcp_no_nesting k4 sim_header) w0); [|exact fresh_process].
  rewrite !elem_of_app. right. right. left. unfold no_nesting_tests. rewrite !elem_of_cons. tauto.
Defined.



(** The same run by computation, and its conversation about semaphores. *)
Example dflp_pcp_run :
  let '(o, w) := @test_lock_dflp_pcp_no_nesting k4 sim_header w0 in
  o = Val tt /\ firstn 3 (lock_log (tr w)) =
    [(NR_od_close 1, Succ 0); (NR_od_close 0, Succ 0); (NR_litmus_unlock 1, Succ 0)] /\
  length (lock_log (tr w)) = 14%nat.
Proof. by vm_compute. Qed.

Lemma no_nesting_sound_witness :
  exists od od2, refused od od2 (lock_log (tr (snd (@test_lock_fmlp_nesting k4 sim_header w0)))) /\
    refused od2 od (lock_log (tr (snd (@test_lock_fmlp_nesting k4 sim_header w0)))).
Proof.
  apply (@no_nesting_sound k4 sim_header (@test_lock_fmlp_nesting k4 sim_header) w0); [by left|]. vm_compute. reflexivity.
Defined.

Lemma teardown_vacuous_witness :
  exists name s w', name ∈ [".locks"; ".pcp_locks"] /\
    @test_srp_lock_teardown k4 sim_header 0 w0 = (Exit s, w') /\
    let c := Open name (Z.lor O_RDONLY O_CREAT) S_IRUSR in
    if ret_of (@kernel k4 [] c) <? 0
    then s = 200 /\ calls (tr w') = Getpid :: c :: []
    else s = 0 /\ calls (tr w') = c :: [].
Proof. apply (@teardown_vacuous k4 sim_header 0 (@test_srp_lock_teardown k4 sim_header 0) w0). by left. Defined.
End LockTestsWitness.
