(* ===== verification/AdmissionTests.v ===== *)
(** * The tests of parameters and modes against a specification

    What the test cases of tests/core_api.c that run in one process expect of
    the kernel's admission of real-time tasks, as laws over the history
    ([Admission]), and that they pass on a kernel that implements it; the
    access to the control page works on every kernel. *)
From S2P Require Import Prelude Machine CString Laws Iface Syscalls Migration Litmus Runner Tests.
From S2P Require Import TestCoreApi LockSpec.

(** ** The specification *)

(** The parameters set last, with success. *)
Fixpoint last_param (tid : Z) (t : trace) : option rt_task :=
  match t with
  | [] => None
  | Sys (NR_set_rt_task_param i (Some p)) (Succ _) :: t => if i =? tid then Some p else last_param tid t
  | _ :: t => last_param tid t
  end.

(** The execution cost fits the period and the deadline, which is the period
    when it is 0. *)
Definition acceptable (p : rt_task) : bool :=
  (exec_cost p <=? period p) &&
  (exec_cost p <=? (if relative_deadline p =? 0 then period p else relative_deadline p)).

(** The laws for the task [tid]: parameters are checked when they are set,
    the priority when the task becomes real-time; a task that is not has no
    jobs. *)
Class Admission (K : Kernel) {H : KernelHeader} (tid : Z) : Prop := {
  adm_null t i : kernel t (NR_set_rt_task_param i None) = Fail EINVAL;
  adm_address t i a : kernel t (NR_set_rt_task_param_at i a) = Fail EFAULT;
  adm_nobody t p : kernel t (NR_set_rt_task_param (-1) (Some p)) = Fail EINVAL;
  adm_param t p :
    kernel t (NR_set_rt_task_param tid (Some p)) = if acceptable p then Succ 0 else Fail EINVAL;
  adm_mode t p :
    last_param tid t = Some p ->
    kernel t (NR_sched_setscheduler tid SCHED_LITMUS 0) =
      if litmus_is_valid_fixed_prio (priority p) then Succ 0 else Fail EINVAL;
  adm_normal t : kernel t (NR_sched_setscheduler tid SCHED_NORMAL 0) = Succ 0;
  adm_job t c :
    policy_of tid t <> SCHED_LITMUS -> c ∈ [NR_complete_job; NR_wait_for_job_release 0] ->
    kernel t c = Fail EINVAL;
  adm_job_no t : policy_of tid t <> SCHED_LITMUS -> kernel t NR_query_job_no = Fail EPERM;
  adm_affinity t i s m : kernel t (Sched_setaffinity i s m) = Succ 0;
}.

(** The priorities of the kernel header. *)
Class Priorities (H : KernelHeader) : Prop := {
  prio_lowest : litmus_is_valid_fixed_prio (u32 LITMUS_LOWEST_PRIORITY) = true;
  prio_highest : litmus_is_valid_fixed_prio (u32 LITMUS_HIGHEST_PRIORITY) = true;
  prio_max : litmus_is_valid_fixed_prio (u32 LITMUS_MAX_PRIORITY) = false;
  prio_zero : litmus_is_valid_fixed_prio (u32 0) = false;
}.

(** ** Rules *)

(** The process has a policy and parameters. *)
Definition task (tid pol : Z) (q : option rt_task) (w : world) : Prop :=
  policy_of tid (tr w) = pol /\ last_param tid (tr w) = q.

#[export] Instance last_param_quiet tid : InitQuiet (last_param tid).
Proof. by repeat split. Qed.

Section rules.
Context {K : Kernel} {H : KernelHeader} (tid : Z) {SC : Schedules K tid} {AD : Admission K tid}.

Lemma task_same pol q w w' :
  task tid pol q w -> policy_of tid (tr w') = policy_of tid (tr w) ->
  last_param tid (tr w') = last_param tid (tr w) -> task tid pol q w'.
Proof using. unfold task. by intros Hw -> ->. Qed.

(** A request that is refused. *)
Lemma task_refused pol q c e :
  quiet (policy_of tid) c -> (forall t, last_param tid (Sys c (Fail e) :: t) = last_param tid t) ->
  (forall w, task tid pol q w -> kernel (tr w) c = Fail e) ->
  runs (task tid pol q) (syscall_int c) (fun z w => z <> 0 /\ errno w = e /\ task tid pol q w).
Proof using.
  intros Hp Hl Hk w Hw. unfold syscall_int. rewrite bind_syscall, (Hk w Hw).
  eexists _, _. split; [done|]. split; [done|]. split; [done|].
  apply (task_same _ _ w); [done|..]; rewrite tr_after; [apply Hp|apply Hl].
Qed.

(** [gettid] before a request. *)
Lemma task_own {A} pol q (f : Z -> M A) Q :
  runs (task tid pol q) (f tid) Q -> runs (task tid pol q) (tid ← gettid; f tid) Q.
Proof using SC.
  intros Hf w Hw. unfold gettid, syscall_int. rewrite bind_bind, bind_syscall, sched_tid, bind_ret. cbn [ret_of].
  rewrite small_int by apply sched_tid_int. apply Hf. apply (task_same _ _ w); [done|..]; by rewrite tr_after.
Qed.

Lemma task_param pol q p :
  acceptable p = true ->
  runs (task tid pol q) (set_own_param (Some p)) (fun z w => 0 <= z /\ task tid pol (Some p) w).
Proof using SC AD.
  intros Hp. unfold set_own_param. apply task_own. intros w [Hpol Hq].
  unfold set_rt_task_param, syscall_int. rewrite bind_syscall, adm_param, Hp.
  eexists _, _. split; [done|]. split; [done|]. unfold task. rewrite tr_after. cbn [policy_of last_param].
  by rewrite Z.eqb_refl.
Qed.

Lemma task_param_refused pol q p :
  match p with Some p => acceptable p = false | None => True end ->
  runs (task tid pol q) (set_own_param p) (fun z w => z <> 0 /\ errno w = EINVAL /\ task tid pol q w).
Proof using SC AD.
  intros Hp. unfold set_own_param. apply task_own, task_refused; [done|by destruct p|]. intros w _.
  destruct p as [p|]; [|apply adm_null]. by rewrite adm_param, Hp.
Qed.

(** The transition to real-time mode checks the priority. *)
Lemma task_realtime p :
  litmus_is_valid_fixed_prio (priority p) = true ->
  runs (task tid SCHED_NORMAL (Some p)) (task_mode LITMUS_RT_TASK)
    (fun z w => 0 <= z /\ task tid SCHED_LITMUS (Some p) w).
Proof using SC AD.
  intros Hv w [Hpol Hq]. destruct (task_mode_run tid LITMUS_RT_TASK w) as (ret & w' & Hrun & Hcase); [by rewrite Hpol|].
  unfold mode_of in Hcase. rewrite Hpol in Hcase. cbn in Hcase. destruct Hcase as (r & Hr & Ht & Hok).
  rewrite (adm_mode _ p), Hv in Hr by done. subst r. exists ret, w'. split; [done|].
  destruct Hok as [[_ ->]|(e & He & _)]; [|done]. split; [done|]. unfold task. rewrite Ht. cbn [policy_of last_param].
  by rewrite Z.eqb_refl.
Qed.

Lemma task_realtime_refused p :
  litmus_is_valid_fixed_prio (priority p) = false ->
  runs (task tid SCHED_NORMAL (Some p)) (task_mode LITMUS_RT_TASK)
    (fun z w => z <> 0 /\ errno w = EINVAL /\ task tid SCHED_NORMAL (Some p) w).
Proof using SC AD.
  intros Hv w [Hpol Hq]. destruct (task_mode_run tid LITMUS_RT_TASK w) as (ret & w' & Hrun & Hcase); [by rewrite Hpol|].
  unfold mode_of in Hcase. rewrite Hpol in Hcase. cbn in Hcase. destruct Hcase as (r & Hr & Ht & Hok).
  rewrite (adm_mode _ p), Hv in Hr by done. subst r. exists ret, w'. split; [done|].
  destruct Hok as [[He _]|(e & [= <-] & -> & He)]; [done|]. split; [done|]. split; [done|].
  unfold task. by rewrite Ht.
Qed.

Lemma task_background q :
  runs (task tid SCHED_LITMUS q) (task_mode BACKGROUND_TASK) (fun z w => 0 <= z /\ task tid SCHED_NORMAL q w).
Proof using SC AD.
  intros w [Hpol Hq]. destruct (task_mode_run tid BACKGROUND_TASK w) as (ret & w' & Hrun & Hcase); [by rewrite Hpol|].
  unfold mode_of in Hcase. rewrite Hpol in Hcase. cbn in Hcase. destruct Hcase as (r & Hr & Ht & Hok).
  rewrite adm_normal in Hr. subst r. exists ret, w'. split; [done|].
  destruct Hok as [[_ ->]|(e & He & _)]; [|done]. split; [done|]. unfold task. rewrite Ht. cbn [policy_of last_param].
  by rewrite Z.eqb_refl.
Qed.
End rules.

(** ** The tests pass *)

Section pass.
Context {K : Kernel} {H : KernelHeader} (tid online : Z) {SC : Schedules K tid} {AD : Admission K tid}
  {PR : Priorities H} {AL : Allocates K} {ON : Online K online} (Honline : 1 <= online <= 4096).

(** The tests of parameters and modes. *)
Definition admission_tests : list (M unit) :=
  [test_set_rt_task_param_invalid_pointer; test_set_rt_task_param_invalid_params;
   test_reject_bad_priorities; test_accept_valid_priorities; test_job_control_non_rt].

Lemma task_migrate pol q :
  runs (task tid pol q) (be_migrate_to_cpu 0) (fun z w => 0 <= z /\ task tid pol q w).
Proof using AD AL ON Honline.
  intros w Hw. destruct (be_migrate_thread_to_cpu_run online 0 0 w AL ON) as (ret & w' & Hrun & _ & Hcase).
  { unfold INT_MAX. lia. }
  rewrite (proj2 (Z.ltb_lt 0 online)) in Hcase by lia. cbn [Z.leb Z.compare andb] in Hcase.
  destruct Hcase as (tid' & sz & r & [t Hr] & _ & -> & _). rewrite adm_affinity in Hr. subst r.
  exists 0, w'. split; [exact Hrun|]. split; [done|].
  apply (task_same _ _ _ w); [done|..]; eapply keeps_run; try exact Hrun;
    unfold be_migrate_thread_to_cpu, num_online_cpus, CPU_ALLOC, CPU_ZERO_S, CPU_FREE, gettid, syscall_int; keeps_tac.
Qed.

(** One statement of a test case: [accepts] for what succeeds, [refuses] for
    what does not. *)
Ltac accepts :=
  apply runs_SYSCALL;
  first [ apply (task_param tid); vm_compute; reflexivity
        | apply task_migrate
        | apply (task_realtime tid); first [exact prio_lowest|exact prio_highest]
        | apply (task_background tid) ].
Ltac refuses :=
  apply runs_SYSCALL_FAILS;
  first [ apply (task_param_refused tid); first [done|vm_compute; reflexivity]
        | apply (task_realtime_refused tid); first [exact prio_zero|exact prio_max] ].
Ltac eta :=
  intros ?; cbv beta; try lazymatch goal with |- runs (fun w => ?P w) ?test ?Q => change (runs P test Q) end.
Ltac test_step :=
  lazymatch goal with
  | |- runs _ (SYSCALL _ _ _ _ _ ≫= _) _ => eapply runs_bind; [accepts|eta]
  | |- runs _ (SYSCALL_FAILS _ _ _ _ _ _ _ ≫= _) _ => eapply runs_bind; [refuses|eta]
  end.

Lemma invalid_pointer_pass q :
  runs (task tid SCHED_NORMAL q) test_set_rt_task_param_invalid_pointer (fun _ => task tid SCHED_NORMAL q).
Proof using SC AD.
  unfold test_set_rt_task_param_invalid_pointer. cbv zeta. test_step.
  apply runs_unit, runs_SYSCALL_FAILS. unfold set_own_param_at. apply (task_own tid), task_refused; [done..|].
  intros w _. apply adm_address.
Qed.

Lemma invalid_params_pass q :
  runs (task tid SCHED_NORMAL q) test_set_rt_task_param_invalid_params
    (fun _ w => exists p, task tid SCHED_NORMAL (Some p) w).
Proof using SC AD.
  unfold test_set_rt_task_param_invalid_params. cbv zeta. do 2 test_step.
  eapply runs_bind.
  { apply runs_SYSCALL_FAILS, (task_refused tid SCHED_NORMAL q); [done..|]. intros w _. apply adm_nobody. }
  eta. test_step. intros w Hw. exists tt, w. split; [done|]. by eexists.
Qed.

Lemma bad_priorities_pass q :
  runs (task tid SCHED_NORMAL q) test_reject_bad_priorities (fun _ w => exists p, task tid SCHED_NORMAL (Some p) w).
Proof using SC AD PR AL ON Honline.
  unfold test_reject_bad_priorities. cbv zeta. do 5 test_step.
  intros w Hw. exists tt, w. split; [done|]. by eexists.
Qed.

Lemma valid_priorities_pass q :
  runs (task tid SCHED_NORMAL q) test_accept_valid_priorities (fun _ w => exists p, task tid SCHED_NORMAL (Some p) w).
Proof using SC AD PR AL ON Honline.
  unfold test_accept_valid_priorities. cbv zeta. do 7 test_step.
  intros w Hw. exists tt, w. split; [done|]. by eexists.
Qed.

Lemma job_control_pass q :
  runs (task tid SCHED_NORMAL q) test_job_control_non_rt (fun _ => task tid SCHED_NORMAL q).
Proof using AD.
  assert (forall c, c ∈ [NR_complete_job; NR_wait_for_job_release 0] ->
    runs (task tid SCHED_NORMAL q) (syscall_int c) (fun z w => z <> 0 /\ errno w = EINVAL /\ task tid SCHED_NORMAL q w))
    as Hjob.
  { intros c Hc. apply task_refused; try (rewrite !elem_of_cons in Hc; by destruct Hc as [->|[->|[]%not_elem_of_nil]]).
    intros w [Hpol _]. by apply (adm_job (tid := tid)); [rewrite Hpol|]. }
  unfold test_job_control_non_rt. cbv zeta.
  eapply runs_bind; [apply runs_SYSCALL_FAILS, (Hjob NR_complete_job); by left|]. eta.
  eapply runs_bind; [apply runs_SYSCALL_FAILS, (Hjob (NR_wait_for_job_release 0)); by right; left|]. eta.
  apply runs_unit, runs_SYSCALL_FAILS. unfold job_no_ret, get_job_no. intros w Hw. pose proof Hw as [Hpol _].
  rewrite !bind_bind, bind_sys, (adm_job_no (tid := tid)), bind_ret by by rewrite Hpol.
  eexists _, _. split; [done|]. split; [done|]. split; [done|].
  apply (task_same _ _ _ w); [done|..]; by rewrite tr_after.
Qed.

(** C37: On a kernel that implements the specification of admission, with an
    online CPU and memory to allocate, the tests of core_api.c that set
    parameters, change the mode and ask for job control return without a
    failed assertion from any process that is not real-time, and leave it so. *)
Theorem admission_tests_pass test w :
  test ∈ admission_tests -> policy_of tid (tr w) = SCHED_NORMAL ->
  exists w', test w = (Val tt, w') /\ policy_of tid (tr w') = SCHED_NORMAL.
Proof using SC AD PR AL ON Honline.
  intros Hin Hpol. assert (Forall (fun test => runs (task tid SCHED_NORMAL (last_param tid (tr w))) test
    (fun _ w => policy_of tid (tr w) = SCHED_NORMAL)) admission_tests) as Hall.
  { unfold admission_tests. repeat (apply Forall_cons_iff; split); [..|apply Forall_nil].
    - eapply runs_weaken; [apply invalid_pointer_pass|done|by intros _ w' [? _]].
    - eapply runs_weaken; [apply invalid_params_pass|done|by intros _ w' (p & ? & _)].
    - eapply runs_weaken; [apply bad_priorities_pass|done|by intros _ w' (p & ? & _)].
    - eapply runs_weaken; [apply valid_priorities_pass|done|by intros _ w' (p & ? & _)].
    - eapply runs_weaken; [apply job_control_pass|done|by intros _ w' [? _]]. }
  rewrite Forall_forall in Hall. apply list_elem_of_In in Hin.
  destruct (Hall _ Hin w) as ([] & w' & Hrun & Hw'); [done|]. by exists w'.
Qed.
End pass.

(** ** The control page *)

Section ctrl_page.
Context {K : Kernel} {H : KernelHeader}.

(** With the control page mapped, [ctrl_page_writable] returns on every
    kernel: it enters and leaves a non-preemptive section, which restores
    [np.flag], and its last request is one store into the page. *)
Theorem ctrl_page_test_passes w :
  valid_page (ctrl_page w) -> 0 <= np_flag w (ctrl_page w) < 2 ^ NP_FLAG_BITS - 1 ->
  exists w' t r, test_ctrl_page_writable w = (Val tt, w') /\
    tr w' = Sys (StoreInt (ctrl_page w + 128) 0x12345678) r :: t /\
    ctrl_page w' = ctrl_page w /\ forall q, np_flag w' q = np_flag w q.
Proof.
  intros Hp Hf. unfold test_ctrl_page_writable, get_ctrl_page, ensure_ctrl_page. cbv zeta.
  set (p := ctrl_page w) in *. rewrite !bind_bind, bind_get.
  fold p. rewrite (proj2 (Z.eqb_neq _ _) (proj1 Hp)). cbn [negb]. rewrite !bind_ret, bind_get. fold p.
  unfold ASSERT. rewrite (proj2 (Z.eqb_neq _ _) (proj1 Hp)). cbn [negb]. rewrite !bind_ret.
  rewrite (bind_val _ _ _ _ _ (enter_np_mapped w Hp)). fold p. rewrite wrap_u_small by lia.
  set (w1 := put_np_flag p _ w).
  assert (np_flag w1 p = np_flag w p + 1) as Hf1 by (unfold w1; cbn [put_np_flag np_flag]; by rewrite Z.eqb_refl).
  destruct (exit_np_mapped w1) as (w2 & es & Hexit & _ & Hp2 & Hq2 & _).
  { exact Hp. } { change (ctrl_page w1) with p. rewrite Hf1. lia. }
  rewrite (bind_val _ _ _ _ _ Hexit). rewrite deref_bind by exact Hp. rewrite bind_syscall.
  eexists _, (tr w2), _. split; [done|]. rewrite tr_after. split; [done|].
  rewrite ctrl_page_after, np_flag_after. split; [exact Hp2|].
  intros q. rewrite Hq2. change (ctrl_page w1) with p. destruct (Z.eqb_spec q p) as [->|Hne]; [lia|].
  unfold w1. cbn [put_np_flag np_flag]. by rewrite (proj2 (Z.eqb_neq _ _) Hne).
Qed.
End ctrl_page.

(** ** Concrete runs *)

Module AdmissionWitness.
Import Sim.

(** A kernel that implements the specification, with four CPUs. *)
Definition admission_kernel : Kernel := fun t c =>
  let in_rt := policy_of 1000 t =? SCHED_LITMUS in
  match c with
  | NR_set_rt_task_param i (Some p) => if negb (i =? -1) && acceptable p then Succ 0 else Fail EINVAL
  | NR_set_rt_task_param _ None => Fail EINVAL
  | NR_set_rt_task_param_at _ _ => Fail EFAULT
  | NR_sched_getscheduler p => Succ (policy_of p t)
  | NR_sched_setscheduler i pol _ =>
      if pol =? SCHED_LITMUS
      then match last_param i t with
           | Some p => if @litmus_is_valid_fixed_prio sim_header (priority p) then Succ 0 else Fail EINVAL
           | None => Fail EINVAL
           end
      else Succ 0
  | NR_complete_job | NR_wait_for_job_release _ => if in_rt then Succ 0 else Fail EINVAL
  | NR_query_job_no => if in_rt then Succ 0 else Fail EPERM
  | c => sim [] 64 4 t c
  end.

#[export] Instance admission_kernel_schedules : Schedules admission_kernel 1000.
Proof.
  split; try done. intros t pol prio. unfold kernel, admission_kernel.
  repeat case_match; eauto.
Qed.

#[export] Instance admission_kernel_ok : @Admission admission_kernel sim_header 1000.
Proof.
  split; try done; unfold kernel, admission_kernel.
  - intros t p Hp. by rewrite Hp.
  - intros t c Hpol Hc. rewrite (proj2 (Z.eqb_neq _ _) Hpol). rewrite !elem_of_cons in Hc.
    by destruct Hc as [->|[->|[]%not_elem_of_nil]].
  - intros t Hpol. by rewrite (proj2 (Z.eqb_neq _ _) Hpol).
Qed.

#[export] Instance sim_priorities : Priorities sim_header.
Proof. by split. Qed.

#[export] Instance admission_kernel_allocates : Allocates admission_kernel.
Proof. exact (sim_allocates [] 64 4). Qed.

#[export] Instance admission_kernel_online : Online admission_kernel 4.
Proof. done. Qed.

Lemma admission_tests_pass_witness :
  exists w', @test_accept_valid_priorities admission_kernel sim_header w0 = (Val tt, w') /\
    policy_of 1000 (tr w') = SCHED_NORMAL.
Proof.
  apply (@admission_tests_pass admission_kernel sim_header 1000 4 _ _ _ _ _ ltac:(lia)
    (@test_accept_valid_priorities admission_kernel sim_header) w0); [|done].
  unfold admission_tests. rewrite !elem_of_cons. tauto.
Defined.

Lemma ctrl_page_test_passes_witness :
  exists w' t r, @test_ctrl_page_writable admission_kernel sim_header w_mapped = (Val tt, w') /\
    tr w' = Sys (StoreInt 65664 0x12345678) r :: t /\
    ctrl_page w' = 65536 /\ forall q, np_flag w' q = 0.
Proof. apply (@ctrl_page_test_passes admission_kernel sim_header w_mapped); [by split|by vm_compute]. Defined.
End AdmissionWitness.
