(* ===== verification/RateTests.v ===== *)
(** * The tests of job rates on a clock of whole seconds

    [test_jobs_are_rate_limited] and [test_jobs_are_rate_limited_synch] of
    tests/sched.c measure how long ten jobs of a period of 100 ms take, as
    doubles, and accept a deviation of 5 ms.  On a wall clock that shows whole
    seconds all their floating-point operations are exact, and the tests pass
    exactly when the clock has advanced by one second.  The processes that wait
    for the tasks of a test and release them together, here and in
    [test_preempt_on_resume], pass exactly when the tasks end as they should. *)
From S2P Require Import Prelude Machine CString Double Laws Iface Syscalls Migration Litmus Clocks BaseTask Spin ReleaseTs.
From S2P Require Import Runner Tests TestSched LockSpec LockTests.

(** ** Distances of integers as doubles *)

Lemma abs_round prec emax m e : SFabs (binary_round prec emax true m e) = binary_round prec emax false m e.
Proof.
  unfold binary_round. destruct (shl_align _ _ _) as [mz ez]. unfold binary_round_aux.
  destruct (shr_fexp _ _ _ _ _) as [mrs' e']. destruct (shr_fexp _ _ _ _ _) as [mrs'' e''].
  destruct (shr_m mrs'') as [|p|p]; [done| |done]. by destruct (e'' <=? emax - prec).
Qed.

Lemma abs_normalize prec emax z e : 0 < z ->
  SFabs (binary_normalize prec emax (- z) e false) = binary_normalize prec emax z e false.
Proof. destruct z as [|p|p]; [lia| |lia]. intros _. apply abs_round. Qed.

Lemma abs_of_Z n : 0 <= n < 2 ^ 53 -> SFabs (of_Z n) = of_Z n.
Proof. intros Hn. destruct (Z.eq_dec n 0) as [->|]; [done|]. by rewrite of_Z_canon by lia. Qed.

Lemma dist_of_Z a b : 0 <= a < 2 ^ 53 -> 0 <= b < 2 ^ 53 -> SFabs (dsub (of_Z a) (of_Z b)) = of_Z (Z.abs (a - b)).
Proof.
  intros Ha Hb. destruct (Z.le_gt_cases b a) as [Hle|Hlt].
  { by rewrite dsub_of_Z, abs_of_Z, Z.abs_eq by lia. }
  rewrite Z.abs_neq by lia. destruct (Z.eq_dec a 0) as [->|Hna].
  { replace (- (0 - b)) with b by lia. by rewrite (of_Z_canon b) by lia. }
  rewrite (of_Z_canon a), (of_Z_canon b) by lia. unfold dsub, SFsub, canon. cbn [cond_Zopp].
  rewrite !align_canon by (unfold norm_exp; lia). set (e := Z.min (norm_exp a) (norm_exp b)).
  assert (e <= 0) as He by (unfold e, norm_exp; destruct (norm_bounds a ltac:(lia)); lia).
  pose proof (Z.pow_pos_nonneg 2 (- e) ltac:(lia) ltac:(lia)).
  replace (a * 2 ^ (- e) - b * 2 ^ (- e)) with (- ((b - a) * 2 ^ (- e))) by ring.
  rewrite abs_normalize by nia. replace (- (a - b)) with (b - a) by lia. by apply normalize_canon; [lia|].
Qed.

Lemma dle_of_Z a b : 0 <= a < 2 ^ 53 -> 0 <= b < 2 ^ 53 -> dle (of_Z a) (of_Z b) = (a <=? b).
Proof. intros. unfold dle, SFleb. rewrite dcompare_of_Z by done. unfold Z.leb. by destruct (a ?= b). Qed.

(** What the tests compute from the times [s] and [e]. *)
Lemma margin_of_Z s e : 0 <= s <= e -> e < 2 ^ 40 ->
  margin (dmul (dsub (of_Z e) (of_Z s)) (of_Z 1000)) = of_Z (Z.abs (1000 - (e - s) * 1000)).
Proof.
  intros Hs He. unfold margin. change (Z.of_nat JOBS * PERIOD) with 1000.
  rewrite dsub_of_Z, dmul_of_Z by lia. apply dist_of_Z; lia.
Qed.

Lemma margin_accepted s e : 0 <= s <= e -> e < 2 ^ 40 ->
  let m := margin (dmul (dsub (of_Z e) (of_Z s)) (of_Z 1000)) in
  dle m (of_Z ACCEPTABLE_MARGIN) = (e =? s + 1) /\ dlt (of_Z ACCEPTABLE_MARGIN) m = negb (e =? s + 1).
Proof.
  intros Hs He. cbv zeta. rewrite margin_of_Z by done. unfold ACCEPTABLE_MARGIN.
  rewrite dle_of_Z, dlt_of_Z by lia. destruct (Z.eqb_spec e (s + 1)) as [->|Hne]; cbn [negb].
  - replace (1000 - (s + 1 - s) * 1000) with 0 by lia. done.
  - split; [apply Z.leb_gt|apply Z.ltb_lt]; lia.
Qed.

(** ** The course of the tests *)

(** The clock shows [secs n] seconds when the task has completed [n] jobs; a
    real-time task has jobs, and is released. *)
Record second_clock (K : Kernel) (tid : Z) (secs : nat -> Z) : Prop := {
  sc_clock t : kernel t Gettimeofday = Pair (secs (jobs t)) 0;
  sc_range n : 0 <= secs n <= secs (S n) /\ secs n < 2 ^ 40;
  sc_jobs t : policy_of tid t = SCHED_LITMUS -> kernel t NR_complete_job = Succ 0;
  sc_release t : policy_of tid t = SCHED_LITMUS -> kernel t NR_wait_for_ts_release = Succ 0;
}.

Lemma clock_advances K tid secs n k : second_clock K tid secs -> secs n <= secs (k + n)%nat.
Proof.
  intros SK. induction k as [|k IH]; [done|]. pose proof (sc_range _ _ _ SK (k + n)%nat) as [[_ Hr] _].
  change (S k + n)%nat with (S (k + n)). lia.
Qed.

Section tests.
Context {K : Kernel} {H : KernelHeader} (tid cpus : Z) {SC : Schedules K tid} {AC : Accepts K tid}.
Context {AL : Allocates K} {ON : Online K cpus} (Hcpus : 1 <= cpus <= 4096).
Context (secs : nat -> Z) (SK : second_clock K tid secs) (stack : Z * Z) (buf : bytes) (status : Z) (fuel : nat).

(** The task has completed [n] jobs and holds nothing. *)
Definition paced (pol : Z) (n : nat) (w : world) : Prop := st tid pol [] [] w /\ jobs (tr w) = n.

Lemma paced_after pol n w c r : quiet (policy_of tid) c -> quiet lock_log c -> (forall t, jobs (Sys c r :: t) = jobs t) ->
  paced pol n w -> paced pol n (after c r w).
Proof using.
  intros Hp Hl Hj [Hs Hn]. split; [by apply (st_same _ _ _ _ w); [|apply quiet_after..]|]. by rewrite tr_after, Hj.
Qed.

Lemma paced_start params n file line func : 0 <= s32 (cpu params) < cpus ->
  runs (paced SCHED_NORMAL n) (start_rt params file line func) (fun _ => paced SCHED_LITMUS n).
Proof using SC AC AL ON Hcpus.
  intros Hc. apply (runs_frame jobs (fun k => k = n)).
  - unfold start_rt, SYSCALL, fail, eprintf, set_own_param, be_migrate_to_cpu, be_migrate_thread_to_cpu, num_online_cpus,
      CPU_ALLOC, CPU_ZERO_S, CPU_FREE, set_rt_task_param, gettid, syscall_int.
    repeat ((by apply (keeps_task_mode jobs)) || keeps_step).
  - by apply (runs_start_rt tid cpus ltac:(lia)).
Qed.

Lemma paced_background n :
  runs (paced SCHED_LITMUS n) (task_mode BACKGROUND_TASK) (fun z w => 0 <= z /\ paced SCHED_NORMAL n w).
Proof using SC AC.
  eapply runs_weaken; [apply (runs_frame jobs (fun k => k = n)); [by apply (keeps_task_mode jobs)|by apply (runs_background tid)]|done|].
  by intros z w [[Hz Hs] Hb].
Qed.

Lemma paced_clock pol n : runs (paced pol n) (wctime stack) (fun d w => d = of_Z (secs n) /\ paced pol n w).
Proof using SK.
  intros w Hw. pose proof Hw as [_ Hn]. destruct (sc_range _ _ _ SK n) as [[Hlo _] Hhi].
  destruct (whole_seconds (secs n) stack w ltac:(lia)) as (_ & Hwall & _).
  pose proof (sc_clock _ _ _ SK (tr w)) as E. rewrite Hn in E. unfold wctime in *. revert Hwall. mrun. rewrite E.
  intros Hwall. destruct (Hwall eq_refl) as (w' & Hrun & _). revert Hrun. intros [= Hd <-].
  eexists _, _. split; [done|]. split; [exact Hd|]. by apply paced_after.
Qed.

Lemma paced_period n file line func :
  runs (paced SCHED_LITMUS n) (SYSCALL sleep_next_period "sleep_next_period()" file line func)
    (fun _ => paced SCHED_LITMUS (S n)).
Proof using SK.
  apply runs_SYSCALL. intros w [Hs Hn]. unfold sleep_next_period, syscall_int. mrun.
  rewrite (sc_jobs _ _ _ SK) by apply Hs. eexists _, _. split; [done|]. split; [done|].
  split; [apply (st_same _ _ _ _ w); [done|by rewrite tr_after..]|]. rewrite tr_after. cbn [jobs]. by rewrite Hn.
Qed.

Lemma paced_periods k n file line func :
  runs (paced SCHED_LITMUS n) (sleep_periods k file line func) (fun _ => paced SCHED_LITMUS (k + n)).
Proof using SK.
  revert n. induction k as [|k IH]; intros n; cbn [sleep_periods]; [intros w Hw; by exists tt, w|].
  eapply runs_bind; [apply paced_period|intros ?]. eapply runs_weaken; [apply (IH (S n))|done|].
  intros b w. by rewrite Nat.add_succ_r.
Qed.

(** What the tests make of the two readings. *)
Definition judge (start end_ : double) (line : Z) (T : string) : M unit :=
  let actual_delta_ms := dmul (dsub end_ start) (of_Z 1000) in
  when (dlt (of_Z ACCEPTABLE_MARGIN) (margin actual_delta_ms))
    (eprintf "actual_delta_ms:%.4f  expected:%.4f\n" [ADbl actual_delta_ms; ADbl (of_Z (Z.of_nat JOBS * PERIOD))]);;
  ASSERT (dle (margin actual_delta_ms) (of_Z ACCEPTABLE_MARGIN))
    "fabs(JOBS * PERIOD - actual_delta_ms) <= ACCEPTABLE_MARGIN" FILE line T;;
  mret tt.

(** From the first reading of the clock on, at the lines [l1], [l2] and [l3]. *)
Definition measured (l1 l2 l3 : Z) (T : string) : M unit :=
  start ← wctime stack;
  sleep_periods JOBS FILE l1 T;;
  end_ ← wctime stack;
  SYSCALL (task_mode BACKGROUND_TASK) "task_mode(BACKGROUND_TASK)" FILE l2 T;;
  judge start end_ l3 T.

(** The ten jobs that follow the first [n] took one second by the clock. *)
Definition on_time (n : nat) : bool := secs (JOBS + n)%nat =? secs n + 1.

(** [m] goes through when the jobs were on time, and fails otherwise. *)
Definition decides {A} (P : world -> Prop) (n : nat) (m : M A) (Q : world -> Prop) : Prop :=
  if on_time n then runs P m (fun _ => Q) else exits P m 200.

Lemma decides_bind {A B} (P : world -> Prop) n (m : M A) (f : A -> M B) R Q :
  runs P m R -> (forall a, decides (R a) n (f a) Q) -> decides P n (m ≫= f) Q.
Proof using. unfold decides. destruct (on_time n); [apply runs_bind|apply exits_bind]. Qed.

Lemma decides_pure {A} (F : Prop) (P : world -> Prop) n (m : M A) Q :
  (F -> decides P n m Q) -> decides (fun w => F /\ P w) n m Q.
Proof using.
  unfold decides. destruct (on_time n).
  - apply runs_pure.
  - intros Hm w [HF HP]. by apply Hm.
Qed.

Lemma fail_exits {A} P fmt args file line func : exits P (fail fmt args file line func : M A) 200.
Proof using. intros w _. unfold fail, eprintf. mrun. by eexists. Qed.

Lemma judge_decides n line T : decides (paced SCHED_NORMAL (JOBS + n)) n
  (judge (of_Z (secs n)) (of_Z (secs (JOBS + n)%nat)) line T) (paced SCHED_NORMAL (JOBS + n)).
Proof using SK.
  destruct (sc_range _ _ _ SK n) as [[Hlo _] _]. destruct (sc_range _ _ _ SK (JOBS + n)) as [_ Hhi].
  destruct (margin_accepted (secs n) (secs (JOBS + n)%nat) (conj Hlo (clock_advances _ _ _ n JOBS SK)) Hhi) as [Hle Hlt].
  unfold decides, on_time, judge. cbv zeta. rewrite Hle, Hlt.
  destruct (secs (JOBS + n)%nat =? secs n + 1); cbn [negb when].
  - intros w Hw. unfold ASSERT. cbn [negb]. mrun. by eexists _, _.
  - apply (exits_bind _ _ _ (fun _ _ => True)); [|intros ?; apply exits_first, fail_exits].
    intros w Hw. unfold eprintf. by eexists tt, _.
Qed.

Lemma measured_decides n l1 l2 l3 T :
  decides (paced SCHED_LITMUS n) n (measured l1 l2 l3 T) (paced SCHED_NORMAL (JOBS + n)).
Proof using SC AC SK.
  eapply decides_bind; [apply paced_clock|intros start]. apply decides_pure. intros ->.
  eapply decides_bind; [apply paced_periods|intros ?].
  eapply decides_bind; [apply paced_clock|intros end_]. apply decides_pure. intros ->.
  eapply decides_bind; [apply runs_SYSCALL, paced_background|intros ?]. apply judge_decides.
Qed.

Lemma paced_release n file line func :
  runs (paced SCHED_LITMUS n) (SYSCALL wait_for_ts_release "wait_for_ts_release()" file line func)
    (fun _ => paced SCHED_LITMUS n).
Proof using SK.
  apply runs_SYSCALL. intros w [Hs Hn]. unfold wait_for_ts_release, syscall_int. mrun.
  rewrite (sc_release _ _ _ SK) by apply Hs. eexists _, _. split; [done|]. split; [done|]. by apply paced_after.
Qed.

(** ** The two tests *)

(** The parameters of the task, with the execution cost [e]. *)
Definition rated (e : Z) : rt_task :=
  set_release_policy (set_period (set_exec_cost (with_cpu init_rt_task_param 0) (ms2ns e)) (ms2ns PERIOD)) TASK_PERIODIC.

(** The task of the test with a synchronous release. *)
Definition released_task (T : string) : M unit :=
  start_rt (rated 5) FILE 131 T;;
  SYSCALL wait_for_ts_release "wait_for_ts_release()" FILE 135 T;;
  measured 139 142 148 T.

Lemma rate_limited_shape :
  test_jobs_are_rate_limited stack =
  (start_rt (rated 40) FILE 97 "test_jobs_are_rate_limited";; measured 103 106 112 "test_jobs_are_rate_limited").
Proof using. reflexivity. Qed.

Lemma released_task_decides n T :
  decides (paced SCHED_NORMAL n) n (released_task T) (paced SCHED_NORMAL (JOBS + n)).
Proof using SC AC AL ON Hcpus SK.
  eapply decides_bind; [apply paced_start; change (s32 (cpu (rated 5))) with 0; lia|intros ?].
  eapply decides_bind; [apply paced_release|intros ?]. apply measured_decides.
Qed.

(** C12: The test without a synchronous release passes exactly when its jobs are on
    time, and so does the task that the one with it forks. *)
Theorem rate_tests_decide n w :
  paced SCHED_NORMAL n w ->
  (exists w', test_jobs_are_rate_limited stack w = ((if on_time n then Val tt else Exit 200), w')) /\
  (kernel (tr w) Fork = Succ 0 ->
   exists w', test_jobs_are_rate_limited_synch fuel stack buf status w = (Exit (if on_time n then 0 else 200), w')).
Proof using SC AC AL ON Hcpus SK.
  intros Hw. split.
  - assert (decides (paced SCHED_NORMAL n) n (test_jobs_are_rate_limited stack) (paced SCHED_NORMAL (JOBS + n))) as Hd.
    { rewrite rate_limited_shape.
      eapply decides_bind; [apply paced_start; change (s32 (cpu (rated 40))) with 0; lia|intros ?]. apply measured_decides. }
    unfold decides in Hd. destruct (on_time n); [|exact (Hd w Hw)].
    destruct (Hd w Hw) as ([] & w' & Hrun & _). by exists w'.
  - intros HF. unfold test_jobs_are_rate_limited_synch, FORK_TASK. mrun. rewrite HF. cbn [ret_of Z.eqb].
    assert (paced SCHED_NORMAL n (after Fork (Succ 0) w)) as Hw1 by (by apply paced_after).
    pose proof (released_task_decides n "test_jobs_are_rate_limited_synch") as Hd. unfold decides in Hd.
    destruct (on_time n).
    + destruct (Hd _ Hw1) as ([] & w' & Hrun & _). exists w'. apply bind_exit. rewrite (bind_val _ _ _ _ _ Hrun). done.
    + destruct (Hd _ Hw1) as (w' & Hrun). exists w'. apply bind_exit, bind_exit, Hrun.
Qed.
End tests.

(** ** The processes that release the tasks *)

Section release.
Context {K : Kernel} {H : KernelHeader} (content : nat -> bytes) {PO : Polls K LITMUS_STATS_FILE content}.
Context (all ready : nat -> Z) (Hcontent : forall n, content n = stats_text (all n) (ready n) /\
  0 <= all n <= INT_MAX /\ 0 <= ready n <= INT_MAX).

Abbreviation polled w := (opens LITMUS_STATS_FILE (tr w)).

(** The [k]-th poll from now on is the first that finds exactly [n] tasks. *)
Definition first_ready (n : Z) (k : nat) (w : world) : Prop :=
  (forall i, (i < k)%nat -> ready (polled w + i)%nat <> n) /\ ready (polled w + k)%nat = n.

Lemma wait_waiters_run k fuel buf n file line func w : first_ready n k w -> (k < fuel)%nat ->
  exists w', wait_waiters fuel buf n file line func w = (Val tt, w') /\ releases (tr w') = releases (tr w).
Proof using PO Hcontent.
  revert k w. induction fuel as [|fuel IH]; intros k w [Hbefore Hat] Hk; [lia|]. cbn [wait_waiters].
  destruct (Hcontent (polled w)) as (Hc & Ha & Hr). unfold get_nr_ts_release_waiters.
  destruct (read_litmus_stats_run content (all (polled w)) (ready (polled w)) buf 0 0 w PO Hc Ha Hr) as (w1 & H1 & Ho & _).
  assert (releases (tr w1) = releases (tr w)) as Hrel by apply (keeps_run _ _ _ _ _ (keeps_read_litmus_stats releases _ _ _) H1).
  mrun. rewrite (bind_val _ _ _ _ _ H1). cbn [Z.eqb negb]. mrun. unfold ASSERT.
  rewrite (proj2 (Z.leb_le 0 _)) by lia. cbn [negb]. mrun.
  destruct k as [|k].
  - rewrite Nat.add_0_r in Hat. rewrite Hat, Z.eqb_refl. cbn [negb]. by exists w1.
  - pose proof (Hbefore 0%nat ltac:(lia)) as H0. rewrite Nat.add_0_r in H0. rewrite (proj2 (Z.eqb_neq _ _) H0). cbn [negb].
    destruct (IH k w1) as (w' & Hrun & Hrel'); [|lia|exists w'; by rewrite Hrel', Hrel].
    split; [intros i Hi|]; rewrite Ho, Nat.add_succ_comm; [apply Hbefore; lia|done].
Qed.

Lemma first_ready_after n k c r w : opens LITMUS_STATS_FILE (Sys c r :: tr w) = polled w ->
  first_ready n k w -> first_ready n k (after c r w).
Proof using. unfold first_ready. by rewrite tr_after; intros ->. Qed.

Lemma wait_for_run child st status text file line func w : 0 < child -> kernel (tr w) (Waitpid child) = Pair child st ->
  wait_for child status text file line func w = (Val st, after (Waitpid child) (Pair child st) w).
Proof using.
  intros Hc HW. unfold wait_for, waitpid, SYSCALL. mrun. rewrite HW. mrun. by rewrite (proj2 (Z.ltb_ge child 0)) by lia.
Qed.

Lemma assert_run (b : bool) text file line func w : exists w',
  ASSERT b text file line func w = (if b then Val tt else Exit 200, w') /\ releases (tr w') = releases (tr w).
Proof using. unfold ASSERT. destruct b; cbn [negb]; [by exists w|]. unfold fail, eprintf. mrun.
  eexists. split; [done|]. cbn [tr push]. by rewrite tr_after.
Qed.

Lemma releases_release d r w : releases (tr (after (NR_release_ts d) r w)) = (d, r) :: releases (tr w).
Proof using. by rewrite tr_after. Qed.

Lemma releases_other c r w : (forall d, c <> NR_release_ts d) -> releases (tr (after c r w)) = releases (tr w).
Proof using. intros Hc. rewrite tr_after. destruct c; try done. by destruct (Hc delay). Qed.

End release.

Module RateWitness.
Import Sim LockKernel LockTestsWitness.
#[local] Existing Instance sim_header.

(** [k4], with a process that was forked and a clock of [secs]. *)
Section kernel.
Context (secs : nat -> Z).

Definition rate_kernel : Kernel := fun t c =>
  match c with
  | Fork => Succ 0
  | Gettimeofday => Pair (secs (jobs t)) 0
  | NR_complete_job | NR_wait_for_ts_release =>
      if policy_of 1000 t =? SCHED_LITMUS then Succ 0 else Fail EINVAL
  | c => @kernel k4 t c
  end.

#[export] Instance rate_schedules : Schedules rate_kernel 1000.
Proof. split; try done. intros t pol prio. by left. Qed.

#[export] Instance rate_accepts : Accepts rate_kernel 1000.
Proof. split; try done. intros t p f m. unfold kernel, rate_kernel, k4, lock_kernel, kernel. destruct (_ =? _); by eexists. Qed.

#[export] Instance rate_allocates : Allocates rate_kernel.
Proof. exact (lock_kernel_allocates [("/proc/litmus/domains/0", mask_text 1 15 [])] 5 4). Qed.

#[export] Instance rate_online : Online rate_kernel 4.
Proof. done. Qed.

Lemma rate_clock : (forall n, 0 <= secs n <= secs (S n) /\ secs n < 2 ^ 40) -> second_clock rate_kernel 1000 secs.
Proof. intros Hs. split; try done; intros t Hp; unfold kernel, rate_kernel; by rewrite Hp. Qed.
End kernel.

(** A second per ten jobs, for an hour, and a clock that does not move. *)
Definition good_clock (n : nat) : Z := Z.min 3600 (Z.of_nat n / 10).
Definition frozen_clock (n : nat) : Z := 5.

Lemma good_clock_ok n : 0 <= good_clock n <= good_clock (S n) /\ good_clock n < 2 ^ 40.
Proof.
  unfold good_clock. pose proof (Z.div_pos (Z.of_nat n) 10 ltac:(lia) ltac:(lia)).
  pose proof (Z.div_le_mono (Z.of_nat n) (Z.of_nat (S n)) 10 ltac:(lia) ltac:(lia)). lia.
Qed.

Lemma frozen_clock_ok n : 0 <= frozen_clock n <= frozen_clock (S n) /\ frozen_clock n < 2 ^ 40.
Proof. unfold frozen_clock. lia. Qed.

Lemma rate_tests_decide_witness :
  ((exists w', @test_jobs_are_rate_limited (rate_kernel good_clock) sim_header (0, 0) w0 = (Val tt, w')) /\
   (kernel (Kernel := rate_kernel good_clock) [] Fork = Succ 0 -> exists w',
     @test_jobs_are_rate_limited_synch (rate_kernel good_clock) sim_header 9 (0, 0) [] 0 w0 = (Exit 0, w'))) /\
  ((exists w', @test_jobs_are_rate_limited (rate_kernel frozen_clock) sim_header (0, 0) w0 = (Exit 200, w')) /\
   (kernel (Kernel := rate_kernel frozen_clock) [] Fork = Succ 0 -> exists w',
     @test_jobs_are_rate_limited_synch (rate_kernel frozen_clock) sim_header 9 (0, 0) [] 0 w0 = (Exit 200, w'))).
Proof.
  split.
  - apply (@rate_tests_decide (rate_kernel good_clock) sim_header 1000 4 _ _ _ _ ltac:(lia) good_clock
      (rate_clock _ good_clock_ok) (0, 0) [] 0 9 0 w0). split; [exact fresh_process|done].
  - apply (@rate_tests_decide (rate_kernel frozen_clock) sim_header 1000 4 _ _ _ _ ltac:(lia) frozen_clock
      (rate_clock _ frozen_clock_ok) (0, 0) [] 0 9 0 w0). split; [exact fresh_process|done].
Defined.

(** The first child is killed by SIGUSR2, later ones exit with 0; one more task
    becomes ready with every poll. *)
Definition k_release : Kernel := fun t c =>
  match c with
  | Fork => Succ (7 + Z.of_nat (forked t))
  | Waitpid p => Pair p (if p =? 7 then SIGUSR2 else 0)
  | c => @kernel ReleaseTsWitness.k_filling t c
  end.

Lemma release_polls : Polls k_release LITMUS_STATS_FILE ReleaseTsWitness.filling.
Proof. destruct ReleaseTsWitness.filling_polls as [Ho Hr]. split; [exact Ho|exact Hr]. Qed.

End RateWitness.
