(* ===== verification/Catalog.v ===== *)
(** * The catalogue of test cases (tests/make_catalog.py)

    The build runs make_catalog.py on the sources of the test cases and
    includes what it prints in tests/runner.c.  This file models the search
    for [TESTCASE] with its regular expression ([star], [plus] and [lit] are
    the backtracking matchers the pattern is made of), the suites and the
    printed tables, and proves what [runtests] then does for a plugin. *)
From S2P Require Import Prelude Machine CString Laws Getopt Litmus Runner.

(** ** The regular expression *)

Record TestCase := mk_TestCase { tc_function : bytes; plugins : list bytes; desc : bytes }.

Definition code (c : ascii) : Z := Z.of_N (N_of_ascii c).

(** [[a-zA-z_0-9]]: the second range goes from A to lower-case z. *)
Definition name_char (c : ascii) : bool :=
  let n := code c in
  ((97 <=? n) && (n <=? 122)) || ((65 <=? n) && (n <=? 122)) || (n =? 95) || ((48 <=? n) && (n <=? 57)).
(** [[- |a-zA-z_0-9]] *)
Definition plugin_char (c : ascii) : bool :=
  let n := code c in (n =? 45) || (n =? 32) || (n =? 124) || name_char c.
(** [\s] and what [strip] removes: blank, \t, \n, \v, \f, \r *)
Definition space_char (c : ascii) : bool := let n := code c in (n =? 32) || ((9 <=? n) && (n <=? 13)).
Definition quote_char : ascii := "034"%char.
Definition not_quote (c : ascii) : bool := negb (Ascii.eqb c quote_char).

Section matchers.
Context {R : Type}.

(** [p*], greedy: the continuation gets what was matched and the rest, and
    shorter matches are tried when it fails. *)
Fixpoint star (p : ascii -> bool) (s : bytes) (acc : bytes) (k : bytes -> bytes -> option R) : option R :=
  match s with
  | c :: s' =>
      if p c then match star p s' (acc ++ [c]) k with Some r => Some r | None => k acc s end
      else k acc s
  | [] => k acc []
  end.

(** [p+] *)
Definition plus (p : ascii -> bool) (s : bytes) (k : bytes -> bytes -> option R) : option R :=
  match s with c :: s => if p c then star p s [c] k else None | [] => None end.

(** A literal text. *)
Fixpoint lit (l s : bytes) (k : bytes -> option R) : option R :=
  match l, s with
  | [], s => k s
  | a :: l, c :: s => if Ascii.eqb a c then lit l s k else None
  | _ :: _, [] => None
  end.
End matchers.

Definition TESTCASE : bytes := bytes_of "TESTCASE(".

(** One match at the start of [s]: the three groups and the text after it. *)
Definition match_testcase (s : bytes) : option ((bytes * bytes * bytes) * bytes) :=
  lit TESTCASE s (fun s =>
  star space_char s [] (fun _ s =>
  plus name_char s (fun name s =>
  star space_char s [] (fun _ s =>
  lit [","%char] s (fun s =>
  star space_char s [] (fun _ s =>
  plus plugin_char s (fun plugs s =>
  star space_char s [] (fun _ s =>
  lit [","%char] s (fun s =>
  star space_char s [] (fun _ s =>
  lit [quote_char] s (fun s =>
  star not_quote s [] (fun d s =>
  lit [quote_char] s (fun s =>
  star space_char s [] (fun _ s =>
  lit [")"%char] s (fun s => Some ((name, plugs, d), s)))))))))))))))).

(** [findall]: a match is never empty, so the text gets shorter. *)
Fixpoint findall (fuel : nat) (s : bytes) : list (bytes * bytes * bytes) :=
  match fuel, s with
  | O, _ | _, [] => []
  | S fuel, c :: s' =>
      match match_testcase s with
      | Some (m, rest) => m :: findall fuel rest
      | None => findall fuel s'
      end
  end.

(** ** Test cases of the sources *)

(** [split('|')] *)
Fixpoint split_bar (s : bytes) : list bytes :=
  match s with
  | [] => [[]]
  | c :: s =>
      if Ascii.eqb c "|" then [] :: split_bar s
      else match split_bar s with w :: ws => (c :: w) :: ws | [] => [[c]] end
  end.

Fixpoint lstrip (s : bytes) : bytes :=
  match s with c :: s' => if space_char c then lstrip s' else s | [] => [] end.
Definition strip (s : bytes) : bytes := rev (lstrip (rev (lstrip s))).

Definition search_file (src : bytes) : list TestCase :=
  map (fun m => let '(name, plugs, d) := m in mk_TestCase name (map strip (split_bar plugs)) d)
    (findall (length src) src).

(** The files named on the command line, [None] for one that cannot be read,
    which ends the program with status 1. *)
Fixpoint search_files (srcs : list (option bytes)) : option (list TestCase) :=
  match srcs with
  | [] => Some []
  | None :: _ => None
  | Some src :: srcs => ts ← search_files srcs; Some (search_file src ++ ts)
  end.

(** ** Suites *)

Definition ALL : bytes := bytes_of "ALL".
Definition LITMUS : bytes := bytes_of "LITMUS".
Definition LINUX : bytes := bytes_of "LINUX".

(** The set of plugins, as a list without duplicates. *)
Definition plugin_set (tests : list TestCase) : list bytes :=
  List.filter (fun p => negb (bool_decide (p = ALL)) && negb (bool_decide (p = LITMUS)))
    (remove_dups (flat_map plugins tests)).

Definition applies (p : bytes) (tc : TestCase) : bool :=
  bool_decide (p ∈ plugins tc) || bool_decide (ALL ∈ plugins tc) ||
  (bool_decide (LITMUS ∈ plugins tc) && negb (bool_decide (p = LINUX))).

Definition suite_indices (tests : list TestCase) (p : bytes) : list Z :=
  map fst (List.filter (fun it => applies p (snd it)) (zip (seqZ 0 (Z.of_nat (length tests))) tests)).

(** [p.replace('_', '-')] *)
Definition dashes (p : bytes) : bytes := map (fun c => if Ascii.eqb c "_" then "-"%char else c) p.

(** [TestCase.__str__]: the declaration of a test case. *)
Definition TestCase_str (tc : TestCase) : bytes :=
  bytes_of "TESTCASE(" ++ tc_function tc ++ bytes_of ", " ++
  match plugins tc with [] => [] | p :: ps => p ++ flat_map (fun p => bytes_of " | " ++ p) ps end ++
  bytes_of ", " ++ [quote_char] ++ desc tc ++ [quote_char] ++ bytes_of ")".

(** ** The printed tables *)

Definition newline : bytes := ["010"%char].
Definition tab : bytes := ["009"%char].

(** The lines printed for the plugins in the order [ps] in which the set is
    enumerated. *)
Definition create_tc_tables (tests : list TestCase) (ps : list bytes) : list bytes :=
  [bytes_of "#include " ++ [quote_char] ++ bytes_of "tests.h" ++ [quote_char]] ++
  map (fun tc => bytes_of "void test_" ++ tc_function tc ++ bytes_of "(void);") tests ++
  [bytes_of "struct testcase test_catalog[] = {"] ++
  map (fun tc => tab ++ bytes_of "{test_" ++ tc_function tc ++ bytes_of ", " ++ [quote_char] ++ desc tc ++
    [quote_char] ++ bytes_of "},") tests ++
  [bytes_of "};"] ++
  flat_map (fun p =>
    [bytes_of "int " ++ p ++ bytes_of "_TESTS[] = {"] ++
    map (fun i => tab ++ print_d i ++ bytes_of ",") (suite_indices tests p) ++
    [bytes_of "};";
     bytes_of "#define NUM_" ++ p ++ bytes_of "_TESTS " ++ print_d (Z.of_nat (length (suite_indices tests p)))]) ps ++
  [bytes_of "struct testsuite testsuite[] = {"] ++
  map (fun p => tab ++ bytes_of "{" ++ [quote_char] ++ dashes p ++ [quote_char] ++ bytes_of ", " ++ p ++
    bytes_of "_TESTS, NUM_" ++ p ++ bytes_of "_TESTS},") ps ++
  [bytes_of "};"; bytes_of "#define NUM_PLUGINS " ++ print_d (Z.of_nat (length ps))].

(** What the C compiler makes of the tables: [linked] gives the function of a
    name. *)
Definition test_catalog (linked : bytes -> M unit) (tests : list TestCase) : list testcase :=
  map (fun tc => mk_testcase (linked (tc_function tc)) (String.string_of_list_ascii (desc tc))) tests.
Definition suites (tests : list TestCase) (ps : list bytes) : list testsuite :=
  map (fun p => mk_testsuite (String.string_of_list_ascii (dashes p)) (suite_indices tests p)) ps.

(** ** Reading back what a source declares *)

Lemma star_greedy {R} p xs acc rest (k : bytes -> bytes -> option R) r :
  forallb p xs = true -> (forall c s, rest = c :: s -> p c = false) -> k (acc ++ xs) rest = Some r ->
  star p (xs ++ rest) acc k = Some r.
Proof.
  intros Hxs Hrest. revert acc. induction xs as [|x xs IH]; intros acc Hk.
  - rewrite app_nil_r in Hk. cbn [app]. destruct rest as [|c s]; [done|]. cbn [star]. by rewrite (Hrest c s).
  - cbn [forallb] in Hxs. apply andb_prop in Hxs as [Hx Hxs]. cbn [app star]. rewrite Hx.
    rewrite IH; [done..|]. by rewrite <- app_assoc.
Qed.

Lemma plus_greedy {R} p xs rest (k : bytes -> bytes -> option R) r :
  xs <> [] -> forallb p xs = true -> (forall c s, rest = c :: s -> p c = false) -> k xs rest = Some r ->
  plus p (xs ++ rest) k = Some r.
Proof.
  destruct xs as [|x xs]; [done|]. cbn [forallb]. intros _ [Hx Hxs]%andb_prop Hrest Hk.
  cbn [app plus]. rewrite Hx. by apply star_greedy.
Qed.

Lemma lit_app {R} l s (k : bytes -> option R) : lit l (l ++ s) k = k s.
Proof. induction l as [|a l IH]; [done|]. cbn [app lit]. by rewrite Ascii.eqb_refl. Qed.

(** Does [s] start with [l]? *)
Definition starts (l s : bytes) : bool := match lit l s (fun _ => Some tt) with Some _ => true | None => false end.

Lemma lit_none {R} l s more (k : bytes -> option R) :
  starts l s = false -> (length l <= length s)%nat -> lit l (s ++ more) k = None.
Proof.
  unfold starts. revert s. induction l as [|a l IH]; intros s Hs Hlen; [done|].
  destruct s as [|c s]; [cbn in Hlen; lia|]. cbn [app lit] in *.
  destruct (Ascii.eqb a c); [|done]. cbn [length] in Hlen. apply IH; [done|lia].
Qed.

Lemma lit_short {R} l s more (k : bytes -> option R) : starts l (s ++ more) = false -> lit l s k = None.
Proof.
  unfold starts. revert s. induction l as [|a l IH]; intros s Hs; [done|].
  destruct s as [|c s]; [done|]. cbn [app lit] in *. destruct (Ascii.eqb a c); [|done]. by apply IH.
Qed.

(** A text in which no declaration starts, also not one that continues in
    what follows. *)
Fixpoint clean (s : bytes) : bool :=
  match s with [] => true | c :: s' => negb (starts TESTCASE (s ++ TESTCASE)) && clean s' end.

(** A declaration as a source may lay it out: six stretches of white space, and
    the blanks on either side of each bar between two plugins. *)
Record declaration := mk_declaration {
  d_case : TestCase;
  d_white : bytes * bytes * bytes * bytes * bytes * bytes;
  d_bars : list (nat * nat);
}.

Definition blanks (n : nat) : bytes := repeat " "%char n.

Fixpoint join_bars (p : bytes) (ps : list bytes) (bars : list (nat * nat)) : bytes :=
  match ps, bars with
  | q :: ps, (a, b) :: bars => p ++ blanks a ++ ["|"%char] ++ blanks b ++ join_bars q ps bars
  | _, _ => p
  end.

Definition d_list (d : declaration) : bytes :=
  match plugins (d_case d) with [] => [] | p :: ps => join_bars p ps (d_bars d) end.

Definition declare (d : declaration) : bytes :=
  let '(w1, w2, w3, w4, w5, w6) := d_white d in
  TESTCASE ++ w1 ++ tc_function (d_case d) ++ w2 ++ [","%char] ++ w3 ++ d_list d ++ w4 ++
  [","%char] ++ w5 ++ [quote_char] ++ desc (d_case d) ++ [quote_char] ++ w6 ++ [")"%char].

(** Names of functions and plugins are made of letters, digits and
    underscores; a description contains no quotation mark. *)
Definition plain_char (c : ascii) : bool := name_char c && negb (space_char c) && negb (Ascii.eqb c "|").
Definition name_ok (s : bytes) : Prop := s <> [] /\ forallb plain_char s = true.
Definition wf_declaration (d : declaration) : Prop :=
  let '(w1, w2, w3, w4, w5, w6) := d_white d in
  name_ok (tc_function (d_case d)) /\ plugins (d_case d) <> [] /\ Forall name_ok (plugins (d_case d)) /\
  forallb not_quote (desc (d_case d)) = true /\
  Forall (fun w => forallb space_char w = true) [w1; w2; w3; w4; w5; w6] /\
  S (length (d_bars d)) = length (plugins (d_case d)).

(** The same, decided. *)
Definition name_okb (s : bytes) : bool := negb (length s =? 0)%nat && forallb plain_char s.
Definition wf_declarationb (d : declaration) : bool :=
  let '(w1, w2, w3, w4, w5, w6) := d_white d in
  name_okb (tc_function (d_case d)) && negb (length (plugins (d_case d)) =? 0)%nat &&
  forallb name_okb (plugins (d_case d)) && forallb not_quote (desc (d_case d)) &&
  forallb (forallb space_char) [w1; w2; w3; w4; w5; w6] &&
  (S (length (d_bars d)) =? length (plugins (d_case d)))%nat.

Lemma name_okb_ok s : name_okb s = true -> name_ok s.
Proof. unfold name_okb, name_ok. intros [H1%negb_true_iff H2]%andb_prop. split; [|done]. by intros ->. Qed.

Lemma wf_declarationb_ok d : wf_declarationb d = true -> wf_declaration d.
Proof.
  unfold wf_declarationb, wf_declaration. destruct (d_white d) as [[[[[w1 w2] w3] w4] w5] w6].
  rewrite !andb_true_iff. intros [[[[[H1%name_okb_ok H2%negb_true_iff] H3] H4] H5] H6].
  refine (conj H1 (conj _ (conj _ (conj H4 (conj _ _))))).
  - clear -H2. by destruct (plugins (d_case d)).
  - rewrite forallb_forall in H3. apply List.Forall_forall. intros p Hp. by apply name_okb_ok, H3.
  - rewrite forallb_forall in H5. by apply List.Forall_forall.
  - by apply Nat.eqb_eq.
Qed.

Ltac by_code :=
  let c := fresh "c" in intros c; destruct c as [[] [] [] [] [] [] [] []]; vm_compute; congruence.

Lemma plain_name : forall c, plain_char c = true -> name_char c = true.
Proof. by_code. Qed.
Lemma plain_plugin : forall c, plain_char c = true -> plugin_char c = true.
Proof. by_code. Qed.
Lemma plain_nospace : forall c, plain_char c = true -> space_char c = false.
Proof. by_code. Qed.
Lemma plain_nobar : forall c, plain_char c = true -> Ascii.eqb c "|" = false.
Proof. by_code. Qed.
Lemma space_noname : forall c, space_char c = true -> name_char c = false.
Proof. by_code. Qed.

Lemma forallb_weaken (p q : ascii -> bool) s : (forall c, p c = true -> q c = true) -> forallb p s = true -> forallb q s = true.
Proof. rewrite !forallb_forall. auto. Qed.

(** What comes first after a stretch of characters. *)
Lemma next_after (p q : ascii -> bool) w c0 s0 :
  forallb q w = true -> (forall c, q c = true -> p c = false) -> p c0 = false ->
  forall c s, w ++ c0 :: s0 = c :: s -> p c = false.
Proof. intros Hw Hq H0 c s E. destruct w as [|x w]; injection E as <- _; [done|]. apply andb_prop in Hw as [Hx _]. auto. Qed.

Lemma blanks_plugin n : forallb plugin_char (blanks n) = true.
Proof. by induction n. Qed.

Lemma join_bars_plugin p ps bars : name_ok p -> Forall name_ok ps -> forallb plugin_char (join_bars p ps bars) = true.
Proof.
  intros Hp Hps. revert p bars Hp. induction Hps as [|q ps Hq _ IH]; intros p [|[a b] bars] [_ Hp]; cbn [join_bars];
    try by apply (forallb_weaken _ _ _ plain_plugin).
  rewrite !forallb_app, !blanks_plugin, (forallb_weaken _ _ _ plain_plugin Hp), IH by done. done.
Qed.

Lemma join_bars_starts p ps bars : name_ok p -> exists c s, join_bars p ps bars = c :: s /\ plain_char c = true.
Proof.
  intros [Hne Hp]. destruct p as [|c p]; [done|]. apply andb_prop in Hp as [Hc _].
  destruct ps as [|q ps], bars as [|[a b] bars]; cbn [join_bars app]; by eexists _, _.
Qed.

(** The blanks after the last plugin are matched with the plugins. *)
Fixpoint lead (s : bytes) : nat :=
  match s with c :: s => if Ascii.eqb c " " then S (lead s) else O | [] => O end.

Lemma lead_split w : forallb space_char w = true ->
  exists w', w = blanks (lead w) ++ w' /\ forallb space_char w' = true /\ forall c s, w' = c :: s -> plugin_char c = false.
Proof.
  induction w as [|c w IH]; intros Hw; [by exists []|]. cbn [forallb] in Hw. apply andb_prop in Hw as [Hc Hw].
  cbn [lead]. destruct (Ascii.eqb_spec c " ") as [->|Hne].
  - destruct (IH Hw) as (w' & E & Hw' & Hp). exists w'. split_and!; [|done..]. cbn [blanks repeat app]. by rewrite E at 1.
  - exists (c :: w). split; [done|]. split; [cbn [forallb]; by rewrite Hc|]. intros c0 s0 [= <- _].
    destruct c as [[] [] [] [] [] [] [] []]; by vm_compute in Hc |- *.
Qed.

(** What the expression matches as the list of plugins. *)
Definition d_matched (d : declaration) : bytes :=
  let '(w1, w2, w3, w4, w5, w6) := d_white d in d_list d ++ blanks (lead w4).

Lemma match_declare d rest :
  wf_declaration d ->
  match_testcase (declare d ++ rest) = Some ((tc_function (d_case d), d_matched d, desc (d_case d)), rest).
Proof.
  unfold wf_declaration, declare, d_matched, d_list, match_testcase. destruct (d_white d) as [[[[[w1 w2] w3] w4] w5] w6].
  intros ([Hne Hname] & Hpne & Hps & Hdesc & Hw & Hbars).
  repeat (apply Forall_cons_iff in Hw as [? Hw]). clear Hw.
  destruct (plugins (d_case d)) as [|p ps]; [done|]. apply Forall_cons_iff in Hps as [Hp Hps].
  destruct (join_bars_starts p ps (d_bars d) Hp) as (c0 & s0 & Ej & Hc0).
  pose proof (join_bars_plugin p ps (d_bars d) Hp Hps) as Hj.
  destruct (lead_split w4) as (w4' & E4 & Hw4' & Hw4); [done|]. rewrite E4 at 1.
  rewrite <- !app_assoc. rewrite lit_app.
  apply star_greedy; [done| |].
  { intros c s E. destruct (tc_function (d_case d)) as [|x n]; [done|]. injection E as <- _.
    apply andb_prop in Hname as [Hx _]. by apply plain_nospace. }
  apply plus_greedy; [done|by apply (forallb_weaken _ _ _ plain_name)| |].
  { by eapply next_after; [|apply space_noname|]. }
  apply star_greedy; [done|by intros c s [= <- _]|]. rewrite (lit_app [","%char]).
  apply star_greedy; [done| |].
  { intros c s E. rewrite Ej in E. injection E as <- _. by apply plain_nospace. }
  rewrite (app_assoc (join_bars _ _ _)).
  apply plus_greedy; [by rewrite Ej|by rewrite forallb_app, Hj, blanks_plugin| |].
  { intros c s E. destruct w4' as [|x w4']; [by injection E as <- _|]. injection E as <- _. by eapply Hw4. }
  apply star_greedy; [done|by intros c s [= <- _]|]. rewrite (lit_app [","%char]).
  apply star_greedy; [done|by intros c s [= <- _]|]. rewrite (lit_app [quote_char]).
  apply star_greedy; [done|by intros c s [= <- _]|]. rewrite (lit_app [quote_char]).
  apply star_greedy; [done|by intros c s [= <- _]|]. by rewrite (lit_app [")"%char]).
Qed.

(** A source: declarations after clean texts, and a clean rest. *)
Fixpoint source (ds : list (bytes * declaration)) (rest : bytes) : bytes :=
  match ds with [] => rest | (text, d) :: ds => text ++ declare d ++ source ds rest end.


Lemma declare_starts d rest : exists more, declare d ++ rest = TESTCASE ++ more.
Proof.
  unfold declare. destruct (d_white d) as [[[[[w1 w2] w3] w4] w5] w6]. rewrite <- !app_assoc. by eexists.
Qed.

Lemma findall_skip text more fuel :
  clean text = true -> (length text <= fuel)%nat ->
  findall fuel (text ++ TESTCASE ++ more) = findall (fuel - length text) (TESTCASE ++ more).
Proof.
  revert fuel. induction text as [|c text IH]; intros fuel Hc Hf.
  { by rewrite Nat.sub_0_r. }
  cbn [clean] in Hc. apply andb_prop in Hc as [Hs%negb_true_iff Hc]. cbn [length] in Hf.
  destruct fuel as [|fuel]; [lia|]. cbn [app findall]. unfold match_testcase.
  assert (forall k : bytes -> option (bytes * bytes * bytes * bytes),
    lit TESTCASE (c :: text ++ TESTCASE ++ more) k = None) as E.
  { intros k. rewrite app_assoc. apply (lit_none _ ((c :: text) ++ TESTCASE) more); [done|].
    rewrite length_app. lia. }
  rewrite E. rewrite IH by (done || lia). done.
Qed.

Lemma findall_none text fuel : clean text = true -> findall fuel text = [].
Proof.
  revert fuel. induction text as [|c text IH]; intros fuel Hc; [by destruct fuel|].
  cbn [clean] in Hc. apply andb_prop in Hc as [Hs%negb_true_iff Hc].
  destruct fuel as [|fuel]; [done|]. cbn [findall]. unfold match_testcase.
  rewrite (lit_short _ _ TESTCASE) by done. by apply IH.
Qed.

Lemma length_TESTCASE : length TESTCASE = 9%nat.
Proof. done. Qed.

Lemma findall_source ds rest fuel :
  Forall (fun td => clean (fst td) = true /\ wf_declaration (snd td)) ds -> clean rest = true ->
  (length (source ds rest) <= fuel)%nat ->
  findall fuel (source ds rest) =
    map (fun td => (tc_function (d_case (snd td)), d_matched (snd td), desc (d_case (snd td)))) ds.
Proof.
  intros Hds Hrest. revert fuel.
  induction Hds as [|[text d] ds [Htext Hd] _ IH]; intros fuel Hfuel; [by apply findall_none|].
  cbn [source map fst snd] in *. rewrite !length_app in Hfuel.
  destruct (declare_starts d (source ds rest)) as [more E]. pose proof (match_declare d (source ds rest) Hd) as Hm.
  assert (length (declare d) <> 0)%nat as Hlen.
  { destruct (declare_starts d []) as [more0 E0%(f_equal length)]. rewrite !length_app, length_TESTCASE in E0. cbn in E0. lia. }
  rewrite E in *. rewrite findall_skip by (done || lia).
  destruct (fuel - length text)%nat as [|fuel'] eqn:Ef; [lia|].
  change (TESTCASE ++ more) with ("T"%char :: (drop 1 TESTCASE ++ more)) at 1. cbn [findall].
  change ("T"%char :: (drop 1 TESTCASE ++ more)) with (TESTCASE ++ more). rewrite Hm. f_equal. apply IH. lia.
Qed.

Definition nobar (c : ascii) : bool := negb (Ascii.eqb c "|").

Lemma split_bar_nobar w s : forallb nobar w = true -> split_bar (w ++ s) =
  match split_bar s with v :: vs => (w ++ v) :: vs | [] => [w] end.
Proof.
  induction w as [|c w IH]; intros Hw; cbn [app].
  - destruct (split_bar s) eqn:E; [|done]. destruct s as [|c s]; [done|]. cbn [split_bar] in E.
    destruct (Ascii.eqb c "|"); [done|]. by destruct (split_bar s).
  - cbn [forallb] in Hw. apply andb_prop in Hw as [Hc%negb_true_iff Hw]. cbn [split_bar]. rewrite Hc, (IH Hw).
    by destruct (split_bar s).
Qed.

Lemma lstrip_blanks n s : lstrip (blanks n ++ s) = lstrip s.
Proof. by induction n. Qed.

Lemma lstrip_name p s : name_ok p -> lstrip (p ++ s) = p ++ s.
Proof.
  intros [Hne Hp]. destruct p as [|c p]; [done|]. apply andb_prop in Hp as [Hc _]. cbn [app lstrip].
  by rewrite (plain_nospace _ Hc).
Qed.

Lemma name_ok_rev p : name_ok p -> name_ok (rev p).
Proof.
  intros [Hne Hp]. split; [intros E; apply Hne; by rewrite <- (rev_involutive p), E|].
  rewrite forallb_forall in Hp |- *. intros c Hc. apply Hp. by apply in_rev.
Qed.

(** [strip] removes all blanks on either side of a plugin. *)
Lemma strip_blanks a p b : name_ok p -> strip (blanks a ++ p ++ blanks b) = p.
Proof.
  intros Hp. unfold strip. rewrite lstrip_blanks, lstrip_name, rev_app_distr by done.
  assert (rev (blanks b) = blanks b) as -> by (unfold blanks; by rewrite List.rev_repeat).
  rewrite lstrip_blanks. rewrite <- (app_nil_r (rev p)), lstrip_name, app_nil_r by (by apply name_ok_rev).
  apply rev_involutive.
Qed.

Lemma padded_nobar a p b : name_ok p -> forallb nobar (blanks a ++ p ++ blanks b) = true.
Proof.
  assert (forall n, forallb nobar (blanks n) = true) as Hb by (by induction n). intros [_ Hp]. rewrite !forallb_app, !Hb.
  rewrite (forallb_weaken plain_char nobar p); [done| |done]. intros c Hc. unfold nobar. by rewrite (plain_nobar _ Hc).
Qed.

Lemma split_join p ps bars a z : name_ok p -> Forall name_ok ps -> length bars = length ps ->
  map strip (split_bar (blanks a ++ join_bars p ps bars ++ blanks z)) = p :: ps.
Proof.
  intros Hp Hps. revert p bars a Hp. induction Hps as [|q ps Hq _ IH]; intros p [|[b c] bars] a Hp Hlen; try done; cbn [join_bars].
  - rewrite <- (app_nil_r (blanks a ++ _)). rewrite split_bar_nobar by (by apply padded_nobar). cbn [split_bar map].
    by rewrite app_nil_r, strip_blanks.
  - injection Hlen as Hlen. rewrite <- !app_assoc. rewrite (app_assoc p), (app_assoc (blanks a)), split_bar_nobar by (by apply padded_nobar).
    cbn [app split_bar Ascii.eqb Bool.eqb map]. by rewrite app_nil_r, strip_blanks, IH.
Qed.

Lemma search_source ds rest :
  Forall (fun td => clean (fst td) = true /\ wf_declaration (snd td)) ds -> clean rest = true ->
  search_file (source ds rest) = map (fun td => d_case (snd td)) ds.
Proof.
  intros Hds Hrest. unfold search_file. rewrite findall_source by done. rewrite map_map.
  apply map_ext_in. intros [text d] Hin. rewrite Forall_forall in Hds. destruct (Hds _ Hin) as [_ Hd].
  unfold wf_declaration in Hd. unfold d_matched, d_list. cbn [fst snd] in *. destruct (d_white d) as [[[[[? ?] ?] w4] ?] ?].
  destruct Hd as (_ & Hpne & Hps & _ & _ & Hbars). destruct (d_case d) as [f ps dsc]. cbn [plugins tc_function desc] in *.
  destruct ps as [|p ps]; [done|]. apply Forall_cons_iff in Hps as [Hp Hps]. injection Hbars as Hbars.
  pose proof (split_join p ps (d_bars d) 0 (lead w4) Hp Hps Hbars) as E. cbn [blanks repeat app] in E. by rewrite E.
Qed.

(** C36: make_catalog.py reads back the test cases a source declares, in
    order, with their functions, plugins and descriptions: with any number of
    blanks on either side of a bar between two plugins, any white space, line
    breaks too, at the other six places between the parts of a declaration,
    and any text between declarations in which none starts.  (Next to a bar
    only blanks are read; see [broken_line] for a line break.) *)
Theorem search_file_source ds rest :
  Forall (fun td => clean (fst td) = true /\ wf_declaration (snd td)) ds -> clean rest = true ->
  search_file (source ds rest) = map (fun td => d_case (snd td)) ds.
Proof. apply search_source. Qed.

(** What [__str__] prints of a test case declares it. *)
Lemma str_declares tc :
  name_ok (tc_function tc) -> plugins tc <> [] -> Forall name_ok (plugins tc) -> forallb not_quote (desc tc) = true ->
  search_file (TestCase_str tc) = [tc].
Proof.
  intros Hn Hne Hps Hd. set (d := mk_declaration tc ([], [], [" "%char], [], [" "%char], []) (repeat (1, 1)%nat (pred (length (plugins tc))))).
  assert (TestCase_str tc = source [([], d)] []) as ->.
  { cbn [source]. unfold TestCase_str, declare, d, d_list. cbn [d_white d_case d_bars app].
    assert (match plugins tc with [] => [] | p :: ps => join_bars p ps (repeat (1, 1)%nat (pred (length (plugins tc)))) end =
      match plugins tc with [] => [] | p :: ps => p ++ flat_map (fun p => bytes_of " | " ++ p) ps end) as ->.
    { clear. destruct (plugins tc) as [|p ps]; [done|]. cbn [length pred]. revert p.
      induction ps as [|q ps IH]; intros p; cbn [length repeat join_bars flat_map]; [by rewrite app_nil_r|]. by rewrite IH. }
    rewrite !app_nil_r. change TESTCASE with (bytes_of "TESTCASE("). change (bytes_of ", ") with ([","%char] ++ [" "%char]).
    by rewrite <- ?app_assoc. }
  apply (search_source [([], d)] []); [|done]. constructor; [|constructor]. split; [done|].
  refine (conj Hn (conj Hne (conj Hps (conj Hd (conj _ _))))); [by repeat constructor|].
  unfold d. cbn [snd d_bars d_case]. rewrite List.repeat_length. by destruct (plugins tc).
Qed.

(** ** The suites *)

Lemma plugin_set_spec tests p :
  p ∈ plugin_set tests <-> (exists tc, tc ∈ tests /\ p ∈ plugins tc) /\ p <> ALL /\ p <> LITMUS.
Proof.
  unfold plugin_set. rewrite list_elem_of_In, filter_In, <- list_elem_of_In, elem_of_remove_dups.
  rewrite list_elem_of_In, in_flat_map. setoid_rewrite <- list_elem_of_In.
  rewrite andb_true_iff, !negb_true_iff, !bool_decide_eq_false. done.
Qed.

(** The test cases with their indices, from index [length pre] on. *)
Lemma indices_tests (f : TestCase -> bool) pre tests :
  omap (fun i => (pre ++ tests) !! Z.to_nat i)
    (map fst (List.filter (fun it => f (snd it)) (zip (seqZ (Z.of_nat (length pre)) (Z.of_nat (length tests))) tests))) =
  List.filter f tests.
Proof.
  revert pre. induction tests as [|tc tests IH]; intros pre; [done|].
  rewrite seqZ_cons by (cbn [length]; lia).
  replace (Z.pred (Z.of_nat (length (tc :: tests)))) with (Z.of_nat (length tests)) by (cbn [length]; lia).
  replace (Z.succ (Z.of_nat (length pre))) with (Z.of_nat (length (pre ++ [tc])))
    by (rewrite length_app; cbn [length]; lia).
  specialize (IH (pre ++ [tc])). rewrite <- app_assoc in IH. cbn [app] in IH.
  cbn [zip zip_with List.filter snd]. destruct (f tc); [|exact IH].
  cbn [map fst omap list_omap]. rewrite Nat2Z.id, list_lookup_middle by done. by f_equal.
Qed.

Lemma suite_tests tests p :
  omap (fun i => tests !! Z.to_nat i) (suite_indices tests p) = List.filter (applies p) tests.
Proof. apply (indices_tests (applies p) [] tests). Qed.

Lemma suite_in_range tests p : Forall (fun i => 0 <= i < Z.of_nat (length tests)) (suite_indices tests p).
Proof.
  apply List.Forall_forall. unfold suite_indices. intros i Hi. apply in_map_iff in Hi as ([j tc] & <- & Hin).
  apply filter_In in Hin as [Hin _]. apply in_combine_l, list_elem_of_In, elem_of_seqZ in Hin. cbn [fst]. lia.
Qed.

(** The test case an index of a suite stands for. *)
Lemma suite_index tests p i :
  In i (suite_indices tests p) ->
  exists tc, 0 <= i /\ tests !! Z.to_nat i = Some tc /\ applies p tc = true.
Proof.
  unfold suite_indices. intros Hi. apply in_map_iff in Hi as ([j tc] & <- & Hin).
  apply filter_In in Hin as [Hin Hap]. exists tc. cbn [fst snd] in *.
  apply list_elem_of_In, elem_of_lookup_zip_with in Hin as (n & x & y & [= <- <-] & Hx & Hy).
  apply lookup_seqZ in Hx as [-> Hn]. rewrite Z.add_0_l, Nat2Z.id. split; [lia|]. by split.
Qed.

Lemma dashes_inj p q : "-"%char ∉ p -> "-"%char ∉ q -> dashes p = dashes q -> p = q.
Proof.
  unfold dashes. revert q. induction p as [|a p IH]; intros [|b q] Hp Hq E; try done.
  rewrite not_elem_of_cons in Hp, Hq. destruct Hp as [Ha Hp], Hq as [Hb Hq]. cbn [map] in E.
  injection E as Ec E. f_equal; [|by apply IH].
  destruct (Ascii.eqb_spec a "_"), (Ascii.eqb_spec b "_"); congruence.
Qed.

Lemma string_of_inj l l' : String.string_of_list_ascii l = String.string_of_list_ascii l' -> l = l'.
Proof. intros E%(f_equal String.list_ascii_of_string). by rewrite !String.list_ascii_of_string_of_list_ascii in E. Qed.

(** The test cases meant for a plugin, in terms of what they declare. *)
Definition meant_for (p : bytes) (tc : TestCase) : Prop :=
  p ∈ plugins tc \/ ALL ∈ plugins tc \/ LITMUS ∈ plugins tc /\ p <> LINUX.

#[export] Instance meant_for_dec p tc : Decision (meant_for p tc).
Proof. unfold meant_for. apply _. Defined.

Lemma applies_meant p tc : applies p tc = bool_decide (meant_for p tc).
Proof.
  unfold applies, meant_for. rewrite <- bool_decide_not, <- bool_decide_and, <- !bool_decide_or.
  apply bool_decide_ext. tauto.
Qed.

Lemma filter_meant p tests : filter (meant_for p) tests = List.filter (applies p) tests.
Proof.
  induction tests as [|tc tests IH]; [done|]. rewrite filter_cons. cbn [List.filter]. rewrite applies_meant, IH.
  by destruct (decide (meant_for p tc)) as [Hm|Hm]; [rewrite bool_decide_eq_true_2|rewrite bool_decide_eq_false_2].
Qed.

(** The runner's search for a suite by its name finds the plugin's. *)
Lemma find_suite tests ps p :
  p ∈ ps -> Forall (fun q => "-"%char ∉ q) ps ->
  find (fun s => strcmp_eq (plugin s) (String.string_of_list_ascii (dashes p))) (suites tests ps) =
    Some (mk_testsuite (String.string_of_list_ascii (dashes p)) (suite_indices tests p)).
Proof.
  intros Hin Hps. assert ("-"%char ∉ p) as Hp.
  { rewrite List.Forall_forall in Hps. by apply Hps, list_elem_of_In. }
  unfold suites. induction Hps as [|q ps Hq _ IH]; [by apply not_elem_of_nil in Hin|].
  cbn [map find plugin]. unfold strcmp_eq at 1.
  destruct (String.eqb_spec (String.string_of_list_ascii (dashes q)) (String.string_of_list_ascii (dashes p))) as [E|E].
  - apply string_of_inj, dashes_inj in E; [by subst q|done..].
  - apply elem_of_cons in Hin as [->|Hin]; [done|by apply IH].
Qed.

(** The suite of a plugin that a test case names. *)
Lemma suite_named tests ps tc0 p :
  ps ≡ₚ plugin_set tests -> tc0 ∈ tests -> p ∈ plugins tc0 -> p <> ALL -> p <> LITMUS ->
  Forall (fun tc => Forall (fun q => "-"%char ∉ q) (plugins tc)) tests ->
  find (fun s => strcmp_eq (plugin s) (String.string_of_list_ascii (dashes p))) (suites tests ps) =
    Some (mk_testsuite (String.string_of_list_ascii (dashes p)) (suite_indices tests p)).
Proof.
  intros Hps Htc0 Hp HA HL Hdash. apply find_suite; [rewrite Hps, plugin_set_spec; eauto|].
  rewrite List.Forall_forall in Hdash |- *. intros q Hq%list_elem_of_In. rewrite Hps in Hq.
  apply plugin_set_spec in Hq as [(tc & Htc%list_elem_of_In & Hq) _]. specialize (Hdash tc Htc).
  rewrite List.Forall_forall in Hdash. by apply Hdash, list_elem_of_In.
Qed.

(** The test cases of a suite, one for each of its indices. *)
Lemma suite_pairs tests p :
  Forall2 (fun i tc => tests !! Z.to_nat i = Some tc) (suite_indices tests p) (filter (meant_for p) tests).
Proof.
  rewrite filter_meant, <- suite_tests. pose proof (suite_in_range tests p) as Hr.
  induction Hr as [|i l Hi _ IH]; cbn [omap list_omap]; [constructor|].
  destruct (tests !! Z.to_nat i) eqn:E; [by constructor|]. apply lookup_ge_None in E. lia.
Qed.

Lemma catalog_titles linked tests l tcs :
  Forall2 (fun i tc => tests !! Z.to_nat i = Some tc) l tcs ->
  omap (fun i => description <$> test_catalog linked tests !! Z.to_nat i) l =
    map (fun tc => String.string_of_list_ascii (desc tc)) tcs.
Proof.
  induction 1 as [|i tc l tcs E _ IH]; [done|]. cbn [omap list_omap map]. unfold test_catalog at 1.
  change (map ?f tests !! Z.to_nat i) with ((f <$> tests) !! Z.to_nat i). rewrite list_lookup_fmap, E. cbn. by rewrite IH.
Qed.

(** C14: The runner, linked with the tables that make_catalog.py prints for
    test cases, in whatever order the set of plugins is enumerated, and asked
    for a plugin that a test case names (other than ALL and LITMUS).  Let [ts]
    be the test cases declared for this plugin, for ALL, or for LITMUS unless
    the plugin is LINUX, in the order of the sources.  The runner forks one
    process for each of [ts], announces them in this order, and exits with 0
    when all of them passed and with 3 otherwise; and the process born at the
    fork after the first [k] initialises liblitmus and runs the function that
    is linked under the name of the test case with index [k] in [ts], announced
    last, and nothing else. *)
Theorem catalog_suite_runs strsignal tests ps (linked : Kernel -> bytes -> M unit) tc0 p prog w :
  ps ≡ₚ plugin_set tests -> tc0 ∈ tests -> p ∈ plugins tc0 -> p <> ALL -> p <> LITMUS ->
  Forall (fun tc => Forall (fun q => "-"%char ∉ q) (plugins tc)) tests ->
  operand (String.string_of_list_ascii (dashes p)) ->
  let ts := filter (meant_for p) tests in
  let title tc := String.string_of_list_ascii (desc tc) in
  let runner K := @main K strsignal (test_catalog (linked K) tests) (suites tests ps) prog
    [String.string_of_list_ascii (dashes p)] w in
  (forall K, Forks K -> exists sts w',
    runner K = (Val (if forallb passed sts then 0 else 3), w') /\
    length sts = length ts /\ forked (tr w') = (length ts + forked (tr w))%nat /\
    statuses (tr w') = rev sts ++ statuses (tr w) /\ titles (tr w') = rev (map title ts) ++ titles (tr w)) /\
  (forall K k tc, Born K (k + forked (tr w)) -> ts !! k = Some tc -> exists w1,
    runner K = (SYSCALL init_litmus "init_litmus()" "tests/runner.c" 27 "run_test";; linked K (tc_function tc);; exit_ 0) w1 /\
    forked (tr w1) = S (k + forked (tr w)) /\ titles (tr w1) = title tc :: rev (map title (take k ts)) ++ titles (tr w)).
Proof.
  intros Hps Htc0 Hp HA HL Hdash Hop ts title runner. pose proof (suite_pairs tests p) as H2.
  assert (forall K, Forall (fun i => 0 <= i < Z.of_nat (length (test_catalog (linked K) tests))) (suite_indices tests p)) as Hidx.
  { intros K. unfold test_catalog. rewrite length_map. apply suite_in_range. }
  pose proof (suite_named _ _ _ _ Hps Htc0 Hp HA HL Hdash) as Hs. split.
  - intros K FK. destruct (runner_run strsignal (test_catalog (linked K) tests) (suites tests ps) prog _ _ w Hop Hs (Hidx K))
      as (sts & w' & Hrun & Hlen & Hst & Ht & Hf). cbn [testcases] in *. exists sts, w'.
    rewrite (Forall2_length H2) in Hlen, Hf. by rewrite (catalog_titles _ _ _ _ H2) in Ht.
  - intros K k tc HB Hk. destruct (Forall2_lookup_r _ _ _ _ _ H2 Hk) as (i & Hi & Htc).
    destruct (runner_child strsignal (test_catalog (linked K) tests) (suites tests ps) prog _ _ w k i
      (mk_testcase (linked K (tc_function tc)) (title tc)) Hop Hs (Hidx K)) as (w1 & Hrun & Hf & Ht); [done| |done|].
    { unfold test_catalog. change (map ?f tests !! Z.to_nat i) with ((f <$> tests) !! Z.to_nat i).
      by rewrite list_lookup_fmap, Htc. }
    exists w1. cbn [testcases description function] in *. by rewrite (catalog_titles _ _ _ _ (Forall2_take _ _ _ k H2)) in Ht.
Qed.

(** ** Concrete runs *)

Module CatalogWitness.
Import Sim.
Abbreviation k_parent := RunnerWitness.k_parent.
Abbreviation signal_name := RunnerWitness.signal_name.

Definition decl1 : declaration :=
  mk_declaration (mk_TestCase (bytes_of "invalid_od") [bytes_of "ALL"] (bytes_of "reject invalid object descriptors"))
    ([], [], [" "%char], [], ["010"%char; "009"%char; " "%char], []) [].
Definition decl2 : declaration :=
  mk_declaration (mk_TestCase (bytes_of "lock_srp") [bytes_of "PSN_EDF"; bytes_of "P_FP"] (bytes_of "SRP"))
    ([" "%char], [" "%char], [], [" "%char; " "%char; "010"%char; " "%char], [], [" "%char]) [(3, 0)%nat].

Lemma wf_decls : wf_declaration decl1 /\ wf_declaration decl2.
Proof. split; by apply wf_declarationb_ok; vm_compute. Qed.

Lemma search_file_source_witness :
  search_file (source [(bytes_of "int x; ", decl1); (bytes_of " /* TESTCASE */ ", decl2)] (bytes_of " {}")) =
    [d_case decl1; d_case decl2].
Proof.
  apply (search_file_source [(bytes_of "int x; ", decl1); (bytes_of " /* TESTCASE */ ", decl2)] (bytes_of " {}"));
    [|by vm_compute].
  destruct wf_decls as [H1 H2]. constructor; [split; [by vm_compute|exact H1]|].
  constructor; [split; [by vm_compute|exact H2]|constructor].
Defined.

Definition cases : list TestCase := [d_case decl1; d_case decl2].

(** Every function leaves a status of its own. *)
Definition link (name : bytes) : M unit := exit_ (Z.of_nat (length name)).

Lemma catalog_suite_runs_witness :
  (exists sts w',
    @main k_parent signal_name (test_catalog link cases) (suites cases [bytes_of "P_FP"; bytes_of "PSN_EDF"])
      "runtests" ["P-FP"] w0 = (Val (if forallb passed sts then 0 else 3), w') /\
    length sts = 2%nat /\ forked (tr w') = 2%nat /\ statuses (tr w') = rev sts ++ [] /\
    titles (tr w') = ["SRP"; "reject invalid object descriptors"] ++ []) /\
  exists w1,
    @main RunnerWitness.k_born signal_name (test_catalog link cases) (suites cases [bytes_of "P_FP"; bytes_of "PSN_EDF"])
      "runtests" ["P-FP"] w0 =
      (@SYSCALL RunnerWitness.k_born (@init_litmus RunnerWitness.k_born) "init_litmus()" "tests/runner.c" 27 "run_test";;
       (exit_ 8 : M unit);; exit_ 0) w1 /\
    forked (tr w1) = 2%nat /\ titles (tr w1) = "SRP" :: ["reject invalid object descriptors"].
Proof.
  edestruct (fun H1 H2 H3 H4 H5 H6 H7 => catalog_suite_runs signal_name cases [bytes_of "P_FP"; bytes_of "PSN_EDF"]
    (fun _ => link) (d_case decl2) (bytes_of "P_FP") "runtests" w0 H1 H2 H3 H4 H5 H6 H7) as [Hparent Hchild]; try done.
  - apply (bool_decide_unpack _). by vm_compute.
  - by right; left.
  - by right; left.
  - repeat constructor; apply (bool_decide_unpack _); by vm_compute.
  - split; [exact (Hparent k_parent RunnerWitness.parent_forks)|].
    exact (Hchild RunnerWitness.k_born 1%nat (d_case decl2) RunnerWitness.second_born eq_refl).
Defined.

(** The range A-z of the pattern takes brackets for letters. *)
Example bracket_name : map tc_function (search_file (bytes_of "TESTCASE(a[0], ALL, " ++ [quote_char; quote_char; ")"%char])) =
  [bytes_of "a[0]"].
Proof. vm_compute. reflexivity. Qed.

(** A list of plugins that continues on the next line is not found. *)
Example broken_line : search_file (bytes_of "TESTCASE(f, P_FP |" ++ newline ++ bytes_of " PSN_EDF, " ++
  [quote_char; quote_char; ")"%char]) = [].
Proof. vm_compute. reflexivity. Qed.

(** What is printed for one test case and one plugin. *)
Example printed : map String.string_of_list_ascii (create_tc_tables [d_case decl2] [bytes_of "P_FP"]) =
  ["#include " +:+ String quote_char "tests.h" +:+ String quote_char "";
   "void test_lock_srp(void);";
   "struct testcase test_catalog[] = {";
   String "009" ("{test_lock_srp, " +:+ String quote_char "SRP" +:+ String quote_char "},");
   "};";
   "int P_FP_TESTS[] = {"; String "009" "0,"; "};"; "#define NUM_P_FP_TESTS 1";
   "struct testsuite testsuite[] = {";
   String "009" ("{" +:+ String quote_char "P-FP" +:+ String quote_char ", P_FP_TESTS, NUM_P_FP_TESTS},");
   "};"; "#define NUM_PLUGINS 1"].
Proof. vm_compute. reflexivity. Qed.
End CatalogWitness.
