(* ===== verification/Suite.v ===== *)
(** * The repository's catalogue

    The sixty test cases that the six sources in tests/ declare, in the order
    of the files' names, the suites make_catalog.py builds from them, and the
    functions the runner is linked with. *)
From S2P Require Import Prelude Machine CString Laws Getopt Litmus Runner Tests.
From S2P Require Import TestLocks TestNesting TestFdso TestCoreApi TestPcp TestSched Catalog.

(** A declaration as the sources lay it out: the description on a line of its
    own, after a tab and a blank. *)
Definition declared (name : string) (ps : list string) (d : string) : declaration :=
  mk_declaration (mk_TestCase (bytes_of name) (map bytes_of ps) (bytes_of d))
    ([], [], [" "%char], [], ["010"%char; "009"%char; " "%char], []) (repeat (1, 1)%nat (pred (length ps))).

(** tests/core_api.c *)
Definition core_api_declarations : list declaration :=
  [declared "set_rt_task_param_invalid_pointer" ["ALL"]
     "reject invalid rt_task pointers";
   declared "set_rt_task_param_invalid_params" ["ALL"]
     "reject invalid rt_task values";
   declared "reject_bad_priorities" ["P_FP"]
     "reject invalid priorities";
   declared "accept_valid_priorities" ["P_FP"]
     "accept lowest and highest valid priorities";
   declared "job_control_non_rt" ["ALL"]
     "reject job control for non-rt tasks";
   declared "rt_fork_non_rt" ["LITMUS"]
     "children of RT tasks are not automatically RT tasks";
   declared "ctrl_page_writable" ["ALL"]
     "tasks have write access to /dev/litmus/ctrl mappings";
   declared "suspended_admission" ["LITMUS"]
     "admission control handles suspended tasks correctly";
   declared "running_admission" ["LITMUS"]
     "admission control handles running tasks correctly"].

(** tests/fdso.c *)
Definition fdso_declarations : list declaration :=
  [declared "fmlp_not_active" ["C_EDF"; "PFAIR"; "LINUX"]
     "don't open FMLP semaphores if FMLP is not supported";
   declared "invalid_od" ["ALL"]
     "reject invalid object descriptors";
   declared "invalid_obj_type" ["ALL"]
     "reject invalid object types";
   declared "not_inherit_od" ["GSN_EDF"; "PSN_EDF"]
     "don't inherit FDSO handles across fork"].

(** tests/locks.c *)
Definition locks_declarations : list declaration :=
  [declared "not_lock_fmlp_be" ["GSN_EDF"; "PSN_EDF"; "P_FP"]
     "don't let best-effort tasks lock FMLP semaphores";
   declared "not_lock_srp_be" ["PSN_EDF"; "P_FP"]
     "don't let best-effort tasks open SRP semaphores";
   declared "lock_srp" ["PSN_EDF"; "P_FP"]
     "SRP acquisition and release";
   declared "lock_fmlp" ["PSN_EDF"; "GSN_EDF"; "P_FP"]
     "FMLP acquisition and release";
   declared "lock_dflp" ["P_FP"]
     "DFLP acquisition and release";
   declared "dflp_bad_cpu" ["P_FP"]
     "DFLP reject bad CPU parameter";
   declared "srp_lock_mode_change" ["P_FP"; "PSN_EDF"]
     "SRP task becomes non-RT task while holding lock";
   declared "dflp_lock_mode_change" ["P_FP"]
     "DFLP task becomes non-RT task while holding lock";
   declared "fmlp_lock_mode_change" ["P_FP"; "PSN_EDF"; "GSN_EDF"]
     "FMLP task becomes non-RT task while holding lock";
   declared "srp_lock_teardown" ["P_FP"; "PSN_EDF"]
     "SRP task exits while holding lock";
   declared "fmlp_lock_teardown" ["P_FP"; "PSN_EDF"; "GSN_EDF"]
     "FMLP task exits while holding lock";
   declared "dflp_lock_teardown" ["P_FP"]
     "DFLP task exits while holding lock"].

(** tests/nesting.c *)
Definition nesting_declarations : list declaration :=
  [declared "lock_fmlp_nesting" ["PSN_EDF"; "GSN_EDF"; "P_FP"]
     "FMLP no nesting allowed";
   declared "lock_fmlp_srp_nesting" ["PSN_EDF"; "P_FP"]
     "FMLP no nesting with SRP resources allowed";
   declared "lock_srp_nesting" ["PSN_EDF"; "P_FP"]
     "SRP nesting allowed";
   declared "lock_pcp_nesting" ["P_FP"]
     "PCP nesting allowed";
   declared "lock_mpcp_pcp_no_nesting" ["P_FP"]
     "PCP and MPCP nesting not allowed";
   declared "lock_fmlp_pcp_no_nesting" ["P_FP"]
     "PCP and FMLP nesting not allowed";
   declared "lock_dpcp_pcp_no_nesting" ["P_FP"]
     "PCP and DPCP nesting not allowed";
   declared "lock_mpcp_srp_no_nesting" ["P_FP"]
     "SRP and MPCP nesting not allowed";
   declared "lock_dpcp_srp_no_nesting" ["P_FP"]
     "SRP and DPCP nesting not allowed";
   declared "lock_fmlp_mpcp_no_nesting" ["P_FP"]
     "MPCP and FMLP nesting not allowed";
   declared "lock_fmlp_dpcp_no_nesting" ["P_FP"]
     "DPCP and FMLP nesting not allowed";
   declared "mpcp_nesting" ["P_FP"]
     "MPCP no nesting allowed";
   declared "mpcpvs_nesting" ["P_FP"]
     "MPCP-VS no nesting allowed";
   declared "dpcp_nesting" ["P_FP"]
     "DPCP no nesting allowed";
   declared "dflp_nesting" ["P_FP"]
     "DFLP no nesting allowed";
   declared "lock_fmlp_dflp_no_nesting" ["P_FP"]
     "DFLP and FMLP nesting not allowed";
   declared "lock_dflp_pcp_no_nesting" ["P_FP"]
     "PCP and DFLP nesting not allowed"].

(** tests/pcp.c *)
Definition pcp_declarations : list declaration :=
  [declared "lock_pcp" ["P_FP"]
     "PCP acquisition and release";
   declared "pcp_bad_cpu" ["P_FP"]
     "PCP reject bad CPU parameter";
   declared "pcp_inheritance" ["P_FP"]
     "PCP priority inheritance";
   declared "srp_ceiling_blocking" ["P_FP"; "PSN_EDF"]
     "SRP ceiling blocking";
   declared "lock_dpcp" ["P_FP"]
     "DPCP acquisition and release";
   declared "dpcp_bad_cpu" ["P_FP"]
     "DPCP reject bad CPU parameter";
   declared "lock_dpcp_pcp" ["P_FP"]
     "DPCP-PCP interleaved priority";
   declared "not_lock_pcp_be" ["P_FP"]
     "don't let best-effort tasks lock (D|M-)PCP semaphores";
   declared "lock_mpcp" ["P_FP"]
     "MPCP acquisition and release";
   declared "pcp_lock_mode_change" ["P_FP"]
     "PCP task becomes non-RT task while holding lock";
   declared "mpcp_lock_mode_change" ["P_FP"]
     "MPCP task becomes non-RT task while holding lock";
   declared "dpcp_lock_mode_change" ["P_FP"]
     "DPCP task becomes non-RT task while holding lock";
   declared "pcp_lock_teardown" ["P_FP"]
     "PCP task exits while holding lock";
   declared "dpcp_lock_teardown" ["P_FP"]
     "DPCP task exits while holding lock";
   declared "mpcp_lock_teardown" ["P_FP"]
     "MPCP task exits while holding lock"].

(** tests/sched.c *)
Definition sched_declarations : list declaration :=
  [declared "preempt_on_resume" ["P_FP"; "PSN_EDF"]
     "preempt lower-priority task when a higher-priority task resumes";
   declared "jobs_are_rate_limited" ["LITMUS"]
     "periodic jobs are rate-limited (w/o synchronous release)";
   declared "jobs_are_rate_limited_synch" ["LITMUS"]
     "periodic jobs are rate-limited (w/ synchronous release)"].

Section link.
Context {K : Kernel} {H : KernelHeader} (fuel : nat) (stack pipefd : Z * Z) (buf : bytes) (status : Z).

Definition test_functions : list (string * M unit) :=
  [("set_rt_task_param_invalid_pointer", test_set_rt_task_param_invalid_pointer);
   ("set_rt_task_param_invalid_params", test_set_rt_task_param_invalid_params);
   ("reject_bad_priorities", test_reject_bad_priorities);
   ("accept_valid_priorities", test_accept_valid_priorities);
   ("job_control_non_rt", test_job_control_non_rt);
   ("rt_fork_non_rt", test_rt_fork_non_rt status);
   ("ctrl_page_writable", test_ctrl_page_writable);
   ("suspended_admission", test_suspended_admission pipefd status);
   ("running_admission", test_running_admission fuel pipefd status);
   ("fmlp_not_active", test_fmlp_not_active);
   ("invalid_od", test_invalid_od);
   ("invalid_obj_type", test_invalid_obj_type);
   ("not_inherit_od", test_not_inherit_od status);
   ("not_lock_fmlp_be", test_not_lock_fmlp_be);
   ("not_lock_srp_be", test_not_lock_srp_be);
   ("lock_srp", test_lock_srp);
   ("lock_fmlp", test_lock_fmlp);
   ("lock_dflp", test_lock_dflp);
   ("dflp_bad_cpu", test_dflp_bad_cpu);
   ("srp_lock_mode_change", test_srp_lock_mode_change);
   ("dflp_lock_mode_change", test_dflp_lock_mode_change);
   ("fmlp_lock_mode_change", test_fmlp_lock_mode_change status);
   ("srp_lock_teardown", test_srp_lock_teardown status);
   ("fmlp_lock_teardown", test_fmlp_lock_teardown status);
   ("dflp_lock_teardown", test_dflp_lock_teardown status);
   ("lock_fmlp_nesting", test_lock_fmlp_nesting);
   ("lock_fmlp_srp_nesting", test_lock_fmlp_srp_nesting);
   ("lock_srp_nesting", test_lock_srp_nesting);
   ("lock_pcp_nesting", test_lock_pcp_nesting);
   ("lock_mpcp_pcp_no_nesting", test_lock_mpcp_pcp_no_nesting);
   ("lock_fmlp_pcp_no_nesting", test_lock_fmlp_pcp_no_nesting);
   ("lock_dpcp_pcp_no_nesting", test_lock_dpcp_pcp_no_nesting);
   ("lock_mpcp_srp_no_nesting", test_lock_mpcp_srp_no_nesting);
   ("lock_dpcp_srp_no_nesting", test_lock_dpcp_srp_no_nesting);
   ("lock_fmlp_mpcp_no_nesting", test_lock_fmlp_mpcp_no_nesting);
   ("lock_fmlp_dpcp_no_nesting", test_lock_fmlp_dpcp_no_nesting);
   ("mpcp_nesting", test_mpcp_nesting);
   ("mpcpvs_nesting", test_mpcpvs_nesting);
   ("dpcp_nesting", test_dpcp_nesting);
   ("dflp_nesting", test_dflp_nesting);
   ("lock_fmlp_dflp_no_nesting", test_lock_fmlp_dflp_no_nesting);
   ("lock_dflp_pcp_no_nesting", test_lock_dflp_pcp_no_nesting);
   ("lock_pcp", test_lock_pcp);
   ("pcp_bad_cpu", test_pcp_bad_cpu);
   ("pcp_inheritance", test_pcp_inheritance fuel stack buf status);
   ("srp_ceiling_blocking", test_srp_ceiling_blocking fuel stack buf status);
   ("lock_dpcp", test_lock_dpcp);
   ("dpcp_bad_cpu", test_dpcp_bad_cpu);
   ("lock_dpcp_pcp", test_lock_dpcp_pcp fuel stack buf status);
   ("not_lock_pcp_be", test_not_lock_pcp_be);
   ("lock_mpcp", test_lock_mpcp);
   ("pcp_lock_mode_change", test_pcp_lock_mode_change);
   ("mpcp_lock_mode_change", test_mpcp_lock_mode_change);
   ("dpcp_lock_mode_change", test_dpcp_lock_mode_change);
   ("pcp_lock_teardown", test_pcp_lock_teardown status);
   ("dpcp_lock_teardown", test_dpcp_lock_teardown status);
   ("mpcp_lock_teardown", test_mpcp_lock_teardown status);
   ("preempt_on_resume", test_preempt_on_resume fuel stack buf status);
   ("jobs_are_rate_limited", test_jobs_are_rate_limited stack);
   ("jobs_are_rate_limited_synch", test_jobs_are_rate_limited_synch fuel stack buf status)].

(** The definition [test_ ## function] of the macro [TESTCASE]; a missing one
    does not link. *)
Definition linked (name : bytes) : M unit :=
  default fault (snd <$> find (fun t => String.eqb (fst t) (String.string_of_list_ascii name)) test_functions).
End link.

Definition files : list (list declaration) :=
  [core_api_declarations; fdso_declarations; locks_declarations; nesting_declarations; pcp_declarations;
   sched_declarations].
Definition repo_tests : list TestCase := map d_case (concat files).

(** [src] declares [ds], with texts before and after each that declare nothing. *)
Definition declares (src : bytes) (ds : list declaration) : Prop :=
  exists tds rest, map snd tds = ds /\ Forall (fun td => clean (fst td) = true) tds /\ clean rest = true /\
    src = source tds rest.

Lemma declarations_wf : Forall (Forall wf_declaration) files.
Proof.
  repeat (apply Forall_cons_iff; split); try apply Forall_nil.
  all: apply wf_declarationb_ok; vm_compute; reflexivity.
Qed.

Lemma search_declares src ds : declares src ds -> Forall wf_declaration ds -> search_file src = map d_case ds.
Proof.
  intros (tds & rest & <- & Htext & Hrest & ->) Hwf. rewrite Forall_map in Hwf.
  rewrite search_source; [by rewrite map_map| |done]. by apply Forall_and.
Qed.

Lemma search_files_declares srcs dss :
  Forall2 declares srcs dss -> Forall (Forall wf_declaration) dss ->
  search_files (map Some srcs) = Some (map d_case (concat dss)).
Proof.
  intros H. induction H as [|src ds srcs dss Hs _ IH]; intros Hwf; [done|].
  apply Forall_cons_iff in Hwf as [Hw Hwf]. cbn [map search_files concat].
  rewrite (IH Hwf), (search_declares _ _ Hs Hw), map_app. done.
Qed.

Definition names (ps : list bytes) : list string := map String.string_of_list_ascii ps.
Definition suite_size (p : string) : nat := length (suite_indices repo_tests (bytes_of p)).


(** The functions behind the names. *)
Example linked_test (K : Kernel) (H : KernelHeader) fuel stack pipefd buf status :
  linked fuel stack pipefd buf status (bytes_of "lock_fmlp_nesting") = test_lock_fmlp_nesting.
Proof. reflexivity. Qed.

(** ** Concrete runs *)

Module SuiteWitness.
Import Sim RunnerWitness.

(** The smallest sources: the declarations alone. *)
Definition bare (ds : list declaration) : bytes := source (map (pair []) ds) [].

Lemma bare_declares ds : declares (bare ds) ds.
Proof.
  exists (map (pair []) ds), []. split; [by rewrite map_map, map_id|]. split; [|done].
  apply Forall_map, List.Forall_forall. done.
Qed.

End SuiteWitness.
