(* ===== verification/EndToEnd.v ===== *)
(** * The whole test suite: tables, runner, processes, tests

    The runner ([Runner]) linked with the tables of make_catalog.py
    ([Catalog]) forks a process for every test case; the child is the same
    code on the kernel as a child sees it, where [fork] answered 0.  When the
    tests of a suite are tests of semaphores and the child's kernel implements
    their specification ([LockSpec]), the runner exits with 0. *)
From S2P Require Import Prelude Machine CString Laws Getopt Iface Syscalls Migration Litmus Runner Tests.
From S2P Require Import TestLocks TestNesting TestFdso TestPcp LockSpec LockTests Catalog Suite.

(** The parent's kernel and its children's: a fork succeeds, and the status
    of a child that exits with 0 is what the parent waits for.  [es] is the
    output in between. *)
Class Processes (KP KC : Kernel) (strsignal : Z -> string) (catalog : list testcase) : Prop := {
  proc_fork t : exists pid, @kernel KP t Fork = Succ pid /\ 0 < pid;
  proc_child t : @kernel KC t Fork = Succ 0;
  proc_wait tc w pid verbose es :
    tc ∈ catalog -> calls es = [] ->
    (exists w', @run_test KC strsignal verbose tc w = (Exit 0, w')) ->
    @kernel KP (es ++ Sys Fork (Succ pid) :: Out stdout "** Testing: %s... " [AStr (description tc)] :: tr w)
      (Waitpid pid) = Pair pid 0;
}.

(** The tests of [LockTests] that pass. *)
Definition lock_tests {K : Kernel} {H : KernelHeader} : list (M unit) :=
  acquisition_tests ++ nesting_tests ++ no_nesting_tests ++ refusal_tests ++ mode_change_tests.

Section suite.
Context {KP KC : Kernel} {H : KernelHeader} (strsignal : Z -> string) (tid cpus : Z).
Context {SC : @Schedules KC tid} {SM : @Semaphores KC tid cpus} {AC : @Accepts KC tid} {AL : @Allocates KC}
  {ON : @Online KC cpus} {IN : @Initialises KC} (Hcpus : 2 <= cpus <= 4096).
Context (m : nat) (w0 : Z) (ws : list Z) {SV : Serves KC (mapping_file "domains" 0) (mask_text m w0 ws)}.
Context (Hmask : wf_mask m w0 ws) (Hws : (length ws <= 127)%nat).
Context (catalog : list testcase) {PR : Processes KP KC strsignal catalog}.

(** What the parent does is invisible in the state of a test case. *)
Lemma run_test_passes verbose tc w :
  tc ∈ catalog -> function tc ∈ @lock_tests KC H -> st tid SCHED_NORMAL [] [] w ->
  exists w', @run_test KP strsignal verbose tc w = (Val 1, w') /\ st tid SCHED_NORMAL [] [] w'.
Proof using SC SM AC AL ON IN Hcpus SV Hmask Hws PR.
  intros Htc Hfun Hw. destruct tc as [test d]. cbn [function description] in *.
  assert (exists w', @run_test KC strsignal verbose (mk_testcase test d) w = (Exit 0, w')) as Hchild.
  { destruct (@child_exits KC H tid cpus SC SM AC AL ON Hcpus m w0 ws SV Hmask Hws IN strsignal verbose test d w)
      as (pol & w' & Hrun & _); [done|done|apply (proc_child (KP := KP) (strsignal := strsignal) (catalog := catalog))|].
    by exists w'. }
  unfold run_test, printf, SYSCALL. mrun. cbn [description].
  set (wt := push _ w). destruct (proc_fork (KP := KP) (KC := KC) (strsignal := strsignal) (catalog := catalog) (tr wt))
    as (pid & Ef & Hpid).
  rewrite Ef. cbn [ret_of]. rewrite (proj2 (Z.ltb_ge pid 0)) by lia. mrun.
  rewrite (proj2 (Z.eqb_neq pid 0)) by lia. unfold when. set (w1 := after Fork _ _).
  assert (exists w2 es, (if negb (verbose =? 0) then emit (Out stdout "[PID=%d] " [AInt pid]) else mret tt) w1
    = (Val tt, w2) /\ tr w2 = es ++ tr w1 /\ calls es = [] /\ st tid SCHED_NORMAL [] [] w2) as (w2 & es & H2 & Ht2 & Hes & Hw2).
  { assert (st tid SCHED_NORMAL [] [] w1) as Hw1 by by apply (st_same _ _ _ _ w).
    destruct (negb _); [eexists _, [_]|eexists _, []]; (split; [done|]; split; [done|]; split; [done|]); [|done].
    by apply (st_same _ _ _ _ w1). }
  rewrite (bind_val _ _ _ _ _ H2). unfold waitpid. mrun.
  assert (@kernel KP (tr w2) (Waitpid pid) = Pair pid 0) as Ewait.
  { rewrite Ht2. unfold w1. rewrite tr_after.
    exact (proc_wait (mk_testcase test d) w pid verbose es Htc Hes Hchild). }
  rewrite Ewait. mrun. rewrite (proj2 (Z.ltb_ge pid 0)) by lia. mrun. cbn [default from_option id].
  change (WIFEXITED 0 && (WEXITSTATUS 0 =? 0)) with true. cbn [Z.b2z].
  mrun. eexists. split; [done|]. apply (st_same _ _ _ _ w2); [done|..]; cbn [tr push]; rewrite tr_after; done.
Qed.

Lemma run_loop_passes verbose idx ok w :
  Forall (fun i => exists tc, 0 <= i /\ catalog !! Z.to_nat i = Some tc /\ function tc ∈ @lock_tests KC H) idx ->
  st tid SCHED_NORMAL [] [] w ->
  exists w', @run_loop KP strsignal catalog verbose idx ok w = (Val (ok + Z.of_nat (length idx)), w').
Proof using SC SM AC AL ON IN Hcpus SV Hmask Hws PR.
  intros Hidx. revert ok w. induction Hidx as [|i idx (tc & Hi & Hlook & Hfun) _ IH]; intros ok w Hw; cbn [run_loop].
  { exists w. by rewrite Z.add_0_r. }
  rewrite (proj2 (Z.leb_le 0 i)), Hlook by done.
  destruct (run_test_passes verbose tc w) as (w1 & H1 & Hw1); [by eapply list_elem_of_lookup_2|done|done|].
  rewrite (bind_val _ _ _ _ _ H1). destruct (IH (ok + 1) w1 Hw1) as (w' & Hrun). exists w'. rewrite Hrun.
  do 2 f_equal. cbn [length]. lia.
Qed.
End suite.

(** ** The exit code *)

Section exit_code.
Context {KP KC : Kernel} {H : KernelHeader} (strsignal : Z -> string) (tid cpus : Z).
Context {SC : @Schedules KC tid} {SM : @Semaphores KC tid cpus} {AC : @Accepts KC tid} {AL : @Allocates KC}
  {ON : @Online KC cpus} {IN : @Initialises KC} (Hcpus : 2 <= cpus <= 4096).
Context (m : nat) (w0 : Z) (ws : list Z) {SV : Serves KC (mapping_file "domains" 0) (mask_text m w0 ws)}.
Context (Hmask : wf_mask m w0 ws) (Hws : (length ws <= 127)%nat).

(** For test cases whose tables are made by make_catalog.py and a plugin
    one of them names: when all test cases meant for the plugin are linked to
    tests of semaphores, the runner, asked for the plugin, exits with 0; each
    of its children initialises liblitmus and runs its test on a kernel that
    implements the specification of semaphores. *)
Theorem semaphore_suite_exit_code tests ps linked tc0 p prog w :
  Processes KP KC strsignal (test_catalog linked tests) ->
  ps ≡ₚ plugin_set tests -> tc0 ∈ tests -> p ∈ plugins tc0 -> p <> ALL -> p <> LITMUS ->
  Forall (fun tc => Forall (fun q => "-"%char ∉ q) (plugins tc)) tests ->
  operand (String.string_of_list_ascii (dashes p)) ->
  (forall tc, tc ∈ tests -> meant_for p tc -> linked (tc_function tc) ∈ @lock_tests KC H) ->
  st tid SCHED_NORMAL [] [] w ->
  exists w', @main KP strsignal (test_catalog linked tests) (suites tests ps) prog
    [String.string_of_list_ascii (dashes p)] w = (Val 0, w').
Proof using SC SM AC AL ON IN Hcpus SV Hmask Hws.
  intros PR Hps Htc0 Hp HA HL Hdash Hop Hlinked Hw.
  rewrite (main_found _ _ _ _ _ _ _ Hop (suite_named _ _ _ _ Hps Htc0 Hp HA HL Hdash)). cbn [testcases].
  match goal with |- context [_ (push ?e (push ?e' w))] => set (w1 := push e (push e' w)) end.
  assert (st tid SCHED_NORMAL [] [] w1) as Hw1 by by apply (st_same _ _ _ _ w).
  destruct (run_loop_passes strsignal tid cpus Hcpus m w0 ws Hmask Hws (test_catalog linked tests) 0
    (suite_indices tests p) 0 w1) as (w' & Hrun); [|done|].
  { rewrite List.Forall_forall. intros i Hi. destruct (suite_index _ _ _ Hi) as (tc & Hi0 & Hlook & Hap).
    exists (mk_testcase (linked (tc_function tc)) (String.string_of_list_ascii (desc tc))).
    split; [done|]. split.
    - unfold test_catalog. change (map ?f tests !! Z.to_nat i) with ((f <$> tests) !! Z.to_nat i).
      by rewrite list_lookup_fmap, Hlook.
    - apply Hlinked; [by eapply list_elem_of_lookup_2|]. rewrite applies_meant in Hap. by apply bool_decide_eq_true in Hap. }
  rewrite (bind_val _ _ _ _ _ Hrun). unfold printf. mrun. rewrite Z.add_0_l, Z.eqb_refl. by eexists.
Qed.
End exit_code.

(** ** The tests of nesting.c *)

Module EndToEndWitness.
Import Sim LockKernel LockTestsWitness.
#[local] Existing Instances k4 sim_header.

(** A parent whose children run on the kernel [k4]. *)
Definition k_parent : Kernel := fun _ c =>
  match c with Fork => Succ 2000 | Waitpid p => Pair p 0 | _ => Succ 0 end.

Lemma parent_processes catalog : Processes k_parent k4 (fun _ => ""%string) catalog.
Proof. split; [intros; by exists 2000|done|done]. Qed.

Definition nesting_cases : list TestCase := map d_case nesting_declarations.
Definition the_link (name : bytes) : M unit := @linked k4 sim_header 0 (0, 0) (0, 0) [] 0 name.

Lemma nesting_linked :
  map (fun tc => the_link (tc_function tc)) nesting_cases =
  [test_lock_fmlp_nesting; test_lock_fmlp_srp_nesting; test_lock_srp_nesting; test_lock_pcp_nesting;
   test_lock_mpcp_pcp_no_nesting; test_lock_fmlp_pcp_no_nesting; test_lock_dpcp_pcp_no_nesting;
   test_lock_mpcp_srp_no_nesting; test_lock_dpcp_srp_no_nesting; test_lock_fmlp_mpcp_no_nesting;
   test_lock_fmlp_dpcp_no_nesting; test_mpcp_nesting; test_mpcpvs_nesting; test_dpcp_nesting;
   test_dflp_nesting; test_lock_fmlp_dflp_no_nesting; test_lock_dflp_pcp_no_nesting].
Proof. reflexivity. Qed.

Lemma nesting_are_lock_tests tc : tc ∈ nesting_cases -> the_link (tc_function tc) ∈ @lock_tests k4 sim_header.
Proof.
  intros Hin. assert (the_link (tc_function tc) ∈ map (fun tc => the_link (tc_function tc)) nesting_cases) as H.
  { apply list_elem_of_fmap. by exists tc. }
  rewrite nesting_linked in H. unfold lock_tests. rewrite !elem_of_app.
  unfold nesting_tests, no_nesting_tests. rewrite !elem_of_cons in *. clear Hin. tauto.
Qed.

Lemma semaphore_suite_exit_code_witness :
  exists w', @main k_parent (fun _ => ""%string) (test_catalog the_link nesting_cases)
    (suites nesting_cases (plugin_set nesting_cases)) "runtests" ["P-FP"] w0 = (Val 0, w').
Proof.
  apply (@semaphore_suite_exit_code k_parent k4 sim_header (fun _ => ""%string) 1000 4 _ _ _ _ _ _ ltac:(lia) 1 15 []
    k4_domain wf_k4 ltac:(cbn; lia) nesting_cases (plugin_set nesting_cases) the_link
    (d_case (declared "lock_fmlp_nesting" ["PSN_EDF"; "GSN_EDF"; "P_FP"] "FMLP no nesting allowed"))
    (bytes_of "P_FP") "runtests" w0); try done.
  - apply parent_processes.
  - by left.
  - by right; right; left.
  - apply (bool_decide_unpack _). by vm_compute.
  - intros tc Htc _. by apply nesting_are_lock_tests.
  - exact fresh_process.
Defined.
End EndToEndWitness.
