(* ===== verification/Causality.v ===== *)
(** * The library and its test cases are causal

    Every function the test runner and the test cases are made of depends on
    the kernel only through the answers it gives ([Causal]), so their processes
    can be run interleaved ([System]). *)
From S2P Require Import Prelude Machine Causal CString Laws Iface Syscalls Migration Litmus Clocks Getopt.
From S2P Require Import Runner Tests TestLocks TestNesting TestFdso TestCoreApi TestPcp TestSched Suite.

(** The functions without loops are unfolded where they are used. *)
#[export] Hint Unfold
  (* kernel_iface.c *) read map_file get_nr_ts_release_waiters deref load_flag store_flag load_preempt
    ensure_ctrl_page enter_np exit_np requested_to_preempt get_ctrl_page
  (* syscalls.c *) syscall_int gettid set_rt_task_param get_rt_task_param sleep_next_period od_openx od_close
    litmus_lock litmus_unlock get_job_no wait_for_job_release sched_setscheduler sched_getscheduler
    wait_for_ts_release release_ts null_call
  (* migration.c *) CPU_ALLOC CPU_ZERO_S CPU_FREE num_online_cpus release_master be_migrate_to_cpu
    be_migrate_to_domain
  (* litmus.c *) check od_open open_fmlp_sem open_srp_sem open_pcp_sem open_mpcp_sem open_dpcp_sem open_dflp_sem
    litmus_open_lock init_rt_thread
  (* clocks.c *) cputime wctime lt_sleep getopt_message
  (* tests *) fail ASSERT SYSCALL SYSCALL_FAILS FORK_TASK waitpid open_file close remove kill write_int pipe read_int set_own_param
    set_own_param_at wait_for make_pipe job_no_ret load_int store_int become_rt start_rt lock_unlock nested_busy
    nested_ok close_remove : litmus_causal.

Ltac causal_tac := cbv beta; autounfold with litmus_causal; follows_tac.

(** A function under two kernels. *)
Abbreviation both K K' m := (follows K K' (m K) (m K')).

Section library.
Context {H : KernelHeader} {K K' : Kernel}.

Lemma follows_read_loop fuel fd maxlen got n buf :
  both K K' (fun K => @read_loop K fuel fd maxlen got n buf).
Proof.
  revert got n buf. induction fuel as [|fuel IH]; intros; cbn [read_loop]; causal_tac.
Qed.

#[local] Hint Resolve follows_read_loop : litmus_follows.

Lemma follows_read_file fname maxlen : both K K' (fun K => @read_file K fname maxlen).
Proof. unfold read_file. causal_tac. Qed.

#[local] Hint Resolve follows_read_file : litmus_follows.

Lemma follows_read_litmus_stats stack ready all : both K K' (fun K => @read_litmus_stats K stack ready all).
Proof. unfold read_litmus_stats. causal_tac. Qed.

Lemma follows_read_mapping idx which : both K K' (fun K => @read_mapping K idx which).
Proof. unfold read_mapping. causal_tac. Qed.

#[local] Hint Resolve follows_read_litmus_stats follows_read_mapping : litmus_follows.

Lemma follows_domain_to_first_cpu domain : both K K' (fun K => @domain_to_first_cpu K domain).
Proof. unfold domain_to_first_cpu. causal_tac. Qed.

Lemma follows_be_migrate_thread_to_cpu tid cpu : both K K' (fun K => @be_migrate_thread_to_cpu K tid cpu).
Proof. unfold be_migrate_thread_to_cpu. causal_tac. Qed.

Lemma follows_be_migrate_thread_to_domain tid dom : both K K' (fun K => @be_migrate_thread_to_domain K tid dom).
Proof. unfold be_migrate_thread_to_domain. causal_tac. Qed.

#[local] Hint Resolve follows_domain_to_first_cpu follows_be_migrate_thread_to_cpu
  follows_be_migrate_thread_to_domain : litmus_follows.

Lemma follows_sporadic_global e p : both K K' (fun K => @sporadic_global K H e p).
Proof. unfold sporadic_global. causal_tac. Qed.

Lemma follows_sporadic_partitioned e p partition : both K K' (fun K => @sporadic_partitioned K H e p partition).
Proof. unfold sporadic_partitioned. causal_tac. Qed.

Lemma follows_init_kernel_iface : both K K' (fun K => @init_kernel_iface K).
Proof. unfold init_kernel_iface. causal_tac. Qed.

#[local] Hint Resolve follows_init_kernel_iface : litmus_follows.

Lemma follows_init_litmus : both K K' (fun K => @init_litmus K).
Proof. unfold init_litmus. causal_tac. Qed.

Lemma follows_task_mode mode : both K K' (fun K => @task_mode K mode).
Proof. unfold task_mode. causal_tac. Qed.
End library.

#[export] Hint Resolve follows_read_file follows_read_litmus_stats follows_domain_to_first_cpu
  follows_be_migrate_thread_to_cpu follows_be_migrate_thread_to_domain follows_sporadic_global
  follows_sporadic_partitioned follows_init_kernel_iface follows_init_litmus follows_task_mode : litmus_follows.

(** ** The test cases *)

#[export] Hint Unfold
  (* TestCoreApi *)
    test_set_rt_task_param_invalid_pointer test_set_rt_task_param_invalid_params test_reject_bad_priorities
    test_accept_valid_priorities test_job_control_non_rt test_rt_fork_non_rt test_ctrl_page_writable
    test_suspended_admission test_running_admission
  (* TestFdso *)
    test_fmlp_not_active test_invalid_od test_invalid_obj_type test_not_inherit_od
  (* TestLocks *)
    test_not_lock_fmlp_be test_not_lock_srp_be test_lock_srp test_lock_fmlp test_lock_dflp test_dflp_bad_cpu
    test_srp_lock_mode_change test_dflp_lock_mode_change test_fmlp_lock_mode_change test_srp_lock_teardown
    test_fmlp_lock_teardown test_dflp_lock_teardown
  (* TestNesting *)
    test_lock_fmlp_nesting test_lock_fmlp_srp_nesting test_lock_srp_nesting test_lock_pcp_nesting
    test_lock_mpcp_pcp_no_nesting test_lock_fmlp_pcp_no_nesting test_lock_dpcp_pcp_no_nesting
    test_lock_mpcp_srp_no_nesting test_lock_dpcp_srp_no_nesting test_lock_fmlp_mpcp_no_nesting
    test_lock_fmlp_dpcp_no_nesting test_mpcp_nesting test_mpcpvs_nesting test_dpcp_nesting test_dflp_nesting
    test_lock_fmlp_dflp_no_nesting test_lock_dflp_pcp_no_nesting
  (* TestPcp *)
    test_lock_pcp test_pcp_bad_cpu test_pcp_inheritance test_srp_ceiling_blocking test_lock_dpcp
    test_dpcp_bad_cpu test_lock_dpcp_pcp test_not_lock_pcp_be test_lock_mpcp test_pcp_lock_mode_change
    test_mpcp_lock_mode_change test_dpcp_lock_mode_change test_pcp_lock_teardown test_dpcp_lock_teardown
    test_mpcp_lock_teardown
  (* TestSched *)
    test_preempt_on_resume test_jobs_are_rate_limited test_jobs_are_rate_limited_synch : litmus_tests.

Section tests.
Context {H : KernelHeader} {K K' : Kernel}.

Lemma follows_busy_loop fuel stack start limit : both K K' (fun K => @busy_loop K fuel stack start limit).
Proof. induction fuel as [|fuel IH]; cbn [busy_loop]; causal_tac. Qed.

Lemma follows_wait_waiters fuel buf n file line func :
  both K K' (fun K => @wait_waiters K fuel buf n file line func).
Proof. induction fuel as [|fuel IH]; cbn [wait_waiters]; causal_tac. Qed.

Lemma follows_sched_loop fuel child scheduler file line func :
  both K K' (fun K => @sched_loop K fuel child scheduler file line func).
Proof. revert scheduler. induction fuel as [|fuel IH]; intros; cbn [sched_loop]; causal_tac. Qed.

Lemma follows_sleep_periods n file line func : both K K' (fun K => @sleep_periods K n file line func).
Proof. induction n as [|n IH]; cbn [sleep_periods]; causal_tac. Qed.

#[local] Hint Resolve follows_busy_loop follows_wait_waiters follows_sched_loop follows_sleep_periods : litmus_follows.

Context (fuel : nat) (stack pipefd : Z * Z) (buf : bytes) (status : Z).

Definition same_test (t t' : string * M unit) : Prop := fst t = fst t' /\ follows K K' (snd t) (snd t').

Lemma test_functions_causal :
  Forall2 same_test (@test_functions K H fuel stack pipefd buf status) (@test_functions K' H fuel stack pipefd buf status).
Proof.
  unfold test_functions.
  repeat first [apply List.Forall2_nil | apply List.Forall2_cons; [split; [reflexivity|cbn [snd]]|]].
  all: autounfold with litmus_tests; causal_tac.
Qed.

Lemma follows_linked name : both K K' (fun K => @linked K H fuel stack pipefd buf status name).
Proof.
  unfold linked. induction test_functions_causal as [|t t' l l' [Ht Hf] _ IH]; cbn [find].
  - by apply follows_pure.
  - rewrite <- Ht. by destruct (String.eqb _ _).
Qed.
End tests.

(** ** The runner *)

Section runner.
Context {K K' : Kernel} (strsignal : Z -> string) (tests : list ((Kernel -> M unit) * string)).
Context (suites : list testsuite).
Hypothesis tests_causal : Forall (fun t => causal (fst t)) tests.

(** The catalogue of test cases as processes under the kernel [K] see it. *)
Definition catalog_on (K : Kernel) : list testcase := map (fun t => mk_testcase (fst t K) (snd t)) tests.

Lemma follows_run_test verbose f d : causal f ->
  both K K' (fun K => @run_test K strsignal verbose (mk_testcase (f K) d)).
Proof using. intros Hf. unfold run_test. cbn [function description]. specialize (Hf K K'). causal_tac. Qed.

Lemma follows_run_loop verbose idx ok : both K K' (fun K => @run_loop K strsignal (catalog_on K) verbose idx ok).
Proof using tests_causal.
  revert ok. induction idx as [|i idx IH]; intros ok; cbn [run_loop]; [by apply follows_pure|].
  unfold catalog_on. destruct (0 <=? i); [|by apply follows_pure]. change (map ?f tests) with (f <$> tests).
  rewrite !list_lookup_fmap. destruct (tests !! Z.to_nat i) as [[f d]|] eqn:E; [|by apply follows_pure].
  cbn [fmap option_fmap option_map fst snd]. apply follows_bind; [|intros r; apply IH].
  apply follows_run_test. rewrite Forall_lookup in tests_causal. exact (tests_causal _ _ E).
Qed.

Lemma follows_usage {A} error : both K K' (fun K => @usage suites A error).
Proof using.
  unfold usage. causal_tac. induction suites as [|t l IH]; [by apply follows_pure|]. cbv beta iota. causal_tac.
Qed.

Lemma follows_getopt_loop {A} prog (body body' : ascii -> string -> A -> M A) items vars :
  (forall c s a, follows K K' (body c s a) (body' c s a)) ->
  follows K K' (getopt_loop prog body items vars) (getopt_loop prog body' items vars).
Proof using.
  intros Hb. revert vars. induction items as [|it items IH]; intros vars; cbn [getopt_loop]; [by apply follows_pure|].
  apply follows_bind; [by destruct it; causal_tac|intros _]. apply follows_bind; [by destruct it|done].
Qed.

Lemma follows_main prog args : both K K' (fun K => @main K strsignal (catalog_on K) suites prog args).
Proof using tests_causal.
  unfold main. destruct (getopt_all _ _) as [items argv]. apply follows_bind.
  { apply follows_getopt_loop. intros c s a. unfold option_switch. repeat case_match; auto using follows_usage; by apply follows_pure. }
  intros verbose. apply follows_bind; [causal_tac|intros _]. apply follows_bind.
  { unfold get_active_plugin. causal_tac. }
  intros [plugin|]; [|apply follows_usage]. destruct (find _ _) as [s|].
  - apply follows_bind; [unfold run_tests; apply follows_bind; [causal_tac|intros; apply follows_run_loop]|].
    intros ok. causal_tac.
  - apply follows_bind; [causal_tac|intros _; apply follows_usage].
Qed.
End runner.

(** The runner with its test cases, under a kernel. *)
Definition runner_on (strsignal : Z -> string) (tests : list ((Kernel -> M unit) * string)) (suites : list testsuite)
    (prog : string) (args : list string) (K : Kernel) : M Z :=
  @main K strsignal (catalog_on tests K) suites prog args.
