(* ===== verification/RunnerSystem.v ===== *)
(** * The test runner and the processes of its test cases

    [Runner] seen as a system of processes ([System]): the runner forks a
    process for every test case and waits for it, the test cases may fork
    processes of their own, and all of them run interleaved on any kernel.
    What the runner reports is what happened ([runner_verdict]). *)
From stdpp Require Import gmap relations.
From S2P Require Import Prelude Machine Causal CString Laws Iface Syscalls Migration Litmus Getopt.
From S2P Require Import Runner Tests TestFdso Suite Causality System.

Lemma follows_grows {K : Kernel} {A} (m : M A) w o w' :
  follows K K m m -> m w = (o, w') -> tr w `suffix_of` tr w'.
Proof. intros Hm Hw. destruct (Hm w) as [H _]. by rewrite Hw in H. Qed.

(** ** The runner's own process *)

Section parent.
Context {K : Kernel} (strsignal : Z -> string).

(** The answers to requests about processes, as the runner sees them. *)
Definition orderly (t0 T : trace) : Prop := forall r u, t0 `suffix_of` u ->
  (Sys Fork r :: u `suffix_of` T -> (exists child, r = Succ child /\ 0 < child) \/ exists err, r = Fail err) /\
  (forall pid, 0 < pid -> Sys (Waitpid pid) r :: u `suffix_of` T ->
     (exists err, r = Fail err) \/ exists st, r = Pair pid st).

Lemma orderly_l t0 T T' : T `suffix_of` T' -> orderly t0 T' -> orderly t0 T.
Proof using.
  intros HT H r u Hu. destruct (H r u Hu) as [H1 H2].
  split; [intros ?; apply H1; by etrans|intros pid Hpos ?; apply H2; [done|by etrans]].
Qed.

Definition announced (d : string) (u : trace) : trace := Out stdout "** Testing: %s... " [AStr d] :: u.

Lemma orderly_r t0 t1 T : t0 `suffix_of` t1 -> orderly t0 T -> orderly t1 T.
Proof using. intros H01 H r u Hu. apply H. by etrans. Qed.

(** A child was forked for the test [d], and waited for: its status is [st]. *)
Definition judged (t0 T : trace) (d : string) (pid st : Z) : Prop := exists u u2,
  0 < pid /\ t0 `suffix_of` u /\ t0 `suffix_of` u2 /\ Sys Fork (Succ pid) :: announced d u `suffix_of` T /\
  Sys (Waitpid pid) (Pair pid st) :: u2 `suffix_of` T.

Lemma judged_later t0 T T' d pid st : T `suffix_of` T' -> judged t0 T d pid st -> judged t0 T' d pid st.
Proof using. intros HT (u & u2 & ? & ? & ? & ? & ?). exists u, u2. split_and!; [done..|by etrans|by etrans]. Qed.

Lemma run_test_parent t0 verbose (f : Kernel -> M unit) d w o w' :
  causal f -> run_test strsignal verbose (mk_testcase (f K) d) w = (o, w') ->
  t0 `suffix_of` tr w -> orderly t0 (tr w') ->
  o = Exit 200 \/ exists pid st, o = Val (Z.b2z (passed st)) /\ judged t0 (tr w') d pid st.
Proof using.
  intros Hf. unfold run_test, SYSCALL, printf. cbn [description function]. mrun.
  set (w1 := push _ w). set (r := kernel (tr w1) Fork). intros Hrun H0 Ho.
  destruct (ret_of r <? 0) eqn:Hneg.
  { unfold fail, eprintf in Hrun. revert Hrun. mrun. intros [= <- <-]. by left. }
  revert Hrun. mrun. set (w2 := after Fork r w1). intros Hrun.
  assert (tr w2 `suffix_of` tr w') as Hw2.
  { eapply follows_grows, Hrun. specialize (Hf K K). destruct (ret_of r =? 0); causal_tac. }
  unfold w2 in Hw2. rewrite tr_after in Hw2.
  destruct (proj1 (Ho r (tr w1) ltac:(by apply suffix_cons_r)) Hw2) as [(pid & Hr & Hpid)|(err & Hr)];
    rewrite Hr in *; [|done]. cbn [ret_of] in *. rewrite (proj2 (Z.eqb_neq pid 0)) in Hrun by lia.
  assert (exists w3, when (negb (verbose =? 0)) (emit (Out stdout "[PID=%d] " [AInt pid])) w2 = (Val tt, w3) /\
    tr w2 `suffix_of` tr w3) as (w3 & H3 & Hw3) by (destruct (negb _); [eexists; split; [done|by apply suffix_cons_r]|by exists w2]).
  rewrite (bind_val _ _ _ _ _ H3) in Hrun. unfold waitpid in Hrun. revert Hrun. mrun.
  set (r2 := kernel (tr w3) (Waitpid pid)). set (w4 := after _ r2 w3). intros Hrun.
  assert (tr w4 `suffix_of` tr w') as Hw4 by (eapply follows_grows, Hrun; destruct r2; causal_tac).
  unfold w4 in Hw4. rewrite tr_after in Hw4.
  assert (t0 `suffix_of` tr w3) as H03.
  { etrans; [|exact Hw3]. unfold w2. rewrite tr_after. by apply suffix_cons_r, suffix_cons_r. }
  destruct (proj2 (Ho r2 (tr w3) H03) pid Hpid Hw4) as [(err & Hr2)|(st & Hr2)]; rewrite Hr2 in *.
  - revert Hrun. cbn [ret_of Z.ltb Z.compare]. unfold fail, eprintf. mrun. intros [= <- <-]. by left.
  - right. exists pid, st. split.
    + revert Hrun. mrun. rewrite (proj2 (Z.ltb_ge pid 0)) by lia. mrun. cbn [default from_option id]. fold (passed st).
      destruct (passed st); [|destruct (WIFSIGNALED st)]; unfold when; mrun; by intros [= <- _].
    + exists (tr w), (tr w3). by split_and!.
Qed.

Lemma judged_earlier t0 t1 T d pid st : t0 `suffix_of` t1 -> judged t1 T d pid st -> judged t0 T d pid st.
Proof using. intros HT (u & u2 & ? & ? & ? & ? & ?). exists u, u2. split_and!; [done|by etrans..|done|done]. Qed.

(** No process id is given to two children. *)
Definition forks_once (t0 T : trace) : Prop := forall child u u', 0 < child -> t0 `suffix_of` u -> t0 `suffix_of` u' ->
  Sys Fork (Succ child) :: u `suffix_of` T -> Sys Fork (Succ child) :: u' `suffix_of` T -> u = u'.

(** The loop, for the test cases that remain: it stopped early, or every test
    case was judged by a child of its own, and the sum counts the children that
    exited with 0. *)
Lemma run_loop_parent t0 verbose (tests : list ((Kernel -> M unit) * string)) idx ok w o w' :
  Forall (fun t => causal (fst t)) tests ->
  run_loop strsignal (catalog_on tests K) verbose idx ok w = (o, w') -> t0 `suffix_of` tr w ->
  orderly t0 (tr w') -> forks_once t0 (tr w') ->
  o = Exit 200 \/ o = Fault \/ exists sts, o = Val (ok + count_passed (map snd sts)) /\ NoDup (map fst sts) /\
    Forall2 (fun i pst => exists t, 0 <= i /\ tests !! Z.to_nat i = Some t /\
      judged (tr w) (tr w') (snd t) (fst pst) (snd pst)) idx sts.
Proof using.
  intros Hc. revert t0 ok w. induction idx as [|i idx IH]; intros t0 ok w Hrun H0 Ho H1f; cbn [run_loop] in Hrun.
  { injection Hrun as <- <-. right; right. exists []. split_and!; [by rewrite Z.add_0_r|apply NoDup_nil_2|done]. }
  destruct (0 <=? i) eqn:Hi; [|injection Hrun as <- <-; by right; left]. apply Z.leb_le in Hi.
  unfold catalog_on in Hrun at 1. change (map ?f tests) with (f <$> tests) in Hrun. rewrite list_lookup_fmap in Hrun.
  destruct (tests !! Z.to_nat i) as [[f d]|] eqn:Et; [|injection Hrun as <- <-; by right; left].
  cbn [fmap option_fmap option_map fst snd] in Hrun.
  assert (causal f) as Hf by (rewrite Forall_lookup in Hc; exact (Hc _ _ Et)).
  pose proof (orderly_r _ _ _ H0 Ho) as Ho0.
  apply bind_inv in Hrun as [(r & w1 & H1 & Hrun)|(o1 & H1 & Hno & ->)].
  - assert (tr w1 `suffix_of` tr w') as Hw1 by (eapply follows_grows, Hrun; by apply follows_run_loop).
    assert (tr w `suffix_of` tr w1) as Hw01 by (eapply follows_grows, H1; by apply follows_run_test).
    destruct (run_test_parent (tr w) verbose f d w _ w1 Hf H1 ltac:(done) (orderly_l _ _ _ Hw1 Ho0))
      as [[=]|(pid & st & [= ->] & Hj)].
    destruct (IH t0 _ _ Hrun ltac:(by etrans) Ho H1f) as [->|[->|(sts & -> & Hnd & Hsts)]]; [by left|by right; left|].
    right; right. exists ((pid, st) :: sts). split_and!.
    + f_equal. unfold count_passed. cbn [map List.filter snd]. destruct (passed st); cbn [length Z.b2z]; lia.
    + cbn [map fst]. apply NoDup_cons_2; [|done]. intros Hin. apply list_elem_of_fmap in Hin as ([pid' st'] & -> & Hin).
      apply list_elem_of_lookup in Hin as [k Hk]. destruct (Forall2_lookup_r _ _ _ _ _ Hsts Hk) as (i' & _ & t & _ & _ & Hj').
      destruct Hj as (u & u2 & Hpos & Hu & _ & HF & _), Hj' as (u' & u2' & _ & Hu' & _ & HF' & _). cbn [fst] in *.
      assert (announced d u = announced (snd t) u') as E.
      { eapply (H1f pid'); [done| | |by etrans|done].
        - apply suffix_cons_r. by etrans.
        - apply suffix_cons_r. etrans; [exact H0|]. etrans; [exact Hw01|exact Hu']. }
      injection E as _ ->. apply suffix_length in HF, Hu'. cbn in HF. lia.
    + apply List.Forall2_cons.
      * exists (f, d). split_and!; [done..|]. by eapply judged_later.
      * eapply List.Forall2_impl; [|exact Hsts]. intros i' pst (t & ? & ? & Hj'). exists t. split_and!; [done..|].
        by eapply judged_earlier.
  - destruct (run_test_parent (tr w) verbose f d w _ w' Hf H1 ltac:(done) Ho0) as [->|(pid & st & -> & _)]; [by left|].
    by destruct (Hno _ eq_refl).
Qed.
End parent.

(** ** The system *)

Section system.
Context (strsignal : Z -> string) (tests : list ((Kernel -> M unit) * string)) (suites : list testsuite).
Hypothesis tests_causal : Forall (fun t => causal (fst t)) tests.
Context (prog : string) (args : list string) (w0 : world).
Context {Sh : Type} (serve : Sh -> Z -> trace -> call -> option (reply * Sh)) (deadly refused : Z -> Prop).

Definition runner : Kernel -> M Z := runner_on strsignal tests suites prog args.

Lemma runner_is_causal : causal runner.
Proof using tests_causal. intros K K'. by apply follows_main. Qed.

Lemma root_orderly root s q :
  0 < root -> reachable runner w0 serve deadly refused root s -> procs s !! root = Some q -> parent q = 0 ->
  orderly (tr w0) (hist q).
Proof using tests_causal.
  intros Hroot Hs Hq Hpar r u Hu.
  pose proof (reachable_sound runner w0 serve deadly refused root s runner_is_causal Hroot Hs root q Hq) as A.
  split.
  - intros HF. destruct (sound_told _ _ _ _ _ _ _ A _ _ HF Hu) as [->|[(err & -> & _)|(child & c & -> & ? & _)]];
      [|right; by exists err|left; by exists child]. by destruct (sound_child _ _ _ _ _ _ _ A _ HF Hu).
  - intros pid Hpos HW. destruct (sound_told _ _ _ _ _ _ _ A _ _ HW Hu Hpos) as [->|(c & st & -> & _)];
      [left; by eexists|right; by exists st].
Qed.

(** A status the runner leaves: it passed all, some failed, or it stopped. *)
Definition verdict (sts : list Z) : Z := if forallb (Z.eqb 0) sts then 0 else 768.

Lemma status_passed o st : exit_status o = Some st -> passed st = (0 =? st).
Proof using.
  assert (forall v, passed (Z.shiftl (Z.land v 255) 8) = (0 =? Z.shiftl (Z.land v 255) 8)) as H.
  { intros v. assert (forallb (fun b => Bool.eqb (passed (Z.shiftl b 8)) (0 =? Z.shiftl b 8)) (seqZ 0 256) = true) as Hall
      by by vm_compute.
    rewrite forallb_forall in Hall. apply Bool.eqb_prop, Hall, list_elem_of_In, elem_of_seqZ.
    change 255 with (Z.ones 8). rewrite Z.land_ones by lia. pose proof (Z.mod_pos_bound v (2 ^ 8) ltac:(lia)).
    lia. }
  destruct o; cbn; [intros [= <-]; apply H|intros [= <-]; apply H|by intros [= <-]|done|done].
Qed.

Lemma signal_failed sig : 0 < sig < 127 -> passed sig = (0 =? sig).
Proof using.
  intros Hs. assert (forallb (fun b => Bool.eqb (passed b) (0 =? b)) (seqZ 1 126) = true) as Hall by by vm_compute.
  rewrite forallb_forall in Hall. apply Bool.eqb_prop, Hall, list_elem_of_In, elem_of_seqZ. lia.
Qed.

(** The process [c] ran the test announced as [d]: it was forked right after
    the announcement and left the status [st], 0 only if its own run ended with
    the exit status 0. *)
Definition ran_test (s : system (Sh := Sh)) (d : string) (pid st : Z) : Prop := exists u c,
  procs s !! pid = Some c /\ state c = Reaped st /\ Sys Fork (Succ 0) :: announced d u `suffix_of` hist c /\
  (st = 0 -> forall K, answers K (tr w0) (hist c) ->
     exists o w, runner K w0 = (o, w) /\ tr w = hist c /\ exit_status o = Some 0).

Lemma judged_ran root s q d pid st :
  0 < root -> reachable runner w0 serve deadly refused root s -> procs s !! root = Some q ->
  judged (tr w0) (hist q) d pid st -> ran_test s d pid st /\ passed st = (0 =? st).
Proof using tests_causal.
  intros Hroot Hs Hq (u & u2 & Hpos & Hu & Hu2 & HF & HW).
  pose proof (reachable_sound runner w0 serve deadly refused root s runner_is_causal Hroot Hs) as A.
  destruct (sound_told _ _ _ _ _ _ _ (A _ _ Hq) _ _ HF ltac:(by apply suffix_cons_r))
    as [[= ->]|[(? & [=] & _)|(? & c & [= <-] & _ & Hc & Hin)]]; [lia|].
  destruct (waitpid_reports runner w0 serve deadly refused root s root q pid pid st u2 runner_is_causal Hroot Hs Hq Hpos HW Hu2)
    as (_ & c' & Hc' & Hst & Hend). assert (c' = c) as -> by congruence. split.
  - exists u, c. split_and!; [done..|]. intros ->. by destruct Hend as [[_ ?]|?]; [lia|].
  - destruct Hend as [[_ ?]|Hrun]; [by apply signal_failed|].
    destruct (Hrun (replay (hist c) silent) (replay_answers _ _ _)) as (o & w & _ & _ & Ho). by eapply status_passed.
Qed.

(** C6: the runner's exit status is the truth about its test processes, in
    every interleaving of all of them and on any kernel, also one that kills
    processes: when it is 0, each test case of the suite was run by a process of
    its own whose run ended with status 0; when it is 3, each was run, and one
    ended otherwise. *)
Theorem runner_verdict root s q name su st :
  args = [name] -> operand name -> find (fun s => strcmp_eq (plugin s) name) suites = Some su ->
  0 < root -> reachable runner w0 serve deadly refused root s -> procs s !! root = Some q ->
  status_of (state q) = Some st -> st = 0 \/ st = 768 ->
  exists sts : list (Z * Z), NoDup (map fst sts) /\ st = verdict (map snd sts) /\
    Forall2 (fun i pst => exists t, tests !! Z.to_nat i = Some t /\ ran_test s (snd t) (fst pst) (snd pst))
      (testcases su) sts.
Proof using tests_causal.
  intros Hargs Hname Hfind Hroot Hs Hq Hst Hcode.
  pose proof (reachable_sound runner w0 serve deadly refused root s runner_is_causal Hroot Hs) as A.
  pose proof (A _ _ Hq) as Aq. destruct (sound_status _ _ _ _ _ _ _ Aq st Hst) as [(o & Hn & Ho)|[_ ?]]; [|lia].
  destruct (history_end runner runner_is_causal w0 (hist q) o (sound_history _ _ _ _ _ _ _ Aq) Hn
    (replay (hist q) silent) (replay_answers _ _ _)) as (w & Hrun & Htr).
  destruct (reachable_root _ _ _ _ _ _ _ Hs) as (q' & Hq' & Hpar). assert (q' = q) as -> by congruence.
  pose proof (root_orderly root s q Hroot Hs Hq Hpar) as Hord.
  assert (forks_once (tr w0) (hist q)) as Honce by (intros child u u' ?????; by eapply fork_once).
  set (K := replay (hist q) silent) in *. unfold runner, runner_on in Hrun. rewrite Hargs in Hrun.
  rewrite (main_found strsignal (catalog_on tests K) suites prog name su w0 Hname Hfind) in Hrun.
  cbv zeta in Hrun. set (w1 := push _ (push _ w0)) in Hrun.
  assert (tr w0 `suffix_of` tr w1) as H01 by by apply suffix_cons_r, suffix_cons_r.
  apply bind_inv in Hrun as [(ok & w2 & Hloop & Hrun)|(o1 & Hloop & Hno & ->)].
  - unfold printf in Hrun. revert Hrun. mrun. intros [= <- <-]. cbn [tr push] in Htr.
    assert (tr w2 `suffix_of` hist q) as Hw2 by (rewrite <- Htr; by apply suffix_cons_r).
    destruct (run_loop_parent strsignal (tr w0) 0 tests _ _ _ _ _ tests_causal Hloop H01 (orderly_l _ _ _ Hw2 Hord))
      as [[=]|[[=]|(sts & [= ->] & Hnd & Hsts)]].
    { intros child u u' ?????. eapply Honce; [done..|by etrans|by etrans]. }
    assert (Forall2 (fun i pst => exists t, tests !! Z.to_nat i = Some t /\ ran_test s (snd t) (fst pst) (snd pst) /\
      passed (snd pst) = (0 =? snd pst)) (testcases su) sts) as Hran.
    { eapply List.Forall2_impl; [|exact Hsts]. intros i pst (t & _ & Ht & Hj). exists t. split; [done|].
      eapply (judged_ran root s q); [done..|]. eapply judged_earlier; [exact H01|]. by eapply judged_later. }
    exists sts. split; [done|]. split; [|eapply List.Forall2_impl; [|exact Hran]; intros ?? (t & ? & ? & _); by exists t].
    assert (length (testcases su) = length (map snd sts)) as Hlen by (rewrite length_map; by eapply List.Forall2_length).
    assert (forallb passed (map snd sts) = forallb (Z.eqb 0) (map snd sts)) as Hsame.
    { clear - Hran. induction Hran as [|i [pid st'] idx sts (t & _ & _ & Hp) _ IH]; [done|]. cbn in *. by rewrite Hp, IH. }
    rewrite Hlen, Z.add_0_l in Ho. unfold verdict. rewrite <- Hsame.
    destruct (Z.eqb_spec (count_passed (map snd sts)) (Z.of_nat (length (map snd sts)))) as [E|E];
      cbn in Ho; injection Ho as <-.
    + apply count_passed_all in E. by rewrite E.
    + destruct (forallb passed (map snd sts)) eqn:F; [|done]. by apply count_passed_all in F.
  - rewrite <- Htr in Hord, Honce.
    destruct (run_loop_parent strsignal (tr w0) 0 tests _ _ _ _ _ tests_causal Hloop H01 Hord Honce) as [->|[->|(sts & -> & _)]].
    + cbn in Ho. injection Ho as <-. by destruct Hcode.
    + done.
    + by destruct (Hno _ eq_refl).
Qed.
End system.

Module RunnerSystemWitness.
Import Sim.

(** Every process gets the same answers: no semaphores, a page of 4096 bytes. *)
Definition serve (sh : unit) (p : Z) (h : trace) (c : call) : option (reply * unit) :=
  Some (match c with
    | Getpid | NR_gettid => Succ p
    | Sysconf _ => Succ 4096
    | NR_od_open _ _ _ _ | NR_od_close _ | NR_litmus_lock _ | NR_litmus_unlock _ => Fail 22
    | _ => Succ 0
    end, tt).

Definition test_on (name : string) (K : Kernel) : M unit :=
  @linked K sim_header 0 (0, 0) (0, 0) [] 0 (bytes_of name).
Definition tests : list ((Kernel -> M unit) * string) :=
  map (fun n => (test_on n, n)) ["invalid_od"; "lock_srp"; "invalid_obj_type"].
Definition suites : list testsuite := [mk_testsuite "GSN-EDF" [0; 1; 2]].

Lemma tests_causal : Forall (fun t => causal (fst t)) tests.
Proof.
  apply Forall_map, Forall_true. intros n K K'. cbn [fst]. unfold test_on.
  exact (follows_linked 0 (0, 0) (0, 0) [] 0 (bytes_of n)).
Qed.

Definition no_name (_ : Z) : string := "".
Definition the_system : system :=
  execute (runner no_name tests suites "runtests" ["GSN-EDF"]) w0 serve 300 1000 [1; 1001; 1002; 1003] (boot w0 1 tt).
Definition the_root : process := default (mk_process 0 0 [] Running) (procs the_system !! 1).

(** The second test fails, since there are no semaphores, and the runner says so. *)
Lemma runner_verdict_witness :
  exists sts : list (Z * Z), NoDup (map fst sts) /\ 768 = verdict (map snd sts) /\
    Forall2 (fun i pst => exists t, tests !! Z.to_nat i = Some t /\
      ran_test no_name tests suites "runtests" ["GSN-EDF"] w0 the_system (snd t) (fst pst) (snd pst)) [0; 1; 2] sts.
Proof.
  apply (@runner_verdict no_name tests suites tests_causal "runtests" ["GSN-EDF"] w0 unit serve (fun _ => False) (fun _ => False)
    1 the_system the_root "GSN-EDF" (mk_testsuite "GSN-EDF" [0; 1; 2]) 768); [done|done|done|done| | | |by right].
  - exists tt. apply execute_steps.
  - vm_compute. reflexivity.
  - vm_compute. reflexivity.
Defined.
End RunnerSystemWitness.
