(* ===== verification/SuiteSystem.v ===== *)
(** * The test suite as interleaved processes

    The runner, linked with the semaphore tests, and its test processes in any
    interleaving, on a kernel whose view of every process implements the
    specification of semaphores ([LockSpec]) and which may otherwise delay any
    process as it likes: every process ends with status 0, and nothing
    deadlocks.  Unlike [EndToEnd], nothing is assumed of [fork] and [waitpid]:
    [System] says what they do. *)
From stdpp Require Import gmap relations.
From S2P Require Import Prelude Machine Causal CString Laws Getopt Iface Syscalls Migration Litmus Runner Tests.
From S2P Require Import TestLocks TestNesting TestFdso TestPcp LockSpec LockTests Catalog Suite EndToEnd.
From S2P Require Import Causality System RunnerSystem.

(** ** Requests about processes *)

#[export] Instance about_processes_quiet : InitQuiet about_processes.
Proof. by repeat split. Qed.

Section keeps.
Context {K : Kernel} {H : KernelHeader}.

Lemma keeps_migrate_cpu tid c : keeps about_processes (be_migrate_thread_to_cpu tid c).
Proof. unfold be_migrate_thread_to_cpu. autounfold with litmus_causal. keeps_tac. Qed.

Lemma keeps_mode m : keeps about_processes (task_mode m).
Proof. by apply (keeps_task_mode about_processes). Qed.

Lemma keeps_partitioned e p dom : keeps about_processes (sporadic_partitioned e p dom).
Proof. by apply (keeps_sporadic about_processes). Qed.

#[local] Hint Resolve keeps_migrate_cpu keeps_mode keeps_partitioned : litmus.

(** The semaphore tests fork no processes. *)
Lemma lock_tests_alone : Forall (keeps about_processes) lock_tests.
Proof.
  unfold lock_tests, acquisition_tests, nesting_tests, no_nesting_tests, refusal_tests, mode_change_tests.
  cbn [app]. repeat (apply Forall_cons_iff; split); try apply Forall_nil.
  all: autounfold with litmus_tests litmus_causal; keeps_tac.
Qed.
End keeps.

(** ** The length of a run *)

(** [m] adds at most [n] events, on any path. *)
Definition short {A} (n : nat) (m : M A) : Prop := forall w, (length (tr (m w).2) <= n + length (tr w))%nat.

Lemma short_le {A} n n' (m : M A) : short n m -> (n <= n')%nat -> short n' m.
Proof. intros Hm Hn w. specialize (Hm w). lia. Qed.

Lemma short_pure {A} (m : M A) : (forall w, tr (m w).2 = tr w) -> short 0 m.
Proof. intros Hm w. by rewrite Hm. Qed.

Lemma short_bind {A B} n1 n2 (m : M A) (f : A -> M B) :
  short n1 m -> (forall a, short n2 (f a)) -> short (n1 + n2) (m ≫= f).
Proof.
  intros Hm Hf w. specialize (Hm w). unfold mbind, M_bind.
  destruct (m w) as [[a|s| | |] w1]; cbn [snd] in *; [specialize (Hf a w1)|..]; lia.
Qed.

Lemma short_syscall {K : Kernel} c : short 1 (syscall c).
Proof. intros w. unfold syscall. cbn [snd]. rewrite tr_after. done. Qed.

Lemma short_sys {K : Kernel} c : short 1 (sys c).
Proof. intros w. unfold sys. cbn [snd]. rewrite tr_after. done. Qed.

Lemma short_emit e : short 1 (emit e).
Proof. intros w. cbn. lia. Qed.

Lemma short_when n (b : bool) m : short n m -> short n (when b m).
Proof. destruct b; [done|]. intros _. by apply (short_le 0); [apply short_pure|lia]. Qed.

Lemma short_if {A} n1 n2 (b : bool) (m1 m2 : M A) : short n1 m1 -> short n2 m2 -> short (n1 + n2) (if b then m1 else m2).
Proof. intros H1 H2. destruct b; [apply (short_le n1)|apply (short_le n2)]; done || lia. Qed.

Lemma short_option {A B} n1 n2 (x : option A) (f : A -> M B) (m : M B) :
  (forall a, short n1 (f a)) -> short n2 m -> short (n1 + n2) (match x with Some a => f a | None => m end).
Proof. intros H1 H2. destruct x; [apply (short_le n1)|apply (short_le n2)]; done || lia. Qed.

(** Finds a bound for a translated function without loops of its own. *)
Ltac short_step :=
  match goal with
  | |- short _ (_ ≫= _) => eapply short_bind; [|intros ?]
  | |- short _ (when _ _) => eapply short_when
  | |- short _ (syscall _) => apply short_syscall
  | |- short _ (sys _) => apply short_sys
  | |- short _ (emit _) => apply short_emit
  | |- short _ (perror _) => apply short_emit
  | |- short _ (printf _ _) => apply short_emit
  | |- short _ (eprintf _ _) => apply short_emit
  | |- short _ (let _ := _ in _) => cbv zeta
  | |- short _ (match ?x with _ => _ end) =>
      lazymatch type of x with
      | bool => eapply short_if
      | option _ => eapply short_option; [intros ?|]
      | prod _ _ => destruct x
      end
  | |- short _ _ => solve [eauto with litmus_short nocore | apply short_pure; intros ?; reflexivity]
  end.
Ltac short_tac := autounfold with litmus_causal; repeat short_step.

Section short.
Context {H : KernelHeader}.

Lemma short_read_loop {K : Kernel} fuel fd maxlen got n buf : short fuel (read_loop fuel fd maxlen got n buf).
Proof.
  revert got n buf. induction fuel as [|fuel IH]; intros; cbn [read_loop]; [by apply short_pure|].
  destruct (_ <? _); [|by apply (short_le 0); [apply short_pure|lia]].
  change (Datatypes.S fuel) with (1 + fuel)%nat. apply short_bind.
  - apply (short_bind 1 0); [apply short_sys|intros; by apply short_pure].
  - intros [k d]. destruct (0 <? k); [apply IH|]. by apply (short_le 0); [apply short_pure|lia].
Qed.

#[local] Hint Resolve short_read_loop : litmus_short.

Lemma short_read_mapping : exists n, forall (K : Kernel) idx which, short n (read_mapping idx which).
Proof. eexists. intros. unfold read_mapping, read_file. short_tac. Qed.

Lemma short_partitioned : exists n, forall (K : Kernel) e p dom, short n (sporadic_partitioned e p dom).
Proof.
  destruct short_read_mapping as [n Hn]. eexists. intros.
  unfold sporadic_partitioned, be_migrate_to_domain, be_migrate_thread_to_domain, domain_to_first_cpu. short_tac.
Qed.

Lemma short_migrate : exists n, forall (K : Kernel) tid c, short n (be_migrate_thread_to_cpu tid c).
Proof. eexists. intros. unfold be_migrate_thread_to_cpu. short_tac. Qed.

Lemma short_task_mode : exists n, forall (K : Kernel) mode, short n (task_mode mode).
Proof. eexists. intros. unfold task_mode. short_tac. Qed.

Lemma short_init_litmus : exists n, forall (K : Kernel), short n init_litmus.
Proof. eexists. intros. unfold init_litmus, init_rt_thread, init_kernel_iface. short_tac. Qed.

(** A bound for finitely many computations, from one for each. *)
Lemma short_all {A} (l : Kernel -> list (M A)) (d : M A) k :
  (forall K, length (l K) = k) -> (forall i, (i < k)%nat -> exists n, forall K, short n (nth i (l K) d)) ->
  exists N, forall K, Forall (short N) (l K).
Proof.
  intros Hlen Hi.
  assert (forall j, (j <= k)%nat -> exists N, forall i, (i < j)%nat -> forall K, short N (nth i (l K) d)) as Hall.
  { induction j as [|j IH]; intros Hj; [exists O; lia|]. destruct IH as [N HN]; [lia|]. destruct (Hi j) as [n Hn]; [lia|].
    exists (N + n)%nat. intros i Hij K. destruct (decide (i = j)) as [->|Hne].
    - eapply short_le; [apply Hn|lia].
    - eapply short_le; [apply HN; lia|lia]. }
  destruct (Hall k) as [N HN]; [done|]. exists N. intros K. apply List.Forall_nth. intros i d' Hi'.
  rewrite Hlen in Hi'. rewrite (nth_indep _ _ d) by (by rewrite Hlen). by apply HN.
Qed.

(** Bounds of the semaphore tests, the same on every kernel. *)
Lemma short_lock_tests : exists N, forall K : Kernel, Forall (short N) (@lock_tests K H).
Proof.
  destruct short_partitioned as [n1 H1], short_migrate as [n2 H2], short_task_mode as [n3 H3].
  apply (short_all (fun K => @lock_tests K H) (mret tt) 36); [done|]. intros i Hi.
  unfold lock_tests, acquisition_tests, nesting_tests, no_nesting_tests, refusal_tests, mode_change_tests. cbn [app].
  do 36 (destruct i as [|i]; [eexists; intros K; cbn [nth]; autounfold with litmus_tests; short_tac|]).
  lia.
Qed.

Lemma short_run_test strsignal : exists n, forall (K : Kernel) verbose f d, f ∈ @lock_tests K H ->
  short n (run_test strsignal verbose (mk_testcase f d)).
Proof.
  destruct short_lock_tests as [N HN], short_init_litmus as [n1 H1]. eexists. intros K verbose f d Hf.
  assert (short N f) as Hfn by (specialize (HN K); rewrite Forall_forall in HN; by apply HN, list_elem_of_In).
  unfold run_test. cbn [function description]. short_tac.
Qed.

(** The runner, when all test cases of the suite are semaphore tests. *)
Lemma short_runner strsignal (tests : list ((Kernel -> M unit) * string)) suites prog name su :
  operand name -> find (fun s => strcmp_eq (plugin s) name) suites = Some su ->
  Forall (fun i => exists t, 0 <= i /\ tests !! Z.to_nat i = Some t /\ forall K, fst t K ∈ @lock_tests K H) (testcases su) ->
  exists n, forall K, short n (runner strsignal tests suites prog [name] K).
Proof.
  intros Hname Hfind Hidx. destruct (short_run_test strsignal) as [n Hn].
  assert (forall K verbose ok, short (length (testcases su) * n) (run_loop strsignal (catalog_on tests K) verbose (testcases su) ok))
    as Hloop.
  { intros K verbose. clear Hfind. induction Hidx as [|i idx ([f d] & Hi & Hlook & Hin) _ IH]; intros ok; cbn [run_loop length].
    - by apply short_pure.
    - rewrite (proj2 (Z.leb_le 0 i)) by done. unfold catalog_on at 1. change (map ?g tests) with (g <$> tests).
      rewrite list_lookup_fmap, Hlook. cbn [fmap option_fmap option_map fst snd Nat.mul] in *.
      apply short_bind; [by apply Hn|intros; apply IH]. }
  exists (2 + (length (testcases su) * n + (1 + 0)))%nat. intros K w. unfold runner, runner_on.
  rewrite (main_found strsignal (catalog_on tests K) suites prog name su w Hname Hfind). cbv zeta.
  match goal with |- (length (tr (?mm ?w1).2) <= _)%nat => enough (short (length (testcases su) * n + (1 + 0)) mm) as Hm;
    [specialize (Hm w1); cbn [tr push length] in Hm; lia|] end.
  apply short_bind; [apply Hloop|intros r]. apply short_bind; [apply short_emit|intros; by apply short_pure].
Qed.
End short.

(** ** The history of the runner, and of its children *)

(** The runner forks, waits for the child it forked last, and prints. *)
Inductive parental : trace -> Prop :=
  | par_nil : parental []
  | par_out e t : (forall c r, e <> Sys c r) -> parental t -> parental (e :: t)
  | par_fork x t : 0 < x -> parental t -> parental (Sys Fork (Succ x) :: t)
  | par_wait x es t : 0 < x -> calls es = [] -> parental (es ++ Sys Fork (Succ x) :: t) ->
      parental (Sys (Waitpid x) (Pair x 0) :: es ++ Sys Fork (Succ x) :: t).

(** A child goes on from there with requests that are not about processes. *)
Definition forked_off (t : trace) : Prop := exists es u,
  t = es ++ Sys Fork (Succ 0) :: u /\ parental u /\ about_processes es = [].

Lemma parental_suffix t u : parental t -> u `suffix_of` t -> parental u.
Proof.
  intros Hp. revert u. induction Hp as [|e t He Hp IH|x t Hx Hp IH|x es t Hx Hes Hp IH]; intros u Hu.
  - apply suffix_nil_inv in Hu as ->. constructor.
  - apply suffix_of_cons in Hu as [->|Hu]; [by constructor|by apply IH].
  - apply suffix_of_cons in Hu as [->|Hu]; [by constructor|by apply IH].
  - apply suffix_of_cons in Hu as [->|Hu]; [by constructor|by apply IH].
Qed.

Lemma parental_call c r u : parental (Sys c r :: u) ->
  (c = Fork /\ exists x, r = Succ x /\ 0 < x) \/
  exists x es v, c = Waitpid x /\ r = Pair x 0 /\ 0 < x /\ u = es ++ Sys Fork (Succ x) :: v /\ calls es = [].
Proof.
  inversion 1 as [|e t He Hp|x t Hx Hp|x es t Hx Hes Hp]; subst; [by destruct (He c r)|left; by eauto|right].
  by exists x, es, t.
Qed.

(** What a process does next, when its history will be one of the two. *)
Lemma shape_call T c r u : parental T \/ forked_off T -> Sys c r :: u `suffix_of` T ->
  (parental u /\ ((c = Fork /\ exists x, r = Succ x /\ 0 <= x) \/
     exists x es v, c = Waitpid x /\ r = Pair x 0 /\ 0 < x /\ u = es ++ Sys Fork (Succ x) :: v /\ calls es = [])) \/
  process_call c = false /\ (forall x, c <> Waitpid x).
Proof.
  intros [HT|(es & v & -> & Hv & Hes)] Hs.
  - left. pose proof (parental_suffix _ _ HT Hs) as Hp. split; [by eapply parental_suffix, suffix_cons_r|].
    apply parental_call in Hp as [(-> & x & -> & Hx)|?]; [left|by right]. split; [done|]. exists x. split; [done|lia].
  - destruct (suffix_weak_total _ _ _ Hs (suffix_app_r _ _ es (reflexivity (Sys Fork (Succ 0) :: v)))) as [Hu|Hu].
    + left. apply suffix_cons_inv in Hu as [[= -> -> ->]|Hu].
      * split; [done|]. left. split; [done|]. by exists 0.
      * pose proof (parental_suffix _ _ Hv Hu) as Hp. split; [by eapply parental_suffix, suffix_cons_r|].
        apply parental_call in Hp as [(-> & x & -> & Hx)|?]; [left|by right]. split; [done|]. exists x. split; [done|lia].
    + apply suffix_cons_inv in Hu as [[= <- <- <-]|Hu]; [left; split; [done|]; left; split; [done|]; by exists 0|].
      right. destruct Hs as [k E], Hu as [k' ->]. rewrite app_comm_cons, !app_assoc in E.
      apply app_inv_tail in E. rewrite E in Hes. unfold about_processes in Hes. rewrite !omap_app in Hes.
      destruct c; try (split; [done|by intros ? [=]]); cbn in Hes; by destruct (omap _ k).
Qed.

(** ** The runner on a kernel that implements the specification *)

(** What the kernel of a test process guarantees. *)
Record test_kernel (K : Kernel) (tid cpus : Z) (mask : bytes) : Prop := {
  tk_schedules : Schedules K tid;
  tk_semaphores : Semaphores K tid cpus;
  tk_accepts : Accepts K tid;
  tk_allocates : Allocates K;
  tk_online : Online K cpus;
  tk_initialises : Initialises K;
  tk_serves : Serves K (mapping_file "domains" 0) mask;
}.

(** Every fork succeeds, on the side of the parent or of the child, and every
    child that is waited for exited with 0. *)
Record good_children (K : Kernel) : Prop := {
  gc_fork t : exists x, kernel t Fork = Succ x /\ 0 <= x;
  gc_wait t x : 0 < x -> kernel t (Waitpid x) = Pair x 0;
}.

(** The processes of [h], or the answer [child] to other forks, everything else
    as [K] has it. *)
Definition with_processes (child : reply) (h : trace) (K : Kernel) : Kernel := fun u c =>
  match c with
  | Fork => default child (recorded h u c)
  | Waitpid x => default (Pair x 0) (recorded h u c)
  | _ => kernel u c
  end.

Lemma with_processes_lawful child h K tid cpus mask :
  test_kernel K tid cpus mask -> test_kernel (with_processes child h K) tid cpus mask.
Proof.
  intros [[] SM [] Ha Ho [] []]. split; [by split| |by split|exact Ha|exact Ho|by split|by split].
  pose proof (@sem_unknown K tid cpus SM) as Hun. destruct SM. split; try done.
  intros t od c Ht Hh Hc. specialize (Hun t od c Ht Hh Hc).
  rewrite !elem_of_cons, elem_of_nil in Hc. by destruct Hc as [->|[->|[->|[]]]].
Qed.

Section runner.
Context {K : Kernel} {H : KernelHeader} (strsignal : Z -> string) (tid cpus : Z) (m : nat) (m0 : Z) (ms : list Z).
Context (TK : test_kernel K tid cpus (mask_text m m0 ms)) (GC : good_children K) (Hcpus : 2 <= cpus <= 4096).
Context (Hmask : wf_mask m m0 ms) (Hms : (length ms <= 127)%nat).

Lemma run_test_shape verbose (f : Kernel -> M unit) d w :
  causal f -> f K ∈ lock_tests -> st tid SCHED_NORMAL [] [] w -> parental (tr w) ->
  (exists w', run_test strsignal verbose (mk_testcase (f K) d) w = (Val 1, w') /\
     st tid SCHED_NORMAL [] [] w' /\ parental (tr w')) \/
  (exists w', run_test strsignal verbose (mk_testcase (f K) d) w = (Exit 0, w') /\ forked_off (tr w')).
Proof using TK GC Hcpus Hmask Hms.
  intros Hf Hin Hw Hp. destruct TK as [SC SM AC AL ON IN SV].
  set (w1 := push (Out stdout "** Testing: %s... " [AStr d]) w).
  assert (parental (tr w1)) as Hp1 by by apply par_out.
  destruct (gc_fork K GC (tr w1)) as (x & Ex & Hx). destruct (decide (x = 0)) as [->|Hx0].
  - right. destruct (child_exits tid cpus Hcpus m m0 ms Hmask Hms strsignal verbose (f K) d w Hin Hw Ex)
      as (pol & w' & Hrun & _). exists w'. split; [done|].
    unfold run_test, SYSCALL, printf in Hrun. revert Hrun. mrun. cbn [description function]. fold w1. rewrite Ex.
    cbn [ret_of Z.ltb Z.compare]. mrun. cbn [Z.eqb]. intros Hrun.
    set (w2 := after Fork (Succ 0) w1) in *.
    match type of Hrun with ?mm w2 = _ => set (body := mm) in * end.
    assert (keeps about_processes body) as Hkeeps.
    { unfold body. unfold fail, eprintf. apply keeps_bind; [apply keeps_bind; [by apply keeps_init_litmus, _|]|].
      - intros z. keeps_tac.
      - intros _. apply keeps_bind; [|intros _; apply keeps_exit].
        pose proof (@lock_tests_alone K H) as Hall. rewrite Forall_forall in Hall. by apply Hall, list_elem_of_In. }
    assert (follows K K body body) as Hgrows.
    { unfold body. specialize (Hf K K). causal_tac. }
    destruct (follows_grows _ _ _ _ Hgrows Hrun) as [es E]. exists es, (tr w1).
    unfold w2 in E. rewrite tr_after in E. split; [done|]. split; [done|].
    pose proof (keeps_run _ _ _ _ _ Hkeeps Hrun) as Hk. rewrite E in Hk. unfold w2 in Hk. rewrite tr_after in Hk.
    unfold about_processes in Hk. rewrite omap_app in Hk. apply (f_equal length) in Hk.
    rewrite length_app in Hk. apply nil_length_inv. unfold about_processes. lia.
  - left. unfold run_test, SYSCALL, printf. mrun. cbn [description]. fold w1. rewrite Ex. cbn [ret_of].
    rewrite (proj2 (Z.ltb_ge x 0)) by lia. mrun. rewrite (proj2 (Z.eqb_neq x 0)) by lia.
    set (w2 := after Fork (Succ x) w1).
    assert (exists w3 es, when (negb (verbose =? 0)) (emit (Out stdout "[PID=%d] " [AInt x])) w2 = (Val tt, w3) /\
      tr w3 = es ++ Sys Fork (Succ x) :: tr w1 /\ calls es = [] /\ (forall c r, Forall (fun e => e <> Sys c r) es) /\
      policy_of tid (tr w3) = policy_of tid (tr w) /\ lock_log (tr w3) = lock_log (tr w))
      as (w3 & es & H3 & Ht3 & Hes & Hout & Hpol & Hlog).
    { destruct (negb _); [eexists _, [_]|eexists _, []]; (split; [done|]); (split; [unfold w2; cbn [tr push]; by rewrite tr_after|]);
        (split; [done|]); (split; [intros c r; repeat constructor; done|]); (split; [by unfold w2; cbn [tr push]; rewrite tr_after|]);
        by unfold w2; cbn [tr push]; rewrite tr_after. }
    rewrite (bind_val _ _ _ _ _ H3). unfold waitpid. mrun. rewrite (gc_wait K GC) by lia. mrun.
    rewrite (proj2 (Z.ltb_ge x 0)) by lia. mrun. cbn [default from_option id].
    change (WIFEXITED 0 && (WEXITSTATUS 0 =? 0)) with true. cbn [Z.b2z]. mrun. eexists. split; [done|].
    assert (parental (tr w3)) as Hp3.
    { rewrite Ht3. clear - Hout Hp1 Hx Hx0. induction es as [|e es IH]; [apply par_fork; [lia|done]|].
      cbn [app]. apply par_out; [intros c r; by specialize (Hout c r); inversion Hout|].
      apply IH. intros c r. specialize (Hout c r). by inversion Hout. }
    split.
    + apply (st_same _ _ _ _ w); [done|..]; cbn [tr push]; by rewrite tr_after.
    + apply par_out; [done|]. rewrite tr_after, Ht3. apply par_wait; [lia|done|by rewrite <- Ht3].
Qed.

Lemma run_loop_shape verbose (tests : list ((Kernel -> M unit) * string)) idx ok w :
  Forall (fun i => exists t, 0 <= i /\ tests !! Z.to_nat i = Some t /\ causal (fst t) /\ fst t K ∈ lock_tests) idx ->
  st tid SCHED_NORMAL [] [] w -> parental (tr w) ->
  (exists w', run_loop strsignal (catalog_on tests K) verbose idx ok w = (Val (ok + Z.of_nat (length idx)), w') /\
     parental (tr w')) \/
  (exists w', run_loop strsignal (catalog_on tests K) verbose idx ok w = (Exit 0, w') /\ forked_off (tr w')).
Proof using TK GC Hcpus Hmask Hms.
  intros Hidx. revert ok w. induction Hidx as [|i idx ([f d] & Hi & Hlook & Hf & Hin) _ IH]; intros ok w Hw Hp; cbn [run_loop].
  { left. exists w. by rewrite Z.add_0_r. }
  rewrite (proj2 (Z.leb_le 0 i)) by done. unfold catalog_on at 1 3. change (map ?g tests) with (g <$> tests).
  rewrite list_lookup_fmap, Hlook. cbn [fmap option_fmap option_map fst snd] in *.
  destruct (run_test_shape verbose f d w Hf Hin Hw Hp) as [(w1 & H1 & Hw1 & Hp1)|(w1 & H1 & Hp1)].
  - rewrite (bind_val _ _ _ _ _ H1). destruct (IH (ok + 1) w1 Hw1 Hp1) as [(w' & Hrun & Hp')|(w' & Hrun & Hp')].
    + left. exists w'. rewrite Hrun. split; [|done]. do 2 f_equal. cbn [length]. lia.
    + right. by exists w'.
  - right. exists w1. split; [|done]. by apply bind_exit.
Qed.

(** Any process of the runner ends with 0. *)
Lemma runner_shape (tests : list ((Kernel -> M unit) * string)) suites prog name su w :
  operand name -> find (fun s => strcmp_eq (plugin s) name) suites = Some su ->
  Forall (fun i => exists t, 0 <= i /\ tests !! Z.to_nat i = Some t /\ causal (fst t) /\ fst t K ∈ lock_tests)
    (testcases su) ->
  st tid SCHED_NORMAL [] [] w -> parental (tr w) ->
  exists o w', runner strsignal tests suites prog [name] K w = (o, w') /\ exit_status o = Some 0 /\
    (parental (tr w') \/ forked_off (tr w')).
Proof using TK GC Hcpus Hmask Hms.
  intros Hname Hfind Hidx Hw Hp. unfold runner, runner_on.
  rewrite (main_found strsignal (catalog_on tests K) suites prog name su w Hname Hfind). cbv zeta.
  set (w1 := push _ (push _ w)).
  assert (st tid SCHED_NORMAL [] [] w1) as Hw1 by by apply (st_same _ _ _ _ w).
  assert (parental (tr w1)) as Hp1 by by apply par_out, par_out.
  destruct (run_loop_shape 0 tests (testcases su) 0 w1 Hidx Hw1 Hp1) as [(w' & Hrun & Hp')|(w' & Hrun & Hp')].
  - rewrite (bind_val _ _ _ _ _ Hrun). unfold printf. mrun. rewrite Z.add_0_l, Z.eqb_refl.
    eexists _, _. split; [done|]. split; [done|]. left. by apply par_out.
  - rewrite (bind_exit _ _ _ _ _ Hrun). eexists _, _. split; [done|]. split; [done|]. by right.
Qed.
End runner.

(** ** The system *)

Section system.
Context {H : KernelHeader} (strsignal : Z -> string) (tests : list ((Kernel -> M unit) * string)) (suites : list testsuite).
Context (prog name : string) (su : testsuite) (w0 : world).
Context {Sh : Type} (serve : Sh -> Z -> trace -> call -> option (reply * Sh)).
Context (cpus : Z) (m : nat) (m0 : Z) (ms : list Z) (Hcpus : 2 <= cpus <= 4096).
Context (Hmask : wf_mask m m0 ms) (Hms : (length ms <= 127)%nat).

(** The kernel answers process [p] as [KC p] does, which implements the
    specification for the thread [tid p]; when, is its choice. *)
Context (KC : Z -> Kernel) (tid : Z -> Z) (Hkernel : forall p, test_kernel (KC p) (tid p) cpus (mask_text m m0 ms)).
Context (Hserve : forall sh p h c r sh', serve sh p h c = Some (r, sh') -> r = @kernel (KC p) h c).
Context (Hname : operand name) (Hfind : find (fun s => strcmp_eq (plugin s) name) suites = Some su).
Context (Hcausal : Forall (fun t => causal (fst t)) tests).
Context (Hcases : Forall (fun i => exists t, 0 <= i /\ tests !! Z.to_nat i = Some t /\ forall K, fst t K ∈ @lock_tests K H)
  (testcases su)).
Context (Hw0 : tr w0 = []) (root : Z) (Hroot : 0 < root).

Let none (_ : Z) : Prop := False.
Let program : Kernel -> M Z := runner strsignal tests suites prog [name].
Let program_causal : causal program := runner_is_causal strsignal tests suites Hcausal prog [name].

(** The history of a process of the suite: forks succeed, children exit with
    0, everything else is answered by the kernel of the process. *)
Definition well_served (p : Z) (h : trace) : Prop := forall c r u, Sys c r :: u `suffix_of` h ->
  match c with
  | Fork => exists x, r = Succ x /\ 0 <= x
  | Waitpid x => 0 < x -> r = Pair x 0
  | c => r = @kernel (KC p) u c
  end.

Lemma start_state p : st (tid p) SCHED_NORMAL [] [] w0.
Proof using Hw0.
  unfold st. rewrite Hw0. split; [done|]. split; [done|]. split; [constructor|].
  intros od ty. split; [done|]. by intros []%not_elem_of_nil.
Qed.

(** Such a history is one of a run that ends with 0. *)
Lemma well_served_run p h : well_served p h ->
  exists K o w, answers K (tr w0) h /\ program K w0 = (o, w) /\ exit_status o = Some 0 /\
    (parental (tr w) \/ forked_off (tr w)).
Proof using Hkernel Hname Hfind Hcausal Hcases Hw0 Hcpus Hmask Hms.
  intros Hs. set (K := with_processes (Succ 1) h (KC p)).
  assert (test_kernel K (tid p) cpus (mask_text m m0 ms)) as TK by by apply with_processes_lawful.
  assert (good_children K) as GC.
  { split.
    - intros t. unfold K, kernel, with_processes. destruct (recorded h t Fork) as [r|] eqn:E; [|by exists 1].
      apply recorded_spec in E. exact (Hs _ _ _ E).
    - intros t x Hx. unfold K, kernel, with_processes. destruct (recorded h t (Waitpid x)) as [r|] eqn:E; [|done].
      apply recorded_spec in E. exact (Hs _ _ _ E Hx). }
  destruct (runner_shape strsignal (tid p) cpus m m0 ms TK GC Hcpus Hmask Hms tests suites prog name su w0 Hname Hfind)
    as (o & w & Hrun & Ho & Hshape).
  - eapply List.Forall_impl; [|exact Hcases]. intros i ([f d] & Hi & Hlook & Hin). exists (f, d).
    pose proof (proj1 (Forall_lookup _ _) Hcausal _ _ Hlook) as Hf. by split_and!.
  - apply start_state.
  - rewrite Hw0. constructor.
  - exists K, o, w. split_and!; [|done..]. intros c r u Hu _. unfold K, kernel, with_processes.
    pose proof (Hs c r u Hu) as Hr. apply recorded_spec in Hu as Hrec. destruct c; try done; by rewrite Hrec.
Qed.

(** Forks come before everything else, and follow only forks and waits. *)
Lemma next_shape p h c : history program w0 h -> well_served p h -> next program w0 h = ACall c ->
  (parental h /\ (c = Fork \/ exists x es v, c = Waitpid x /\ 0 < x /\ h = es ++ Sys Fork (Succ x) :: v /\ calls es = [])) \/
  process_call c = false /\ (forall x, c <> Waitpid x).
Proof using Hkernel Hname Hfind Hcausal Hcases Hw0 Hcpus Hmask Hms.
  intros Hh Hs Hn. destruct (well_served_run p h Hs) as (K & o & w & HK & Hrun & _ & Hshape).
  set (r := @kernel K h c). assert (history program w0 (Sys c r :: h)) as Hh' by by apply history_call.
  assert (Sys c r :: h `suffix_of` tr w) as Hsuf.
  { destruct Hh' as [_ Hh']. specialize (Hh' K (answers_cons_sys K (tr w0) h c r HK eq_refl)). by rewrite Hrun in Hh'. }
  destruct (shape_call _ _ _ _ Hshape Hsuf) as [(Hp & [(-> & _)|(x & es & v & -> & _ & Hx & -> & Hes)])|?]; [left|left|by right].
  - split; [done|by left].
  - split; [done|]. right. by exists x, es, v.
Qed.

Definition all_good (s : system (Sh := Sh)) : Prop := forall p q, procs s !! p = Some q ->
  well_served p (hist q) /\ forall st, status_of (state q) = Some st -> st = 0.

Lemma well_served_cons p e h :
  well_served p h -> (forall c r, e = Sys c r -> match c with
    | Fork => exists x, r = Succ x /\ 0 <= x | Waitpid x => 0 < x -> r = Pair x 0 | c => r = @kernel (KC p) h c end) ->
  well_served p (e :: h).
Proof using. intros Hs He c r u [[= <- <-]|Hu]%suffix_cons_inv; [by apply He|by apply Hs]. Qed.

(** A history of forks and waits is one of any process. *)
Lemma parental_served p p' h : parental h -> well_served p h -> well_served p' h.
Proof using.
  intros Hp Hs c r u Hu. specialize (Hs c r u Hu). pose proof (parental_suffix _ _ Hp Hu) as Hc.
  by apply parental_call in Hc as [(-> & _)|(x & es & v & -> & _)].
Qed.

(** The wait of a parent is for a child of its own that was not waited for. *)
Lemma parental_waitable s p q x es v :
  reachable program w0 serve none none root s -> procs s !! p = Some q -> parental (hist q) -> 0 < x ->
  hist q = es ++ Sys Fork (Succ x) :: v -> calls es = [] -> waitable s p x.
Proof using Hcausal Hw0 Hroot.
  intros Hs Hq Hp Hx Hh Hes. pose proof (reachable_sound program w0 serve none none root s program_causal Hroot Hs) as A.
  assert (forall u, Sys Fork (Succ 0) :: u `suffix_of` hist q -> False) as Hno.
  { intros u Hu. apply (parental_suffix _ _ Hp), parental_call in Hu as [(_ & y & [= <-] & Hy)|(? & ? & ? & [=] & _)].
    by destruct (Z.lt_irrefl _ Hy). }
  assert (Sys Fork (Succ x) :: v `suffix_of` hist q) as Hv by (rewrite Hh; by apply suffix_app_r).
  destruct (sound_own _ _ _ _ _ _ _ (A _ _ Hq) v x Hv ltac:(by rewrite Hw0; apply suffix_nil) Hno) as (c & Hc & Hpar).
  exists c. split; [done|]. split; [done|]. intros st Hst.
  destruct (reaped_waited _ _ _ _ _ _ _ _ _ _ Hs Hc Hst) as (q' & u & Hq' & Hu). rewrite Hpar, Hq in Hq'. injection Hq' as <-.
  pose proof (parental_suffix _ _ Hp Hu) as Hpu.
  apply parental_call in Hpu as [([=] & _)|(y & es' & v' & [= <-] & _ & _ & -> & Hes')].
  assert (v' = v) as ->.
  { eapply (fork_once _ _ _ _ s p q x); [by apply A|done|by rewrite Hw0; apply suffix_nil|by rewrite Hw0; apply suffix_nil| |done].
    eapply suffix_app_l, suffix_cons_l. exact Hu. }
  destruct Hu as [k E]. rewrite Hh in E. rewrite app_comm_cons, app_assoc in E. apply app_inv_tail in E.
  rewrite E in Hes. unfold calls in Hes. rewrite omap_app in Hes. cbn in Hes. by destruct (omap _ k).
Qed.

Lemma step_good s s' :
  reachable program w0 serve none none root s -> all_good s -> step program w0 serve none none s s' -> all_good s'.
Proof using All.
  intros Hs G Hstep. pose proof (reachable_sound program w0 serve none none root s program_causal Hroot Hs) as A.
  destruct Hstep as [p q e (Hq & Hr & Hn)|p q c r sh (Hq & Hr & Hn) Hc Hsv|p q child (Hq & Hr & Hn) Hpos Hnew
    |p q err (Hq & Hr & Hn) []|p q child c st (Hq & Hr & Hn) Hpos Hc Hpar Hz|p q child (Hq & Hr & Hn) Hpos Hw
    |p q o st (Hq & Hr & Hn) Ho|p q sig Hq Hr [] _]; destruct (G p q Hq) as [Gq Gs];
    pose proof (sound_history _ _ _ _ _ _ _ (A _ _ Hq)) as Hh; intros p1 q1; cbn [procs put].
  - intros [[<- <-]|[_ H1]]%lookup_insert_Some; [|by apply (G p1 q1)]. split; [|exact Gs].
    apply well_served_cons; [done|]. intros c r ->. by destruct (proj1 (next_out program w0 (hist q) Barrier c r)).
  - destruct (next_shape p _ _ Hh Gq Hn) as [(_ & [->|(x & es & v & -> & Hx & _)])|[_ Hnw]]; [done| |].
    { cbn in Hc. by apply Z.ltb_ge, Z.le_ngt in Hc. }
    intros [[<- <-]|[_ H1]]%lookup_insert_Some; [|by apply (G p1 q1)]. split; [|exact Gs].
    apply well_served_cons; [done|]. intros c' r' [= <- <-]. apply Hserve in Hsv as ->.
    destruct c; try done. by destruct (Hnw pid).
  - destruct (next_shape p _ _ Hh Gq Hn) as [(Hp & _)|[[=] _]].
    intros [[<- <-]|[_ H1]]%lookup_insert_Some.
    + split; [|done]. cbn. apply well_served_cons; [by apply (parental_served p)|].
      intros c r [= <- <-]. by exists 0.
    + apply lookup_insert_Some in H1 as [[<- <-]|[_ H1]]; [|by apply (G p1 q1)]. split; [|exact Gs].
      apply well_served_cons; [done|]. intros c r [= <- <-]. exists child. split; [done|lia].
  - intros [[<- <-]|[_ H1]]%lookup_insert_Some.
    + split; [|exact Gs]. apply well_served_cons; [done|]. intros c' r [= <- <-] _. f_equal.
      apply (proj2 (G _ _ Hc)). by rewrite Hz.
    + apply lookup_insert_Some in H1 as [[<- <-]|[_ H1]]; [|by apply (G p1 q1)].
      destruct (G _ _ Hc) as [Gc Gst]. split; [done|]. cbn. intros st' [= <-]. apply Gst. by rewrite Hz.
  - exfalso. apply Hw. destruct (next_shape p _ _ Hh Gq Hn) as [(Hp & [[=]|(x & es & v & [= <-] & Hx & Hes & Hcalls)])|[Hno _]].
    + by eapply (parental_waitable s p q child es v).
    + cbn in Hno. apply Z.ltb_ge in Hno. lia.
  - intros [[<- <-]|[_ H1]]%lookup_insert_Some; [|by apply (G p1 q1)]. split; [done|]. cbn. intros st' [= <-].
    destruct (well_served_run p _ Gq) as (K & o' & w & HK & Hrun & Ho' & _).
    destruct (history_end program program_causal w0 _ _ Hh Hn K HK) as (w' & Hrun' & _). congruence.
Qed.

Lemma all_reachable_good s : reachable program w0 serve none none root s -> all_good s.
Proof using All.
  intros [sh Hs]. revert s Hs. apply (rtc_ind_r (R := step program w0 serve none none) all_good).
  - intros p q. cbn. intros [<- <-]%lookup_singleton_Some. split; [|done]. cbn. rewrite Hw0.
    by intros c r u [=]%suffix_nil_inv.
  - intros s1 s2 Hs1 Hstep G. eapply step_good; [|done..]. by exists sh.
Qed.

Lemma suite_statuses s p q st :
  reachable program w0 serve none none root s -> procs s !! p = Some q -> status_of (state q) = Some st -> st = 0.
Proof using All. intros Hs Hq. by apply (proj2 (all_reachable_good s Hs p q Hq)). Qed.

(** While a process is alive, one can go on or the kernel delays it. *)
Lemma suite_moves s p q :
  reachable program w0 serve none none root s -> procs s !! p = Some q -> state q = Running ->
  (exists s', step program w0 serve none none s s') \/
  exists p' q' c, procs s !! p' = Some q' /\ next program w0 (hist q') = ACall c /\ serve (shared s) p' (hist q') c = None.
Proof using All.
  intros Hs Hq Hr. pose proof (reachable_sound program w0 serve none none root s program_causal Hroot Hs) as A.
  destruct (system_progress program w0 serve none none root s program_causal Hroot Hs) as [Hd|[Hst|?]]; [by destruct (Hd p q)| |by left].
  right. destruct Hst as (p' & q' & Hq' & _ & [(c & Hn & _ & Hsv)|(o & Hn & Ho)]); [by exists p', q', c|exfalso].
  destruct (all_reachable_good s Hs p' q' Hq') as [Gq _].
  destruct (well_served_run p' _ Gq) as (K & o' & w & HK & Hrun & Ho' & _).
  destruct (history_end program program_causal w0 _ _ (sound_history _ _ _ _ _ _ _ (A _ _ Hq')) Hn K HK) as (w' & Hrun' & _).
  congruence.
Qed.
End system.

(** ** On the generated tables *)

Section tables.
Context {H : KernelHeader} (strsignal : Z -> string) (linked : bytes -> Kernel -> M unit).

(** The catalogue make_catalog.py generates, linked with the test functions. *)
Definition linked_tests (tests : list TestCase) : list ((Kernel -> M unit) * string) :=
  map (fun tc => (linked (tc_function tc), String.string_of_list_ascii (desc tc))) tests.

Lemma linked_catalog tests K : catalog_on (linked_tests tests) K = test_catalog (fun n => linked n K) tests.
Proof using. unfold catalog_on, linked_tests, test_catalog. by rewrite map_map. Qed.

Definition suite_runner (tests : list TestCase) (ps : list bytes) (prog : string) (p : bytes) : Kernel -> M Z :=
  runner strsignal (linked_tests tests) (suites tests ps) prog [String.string_of_list_ascii (dashes p)].

(** The suite of the plugin [p] consists of semaphore tests. *)
Definition semaphore_suite (tests : list TestCase) (p : bytes) : Prop :=
  (exists tc, tc ∈ tests /\ p ∈ plugins tc) /\ p <> ALL /\ p <> LITMUS /\
  Forall (fun tc => Forall (fun q => "-"%char ∉ q) (plugins tc)) tests /\
  operand (String.string_of_list_ascii (dashes p)) /\ (forall n, causal (linked n)) /\
  (forall tc, tc ∈ tests -> meant_for p tc -> forall K, linked (tc_function tc) K ∈ @lock_tests K H).

Lemma semaphore_suite_found tests ps p : semaphore_suite tests p -> ps ≡ₚ plugin_set tests ->
  find (fun s => strcmp_eq (plugin s) (String.string_of_list_ascii (dashes p))) (suites tests ps) =
    Some (mk_testsuite (String.string_of_list_ascii (dashes p)) (suite_indices tests p)).
Proof using.
  intros ((tc0 & Htc0 & Hp) & HA & HL & Hdash & _) Hps. exact (suite_named _ _ _ _ Hps Htc0 Hp HA HL Hdash).
Qed.

Lemma semaphore_suite_causal tests p : semaphore_suite tests p ->
  Forall (fun t : (Kernel -> M unit) * string => causal (fst t)) (linked_tests tests).
Proof using. intros (_ & _ & _ & _ & _ & Hc & _). apply Forall_map, Forall_true. intros tc. apply Hc. Qed.

Lemma semaphore_suite_cases tests p : semaphore_suite tests p ->
  Forall (fun i => exists t : (Kernel -> M unit) * string, 0 <= i /\ linked_tests tests !! Z.to_nat i = Some t /\
    forall K, fst t K ∈ @lock_tests K H) (suite_indices tests p).
Proof using.
  intros (_ & _ & _ & _ & _ & _ & Hl). rewrite List.Forall_forall. intros i Hi.
  destruct (suite_index _ _ _ Hi) as (tc & Hi0 & Hlook & Hap).
  exists (linked (tc_function tc), String.string_of_list_ascii (desc tc)). split; [done|]. split.
  - unfold linked_tests. change (map ?f tests) with (f <$> tests). by rewrite list_lookup_fmap, Hlook.
  - intros K. apply Hl; [by eapply list_elem_of_lookup_2|]. rewrite applies_meant in Hap. by apply bool_decide_eq_true in Hap.
Qed.


Context {Sh : Type} (serve : Sh -> Z -> trace -> call -> option (reply * Sh)) (w0 : world) (root : Z).
Context (cpus : Z) (m : nat) (m0 : Z) (ms : list Z) (KC : Z -> Kernel) (tid : Z -> Z).

Let reached (P : Kernel -> M Z) (s : system (Sh := Sh)) : Prop :=
  reachable P w0 serve (fun _ => False) (fun _ => False) root s.

(** C5: The test suite as a whole.  Its tables are those of make_catalog.py,
    the test cases of the plugin [p] are tests of semaphores, and the kernel
    answers each process as one that implements the specification of
    semaphores, when it likes.  Then, in every interleaving of the runner and
    its test processes, every process that ends leaves status 0, and as long as
    one is alive, one can go on, unless the kernel delays a process. *)
Theorem semaphore_suite_system tests ps p prog s q pr :
  2 <= cpus <= 4096 -> wf_mask m m0 ms -> (length ms <= 127)%nat ->
  (forall i, test_kernel (KC i) (tid i) cpus (mask_text m m0 ms)) ->
  (forall sh i h c r sh', serve sh i h c = Some (r, sh') -> r = @kernel (KC i) h c) ->
  semaphore_suite tests p -> ps ≡ₚ plugin_set tests ->
  tr w0 = [] -> 0 < root -> reached (suite_runner tests ps prog p) s -> procs s !! q = Some pr ->
  match state pr with
  | Zombie st | Reaped st => st = 0
  | Running =>
      (exists s', step (suite_runner tests ps prog p) w0 serve (fun _ => False) (fun _ => False) s s') \/
      exists q' pr' c, procs s !! q' = Some pr' /\ next (suite_runner tests ps prog p) w0 (hist pr') = ACall c /\
        serve (shared s) q' (hist pr') c = None
  end.
Proof using.
  intros Hcpus Hmask Hms Hkernel Hserve Hsuite Hps Hw0 Hroot Hs Hq.
  pose proof (semaphore_suite_found _ _ _ Hsuite Hps) as Hfind. pose proof Hsuite as (_ & _ & _ & _ & Hop & _).
  pose proof (suite_statuses strsignal (linked_tests tests) (suites tests ps) prog _ _ w0 serve cpus m m0 ms Hcpus Hmask Hms
    KC tid Hkernel Hserve Hop Hfind (semaphore_suite_causal _ _ Hsuite) (semaphore_suite_cases _ _ Hsuite) Hw0 root Hroot
    s q pr) as Hst.
  destruct (state pr) as [|st|st] eqn:E; [|by apply Hst..].
  by eapply (suite_moves strsignal (linked_tests tests) (suites tests ps) prog _ _ w0 serve cpus m m0 ms Hcpus Hmask Hms
    KC tid Hkernel Hserve Hop Hfind (semaphore_suite_causal _ _ Hsuite) (semaphore_suite_cases _ _ Hsuite) Hw0 root Hroot).
Qed.
End tables.

(** ** The tests of nesting.c *)

Module SuiteSystemWitness.
Import Sim LockKernel LockTestsWitness EndToEndWitness.
#[local] Existing Instances k4 sim_header.

Definition no_name (_ : Z) : string := "".
Definition link_on (name : bytes) (K : Kernel) : M unit := @linked K sim_header 0 (0, 0) (0, 0) [] 0 name.
Definition serve (sh : unit) (p : Z) (h : trace) (c : call) : option (reply * unit) := Some (@kernel k4 h c, sh).

Lemma k4_tests : test_kernel k4 1000 4 (mask_text 1 15 []).
Proof. split; try apply _. exact k4_domain. Qed.

Lemma link_on_nesting tc K : tc ∈ nesting_cases -> link_on (tc_function tc) K ∈ @lock_tests K sim_header.
Proof.
  intros Hin. assert (link_on (tc_function tc) K ∈ map (fun tc => link_on (tc_function tc) K) nesting_cases) as H.
  { apply list_elem_of_fmap. by exists tc. }
  assert (map (fun tc => link_on (tc_function tc) K) nesting_cases =
    [test_lock_fmlp_nesting; test_lock_fmlp_srp_nesting; test_lock_srp_nesting; test_lock_pcp_nesting;
     test_lock_mpcp_pcp_no_nesting; test_lock_fmlp_pcp_no_nesting; test_lock_dpcp_pcp_no_nesting;
     test_lock_mpcp_srp_no_nesting; test_lock_dpcp_srp_no_nesting; test_lock_fmlp_mpcp_no_nesting;
     test_lock_fmlp_dpcp_no_nesting; test_mpcp_nesting; test_mpcpvs_nesting; test_dpcp_nesting;
     test_dflp_nesting; test_lock_fmlp_dflp_no_nesting; test_lock_dflp_pcp_no_nesting]) as E by reflexivity.
  rewrite E in H. unfold lock_tests. rewrite !elem_of_app. unfold nesting_tests, no_nesting_tests.
  rewrite !elem_of_cons in *. clear Hin E. tauto.
Qed.

Lemma nesting_suite : @semaphore_suite sim_header link_on nesting_cases (bytes_of "P_FP").
Proof.
  split; [|split; [done|split; [done|split; [|split; [done|split]]]]].
  - exists (d_case (declared "lock_fmlp_nesting" ["PSN_EDF"; "GSN_EDF"; "P_FP"] "FMLP no nesting allowed")).
    split; [by left|by right; right; left].
  - apply (bool_decide_unpack _). by vm_compute.
  - intros n K K'. exact (follows_linked 0 (0, 0) (0, 0) [] 0 n).
  - intros tc Htc _ K. by apply link_on_nesting.
Qed.

Definition nesting_runner : Kernel -> M Z :=
  suite_runner no_name link_on nesting_cases (plugin_set nesting_cases) "runtests" (bytes_of "P_FP").

(** The runner has just forked its first child. *)
Definition after_fork : system := execute nesting_runner w0 serve 4 1000 [1] (boot w0 1 tt).
Definition first_child : process := default (mk_process 0 0 [] Running) (procs after_fork !! 1001).

Lemma semaphore_suite_system_witness :
  (exists s', step nesting_runner w0 serve (fun _ => False) (fun _ => False) after_fork s') \/
  exists q' pr' c, procs after_fork !! q' = Some pr' /\ next nesting_runner w0 (hist pr') = ACall c /\
    serve (shared after_fork) q' (hist pr') c = None.
Proof.
  apply (@semaphore_suite_system sim_header no_name link_on unit serve w0 1 4 1 15 [] (fun _ => k4) (fun _ => 1000)
    nesting_cases (plugin_set nesting_cases) (bytes_of "P_FP") "runtests" after_fork 1001 first_child).
  - lia.
  - exact wf_k4.
  - cbn. lia.
  - intros _. exact k4_tests.
  - by intros sh i h c r sh' [= <- _].
  - exact nesting_suite.
  - done.
  - done.
  - done.
  - exists tt. apply execute_steps.
  - vm_compute. reflexivity.
Defined.

End SuiteSystemWitness.
