(* ===== verification/AdmissionSystem.v ===== *)
(** * The tests of admission control, as two processes

    [test_suspended_admission] and [test_running_admission] of tests/core_api.c
    fork a task and make it real-time, the first while the task waits on a
    pipe, the second while it polls its own policy.  Here the two processes run
    interleaved ([System], [Pairs]) on a kernel with a table of real-time tasks
    and a pipe that both share: in every interleaving both processes end with
    status 0, and none of them waits for ever. *)
From stdpp Require Import gmap relations.
From S2P Require Import Prelude Machine Causal System Pairs CString Laws Iface Syscalls Migration Litmus Clocks Runner Tests.
From S2P Require Import TestCoreApi LockSpec AdmissionTests Suite Causality RunnerSystem SuiteSystem.

(** ** What the processes ask for *)

(** Is the request with its answer one of those that are about the shared state
    or about processes?  A task that asks for its policy may have to ask again;
    only the answer it waits for counts. *)
Definition logged (c : call) (r : reply) : bool :=
  match c with
  | Pipe | Fork | Waitpid _ | Read _ _ | Write _ _ | NR_set_rt_task_param _ _ | NR_sched_setscheduler _ _ _
  | NR_complete_job => true
  | NR_sched_getscheduler _ => match r with Succ p => p =? SCHED_LITMUS | _ => false end
  | _ => false
  end.

Definition shared_log (t : trace) : list (call * reply) :=
  omap (fun e => match e with Sys c r => if logged c r then Some (c, r) else None | _ => None end) t.

Lemma shared_log_suffix t t' : t `suffix_of` t' -> shared_log t `suffix_of` shared_log t'.
Proof. intros [es ->]. unfold shared_log. rewrite omap_app. by apply suffix_app_r. Qed.

Lemma shared_log_sys c r t : shared_log (Sys c r :: t) = if logged c r then (c, r) :: shared_log t else shared_log t.
Proof. unfold shared_log. cbn [omap list_omap]. by destruct (logged c r). Qed.

Lemma shared_log_out e t : (forall c r, e <> Sys c r) -> shared_log (e :: t) = shared_log t.
Proof. intros He. destruct e as [c r| | |]; [by destruct (He c r)|done..]. Qed.

Lemma suffix_entry {A} (a : A) l L : a :: l `suffix_of` L -> rev L !! length l = Some a.
Proof.
  intros [k ->]. rewrite rev_app_distr. cbn [rev]. rewrite <- app_assoc, lookup_app_r by (by rewrite length_rev).
  by rewrite length_rev, Nat.sub_diag.
Qed.

Lemma about_shared t : about_processes t = omap (fun '(c, r) =>
  match c with Fork | Waitpid _ => Some (Sys c r) | _ => None end) (shared_log t).
Proof.
  induction t as [|e t IH]; [done|]. destruct e as [c r| | |]; [|exact IH..].
  rewrite shared_log_sys. destruct c; try exact IH; try (cbn; by f_equal).
  cbn [logged]. destruct r as [p| | |]; try exact IH. by destruct (p =? SCHED_LITMUS).
Qed.

Definition token : bytes := int_bytes 1234.
#[global] Arguments token : simpl never.

Section admission.
Context {H : KernelHeader} (pipefd : Z * Z) (status : Z) (rd wr : Z).

Definition admitted_param : rt_task :=
  set_period (set_exec_cost (with_cpu init_rt_task_param 0) (ms2ns 10)) (ms2ns 100).

(** A kernel that lets one of the processes pass; when [polls], the child may
    have to ask for its policy more than once. *)
Record passing_kernel (polls : bool) (K : Kernel) (p : Z) : Prop := {
  pk_pipe t : kernel t Pipe = Pair rd wr;
  pk_fork t : exists x, kernel t Fork = Succ x /\ 0 <= x;
  pk_wait t x : 0 < x -> kernel t (Waitpid x) = Pair x 0;
  pk_write t d : kernel t (Write wr d) = Succ (Z.of_nat (length d));
  pk_read t n : kernel t (Read rd n) = Data token;
  pk_param t i q : acceptable q = true -> kernel t (NR_set_rt_task_param i (Some q)) = Succ 0;
  pk_mode t i : kernel t (NR_sched_setscheduler i SCHED_LITMUS 0) = Succ 0;
  pk_asked t i : polls && is_child t = false -> kernel t (NR_sched_getscheduler i) = Succ SCHED_LITMUS;
  pk_polled t i : exists z, kernel t (NR_sched_getscheduler i) = Succ z /\ 0 <= z <= INT_MAX;
  pk_job t : kernel t NR_complete_job = Succ 0;
  pk_tid t : about_processes t <> [] -> kernel t NR_gettid = Succ p;
  pk_sleep t s n : kernel t (Nanosleep s n) = Succ 0;
  pk_allocates : Allocates K;
  pk_online : exists n, Online K n /\ -1 <= n <= INT_MAX;
}.

Lemma shared_log_migrate {K : Kernel} tid c : keeps shared_log (be_migrate_thread_to_cpu tid c).
Proof using. unfold be_migrate_thread_to_cpu. autounfold with litmus_causal. keeps_tac. Qed.

Lemma migrate_val polls K p w : passing_kernel polls K p ->
  exists ret w', @be_migrate_to_cpu K 0 w = (Val ret, w') /\ shared_log (tr w') = shared_log (tr w).
Proof using.
  intros PK. pose proof (pk_allocates _ _ _ PK) as AL. destruct (pk_online _ _ _ PK) as (n & ON & Hn).
  destruct (be_migrate_thread_to_cpu_run n 0 0 w AL ON Hn) as (ret & w' & Hrun & _). exists ret, w'.
  split; [exact Hrun|]. by apply (keeps_run _ _ _ _ _ (shared_log_migrate 0 0) Hrun).
Qed.

(** ** The task that waits on the pipe *)

(** The process of the test case, from its first statement to its end. *)
Definition suspended : Kernel -> M Z := fun K => @test_suspended_admission K H pipefd status;; exit_ 0.

(** What the parent and the task, with the process id [x], ask for. *)
Definition parent_log (x : Z) : list (call * reply) :=
  [(Waitpid x, Pair x 0); (Write wr token, Succ 4); (NR_sched_getscheduler x, Succ SCHED_LITMUS);
   (NR_sched_setscheduler x SCHED_LITMUS 0, Succ 0); (NR_set_rt_task_param x (Some admitted_param), Succ 0);
   (Fork, Succ x); (Pipe, Pair rd wr)].
Definition task_log (x : Z) : list (call * reply) :=
  [(NR_complete_job, Succ 0); (NR_complete_job, Succ 0); (NR_sched_getscheduler (s32 x), Succ SCHED_LITMUS);
   (Read rd 4, Data token); (Fork, Succ 0); (Pipe, Pair rd wr)].

(** The task, from the fork on. *)
Lemma suspended_task K p w : passing_kernel false K p -> kernel (Sys Pipe (Pair rd wr) :: tr w) Fork = Succ 0 ->
  exists w', suspended K w = (Exit 0, w') /\ shared_log (tr w') = task_log p ++ shared_log (tr w).
Proof using.
  intros PK Hfork. unfold suspended, test_suspended_admission, make_pipe, pipe, FORK_TASK, SYSCALL, ASSERT. mrun.
  rewrite (pk_pipe _ _ _ PK). cbn [ret_of]. mrun. cbn [Z.ltb Z.compare]. mrun. cbn [default from_option id fst snd]. mrun.
  rewrite Hfork. cbn [ret_of Z.eqb]. unfold gettid, syscall_int, read_int, read, sched_getscheduler, sleep_next_period. mrun.
  rewrite (pk_tid _ _ _ PK) by done. cbn [ret_of]. mrun. set (w1 := after NR_gettid _ _).
  destruct (migrate_val _ K p w1 PK) as (ret & w2 & H2 & L2). rewrite (bind_val _ _ _ _ _ H2). mrun.
  rewrite (pk_read _ _ _ PK). cbn [read_reply]. mrun.
  change (negb (int_of (overwrite 0 token (int_bytes 0)) =? 1234)) with false. cbn [Z.eqb negb]. mrun.
  unfold syscall_int. mrun. rewrite (pk_asked _ _ _ PK) by done. cbn [ret_of]. mrun.
  change (negb (s32 SCHED_LITMUS =? SCHED_LITMUS)) with false. mrun. unfold syscall_int.
  do 2 (mrun; rewrite (pk_job _ _ _ PK); cbn [ret_of]; mrun; change (s32 0 <? 0) with false; mrun).
  eexists. split; [done|]. rewrite !tr_after, !shared_log_sys. cbn [logged Z.eqb]. rewrite L2. done.
Qed.

(** The parent, from the fork on. *)
Lemma suspended_parent K p x w : passing_kernel false K p ->
  kernel (Sys Pipe (Pair rd wr) :: tr w) Fork = Succ x -> 0 < x ->
  exists w', suspended K w = (Exit 0, w') /\ shared_log (tr w') = parent_log x ++ shared_log (tr w).
Proof using.
  intros PK Hfork Hx. unfold suspended, test_suspended_admission, make_pipe, pipe, FORK_TASK, SYSCALL, ASSERT. mrun.
  rewrite (pk_pipe _ _ _ PK). cbn [ret_of]. mrun. cbn [Z.ltb Z.compare]. mrun. cbn [default from_option id fst snd]. mrun.
  rewrite Hfork. cbn [ret_of]. rewrite (proj2 (Z.eqb_neq x 0)) by lia. fold admitted_param.
  unfold lt_sleep. mrun. rewrite (pk_sleep _ _ _ PK). cbn [ret_of Z.ltb Z.compare]. mrun.
  unfold set_rt_task_param, sched_setscheduler, sched_getscheduler, syscall_int, write_int, wait_for, waitpid, SYSCALL.
  cbv zeta. mrun.
  rewrite (pk_param _ _ _ PK) by done. cbn [ret_of]. change (s32 0 <? 0) with false. mrun.
  rewrite (pk_mode _ _ _ PK). cbn [ret_of]. change (s32 0 <? 0) with false. mrun.
  rewrite (pk_asked _ _ _ PK) by done. cbn [ret_of]. change (negb (s32 SCHED_LITMUS =? SCHED_LITMUS)) with false. mrun.
  fold token. rewrite (pk_write _ _ _ PK). cbn [ret_of]. change (negb (Z.of_nat (length token) =? 4)) with false. mrun.
  rewrite (pk_wait _ _ _ PK) by done. mrun. rewrite (proj2 (Z.ltb_ge x 0)) by lia. mrun.
  cbn [default from_option id Z.eqb negb]. mrun.
  eexists. split; [done|]. by rewrite !tr_after.
Qed.

Lemma suspended_causal : causal suspended.
Proof using. intros K K'. unfold suspended, test_suspended_admission. causal_tac. Qed.

(** ** The task that polls *)

Definition running (fuel : nat) : Kernel -> M Z :=
  fun K => @test_running_admission K H fuel pipefd status;; exit_ 0.

Definition running_parent_log (x : Z) : list (call * reply) :=
  [(Waitpid x, Pair x 0); (NR_sched_getscheduler x, Succ SCHED_LITMUS);
   (NR_sched_setscheduler x SCHED_LITMUS 0, Succ 0); (NR_set_rt_task_param x (Some admitted_param), Succ 0);
   (Read rd 4, Data token); (Fork, Succ x); (Pipe, Pair rd wr)].
Definition running_task_log (x : Z) : list (call * reply) :=
  [(NR_complete_job, Succ 0); (NR_complete_job, Succ 0); (NR_sched_getscheduler (s32 x), Succ SCHED_LITMUS);
   (Write wr token, Succ 4); (Fork, Succ 0); (Pipe, Pair rd wr)].

(** How often the policy was asked for. *)
Definition asked (t : trace) : nat :=
  length (omap (fun e => match e with Sys (NR_sched_getscheduler _) _ => Some tt | _ => None end) t).

Lemma asked_migrate {K : Kernel} tid c : keeps asked (be_migrate_thread_to_cpu tid c).
Proof using. unfold be_migrate_thread_to_cpu. autounfold with litmus_causal. keeps_tac. Qed.

(** The task asks until it is real-time, or for as long as the fuel lasts. *)
Lemma sched_loop_run polls K p fuel child scheduler file line func w :
  passing_kernel polls K p -> scheduler <> SCHED_LITMUS ->
  (exists w', @sched_loop K fuel child scheduler file line func w = (Val tt, w') /\
     shared_log (tr w') = (NR_sched_getscheduler child, Succ SCHED_LITMUS) :: shared_log (tr w)) \/
  (exists w', @sched_loop K fuel child scheduler file line func w = (NoFuel, w') /\
     shared_log (tr w') = shared_log (tr w) /\ asked (tr w') = (fuel + asked (tr w))%nat).
Proof using.
  intros PK. revert scheduler w. induction fuel as [|fuel IH]; intros scheduler w Hs; cbn [sched_loop];
    rewrite (proj2 (Z.eqb_neq _ _) Hs); [right; by eexists|].
  unfold sched_getscheduler, syscall_int, SYSCALL. mrun.
  destruct (pk_polled _ _ _ PK (tr w) child) as (z & Hz & Hr). rewrite Hz. cbn [ret_of].
  rewrite (wrap_s_small 32 z) by (unfold INT_MAX in Hr; lia). mrun. rewrite (proj2 (Z.ltb_ge z 0)) by lia. mrun.
  destruct (decide (z = SCHED_LITMUS)) as [->|Hne].
  - left. eexists. split; [by destruct fuel|]. by rewrite tr_after, shared_log_sys.
  - assert (shared_log (tr (after (NR_sched_getscheduler child) (Succ z) w)) = shared_log (tr w)) as L0.
    { rewrite tr_after, shared_log_sys. cbn [logged]. by rewrite (proj2 (Z.eqb_neq _ _) Hne). }
    destruct (IH z (after (NR_sched_getscheduler child) (Succ z) w) Hne) as [(w' & -> & L)|(w' & -> & L & Hk)]; [left|right];
      exists w'; rewrite L, L0; [done|]. split_and!; [done|done|]. rewrite Hk, tr_after.
    change (asked (Sys (NR_sched_getscheduler child) (Succ z) :: tr w)) with (Datatypes.S (asked (tr w))). lia.
Qed.

(** The task, from the fork on; it may have used up its fuel while it polled. *)
Lemma running_task fuel K p w : passing_kernel true K p -> kernel (Sys Pipe (Pair rd wr) :: tr w) Fork = Succ 0 ->
  exists o w', running fuel K w = (o, w') /\
    (o = Exit 0 /\ shared_log (tr w') = running_task_log p ++ shared_log (tr w) \/
     o = NoFuel /\ asked (tr w') = (fuel + asked (tr w))%nat /\
     shared_log (tr w') = [(Write wr token, Succ 4); (Fork, Succ 0); (Pipe, Pair rd wr)] ++ shared_log (tr w)).
Proof using.
  intros PK Hfork. unfold running, test_running_admission, make_pipe, pipe, FORK_TASK, SYSCALL, ASSERT. mrun.
  rewrite (pk_pipe _ _ _ PK). cbn [ret_of]. mrun. cbn [Z.ltb Z.compare]. mrun. cbn [default from_option id fst snd]. mrun.
  rewrite Hfork. cbn [ret_of Z.eqb]. unfold gettid, syscall_int, write_int, sleep_next_period. mrun.
  rewrite (pk_tid _ _ _ PK) by done. cbn [ret_of]. mrun. set (w1 := after NR_gettid _ _).
  destruct (migrate_val _ K p w1 PK) as (ret & w2 & H2 & L2). rewrite (bind_val _ _ _ _ _ H2). mrun. fold token.
  rewrite (pk_write _ _ _ PK). cbn [ret_of]. change (negb (Z.of_nat (length token) =? 4)) with false. mrun.
  set (w3 := after (Write wr token) _ w2).
  assert (shared_log (tr w3) = [(Write wr token, Succ 4); (Fork, Succ 0); (Pipe, Pair rd wr)] ++ shared_log (tr w)) as L3.
  { unfold w3. rewrite tr_after, shared_log_sys. cbn [logged]. by rewrite L2. }
  destruct (sched_loop_run true K p fuel (s32 p) (-1) FILE 252 "test_running_admission" w3 PK) as [(w4 & H4 & L4)|(w4 & H4 & L4 & Hk)];
    [done| |].
  - rewrite (bind_val _ _ _ _ _ H4). unfold syscall_int.
    do 2 (mrun; rewrite (pk_job _ _ _ PK); cbn [ret_of]; mrun; change (s32 0 <? 0) with false; mrun).
    eexists _, _. split; [done|left]. split; [done|]. rewrite !tr_after, !shared_log_sys. cbn [logged]. rewrite L4, L3. done.
  - unfold mbind, M_bind. rewrite H4. eexists _, _. split; [done|right]. split; [done|]. rewrite L4. split; [|done].
    assert (asked (tr w2) = asked (tr w1)) as E2 by apply (keeps_run _ _ _ _ _ (asked_migrate 0 0) H2).
    rewrite Hk. unfold w3. rewrite tr_after. change (asked (Sys (Write wr token) _ :: tr w2)) with (asked (tr w2)). by rewrite E2.
Qed.

(** The parent, from the fork on. *)
Lemma running_parent fuel K p x w : passing_kernel true K p -> is_child (tr w) = false ->
  kernel (Sys Pipe (Pair rd wr) :: tr w) Fork = Succ x -> 0 < x ->
  exists w', running fuel K w = (Exit 0, w') /\ shared_log (tr w') = running_parent_log x ++ shared_log (tr w).
Proof using.
  intros PK Hno Hfork Hx. unfold running, test_running_admission, make_pipe, pipe, FORK_TASK, SYSCALL, ASSERT. mrun.
  rewrite (pk_pipe _ _ _ PK). cbn [ret_of]. mrun. cbn [Z.ltb Z.compare]. mrun. cbn [default from_option id fst snd]. mrun.
  rewrite Hfork. cbn [ret_of]. rewrite (proj2 (Z.eqb_neq x 0)) by lia. fold admitted_param.
  unfold read_int, read. mrun. rewrite (pk_read _ _ _ PK). cbn [read_reply]. mrun.
  change (negb (int_of (overwrite 0 token (int_bytes 0)) =? 1234)) with false. cbn [Z.eqb negb]. mrun.
  unfold lt_sleep. mrun. rewrite (pk_sleep _ _ _ PK). cbn [ret_of Z.ltb Z.compare]. mrun.
  unfold set_rt_task_param, sched_setscheduler, sched_getscheduler, syscall_int, wait_for, waitpid, SYSCALL.
  cbv zeta. mrun.
  rewrite (pk_param _ _ _ PK) by done. cbn [ret_of]. change (s32 0 <? 0) with false. mrun.
  rewrite (pk_mode _ _ _ PK). cbn [ret_of]. change (s32 0 <? 0) with false. mrun.
  rewrite (pk_asked _ _ _ PK); cycle 1.
  { cbn [andb is_child existsb]. rewrite (proj2 (Z.eqb_neq x 0)) by lia. exact Hno. }
  cbn [ret_of]. change (negb (s32 SCHED_LITMUS =? SCHED_LITMUS)) with false. mrun.
  rewrite (pk_wait _ _ _ PK) by done. mrun. rewrite (proj2 (Z.ltb_ge x 0)) by lia. mrun.
  cbn [default from_option id Z.eqb negb]. mrun.
  eexists. split; [done|]. by rewrite !tr_after.
Qed.

#[local] Hint Resolve follows_sched_loop : litmus_follows.

Lemma running_causal fuel : causal (running fuel).
Proof using. intros K K'. unfold running, test_running_admission. causal_tac. Qed.
End admission.

(** ** The kernel *)

(** What the processes share: who is a real-time task, who has parameters the
    kernel accepts, and the bytes in the pipe.  The kernel knows a task by an
    [int]. *)
Record sched_state := mk_sched { real_time : Z -> bool; admissible : Z -> bool; queue : bytes }.

Section kernel.
Context (rd wr : Z) (KC : Z -> Kernel) (root : Z) (polls : bool).

(** What a request changes. *)
Definition effect (c : call) (v : sched_state) : sched_state :=
  match c with
  | Pipe => mk_sched (real_time v) (admissible v) []
  | Write fd d => if fd =? wr then mk_sched (real_time v) (admissible v) (queue v ++ d) else v
  | Read fd n => if fd =? rd then mk_sched (real_time v) (admissible v) (drop (Z.to_nat n) (queue v)) else v
  | NR_set_rt_task_param i (Some q) =>
      if acceptable q then mk_sched (real_time v) (fun j => (j =? s32 i) || admissible v j) (queue v) else v
  | NR_sched_setscheduler i pol _ =>
      if negb (pol =? SCHED_LITMUS) || admissible v (s32 i)
      then mk_sched (fun j => if j =? s32 i then pol =? SCHED_LITMUS else real_time v j) (admissible v) (queue v) else v
  | _ => v
  end.

(** What is known of the answer to process [p]: a task with acceptable
    parameters can be made real-time, a real-time task has jobs, a pipe is read
    when it is not empty.  Other requests are answered as [KC p] does. *)
Definition reply_law (v : sched_state) (p : Z) (h : trace) (c : call) (r : reply) : Prop :=
  match c with
  | Pipe => r = Pair rd wr
  | Write fd d => fd = wr -> r = Succ (Z.of_nat (length d))
  | Read fd n => fd = rd -> queue v <> [] /\ r = Data (take (Z.to_nat n) (queue v))
  | NR_set_rt_task_param i (Some q) => acceptable q = true -> r = Succ 0
  | NR_sched_setscheduler i pol _ => pol = SCHED_LITMUS -> admissible v (s32 i) = true -> r = Succ 0
  | NR_sched_getscheduler i => exists z, r = Succ z /\ 0 <= z <= INT_MAX /\ (z =? SCHED_LITMUS) = real_time v (s32 i)
  | NR_complete_job => real_time v (s32 p) = true -> r = Succ 0
  | NR_gettid => r = Succ p
  | c => r = @kernel (KC p) h c
  end.

(** What each process of a test is told. *)
Definition answer (p : Z) (h : trace) (c : call) (r : reply) : Prop :=
  match c with
  | Pipe => r = Pair rd wr
  | Fork => exists x, r = Succ x /\ 0 <= x
  | Waitpid x => 0 < x -> r = Pair x 0
  | Write fd d => fd = wr -> r = Succ (Z.of_nat (length d))
  | Read fd n => fd = rd -> r = Data token
  | NR_set_rt_task_param i (Some q) => acceptable q = true -> r = Succ 0
  | NR_sched_setscheduler i pol _ => pol = SCHED_LITMUS -> r = Succ 0
  | NR_sched_getscheduler i =>
      if polls && is_child h then exists z, r = Succ z /\ 0 <= z <= INT_MAX else r = Succ SCHED_LITMUS
  | NR_complete_job => r = Succ 0
  | NR_gettid => r = Succ (owner root p h)
  | c => r = @kernel (KC (owner root p h)) h c
  end.

Definition fallback (p : Z) : Kernel := fun u c =>
  match c with
  | Pipe => Pair rd wr
  | Fork => Succ 1
  | Waitpid x => Pair x 0
  | Write _ d => Succ (Z.of_nat (length d))
  | Read _ _ => Data token
  | NR_set_rt_task_param _ (Some _) | NR_sched_setscheduler _ _ _ | NR_complete_job => Succ 0
  | NR_sched_getscheduler _ => Succ SCHED_LITMUS
  | NR_gettid => Succ (owner root p u)
  | c => @kernel (KC (owner root p u)) u c
  end.

(** The rest of the kernel: memory, processors and sleep. *)
Definition runs_tests : Prop := (forall p, Allocates (KC p)) /\
  (exists n, (forall p, Online (KC p) n) /\ -1 <= n <= INT_MAX) /\
  forall p t s n, @kernel (KC p) t (Nanosleep s n) = Succ 0.

Hypothesis HKC : runs_tests.

Abbreviation law := (lawful answer).

Lemma fallback_answers p u c : answer p u c (fallback p u c).
Proof using.
  destruct c; try done; [by exists 1|by destruct param|]. cbn [answer fallback].
  destruct (polls && is_child u); [by exists SCHED_LITMUS|done].
Qed.

Lemma lawful_answer p h u c : law p h -> answer p u c (@kernel (replay h (fallback p)) u c).
Proof using.
  intros L. unfold kernel, replay. destruct (recorded h u c) as [r|] eqn:E; [|apply fallback_answers].
  apply recorded_spec in E. by apply L.
Qed.

Lemma lawful_passing p h : law p h -> passing_kernel rd wr polls (replay h (fallback p)) p.
Proof using HKC.
  intros L. destruct HKC as (AL & (n & ON & Hn) & Hsleep).
  pose proof (fun u c => lawful_answer p h u c L) as A. split.
  - intros t. exact (A t Pipe).
  - intros t. exact (A t Fork).
  - intros t x Hx. exact (A t (Waitpid x) Hx).
  - intros t d. exact (A t (Write wr d) eq_refl).
  - intros t k. exact (A t (Read rd k) eq_refl).
  - intros t i q Hq. exact (A t (NR_set_rt_task_param i (Some q)) Hq).
  - intros t i. exact (A t (NR_sched_setscheduler i SCHED_LITMUS 0) eq_refl).
  - intros t i Hc. pose proof (A t (NR_sched_getscheduler i)) as E. cbn [answer] in E. by rewrite Hc in E.
  - intros t i. pose proof (A t (NR_sched_getscheduler i)) as E. cbn [answer] in E.
    destruct (_ && _); [done|]. by exists SCHED_LITMUS.
  - intros t. exact (A t NR_complete_job).
  - intros t Ht. pose proof (A t NR_gettid) as E. cbn [answer] in E. unfold owner in E. by destruct (about_processes t).
  - intros t s k. pose proof (A t (Nanosleep s k)) as E. cbn [answer] in E. rewrite E. apply Hsleep.
  - intros t k. pose proof (A t (Malloc k)) as E. cbn [answer] in E. rewrite E. apply AL.
  - exists n. split; [|done]. intros t. pose proof (A t (Sysconf SC_NPROCESSORS_ONLN)) as E. cbn [answer] in E.
    rewrite E. apply ON.
Qed.
End kernel.

(** ** A test of two processes on this kernel *)

(** What a test has to promise: its processes ask for what the two logs say,
    and what the parent and the task, when they have come to the positions [np]
    and [nt] of their logs, know of the shared state ([meets]) is enough for
    the answers the logs say. *)
Class Rendezvous (rd wr : Z) (KC : Z -> Kernel) (root : Z) (polls : bool) (P : Kernel -> M Z) (w0 : world)
    (plog tlog : Z -> list (call * reply)) (meets : sched_state -> Z -> nat -> nat -> Prop) : Prop := {
  rv_causal : causal P;
  rv_start : tr w0 = [];
  rv_run K p : passing_kernel rd wr polls K p -> exists o x w', P K w0 = (o, w') /\ 0 <= x /\
    about_processes (tr w') = process_log x /\
    let log := if x =? 0 then tlog p else plog x in
    (o = Exit 0 /\ shared_log (tr w') = log \/ o = NoFuel /\ shared_log (tr w') `suffix_of` log);
  rv_parent_first x : exists l, plog x = l ++ [(Fork, Succ x); (Pipe, Pair rd wr)];
  rv_task_first x : exists l, tlog x = l ++ [(Fork, Succ 0); (Pipe, Pair rd wr)];
  rv_meet v x : 0 < x -> queue v = [] -> meets v x 2%nat 2%nat;
  rv_wait v x r np nt : rev (plog x) !! np = Some (Waitpid x, r) -> meets v x np nt -> meets v x (Datatypes.S np) nt;
  rv_parent v x h c r r' np nt : 0 < x -> (2 <= np)%nat -> meets v x np nt -> rev (plog x) !! np = Some (c, r') ->
    process_call c = false -> reply_law rd wr KC v root h c r ->
    answer rd wr KC root polls root h c r /\ logged c r = true /\ meets (effect rd wr c v) x (Datatypes.S np) nt;
  rv_task v x h c r r' np nt : (2 <= nt)%nat -> meets v x np nt -> rev (tlog x) !! nt = Some (c, r') ->
    process_call c = false -> is_child h = true -> reply_law rd wr KC v x h c r ->
    answer rd wr KC root polls x h c r /\ meets (effect rd wr c v) x np (if logged c r then Datatypes.S nt else nt);
}.

Section rendezvous.
Context {rd wr : Z} {KC : Z -> Kernel} {root : Z} {polls : bool} {P : Kernel -> M Z} {w0 : world}.
Context {plog tlog : Z -> list (call * reply)} {meets : sched_state -> Z -> nat -> nat -> Prop}.
Context {R : Rendezvous rd wr KC root polls P w0 plog tlog meets} (HKC : runs_tests KC) (Hroot : 0 < root).
Context {Sh : Type} (serve : Sh -> Z -> trace -> call -> option (reply * Sh)) (view : Sh -> sched_state).
Hypothesis Hserve : forall sh p h c r sh', serve sh p h c = Some (r, sh') ->
  reply_law rd wr KC (view sh) p h c r /\ view sh' = effect rd wr c (view sh).

Abbreviation says := (answer rd wr KC root polls).
Abbreviation law := (lawful says).
Abbreviation canonical := (fallback rd wr KC root).

Definition log_of (p x : Z) : list (call * reply) := if x =? 0 then tlog p else plog x.

Lemma lawful_course p h : law p h -> history P w0 h -> exists o x w',
  answers (replay h (canonical p)) (tr w0) h /\ P (replay h (canonical p)) w0 = (o, w') /\ 0 <= x /\
  about_processes (tr w') = process_log x /\
  (o = Exit 0 /\ shared_log (tr w') = log_of p x \/ o = NoFuel /\ shared_log (tr w') `suffix_of` log_of p x) /\
  h `suffix_of` tr w'.
Proof using R HKC.
  intros L [_ Hh]. destruct (rv_run _ p (lawful_passing rd wr KC root polls HKC p h L))
    as (o & x & w' & Hrun & Hx & Ha & Hl).
  pose proof (replay_answers h (canonical p) (tr w0)) as HK. specialize (Hh _ HK). rewrite Hrun in Hh.
  exists o, x, w'. by split_and!.
Qed.

(** The request a process is about to make, if it counts, is the next of its log. *)
Lemma lawful_log p h c r : law p h -> history P w0 h -> next P w0 h = ACall c -> says p h c r -> logged c r = true ->
  exists x, 0 <= x /\ about_processes (Sys c r :: h) `suffix_of` process_log x /\
    shared_log h `suffix_of` log_of p x /\ rev (log_of p x) !! length (shared_log h) = Some (c, r).
Proof using R HKC.
  intros L Hh Hn Hans Hc.
  destruct (lawful_course p (Sys c r :: h)) as (o & x & w' & _ & _ & Hx & Ha & Hl & Hs).
  { by apply lawful_call. }
  { apply history_call; [apply rv_causal|done..]. }
  assert (shared_log (Sys c r :: h) `suffix_of` log_of p x) as Hlog.
  { destruct Hl as [[_ <-]|[_ Hl]]; [by apply shared_log_suffix|]. etrans; [|exact Hl]. by apply shared_log_suffix. }
  rewrite shared_log_sys, Hc in Hlog. exists x. split_and!; [done| | |by apply suffix_entry].
  - rewrite <- Ha. by apply about_processes_suffix.
  - by apply suffix_cons_l in Hlog.
Qed.

Lemma log_first p x : exists l, log_of p x = l ++ [(Fork, Succ x); (Pipe, Pair rd wr)].
Proof using R.
  unfold log_of. destruct (Z.eqb_spec x 0) as [->|]; [apply rv_task_first|apply rv_parent_first].
Qed.

Lemma log_head p x n : rev (log_of p x) !! n = match n with
  | O => Some (Pipe, Pair rd wr) | 1%nat => Some (Fork, Succ x) | _ => rev (log_of p x) !! n end.
Proof using R. destruct (log_first p x) as [l ->]. rewrite rev_app_distr. by destruct n as [|[|n]]. Qed.

(** Before the fork there is only the pipe. *)
Lemma log_unforked p x h : shared_log h `suffix_of` log_of p x -> about_processes h = [] -> (length (shared_log h) < 2)%nat.
Proof using R.
  intros Hs Ha. destruct (Nat.lt_ge_cases (length (shared_log h)) 2) as [?|Hge]; [done|exfalso].
  destruct (log_first p x) as [l E]. rewrite E in Hs.
  assert ([(Fork, Succ x); (Pipe, Pair rd wr)] `suffix_of` shared_log h) as [k Hu].
  { destruct (suffix_weak_total _ _ _ (ex_intro _ l eq_refl) Hs) as [Hu|Hu]; [exact Hu|].
    by rewrite (suffix_length_eq _ _ Hu Hge). }
  rewrite about_shared, Hu, omap_app in Ha. apply app_eq_nil in Ha as [_ [=]].
Qed.

(** *** What the processes and the shared state have to do with each other *)

Definition steps_of (h : trace) : nat := length (shared_log h).

Definition meeting (sh : Sh) (h : trace) (k : option (Z * trace)) : Prop :=
  match k with
  | None => queue (view sh) = [] \/ shared_log h = []
  | Some (x, hx) => (2 <= steps_of h)%nat /\ (2 <= steps_of hx)%nat /\ meets (view sh) x (steps_of h) (steps_of hx)
  end.

Lemma steps_of_sys c r h : steps_of (Sys c r :: h) = if logged c r then Datatypes.S (steps_of h) else steps_of h.
Proof using. unfold steps_of. rewrite shared_log_sys. by destruct (logged c r). Qed.

(** Requests that do not count. *)
Lemma other_law v p h c r : logged c (canonical p h c) = false -> owner root p h = p -> reply_law rd wr KC v p h c r ->
  says p h c r /\ logged c r = false /\ effect rd wr c v = v.
Proof using. intros Hc Ho Hr. destruct c; try done; cbn [answer reply_law] in *; by rewrite Ho. Qed.

Lemma lawful_canonical p h c : law p h -> history P w0 h -> next P w0 h = ACall c -> logged c (canonical p h c) = true ->
  exists x, 0 <= x /\ about_processes (Sys c (canonical p h c) :: h) `suffix_of` process_log x /\
    shared_log h `suffix_of` log_of p x /\ rev (log_of p x) !! steps_of h = Some (c, canonical p h c).
Proof using R HKC. intros L Hh Hn. apply lawful_log; [done..|]. apply fallback_answers. Qed.

Lemma about_nil c r h : about_processes (Sys c r :: h) = [] -> about_processes h = [].
Proof using. by destruct c. Qed.

Lemma about_later e c r h : e ∈ about_processes h -> e ∈ about_processes (Sys c r :: h).
Proof using. intros He. destruct c; try exact He; by right. Qed.

Lemma meeting_parent sh h k c r sh' : law root h -> history P w0 h -> next P w0 h = ACall c -> process_call c = false ->
  meeting sh h k -> match k with None => about_processes h = [] | Some (x, _) => 0 < x /\ Sys Fork (Succ x) ∈ about_processes h end ->
  serve sh root h c = Some (r, sh') -> says root h c r /\ meeting sh' (Sys c r :: h) k.
Proof using R HKC Hserve.
  intros L Hh Hn Hc J Hk [Hr Hv]%Hserve. destruct (logged c (canonical root h c)) eqn:Hlog; cycle 1.
  { destruct (other_law _ root h c r Hlog (owner_root root h) Hr) as (Ha & Hl & He). split; [done|]. unfold meeting in *.
    rewrite Hv, He, shared_log_sys, steps_of_sys, Hl. exact J. }
  destruct (lawful_canonical root h c L Hh Hn Hlog) as (y & Hy & Ha & Hs & E).
  destruct k as [[x hx]|].
  - destruct Hk as [Hx Hf]. assert (x = y) as <-.
    { eapply process_log_fork; [|exact Ha]. by apply about_later. }
    unfold log_of in E. rewrite (proj2 (Z.eqb_neq x 0)) in E by lia. destruct J as (J1 & J2 & J3).
    destruct (rv_parent _ x h c r _ _ _ Hx J1 J3 E Hc Hr) as (Hans & Hl & Hm). split; [done|].
    unfold meeting. rewrite Hv, steps_of_sys, Hl. split_and!; [lia|done|done].
  - pose proof (log_unforked root y h Hs Hk) as Hlt. fold (steps_of h) in Hlt. rewrite log_head in E.
    destruct (steps_of h) as [|[|n]]; [| |lia]; injection E as <- _; [|done].
    cbn [reply_law answer effect] in *. split; [done|]. left. by rewrite Hv.
Qed.

Lemma meeting_task sh h x hx c r sh' : law x hx -> history P w0 hx -> next P w0 hx = ACall c -> process_call c = false ->
  meeting sh h (Some (x, hx)) -> 0 < x -> about_processes hx = [Sys Fork (Succ 0)] ->
  serve sh x hx c = Some (r, sh') -> says x hx c r /\ meeting sh' h (Some (x, Sys c r :: hx)).
Proof using R HKC Hserve.
  intros L Hh Hn Hc (J1 & J2 & J3) Hx Hf [Hr Hv]%Hserve. unfold meeting.
  destruct (logged c (canonical x hx c)) eqn:Hlog; cycle 1.
  { assert (owner root x hx = x) as Ho by (unfold owner; by rewrite Hf).
    destruct (other_law _ x hx c r Hlog Ho Hr) as (Ha & Hl & He). split; [done|]. by rewrite Hv, He, steps_of_sys, Hl. }
  destruct (lawful_canonical x hx c L Hh Hn Hlog) as (y & Hy & Ha & Hs & E).
  assert (0 = y) as <-.
  { eapply process_log_fork; [|exact Ha]. apply about_later. rewrite Hf. by left. }
  change (log_of x 0) with (tlog x) in E.
  destruct (rv_task _ x hx c r _ _ _ J2 J3 E Hc) as (Hans & Hm); [by rewrite is_child_about, Hf|done|]. split; [done|].
  rewrite Hv, steps_of_sys. split_and!; [done| |done]. destruct (logged c r); lia.
Qed.

Lemma meeting_fork sh h x : 0 < x -> law root h -> history P w0 h -> next P w0 h = ACall Fork -> about_processes h = [] ->
  meeting sh h None -> meeting sh (Sys Fork (Succ x) :: h) (Some (x, Sys Fork (Succ 0) :: h)).
Proof using R HKC.
  intros Hx L Hh Hn Ha J. destruct (lawful_canonical root h Fork L Hh Hn eq_refl) as (y & Hy & _ & Hs & E).
  pose proof (log_unforked root y h Hs Ha) as Hlt. fold (steps_of h) in Hlt. rewrite log_head in E.
  unfold meeting. rewrite !steps_of_sys. cbn [logged].
  destruct (steps_of h) as [|[|n]] eqn:Hst; [done| |lia]. split_and!; [lia..|]. apply rv_meet; [done|].
  destruct J as [J|J]; [done|]. unfold steps_of in Hst. by rewrite J in Hst.
Qed.

Lemma meeting_wait sh h x hx : law root h -> history P w0 h -> next P w0 h = ACall (Waitpid x) -> 0 < x ->
  meeting sh h (Some (x, hx)) -> meeting sh (Sys (Waitpid x) (Pair x 0) :: h) (Some (x, hx)).
Proof using R HKC.
  intros L Hh Hn Hx (J1 & J2 & J3). destruct (lawful_canonical root h _ L Hh Hn eq_refl) as (y & Hy & Ha & _ & E).
  apply (process_log_wait x y (Pair x 0) (about_processes h)) in Ha as (<- & Hy0 & _).
  unfold log_of in E. rewrite (proj2 (Z.eqb_neq x 0)) in E by done.
  unfold meeting. rewrite steps_of_sys. cbn [logged]. split_and!; [lia|done|]. by eapply rv_wait.
Qed.

#[export] Instance admission_duet : Duet P w0 serve root (fun _ => True) says meeting.
Proof using R HKC Hserve Hroot.
  split.
  - apply rv_causal.
  - apply rv_start.
  - exact Hroot.
  - intros u x Hx _ _. exists x. split; [done|lia].
  - intros p u _ _ _. by exists 0.
  - intros p u x Hx. by intros _.
  - intros p u c r Hu%about_nil Hr. assert (owner root p u = owner root root u) as E by (unfold owner; by rewrite Hu).
    destruct c; try exact Hr; cbn [answer] in *; by rewrite E.
  - intros p h L. destruct (rv_run _ p (lawful_passing rd wr KC root polls HKC p h L)) as (o & x & w' & Hrun & Hx & Ha & Hl).
    exists (replay h (canonical p)), o, w', x. split_and!; [apply replay_answers|done| |done..].
    destruct Hl as [[-> _]|[-> _]]; [by left|by right].
  - intros sh. by right.
  - intros sh h k e He J. destruct k as [[x hx]|]; unfold meeting, steps_of in *; by rewrite shared_log_out.
  - intros sh h x hx e He J. unfold meeting, steps_of in *; by rewrite shared_log_out.
  - intros. by apply meeting_fork.
  - intros. by apply meeting_wait.
  - intros. by eapply meeting_parent.
  - intros. by eapply meeting_task.
Qed.

(** *** Progress *)

(** The kernel answers everything but a read of an empty pipe. *)
Hypothesis Hprompt : forall sh p h c, serve sh p h c = None -> exists n, c = Read rd n /\ queue (view sh) = [].

(** An entry that is neither a read nor a wait. *)
Definition quiet_at (e : option (call * reply)) : Prop :=
  match e with Some (Read _ _, _) | Some (Waitpid _, _) => False | _ => True end.

(** Who reads an empty pipe is not the last one: the other process has not come
    to its end, and does not read or wait. *)
Definition reads_first : Prop := forall v x np nt k r, 0 < x -> meets v x np nt -> queue v = [] ->
  (rev (plog x) !! np = Some (Read rd k, r) ->
     (nt < length (tlog x))%nat /\ quiet_at (rev (tlog x) !! nt)) /\
  (rev (tlog x) !! nt = Some (Read rd k, r) -> (np < length (plog x))%nat /\ quiet_at (rev (plog x) !! np)).

Let none (_ : Z) : Prop := False.
Abbreviation moves := (step P w0 serve none none).
Abbreviation reached := (reachable P w0 serve none none root).
Abbreviation couple := (pair (root := root) (joint := meeting)).

(** Where a process stands that is about to make a request that counts. *)
Lemma placed s p q c : reached s -> procs s !! p = Some q -> next P w0 (hist q) = ACall c ->
  logged c (canonical p (hist q) c) = true -> c = Pipe \/ c = Fork \/ exists x qr qx, couple s x qr qx /\
    (p = root /\ q = qr /\ rev (plog x) !! steps_of (hist q) = Some (c, canonical p (hist q) c) \/
     p = x /\ q = qx /\ rev (tlog x) !! steps_of (hist q) = Some (c, canonical p (hist q) c)).
Proof using R HKC Hserve Hroot.
  intros Hs Hq Hn Hc. destruct (duet_lawful s p q Hs (any_ids s) Hq) as [L Hh].
  destruct (lawful_canonical p (hist q) c L Hh Hn Hc) as (y & Hy & Ha & Hl & E).
  destruct (duet_good s Hs (any_ids s)) as [_ [(qr & Hal)|(x & qr & qx & Hp)]].
  - destruct (alone_is s qr p q Hal Hq) as [-> ->]. destruct Hal as (_ & _ & Hab & _).
    pose proof (log_unforked root y _ Hl Hab) as Hlt. fold (steps_of (hist qr)) in Hlt. rewrite log_head in E.
    destruct (steps_of (hist qr)) as [|[|n]]; [| |lia]; injection E as <- _; auto.
  - right; right. exists x, qr, qx. split; [exact Hp|]. pose proof Hp as (Hx & _ & _ & _ & _ & Hfr & Hfx & _).
    destruct (pair_is s x qr qx p q Hp Hq) as [[-> ->]|[-> ->]]; [left|right]; (split_and!; [done..|]).
    + assert (x = y) as <- by (eapply process_log_fork; [|exact Ha]; by apply about_later).
      unfold log_of in E. by rewrite (proj2 (Z.eqb_neq x 0)) in E by lia.
    + assert (0 = y) as <-; [|exact E]. eapply process_log_fork; [|exact Ha]. apply about_later. rewrite Hfx. by left.
Qed.

(** A process that has come to its end has done all it had to, but for one that
    used up its fuel. *)
Lemma lawful_over p h o : law p h -> history P w0 h -> next P w0 h = AEnd o ->
  o = NoFuel \/ exists x, about_processes h = process_log x /\ shared_log h = log_of p x.
Proof using R HKC.
  intros L Hh Hn. destruct (lawful_course p h L Hh) as (o' & x & w' & HK & Hrun & _ & Ha & Hl & _).
  destruct (history_end P rv_causal w0 h o Hh Hn _ HK) as (w & Hw & <-). rewrite Hrun in Hw. injection Hw as -> ->.
  destruct Hl as [[-> Hl]|[-> _]]; [right|by left]. by exists x.
Qed.

(** A process of the pair that neither reads nor waits goes on. *)
Lemma free_moves s p q : reached s -> procs s !! p = Some q ->
  (forall o, next P w0 (hist q) = AEnd o -> o = NoFuel) ->
  (forall k, next P w0 (hist q) <> ACall (Read rd k)) -> (forall y, next P w0 (hist q) <> ACall (Waitpid y)) ->
  (exists s', moves s s') \/ state q = Running /\ next P w0 (hist q) = AEnd NoFuel.
Proof using R HKC Hserve Hroot Hprompt.
  intros Hs Hq Ho Hread Hwait. assert (state q = Running) as Hr.
  { destruct (state q) as [|st|st] eqn:E; [done|exfalso..].
    all: destruct (sound_status _ _ _ _ _ _ _ (reached_sound s Hs _ _ Hq) st) as [(o & Hn & Hex)|[[] _]]; [by rewrite E|].
    all: by rewrite (Ho o Hn) in Hex. }
  destruct (next P w0 (hist q)) as [c|e|o] eqn:Hn.
  - left. destruct (process_call c) eqn:Hc.
    + destruct c; try done; [|by destruct (Hwait pid)].
      destruct (fresh_pid (procs s)) as (child & Hpos & Hnew). eexists. by eapply step_fork.
    + destruct (serve (shared s) p (hist q) c) as [[r sh]|] eqn:Hsv; [eexists; by eapply step_serve|].
      destruct (Hprompt _ _ _ _ Hsv) as (k & -> & _). by destruct (Hread k).
  - left. eexists. by eapply step_out.
  - right. by rewrite (Ho o).
Qed.

(** The same for one of the pair, by what stands in its log. *)
Lemma partner_moves s p q x : reached s -> procs s !! p = Some q ->
  (forall y, about_processes (hist q) `suffix_of` process_log y -> y = x) ->
  (steps_of (hist q) < length (log_of p x))%nat ->
  quiet_at (rev (log_of p x) !! steps_of (hist q)) ->
  (exists s', moves s s') \/ state q = Running /\ next P w0 (hist q) = AEnd NoFuel.
Proof using R HKC Hserve Hroot Hprompt.
  intros Hs Hq Huniq Hlt Hquiet. destruct (duet_lawful s p q Hs (any_ids s) Hq) as [L Hh].
  assert (forall c, next P w0 (hist q) = ACall c -> logged c (canonical p (hist q) c) = true ->
    about_processes (Sys c (canonical p (hist q) c) :: hist q) `suffix_of` process_log x /\
    rev (log_of p x) !! steps_of (hist q) = Some (c, canonical p (hist q) c)) as Hat.
  { intros c Hn Hc. destruct (lawful_canonical p _ c L Hh Hn Hc) as (y & _ & Ha & _ & E).
    assert (y = x) as ->; [|done]. apply Huniq. etrans; [|exact Ha]. apply about_processes_suffix. by apply suffix_cons_r. }
  apply (free_moves s p q); [done|done|..].
  - intros o Hn. destruct (lawful_over p _ o L Hh Hn) as [?|(y & Ha & Hl)]; [done|exfalso].
    rewrite (Huniq y) in Hl by by rewrite Ha. unfold steps_of in Hlt. rewrite Hl in Hlt. lia.
  - intros k Hn. destruct (Hat _ Hn eq_refl) as [_ E]. by rewrite E in Hquiet.
  - intros y Hn. destruct (Hat _ Hn eq_refl) as [_ E]. by rewrite E in Hquiet.
Qed.

Lemma rendezvous_moves s p q : reads_first -> reached s -> procs s !! p = Some q -> state q = Running ->
  (exists s', moves s s') \/
  exists p' q', procs s !! p' = Some q' /\ state q' = Running /\ next P w0 (hist q') = AEnd NoFuel.
Proof using R HKC Hserve Hroot Hprompt.
  intros Hfirst Hs Hq Hr.
  destruct (duet_moves s p q Hs (any_ids s) Hq Hr) as [?|(p1 & q1 & Hq1 & Hr1 & [?|(c & Hn & Hc & Hsv)])]; [by left|right; eauto|].
  destruct (Hprompt _ _ _ _ Hsv) as (k & -> & Hqueue).
  destruct (placed s p1 q1 _ Hs Hq1 Hn eq_refl) as [[=]|[[=]|(x & qr & qx & Hp & Hat)]].
  pose proof Hp as (Hx & _ & Hqr & Hqx & _ & Hfr & Hfx & _ & _ & (_ & _ & M)).
  assert (log_of root x = plog x) as El by (unfold log_of; by rewrite (proj2 (Z.eqb_neq x 0)) by lia).
  destruct Hat as [(-> & -> & E)|(-> & -> & E)].
  - destruct (proj1 (Hfirst _ x _ _ k _ Hx M Hqueue) E) as [Hlt Hno].
    destruct (partner_moves s x qx 0 Hs Hqx) as [?|[??]]; [|done|done|by left|right; eauto].
    intros y Ha. symmetry. eapply process_log_fork; [|exact Ha]. rewrite Hfx. by left.
  - destruct (proj2 (Hfirst _ x _ _ k _ Hx M Hqueue) E) as [Hlt Hno]. rewrite <- El in Hlt, Hno.
    destruct (partner_moves s root qr x Hs Hqr) as [?|[??]]; [|done|done|by left|right; eauto].
    intros y Ha. symmetry. by eapply process_log_fork.
Qed.
End rendezvous.

(** ** The two tests *)

Section tests.
Context {H : KernelHeader} (pipefd : Z * Z) (status : Z) (rd wr : Z) (KC : Z -> Kernel) (root : Z) (w0 : world).
Hypothesis Hw0 : tr w0 = [].

(** Where the parent, with [np] entries in its log, and the suspended task [x],
    with [nt], stand. *)
Definition meets_suspended (v : sched_state) (x : Z) (np nt : nat) : Prop :=
  ((3 <= np)%nat -> admissible v (s32 x) = true) /\ ((4 <= np)%nat -> real_time v (s32 x) = true) /\
  queue v = (if (6 <=? np)%nat && (nt <? 3)%nat then token else []) /\ ((3 <= nt)%nat -> (6 <= np)%nat).

(** The same for the running task: it has become real-time at the latest when
    it has seen it. *)
Definition meets_running (v : sched_state) (x : Z) (np nt : nat) : Prop :=
  ((4 <= np)%nat -> admissible v (s32 x) = true) /\ ((5 <= np)%nat \/ (4 <= nt)%nat -> real_time v (s32 x) = true) /\
  queue v = (if (3 <=? nt)%nat && (np <? 3)%nat then token else []) /\ ((3 <= np)%nat -> (3 <= nt)%nat).

Lemma s32_s32 x : s32 (s32 x) = s32 x.
Proof using. apply wrap_s_small; [done|]; by apply (wrap_s_range 32). Qed.

(** The course of a process from its two halves. *)
Lemma run_halves polls (P : Kernel -> M Z) plog tlog K p : passing_kernel rd wr polls K p ->
  (kernel (Sys Pipe (Pair rd wr) :: tr w0) Fork = Succ 0 -> exists o w', P K w0 = (o, w') /\
     (o = Exit 0 /\ shared_log (tr w') = tlog p \/ o = NoFuel /\ exists l, tlog p = l ++ shared_log (tr w')) /\
     about_processes (tr w') = [Sys Fork (Succ 0)]) ->
  (forall x, kernel (Sys Pipe (Pair rd wr) :: tr w0) Fork = Succ x -> 0 < x ->
     exists w', P K w0 = (Exit 0, w') /\ shared_log (tr w') = plog x /\ about_processes (tr w') = process_log x) ->
  exists o x w', P K w0 = (o, w') /\ 0 <= x /\ about_processes (tr w') = process_log x /\
    let log := if x =? 0 then tlog p else plog x in
    (o = Exit 0 /\ shared_log (tr w') = log \/ o = NoFuel /\ shared_log (tr w') `suffix_of` log).
Proof using.
  intros PK Hc Hp. destruct (pk_fork _ _ _ _ _ PK (Sys Pipe (Pair rd wr) :: tr w0)) as (x & Hfork & Hx).
  destruct (Z.eqb_spec x 0) as [->|Hne].
  - destruct (Hc Hfork) as (o & w' & Hrun & Hl & Ha). exists o, 0, w'. by split_and!.
  - destruct (Hp x Hfork ltac:(lia)) as (w' & Hrun & Hl & Ha). exists (Exit 0), x, w'.
    rewrite (proj2 (Z.eqb_neq x 0)) by done. split_and!; auto.
Qed.

Lemma suspended_child K p : passing_kernel rd wr false K p ->
  kernel (Sys Pipe (Pair rd wr) :: tr w0) Fork = Succ 0 ->
  exists w', suspended pipefd status K w0 = (Exit 0, w') /\ shared_log (tr w') = task_log rd wr p.
Proof using Hw0.
  intros PK Hfork. destruct (suspended_task pipefd status rd wr K p w0 PK Hfork) as (w' & Hrun & Hl).
  exists w'. split; [done|]. rewrite Hl, Hw0. by rewrite app_nil_r.
Qed.

Lemma suspended_parent_step v x h c r r' np nt : 0 < x -> (2 <= np)%nat -> meets_suspended v x np nt ->
  rev (parent_log rd wr x) !! np = Some (c, r') -> process_call c = false -> reply_law rd wr KC v root h c r ->
  answer rd wr KC root false root h c r /\ logged c r = true /\ meets_suspended (effect rd wr c v) x (Datatypes.S np) nt.
Proof using.
  intros Hx Hnp (M1 & M2 & M3 & M4) E Hc Hr. do 2 (destruct np as [|np]; [lia|]).
  destruct np as [|[|[|[|[|np]]]]]; cbn in E; try (by destruct np); injection E as <- <-; cbn [reply_law answer effect] in *.
  - change (acceptable admitted_param) with true. split; [done|]. split; [done|].
    split_and!; cbn [real_time admissible queue]; [by rewrite Z.eqb_refl|lia|by rewrite M3|lia].
  - rewrite M1 by lia. rewrite Z.eqb_refl. cbn [negb orb]. split; [intros _; by apply Hr, M1; [|lia]|]. split; [done|].
    split_and!; cbn [real_time admissible queue]; [by intros _; apply M1; lia|by rewrite Z.eqb_refl|by rewrite M3|lia].
  - destruct Hr as (z & -> & _ & Hz). rewrite M2 in Hz by lia. apply Z.eqb_eq in Hz as ->. split; [done|]. split; [done|].
    split_and!; [by intros _; apply M1; lia|by intros _; apply M2; lia|by rewrite M3|lia].
  - rewrite Z.eqb_refl. split; [done|]. split; [done|].
    split_and!; cbn [real_time admissible queue]; [by intros _; apply M1; lia|by intros _; apply M2; lia| |lia].
    rewrite M3. cbn [Nat.leb andb app]. destruct (Nat.ltb_spec nt 3); [done|lia].
  - cbn [process_call] in Hc. apply Z.ltb_ge in Hc. lia.
Qed.

Lemma suspended_task_step v x h c r r' np nt : (2 <= nt)%nat -> meets_suspended v x np nt ->
  rev (task_log rd wr x) !! nt = Some (c, r') -> process_call c = false -> is_child h = true -> reply_law rd wr KC v x h c r ->
  answer rd wr KC root false x h c r /\ meets_suspended (effect rd wr c v) x np (if logged c r then Datatypes.S nt else nt).
Proof using.
  intros Hnt (M1 & M2 & M3 & M4) E Hc Hch Hr. do 2 (destruct nt as [|nt]; [lia|]).
  destruct nt as [|[|[|[|nt]]]]; cbn in E; try (by destruct nt); injection E as <- <-; cbn [reply_law answer effect] in *.
  - destruct (Hr eq_refl) as [Hq ->]. rewrite M3 in Hq |- *. rewrite Z.eqb_refl.
    destruct (Nat.leb_spec 6 np); [|done]. cbn [andb Nat.ltb Nat.leb logged] in *. split; [done|].
    split_and!; cbn [real_time admissible queue]; [done|done| |done]. by destruct (6 <=? np)%nat.
  - destruct Hr as (z & -> & _ & Hz). rewrite s32_s32, M2 in Hz by lia. apply Z.eqb_eq in Hz as ->. split; [done|].
    split_and!; [done|done|by rewrite M3|lia].
  - split; [by apply Hr, M2; lia|]. split_and!; [done|done|by rewrite M3|lia].
  - split; [by apply Hr, M2; lia|]. split_and!; [done|done|by rewrite M3|lia].
Qed.

Instance suspended_rendezvous :
  Rendezvous rd wr KC root false (suspended pipefd status) w0 (parent_log rd wr) (task_log rd wr) meets_suspended.
Proof using Hw0.
  split.
  - apply suspended_causal.
  - exact Hw0.
  - intros K p PK. apply run_halves with (polls := false); [done|..].
    + intros Hfork. destruct (suspended_child K p PK Hfork) as (w' & Hrun & Hl).
      exists (Exit 0), w'. split; [done|]. rewrite about_shared, Hl. split; [by left|done].
    + intros x Hfork Hx. destruct (suspended_parent pipefd status rd wr K p x w0 PK Hfork Hx) as (w' & Hrun & Hl).
      exists w'. rewrite about_shared, Hl, Hw0, app_nil_r. split_and!; [done..|].
      unfold process_log. by rewrite (proj2 (Z.eqb_neq x 0)) by lia.
  - intros x. by eexists [_; _; _; _; _].
  - intros x. by eexists [_; _; _; _].
  - intros v x Hx Hq. split_and!; [lia|lia|done|lia].
  - intros v x r np nt E (M1 & M2 & M3 & M4). do 6 (destruct np as [|np]; [done|]).
    destruct np as [|np]; [|by destruct np].
    split_and!; [intros; apply M1; lia|intros; apply M2; lia|exact M3|lia].
  - apply suspended_parent_step.
  - apply suspended_task_step.
Qed.

Lemma running_parent_step v x h c r r' np nt : 0 < x -> (2 <= np)%nat -> meets_running v x np nt ->
  rev (running_parent_log rd wr x) !! np = Some (c, r') -> process_call c = false -> reply_law rd wr KC v root h c r ->
  answer rd wr KC root true root h c r /\ logged c r = true /\ meets_running (effect rd wr c v) x (Datatypes.S np) nt.
Proof using.
  intros Hx Hnp (M1 & M2 & M3 & M4) E Hc Hr. do 2 (destruct np as [|np]; [lia|]).
  destruct np as [|[|[|[|[|np]]]]]; cbn in E; try (by destruct np); injection E as <- <-; cbn [reply_law answer effect] in *.
  - destruct (Hr eq_refl) as [Hq ->]. rewrite M3 in Hq |- *. rewrite Z.eqb_refl.
    destruct (Nat.leb_spec 3 nt); [|done]. cbn [andb Nat.ltb Nat.leb logged] in *. split; [done|]. split; [done|].
    split_and!; cbn [real_time admissible queue]; [lia| | |done].
    + intros [?|?]; [lia|by apply M2; right].
    + by destruct nt as [|[|[|nt]]].
  - change (acceptable admitted_param) with true. split; [done|]. split; [done|].
    split_and!; cbn [real_time admissible queue]; [by rewrite Z.eqb_refl| |by rewrite M3|intros _; apply M4; lia].
    intros [?|?]; [lia|by apply M2; right].
  - rewrite M1 by lia. rewrite Z.eqb_refl. cbn [negb orb]. split; [intros _; by apply Hr, M1; [|lia]|]. split; [done|].
    split_and!; cbn [real_time admissible queue]; [by intros _; apply M1; lia|by rewrite Z.eqb_refl|by rewrite M3|intros _; apply M4; lia].
  - destruct Hr as (z & -> & Hz' & Hz). rewrite M2 in Hz by lia. apply Z.eqb_eq in Hz as ->.
    split; [destruct (is_child h); [by exists SCHED_LITMUS|done]|]. split; [done|].
    split_and!; [by intros _; apply M1; lia|by intros _; apply M2; lia|by rewrite M3|intros _; apply M4; lia].
  - cbn [process_call] in Hc. apply Z.ltb_ge in Hc. lia.
Qed.

Lemma running_task_step v x h c r r' np nt : (2 <= nt)%nat -> meets_running v x np nt ->
  rev (running_task_log rd wr x) !! nt = Some (c, r') -> process_call c = false -> is_child h = true -> reply_law rd wr KC v x h c r ->
  answer rd wr KC root true x h c r /\ meets_running (effect rd wr c v) x np (if logged c r then Datatypes.S nt else nt).
Proof using.
  intros Hnt (M1 & M2 & M3 & M4) E Hc Hch Hr. do 2 (destruct nt as [|nt]; [lia|]).
  destruct nt as [|[|[|[|nt]]]]; cbn in E; try (by destruct nt); injection E as <- <-; cbn [reply_law answer effect] in *.
  - rewrite Z.eqb_refl. split; [done|]. cbn [logged].
    assert (np < 3)%nat as Hlt by (destruct (Nat.lt_ge_cases np 3); [done|]; specialize (M4 ltac:(lia)); lia).
    split_and!; cbn [real_time admissible queue]; [done| | |lia].
    + intros [?|?]; apply M2; lia.
    + rewrite M3. cbn [Nat.leb andb app]. by rewrite (proj2 (Nat.ltb_lt np 3) Hlt).
  - destruct Hr as (z & -> & Hz' & Hz). rewrite s32_s32 in Hz. rewrite Hch. cbn [andb logged]. split; [by exists z|].
    rewrite Hz. destruct (real_time v (s32 x)) eqn:Ert; split_and!; try done; try lia.
  - split; [by apply Hr, M2; lia|]. cbn [logged]. split_and!; [done|intros _; apply M2; lia|by rewrite M3|lia].
  - split; [by apply Hr, M2; lia|]. cbn [logged]. split_and!; [done|intros _; apply M2; lia|by rewrite M3|lia].
Qed.

Instance running_rendezvous fuel :
  Rendezvous rd wr KC root true (running pipefd status fuel) w0 (running_parent_log rd wr) (running_task_log rd wr) meets_running.
Proof using Hw0.
  split.
  - apply running_causal.
  - exact Hw0.
  - intros K p PK. apply run_halves with (polls := true); [done|..].
    + intros Hfork. destruct (running_task pipefd status rd wr fuel K p w0 PK Hfork) as (o & w' & Hrun & Hl).
      exists o, w'. split; [done|]. rewrite Hw0, !app_nil_r in Hl. rewrite about_shared.
      destruct Hl as [[-> ->]|(-> & _ & ->)]; (split; [|done]); [by left|right]. split; [done|]. by eexists [_; _; _].
    + intros x Hfork Hx.
      destruct (running_parent pipefd status rd wr fuel K p x w0 PK) as (w' & Hrun & Hl); [by rewrite Hw0|done..|].
      exists w'. rewrite about_shared, Hl, Hw0, app_nil_r. split_and!; [done..|].
      unfold process_log. by rewrite (proj2 (Z.eqb_neq x 0)) by lia.
  - intros x. by eexists [_; _; _; _; _].
  - intros x. by eexists [_; _; _; _].
  - intros v x Hx Hq. split_and!; [lia|lia|done|lia].
  - intros v x r np nt E (M1 & M2 & M3 & M4). do 6 (destruct np as [|np]; [done|]).
    destruct np as [|np]; [|by destruct np].
    split_and!; [intros; apply M1; lia|intros; apply M2; lia| |lia]. by rewrite M3.
  - apply running_parent_step.
  - apply running_task_step.
Qed.

Lemma suspended_reads_first : reads_first (rd := rd) (plog := parent_log rd wr) (tlog := task_log rd wr) (meets := meets_suspended).
Proof using.
  intros v x np nt k r Hx (_ & _ & M3 & _) Hq. split; intros E.
  - by do 7 (destruct np as [|np]; [done|]).
  - do 2 (destruct nt as [|nt]; [done|]). destruct nt as [|nt]; [|by do 3 (destruct nt as [|nt]; [done|])].
    rewrite Hq in M3. destruct (Nat.leb_spec 6 np); [done|]. split; [cbn; lia|].
    do 6 (destruct np as [|np]; [done|]). lia.
Qed.

Lemma running_reads_first :
  reads_first (rd := rd) (plog := running_parent_log rd wr) (tlog := running_task_log rd wr) (meets := meets_running).
Proof using.
  intros v x np nt k r Hx (_ & _ & M3 & M4) Hq. split; intros E; [|by do 6 (destruct nt as [|nt]; [done|])].
  do 2 (destruct np as [|np]; [done|]). destruct np as [|np]; [|by do 4 (destruct np as [|np]; [done|])].
  rewrite Hq in M3. destruct (Nat.leb_spec 3 nt); [done|]. split; [cbn; lia|].
  do 3 (destruct nt as [|nt]; [done|]). lia.
Qed.

Lemma suspended_short : exists n, forall K : Kernel, short n (suspended pipefd status K).
Proof using.
  destruct short_migrate as [n Hn]. eexists. intros K. unfold suspended, test_suspended_admission. short_tac.
Qed.

Lemma short_sched_loop {K : Kernel} fuel child scheduler file line func :
  short (3 * fuel) (sched_loop fuel child scheduler file line func).
Proof using.
  revert scheduler. induction fuel as [|fuel IH]; intros scheduler; cbn [sched_loop].
  { destruct (scheduler =? SCHED_LITMUS); by apply short_pure. }
  destruct (scheduler =? SCHED_LITMUS); [eapply short_le; [by apply short_pure|lia]|].
  replace (3 * Datatypes.S fuel)%nat with (3 + 3 * fuel)%nat by lia. apply short_bind; [|done].
  eapply short_le; [short_tac|lia].
Qed.

Lemma running_short fuel : exists n, forall K : Kernel, short n (running pipefd status fuel K).
Proof using.
  destruct short_migrate as [n Hn]. pose proof @short_sched_loop as Hloop.
  eexists. intros K. unfold running, test_running_admission. short_tac.
Qed.
End tests.

(** ** The tests in every interleaving *)

Section system.
Context {H : KernelHeader} (pipefd : Z * Z) (status : Z) (rd wr : Z) (KC : Z -> Kernel) (HKC : runs_tests KC).
Context (w0 : world) (Hw0 : tr w0 = []) (root : Z) (Hroot : 0 < root).
Context {Sh : Type} (serve : Sh -> Z -> trace -> call -> option (reply * Sh)) (view : Sh -> sched_state).
Hypothesis Hserve : forall sh p h c r sh', serve sh p h c = Some (r, sh') ->
  reply_law rd wr KC (view sh) p h c r /\ view sh' = effect rd wr c (view sh).
Hypothesis Hprompt : forall sh p h c, serve sh p h c = None -> exists n, c = Read rd n /\ queue (view sh) = [].

(** C9: the test of suspended admission as two processes, on a kernel where a
    task with acceptable parameters can be made real-time, a real-time task has
    jobs and a pipe holds what was written until it is read.  There is a bound
    for the steps of every execution; in every interleaving a process that has
    ended left status 0, so the task, when it wakes up, finds itself real-time;
    and as long as one of the two is alive, one can go on. *)
Theorem suspended_admission_system :
  exists N, forall sh k s,
    nsteps (step (suspended pipefd status) w0 serve (fun _ => False) (fun _ => False)) k (boot w0 root sh) s ->
    (k <= N)%nat /\ forall p q, procs s !! p = Some q ->
      match state q with
      | Running => exists s', step (suspended pipefd status) w0 serve (fun _ => False) (fun _ => False) s s'
      | Zombie st | Reaped st => st = 0
      end.
Proof using All.
  pose proof (suspended_rendezvous pipefd status rd wr KC root w0 Hw0) as R.
  pose proof (admission_duet HKC Hroot serve view Hserve) as D.
  destruct (suspended_short pipefd status) as [n Hn]. exists (3 ^ n)%nat. intros sh k s Hk.
  assert (reachable (suspended pipefd status) w0 serve (fun _ => False) (fun _ => False) root s) as Hs
    by (exists sh; by eapply rtc_nsteps_2).
  split; [eapply system_terminates; [apply suspended_causal|exact Hroot| |exact Hk]; intros K; apply Hn|].
  intros p q Hq. pose proof (fun st => duet_statuses s p q st Hs (any_ids s) Hq) as Hst. destruct (state q) as [|st|st] eqn:E; [|by apply Hst..].
  destruct (rendezvous_moves HKC Hroot serve view Hserve Hprompt s p q) as [?|(p' & q' & Hq' & _ & Hn')];
    [apply suspended_reads_first|done..|exfalso].
  destruct (duet_lawful s p' q' Hs (any_ids s) Hq') as [L Hh].
  destruct (history_end _ (suspended_causal pipefd status) w0 _ _ Hh Hn' _ (replay_answers _ (fallback rd wr KC root p') _)) as (w & Hw & _).
  pose proof (lawful_passing rd wr KC root false HKC p' _ L) as PK.
  destruct (pk_fork _ _ _ _ _ PK (Sys Pipe (Pair rd wr) :: tr w0)) as (x & Hfork & Hx).
  destruct (decide (x = 0)) as [->|Hne].
  - destruct (suspended_task pipefd status rd wr _ p' w0 PK Hfork) as (w' & Hrun & _). by rewrite Hrun in Hw.
  - destruct (suspended_parent pipefd status rd wr _ p' x w0 PK Hfork ltac:(lia)) as (w' & Hrun & _). by rewrite Hrun in Hw.
Qed.

(** C10: the test of running admission as two processes on the same kernel: the
    task polls its policy, with a fuel that bounds how often, while its parent
    makes it real-time.  Every execution is finite, and in every interleaving a
    process that has ended left status 0.  As long as one of the two is alive,
    one can go on; the only exception is that the task has been told [fuel]
    times that it is not real-time yet. *)
Theorem running_admission_system (fuel : nat) :
  exists N, forall sh k s,
    nsteps (step (running pipefd status fuel) w0 serve (fun _ => False) (fun _ => False)) k (boot w0 root sh) s ->
    (k <= N)%nat /\ forall p q, procs s !! p = Some q ->
      match state q with
      | Running =>
          (exists s', step (running pipefd status fuel) w0 serve (fun _ => False) (fun _ => False) s s') \/
          exists x task, procs s !! x = Some task /\ state task = Running /\ is_child (hist task) = true /\
            asked (hist task) = fuel /\ next (running pipefd status fuel) w0 (hist task) = AEnd NoFuel
      | Zombie st | Reaped st => st = 0
      end.
Proof using All.
  pose proof (running_rendezvous pipefd status rd wr KC root w0 Hw0 fuel) as R.
  pose proof (admission_duet HKC Hroot serve view Hserve) as D.
  destruct (running_short pipefd status fuel) as [n Hn]. exists (3 ^ n)%nat. intros sh k s Hk.
  assert (reachable (running pipefd status fuel) w0 serve (fun _ => False) (fun _ => False) root s) as Hs
    by (exists sh; by eapply rtc_nsteps_2).
  split; [eapply system_terminates; [apply running_causal|exact Hroot| |exact Hk]; intros K; apply Hn|].
  intros p q Hq. pose proof (fun st => duet_statuses s p q st Hs (any_ids s) Hq) as Hst. destruct (state q) as [|st|st] eqn:E; [|by apply Hst..].
  destruct (rendezvous_moves HKC Hroot serve view Hserve Hprompt s p q) as [?|(p' & q' & Hq' & Hr' & Hn')];
    [apply running_reads_first|done..|by left|right].
  destruct (duet_lawful s p' q' Hs (any_ids s) Hq') as [L Hh]. exists p', q'. do 2 (split; [done|]).
  destruct (history_end _ (running_causal pipefd status fuel) w0 _ _ Hh Hn' _ (replay_answers _ (fallback rd wr KC root p') _)) as (w & Hw & Ew).
  pose proof (lawful_passing rd wr KC root true HKC p' _ L) as PK.
  destruct (pk_fork _ _ _ _ _ PK (Sys Pipe (Pair rd wr) :: tr w0)) as (x & Hfork & Hx).
  destruct (decide (x = 0)) as [->|Hne].
  - destruct (running_task pipefd status rd wr fuel _ p' w0 PK Hfork) as (o & w' & Hrun & Hl). rewrite Hrun in Hw.
    injection Hw as -> ->. destruct Hl as [[[=] _]|(_ & Hk' & Hl)]. rewrite <- Ew at 1 2. split_and!; [| |exact Hn'].
    + by rewrite is_child_about, about_shared, Hl, Hw0.
    + by rewrite Hk', Hw0, Nat.add_0_r.
  - destruct (running_parent pipefd status rd wr fuel _ p' x w0 PK) as (w' & Hrun & _);
      [by rewrite Hw0|done|lia|]. by rewrite Hrun in Hw.
Qed.
End system.

(** ** A kernel *)

Module AdmissionSystemWitness.
Import Sim.

Definition base (p : Z) : Kernel := sim [] 1 4.

Definition serve (v : sched_state) (p : Z) (h : trace) (c : call) : option (reply * sched_state) :=
  match c with
  | Read fd n =>
      if fd =? 3 then match queue v with [] => None | d => Some (Data (take (Z.to_nat n) d), effect 3 4 c v) end
      else Some (Fail 9, v)
  | Pipe => Some (Pair 3 4, effect 3 4 c v)
  | Write fd d => Some (Succ (Z.of_nat (length d)), effect 3 4 c v)
  | NR_set_rt_task_param i (Some q) => Some (if acceptable q then Succ 0 else Fail EINVAL, effect 3 4 c v)
  | NR_sched_setscheduler i pol _ =>
      Some (if negb (pol =? SCHED_LITMUS) || admissible v (s32 i) then Succ 0 else Fail EINVAL, effect 3 4 c v)
  | NR_sched_getscheduler i => Some (Succ (if real_time v (s32 i) then SCHED_LITMUS else SCHED_NORMAL), v)
  | NR_complete_job => Some (if real_time v (s32 p) then Succ 0 else Fail EINVAL, v)
  | NR_gettid => Some (Succ p, v)
  | c => Some (@kernel (base p) h c, v)
  end.

Lemma serve_lawful (v : sched_state) p h c r v' : serve v p h c = Some (r, v') ->
  reply_law 3 4 base v p h c r /\ v' = effect 3 4 c v.
Proof.
  unfold serve. destruct c; try (intros [= <- <-]; split; done).
  - destruct (Z.eqb_spec fd 3) as [->|Hne].
    + destruct (queue v) as [|b d] eqn:E; [done|]. intros [= <- <-]. split; [|done]. intros _. by rewrite E.
    + intros [= <- <-]. split; [by intros ->|]. cbn [effect]. by rewrite (proj2 (Z.eqb_neq fd 3)).
  - destruct param as [q|]; intros [= <- <-]; (split; [|done]); [|done]. by intros ->.
  - intros [= <- <-]. split; [|done]. intros Hp. by rewrite Hp.
  - intros [= <- <-]. split; [|done]. intros -> Ha. cbn [reply_law]. rewrite Ha. by destruct (negb _).
  - intros [= <- <-]. split; [|done]. eexists. split; [done|]. by destruct (real_time v _).
Qed.

Lemma serve_prompt (v : sched_state) p h c : serve v p h c = None -> exists n, c = Read 3 n /\ queue v = [].
Proof.
  unfold serve. destruct c; try done.
  - destruct (Z.eqb_spec fd 3) as [->|]; [|done]. destruct (queue v) eqn:E; [|done]. intros _. by exists count.
  - by destruct param.
Qed.

Definition idle : sched_state := mk_sched (fun _ => false) (fun _ => false) [].

(** The states at the end, when the first of the listed processes that can
    make a step always does. *)
Definition ends_with (program : Kernel -> M Z) (order : list Z) : list (option pstate) :=
  let s := execute program w0 serve 100 1000 order (boot w0 1 idle) in
  [state <$> procs s !! 1; state <$> procs s !! 1001].

Definition suspended_test : Kernel -> M Z := @suspended sim_header (0, 0) 0.
Definition running_test : Kernel -> M Z := @running sim_header (0, 0) 0 5.

Example task_first : ends_with suspended_test [1001; 1] = [Some (Zombie 0); Some (Reaped 0)].
Proof. by vm_compute. Qed.

Example parent_first : ends_with suspended_test [1; 1001] = [Some (Zombie 0); Some (Reaped 0)].
Proof. by vm_compute. Qed.

Example running_parent_first : ends_with running_test [1; 1001] = [Some (Zombie 0); Some (Reaped 0)].
Proof. by vm_compute. Qed.

(** A task that polls before its parent can make it real-time keeps polling. *)
Example running_task_first : ends_with running_test [1001; 1] = [Some Running; Some Running].
Proof. by vm_compute. Qed.

Lemma base_runs : runs_tests base.
Proof.
  split_and!; [intros p; exact (sim_allocates _ _ _)| |done].
  exists 4. split; [intros p; exact (sim_online _ _ _)|done].
Qed.

Lemma suspended_admission_system_witness :
  exists N, forall sh k s,
    nsteps (step (@suspended sim_header (0, 0) 0) w0 serve (fun _ => False) (fun _ => False)) k (boot w0 1 sh) s ->
    (k <= N)%nat /\ forall p q, procs s !! p = Some q ->
      match state q with
      | Running => exists s', step (@suspended sim_header (0, 0) 0) w0 serve (fun _ => False) (fun _ => False) s s'
      | Zombie st | Reaped st => st = 0
      end.
Proof.
  apply (@suspended_admission_system sim_header (0, 0) 0 3 4 base) with (view := fun v => v).
  - exact base_runs.
  - done.
  - lia.
  - exact serve_lawful.
  - exact serve_prompt.
Defined.

Lemma running_admission_system_witness :
  exists N, forall sh k s,
    nsteps (step running_test w0 serve (fun _ => False) (fun _ => False)) k (boot w0 1 sh) s ->
    (k <= N)%nat /\ forall p q, procs s !! p = Some q ->
      match state q with
      | Running =>
          (exists s', step running_test w0 serve (fun _ => False) (fun _ => False) s s') \/
          exists x task, procs s !! x = Some task /\ state task = Running /\ is_child (hist task) = true /\
            asked (hist task) = 5%nat /\ next running_test w0 (hist task) = AEnd NoFuel
      | Zombie st | Reaped st => st = 0
      end.
Proof.
  apply (@running_admission_system sim_header (0, 0) 0 3 4 base) with (view := fun v => v).
  - exact base_runs.
  - done.
  - lia.
  - exact serve_lawful.
  - exact serve_prompt.
Defined.
End AdmissionSystemWitness.
