(* ===== verification/ForkTests.v ===== *)
(** * Tests that fork, as two processes

    [test_fmlp_lock_mode_change] of tests/locks.c, [test_not_inherit_od] of
    tests/fdso.c and [test_rt_fork_non_rt] of tests/core_api.c fork once and
    wait for the child.  Each is a system of two interleaved processes
    ([System], [Pairs]): in the first the parent only waits while the child
    works, in the others both work at the same time.  A run of one process is
    proved under one kernel up to the fork and another one after it
    ([forking]). *)
From stdpp Require Import gmap relations.
From S2P Require Import Prelude Machine Causal System Pairs CString Laws Iface Syscalls Migration Litmus Runner Tests.
From S2P Require Import TestLocks TestFdso TestCoreApi LockSpec LockTests Suite EndToEnd Causality RunnerSystem SuiteSystem.

#[local] Hint Resolve keeps_migrate_cpu keeps_mode keeps_partitioned : litmus.

Lemma SYSCALL_ret {K : Kernel} z text file line func w : 0 <= z -> SYSCALL (mret z) text file line func w = (Val z, w).
Proof. intros Hz. unfold SYSCALL. mrun. by rewrite (proj2 (Z.ltb_ge z 0)) by lia. Qed.

(** ** From one kernel to another *)

(** The process ids of type [pid_t]. *)
Definition pid_t (x : Z) : Prop := x <= INT_MAX.

(** A kernel that answers a process as [B] before the fork and as [A] after it. *)
Record forking (K B A : Kernel) (child : bool) : Prop := {
  fk_before u c : about_processes u = [] -> @kernel K u c = @kernel B u c;
  fk_after u c : about_processes u <> [] -> @kernel K u c = @kernel A u c;
  fk_fork u : exists x, @kernel K u Fork = Succ x /\ if child then x = 0 else 0 < x <= INT_MAX;
  fk_wait u x : 0 < x -> @kernel K u (Waitpid x) = Pair x 0;
}.

Lemma after_fork_run {R} (m : Kernel -> M R) K B A child w o w' : forking K B A child -> follows A K (m A) (m K) ->
  about_processes (tr w) <> [] -> m A w = (o, w') -> m K w = (o, w').
Proof.
  intros FK Hf Ha Hrun. destruct (Hf w) as (_ & HA & He). rewrite Hrun in *. apply He. cbn [snd] in *.
  intros c r u Hs Hu. rewrite (fk_after _ _ _ _ FK); [by apply HA|].
  intros E. apply about_processes_suffix in Hu. rewrite E in Hu. by apply suffix_nil_inv in Hu.
Qed.

Lemma before_fork_run {R} (m : Kernel -> M R) K B A child w o w' : forking K B A child -> follows B K (m B) (m K) ->
  about_processes (tr w') = [] -> m B w = (o, w') -> m K w = (o, w').
Proof.
  intros FK Hf Ha Hrun. destruct (Hf w) as (_ & HB & He). rewrite Hrun in *. apply He. cbn [snd] in *.
  intros c r u Hs Hu. rewrite (fk_before _ _ _ _ FK); [by apply HB|]. apply suffix_cons_l in Hs.
  apply about_processes_suffix in Hs. rewrite Ha in Hs. by apply suffix_nil_inv in Hs.
Qed.

(** A part of the program that is about no processes, after the fork. *)
Lemma segment {R} (m : Kernel -> M R) K B A child P (Q : R -> world -> Prop) w : forking K B A child ->
  follows A K (m A) (m K) -> keeps about_processes (m A) -> runs P (m A) Q -> P w -> about_processes (tr w) <> [] ->
  exists a w', m K w = (Val a, w') /\ Q a w' /\ about_processes (tr w') = about_processes (tr w).
Proof.
  intros FK Hf Hk Hm HP Ha. destruct (Hm w HP) as (a & w' & Hrun & HQ). exists a, w'.
  split; [exact (after_fork_run m K B A child w _ _ FK Hf Ha Hrun)|]. split; [done|]. by eapply keeps_run.
Qed.

(** How a run ends, and what it says about processes. *)
Definition lands {S} (r : outcome S * world) (o : outcome S) (t : list event) : Prop :=
  exists w', r = (o, w') /\ about_processes (tr w') = t.

Lemma segment_bind {R S} (m : Kernel -> M R) (f : R -> M S) K B A child P Q w t o t' :
  forking K B A child -> follows A K (m A) (m K) -> keeps about_processes (m A) -> runs P (m A) Q -> P w ->
  about_processes (tr w) = t -> t <> [] ->
  (forall a w', Q a w' -> about_processes (tr w') = t -> lands (f a w') o t') -> lands ((m K ≫= f) w) o t'.
Proof.
  intros FK Hf Hk Hm HP <- Ht HG. destruct (segment m K B A child P Q w FK Hf Hk Hm HP Ht) as (a & w' & Hrun & HQ & Ha).
  rewrite (bind_val _ _ _ _ _ Hrun). by apply HG.
Qed.

Lemma last_segment {R} (m : Kernel -> M R) K B A child P n w : forking K B A child ->
  follows A K (m A) (m K) -> keeps about_processes (m A) -> exits P (m A) n -> P w -> about_processes (tr w) <> [] ->
  exists w', m K w = (Exit n, w') /\ about_processes (tr w') = about_processes (tr w).
Proof.
  intros FK Hf Hk Hm HP Ha. destruct (Hm w HP) as (w' & Hrun). exists w'. split; [exact (after_fork_run m K B A child w _ _ FK Hf Ha Hrun)|].
  by eapply keeps_run.
Qed.

(** The state of a task that has only opened files and the descriptors [tys]. *)
Lemma st_opened tid tys w : policy_of tid (tr w) = SCHED_NORMAL ->
  lock_log (tr w) = [] /\ tys = [] \/
  (exists fd ty id cfg od, lock_log (tr w) = [(NR_od_open fd ty id cfg, Succ od)] /\ tys = [(od, ty)]) ->
  st tid SCHED_NORMAL [] tys w.
Proof.
  intros Hp [[Hl ->]|(fd & ty & id & cfg & od & Hl & ->)]; unfold st; rewrite Hl; cbn [held od_type map fst];
    (split; [done|]); (split; [done|]).
  - split; [constructor|]. intros od ty. split; [done|]. by intros []%not_elem_of_nil.
  - split; [apply NoDup_singleton|]. intros od' ty'. rewrite list_elem_of_singleton.
    destruct (Z.eqb_spec od od') as [<-|Hne]; split; [by intros [= ->]|by intros [= ->]|done|by intros [= -> ->]].
Qed.

(** ** Descriptors are not inherited *)

(** The history of a process since it was forked. *)
Fixpoint own (t : trace) : trace :=
  match t with
  | [] => []
  | Sys Fork (Succ x) as e :: t => if x =? 0 then [] else e :: own t
  | e :: t => e :: own t
  end.

(** A child that has not opened a descriptor itself has none. *)
Definition starts_bare (K : Kernel) : Prop := forall t od c,
  is_child t = true -> od_type od (lock_log (own t)) = None -> c ∈ [NR_litmus_lock od; NR_litmus_unlock od] ->
  @kernel K t c = Fail EINVAL.

(** What [starts_bare] is about. *)
Definition own_view (t : trace) : bool * list (call * reply) := (is_child t, lock_log (own t)).

#[local] Instance own_view_quiet : InitQuiet own_view.
Proof. by repeat split. Qed.

Definition bare (v : bool * list (call * reply)) : Prop := fst v = true /\ forall od, od_type od (snd v) = None.

Section bare.
Context {K : Kernel} {H : KernelHeader} (tid cpus : Z) {SC : Schedules K tid} {AC : Accepts K tid} {AL : Allocates K}
  {ON : Online K cpus} (Hcpus : 0 <= cpus <= 4096).
Context (m : nat) (m0 : Z) (ms : list Z) {SV : Serves K (mapping_file "domains" 0) (mask_text m m0 ms)}.
Context (Hmask : wf_mask m m0 ms) (Hms : (length ms <= 127)%nat) (SB : starts_bare K).

(** The task has a policy and no semaphores of its own. *)
Definition orphan (pol : Z) (tys : list (Z * Z)) (w : world) : Prop := st tid pol [] tys w /\ bare (own_view (tr w)).

Lemma orphan_refused pol tys od c : c ∈ [NR_litmus_lock od; NR_litmus_unlock od] ->
  runs (orphan pol tys) (syscall_int c) (fun z w => z <> 0 /\ errno w = EINVAL /\ orphan pol tys w).
Proof using SB.
  intros Hc w [(Hp & Hh & Hn & Ht) [Hch Hod]]. unfold syscall_int. rewrite bind_syscall, (SB _ od c Hch (Hod od) Hc).
  eexists _, _. split; [done|]. split; [done|]. split; [done|]. unfold orphan, st, bare. rewrite tr_after.
  rewrite !elem_of_cons in Hc. destruct Hc as [->|[->|[]%not_elem_of_nil]]; done.
Qed.

Lemma keeps_own_mode mode : keeps own_view (task_mode mode).
Proof using. by apply (keeps_task_mode own_view). Qed.

Lemma orphan_becomes e p tys text file line func :
  runs (orphan SCHED_NORMAL tys) (become_rt (sporadic_partitioned e p 0) text file line func) (fun _ => orphan SCHED_LITMUS tys).
Proof using SC AC AL ON SV Hcpus Hmask Hms.
  apply (runs_frame own_view bare).
  - unfold become_rt, SYSCALL, fail, eprintf.
    apply keeps_bind; [apply keeps_bind; [by apply (keeps_sporadic own_view)|intros z; keeps_tac]|intros z].
    apply keeps_bind; [apply keeps_bind; [by apply keeps_own_mode|intros z'; keeps_tac]|intros z'; keeps_tac].
  - by apply (runs_become_rt tid cpus Hcpus m m0 ms).
Qed.

Lemma orphan_background tys :
  runs (orphan SCHED_LITMUS tys) (task_mode BACKGROUND_TASK) (fun z w => 0 <= z /\ orphan SCHED_NORMAL tys w).
Proof using SC AC.
  eapply runs_weaken; [apply (runs_frame own_view bare); [apply keeps_own_mode|by apply (runs_background tid)]|done|].
  by intros z w [[Hz Hs] Hb].
Qed.
End bare.

(** ** Jobs of real-time tasks *)

(** A task has jobs exactly when it is real-time. *)
Record job_laws (K : Kernel) (tid : Z) : Prop := {
  jl_complete t : @kernel K t NR_complete_job = if policy_of tid t =? SCHED_LITMUS then Succ 0 else Fail EINVAL;
  jl_wait t n :
    @kernel K t (NR_wait_for_job_release n) = if policy_of tid t =? SCHED_LITMUS then Succ 0 else Fail EINVAL;
  jl_number t : if policy_of tid t =? SCHED_LITMUS then exists j, @kernel K t NR_query_job_no = Pair j 0
    else @kernel K t NR_query_job_no = Fail EPERM;
}.

Lemma runs_job {K : Kernel} tid h tys m : job_laws K tid -> m ∈ [sleep_next_period; wait_for_job_release 3; job_no_ret] ->
  runs (st tid SCHED_LITMUS h tys) m (fun z w => 0 <= z /\ st tid SCHED_LITMUS h tys w).
Proof.
  intros [J1 J2 J3] Hm w Hw. pose proof Hw as (Hp & _). specialize (J1 (tr w)). specialize (J2 (tr w) 3). specialize (J3 (tr w)).
  rewrite Hp in J1, J2, J3. cbn [Z.eqb SCHED_LITMUS Pos.eqb] in J1, J2, J3. destruct J3 as [j J3].
  rewrite !elem_of_cons in Hm. destruct Hm as [->|[->|[->|[]%not_elem_of_nil]]];
    unfold sleep_next_period, wait_for_job_release, job_no_ret, get_job_no, syscall_int; mrun; rewrite ?J1, ?J2, ?J3;
    eexists _, _; (split; [done|]); (split; [done|]); (apply (st_same _ _ _ _ w); [done|..]); by rewrite tr_after.
Qed.

Lemma runs_no_job {K : Kernel} tid h tys e m : job_laws K tid ->
  (e, m) ∈ [(EINVAL, sleep_next_period); (EINVAL, wait_for_job_release 0); (EPERM, job_no_ret)] ->
  runs (st tid SCHED_NORMAL h tys) m (fun z w => z <> 0 /\ errno w = e /\ st tid SCHED_NORMAL h tys w).
Proof.
  intros [J1 J2 J3] Hm w Hw. pose proof Hw as (Hp & _). specialize (J1 (tr w)). specialize (J2 (tr w) 0). specialize (J3 (tr w)).
  rewrite Hp in J1, J2, J3. cbn [Z.eqb SCHED_LITMUS SCHED_NORMAL] in J1, J2, J3.
  rewrite !elem_of_cons in Hm. destruct Hm as [[= -> ->]|[[= -> ->]|[[= -> ->]|[]%not_elem_of_nil]]];
    unfold sleep_next_period, wait_for_job_release, job_no_ret, get_job_no, syscall_int; mrun; rewrite ?J1, ?J2, ?J3;
    eexists _, _; (split; [done|]); (split; [done|]); (split; [done|]); (apply (st_same _ _ _ _ w); [done|..]); by rewrite tr_after.
Qed.

(** A task that becomes real-time changes no policy but its own. *)
Lemma become_rt_others {K : Kernel} {H : KernelHeader} tid other e p text file line func w z w' :
  Schedules K tid -> other <> tid -> policy_of tid (tr w) = SCHED_NORMAL ->
  become_rt (sporadic_partitioned e p 0) text file line func w = (Val z, w') ->
  policy_of other (tr w') = policy_of other (tr w).
Proof.
  intros SC Hne Hp. unfold become_rt.
  assert (keeps (policy_of other) (SYSCALL (sporadic_partitioned e p 0) text file line func)) as Hk1.
  { unfold SYSCALL, fail, eprintf. apply keeps_bind; [by apply (keeps_sporadic _)|intros ?; keeps_tac]. }
  assert (keeps (policy_of tid) (SYSCALL (sporadic_partitioned e p 0) text file line func)) as Hk2.
  { unfold SYSCALL, fail, eprintf. apply keeps_bind; [by apply (keeps_sporadic _)|intros ?; keeps_tac]. }
  specialize (Hk1 w). specialize (Hk2 w). unfold mbind at 1, M_bind at 1.
  destruct (SYSCALL (sporadic_partitioned e p 0) text file line func w) as [[z1|?| | |] w1]; try done. cbn [snd] in Hk1, Hk2.
  rewrite <- Hk1. clear Hk1. rewrite Hp in Hk2.
  destruct (task_mode_run tid LITMUS_RT_TASK w1) as (ret & w2 & Hrun & Hcase); [by rewrite Hk2|].
  assert (policy_of other (tr w2) = policy_of other (tr w1)) as E.
  { destruct (is_switch _ _).
    - cbv zeta in Hcase. destruct Hcase as (r & _ & -> & _). cbn [policy_of]. rewrite (proj2 (Z.eqb_neq tid other)) by done. by destruct r.
    - by destruct Hcase as (_ & _ & ->). }
  unfold SYSCALL. rewrite bind_bind, (bind_val _ _ _ _ _ Hrun). rewrite <- E. destruct (ret <? 0); [|by intros [= _ <-]].
  unfold fail, eprintf. mrun. done.
Qed.

(** ** The tests *)

(** What a task needs to become real-time, with no word about semaphores. *)
Record task_kernel (K : Kernel) (tid cpus : Z) (mask : bytes) : Prop := {
  ta_schedules : Schedules K tid;
  ta_accepts : Accepts K tid;
  ta_allocates : Allocates K;
  ta_online : Online K cpus;
  ta_serves : Serves K (mapping_file "domains" 0) mask;
}.

Section tests.
Context {H : KernelHeader} (status : Z) (cpus : Z) (m : nat) (m0 : Z) (ms : list Z) (Hcpus : 2 <= cpus <= 4096).
Context (Hmask : wf_mask m m0 ms) (Hms : (length ms <= 127)%nat) (w0 : world) (Hw0 : tr w0 = []).

Definition mode_change : Kernel -> M Z := fun K => @test_fmlp_lock_mode_change K H status;; exit_ 0.
Definition not_inherit : Kernel -> M Z := fun K => @test_not_inherit_od K H status;; exit_ 0.

Lemma mode_change_causal : causal mode_change.
Proof using. intros K K'. unfold mode_change, test_fmlp_lock_mode_change. causal_tac. Qed.

Lemma not_inherit_causal : causal not_inherit.
Proof using. intros K K'. unfold not_inherit, test_not_inherit_od. causal_tac. Qed.

(** The body of the child. *)
Definition mode_change_task (fd : Z) (K : Kernel) : M unit :=
  let T := "test_fmlp_lock_mode_change" in
  let params := set_relative_deadline
    (set_period (set_exec_cost (with_cpu init_rt_task_param 0) (ms2ns 10000)) (ms2ns 100000)) (ms2ns 100000) in
  start_rt (set_priority params LITMUS_LOWEST_PRIORITY) TestLocks.FILE 252 T;;
  od ← SYSCALL (open_fmlp_sem fd 0) "od = open_fmlp_sem(fd, 0)" TestLocks.FILE 256 T;
  SYSCALL (litmus_lock od) "litmus_lock(od)" TestLocks.FILE 258 T;;
  SYSCALL (task_mode BACKGROUND_TASK) "task_mode(BACKGROUND_TASK)" TestLocks.FILE 260 T;;
  SYSCALL (litmus_unlock od) "litmus_unlock(od)" TestLocks.FILE 262 T;;
  SYSCALL (od_close od) "od_close(od)" TestLocks.FILE 264 T;;
  exit_ 0.

Lemma mode_change_shape K : mode_change K = (
  let T := "test_fmlp_lock_mode_change" in
  (fd ← SYSCALL (open_file ".locks") (open_text ".locks") TestLocks.FILE 247 T;
   child ← FORK_TASK (mode_change_task fd K);
   status ← wait_for child status "waitpid(child, &status, 0)" TestLocks.FILE 269 T;
   ASSERT (WIFEXITED status) "WIFEXITED(status)" TestLocks.FILE 270 T;;
   ASSERT (WEXITSTATUS status =? 0) "WEXITSTATUS(status) == 0" TestLocks.FILE 271 T;;
   close_remove fd ".locks" TestLocks.FILE 273 T);; exit_ 0).
Proof using. reflexivity. Qed.

Lemma mode_change_task_exits {K : Kernel} tid fd : test_kernel K tid cpus (mask_text m m0 ms) ->
  exits (st tid SCHED_NORMAL [] []) (mode_change_task fd K) 0.
Proof using Hcpus Hms.
  intros [SC SM AC AL ON _ _]. unfold mode_change_task. cbv zeta.
  eapply exits_bind; [eapply (runs_start_rt tid cpus); [lia|]|intros []].
  { match goal with |- _ <= ?c < _ => change c with 0 end. lia. }
  eapply exits_bind; [eapply runs_SYSCALL, (runs_od_open tid cpus _ _ FMLP_SEM); [done|done|cbn; lia]|intros od].
  eapply exits_bind; [eapply runs_SYSCALL, (runs_lock tid cpus od (obj_id FMLP_SEM)); [by left|apply not_elem_of_nil|constructor]|intros z].
  eapply exits_bind; [apply runs_SYSCALL, (runs_background tid)|intros z1].
  eapply exits_bind; [apply runs_SYSCALL, (runs_unlock tid cpus)|intros z2].
  eapply exits_bind; [apply runs_SYSCALL, (runs_od_close_last tid cpus), not_elem_of_nil|intros z3].
  apply exits_exit.
Qed.

Ltac segment_tac := cbv beta; autounfold with litmus_tests litmus_causal; first [solve [follows_tac]|solve [keeps_tac]].

(** The statements at the end of the parent. *)
Lemma parent_tail K B A tid (fd : Z) name file line func w : forking K B A false -> Accepts A tid ->
  about_processes (tr w) <> [] ->
  exists w', @close_remove K fd name file line func w = (Val tt, w') /\ about_processes (tr w') = about_processes (tr w).
Proof using.
  intros FK AC Ha. unfold close_remove, close, remove, SYSCALL. mrun.
  rewrite (fk_after _ _ _ _ FK), acc_close by done. cbn [ret_of Z.ltb Z.compare]. mrun.
  rewrite (fk_after _ _ _ _ FK), acc_remove by done. cbn [ret_of Z.ltb Z.compare]. mrun.
  eexists. split; [done|]. by rewrite !tr_after.
Qed.

Lemma mode_change_run K B A tid tid' child : forking K B A child ->
  Accepts B tid' -> test_kernel A tid cpus (mask_text m m0 ms) ->
  exists x w', mode_change K w0 = (Exit 0, w') /\ about_processes (tr w') = process_log x /\ 0 <= x.
Proof using Hcpus Hms Hw0.
  intros FK AB TK. rewrite mode_change_shape. cbv zeta. unfold SYSCALL at 1, open_file. mrun.
  assert (@kernel K (tr w0) (Open ".locks" (Z.lor O_RDONLY O_CREAT) S_IRUSR) = @kernel B (tr w0) _) as EB
    by (apply (fk_before _ _ _ _ FK); by rewrite Hw0).
  destruct (acc_open (K := B) (tr w0) ".locks" (Z.lor O_RDONLY O_CREAT) S_IRUSR) as (fd & EO & Hfd).
  rewrite EB, EO. cbn [ret_of]. rewrite (proj2 (Z.ltb_ge fd 0)) by done. mrun. unfold FORK_TASK. mrun.
  destruct (fk_fork _ _ _ _ FK (Sys (Open ".locks" (Z.lor O_RDONLY O_CREAT) S_IRUSR) (Succ fd) :: tr w0)) as (x & EF & Hx).
  rewrite EF. cbn [ret_of]. set (w2 := after Fork (Succ x) _).
  assert (tr w2 = [Sys Fork (Succ x); Sys (Open ".locks" (Z.lor O_RDONLY O_CREAT) S_IRUSR) (Succ fd)]) as E2
    by (unfold w2; by rewrite !tr_after, Hw0).
  destruct child.
  - subst x. cbn [Z.eqb]. destruct (last_segment (fun K => mode_change_task fd K) K B A true (st tid SCHED_NORMAL [] []) 0 w2)
      as (w' & Hrun & Ha); [done| | |by apply mode_change_task_exits| |by rewrite E2|].
    + unfold mode_change_task. causal_tac.
    + unfold mode_change_task. autounfold with litmus_tests litmus_causal. keeps_tac.
    + apply st_opened; rewrite E2; [done|by left].
    + mrun. rewrite (bind_exit _ _ _ _ _ Hrun). exists 0, w'. split; [done|]. by rewrite Ha, E2.
  - rewrite (proj2 (Z.eqb_neq x 0)) by lia. unfold wait_for, waitpid, SYSCALL at 1, ASSERT. mrun.
    rewrite (fk_wait _ _ _ _ FK) by lia. mrun. rewrite (proj2 (Z.ltb_ge x 0)) by lia. mrun.
    cbn [default from_option id]. change (WIFEXITED 0) with true. change (WEXITSTATUS 0 =? 0) with true. cbn [negb]. mrun.
    destruct TK as [_ _ AC _ _ _ _].
    destruct (parent_tail K B A tid fd ".locks" TestLocks.FILE 273 "test_fmlp_lock_mode_change" (after (Waitpid x) (Pair x 0) w2))
      as (w' & Hrun & Ha); [done..|].
    rewrite (bind_val _ _ _ _ _ Hrun). exists x, w'. split; [done|]. split; [|lia].
    rewrite Ha, tr_after, E2. unfold process_log. by rewrite (proj2 (Z.eqb_neq x 0)) by lia.
Qed.

(** What both processes of the second test do after the fork. *)
Definition not_inherit_rest (fd od pid : Z) (K : Kernel) : M unit :=
  let T := "test_not_inherit_od" in
  become_rt (sporadic_partitioned (ms2ns 10) (ms2ns 100) 0)
    "sporadic_partitioned(ms2ns(10), ms2ns(100), 0)" TestFdso.FILE 69 T;;
  (if pid =? 0 then
     SYSCALL_FAILS EINVAL "EINVAL" (litmus_lock od) "litmus_lock(od)" TestFdso.FILE 74 T;;
     SYSCALL_FAILS EINVAL "EINVAL" (litmus_unlock od) "litmus_unlock(od)" TestFdso.FILE 75 T;;
     SYSCALL (task_mode BACKGROUND_TASK) "task_mode(BACKGROUND_TASK)" TestFdso.FILE 77 T;;
     exit_ 0
   else
     lock_unlock od "od" TestFdso.FILE 82 T;;
     lock_unlock od "od" TestFdso.FILE 85 T;;
     SYSCALL (task_mode BACKGROUND_TASK) "task_mode(BACKGROUND_TASK)" TestFdso.FILE 88 T;;
     status ← wait_for pid status "waitpid(pid, &status, 0)" TestFdso.FILE 90 T;
     ASSERT (WEXITSTATUS status =? 0) "WEXITSTATUS(status) == 0" TestFdso.FILE 92 T);;
  SYSCALL (od_close od) "od_close(od)" TestFdso.FILE 95 T;;
  close_remove fd ".fmlp_locks" TestFdso.FILE 97 T.

Lemma not_inherit_shape K : not_inherit K = (
  let T := "test_not_inherit_od" in
  (fd ← SYSCALL (open_file ".fmlp_locks") (open_text ".fmlp_locks") TestFdso.FILE 60 T;
   od ← SYSCALL (open_fmlp_sem fd 0) "od = open_fmlp_sem(fd, 0)" TestFdso.FILE 62 T;
   pid ← syscall Fork;
   ASSERT (negb (pid =? -1)) "pid != -1" TestFdso.FILE 66 T;;
   not_inherit_rest fd od pid K);; exit_ 0).
Proof using. reflexivity. Qed.

Lemma not_inherit_child {K : Kernel} tid fd od tys : task_kernel K tid cpus (mask_text m m0 ms) -> starts_bare K ->
  exits (orphan tid SCHED_NORMAL tys) (not_inherit_rest fd od 0 K) 0.
Proof using Hcpus Hmask Hms.
  intros [SC AC AL ON SV] SB. unfold not_inherit_rest. cbv zeta. cbn [Z.eqb].
  eapply exits_bind; [apply (orphan_becomes tid cpus ltac:(lia) m m0 ms Hmask Hms)|intros []].
  apply exits_first.
  eapply exits_bind; [eapply runs_SYSCALL_FAILS, (orphan_refused tid SB _ _ od); by left|intros z1].
  eapply exits_bind; [eapply runs_SYSCALL_FAILS, (orphan_refused tid SB _ _ od); by right; left|intros z2].
  eapply exits_bind; [apply runs_SYSCALL, (orphan_background tid)|intros z3]. apply exits_exit.
Qed.

Lemma not_inherit_parent K B A tid x fd od w : forking K B A false -> test_kernel A tid cpus (mask_text m m0 ms) ->
  st tid SCHED_NORMAL [] [(od, obj_id FMLP_SEM)] w -> about_processes (tr w) = [Sys Fork (Succ x)] -> 0 < x ->
  lands (not_inherit_rest fd od x K w) (Val tt) (process_log x).
Proof using Hcpus Hmask Hms.
  intros FK [SC SM AC AL ON _ SV] Hw Ha Hx. unfold not_inherit_rest. cbv zeta. rewrite (proj2 (Z.eqb_neq x 0)) by lia.
  set (T := "test_not_inherit_od"). set (opened pol := st tid pol [] [(od, obj_id FMLP_SEM)]) in *.
  eapply (segment_bind (fun K => become_rt (sporadic_partitioned (ms2ns 10) (ms2ns 100) 0) _ TestFdso.FILE 69 T)
    _ K B A false _ (fun _ => opened SCHED_LITMUS) w _ _ _ FK); [segment_tac|segment_tac| |exact Hw|exact Ha|done|].
  { by apply (runs_become_rt tid cpus ltac:(lia) m m0 ms). }
  intros [] w1 S1 A1. rewrite bind_bind.
  eapply (segment_bind (fun K => lock_unlock od "od" TestFdso.FILE 82 T) _ K B A false _ (fun _ => opened SCHED_LITMUS) w1 _ _ _ FK);
    [segment_tac|segment_tac| |exact S1|exact A1|done|].
  { apply (runs_lock_unlock tid cpus _ (obj_id FMLP_SEM)). by left. }
  intros [] w2 S2 A2. rewrite bind_bind.
  eapply (segment_bind (fun K => lock_unlock od "od" TestFdso.FILE 85 T) _ K B A false _ (fun _ => opened SCHED_LITMUS) w2 _ _ _ FK);
    [segment_tac|segment_tac| |exact S2|exact A2|done|].
  { apply (runs_lock_unlock tid cpus _ (obj_id FMLP_SEM)). by left. }
  intros [] w3 S3 A3. rewrite bind_bind.
  eapply (segment_bind (fun K => SYSCALL (task_mode BACKGROUND_TASK) _ TestFdso.FILE 88 T) _ K B A false _
    (fun _ => opened SCHED_NORMAL) w3 _ _ _ FK); [segment_tac|segment_tac| |exact S3|exact A3|done|].
  { apply runs_SYSCALL, (runs_background tid). }
  intros z w4 S4 A4. unfold wait_for, waitpid, ASSERT. mrun. rewrite (fk_wait _ _ _ _ FK) by lia. mrun.
  rewrite (bind_val _ _ _ x _ (SYSCALL_ret x _ _ _ _ _ ltac:(lia))). mrun. cbn [default from_option id].
  change (WEXITSTATUS 0 =? 0) with true. cbn [negb]. mrun.
  set (w5 := after (Waitpid x) (Pair x 0) w4).
  assert (about_processes (tr w5) = process_log x) as A5.
  { unfold w5. rewrite tr_after. change (Sys (Waitpid x) (Pair x 0) :: about_processes (tr w4) = process_log x).
    rewrite A4. unfold process_log. by rewrite (proj2 (Z.eqb_neq x 0)) by lia. }
  assert (process_log x <> []) as Hne by (unfold process_log; by destruct (x =? 0)).
  eapply (segment_bind (fun K => SYSCALL (od_close od) _ TestFdso.FILE 95 T) _ K B A false _
    (fun _ => st tid SCHED_NORMAL [] []) w5 _ _ _ FK); [segment_tac|segment_tac| | |exact A5|done|].
  { apply runs_SYSCALL, (runs_od_close_last tid cpus _ _ (obj_id FMLP_SEM)), not_elem_of_nil. }
  { apply (st_same _ _ _ _ w4); [exact S4|..]; unfold w5; by rewrite tr_after. }
  intros z' w6 S6 A6. destruct (parent_tail K B A tid fd ".fmlp_locks" TestFdso.FILE 97 T w6) as (w' & Hrun & Ha');
    [done|done|by rewrite A6|]. exists w'. split; [exact Hrun|]. by rewrite Ha'.
Qed.

Lemma not_inherit_run K B A tid tid' child : forking K B A child -> test_kernel B tid' cpus (mask_text m m0 ms) ->
  (if child then task_kernel A tid cpus (mask_text m m0 ms) /\ starts_bare A else test_kernel A tid cpus (mask_text m m0 ms)) ->
  exists x, lands (not_inherit K w0) (Exit 0) (process_log x) /\ 0 <= x.
Proof using Hcpus Hmask Hms Hw0.
  intros FK TB TA. rewrite not_inherit_shape. cbv zeta. unfold SYSCALL at 2, open_file. mrun.
  destruct TB as [_ SM AB _ _ _ _].
  assert (@kernel K (tr w0) (Open ".fmlp_locks" (Z.lor O_RDONLY O_CREAT) S_IRUSR) = @kernel B (tr w0) _) as EB
    by (apply (fk_before _ _ _ _ FK); by rewrite Hw0).
  destruct (acc_open (K := B) (tr w0) ".fmlp_locks" (Z.lor O_RDONLY O_CREAT) S_IRUSR) as (fd & EO & Hfd).
  rewrite EB, EO. cbn [ret_of]. rewrite (proj2 (Z.ltb_ge fd 0)) by done. mrun.
  unfold SYSCALL at 1, open_fmlp_sem, od_open, od_openx, syscall_int. mrun.
  set (h := Sys (Open ".fmlp_locks" _ _) (Succ fd) :: tr w0).
  assert (room (lock_log h)) as Hroom.
  { exists []. unfold h. rewrite Hw0. split; [by intros od [? [=]]|cbn; lia]. }
  assert (may_open (policy_of tid' h) (obj_id FMLP_SEM) = true) as Hmay by (unfold h; by rewrite Hw0).
  destruct (sem_open (K := B) (cpus := cpus) h fd (obj_id FMLP_SEM) 0 None Hmay ltac:(cbn; lia) eq_refl Hroom)
    as (od & Eod & Hod & _).
  rewrite (fk_before _ _ _ _ FK), Eod by (unfold h; by rewrite Hw0). cbn [ret_of].
  rewrite small_int by (unfold INT_MIN; lia). rewrite (proj2 (Z.ltb_ge od 0)) by lia. mrun.
  match goal with |- context [@kernel K ?t Fork] => destruct (fk_fork _ _ _ _ FK t) as (x & EF & Hx) end.
  rewrite EF. cbn [ret_of]. assert (0 <= x) as Hx0 by (destruct child; lia). unfold ASSERT.
  rewrite (proj2 (Z.eqb_neq x (-1))) by lia. cbn [negb]. mrun. set (w2 := after Fork (Succ x) _).
  assert (tr w2 = [Sys Fork (Succ x); Sys (NR_od_open fd (obj_id FMLP_SEM) 0 None) (Succ od);
    Sys (Open ".fmlp_locks" (Z.lor O_RDONLY O_CREAT) S_IRUSR) (Succ fd)]) as E2 by (unfold w2; by rewrite !tr_after, Hw0).
  assert (st tid SCHED_NORMAL [] [(od, obj_id FMLP_SEM)] w2) as S2.
  { apply st_opened; rewrite E2; [done|right]. by exists fd, (obj_id FMLP_SEM), 0, None, od. }
  exists x. split; [|done]. destruct child.
  - subst x. destruct TA as [TA SB]. destruct (last_segment (not_inherit_rest fd od 0) K B A true
      (orphan tid SCHED_NORMAL [(od, obj_id FMLP_SEM)]) 0 w2) as (w' & Hrun & Ha); [done| | | | |by rewrite E2|].
    + unfold not_inherit_rest. segment_tac.
    + unfold not_inherit_rest. cbn [Z.eqb]. segment_tac.
    + by apply (not_inherit_child tid).
    + split; [exact S2|]. rewrite E2. by split.
    + rewrite (bind_exit _ _ _ _ _ Hrun). exists w'. split; [done|]. by rewrite Ha, E2.
  - destruct (not_inherit_parent K B A tid x fd od w2 FK TA S2) as (w' & Hrun & Ha); [by rewrite E2|lia|].
    rewrite (bind_val _ _ _ _ _ Hrun). by exists w'.
Qed.

Definition fork_non_rt : Kernel -> M Z := fun K => @test_rt_fork_non_rt K H status;; exit_ 0.

Lemma fork_non_rt_causal : causal fork_non_rt.
Proof using. intros K K'. unfold fork_non_rt, test_rt_fork_non_rt. causal_tac. Qed.

(** The two processes after the fork. *)
Definition fork_non_rt_child (K : Kernel) : M unit :=
  let T := "test_rt_fork_non_rt" in
  SYSCALL_FAILS EINVAL "EINVAL" sleep_next_period "sleep_next_period()" TestCoreApi.FILE 134 T;;
  SYSCALL_FAILS EINVAL "EINVAL" (wait_for_job_release 0) "wait_for_job_release(0)" TestCoreApi.FILE 135 T;;
  SYSCALL_FAILS EPERM "EPERM" job_no_ret "get_job_no(&job_no)" TestCoreApi.FILE 136 T;;
  exit_ 0.

Definition fork_non_rt_parent (pid : Z) (K : Kernel) : M unit :=
  let T := "test_rt_fork_non_rt" in
  SYSCALL sleep_next_period "sleep_next_period()" TestCoreApi.FILE 142 T;;
  SYSCALL (wait_for_job_release 3) "wait_for_job_release(3)" TestCoreApi.FILE 143 T;;
  SYSCALL job_no_ret "get_job_no(&job_no)" TestCoreApi.FILE 144 T;;
  SYSCALL (task_mode BACKGROUND_TASK) "task_mode(BACKGROUND_TASK)" TestCoreApi.FILE 146 T;;
  status ← wait_for (s32 pid) status "waitpid(pid, &status, 0)" TestCoreApi.FILE 148 T;
  ASSERT (WEXITSTATUS status =? 0) "WEXITSTATUS(status) == 0" TestCoreApi.FILE 150 T.

Lemma fork_non_rt_shape K : fork_non_rt K = (
  let T := "test_rt_fork_non_rt" in
  (become_rt (sporadic_partitioned (ms2ns 10) (ms2ns 100) 0)
     "sporadic_partitioned(ms2ns(10), ms2ns(100), 0)" TestCoreApi.FILE 124 T;;
   pid ← syscall Fork;
   ASSERT (negb (u32 pid =? u32 (-1))) "pid != -1" TestCoreApi.FILE 129 T;;
   if u32 pid =? 0 then fork_non_rt_child K else fork_non_rt_parent (u32 pid) K);; exit_ 0).
Proof using. reflexivity. Qed.

Lemma fork_non_rt_child_exits {K : Kernel} tid : job_laws K tid ->
  exits (st tid SCHED_NORMAL [] []) (fork_non_rt_child K) 0.
Proof using.
  intros J. unfold fork_non_rt_child. cbv zeta.
  eapply exits_bind; [eapply runs_SYSCALL_FAILS, (runs_no_job tid); [exact J|by left]|intros z1].
  eapply exits_bind; [eapply runs_SYSCALL_FAILS, (runs_no_job tid); [exact J|by right; left]|intros z2].
  eapply exits_bind; [eapply runs_SYSCALL_FAILS, (runs_no_job tid); [exact J|by right; right; left]|intros z3].
  apply exits_exit.
Qed.

Lemma fork_non_rt_parent_lands K B A tid x w : forking K B A false -> Schedules A tid -> Accepts A tid -> job_laws A tid ->
  st tid SCHED_LITMUS [] [] w -> about_processes (tr w) = [Sys Fork (Succ x)] -> 0 < x <= INT_MAX ->
  lands (fork_non_rt_parent x K w) (Val tt) (process_log x).
Proof using Hms.
  intros FK SC AC J Hw Ha Hx. unfold fork_non_rt_parent. cbv zeta. set (T := "test_rt_fork_non_rt").
  assert (s32 x = x) as E32 by (apply wrap_s_small; unfold INT_MAX in Hx; lia). rewrite E32.
  eapply (segment_bind (fun K => SYSCALL sleep_next_period _ TestCoreApi.FILE 142 T) _ K B A false _
    (fun _ => st tid SCHED_LITMUS [] []) w _ _ _ FK); [segment_tac|segment_tac| |exact Hw|exact Ha|done|].
  { apply runs_SYSCALL, runs_job; [done|by left]. }
  intros z1 w1 S1 A1.
  eapply (segment_bind (fun K => SYSCALL (wait_for_job_release 3) _ TestCoreApi.FILE 143 T) _ K B A false _
    (fun _ => st tid SCHED_LITMUS [] []) w1 _ _ _ FK); [segment_tac|segment_tac| |exact S1|exact A1|done|].
  { apply runs_SYSCALL, runs_job; [done|by right; left]. }
  intros z2 w2 S2 A2.
  eapply (segment_bind (fun K => SYSCALL job_no_ret _ TestCoreApi.FILE 144 T) _ K B A false _
    (fun _ => st tid SCHED_LITMUS [] []) w2 _ _ _ FK); [segment_tac|segment_tac| |exact S2|exact A2|done|].
  { apply runs_SYSCALL, runs_job; [done|by right; right; left]. }
  intros z3 w3 S3 A3.
  eapply (segment_bind (fun K => SYSCALL (task_mode BACKGROUND_TASK) _ TestCoreApi.FILE 146 T) _ K B A false _
    (fun _ => st tid SCHED_NORMAL [] []) w3 _ _ _ FK); [segment_tac|segment_tac| |exact S3|exact A3|done|].
  { apply runs_SYSCALL, (runs_background tid). }
  intros z4 w4 S4 A4. unfold wait_for, waitpid, ASSERT. mrun. rewrite (fk_wait _ _ _ _ FK) by lia. mrun.
  rewrite (bind_val _ _ _ x _ (SYSCALL_ret x _ _ _ _ _ ltac:(lia))). mrun. cbn [default from_option id].
  change (WEXITSTATUS 0 =? 0) with true. cbn [negb]. mrun. eexists. split; [done|]. rewrite tr_after.
  change (Sys (Waitpid x) (Pair x 0) :: about_processes (tr w4) = process_log x).
  rewrite A4. unfold process_log. by rewrite (proj2 (Z.eqb_neq x 0)) by lia.
Qed.

Lemma fork_non_rt_run K B A tid tid' child : forking K B A child -> task_kernel B tid' cpus (mask_text m m0 ms) ->
  job_laws A tid -> (if child then tid <> tid' else tid = tid' /\ task_kernel A tid cpus (mask_text m m0 ms)) ->
  exists x, lands (fork_non_rt K w0) (Exit 0) (process_log x) /\ 0 <= x.
Proof using Hcpus Hmask Hms Hw0.
  intros FK [SC AC AL ON SV] J TA. rewrite fork_non_rt_shape. cbv zeta. set (T := "test_rt_fork_non_rt").
  assert (st tid' SCHED_NORMAL [] [] w0) as S0 by (apply st_opened; rewrite Hw0; [done|by left]).
  set (pre := fun K : Kernel => become_rt (sporadic_partitioned (ms2ns 10) (ms2ns 100) 0)
    "sporadic_partitioned(ms2ns(10), ms2ns(100), 0)" TestCoreApi.FILE 124 T).
  destruct (runs_become_rt (K := B) tid' cpus ltac:(lia) m m0 ms Hmask Hms (ms2ns 10) (ms2ns 100) [] []
    "sporadic_partitioned(ms2ns(10), ms2ns(100), 0)" TestCoreApi.FILE 124 T w0 S0) as ([] & w1 & Hrun & S1).
  assert (keeps about_processes (pre B)) as Hk by (unfold pre; segment_tac).
  assert (follows B K (pre B) (pre K)) as Hf by (unfold pre; segment_tac).
  pose proof (keeps_run _ _ _ _ _ Hk Hrun) as A1. rewrite Hw0 in A1. change (about_processes []) with (@nil event) in A1.
  pose proof (before_fork_run pre K B A child w0 _ w1 FK Hf A1 Hrun) as HrunK.
  rewrite bind_bind, (bind_val _ _ _ _ _ HrunK), bind_bind, bind_syscall.
  destruct (fk_fork _ _ _ _ FK (tr w1)) as (x & EF & Hx). rewrite EF. cbn [ret_of]. set (w2 := after Fork (Succ x) w1).
  assert (0 <= x <= INT_MAX) as Hx0 by (unfold INT_MAX in *; destruct child; lia).
  rewrite (wrap_u_small 32 x) by (unfold INT_MAX in Hx0; lia). change (u32 (-1)) with 4294967295.
  unfold ASSERT. rewrite (proj2 (Z.eqb_neq x 4294967295)) by (unfold INT_MAX in Hx0; lia). cbn [negb]. mrun.
  assert (about_processes (tr w2) = [Sys Fork (Succ x)]) as A2.
  { unfold w2. rewrite tr_after. change (Sys Fork (Succ x) :: about_processes (tr w1) = [Sys Fork (Succ x)]). by rewrite A1. }
  exists x. split; [|lia]. destruct child.
  - subst x. cbn [Z.eqb]. assert (st tid SCHED_NORMAL [] [] w2) as S2.
    { destruct S1 as (_ & Hh & Hn & Ht). unfold w2, st. rewrite !tr_after. cbn [policy_of].
      split; [|by split]. rewrite (become_rt_others tid' tid _ _ _ _ _ _ w0 tt w1 SC TA (proj1 S0) Hrun). by rewrite Hw0. }
    destruct (last_segment fork_non_rt_child K B A true (st tid SCHED_NORMAL [] []) 0 w2) as (w' & Hrun' & Ha);
      [done|unfold fork_non_rt_child; segment_tac|unfold fork_non_rt_child; segment_tac|by apply (fork_non_rt_child_exits tid)
      |exact S2|by rewrite A2|].
    rewrite (bind_exit _ _ _ _ _ Hrun'). exists w'. split; [done|]. by rewrite Ha, A2.
  - rewrite (proj2 (Z.eqb_neq x 0)) by lia. destruct TA as [-> [SC' AC' _ _ _]].
    destruct (fork_non_rt_parent_lands K B A tid' x w2 FK SC' AC' J) as (w' & Hrun' & Ha); [|exact A2|exact Hx|].
    + apply (st_same _ _ _ _ w1); [exact S1|..]; unfold w2; by rewrite tr_after.
    + rewrite (bind_val _ _ _ _ _ Hrun'). by exists w'.
Qed.
End tests.

(** ** A program that forks once, on a kernel of its own for each process *)

Lemma with_processes_task child h K tid cpus mask :
  task_kernel K tid cpus mask -> task_kernel (with_processes child h K) tid cpus mask.
Proof. intros [[] [] Ha Ho []]. split; [by split|by split|exact Ha|exact Ho|by split]. Qed.

Lemma with_processes_bare child h K : starts_bare K -> starts_bare (with_processes child h K).
Proof.
  intros SB t od c Ht Ho Hc. pose proof (SB t od c Ht Ho Hc) as E. rewrite !elem_of_cons in Hc.
  by destruct Hc as [->|[->|[]%not_elem_of_nil]].
Qed.

Lemma with_processes_jobs child h K tid : job_laws K tid -> job_laws (with_processes child h K) tid.
Proof. intros []. by split. Qed.

Section system.
Context (P : Kernel -> M Z) (Pc : causal P) (w0 : world) (Hw0 : tr w0 = []) (root : Z) (Hroot : 0 < root) (KC : Z -> Kernel).
Context {Sh : Type} (serve : Sh -> Z -> trace -> call -> option (reply * Sh)).
Hypothesis Hserve : forall sh p h c r sh', serve sh p h c = Some (r, sh') -> r = @kernel (KC p) h c.

Definition told (p : Z) (u : trace) (c : call) (r : reply) : Prop :=
  match c with
  | Fork => if p =? root then exists x, r = Succ x /\ 0 < x <= INT_MAX else r = Succ 0
  | Waitpid x => 0 < x -> r = Pair x 0
  | c => r = @kernel (KC (owner root p u)) u c
  end.

Lemma told_other p u c : process_call c = false -> owner root p u = p -> told p u c (@kernel (KC p) u c).
Proof using.
  intros Hc Ho. destruct c; try done; cbn [told]; try by rewrite Ho.
  cbn [process_call] in Hc. apply Z.ltb_ge in Hc. lia.
Qed.

(** The kernel of a run of [p] that begins with [h]. *)
Definition first_fork (p : Z) : reply := Succ (if p =? root then 1 else 0).
Definition kernel_of (p : Z) (h : trace) : Kernel :=
  with_processes (first_fork p) h (fun u c => @kernel (KC (owner root p u)) u c).

Lemma kernel_of_answers p h : lawful told p h -> answers (kernel_of p h) (tr w0) h.
Proof using.
  intros L c r u Hu _. unfold kernel_of, kernel, with_processes. pose proof (L c r u Hu) as Hr.
  apply recorded_spec in Hu as Hrec. destruct c; try done; by rewrite Hrec.
Qed.

Lemma kernel_of_forking p h : lawful told p h ->
  forking (kernel_of p h) (with_processes (first_fork p) h (KC root)) (with_processes (first_fork p) h (KC p)) (negb (p =? root)).
Proof using.
  intros L. split.
  - intros u c Hu. assert (owner root p u = root) as E by (unfold owner; by rewrite Hu).
    destruct c; try done; unfold kernel_of, with_processes, kernel; by rewrite E.
  - intros u c Hu. assert (owner root p u = p) as E by (unfold owner; by destruct (about_processes u)).
    destruct c; try done; unfold kernel_of, with_processes, kernel; by rewrite E.
  - intros u. unfold kernel_of, kernel, with_processes, first_fork. destruct (recorded h u Fork) as [r|] eqn:E.
    + apply recorded_spec, L in E. cbn [told] in E. cbn [default from_option id]. destruct (p =? root); cbn [negb]; [done|]. by exists 0.
    + destruct (p =? root); [by exists 1|by exists 0].
  - intros u x Hx. unfold kernel_of, kernel, with_processes. destruct (recorded h u (Waitpid x)) as [r|] eqn:E; [|done].
    apply recorded_spec, L in E. by apply E.
Qed.

Hypothesis Hrun : forall p h, lawful told p h -> exists x, lands (P (kernel_of p h) w0) (Exit 0) (process_log x) /\ 0 <= x.

#[local] Instance forked_duet : Duet P w0 serve root pid_t told (fun _ _ _ => True).
Proof using Pc Hw0 Hroot Hserve Hrun.
  split; try done.
  - intros u x Hx Hok _. cbn [told]. rewrite Z.eqb_refl. by exists x.
  - intros p u _ Hne _. cbn [told]. by rewrite (proj2 (Z.eqb_neq p root)).
  - intros p u c r Hu Hr. destruct c; try done; cbn [told] in *; rewrite Hr; unfold owner; change (about_processes u = []) in Hu; by rewrite Hu.
  - intros p h L. destruct (Hrun p h L) as (x & (w & E & Ha) & Hx).
    exists (kernel_of p h), (Exit 0), w, x. split_and!; [by apply kernel_of_answers|done|by left|done..].
  - intros sh h k c r sh' _ _ _ Hc _ _ ->%Hserve. split; [|done]. apply told_other; [done|apply owner_root].
  - intros sh h x hx c r sh' _ _ _ Hc _ _ Hf ->%Hserve. split; [|done].
    apply told_other; [done|]. unfold owner. by rewrite Hf.
Qed.

(** Every execution is finite; and where process ids are of type [pid_t], every
    process that has ended left status 0, and while one is alive, one can go on
    or the kernel delays a process. *)
Definition well_behaved : Prop :=
  exists N, forall sh k s, nsteps (step P w0 serve (fun _ => False) (fun _ => False)) k (boot w0 root sh) s ->
    (k <= N)%nat /\ (all_ids pid_t s -> forall p q, procs s !! p = Some q ->
      match state q with
      | Running => (exists s', step P w0 serve (fun _ => False) (fun _ => False) s s') \/
          exists p' q' c, procs s !! p' = Some q' /\ next P w0 (hist q') = ACall c /\ serve (shared s) p' (hist q') c = None
      | Zombie st | Reaped st => st = 0
      end).

Lemma forked_well_behaved : (exists n, forall K : Kernel, short n (P K)) -> well_behaved.
Proof using Pc Hw0 Hroot Hserve Hrun.
  intros [n Hn]. exists (3 ^ n)%nat. intros sh k s Hk.
  assert (reachable P w0 serve (fun _ => False) (fun _ => False) root s) as Hs by (exists sh; by eapply rtc_nsteps_2).
  split; [eapply system_terminates; [exact Pc|exact Hroot| |exact Hk]; intros K; apply Hn|].
  intros Hids p q Hq. pose proof (fun st => duet_statuses s p q st Hs Hids Hq) as Hst.
  destruct (state q) as [|st|st] eqn:E; [|by apply Hst..].
  destruct (duet_moves s p q Hs Hids Hq E) as [?|(p' & q' & Hq' & _ & [Hn'|(c & Hc & _ & Hsv)])]; [by left|exfalso|right; by exists p', q', c].
  destruct (duet_lawful s p' q' Hs Hids Hq') as [L Hh]. destruct (Hrun p' _ L) as (x & (w & Hw & _) & _).
  destruct (history_end P Pc w0 _ _ Hh Hn' _ (kernel_of_answers p' _ L)) as (w' & Hw' & _). by rewrite Hw in Hw'.
Qed.
End system.

(** ** The two tests *)

Section theorem.
Context {H : KernelHeader} (status : Z) (cpus : Z) (m : nat) (m0 : Z) (ms : list Z) (Hcpus : 2 <= cpus <= 4096).
Context (Hmask : wf_mask m m0 ms) (Hms : (length ms <= 127)%nat) (w0 : world) (Hw0 : tr w0 = []).
Context (root : Z) (Hroot : 0 < root) (KC : Z -> Kernel) (tid : Z -> Z).
Context {Sh : Type} (serve : Sh -> Z -> trace -> call -> option (reply * Sh)).
Hypothesis Hserve : forall sh p h c r sh', serve sh p h c = Some (r, sh') -> r = @kernel (KC p) h c.

Lemma mode_change_short : exists n, forall K : Kernel, short n (mode_change status K).
Proof using.
  destruct short_migrate as [n1 H1], short_task_mode as [n2 H2]. eexists. intros K.
  unfold mode_change. autounfold with litmus_tests. short_tac.
Qed.

Lemma not_inherit_short : exists n, forall K : Kernel, short n (not_inherit status K).
Proof using.
  destruct short_partitioned as [n1 H1], short_task_mode as [n2 H2]. eexists. intros K.
  unfold not_inherit. autounfold with litmus_tests. short_tac.
Qed.

Lemma fork_non_rt_short : exists n, forall K : Kernel, short n (fork_non_rt status K).
Proof using.
  destruct short_partitioned as [n1 H1], short_task_mode as [n2 H2]. eexists. intros K.
  unfold fork_non_rt. autounfold with litmus_tests. short_tac.
Qed.

(** C11: three tests that fork, as interleaved processes.  On a kernel that
    implements the specification of semaphores for every process, the test of
    the mode change of an FMLP task is well behaved: every execution is finite,
    every process leaves status 0, and none waits for ever.  So is the test
    that descriptors are not inherited, whose processes become real-time side
    by side, when the specification holds for the first process and a child
    starts without descriptors; and the test that a child of a real-time task
    is not one, where jobs are what real-time tasks have. *)
Theorem fork_tests_well_behaved :
  ((forall p, test_kernel (KC p) (tid p) cpus (mask_text m m0 ms)) ->
     well_behaved (fun K => @test_fmlp_lock_mode_change K H status;; exit_ 0) w0 root serve) /\
  (test_kernel (KC root) (tid root) cpus (mask_text m m0 ms) ->
     (forall p, p <> root -> task_kernel (KC p) (tid p) cpus (mask_text m m0 ms) /\ starts_bare (KC p)) ->
     well_behaved (fun K => @test_not_inherit_od K H status;; exit_ 0) w0 root serve) /\
  (task_kernel (KC root) (tid root) cpus (mask_text m m0 ms) ->
     (forall p, job_laws (KC p) (tid p)) -> (forall p, p <> root -> tid p <> tid root) ->
     well_behaved (fun K => @test_rt_fork_non_rt K H status;; exit_ 0) w0 root serve).
Proof using All.
  split_and!.
  - intros TK. apply (forked_well_behaved (mode_change status) (mode_change_causal status) w0 Hw0 root Hroot KC serve Hserve);
      [|apply mode_change_short].
    intros p h L. pose proof (kernel_of_forking root KC p h L) as FK.
    pose proof (with_processes_lawful (first_fork root p) h _ _ _ _ (TK root)) as TB.
    pose proof (with_processes_lawful (first_fork root p) h _ _ _ _ (TK p)) as TA.
    destruct (mode_change_run status cpus m m0 ms Hcpus Hms w0 Hw0 _ _ _ (tid p) (tid root) _ FK (tk_accepts _ _ _ _ TB) TA)
      as (x & w & Hw & Ha & Hx). exists x. split; [by exists w|done].
  - intros TK TC. apply (forked_well_behaved (not_inherit status) (not_inherit_causal status) w0 Hw0 root Hroot KC serve Hserve);
      [|apply not_inherit_short].
    intros p h L. pose proof (kernel_of_forking root KC p h L) as FK.
    pose proof (with_processes_lawful (first_fork root p) h _ _ _ _ TK) as TB.
    apply (not_inherit_run status cpus m m0 ms Hcpus Hmask Hms w0 Hw0 _ _ _ (tid p) (tid root) _ FK TB).
    destruct (Z.eqb_spec p root) as [->|Hne]; cbn [negb]; [exact TB|]. destruct (TC p Hne) as [TA SB].
    split; [by apply with_processes_task|by apply with_processes_bare].
  - intros TK TJ Htid. apply (forked_well_behaved (fork_non_rt status) (fork_non_rt_causal status) w0 Hw0 root Hroot KC serve Hserve);
      [|apply fork_non_rt_short].
    intros p h L. pose proof (kernel_of_forking root KC p h L) as FK.
    pose proof (with_processes_task (first_fork root p) h _ _ _ _ TK) as TB.
    apply (fork_non_rt_run status cpus m m0 ms Hcpus Hmask Hms w0 Hw0 _ _ _ (tid p) (tid root) _ FK TB);
      [by apply with_processes_jobs|]. destruct (Z.eqb_spec p root) as [->|Hne]; cbn [negb]; [by split|by apply Htid].
Qed.
End theorem.

(** ** Concrete runs *)

Module ForkTestsWitness.
Import Sim LockKernel LockTestsWitness.
#[local] Existing Instances k4 sim_header.

(** A child has no descriptors but its own. *)
Definition bare_kernel : Kernel := fun t c =>
  match c with
  | NR_litmus_lock od | NR_litmus_unlock od =>
      match od_type od (lock_log (own t)) with None => Fail EINVAL | Some _ => @kernel k4 t c end
  | c => @kernel k4 t c
  end.

Definition kernels (p : Z) : Kernel := if p =? 1 then k4 else bare_kernel.

Definition serve (sh : unit) (p : Z) (h : trace) (c : call) : option (reply * unit) := Some (@kernel (kernels p) h c, sh).
Definition serve_k4 (sh : unit) (p : Z) (h : trace) (c : call) : option (reply * unit) := Some (@kernel k4 h c, sh).

Lemma k4_task : task_kernel k4 1000 4 (mask_text 1 15 []).
Proof. split; try apply _. exact k4_domain. Qed.

Lemma bare_task : task_kernel bare_kernel 1000 4 (mask_text 1 15 []).
Proof. destruct k4_task as [[] [] Ha Ho []]. split; [by split|by split|exact Ha|exact Ho|by split]. Qed.

Lemma bare_bare : starts_bare bare_kernel.
Proof.
  intros t od c Ht Ho Hc. rewrite !elem_of_cons in Hc. unfold kernel, bare_kernel.
  destruct Hc as [->|[->|[]%not_elem_of_nil]]; by rewrite Ho.
Qed.

(** Jobs are what a task has that its own history made real-time. *)
Definition job_kernel (tid : Z) : Kernel := fun t c =>
  let rt := policy_of tid t =? SCHED_LITMUS in
  match c with
  | NR_complete_job | NR_wait_for_job_release _ => if rt then Succ 0 else Fail EINVAL
  | NR_query_job_no => if rt then Pair 1 0 else Fail EPERM
  | c => @kernel k4 t c
  end.

Definition thread (p : Z) : Z := if p =? 1 then 1000 else 1001.

Lemma job_task tid : task_kernel (job_kernel tid) 1000 4 (mask_text 1 15 []).
Proof. destruct k4_task as [[] [] Ha Ho []]. split; [by split|by split|exact Ha|exact Ho|by split]. Qed.

Lemma job_jobs tid : job_laws (job_kernel tid) tid.
Proof. split; [done|done|]. intros t. unfold kernel, job_kernel. destruct (_ =? _); [by exists 1|done]. Qed.

Definition serve_jobs (sh : unit) (p : Z) (h : trace) (c : call) : option (reply * unit) :=
  Some (@kernel (job_kernel (thread p)) h c, sh).

Definition fork_non_rt_test : Kernel -> M Z := @fork_non_rt sim_header 0.
Definition not_inherit_test : Kernel -> M Z := @not_inherit sim_header 0.
Definition mode_change_test : Kernel -> M Z := @mode_change sim_header 0.

(** The states at the end, when the first of the listed processes that can
    make a step always does. *)
Definition ends_with (serve : unit -> Z -> trace -> call -> option (reply * unit)) (program : Kernel -> M Z) (order : list Z) :
    list (option pstate) :=
  let s := execute program w0 serve 300 1000 order (boot w0 1 tt) in
  [state <$> procs s !! 1; state <$> procs s !! 1001].

Example not_inherit_child_first : ends_with serve not_inherit_test [1001; 1] = [Some (Zombie 0); Some (Reaped 0)].
Proof. by vm_compute. Qed.

Example not_inherit_parent_first : ends_with serve not_inherit_test [1; 1001] = [Some (Zombie 0); Some (Reaped 0)].
Proof. by vm_compute. Qed.

Example fork_non_rt_child_first : ends_with serve_jobs fork_non_rt_test [1001; 1] = [Some (Zombie 0); Some (Reaped 0)].
Proof. by vm_compute. Qed.

Lemma fork_tests_well_behaved_witness :
  well_behaved mode_change_test w0 1 serve_k4 /\ well_behaved not_inherit_test w0 1 serve /\
  well_behaved fork_non_rt_test w0 1 serve_jobs.
Proof.
  split_and!.
  - apply (@fork_tests_well_behaved sim_header 0 4 1 15 [] ltac:(lia) wf_k4 ltac:(cbn; lia) w0 eq_refl 1 ltac:(lia)
      (fun _ => k4) (fun _ => 1000)).
    + by intros sh p h c r sh' [= <- _].
    + intros p. exact SuiteSystemWitness.k4_tests.
  - apply (@fork_tests_well_behaved sim_header 0 4 1 15 [] ltac:(lia) wf_k4 ltac:(cbn; lia) w0 eq_refl 1 ltac:(lia)
      kernels (fun _ => 1000)).
    + by intros sh p h c r sh' [= <- _].
    + exact SuiteSystemWitness.k4_tests.
    + intros p Hp. unfold kernels. rewrite (proj2 (Z.eqb_neq p 1)) by done. split; [exact bare_task|exact bare_bare].
  - apply (@fork_tests_well_behaved sim_header 0 4 1 15 [] ltac:(lia) wf_k4 ltac:(cbn; lia) w0 eq_refl 1 ltac:(lia)
      (fun p => job_kernel (thread p)) thread).
    + by intros sh p h c r sh' [= <- _].
    + exact (job_task 1000).
    + intros p. apply job_jobs.
    + intros p Hp. unfold thread. by rewrite (proj2 (Z.eqb_neq p 1)).
Defined.
End ForkTestsWitness.
