(* ===== verification/Scripts.v ===== *)
(** * setsched and showsched: the shell scripts

    The two scripts that show and change the active scheduler plugin, as
    computations on the requests a shell makes: a command in backquotes
    ([Substitute], answered by what it prints), a pipeline ([Command], answered
    by its exit status), the test of a file and the redirection of an [echo].
    The commands themselves are the environment's.  What [echo] prints for an
    argument that starts with a dash or holds a backslash differs between
    shells, so [echo] is a parameter; the words of an unquoted variable are
    split at blanks, and are not expanded as patterns of file names. *)
From S2P Require Import Prelude Machine.

Definition ADIR : string := "/proc/litmus/active_plugin".
Definition PDIR : string := "/proc/litmus/plugins/loaded".

Definition newline : ascii := ascii_of_nat 10.
Definition quote : string := String (ascii_of_nat 34) EmptyString.

(** What a shell makes of the output of a command: without the newlines at
    its end. *)
Fixpoint strip_newlines (d : bytes) : bytes :=
  match d with
  | [] => []
  | c :: d =>
      match strip_newlines d with
      | [] => if Ascii.eqb c newline then [] else [c]
      | d => c :: d
      end
  end.

Definition text (d : bytes) : string := String.string_of_list_ascii (strip_newlines d).

Definition is_blank (c : ascii) : bool :=
  Ascii.eqb c " " || Ascii.eqb c (ascii_of_nat 9) || Ascii.eqb c newline.

(** The words of a text; [word] is the one being read, last character first. *)
Fixpoint split_words (word d : bytes) : list bytes :=
  match d with
  | [] => match word with [] => [] | _ => [rev word] end
  | c :: d =>
      if is_blank c then match word with [] => split_words [] d | _ => rev word :: split_words [] d end
      else split_words (c :: word) d
  end.

(** An unquoted variable. *)
Definition fields (s : string) : list string := map String.string_of_list_ascii (split_words [] (bytes_of s)).

(** What a command in backquotes printed. *)
Definition output (r : reply) : string := text (match r with Data d => d | _ => [] end).

Section scripts.
Context {K : Kernel} (echo : string -> bytes).

Definition substitute (words : list string) (err : option string) : M string :=
  r ← sys (Substitute words err);
  mret (output r).

(** The choice from a menu of the loaded plugins. *)
Definition choose_plugin (DIALOG ACTIVE : string) : M string :=
  when (String.eqb DIALOG "")
    (printf "Error: The dialog utility cannot be found." [];;
     printf "       Please install the required package (dialog on Ubuntu)," [];;
     printf "       or specify the desired plugin as a commandline argument," [];;
     printf "       e.g., 'setsched GSN-EDF'." [];;
     exit_ 2);;
  TMP ← substitute ["mktemp"] None;
  OK ← syscall (Command
    [["awk"; "{print $1 " +:+ quote +:+ " 'Plugin'" +:+ quote +:+ "}"; PDIR];
     "xargs" :: fields DIALOG ++
       ["--title"; "Select Plugin"; "--backtitle"; "Current: " +:+ ACTIVE;
        "--cancel-label"; "Cancel"; "--ok-label"; "Select Plugin";
        "--menu"; "Select a new plugin to run: "; "15"; "60"; "6"]] (Some TMP));
  syscall (Command [["clear"]] None);;
  when (negb (OK =? 0)) (exit_ 0);;
  CHOICE ← substitute ("cat" :: fields TMP) None;
  syscall (Command ["rm" :: fields TMP] None);;
  mret CHOICE.

(** The script from the choice on. *)
Definition set_plugin (CHOICE : string) : M Z :=
  ok ← syscall (Redirect ADIR (echo CHOICE));
  when (negb (ok =? 0)) (printf "Error: Cannot write to $ADIR. Do you have root privileges?" [AStr ADIR]);;
  ACTIVE ← substitute ["cat"; ADIR] None;
  if negb (String.eqb ACTIVE CHOICE) then
    printf "Error: Setting new plugin failed." [];;
    printf "Are there any active real-time tasks?" [];;
    exit_ 1
  else mret 0.

(** [args] are the arguments after the script's name. *)
Definition setsched (args : list string) : M Z :=
  DIALOG ← substitute ["which"; "dialog"] (Some "/dev/null");
  let CHOICE := hd "" args in
  there ← syscall (Stat ADIR);
  when (negb (there =? 0))
    (KERN ← substitute ["uname"; "-s"; "-r"] None;
     printf "Error: LITMUS^RT interface not found on $KERN!" [AStr KERN];;
     printf "Are you sure you booted the correct kernel?" [];;
     printf "Is the /proc filesystem mounted correctly?" [];;
     exit_ 1);;
  ACTIVE ← substitute ["cat"; ADIR] None;
  CHOICE ← (if String.eqb (hd "" args) "" then choose_plugin DIALOG ACTIVE else mret CHOICE);
  set_plugin CHOICE.

(** The exit status of [showsched] is that of [cat] when there is a file. *)
Definition showsched : M Z :=
  there ← syscall (Stat ADIR);
  if there =? 0 then syscall (Command [["cat"; ADIR]] None)
  else
    KERN ← substitute ["uname"; "-s"; "-r"] None;
    printf "Error: LITMUS^RT not found on $KERN!" [AStr KERN];;
    exit_ 1.
End scripts.

(** ** Texts *)

(** A text without newlines. *)
Definition one_line (s : string) : Prop := newline ∉ bytes_of s.

Lemma strip_newlines_last d : newline ∉ d -> strip_newlines (d ++ [newline]) = d.
Proof.
  induction d as [|c d IH]; [done|]. rewrite elem_of_cons. intros Hd. cbn [app strip_newlines].
  rewrite IH by tauto. destruct d; [|done]. destruct (Ascii.eqb_spec c newline) as [->|]; [|done]. destruct Hd. by left.
Qed.

Lemma text_line s : one_line s -> text (bytes_of s ++ [newline]) = s.
Proof.
  intros Hs. unfold text. rewrite (strip_newlines_last _ Hs). apply String.string_of_list_ascii_of_string.
Qed.

(** A word without blanks is one field. *)
Lemma split_words_one word d :
  forallb (fun c => negb (is_blank c)) d = true -> word ++ d <> [] -> split_words word d = [rev word ++ d].
Proof.
  revert word. induction d as [|c d IH]; intros word; cbn [split_words forallb].
  - intros _ Hw. rewrite app_nil_r in *. by destruct word.
  - intros [Hc Hd]%andb_prop _. apply negb_true_iff in Hc. rewrite Hc, (IH (c :: word)); [|done..].
    change (rev (c :: word)) with (rev word ++ [c]). by rewrite <- app_assoc.
Qed.

Lemma fields_one s : s <> ""%string -> forallb (fun c => negb (is_blank c)) (bytes_of s) = true -> fields s = [s].
Proof.
  intros Hs Hb. unfold fields. rewrite (split_words_one [] _ Hb) by by destruct s.
  cbn [map rev app]. by rewrite String.string_of_list_ascii_of_string.
Qed.

(** ** The active plugin *)

(** What the documentation of LITMUS^RT says of its file: it shows the name of
    the active plugin; the kernel switches to a plugin whose name is written,
    or does not ([switches]); nothing else the scripts do changes it. *)
Class ActivePlugin (K : Kernel) (active : trace -> string) (switches : trace -> string -> bool) : Prop := {
  plugin_line t : one_line (active t);
  plugin_there t : kernel t (Stat ADIR) = Succ 0;
  plugin_shown t : kernel t (Substitute ["cat"; ADIR] None) = Data (bytes_of (active t) ++ [newline]);
  plugin_written t n r : one_line n ->
    active (Sys (Redirect ADIR (bytes_of n ++ [newline])) r :: t) = if switches t n then n else active t;
  plugin_kept t e : (forall d r, e <> Sys (Redirect ADIR d) r) -> active (e :: t) = active t;
}.

Section plugin.
Context {K : Kernel} (echo : string -> bytes) (active : trace -> string) (switches : trace -> string -> bool).
Context {AP : ActivePlugin K active switches}.
(** The texts [echo] is known to print as they are. *)
Context (plain : string -> Prop).
Hypothesis echo_plain : forall s, plain s -> one_line s /\ echo s = bytes_of s ++ [newline].

Lemma keeps_plugin_sys c : (forall d, c <> Redirect ADIR d) -> quiet active c.
Proof using AP. intros Hc r t. apply plugin_kept. intros d r' [= -> ->]. by destruct (Hc d). Qed.

Lemma keeps_plugin_out fmt args : keeps active (printf fmt args).
Proof using AP. intros w. by apply plugin_kept. Qed.

Lemma keeps_plugin_substitute words err : keeps active (substitute words err).
Proof using AP.
  apply keeps_bind; [|by intros ?; apply keeps_ret]. by apply keeps_sys, keeps_plugin_sys.
Qed.

#[local] Hint Resolve keeps_plugin_out keeps_plugin_substitute : litmus.

Lemma keeps_choose_plugin DIALOG ACTIVE : keeps active (choose_plugin DIALOG ACTIVE).
Proof using AP.
  unfold choose_plugin. repeat first
    [apply keeps_bind; [|intros ?] | apply keeps_when | by apply keeps_syscall, keeps_plugin_sys | solve [auto with litmus nocore]].
Qed.

Lemma grows_set_plugin CHOICE : grows (set_plugin echo CHOICE).
Proof using. unfold set_plugin, substitute. grows_tac. Qed.

Lemma set_plugin_run CHOICE w :
  plain CHOICE ->
  exists o w', set_plugin echo CHOICE w = (o, w') /\
    active (tr w') = (if switches (tr w) CHOICE then CHOICE else active (tr w)) /\
    o = if String.eqb (active (tr w')) CHOICE then Val 0 else Exit 1.
Proof using AP echo_plain.
  intros [Hl He]%echo_plain. unfold set_plugin. rewrite He, bind_syscall.
  set (w1 := after _ _ w).
  assert (active (tr w1) = if switches (tr w) CHOICE then CHOICE else active (tr w)) as H1
    by (unfold w1; rewrite tr_after; by apply plugin_written).
  rewrite <- H1. clearbody w1. clear H1.
  match goal with |- context [when ?b ?m ≫= _] => set (mm := when b m) end.
  assert (exists w2, mm w1 = (Val tt, w2) /\ active (tr w2) = active (tr w1)) as (w2 & Hw2 & H2).
  { unfold mm, when. destruct (negb _); [|by exists w1]. eexists. split; [done|]. by apply plugin_kept. }
  rewrite (bind_val _ _ _ _ _ Hw2), <- H2. unfold substitute. mrun.
  rewrite (plugin_shown (tr w2)). unfold output. rewrite (text_line _ (plugin_line (tr w2))).
  destruct (String.eqb (active (tr w2)) CHOICE) eqn:E; cbn [negb].
  - do 2 eexists. split; [done|]. rewrite tr_after, plugin_kept by done. by rewrite E.
  - mrun. do 2 eexists. split; [done|]. cbn [tr push]. rewrite !plugin_kept by done. rewrite tr_after, plugin_kept by done.
    by rewrite E.
Qed.


(** A text read back from the temporary file after the menu. *)
Definition picked (t : trace) (c : string) : Prop :=
  exists r r', Sys (Substitute ["mktemp"] None) r ∈ t /\
    Sys (Substitute ("cat" :: fields (output r)) None) r' ∈ t /\ c = output r'.

Lemma choose_plugin_run DIALOG ACTIVE w :
  exists o w', choose_plugin DIALOG ACTIVE w = (o, w') /\ active (tr w') = active (tr w) /\
    (o = Exit 2 \/ o = Exit 0 \/ exists c, o = Val c /\ picked (tr w') c /\
       exists t words, c = output (kernel t (Substitute ("cat" :: words) None))).
Proof using AP.
  destruct (choose_plugin DIALOG ACTIVE w) as [o w'] eqn:E. exists o, w'. split; [done|].
  split; [by apply (keeps_run _ _ _ _ _ (keeps_choose_plugin DIALOG ACTIVE) E)|].
  unfold choose_plugin in E. destruct (String.eqb DIALOG ""); cbn [when] in E.
  { unfold printf in E. revert E. mrun. intros [= <- <-]. by left. }
  unfold substitute in E. revert E. mrun.
  destruct (negb _); cbn [when]; mrun; intros [= <- <-]; right; [by left|right].
  eexists. split; [done|]. split; [|by do 2 eexists]. do 2 eexists. rewrite !tr_after. split_and!; [..|done].
  - do 4 right. left.
  - right. left.
Qed.

Definition chosen (args : list string) (t : trace) (c : string) : Prop :=
  if String.eqb (hd "" args) "" then picked t c else c = hd "" args.

(** The outcome [o] for the choice [c], from [w] to [w']. *)
Definition told (w w' : world) (c : string) (o : outcome Z) : Prop :=
  o = Val 0 /\ active (tr w') = c \/
  o = Exit 1 /\ active (tr w') = active (tr w) /\ active (tr w') <> c /\ exists t, switches t c = false.

Lemma set_plugin_told CHOICE w0 w :
  active (tr w) = active (tr w0) -> plain CHOICE ->
  exists o w', set_plugin echo CHOICE w = (o, w') /\ tr w `suffix_of` tr w' /\ told w0 w' CHOICE o.
Proof using AP echo_plain.
  intros H0 Hc. destruct (set_plugin_run CHOICE w Hc) as (o & w' & Hrun & Hact & Ho). exists o, w'. split; [done|].
  split; [by apply (grows_run _ _ _ _ (grows_set_plugin CHOICE) Hrun)|].
  destruct (String.eqb_spec (active (tr w')) CHOICE) as [E|E]; [by left|right].
  destruct (switches (tr w) CHOICE) eqn:Hsw; [done|]. split_and!; [done|congruence|done|by eexists].
Qed.

(** C32: setsched tells the truth about the plugin.  Once there is a choice,
    given on the command line or picked from the menu, the exit status is 0
    exactly when the active plugin at the end is the choice; otherwise it is 1,
    and the plugin is the one that was active before, because the kernel did not
    switch.  Without a choice nothing is changed, and the status is 2 when there
    is no dialog and 0 when the menu was cancelled. *)
Theorem setsched_spec args w :
  plain (hd ""%string args) -> (forall t words, plain (output (kernel t (Substitute ("cat" :: words) None)))) ->
  exists o w', setsched echo args w = (o, w') /\
    ((exists c, chosen args (tr w') c /\ told w w' c o) \/
     hd ""%string args = ""%string /\ active (tr w') = active (tr w) /\ (o = Exit 2 \/ o = Exit 0)).
Proof using AP echo_plain.
  intros Harg Hcat. unfold setsched, substitute. mrun. rewrite (plugin_there _). cbn [ret_of Z.eqb negb when]. mrun.
  match goal with |- exists o w', (_ ≫= _) ?w1 = _ /\ _ => set (w1' := w1) end.
  assert (active (tr w1') = active (tr w)) as H1
    by (unfold w1'; rewrite !tr_after; by rewrite !plugin_kept).
  clearbody w1'. unfold chosen. destruct (String.eqb_spec (hd ""%string args) "") as [E|E].
  - match goal with |- context [choose_plugin ?D ?A] => destruct (choose_plugin_run D A w1') as (o & w2 & Hc & H2 & Ho) end.
    destruct Ho as [->|[->|(c & -> & Hp & t & words & Hpl)]].
    1,2: rewrite (bind_exit _ _ _ _ _ Hc); do 2 eexists; split; [done|]; right; split_and!; [done|congruence|by auto].
    rewrite (bind_val _ _ _ _ _ Hc).
    destruct (set_plugin_told c w w2) as (o & w' & Hrun & (es & Hsuf) & Ht); [congruence|by rewrite Hpl|].
    exists o, w'. split; [done|]. left. exists c. split; [|done].
    destruct Hp as (r & r' & ? & ? & ?). exists r, r'. rewrite Hsuf, !elem_of_app. auto.
  - mrun. destruct (set_plugin_told (hd ""%string args) w w1' H1 Harg) as (o & w' & Hrun & _ & Ht).
    exists o, w'. split; [done|]. left. by eexists.
Qed.
End plugin.

(** A cancelled menu leaves the temporary file behind: after [mktemp] there
    are only the menu and [clear]. *)
Theorem cancelled_menu_leaves_file {K : Kernel} DIALOG ACTIVE w w' :
  choose_plugin DIALOG ACTIVE w = (Exit 0, w') ->
  exists stages tmp, calls (tr w') =
    Command [["clear"]] None :: Command stages (Some tmp) :: Substitute ["mktemp"] None :: calls (tr w).
Proof.
  unfold choose_plugin, substitute, printf. destruct (String.eqb DIALOG ""); cbn [when]; mrun; [done|].
  destruct (negb _); cbn [when]; mrun; [|done]. intros [= <-]. do 2 eexists. rewrite !tr_after. by cbn [calls omap list_omap].
Qed.

(** showsched ends with 1 without the interface, and otherwise as [cat] does. *)
Theorem showsched_spec {K : Kernel} w :
  exists w', showsched w = ((if ret_of (kernel (tr w) (Stat ADIR)) =? 0
    then Val (ret_of (kernel (Sys (Stat ADIR) (kernel (tr w) (Stat ADIR)) :: tr w) (Command [["cat"; ADIR]] None)))
    else Exit 1), w').
Proof.
  unfold showsched, substitute, printf. mrun. destruct (_ =? 0); mrun; [|by eexists].
  eexists. unfold syscall. by rewrite tr_after.
Qed.

(** ** Two plugins *)

Module ScriptsWitness.
Definition loaded (n : string) : bool := String.eqb n "Linux" || String.eqb n "GSN-EDF".
Definition echo (s : string) : bytes := bytes_of s ++ [newline].

Fixpoint active (t : trace) : string :=
  match t with
  | [] => "Linux"
  | Sys (Redirect p d) _ :: t => if String.eqb p ADIR && loaded (text d) then text d else active t
  | _ :: t => active t
  end.

(** The user picks GSN-EDF. *)
Definition proc : Kernel := fun t c =>
  match c with
  | Substitute (word :: rest) _ =>
      if String.eqb word "cat" then
        Data (if String.eqb (hd ""%string rest) ADIR then echo (active t) else echo "GSN-EDF")
      else if String.eqb word "which" then Data (echo "/usr/bin/dialog")
      else if String.eqb word "mktemp" then Data (echo "/tmp/tmp.1")
      else Succ 0
  | _ => Succ 0
  end.

Lemma loaded_line n : loaded n = true -> one_line n.
Proof. intros [->%String.eqb_eq| ->%String.eqb_eq]%orb_prop; apply (bool_decide_unpack _); by vm_compute. Qed.

Lemma active_loaded t : loaded (active t) = true.
Proof.
  induction t as [|e t IH]; [done|]. destruct e as [[] | | |]; try done.
  cbn [active]. destruct (String.eqb _ _); [|done]. cbn [andb]. by destruct (loaded (text d)) eqn:E.
Qed.

#[export] Instance proc_active : ActivePlugin proc active (fun _ => loaded).
Proof.
  split.
  - intros t. apply loaded_line, active_loaded.
  - done.
  - done.
  - intros t n r Hn. cbn [active]. rewrite (text_line n Hn). done.
  - intros t e He. destruct e as [[] r| | |]; try done. cbn [active].
    destruct (String.eqb_spec path ADIR) as [->|]; [|done]. by destruct (He d r).
Qed.

Lemma proc_cat t words : one_line (output (@kernel proc t (Substitute ("cat" :: words) None))).
Proof.
  unfold output, kernel, proc. cbn [String.eqb Ascii.eqb Bool.eqb]. destruct (String.eqb (hd ""%string words) ADIR).
  - unfold echo. rewrite text_line by apply loaded_line, active_loaded. apply loaded_line, active_loaded.
  - apply (bool_decide_unpack _); by vm_compute.
Qed.

Example setsched_named : (@setsched proc echo ["GSN-EDF"] (mk_world [] 0 0 (fun _ => 0))).1 = Val 0.
Proof. by vm_compute. Qed.

Example setsched_menu : (@setsched proc echo [] (mk_world [] 0 0 (fun _ => 0))).1 = Val 0.
Proof. by vm_compute. Qed.

Example setsched_unknown : (@setsched proc echo ["EDF"] (mk_world [] 0 0 (fun _ => 0))).1 = Exit 1.
Proof. by vm_compute. Qed.

Lemma setsched_spec_witness :
  exists o w', @setsched proc echo ["GSN-EDF"] (mk_world [] 0 0 (fun _ => 0)) = (o, w') /\
    ((exists c, chosen ["GSN-EDF"%string] (tr w') c /\ told active (fun _ => loaded) (mk_world [] 0 0 (fun _ => 0)) w' c o) \/
     "GSN-EDF"%string = ""%string /\ active (tr w') = "Linux"%string /\ (o = Exit 2 \/ o = Exit 0)).
Proof.
  apply (setsched_spec echo active (fun _ => loaded) one_line (fun s Hs => conj Hs eq_refl) ["GSN-EDF"%string]).
  - apply (bool_decide_unpack _). by vm_compute.
  - exact proc_cat.
Defined.
End ScriptsWitness.
